(* ===== verification/_CoqProject ===== *)
-Q . S2P
Prelude.v
Bytes.v
Machine.v
CString.v
CStringSpec.v
Kalloc.v
Vm.v
PageTable.v
VmMap.v
VmUser.v
VmAlloc.v
VmFree.v
VmKernel.v
VmCopy.v
VmAccess.v
Shared.v
Locks.v
LocksSpec.v
Bio.v
BioSpec.v
Log.v
BioAbs.v
LogSpec.v
LogCrash.v
LogTx.v
FsState.v
Screen.v
Fs.v
TxSpec.v
FsDisk.v
FileData.v
FsSpec.v
FsRead.v
Mkfs.v
MkfsSpec.v
MkfsImage.v
FsInv.v
Pipe.v
PipeSpec.v
File.v
FsTx.v
Console.v
ConsoleSpec.v
LineSpec.v
Kbd.v
FileSys.v
Proc.v
Refs.v
Syscall.v
Sysfile.v
FilesOk.v
Exec.v
Trap.v
SyscallSpec.v
ProcSpec.v
Ownership.v
Growth.v
Lifecycle.v
Grep.v
Sh.v
ShSpec.v
Ulib.v
Analysis.v
UserTheorems.v
StorageTheorems.v
DeviceTheorems.v
MemoryTheorems.v
ProcessTheorems.v
Demo.v
FsDemo.v
FsTheorems.v
MkfsTheorems.v
StorageExamples.v
DeviceExamples.v
MemoryExamples.v
ProcessExamples.v
