(* ===== verification/Prelude.v ===== *)
(** * xv6 with memory shared between parent and child

    A model of the kernel in [src/kernel], of the user programs with
    interesting algorithms in [src/user], and theorems about them.

    ** The program

    xv6 is a small Unix for the x86: physical pages ([kalloc.c]), page tables
    ([vm.c]), processes ([proc.c]), locks ([spinlock.c], [sleeplock.c]), a
    file system with a buffer cache and a log ([bio.c], [log.c], [fs.c],
    [file.c], [pipe.c], [sysfile.c], [exec.c]) and devices ([console.c],
    [kbd.c], [uart.c]) behind the trap handler ([trap.c], [syscall.c]).  This
    version adds memory that a process shares with its children:
    [sys_share_data] and [sys_get_data] ([sysfile.c]) keep a table of ten
    named structures in every process, [fork] copies it, and [exec] calls
    [access_shared_memory] ([vm.c]), which maps the parent's pages into the
    child from [SHAREDBASE] on.  [dalle], [liSa] and [coMMa] use it.

    ** How the code is translated

    A C function that changes state is a function [M S A = S -> outcome
    (A * S)]: it returns ([Ret]), stops in [panic] ([Panic]), makes an access
    the hardware would fault or the model does not cover ([Fault]), waits for
    another process ([Blocked]) or runs out of fuel ([NoFuel]).  The theorems
    say of the calls that they return, except where they say "when it
    returns".  [wp m s Q] is total correctness.  Machine integers are [Z] with
    the wrap-around written out ([u32], [u16], [u8], [s32], [s16]).  Physical
    memory is a finite map from addresses to bytes.  A pointer to a [struct
    proc], [buf], [inode] or [file] is the index in its table.  Handlers are
    atomic up to the place where a process leaves the CPU; a call that sleeps
    in the middle returns the point where it goes on ([Sysfile.point],
    [Pipe.progress], [Console.cread]).

    ** The files

    - [Prelude]: outcomes, the monad, [wp], machine integers.  [Bytes]: arrays
      of bytes and little-endian fields.
    - [Machine]: [memlayout.h], [mmu.h], memory, the page walk, kernel loads
      and stores; the class [Linker] has the symbols of [kernel.ld].
      [CString], [CStringSpec]: [string.c].
    - [Kalloc]: [kalloc.c].  [Vm]: [vm.c]; [PageTable], [VmMap], [VmUser],
      [VmAlloc], [VmFree], [VmKernel], [VmCopy], [VmAccess] prove its
      operations.  [Shared]: the shared structures.  [MemoryTheorems] states
      the results: mapping, growing, shrinking, copying and freeing address
      spaces, and that parent and child reach the same bytes.
    - [FileSys]: the calls [proc.c] makes into the file system, as a class with
      laws.  [Proc]: [proc.c].  [Syscall]: [syscall.c] and [sysproc.c].
      [SyscallSpec], [ProcSpec], [Ownership], [Growth], [Lifecycle] prove that
      every page has one owner and every process a live parent along any
      sequence of handlers.  [ProcessTheorems] states the results.
    - [Locks], [LocksSpec]: [spinlock.c] and [sleeplock.c]; mutual exclusion
      over the interleavings of single instructions.
    - [Bio], [BioSpec], [BioAbs]: [bio.c] and [memide.c]; the cache as a view of
      the disk.  [Log], [LogSpec], [LogCrash], [LogTx]: [log.c]; recovery after
      crashes, also during recovery.  [FsState], [Fs], [Pipe], [File],
      [Sysfile], [Exec]: [fs.c], [pipe.c], [file.c], [sysfile.c], [exec.c], all
      functions.  [PipeSpec]: pipes as queues.  [StorageTheorems] states the
      results on locks, cache, log and pipes.
    - [Screen], [Console], [Kbd], [Trap]: [console.c], [uart.c], [kbd.c],
      [trap.c], [syscall] and the rest of [sysproc.c].  [ConsoleSpec]: the
      screen as a terminal.  [LineSpec]: the input buffer as a line editor.
      [DeviceTheorems] states the results on the console, the keyboard and
      returning to user mode.
    - [Grep], [Sh], [Ulib], [Analysis]: [grep.c], the parser of [sh.c],
      [ulib.c] and [printf.c], and [liSa.c], [coMMa.c], [dalle.c], with their
      specifications ([ShSpec] for the parser).  [UserTheorems] states the
      results.
    - [Demo], [MemoryExamples], [ProcessExamples], [StorageExamples],
      [DeviceExamples]: concrete states on which the theorems apply.

    ** Fuel and bounds

    Loops over pages, table entries and buffers recurse on their number.
    [bget] walks a ring of [NBUF] buffers with fuel [NBUF + 1].  [kill_line]
    has [INPUT_BUF + 1], [consoleread_from] [n + 1].  [parsecmd] has four
    times the length of the line and four; [sh_parsecmd_stops] shows that this
    is enough for every line.  [lisa] takes one step a sentence.

    ** What is not modelled

    Assembly and booting, segment descriptors, port and memory-mapped I/O
    ([ide.c], [lapic.c], [ioapic.c], [picirq.c], [mp.c], [uartinit]), the call
    stacks of [getcallerpcs], [procdump], the output of [panic], and the lock
    and interrupt checks of [sched].  The contents of a pipe are kept apart
    from the page that holds them.  A console read through [devsw] that has to
    wait is [Blocked].  The laws of [FileSys] are an interface: the theorems on
    [fork] and [exit] assume them of the file system.  [fs.c] and above are
    translated in full; the theorems on them are those of the layers they are
    built from. *)

From stdpp Require Import base numbers list gmap strings sorting.

From Stdlib Require Import ZifyClasses ZifyBool.

Open Scope Z_scope.

(** [lia] treats quotients and remainders by constants natively. *)
#[global] Ltac Zify.zify_post_hook ::= Z.to_euclidean_division_equations.

(** ** Outcomes and the kernel monad

    Kernel code either returns, stops the machine in [panic], takes a page
    fault in kernel mode (which [trap] turns into a panic), or goes to
    sleep on something that another process must change ([Blocked]).
    Loops that are not structural carry fuel; [NoFuel] is the outcome of a
    loop whose fuel was too small, and the theorems show it does not
    occur. *)

Inductive outcome (A : Type) :=
  | Ret (a : A)
  | Panic (msg : string)
  | Fault (addr : Z)
  | Blocked
  | NoFuel.
Arguments Ret {A} _.
Arguments Panic {A} _.
Arguments Fault {A} _.
Arguments Blocked {A}.
Arguments NoFuel {A}.

Definition M (S A : Type) : Type := S -> outcome (A * S).

#[global] Instance M_ret S : MRet (M S) := fun A a s => Ret (a, s).
#[global] Instance M_bind S : MBind (M S) := fun A B f m s =>
  match m s with
  | Ret (a, s') => f a s'
  | Panic msg => Panic msg
  | Fault a => Fault a
  | Blocked => Blocked
  | NoFuel => NoFuel
  end.

Definition panic {S A} (msg : string) : M S A := fun _ => Panic msg.
Definition fault {S A} (a : Z) : M S A := fun _ => Fault a.
Definition blocked {S A} : M S A := fun _ => Blocked.
Definition nofuel {S A} : M S A := fun _ => NoFuel.
Definition gets {S A} (f : S -> A) : M S A := fun s => Ret (f s, s).
Definition modify {S} (f : S -> S) : M S () := fun s => Ret ((), f s).

(** Running a computation on a part of the state. *)
Definition zoom {S T A} (get : S -> T) (set : T -> S -> S) (m : M T A) : M S A :=
  fun s => match m (get s) with
           | Ret (a, t) => Ret (a, set t s)
           | Panic msg => Panic msg
           | Fault a => Fault a
           | Blocked => Blocked
           | NoFuel => NoFuel
           end.

(** [wp m s Q]: from [s], [m] returns (no panic, no fault, enough fuel)
    and its result and final state satisfy [Q]. *)
Definition wp {S A} (m : M S A) (s : S) (Q : A -> S -> Prop) : Prop :=
  match m s with Ret (a, s') => Q a s' | _ => False end.

Section wp_rules.
Context {S : Type}.

Lemma wp_ret {A} (a : A) (s : S) Q : wp (mret a) s Q <-> Q a s.
Proof. done. Qed.

Lemma wp_bind {A B} (m : M S A) (f : A -> M S B) (s : S) Q :
  wp (m ≫= f) s Q <-> wp m s (fun a s' => wp (f a) s' Q).
Proof. unfold wp, mbind, M_bind. by destruct (m s) as [[a s']| | | |]. Qed.

Lemma wp_mono {A} (m : M S A) (s : S) (P Q : A -> S -> Prop) :
  wp m s P -> (forall a s', P a s' -> Q a s') -> wp m s Q.
Proof. unfold wp. destruct (m s) as [[a s']| | | |]; auto. Qed.

Lemma wp_gets {A} (f : S -> A) (s : S) Q : wp (gets f) s Q <-> Q (f s) s.
Proof. done. Qed.

Lemma wp_modify (f : S -> S) (s : S) Q : wp (modify f) s Q <-> Q () (f s).
Proof. done. Qed.

Lemma wp_run {A} (m : M S A) (s s' : S) (a : A) Q :
  m s = Ret (a, s') -> wp m s Q <-> Q a s'.
Proof. unfold wp. by intros ->. Qed.

Lemma wp_exists {A} (m : M S A) (s : S) Q :
  wp m s Q <-> exists a s', m s = Ret (a, s') /\ Q a s'.
Proof.
  unfold wp. destruct (m s) as [[a s']| | | |]; naive_solver.
Qed.

Lemma wp_conj {A} (m : M S A) (s : S) (P Q : A -> S -> Prop) :
  wp m s P -> wp m s Q -> wp m s (fun a s' => P a s' /\ Q a s').
Proof. unfold wp. destruct (m s) as [[a s']| | | |]; auto. Qed.

Lemma wp_zoom {T A} (get : S -> T) set (m : M T A) (s : S) Q :
  wp (zoom get set m) s Q <-> wp m (get s) (fun a t => Q a (set t s)).
Proof. unfold wp, zoom. by destruct (m (get s)) as [[a t]| | | |]. Qed.
End wp_rules.

Lemma run_bind {S A B} (m : M S A) (f : A -> M S B) s a t : m s = Ret (a, t) -> (m ≫= f) s = f a t.
Proof. unfold mbind, M_bind. by intros ->. Qed.

Ltac wp_step :=
  first [ rewrite wp_bind | rewrite wp_ret | rewrite wp_gets | rewrite wp_modify
        | rewrite wp_zoom ].
Ltac wp_steps := repeat (wp_step; cbn beta iota).

(** ** Integers at their width

    C's [uint], [uchar] and [int] are [Z] with the wrap-around written
    out.  The operations are declared to [lia], which then reasons about
    them through their definitions. *)

Definition u32 (x : Z) : Z := x mod 2 ^ 32.
Definition u16 (x : Z) : Z := x mod 2 ^ 16.
Definition u8 (x : Z) : Z := x mod 2 ^ 8.
Definition s32 (x : Z) : Z := (x + 2 ^ 31) mod 2 ^ 32 - 2 ^ 31.

#[global] Instance UnOp_u32 : UnOp u32 :=
  { TUOp := fun x => x mod 4294967296; TUOpInj := fun _ => eq_refl }.
Add Zify UnOp UnOp_u32.
#[global] Instance UnOp_u16 : UnOp u16 :=
  { TUOp := fun x => x mod 65536; TUOpInj := fun _ => eq_refl }.
Add Zify UnOp UnOp_u16.
#[global] Instance UnOp_u8 : UnOp u8 :=
  { TUOp := fun x => x mod 256; TUOpInj := fun _ => eq_refl }.
Add Zify UnOp UnOp_u8.
#[global] Instance UnOp_s32 : UnOp s32 :=
  { TUOp := fun x => (x + 2147483648) mod 4294967296 - 2147483648;
    TUOpInj := fun _ => eq_refl }.
Add Zify UnOp UnOp_s32.

Lemma u32_id x : 0 <= x < 2 ^ 32 -> u32 x = x.
Proof. lia. Qed.

Lemma u32_range x : 0 <= u32 x < 2 ^ 32.
Proof. lia. Qed.

Lemma u32_u32 x : u32 (u32 x) = u32 x.
Proof. lia. Qed.

(** Masks.  [x & ~(2^k - 1)] clears the low [k] bits, [x & (2^k - 1)]
    keeps them, and or-ing disjoint bit ranges is addition. *)
Lemma land_mask_low k x : 0 <= k -> Z.land x (2 ^ k - 1) = x mod 2 ^ k.
Proof. intros. by rewrite <- Z.land_ones, Z.ones_equiv, <- Z.sub_1_r by lia. Qed.

Lemma land_mask_high k x :
  0 <= k -> Z.land x (Z.lnot (2 ^ k - 1)) = x - x mod 2 ^ k.
Proof.
  intros Hk. rewrite <- Z.ldiff_land.
  replace (2 ^ k - 1) with (Z.ones k) by (rewrite Z.ones_equiv; lia).
  rewrite Z.ldiff_ones_r, Z.shiftl_mul_pow2, Z.shiftr_div_pow2 by lia.
  assert (0 < 2 ^ k) by (apply Z.pow_pos_nonneg; lia).
  pose proof (Z.div_mod x (2 ^ k)). lia.
Qed.

Lemma lor_low_high k x y :
  0 <= k -> x mod 2 ^ k = 0 -> 0 <= y < 2 ^ k -> Z.lor x y = x + y.
Proof.
  intros Hk Hx Hy. rewrite <- Z.add_lor_land.
  enough (Z.land x y = 0) as -> by lia.
  apply Z.bits_inj'. intros n Hn. rewrite Z.land_spec, Z.bits_0.
  destruct (decide (n < k)) as [Hlt|Hge].
  - rewrite <- (Z.mod_pow2_bits_low x k n) by lia. by rewrite Hx, Z.bits_0.
  - rewrite <- (Z.mod_small y (2 ^ k)), Z.mod_pow2_bits_high by lia.
    apply andb_false_r.
Qed.

(** ** Lists *)

Lemma NoDup_fmap_inj {A B} (f : A -> B) l x y :
  NoDup (f <$> l) -> x ∈ l -> y ∈ l -> f x = f y -> x = y.
Proof.
  induction l as [|a l IH]; [set_solver|]. rewrite fmap_cons, NoDup_cons, !elem_of_cons.
  intros [Hn Hnd] [->|Hx] [->|Hy] Heq; try done.
  - exfalso. apply Hn. rewrite Heq. by apply list_elem_of_fmap_2.
  - exfalso. apply Hn. rewrite <- Heq. by apply list_elem_of_fmap_2.
  - by apply IH.
Qed.

(** The pointers of a list that are not NULL. *)
Definition nonzero (l : list Z) : list Z := filter (fun a => a <> 0) l.

Lemma nonzero_cons a l : nonzero (a :: l) = if a =? 0 then nonzero l else a :: nonzero l.
Proof.
  unfold nonzero. rewrite filter_cons. destruct (Z.eqb_spec a 0) as [->|Hne]; [by rewrite decide_False by auto|by rewrite decide_True].
Qed.

Lemma nonzero_app l k : nonzero (l ++ k) = nonzero l ++ nonzero k.
Proof. apply filter_app. Qed.

Lemma nonzero_zeros n : nonzero (replicate n 0) = [].
Proof. induction n as [|n IH]; [done|]. cbn [replicate]. by rewrite nonzero_cons. Qed.

Lemma elem_nonzero a l : a ∈ l -> a <> 0 -> a ∈ nonzero l.
Proof. intros H1 H2. by apply list_elem_of_filter. Qed.

#[export] Instance nonzero_proper : Proper ((≡ₚ) ==> (≡ₚ)) nonzero.
Proof. intros l k H. unfold nonzero. by rewrite H. Qed.
