(* ===== verification/Bytes.v ===== *)
(** * Byte arrays of kernel structures

    Disk blocks and the structures laid over them are lists of bytes.
    [wr] is [memmove] into an array; the little-endian accessors are the
    loads and stores of the fields of a structure laid over it. *)

From stdpp Require Import base numbers list gmap strings.
From Stdlib Require Import ZifyClasses.
From S2P Require Import Prelude.
Open Scope Z_scope.

Definition s16 (x : Z) : Z := (x + 2 ^ 15) mod 2 ^ 16 - 2 ^ 15.
#[global] Instance UnOp_s16 : UnOp s16 :=
  { TUOp := fun x => (x + 32768) mod 65536 - 32768; TUOpInj := fun _ => eq_refl }.
Add Zify UnOp UnOp_s16.

Definition le16 (v : Z) : list Z := [u8 v; u8 (v / 2 ^ 8)].
Definition le32 (v : Z) : list Z := [u8 v; u8 (v / 2 ^ 8); u8 (v / 2 ^ 16); u8 (v / 2 ^ 24)].

Definition rd8 (d : list Z) (k : nat) : Z := nth k d 0.
Definition rd16 (d : list Z) (k : nat) : Z := rd8 d k + 2 ^ 8 * rd8 d (k + 1).
Definition rd32 (d : list Z) (k : nat) : Z :=
  rd8 d k + 2 ^ 8 * rd8 d (k + 1) + 2 ^ 16 * rd8 d (k + 2) + 2 ^ 24 * rd8 d (k + 3).
Definition wr (d : list Z) (k : nat) (l : list Z) : list Z := list_inserts k l d.
Definition wr16 (d : list Z) (k : nat) (v : Z) : list Z := wr d k (le16 v).
Definition wr32 (d : list Z) (k : nat) (v : Z) : list Z := wr d k (le32 v).
Definition sub (d : list Z) (k n : nat) : list Z := take n (drop k d).

(** The characters of a string literal. *)
Definition chars (s : string) : list Z :=
  (fun c => Z.of_N (Ascii.N_of_ascii c)) <$> String.list_ascii_of_string s.

(** The elements of a list are bytes. *)
Definition bytes (d : list Z) : Prop := Forall (fun b => 0 <= b < 256) d.

Lemma length_wr d k l : length (wr d k l) = length d.
Proof. apply length_inserts. Qed.
Lemma length_wr16 d k v : length (wr16 d k v) = length d.
Proof. apply length_wr. Qed.
Lemma length_wr32 d k v : length (wr32 d k v) = length d.
Proof. apply length_wr. Qed.
Lemma length_sub d k n : (k + n <= length d)%nat -> length (sub d k n) = n.
Proof. intros. unfold sub. rewrite length_take, length_drop. lia. Qed.

Lemma nth_lookup_default (d : list Z) k : nth k d 0 = default 0 (d !! k).
Proof. by rewrite nth_lookup. Qed.

Lemma rd8_wr_in d k l i : (k <= i < k + length l)%nat -> (k + length l <= length d)%nat ->
  rd8 (wr d k l) i = rd8 l (i - k).
Proof. intros H1 H2. unfold rd8. rewrite !nth_lookup. unfold wr. rewrite list_lookup_inserts by lia. done. Qed.

Lemma rd8_wr_out d k l i : (i < k \/ k + length l <= i)%nat -> rd8 (wr d k l) i = rd8 d i.
Proof.
  intros [H|H]; unfold rd8; rewrite !nth_lookup; unfold wr;
    [by rewrite list_lookup_inserts_lt|by rewrite list_lookup_inserts_ge].
Qed.

Lemma rd16_wr_out d k l i : (i + 2 <= k \/ k + length l <= i)%nat -> rd16 (wr d k l) i = rd16 d i.
Proof. intros H. unfold rd16. rewrite !rd8_wr_out by lia. done. Qed.

Lemma rd32_wr_out d k l i : (i + 4 <= k \/ k + length l <= i)%nat -> rd32 (wr d k l) i = rd32 d i.
Proof. intros H. unfold rd32. rewrite !rd8_wr_out by lia. done. Qed.

Lemma rd16_wr16 d k v : (k + 2 <= length d)%nat -> rd16 (wr16 d k v) k = u16 v.
Proof.
  intros H. unfold rd16, wr16. rewrite !rd8_wr_in by (cbn; lia).
  replace (k - k)%nat with 0%nat by lia. replace (k + 1 - k)%nat with 1%nat by lia. cbn. lia.
Qed.

Lemma rd32_wr32 d k v : (k + 4 <= length d)%nat -> rd32 (wr32 d k v) k = u32 v.
Proof.
  intros H. unfold rd32, wr32. rewrite !rd8_wr_in by (cbn; lia).
  replace (k - k)%nat with 0%nat by lia. replace (k + 1 - k)%nat with 1%nat by lia.
  replace (k + 2 - k)%nat with 2%nat by lia. replace (k + 3 - k)%nat with 3%nat by lia. cbn. lia.
Qed.

Lemma rd8_range d k : bytes d -> 0 <= rd8 d k < 256.
Proof.
  intros H. unfold rd8. destruct (nth_in_or_default k d 0) as [Hin| ->]; [|lia].
  apply list_elem_of_In in Hin. by eapply Forall_forall in Hin; [|exact H].
Qed.

Lemma rd16_range d k : bytes d -> 0 <= rd16 d k < 2 ^ 16.
Proof. intros H. unfold rd16. pose proof (rd8_range d k H). pose proof (rd8_range d (k + 1) H). lia. Qed.

Lemma rd32_range d k : bytes d -> 0 <= rd32 d k < 2 ^ 32.
Proof.
  intros H. unfold rd32. pose proof (rd8_range d k H). pose proof (rd8_range d (k + 1) H).
  pose proof (rd8_range d (k + 2) H). pose proof (rd8_range d (k + 3) H). lia.
Qed.

Lemma bytes_wr d k l : bytes d -> bytes l -> bytes (wr d k l).
Proof.
  intros Hd Hl. apply Forall_lookup. intros i x Hx.
  destruct (decide (k <= i < k + length l)%nat) as [Hin|Hout].
  - unfold wr in Hx. destruct (decide (i < length d)%nat) as [Hlt|Hge].
    + rewrite list_lookup_inserts in Hx by done. exact (Forall_lookup_1 _ _ _ _ Hl Hx).
    + apply lookup_lt_Some in Hx. rewrite length_inserts in Hx. lia.
  - unfold wr in Hx. destruct (decide (i < k)%nat).
    + rewrite list_lookup_inserts_lt in Hx by lia. exact (Forall_lookup_1 _ _ _ _ Hd Hx).
    + rewrite list_lookup_inserts_ge in Hx by lia. exact (Forall_lookup_1 _ _ _ _ Hd Hx).
Qed.

Lemma bytes_le16 v : bytes (le16 v).
Proof. repeat constructor; lia. Qed.
Lemma bytes_le32 v : bytes (le32 v).
Proof. repeat constructor; lia. Qed.

(** Reading back what was written, and around it. *)
Lemma lookup_wr d k l i : (k + length l <= length d)%nat ->
  wr d k l !! i = if decide (k <= i < k + length l)%nat then l !! (i - k)%nat else d !! i.
Proof.
  intros H. unfold wr. destruct (decide (k <= i < k + length l)%nat) as [Hin|Hout].
  - apply list_lookup_inserts; lia.
  - destruct (decide (i < k)%nat); [by apply list_lookup_inserts_lt|apply list_lookup_inserts_ge; lia].
Qed.

Lemma sub_wr d k l : (k + length l <= length d)%nat -> sub (wr d k l) k (length l) = l.
Proof.
  intros H. apply list_eq. intros i. unfold sub. destruct (decide (i < length l)%nat) as [Hi|Hi].
  - rewrite lookup_take_lt, lookup_drop, lookup_wr, decide_True by lia. f_equal. lia.
  - rewrite lookup_take_ge by lia. symmetry. apply lookup_ge_None. lia.
Qed.

Lemma wr_split d k l : (k + length l <= length d)%nat -> wr d k l = take k d ++ l ++ drop (k + length l) d.
Proof.
  intros H. apply list_eq. intros i. rewrite lookup_wr by done.
  destruct (decide (k <= i < k + length l)%nat) as [Hin|Hout].
  - rewrite lookup_app_r, length_take_le, lookup_app_l by (rewrite ?length_take_le; lia). done.
  - destruct (decide (i < k)%nat).
    + rewrite lookup_app_l by (rewrite length_take_le; lia). by rewrite lookup_take_lt by lia.
    + rewrite lookup_app_r, length_take_le, lookup_app_r, lookup_drop by (rewrite ?length_take_le; lia).
      f_equal. lia.
Qed.

Lemma wr_all d l : length l = length d -> wr d 0 l = l.
Proof. intros H. rewrite wr_split by lia. rewrite drop_ge by lia. by rewrite app_nil_r. Qed.
