(* ===== verification/Machine.v ===== *)
(** * The machine: physical memory, paging hardware, kernel loads and stores

    Constants of [kernel/param.h], [kernel/memlayout.h] and
    [kernel/mmu.h]; byte-addressed physical memory; the two-level page
    walk of the x86 MMU; and the loads and stores the kernel performs.

    Physical memory is keyed by the address at which the kernel sees it,
    [P2V pa]: every page table maps [KERNBASE..KERNBASE+PHYSTOP) to
    [0..PHYSTOP) (see [kmap] in [vm.c]). *)

From S2P Require Import Prelude.
From Stdlib Require Import ZifyClasses.
From stdpp Require Import base numbers list gmap strings.
Open Scope Z_scope.

(** ** Constants *)

Definition NPROC : Z := 64.
Definition KSTACKSIZE : Z := 4096.
Definition NOFILE : Z := 16.
Definition EXTMEM : Z := 0x100000.
Definition PHYSTOP : Z := 0xE000000.
Definition DEVSPACE : Z := 0xFE000000.
Definition KERNBASE : Z := 0x80000000.
Definition SHAREDBASE : Z := 0x40000000.
Definition KERNLINK : Z := 0x80100000.
Definition NPDENTRIES : Z := 1024.
Definition PGSIZE : Z := 4096.
Definition PTE_P : Z := 0x001.
Definition PTE_W : Z := 0x002.
Definition PTE_U : Z := 0x004.

#[global] Instance CstOp_EXTMEM : CstOp EXTMEM := { TCst := 1048576; TCstInj := eq_refl }.
Add Zify CstOp CstOp_EXTMEM.
#[global] Instance CstOp_PHYSTOP : CstOp PHYSTOP := { TCst := 234881024; TCstInj := eq_refl }.
Add Zify CstOp CstOp_PHYSTOP.
#[global] Instance CstOp_DEVSPACE : CstOp DEVSPACE := { TCst := 4261412864; TCstInj := eq_refl }.
Add Zify CstOp CstOp_DEVSPACE.
#[global] Instance CstOp_KERNBASE : CstOp KERNBASE := { TCst := 2147483648; TCstInj := eq_refl }.
Add Zify CstOp CstOp_KERNBASE.
#[global] Instance CstOp_SHAREDBASE : CstOp SHAREDBASE := { TCst := 1073741824; TCstInj := eq_refl }.
Add Zify CstOp CstOp_SHAREDBASE.
#[global] Instance CstOp_KERNLINK : CstOp KERNLINK := { TCst := 2148532224; TCstInj := eq_refl }.
Add Zify CstOp CstOp_KERNLINK.
#[global] Instance CstOp_PGSIZE : CstOp PGSIZE := { TCst := 4096; TCstInj := eq_refl }.
Add Zify CstOp CstOp_PGSIZE.
#[global] Instance CstOp_NPDENTRIES : CstOp NPDENTRIES := { TCst := 1024; TCstInj := eq_refl }.
Add Zify CstOp CstOp_NPDENTRIES.
#[global] Instance CstOp_PTE_P : CstOp PTE_P := { TCst := 1; TCstInj := eq_refl }.
Add Zify CstOp CstOp_PTE_P.
#[global] Instance CstOp_PTE_W : CstOp PTE_W := { TCst := 2; TCstInj := eq_refl }.
Add Zify CstOp CstOp_PTE_W.
#[global] Instance CstOp_PTE_U : CstOp PTE_U := { TCst := 4; TCstInj := eq_refl }.
Add Zify CstOp CstOp_PTE_U.

(** [sizeof(struct proc)]: 12 words, 16 open files, [name[16]] and ten
    shared structures of 20 bytes. *)
Definition SIZEOF_PROC : Z := 4 * 12 + 4 * NOFILE + 16 + 10 * 20.

(** Symbols the linker script [kernel.ld] defines, and addresses of kernel
    functions and variables the code stores or compares. *)
Class Linker := {
  ld_data : Z;
  ld_end : Z;
  ld_data_aligned : ld_data mod PGSIZE = 0;
  ld_data_range : KERNLINK < ld_data;
  ld_end_range : ld_data <= ld_end < KERNBASE + PHYSTOP;
  ld_forkret : Z;
  ld_trapret : Z;
  ld_ptable : Z;
  ld_ticks : Z;
  ld_ptable_range : ld_data <= ld_ptable /\ ld_ptable + NPROC * SIZEOF_PROC <= ld_end;
  ld_ticks_range : ld_data <= ld_ticks < ld_end /\
    ~ ld_ptable <= ld_ticks < ld_ptable + NPROC * SIZEOF_PROC }.

(** ** Address arithmetic ([memlayout.h], [mmu.h]) *)

Definition V2P (a : Z) : Z := u32 (a - KERNBASE).
Definition P2V (a : Z) : Z := u32 (a + KERNBASE).
Definition PDX (va : Z) : Z := Z.land (Z.shiftr (u32 va) 22) 0x3FF.
Definition PTX (va : Z) : Z := Z.land (Z.shiftr (u32 va) 12) 0x3FF.
Definition PGADDR (d t o : Z) : Z :=
  u32 (Z.lor (Z.lor (Z.shiftl d 22) (Z.shiftl t 12)) o).
Definition PGROUNDUP (sz : Z) : Z := Z.land (u32 (sz + PGSIZE - 1)) (Z.lnot (PGSIZE - 1)).
Definition PGROUNDDOWN (a : Z) : Z := Z.land (u32 a) (Z.lnot (PGSIZE - 1)).
Definition PTE_ADDR (pte : Z) : Z := Z.land (u32 pte) (Z.lnot 0xFFF).
Definition PTE_FLAGS (pte : Z) : Z := Z.land (u32 pte) 0xFFF.

(** [x & flag] used as a condition. *)
Definition flag_set (x flag : Z) : bool := negb (Z.land x flag =? 0).

(** ** Memory *)

Definition ld8 (m : gmap Z Z) (a : Z) : Z := u8 (default 0 (m !! a)).
Definition st8 (m : gmap Z Z) (a v : Z) : gmap Z Z := <[a := u8 v]> m.
Definition ld32 (m : gmap Z Z) (a : Z) : Z :=
  ld8 m a + 2 ^ 8 * ld8 m (a + 1) + 2 ^ 16 * ld8 m (a + 2) + 2 ^ 24 * ld8 m (a + 3).
Definition st32 (m : gmap Z Z) (a v : Z) : gmap Z Z :=
  st8 (st8 (st8 (st8 m a v) (a + 1) (Z.shiftr v 8)) (a + 2) (Z.shiftr v 16))
      (a + 3) (Z.shiftr v 24).

(** State of the memory subsystem: physical memory, the page-table base
    register [%cr3] and the allocator's [kmem] of [kalloc.c]. *)
Record machine := Machine {
  mem : gmap Z Z;
  cr3 : Z;
  freelist : Z;
  use_lock : bool }.

Definition set_mem (m : gmap Z Z) (s : machine) : machine :=
  Machine m (cr3 s) (freelist s) (use_lock s).
Definition set_cr3 (c : Z) (s : machine) : machine :=
  Machine (mem s) c (freelist s) (use_lock s).
Definition set_freelist (f : Z) (s : machine) : machine :=
  Machine (mem s) (cr3 s) f (use_lock s).
Definition set_use_lock (b : bool) (s : machine) : machine :=
  Machine (mem s) (cr3 s) (freelist s) b.

Definition in_ram (a : Z) : bool := (KERNBASE <=? a) && (a <? KERNBASE + PHYSTOP).

(** The hardware page walk from the directory at physical address [c].
    The kernel runs with CR0.WP set (entry.S), so its writes also need
    PTE_W at both levels; PTE_U restricts user code only. *)
Definition mmu (m : gmap Z Z) (c va : Z) (write : bool) : option Z :=
  let pde := ld32 m (c + KERNBASE + 4 * PDX va) in
  let pte := ld32 m (PTE_ADDR pde + KERNBASE + 4 * PTX va) in
  let a := PTE_ADDR pte + KERNBASE + va mod PGSIZE in
  if flag_set pde PTE_P && in_ram (PTE_ADDR pde + KERNBASE) && flag_set pte PTE_P
     && (negb write || (flag_set pde PTE_W && flag_set pte PTE_W)) && in_ram a
  then Some a else None.

(** Where a kernel access to virtual address [a] lands: the direct map
    above KERNBASE, the current page table below. *)
Definition kaddr (s : machine) (a : Z) (write : bool) : option Z :=
  if in_ram a then Some a
  else if (0 <=? a) && (a <? KERNBASE) then mmu (mem s) (cr3 s) a write
  else None.

Definition load8 (a : Z) : M machine Z := fun s =>
  match kaddr s a false with
  | Some k => Ret (ld8 (mem s) k, s)
  | None => Fault a
  end.

Definition store8 (a v : Z) : M machine () := fun s =>
  match kaddr s a true with
  | Some k => Ret ((), set_mem (st8 (mem s) k v) s)
  | None => Fault a
  end.

Definition load32 (a : Z) : M machine Z :=
  b0 ← load8 a; b1 ← load8 (a + 1); b2 ← load8 (a + 2); b3 ← load8 (a + 3);
  mret (b0 + 2 ^ 8 * b1 + 2 ^ 16 * b2 + 2 ^ 24 * b3).

Definition store32 (a v : Z) : M machine () :=
  _ ← store8 a v; _ ← store8 (a + 1) (Z.shiftr v 8);
  _ ← store8 (a + 2) (Z.shiftr v 16); store8 (a + 3) (Z.shiftr v 24).

Definition store16 (a v : Z) : M machine () :=
  _ ← store8 a v; store8 (a + 1) (Z.shiftr v 8).

Definition lcr3 (v : Z) : M machine () := modify (set_cr3 v).

(** ** Arithmetic of addresses, declared to [lia] *)

Lemma V2P_spec a : V2P a = (a - 2147483648) mod 4294967296.
Proof. unfold V2P. lia. Qed.
Lemma P2V_spec a : P2V a = (a + 2147483648) mod 4294967296.
Proof. unfold P2V. lia. Qed.
Lemma PDX_spec va : PDX va = va mod 4294967296 / 4194304.
Proof.
  unfold PDX. change 0x3FF with (2 ^ 10 - 1).
  rewrite land_mask_low, Z.shiftr_div_pow2 by lia. lia.
Qed.
Lemma PTX_spec va : PTX va = (va mod 4294967296 / 4096) mod 1024.
Proof.
  unfold PTX. change 0x3FF with (2 ^ 10 - 1).
  rewrite land_mask_low, Z.shiftr_div_pow2 by lia. lia.
Qed.
Lemma PGROUNDUP_spec a :
  PGROUNDUP a = (a + 4095) mod 4294967296 - ((a + 4095) mod 4294967296) mod 4096.
Proof.
  unfold PGROUNDUP. change (PGSIZE - 1) with (2 ^ 12 - 1).
  rewrite land_mask_high by lia. lia.
Qed.
Lemma PGROUNDDOWN_spec a :
  PGROUNDDOWN a = a mod 4294967296 - (a mod 4294967296) mod 4096.
Proof.
  unfold PGROUNDDOWN. change (PGSIZE - 1) with (2 ^ 12 - 1).
  rewrite land_mask_high by lia. lia.
Qed.
Lemma PTE_ADDR_spec a : PTE_ADDR a = a mod 4294967296 - (a mod 4294967296) mod 4096.
Proof. unfold PTE_ADDR. change 0xFFF with (2 ^ 12 - 1). rewrite land_mask_high by lia. lia. Qed.
Lemma PTE_FLAGS_spec a : PTE_FLAGS a = a mod 4096.
Proof. unfold PTE_FLAGS. change 0xFFF with (2 ^ 12 - 1). rewrite land_mask_low by lia. lia. Qed.

#[global] Instance UnOp_V2P : UnOp V2P :=
  { TUOp := fun a => (a - 2147483648) mod 4294967296; TUOpInj := V2P_spec }.
Add Zify UnOp UnOp_V2P.
#[global] Instance UnOp_P2V : UnOp P2V :=
  { TUOp := fun a => (a + 2147483648) mod 4294967296; TUOpInj := P2V_spec }.
Add Zify UnOp UnOp_P2V.
#[global] Instance UnOp_PDX : UnOp PDX :=
  { TUOp := fun a => a mod 4294967296 / 4194304; TUOpInj := PDX_spec }.
Add Zify UnOp UnOp_PDX.
#[global] Instance UnOp_PTX : UnOp PTX :=
  { TUOp := fun a => (a mod 4294967296 / 4096) mod 1024; TUOpInj := PTX_spec }.
Add Zify UnOp UnOp_PTX.
#[global] Instance UnOp_PGROUNDUP : UnOp PGROUNDUP :=
  { TUOp := fun a => (a + 4095) mod 4294967296 - ((a + 4095) mod 4294967296) mod 4096; TUOpInj := PGROUNDUP_spec }.
Add Zify UnOp UnOp_PGROUNDUP.
#[global] Instance UnOp_PGROUNDDOWN : UnOp PGROUNDDOWN :=
  { TUOp := fun a => a mod 4294967296 - (a mod 4294967296) mod 4096; TUOpInj := PGROUNDDOWN_spec }.
Add Zify UnOp UnOp_PGROUNDDOWN.
#[global] Instance UnOp_PTE_ADDR : UnOp PTE_ADDR :=
  { TUOp := fun a => a mod 4294967296 - (a mod 4294967296) mod 4096; TUOpInj := PTE_ADDR_spec }.
Add Zify UnOp UnOp_PTE_ADDR.
#[global] Instance UnOp_PTE_FLAGS : UnOp PTE_FLAGS :=
  { TUOp := fun a => a mod 4096; TUOpInj := PTE_FLAGS_spec }.
Add Zify UnOp UnOp_PTE_FLAGS.

Lemma in_ram_true a : in_ram a = true <-> KERNBASE <= a < KERNBASE + PHYSTOP.
Proof. unfold in_ram. rewrite andb_true_iff, Z.leb_le, Z.ltb_lt. lia. Qed.

(** Flag bits of an entry built as [pa | perm | PTE_P]. *)
Lemma flag_set_P x : flag_set x PTE_P = (x mod 2 =? 1).
Proof.
  unfold flag_set. change PTE_P with (2 ^ 1 - 1). rewrite land_mask_low by lia.
  assert (x mod 2 = 0 \/ x mod 2 = 1) as [H|H] by lia.
  all: change (2 ^ 1) with 2; by rewrite H.
Qed.

Lemma lor_P_id f : f mod 2 = 1 -> Z.lor f PTE_P = f.
Proof.
  intros Hf. assert (Z.lor (f - 1) 1 = f) as H by (rewrite (lor_low_high 1) by lia; lia).
  rewrite <- H at 1. by rewrite <- Z.lor_assoc.
Qed.

(** The flags of an entry are in its low 12 bits. *)
Lemma land_FLAGS x f : 0 <= f < 4096 -> Z.land (PTE_FLAGS x) f = Z.land x f.
Proof.
  intros Hf. unfold PTE_FLAGS, u32. rewrite <- (Z.land_ones x 32), <- !Z.land_assoc by lia.
  f_equal. rewrite (Z.land_comm 0xFFF f). change 0xFFF with (Z.ones 12).
  rewrite Z.land_ones, Z.land_comm, Z.land_ones by lia. lia.
Qed.

Lemma flag_set_flags x y f : 0 <= f < 4096 -> PTE_FLAGS x = PTE_FLAGS y -> flag_set x f = flag_set y f.
Proof. intros Hf H. unfold flag_set. by rewrite <- (land_FLAGS x), <- (land_FLAGS y), H. Qed.

Lemma PGADDR_next d : 0 <= d < 1024 -> PGADDR (d + 1) 0 0 = u32 ((d + 1) * 4194304).
Proof.
  intros. unfold PGADDR.
  rewrite Z.shiftl_0_l, !Z.lor_0_r, Z.shiftl_mul_pow2 by lia. lia.
Qed.

(** ** Memory lemmas *)

Lemma ld8_range m a : 0 <= ld8 m a < 256.
Proof. unfold ld8. lia. Qed.

Lemma ld8_st8_eq m a v : ld8 (st8 m a v) a = u8 v.
Proof. unfold ld8, st8. rewrite lookup_insert_eq. simpl. lia. Qed.

Lemma ld8_st8_ne m a b v : a <> b -> ld8 (st8 m a v) b = ld8 m b.
Proof. intros. unfold ld8, st8. by rewrite lookup_insert_ne. Qed.

Lemma ld32_range m a : 0 <= ld32 m a < 2 ^ 32.
Proof.
  unfold ld32. pose proof (ld8_range m a). pose proof (ld8_range m (a + 1)).
  pose proof (ld8_range m (a + 2)). pose proof (ld8_range m (a + 3)). lia.
Qed.

Lemma ld8_st32_ne m a v b : ~ a <= b < a + 4 -> ld8 (st32 m a v) b = ld8 m b.
Proof. intros. unfold st32. rewrite !ld8_st8_ne by lia. done. Qed.

Lemma ld32_st32_eq m a v : ld32 (st32 m a v) a = u32 v.
Proof.
  unfold ld32, st32.
  repeat first [rewrite ld8_st8_eq | rewrite ld8_st8_ne by lia].
  rewrite !Z.shiftr_div_pow2 by lia. lia.
Qed.

Lemma ld32_ext m m' a :
  (forall i, 0 <= i < 4 -> ld8 m' (a + i) = ld8 m (a + i)) -> ld32 m' a = ld32 m a.
Proof.
  intros H. unfold ld32. pose proof (H 0) as H0. rewrite Z.add_0_r in H0.
  rewrite H0, (H 1), (H 2), (H 3) by lia. done.
Qed.

Lemma ld32_st32_ne m a v b :
  a + 4 <= b \/ b + 4 <= a -> ld32 (st32 m a v) b = ld32 m b.
Proof. intros. apply ld32_ext. intros. apply ld8_st32_ne. lia. Qed.

(** ** Kernel accesses through the direct map *)

Lemma kaddr_ram s a w : KERNBASE <= a < KERNBASE + PHYSTOP -> kaddr s a w = Some a.
Proof. intros H. unfold kaddr. by rewrite (proj2 (in_ram_true a)). Qed.

Lemma load8_ram s a :
  KERNBASE <= a < KERNBASE + PHYSTOP -> load8 a s = Ret (ld8 (mem s) a, s).
Proof. intros. unfold load8. by rewrite kaddr_ram. Qed.

Lemma store8_ram s a v :
  KERNBASE <= a < KERNBASE + PHYSTOP -> store8 a v s = Ret ((), set_mem (st8 (mem s) a v) s).
Proof. intros. unfold store8. by rewrite kaddr_ram. Qed.

Lemma load32_ram s a :
  KERNBASE <= a -> a + 4 <= KERNBASE + PHYSTOP -> load32 a s = Ret (ld32 (mem s) a, s).
Proof.
  intros. unfold load32, mbind, M_bind. rewrite load8_ram by lia.
  rewrite load8_ram by lia. rewrite load8_ram by lia. by rewrite load8_ram by lia.
Qed.

Lemma store32_ram s a v :
  KERNBASE <= a -> a + 4 <= KERNBASE + PHYSTOP ->
  store32 a v s = Ret ((), set_mem (st32 (mem s) a v) s).
Proof.
  intros. unfold store32, mbind, M_bind. rewrite store8_ram by lia.
  rewrite store8_ram by lia. rewrite store8_ram by lia. by rewrite store8_ram by lia.
Qed.

Lemma wp_load32 s a Q :
  KERNBASE <= a -> a + 4 <= KERNBASE + PHYSTOP ->
  wp (load32 a) s Q <-> Q (ld32 (mem s) a) s.
Proof. intros. apply wp_run. by apply load32_ram. Qed.

Lemma wp_store32 s a v Q :
  KERNBASE <= a -> a + 4 <= KERNBASE + PHYSTOP ->
  wp (store32 a v) s Q <-> Q () (set_mem (st32 (mem s) a v) s).
Proof. intros. apply wp_run. by apply store32_ram. Qed.

Lemma wp_load8 s a Q :
  KERNBASE <= a < KERNBASE + PHYSTOP -> wp (load8 a) s Q <-> Q (ld8 (mem s) a) s.
Proof. intros. apply wp_run. by apply load8_ram. Qed.

Lemma wp_store8 s a v Q :
  KERNBASE <= a < KERNBASE + PHYSTOP ->
  wp (store8 a v) s Q <-> Q () (set_mem (st8 (mem s) a v) s).
Proof. intros. apply wp_run. by apply store8_ram. Qed.

(** [s'] differs from [s] in its memory only. *)
Definition only_mem (s s' : machine) : Prop := s' = set_mem (mem s') s.

#[global] Instance only_mem_preorder : PreOrder only_mem.
Proof.
  split; [by intros []|]. intros [] [] []. unfold only_mem, set_mem. simpl.
  intros [= <- <- <-] [= <- <- <-]. done.
Qed.

Lemma only_mem_set_mem m s : only_mem s (set_mem m s).
Proof. done. Qed.
#[global] Hint Resolve only_mem_set_mem : core.

(** ** Framing by pages *)

Definition page_of (a : Z) : Z := a - a mod PGSIZE.

#[global] Instance UnOp_page_of : UnOp page_of :=
  { TUOp := fun a => a - a mod 4096; TUOpInj := fun _ => eq_refl }.
Add Zify UnOp UnOp_page_of.

(** [m'] agrees with [m] outside the pages of [X]. *)
Definition frame (X : gset Z) (m m' : gmap Z Z) : Prop :=
  forall a, page_of a ∉ X -> ld8 m' a = ld8 m a.

Lemma frame_refl X m : frame X m m.
Proof. done. Qed.

Lemma frame_trans X m1 m2 m3 : frame X m1 m2 -> frame X m2 m3 -> frame X m1 m3.
Proof. intros H1 H2 a Ha. rewrite H2, H1; done. Qed.

Lemma frame_mono X Y m m' : frame X m m' -> X ⊆ Y -> frame Y m m'.
Proof. intros H HXY a Ha. apply H. set_solver. Qed.

Lemma frame_ld32 X m m' a :
  frame X m m' -> a mod 4 = 0 -> page_of a ∉ X -> ld32 m' a = ld32 m a.
Proof.
  intros H Ha HX. apply ld32_ext. intros i Hi. apply H.
  by replace (page_of (a + i)) with (page_of a) by lia.
Qed.

Lemma frame_st32 X m a v :
  a mod 4 = 0 -> page_of a ∈ X -> frame X m (st32 m a v).
Proof.
  intros Ha HX b Hb. apply ld8_st32_ne. intros Hin.
  apply Hb. by replace (page_of b) with (page_of a) by lia.
Qed.
#[global] Hint Resolve frame_refl : core.

Lemma only_mem_fields s s' :
  only_mem s s' -> freelist s' = freelist s /\ cr3 s' = cr3 s /\ use_lock s' = use_lock s.
Proof. intros H. by rewrite H. Qed.
