(* ===== verification/CString.v ===== *)
(** * [kernel/string.c]

    Memory routines over the machine's memory, and string routines over
    a C string read character by character.  A [const char *] argument is
    modelled by its reader, the computation that loads its [i]-th
    character: user strings are read through the page table, fields of
    kernel structures from the structure.  Characters are the bytes
    0..255 ([*p == *q] on [char] is equality of bytes). *)

From S2P Require Import Prelude Machine.
From stdpp Require Import base numbers list gmap strings.
Open Scope Z_scope.

(** ** Memory routines *)

(** [rep stosb] and [rep stosl] of [x86.h]. *)
Fixpoint stosb (addr data : Z) (cnt : nat) : M machine () :=
  match cnt with
  | O => mret ()
  | S k => _ ← store8 addr data; stosb (addr + 1) data k
  end.

Fixpoint stosl (addr data : Z) (cnt : nat) : M machine () :=
  match cnt with
  | O => mret ()
  | S k => _ ← store32 addr data; stosl (addr + 4) data k
  end.

Definition memset (dst c n : Z) : M machine () :=
  if (s32 dst mod 4 =? 0) && (n mod 4 =? 0) then
    let c := Z.land c 0xFF in
    stosl dst (Z.lor (Z.lor (Z.lor (Z.shiftl c 24) (Z.shiftl c 16)) (Z.shiftl c 8)) c)
          (Z.to_nat (n / 4))
  else stosb dst c (Z.to_nat n).

Fixpoint memcmp (s1 s2 : Z) (n : nat) : M machine Z :=
  match n with
  | O => mret 0
  | S k =>
      c1 ← load8 s1; c2 ← load8 s2;
      if negb (c1 =? c2) then mret (c1 - c2) else memcmp (s1 + 1) (s2 + 1) k
  end.

(** [while(n-- > 0) *--d = *--s;] *)
Fixpoint copy_down (d s : Z) (n : nat) : M machine () :=
  match n with
  | O => mret ()
  | S k => c ← load8 (s - 1); _ ← store8 (d - 1) c; copy_down (d - 1) (s - 1) k
  end.

(** [while(n-- > 0) *d++ = *s++;] *)
Fixpoint copy_up (d s : Z) (n : nat) : M machine () :=
  match n with
  | O => mret ()
  | S k => c ← load8 s; _ ← store8 d c; copy_up (d + 1) (s + 1) k
  end.

Definition memmove (dst src n : Z) : M machine () :=
  if (src <? dst) && (dst <? u32 (src + n)) then
    copy_down (dst + n) (src + n) (Z.to_nat n)
  else copy_up dst src (Z.to_nat n).

(** ** String routines *)

Section strings.
Context {S : Type}.
Implicit Types p q t : Z -> M S Z.

(** Advance a [char *] by one. *)
Definition next p : Z -> M S Z := fun i => p (i + 1).

Fixpoint strncmp p q (n : nat) : M S Z :=
  match n with
  | O => mret 0
  | Datatypes.S k =>
      a ← p 0;
      b ← q 0;
      if negb (a =? 0) && (a =? b) then strncmp (next p) (next q) k
      else mret (a - b)
  end.

(** The [n] bytes [strncpy] writes at its destination. *)
Fixpoint strncpy t (n : nat) : M S (list Z) :=
  match n with
  | O => mret []
  | Datatypes.S k =>
      c ← t 0;
      if c =? 0 then mret (c :: replicate k 0)
      else r ← strncpy (next t) k; mret (c :: r)
  end.

(** [safestrcpy] overwrites a prefix of the buffer [s]. *)
Fixpoint safestrcpy_loop (s : list Z) (i : nat) t (n : nat) : M S (list Z) :=
  match n with
  | O => mret (<[i := 0]> s)
  | Datatypes.S k =>
      c ← t 0;
      let s := <[i := c]> s in
      if c =? 0 then mret (<[(i + 1)%nat := 0]> s)
      else safestrcpy_loop s (i + 1) (next t) k
  end.

Definition safestrcpy (s : list Z) t (n : Z) : M S (list Z) :=
  if n <=? 0 then mret s else safestrcpy_loop s 0 t (Z.to_nat (n - 1)).

(** [strlen] scans up to the first NUL; the fuel bounds the scan. *)
Fixpoint strlen (fuel : nat) (s : Z -> M S Z) : M S Z :=
  match fuel with
  | O => nofuel
  | Datatypes.S k =>
      c ← s 0;
      if c =? 0 then mret 0 else n ← strlen k (next s); mret (n + 1)
  end.

(** Reader of a character array held in a kernel structure. *)
Definition arr (l : list Z) : Z -> M S Z := fun i => mret (nth (Z.to_nat i) l 0).
End strings.

(** Reader of a string in memory. *)
Definition at_addr (p : Z) : Z -> M machine Z := fun i => load8 (p + i).

(** ** What the memory routines compute *)

Definition ram_range (a n : Z) : Prop :=
  KERNBASE <= a /\ 0 <= n /\ a + n <= KERNBASE + PHYSTOP.

(** The bytes [a .. a+n) hold [f 0 .. f (n-1)]; the others are unchanged. *)
Definition wrote (m m' : gmap Z Z) (a n : Z) (f : Z -> Z) : Prop :=
  forall b, ld8 m' b = if (a <=? b) && (b <? a + n) then f (b - a) else ld8 m b.

Ltac wrote_case :=
  repeat match goal with |- context [if ?c then _ else _] => destruct c eqn:? end;
  try lia.

Lemma stosb_ram c n : forall s a, ram_range a (Z.of_nat n) ->
  wp (stosb a c n) s (fun _ s' => only_mem s s' /\
    wrote (mem s) (mem s') a (Z.of_nat n) (fun _ => u8 c)).
Proof.
  induction n as [|n IH]; intros s a Ha.
  - split; [done|]. intros b. wrote_case.
  - cbn [stosb]. unfold ram_range in *. rewrite wp_bind, wp_store8 by lia.
    eapply wp_mono; [apply IH; lia|]. intros _ s' [Hs Hw]. split.
    { etrans; [|exact Hs]. done. }
    intros b. rewrite (Hw b). cbn [mem set_mem].
    destruct (decide (a = b)) as [->|Hne].
    + rewrite ld8_st8_eq. wrote_case.
    + rewrite ld8_st8_ne by done. wrote_case.
Qed.

(** A word made of four copies of a byte. *)
Lemma ld8_st32_rep m a v c b :
  (forall k, 0 <= k < 4 -> u8 (Z.shiftr v (8 * k)) = u8 c) ->
  ld8 (st32 m a v) b = if (a <=? b) && (b <? a + 4) then u8 c else ld8 m b.
Proof.
  intros Hv. pose proof (Hv 0) as H0. pose proof (Hv 1) as H1.
  pose proof (Hv 2) as H2. pose proof (Hv 3) as H3.
  rewrite Z.shiftr_0_r in H0. simpl in H1, H2, H3.
  destruct (Z.leb_spec a b), (Z.ltb_spec b (a + 4)); simpl; unfold st32.
  - assert (b = a \/ b = a + 1 \/ b = a + 2 \/ b = a + 3) as [-> | [-> | [-> | ->]]] by lia.
    all: repeat first [rewrite ld8_st8_eq | rewrite ld8_st8_ne by lia]; auto with lia.
  - by rewrite !ld8_st8_ne by lia.
  - by rewrite !ld8_st8_ne by lia.
  - by rewrite !ld8_st8_ne by lia.
Qed.

Lemma stosl_ram v c n : forall s a, ram_range a (4 * Z.of_nat n) ->
  (forall k, 0 <= k < 4 -> u8 (Z.shiftr v (8 * k)) = u8 c) ->
  wp (stosl a v n) s (fun _ s' => only_mem s s' /\
    wrote (mem s) (mem s') a (4 * Z.of_nat n) (fun _ => u8 c)).
Proof.
  induction n as [|n IH]; intros s a Ha Hv.
  - split; [done|]. intros b. wrote_case.
  - cbn [stosl]. unfold ram_range in *. rewrite wp_bind, wp_store32 by lia.
    eapply wp_mono; [apply IH; [lia|done]|]. intros _ s' [Hs Hw]. split.
    { etrans; [|exact Hs]. done. }
    intros b. rewrite (Hw b). cbn [mem set_mem].
    rewrite (ld8_st32_rep _ _ _ c) by done. wrote_case.
Qed.

Lemma rep_byte c k :
  0 <= k < 4 ->
  let c := Z.land c 0xFF in
  u8 (Z.shiftr (Z.lor (Z.lor (Z.lor (Z.shiftl c 24) (Z.shiftl c 16)) (Z.shiftl c 8)) c)
               (8 * k)) = u8 c.
Proof.
  intros Hk c'. assert (0 <= c' < 256) as Hc.
  { subst c'. change 0xFF with (2 ^ 8 - 1). rewrite land_mask_low by lia. lia. }
  clearbody c'. rewrite !Z.shiftl_mul_pow2 by lia.
  rewrite (lor_low_high 24 (c' * 2 ^ 24) (c' * 2 ^ 16)) by lia.
  rewrite (lor_low_high 16 _ (c' * 2 ^ 8)) by lia. rewrite (lor_low_high 8) by lia.
  rewrite Z.shiftr_div_pow2 by lia.
  assert (k = 0 \/ k = 1 \/ k = 2 \/ k = 3) as [-> | [-> | [-> | ->]]] by lia; simpl; lia.
Qed.

Lemma memset_ram s dst c n : ram_range dst n ->
  wp (memset dst c n) s (fun _ s' => only_mem s s' /\
    wrote (mem s) (mem s') dst n (fun _ => u8 c)).
Proof.
  intros Hr. unfold memset. destruct (_ && _) eqn:E.
  - apply andb_true_iff in E as [_ E]. apply Z.eqb_eq in E. unfold ram_range in *.
    assert (u8 (Z.land c 0xFF) = u8 c) as Hc.
    { change 0xFF with (2 ^ 8 - 1). rewrite land_mask_low by lia. lia. }
    assert (4 * Z.of_nat (Z.to_nat (n / 4)) = n) as Hn by lia.
    rewrite <- Hc. cbv zeta. match goal with |- wp (stosl _ ?v _) _ _ =>
      pose proof (stosl_ram v (Z.land c 0xFF) (Z.to_nat (n / 4)) s dst) as H end.
    rewrite Hn in H. apply H; [done|]. intros. by apply rep_byte.
  - unfold ram_range in *.
    pose proof (stosb_ram c (Z.to_nat n) s dst) as H. unfold ram_range in H.
    rewrite Z2Nat.id in H by lia. by apply H.
Qed.

Lemma copy_up_ram n : forall s d a, ram_range d (Z.of_nat n) -> ram_range a (Z.of_nat n) ->
  d <= a \/ a + Z.of_nat n <= d ->
  wp (copy_up d a n) s (fun _ s' => only_mem s s' /\
    wrote (mem s) (mem s') d (Z.of_nat n) (fun i => ld8 (mem s) (a + i))).
Proof.
  unfold ram_range. induction n as [|n IH]; intros s d a Hd Ha Hov.
  - split; [done|]. intros b. wrote_case.
  - cbn [copy_up]. rewrite wp_bind, wp_load8, wp_bind, wp_store8 by lia.
    eapply wp_mono; [apply IH; lia|]. intros _ s' [Hs Hw]. split.
    { etrans; [|exact Hs]. done. }
    intros b. rewrite (Hw b). cbn [mem set_mem].
    pose proof (ld8_range (mem s) a).
    destruct (decide (d = b)) as [->|Hne]; wrote_case.
    1: rewrite ld8_st8_eq, Z.sub_diag, Z.add_0_r; lia.
    all: rewrite ld8_st8_ne by lia; f_equal; lia.
Qed.

Lemma copy_down_ram n : forall s d a,
  ram_range (d - Z.of_nat n) (Z.of_nat n) -> ram_range (a - Z.of_nat n) (Z.of_nat n) ->
  a <= d ->
  wp (copy_down d a n) s (fun _ s' => only_mem s s' /\
    wrote (mem s) (mem s') (d - Z.of_nat n) (Z.of_nat n)
          (fun i => ld8 (mem s) (a - Z.of_nat n + i))).
Proof.
  unfold ram_range. induction n as [|n IH]; intros s d a Hd Ha Hov.
  - split; [done|]. intros b. wrote_case.
  - cbn [copy_down]. rewrite wp_bind, wp_load8, wp_bind, wp_store8 by lia.
    eapply wp_mono; [apply IH; lia|]. intros _ s' [Hs Hw]. split.
    { etrans; [|exact Hs]. done. }
    intros b. rewrite (Hw b). cbn [mem set_mem].
    pose proof (ld8_range (mem s) (a - 1)).
    destruct (decide (d - 1 = b)) as [<-|Hne]; wrote_case.
    1: rewrite ld8_st8_eq; replace (_ + (_ - _)) with (a - 1) by lia; lia.
    all: rewrite ld8_st8_ne by lia; f_equal; lia.
Qed.

Lemma memmove_ram s dst src n : ram_range dst n -> ram_range src n ->
  wp (memmove dst src n) s (fun _ s' => only_mem s s' /\
    wrote (mem s) (mem s') dst n (fun i => ld8 (mem s) (src + i))).
Proof.
  unfold ram_range, memmove. intros Hd Hs. destruct (_ && _) eqn:E.
  - pose proof (copy_down_ram (Z.to_nat n) s (dst + n) (src + n)) as H.
    unfold ram_range in H. rewrite Z2Nat.id, !Z.add_simpl_r in H by lia.
    apply H; lia.
  - pose proof (copy_up_ram (Z.to_nat n) s dst src) as H.
    unfold ram_range in H. rewrite Z2Nat.id in H by lia. apply H; lia.
Qed.

Lemma wrote_frame X m m' a n f :
  wrote m m' a n f -> 0 <= n -> (forall b, a <= b < a + n -> page_of b ∈ X) -> frame X m m'.
Proof.
  intros Hw Hn HX b Hb. rewrite (Hw b). wrote_case.
  exfalso. apply Hb, HX. lia.
Qed.

Lemma wrote_page_frame p m m' f :
  wrote m m' p PGSIZE f -> p mod PGSIZE = 0 -> frame {[p]} m m'.
Proof.
  intros Hw Hp. eapply wrote_frame; [done|lia|].
  intros b Hb. apply elem_of_singleton. lia.
Qed.

Lemma wrote_ld8 m m' a n f b :
  wrote m m' a n f -> a <= b < a + n -> ld8 m' b = f (b - a).
Proof. intros Hw Hb. rewrite (Hw b). wrote_case. Qed.

Lemma wrote_zero_ld32 m m' a n b :
  wrote m m' a n (fun _ => u8 0) -> a <= b -> b + 4 <= a + n -> ld32 m' b = 0.
Proof.
  intros Hw Hb Hb'. unfold ld32.
  rewrite !(wrote_ld8 _ _ _ _ _ _ Hw) by lia. lia.
Qed.
