(* ===== verification/CStringSpec.v ===== *)
(** * What the string routines compute

    On a reader that returns the characters [f 0], [f 1], ... without
    changing the state, [strncmp], [strncpy] and [strlen] are determined
    by the C string [cprefix n f]: the characters before the first NUL,
    [n] at most. *)

From stdpp Require Import base numbers list gmap strings.
From S2P Require Import Prelude Machine CString.
Open Scope Z_scope.

Fixpoint cprefix (n : nat) (f : Z -> Z) : list Z :=
  match n with
  | O => []
  | S k => if f 0 =? 0 then [] else f 0 :: cprefix k (fun i => f (i + 1))
  end.

(** The bytes of an array as a character function. *)
Definition chars (l : list Z) : Z -> Z := fun i => nth (Z.to_nat i) l 0.

Section spec.
Context {St : Type}.

(** [p] reads [f] from [s] as far as the string goes, [n] characters at
    most. *)
Definition reads (p : Z -> M St Z) (f : Z -> Z) (n : nat) (s : St) : Prop :=
  forall i, 0 <= i < Z.of_nat n -> (forall j, 0 <= j < i -> f j <> 0) -> p i s = Ret (f i, s).

Lemma reads_first p f n s : reads p f (S n) s -> p 0 s = Ret (f 0, s).
Proof. intros H. apply H; [lia|]. lia. Qed.

Lemma reads_next p f n s : reads p f (S n) s -> f 0 <> 0 ->
  reads (next p) (fun i => f (i + 1)) n s.
Proof.
  intros H H0 i Hi Hnz. unfold next. apply H; [lia|]. intros j Hj.
  destruct (decide (j = 0)) as [->|]; [done|]. specialize (Hnz (j - 1)).
  replace (j - 1 + 1) with j in Hnz by lia. apply Hnz. lia.
Qed.

Lemma reads_arr l n s : reads (arr l) (chars l) n s.
Proof. done. Qed.

Lemma reads_mono p f n m s : reads p f n s -> (m <= n)%nat -> reads p f m s.
Proof. intros H Hm i Hi. apply H. lia. Qed.

(** Equality up to [n] characters, and the sign of the difference. *)
Lemma strncmp_reads n : forall p q f g s, reads p f n s -> reads q g n s ->
  exists r, strncmp p q n s = Ret (r, s) /\ (r = 0 <-> cprefix n f = cprefix n g).
Proof.
  induction n as [|n IH]; intros p q f g s Hp Hq; cbn [strncmp cprefix].
  { exists 0. by split. }
  unfold mbind, M_bind. rewrite (reads_first _ _ _ _ Hp), (reads_first _ _ _ _ Hq).
  destruct (Z.eqb_spec (f 0) 0) as [Hf|Hf]; simpl.
  - exists (f 0 - g 0). split; [done|]. rewrite Hf.
    destruct (Z.eqb_spec (g 0) 0) as [Hg|Hg]; [by rewrite Hg|]. split; [lia|done].
  - destruct (Z.eqb_spec (f 0) (g 0)) as [Heq|Hne].
    + destruct (IH (next p) (next q) (fun i => f (i + 1)) (fun i => g (i + 1)) s)
        as (r & Hr & Hiff); [by apply reads_next|apply reads_next; [done|congruence]|].
      exists r. split; [done|]. rewrite (proj2 (Z.eqb_neq (g 0) 0)) by congruence.
      rewrite Hiff, Heq. split; [by intros ->|by intros [=]].
    + exists (f 0 - g 0). split; [done|].
      destruct (g 0 =? 0); split; [lia|done|lia|]. intros [=]. congruence.
Qed.

(** [strncpy] stores the string padded with NULs to [n] bytes. *)
Lemma strncpy_reads n : forall t f s, reads t f n s ->
  strncpy t n s = Ret (cprefix n f ++ replicate (n - length (cprefix n f)) 0, s).
Proof.
  induction n as [|n IH]; intros t f s Ht; cbn [strncpy cprefix]; [done|].
  unfold mbind, M_bind. rewrite (reads_first _ _ _ _ Ht).
  destruct (Z.eqb_spec (f 0) 0) as [Hf|Hf].
  - rewrite Hf. done.
  - by rewrite (IH _ _ s (reads_next _ _ _ _ Ht Hf)).
Qed.

Lemma strlen_reads n : forall fuel t f s, reads t f (S n) s -> f (Z.of_nat n) = 0 ->
  (forall i, 0 <= i < Z.of_nat n -> f i <> 0) -> (n < fuel)%nat ->
  strlen fuel t s = Ret (Z.of_nat n, s).
Proof.
  induction n as [|n IH]; intros fuel t f s Ht H0 Hnz Hfuel; (destruct fuel as [|fuel]; [lia|]);
    cbn [strlen]; unfold mbind, M_bind; rewrite (reads_first _ _ _ _ Ht).
  - change (Z.of_nat 0) with 0 in H0. by rewrite H0.
  - assert (f 0 <> 0) as Hf by (apply Hnz; lia). rewrite (proj2 (Z.eqb_neq _ _) Hf).
    rewrite (IH fuel (next t) (fun i => f (i + 1)) s).
    + unfold mret, M_ret. do 2 f_equal. lia.
    + by apply reads_next.
    + rewrite <- H0. f_equal. lia.
    + intros i Hi. apply Hnz. lia.
    + lia.
Qed.
End spec.

Lemma cprefix_length n : forall f, (length (cprefix n f) <= n)%nat.
Proof. induction n; intros f; simpl; [lia|]. destruct (f 0 =? 0); simpl; [lia|]. specialize (IHn (fun i => f (i + 1))). lia. Qed.

Lemma cprefix_ext n : forall f g, (forall i, 0 <= i < Z.of_nat n -> f i = g i) -> cprefix n f = cprefix n g.
Proof.
  induction n as [|n IH]; intros f g H; simpl; [done|]. rewrite H by lia.
  destruct (g 0 =? 0); [done|]. f_equal. apply IH. intros i Hi. apply H. lia.
Qed.

(** Copying then reading back gives the same string. *)
Lemma cprefix_copy n : forall f k, cprefix n (chars (cprefix n f ++ replicate k 0)) = cprefix n f.
Proof.
  induction n as [|n IH]; intros f k; [done|]. cbn [cprefix].
  destruct (Z.eqb_spec (f 0) 0) as [Hf|Hf].
  - assert (chars ([] ++ replicate k 0) 0 = 0) as ->; [|done]. destruct k; done.
  - change (chars _ 0) with (f 0). rewrite (proj2 (Z.eqb_neq _ _) Hf). f_equal.
    etransitivity; [|apply (IH (fun i => f (i + 1)) k)]. apply cprefix_ext.
    intros i Hi. unfold chars. replace (Z.to_nat (i + 1)) with (S (Z.to_nat i)) by lia. done.
Qed.
