(* ===== verification/Kalloc.v ===== *)
(** * [kernel/kalloc.c]: the physical page allocator

    The free list is threaded through the free pages themselves: the
    first word of a free page is [struct run]'s [next].  [kmem] is the
    [freelist] and [use_lock] fields of the machine.  [kmem.lock] makes
    each critical section atomic; it guards nothing else here. *)

From S2P Require Import Prelude Machine CString.
From stdpp Require Import base numbers list gmap strings sorting.
Open Scope Z_scope.

Section kalloc.
Context {LK : Linker}.

Definition kfree (v : Z) : M machine () :=
  if negb (v mod PGSIZE =? 0) || (v <? ld_end) || (PHYSTOP <=? V2P v) then panic "kfree"
  else
    _ ← memset v 1 PGSIZE;
    fl ← gets freelist;
    _ ← store32 v fl;
    modify (set_freelist v).

Definition kalloc : M machine Z :=
  r ← gets freelist;
  if r =? 0 then mret r
  else next ← load32 r; _ ← modify (set_freelist next); mret r.

(** [for(; p + PGSIZE <= vend; p += PGSIZE) kfree(p);] *)
Fixpoint freerange_loop (fuel : nat) (p vend : Z) : M machine () :=
  match fuel with
  | O => nofuel
  | S k =>
      if u32 (p + PGSIZE) <=? vend then _ ← kfree p; freerange_loop k (u32 (p + PGSIZE)) vend
      else mret ()
  end.

Definition freerange (vstart vend : Z) : M machine () :=
  let p := PGROUNDUP vstart in
  freerange_loop (S (Z.to_nat ((vend - p) / PGSIZE))) p vend.

Definition kinit1 (vstart vend : Z) : M machine () :=
  _ ← modify (set_use_lock false); freerange vstart vend.

Definition kinit2 (vstart vend : Z) : M machine () :=
  _ ← freerange vstart vend; modify (set_use_lock true).

(** ** The abstract free list *)

Definition valid_page (p : Z) : Prop :=
  p mod PGSIZE = 0 /\ ld_end <= p < KERNBASE + PHYSTOP.

Fixpoint flist (m : gmap Z Z) (head : Z) (l : list Z) : Prop :=
  match l with
  | [] => head = 0
  | p :: l => head = p /\ valid_page p /\ flist m (ld32 m p) l
  end.

(** [l] is the free list of [s]: reachable from [kmem.freelist] through
    the [next] words, made of allocatable pages, none twice. *)
Definition kmem_inv (s : machine) (l : list Z) : Prop :=
  flist (mem s) (freelist s) l /\ NoDup l.

Lemma valid_page_ram p : valid_page p -> KERNBASE < p /\ p + PGSIZE <= KERNBASE + PHYSTOP.
Proof.
  intros [Hal Hr]. pose proof ld_data_range. pose proof ld_end_range. lia.
Qed.

Lemma flist_frame X m m' : frame X m m' ->
  forall l head, Forall (fun p => p ∉ X) l -> flist m head l -> flist m' head l.
Proof.
  intros Hf. induction l as [|p l IH]; intros head; simpl; [done|].
  intros [Hp Hl]%Forall_cons (-> & Hv & Hrec). split; [done|]. split; [done|].
  destruct Hv as [Hal _].
  rewrite (frame_ld32 _ _ _ _ Hf) by (try lia; by replace (page_of p) with p by lia).
  by apply IH.
Qed.

Lemma flist_valid m l : forall head, flist m head l -> Forall valid_page l.
Proof. induction l; intros head; simpl; naive_solver. Qed.

Lemma kmem_inv_frame X s s' l :
  kmem_inv s l -> freelist s' = freelist s -> frame X (mem s) (mem s') ->
  (forall p, p ∈ l -> p ∉ X) -> kmem_inv s' l.
Proof.
  intros [Hl Hd] Hf Hfr HX. split; [|done]. rewrite Hf.
  eapply flist_frame; eauto. by apply Forall_forall.
Qed.

Lemma kmem_inv_valid s l p : kmem_inv s l -> p ∈ l -> valid_page p.
Proof. intros [Hl _] Hp. eapply flist_valid, Forall_forall in Hl; eauto. Qed.

(** ** What the operations do to it *)

Lemma kfree_wp s l v : kmem_inv s l -> valid_page v -> v ∉ l ->
  wp (kfree v) s (fun _ s' => kmem_inv s' (v :: l) /\ frame {[v]} (mem s) (mem s') /\
    cr3 s' = cr3 s /\ use_lock s' = use_lock s).
Proof.
  intros [Hl Hd] Hv Hnin. pose proof (valid_page_ram v Hv) as Hr. destruct Hv as [Hal He].
  unfold kfree. rewrite (proj2 (Z.eqb_eq _ _) Hal), (proj2 (Z.ltb_ge _ _)) by lia.
  rewrite (proj2 (Z.leb_gt _ _)) by lia. simpl.
  rewrite wp_bind. eapply wp_mono; [apply memset_ram; unfold ram_range; lia|].
  intros _ s1 [(Hfl & Hcr & Hul)%only_mem_fields Hw]. apply wrote_page_frame in Hw; [|done].
  wp_steps. rewrite wp_store32 by lia. wp_steps. cbn [mem set_mem freelist set_freelist].
  assert (frame {[v]} (mem s) (st32 (mem s1) v (freelist s1))) as Hf.
  { eapply frame_trans; [exact Hw|]. apply frame_st32; [lia|].
    apply elem_of_singleton. lia. }
  split; [|done]. split; [|by constructor].
  split; [done|]. split; [done|]. cbn [mem set_mem freelist set_freelist].
  rewrite ld32_st32_eq, Hfl in *.
  assert (Forall (fun p => p ∉ ({[v]} : gset Z)) l).
  { apply Forall_forall. set_solver. }
  replace (u32 (freelist s)) with (freelist s); [by eapply flist_frame|].
  destruct l as [|q l]; simpl in Hl; [lia|].
  destruct Hl as (-> & Hq%valid_page_ram & _). lia.
Qed.

Lemma kalloc_wp s l : kmem_inv s l ->
  wp kalloc s (fun r s' => match l with
    | [] => r = 0 /\ s' = s
    | p :: l' => r = p /\ valid_page p /\ (p ∉ l') /\ kmem_inv s' l' /\
                 mem s' = mem s /\ cr3 s' = cr3 s /\ use_lock s' = use_lock s
    end).
Proof.
  intros [Hl Hd]. unfold kalloc. wp_steps. destruct l as [|p l]; simpl in Hl.
  - by rewrite Hl.
  - destruct Hl as (Hp & Hv & Hl). pose proof (valid_page_ram p Hv).
    rewrite (proj2 (Z.eqb_neq _ _)) by lia. rewrite wp_bind, wp_load32 by lia. wp_steps.
    apply NoDup_cons in Hd as [Hnin Hd]. rewrite Hp. split; [done|]. split; [done|].
    split; [done|]. split; [|done]. split; [|done]. exact Hl.
Qed.

(** [n] consecutive pages from [p]. *)
Fixpoint pages (p : Z) (n : nat) : list Z :=
  match n with O => [] | S k => p :: pages (p + PGSIZE) k end.

Lemma elem_of_pages n : forall p q, p mod PGSIZE = 0 ->
  q ∈ pages p n <-> q mod PGSIZE = 0 /\ p <= q < p + PGSIZE * Z.of_nat n.
Proof.
  induction n as [|n IH]; intros p q Hp; simpl.
  - rewrite elem_of_nil. lia.
  - rewrite elem_of_cons, IH by lia. lia.
Qed.

Lemma freerange_loop_wp vend n : forall s l p,
  kmem_inv s l -> p mod PGSIZE = 0 -> ld_end <= p <= KERNBASE + PHYSTOP ->
  vend <= KERNBASE + PHYSTOP -> n = Z.to_nat ((vend - p) / PGSIZE) ->
  (forall q, q ∈ pages p n -> q ∉ l) ->
  wp (freerange_loop (S n) p vend) s (fun _ s' => exists l',
    kmem_inv s' l' /\ l' ≡ₚ pages p n ++ l /\
    frame (list_to_set (pages p n)) (mem s) (mem s') /\ cr3 s' = cr3 s).
Proof.
  pose proof ld_data_range as Hld. pose proof ld_end_range as Hle.
  induction n as [|n IH]; intros s l p Hinv Hp He Hv Hn Hdisj.
  - cbn [freerange_loop]. rewrite (proj2 (Z.leb_gt _ _)) by lia.
    apply wp_ret. exists l. done.
  - remember (S n) as n'. cbn [freerange_loop]. subst n'.
    rewrite (proj2 (Z.leb_le _ _)) by lia. rewrite wp_bind.
    eapply wp_mono; [apply kfree_wp; [done|split; lia|]|].
    { apply Hdisj. simpl. set_solver. }
    intros _ s1 (Hinv1 & Hf1 & Hc1 & _).
    replace (u32 (p + PGSIZE)) with (p + PGSIZE) by lia.
    eapply wp_mono; [apply (IH s1 (p :: l)); [done|lia|lia|lia|lia|]|].
    { intros q Hq. pose proof Hq as Hq'. rewrite elem_of_pages in Hq by lia.
      apply not_elem_of_cons. split; [lia|]. apply Hdisj. simpl. set_solver. }
    intros _ s2 (l' & Hinv2 & Hperm & Hf2 & Hc2). exists l'. split; [done|]. split.
    { rewrite Hperm. simpl. by rewrite Permutation_middle. }
    split; [|congruence]. eapply frame_trans; eapply frame_mono; eauto; set_solver.
Qed.

Lemma freerange_wp s l vstart vend :
  kmem_inv s l -> ld_end <= vstart -> vend <= KERNBASE + PHYSTOP ->
  vstart <= vend ->
  (forall q, q ∈ l -> q < vstart \/ vend <= q) ->
  wp (freerange vstart vend) s (fun _ s' => exists l', kmem_inv s' l' /\
    (forall q, q ∈ l' <-> q ∈ l \/ (q mod PGSIZE = 0 /\ vstart <= q /\ q + PGSIZE <= vend)) /\
    frame (list_to_set l') (mem s) (mem s') /\ cr3 s' = cr3 s).
Proof.
  pose proof ld_data_range as Hld. pose proof ld_end_range as Hle.
  intros Hinv Hs Hv Hsv Hl. unfold freerange.
  eapply wp_mono; [eapply (freerange_loop_wp vend _ s l); [done|lia|lia|lia|done|]|].
  { intros q Hq Hin. rewrite elem_of_pages in Hq by lia. apply Hl in Hin. lia. }
  intros _ s' (l' & Hinv' & Hperm & Hf & Hc). exists l'. split; [done|]. split.
  - intros q. rewrite Hperm, elem_of_app, elem_of_pages by lia.
    match goal with |- ?A \/ _ <-> _ \/ ?B => enough (A <-> B) by tauto end. lia.
  - split; [|done]. eapply frame_mono; [done|]. intros q. rewrite !elem_of_list_to_set.
    rewrite Hperm. set_solver.
Qed.
End kalloc.
