(* ===== verification/Vm.v ===== *)
(** * [kernel/vm.c]: page tables and user memory

    Page directories and page tables live in physical memory as arrays of
    32-bit entries; every operation reads and writes them there.  A
    pointer result [0] is NULL and an [int] result is a [Z].  Messages
    printed with [cprintf] are not part of the state. *)

From S2P Require Import Prelude Machine CString Kalloc.
From stdpp Require Import base numbers list gmap strings.
Open Scope Z_scope.

(** One row of the table [kmap]. *)
Record kmap_row := KmapRow { virt : Z; phys_start : Z; phys_end : Z; perm : Z }.

Section vm.
Context {LK : Linker}.

Definition walkpgdir (pgdir va : Z) (alloc : bool) : M machine Z :=
  let pde := pgdir + 4 * PDX va in
  e ← load32 pde;
  if flag_set e PTE_P then mret (P2V (PTE_ADDR e) + 4 * PTX va)
  else if negb alloc then mret 0
  else
    pgtab ← kalloc;
    if pgtab =? 0 then mret 0
    else
      _ ← memset pgtab 0 PGSIZE;
      _ ← store32 pde (Z.lor (Z.lor (Z.lor (V2P pgtab) PTE_P) PTE_W) PTE_U);
      mret (pgtab + 4 * PTX va).

Fixpoint mappages_loop (fuel : nat) (pgdir a last pa perm : Z) : M machine Z :=
  match fuel with
  | O => nofuel
  | S k =>
      pte ← walkpgdir pgdir a true;
      if pte =? 0 then mret (-1)
      else
        e ← load32 pte;
        if flag_set e PTE_P then panic "remap"
        else
          _ ← store32 pte (Z.lor (Z.lor pa perm) PTE_P);
          if a =? last then mret 0
          else mappages_loop k pgdir (u32 (a + PGSIZE)) last (u32 (pa + PGSIZE)) perm
  end.

(** The loop runs from [a] to [last] in page steps, modulo 2^32. *)
Definition mappages (pgdir va size pa perm : Z) : M machine Z :=
  let a := PGROUNDDOWN va in
  let last := PGROUNDDOWN (va + size - 1) in
  mappages_loop (S (Z.to_nat (u32 (last - a) / PGSIZE))) pgdir a last pa perm.

Fixpoint deallocuvm_loop (fuel : nat) (pgdir a oldsz : Z) : M machine () :=
  match fuel with
  | O => nofuel
  | S k =>
      if a <? oldsz then
        pte ← walkpgdir pgdir a false;
        if pte =? 0 then
          deallocuvm_loop k pgdir (u32 (u32 (PGADDR (PDX a + 1) 0 0 - PGSIZE) + PGSIZE)) oldsz
        else
          e ← load32 pte;
          _ ← (if flag_set e PTE_P then
                 let pa := PTE_ADDR e in
                 if pa =? 0 then panic "kfree"
                 else _ ← kfree (P2V pa); store32 pte 0
               else mret ());
          deallocuvm_loop k pgdir (u32 (a + PGSIZE)) oldsz
      else mret ()
  end.

Definition deallocuvm (pgdir oldsz newsz : Z) : M machine Z :=
  if oldsz <=? newsz then mret oldsz
  else
    let a := PGROUNDUP newsz in
    _ ← deallocuvm_loop (S (Z.to_nat ((oldsz - a) / PGSIZE + 1))) pgdir a oldsz;
    mret newsz.

(** [for(i = 0; i < NPDENTRIES; i++) if(pgdir[i] & PTE_P) kfree(...)] *)
Fixpoint freevm_loop (n : nat) (pgdir i : Z) : M machine () :=
  match n with
  | O => mret ()
  | S k =>
      e ← load32 (pgdir + 4 * i);
      _ ← (if flag_set e PTE_P then kfree (P2V (PTE_ADDR e)) else mret ());
      freevm_loop k pgdir (i + 1)
  end.

Definition freevm (pgdir : Z) : M machine () :=
  if pgdir =? 0 then panic "freevm: no pgdir"
  else
    _ ← deallocuvm pgdir SHAREDBASE 0;
    _ ← freevm_loop (Z.to_nat NPDENTRIES) pgdir 0;
    kfree pgdir.

Definition kmap : list kmap_row := [
  KmapRow KERNBASE 0 EXTMEM PTE_W;
  KmapRow KERNLINK (V2P KERNLINK) (V2P ld_data) 0;
  KmapRow ld_data (V2P ld_data) PHYSTOP PTE_W;
  KmapRow DEVSPACE DEVSPACE 0 PTE_W ].

Fixpoint setupkvm_loop (ks : list kmap_row) (pgdir : Z) : M machine Z :=
  match ks with
  | [] => mret pgdir
  | k :: ks =>
      r ← mappages pgdir (virt k) (u32 (phys_end k - phys_start k)) (phys_start k) (perm k);
      if r <? 0 then _ ← freevm pgdir; mret 0
      else setupkvm_loop ks pgdir
  end.

Definition setupkvm : M machine Z :=
  pgdir ← kalloc;
  if pgdir =? 0 then mret 0
  else
    _ ← memset pgdir 0 PGSIZE;
    if DEVSPACE <? P2V PHYSTOP then panic "PHYSTOP too high"
    else setupkvm_loop kmap pgdir.

(** [kvmalloc] stores the new directory in the global [kpgdir]; it is
    returned here. *)
Definition switchkvm (kpgdir : Z) : M machine () := lcr3 (V2P kpgdir).

Definition kvmalloc : M machine Z :=
  kpgdir ← setupkvm; _ ← switchkvm kpgdir; mret kpgdir.

Definition inituvm (pgdir init sz : Z) : M machine () :=
  if PGSIZE <=? sz then panic "inituvm: more than a page"
  else
    mem ← kalloc;
    _ ← memset mem 0 PGSIZE;
    _ ← mappages pgdir 0 PGSIZE (V2P mem) (Z.lor PTE_W PTE_U);
    memmove mem init sz.

Fixpoint allocuvm_loop (fuel : nat) (pgdir a oldsz newsz : Z) : M machine Z :=
  match fuel with
  | O => nofuel
  | S k =>
      if a <? newsz then
        mem ← kalloc;
        if mem =? 0 then
          _ ← deallocuvm pgdir newsz oldsz; mret 0
        else
          _ ← memset mem 0 PGSIZE;
          r ← mappages pgdir a PGSIZE (V2P mem) (Z.lor PTE_W PTE_U);
          if r <? 0 then
            _ ← deallocuvm pgdir newsz oldsz; _ ← kfree mem; mret 0
          else allocuvm_loop k pgdir (u32 (a + PGSIZE)) oldsz newsz
      else mret newsz
  end.

Definition allocuvm (pgdir oldsz newsz : Z) : M machine Z :=
  if SHAREDBASE <=? newsz then mret 0
  else if newsz <? oldsz then mret oldsz
  else
    let a := PGROUNDUP oldsz in
    allocuvm_loop (S (Z.to_nat ((newsz - a) / PGSIZE + 1))) pgdir a oldsz newsz.

Definition clearpteu (pgdir uva : Z) : M machine () :=
  pte ← walkpgdir pgdir uva false;
  if pte =? 0 then panic "clearpteu"
  else e ← load32 pte; store32 pte (Z.land e (Z.lnot PTE_U)).

Fixpoint copyuvm_loop (fuel : nat) (pgdir d i sz : Z) : M machine Z :=
  match fuel with
  | O => nofuel
  | S k =>
      if i <? sz then
        pte ← walkpgdir pgdir i false;
        if pte =? 0 then panic "copyuvm: pte should exist"
        else
          e ← load32 pte;
          if negb (flag_set e PTE_P) then panic "copyuvm: page not present"
          else
            let pa := PTE_ADDR e in
            let flags := PTE_FLAGS e in
            mem ← kalloc;
            if mem =? 0 then _ ← freevm d; mret 0
            else
              _ ← memmove mem (P2V pa) PGSIZE;
              r ← mappages d i PGSIZE (V2P mem) flags;
              if r <? 0 then _ ← kfree mem; _ ← freevm d; mret 0
              else copyuvm_loop k pgdir d (u32 (i + PGSIZE)) sz
      else mret d
  end.

Definition copyuvm (pgdir sz : Z) : M machine Z :=
  d ← setupkvm;
  if d =? 0 then mret 0
  else copyuvm_loop (S (Z.to_nat (sz / PGSIZE + 1))) pgdir d 0 sz.

Definition uva2ka (pgdir uva : Z) : M machine Z :=
  pte ← walkpgdir pgdir uva false;
  e ← load32 pte;
  if Z.land e PTE_P =? 0 then mret 0
  else if Z.land e PTE_U =? 0 then mret 0
  else mret (P2V (PTE_ADDR e)).

Fixpoint copyout_loop (fuel : nat) (pgdir va buf len : Z) : M machine Z :=
  match fuel with
  | O => nofuel
  | S k =>
      if 0 <? len then
        let va0 := PGROUNDDOWN va in
        pa0 ← uva2ka pgdir va0;
        if pa0 =? 0 then mret (-1)
        else
          let n := u32 (PGSIZE - u32 (va - va0)) in
          let n := if len <? n then len else n in
          _ ← memmove (pa0 + u32 (va - va0)) buf n;
          copyout_loop k pgdir (u32 (va0 + PGSIZE)) (u32 (buf + n)) (u32 (len - n))
      else mret 0
  end.

Definition copyout (pgdir va p len : Z) : M machine Z :=
  copyout_loop (S (Z.to_nat (len / PGSIZE + 2))) pgdir va p len.
End vm.
