(* ===== verification/PageTable.v ===== *)
(** * The abstract page table

    [pte m d va] is the entry the directory at [d] holds for [va] (0 when
    it has no page table for it), [tables m d] the pages it uses.  The
    lemmas describe how writes to memory change this view; [pt_extend]
    is the effect of the page-table operations on the free list and on
    the rest of memory. *)

From S2P Require Import Prelude Machine CString Kalloc Vm.
From stdpp Require Import base numbers list gmap strings sorting.
Open Scope Z_scope.

Section pagetable.
Context {LK : Linker}.

Definition pde (m : gmap Z Z) (d i : Z) : Z := ld32 m (d + 4 * i).
Definition present (m : gmap Z Z) (d i : Z) : bool := flag_set (pde m d i) PTE_P.
Definition pgtab (m : gmap Z Z) (d i : Z) : Z := P2V (PTE_ADDR (pde m d i)).
Definition pte_ptr (m : gmap Z Z) (d va : Z) : Z := pgtab m d (PDX va) + 4 * PTX va.
Definition pte (m : gmap Z Z) (d va : Z) : Z :=
  if present m d (PDX va) then ld32 m (pte_ptr m d va) else 0.

Definition tables (m : gmap Z Z) (d : Z) : gset Z :=
  list_to_set (pgtab m d <$> filter (fun i => present m d i = true) (seqZ 0 1024)).
Definition pgdir_pages (m : gmap Z Z) (d : Z) : gset Z := {[d]} ∪ tables m d.

Definition wf_pgdir (m : gmap Z Z) (d : Z) : Prop :=
  valid_page d /\
  (forall i, 0 <= i < 1024 -> present m d i = true ->
    valid_page (pgtab m d i) /\ pgtab m d i <> d /\
    PTE_FLAGS (pde m d i) = Z.lor (Z.lor PTE_P PTE_W) PTE_U) /\
  (forall i j, 0 <= i < 1024 -> 0 <= j < 1024 -> present m d i = true ->
    present m d j = true -> pgtab m d i = pgtab m d j -> i = j).

(** The entry [mappages] writes. *)
Definition pte_entry (pa perm : Z) : Z := Z.lor (Z.lor pa perm) PTE_P.

Lemma elem_of_tables m d p :
  p ∈ tables m d <-> exists i, 0 <= i < 1024 /\ present m d i = true /\ p = pgtab m d i.
Proof.
  unfold tables. rewrite elem_of_list_to_set, list_elem_of_fmap. split.
  - intros (i & -> & [Hp Hi%elem_of_seqZ]%list_elem_of_filter). exists i. split; [lia|done].
  - intros (i & Hi & Hp & ->). exists i. split; [done|].
    apply list_elem_of_filter. split; [done|]. apply elem_of_seqZ. lia.
Qed.

Lemma PDX_range va : 0 <= PDX va < 1024.
Proof. lia. Qed.
Lemma PTX_range va : 0 <= PTX va < 1024.
Proof. lia. Qed.

Lemma pgtab_in_tables m d i :
  0 <= i < 1024 -> present m d i = true -> pgtab m d i ∈ tables m d.
Proof. intros. apply elem_of_tables. eauto. Qed.

Lemma pte_ptr_page m d va : wf_pgdir m d -> present m d (PDX va) = true ->
  page_of (pte_ptr m d va) = pgtab m d (PDX va) /\ pte_ptr m d va mod 4 = 0 /\
  KERNBASE < pte_ptr m d va /\ pte_ptr m d va + 4 <= KERNBASE + PHYSTOP.
Proof.
  intros (_ & Ht & _) Hp. destruct (Ht _ (PDX_range va) Hp) as [Hv _].
  pose proof (valid_page_ram _ Hv) as Hr. destruct Hv as [Hal _]. unfold pte_ptr. lia.
Qed.

Lemma pde_slot m d i : wf_pgdir m d -> 0 <= i < 1024 ->
  page_of (d + 4 * i) = d /\ (d + 4 * i) mod 4 = 0 /\
  KERNBASE <= d + 4 * i /\ d + 4 * i + 4 <= KERNBASE + PHYSTOP.
Proof.
  intros (Hv & _) Hi. pose proof (valid_page_ram _ Hv) as Hr. destruct Hv. lia.
Qed.

(** Memory changes outside the directory's pages do not change its view. *)
Lemma pde_frame X m m' d i : wf_pgdir m d -> frame X m m' -> d ∉ X -> 0 <= i < 1024 ->
  pde m' d i = pde m d i.
Proof.
  intros Hwf Hf HX Hi. destruct (pde_slot m d i Hwf Hi) as (Hpg & Hal & _).
  apply (frame_ld32 X); [done|done|by rewrite Hpg].
Qed.

(** Everything but the entries is determined by the directory's words. *)
Lemma pt_same_pdes m m' d : wf_pgdir m d ->
  (forall i, 0 <= i < 1024 -> pde m' d i = pde m d i) ->
  wf_pgdir m' d /\ tables m' d = tables m d /\
  (forall i, 0 <= i < 1024 -> present m' d i = present m d i) /\
  (forall i, 0 <= i < 1024 -> pgtab m' d i = pgtab m d i).
Proof.
  intros (Hv & H1 & H2) Hpde.
  assert (forall i, 0 <= i < 1024 -> present m' d i = present m d i) as Hpr.
  { intros i Hi. unfold present. by rewrite Hpde. }
  assert (forall i, 0 <= i < 1024 -> pgtab m' d i = pgtab m d i) as Hpg.
  { intros i Hi. unfold pgtab. by rewrite Hpde. }
  split; [|split; [|done]].
  - split; [done|]. split.
    + intros i Hi. rewrite Hpr, Hpg, Hpde by done. auto.
    + intros i j Hi Hj. rewrite !Hpr, !Hpg by done. auto.
  - apply set_eq. intros p. rewrite !elem_of_tables.
    split; intros (i & Hi & Hp & ->); exists i; rewrite Hpr, Hpg in *; auto.
Qed.

Lemma pt_frame X m m' d : wf_pgdir m d -> frame X m m' -> pgdir_pages m d ## X ->
  wf_pgdir m' d /\ tables m' d = tables m d /\
  (forall i, 0 <= i < 1024 -> pde m' d i = pde m d i) /\
  (forall va, pte m' d va = pte m d va).
Proof.
  intros Hwf Hf HX. unfold pgdir_pages in HX.
  assert (forall i, 0 <= i < 1024 -> pde m' d i = pde m d i) as Hpde.
  { intros i Hi. eapply pde_frame; eauto. set_solver. }
  destruct (pt_same_pdes m m' d Hwf Hpde) as (Hwf' & Htab & Hpr & Hpg).
  do 3 (split; [done|]). intros va. pose proof (PDX_range va).
  unfold pte. rewrite Hpr by done. destruct (present m d (PDX va)) eqn:E; [|done].
  destruct (pte_ptr_page m d va Hwf E) as (Hpp & Hal & _).
  unfold pte_ptr in *. rewrite Hpg by done. apply (frame_ld32 X); [done|done|].
  rewrite Hpp. pose proof (pgtab_in_tables m d (PDX va)). set_solver.
Qed.

(** Writing one entry of a page table. *)
Lemma pte_store m d va v : wf_pgdir m d -> present m d (PDX va) = true ->
  let m' := st32 m (pte_ptr m d va) v in
  wf_pgdir m' d /\ tables m' d = tables m d /\
  (forall i, 0 <= i < 1024 -> pde m' d i = pde m d i) /\
  frame {[pgtab m d (PDX va)]} m m' /\
  (forall va', PDX va' = PDX va /\ PTX va' = PTX va -> pte m' d va' = u32 v) /\
  (forall va', ~ (PDX va' = PDX va /\ PTX va' = PTX va) -> pte m' d va' = pte m d va').
Proof.
  intros Hwf Hp m'. destruct (pte_ptr_page m d va Hwf Hp) as (Hpp & Hal & Hr).
  assert (frame {[pgtab m d (PDX va)]} m m') as Hf.
  { apply frame_st32; [done|]. rewrite Hpp. set_solver. }
  pose proof Hwf as (Hv & Ht & Hinj).
  destruct (Ht _ (PDX_range va) Hp) as [Hv' Hne].
  assert (forall i, 0 <= i < 1024 -> pde m' d i = pde m d i) as Hpde.
  { intros i Hi. eapply pde_frame; eauto. set_solver. }
  destruct (pt_same_pdes m m' d Hwf Hpde) as (Hwf' & Htab & Hpr & Hpg).
  do 4 (split; [done|]). split.
  - intros va' [HD HT]. unfold pte, pte_ptr. rewrite HD, HT, Hpr, Hp, Hpg by lia.
    apply ld32_st32_eq.
  - intros va' Hva. pose proof (PDX_range va'). unfold pte. rewrite Hpr by done.
    destruct (present m d (PDX va')) eqn:E; [|done]. unfold pte_ptr at 1.
    rewrite Hpg by done. apply ld32_st32_ne.
    destruct (pte_ptr_page m d va' Hwf E) as (Hpp' & Hal' & _).
    destruct (decide (PDX va' = PDX va)) as [HD|HD].
    + unfold pte_ptr in *. rewrite HD in *. lia.
    + assert (pgtab m d (PDX va') <> pgtab m d (PDX va)).
      { intros Heq. apply HD. apply Hinj; auto using PDX_range. }
      destruct (Ht _ (PDX_range va') E) as [[Ha1 _] _]. destruct Hv' as [Ha2 _].
      unfold pte_ptr in *. lia.
Qed.

(** Entries built from a page-aligned address and flag bits. *)
Lemma entry_spec x f : x mod 4096 = 0 -> 0 <= x < 2 ^ 32 -> 0 <= f < 4096 ->
  Z.lor x f = x + f /\ PTE_ADDR (Z.lor x f) = x /\ PTE_FLAGS (Z.lor x f) = f.
Proof. intros. rewrite (lor_low_high 12) by lia. lia. Qed.

Lemma lor_P_range perm : 0 <= perm < 4096 -> 0 <= Z.lor perm PTE_P < 4096.
Proof.
  intros. split; [apply Z.lor_nonneg; lia|].
  destruct (decide (Z.lor perm PTE_P = 0)) as [->|]; [lia|].
  apply (Z.log2_lt_pow2 _ 12); [assert (0 <= Z.lor perm PTE_P) by (apply Z.lor_nonneg; lia); lia|].
  rewrite Z.log2_lor by lia. apply Z.max_lub_lt; [|done].
  destruct (decide (perm = 0)) as [->|]; [done|]. apply Z.log2_lt_pow2; lia.
Qed.

Lemma pte_entry_spec pa perm : pa mod PGSIZE = 0 -> 0 <= pa < 2 ^ 32 -> 0 <= perm < 4096 ->
  PTE_ADDR (pte_entry pa perm) = pa /\ PTE_FLAGS (pte_entry pa perm) = Z.lor perm PTE_P /\
  flag_set (pte_entry pa perm) PTE_P = true /\ 0 <= pte_entry pa perm < 2 ^ 32.
Proof.
  intros Hal Hr Hp. unfold pte_entry. rewrite <- Z.lor_assoc.
  pose proof (lor_P_range perm Hp) as Hl.
  destruct (entry_spec pa (Z.lor perm PTE_P)) as (He & Ha & Hf); [lia..|].
  split; [done|]. split; [done|]. split; [|lia].
  unfold flag_set. rewrite Z.land_lor_distr_l, Z.land_lor_distr_l, Z.land_diag.
  apply negb_true_iff, Z.eqb_neq. intros H0.
  apply Z.lor_eq_0_iff in H0 as [_ H0]. apply Z.lor_eq_0_iff in H0 as [_ H0]. done.
Qed.

Lemma pde_entry_spec p : valid_page p ->
  let e := Z.lor (Z.lor (Z.lor (V2P p) PTE_P) PTE_W) PTE_U in
  0 <= e < 2 ^ 32 /\ P2V (PTE_ADDR e) = p /\ flag_set e PTE_P = true /\
  PTE_FLAGS e = Z.lor (Z.lor PTE_P PTE_W) PTE_U.
Proof.
  intros Hv e. pose proof (valid_page_ram p Hv). destruct Hv as [Hal _].
  assert (e = V2P p + 7) as ->.
  { subst e. rewrite <- !Z.lor_assoc. change (Z.lor PTE_P (Z.lor PTE_W PTE_U)) with 7.
    apply (entry_spec (V2P p) 7); lia. }
  split; [lia|]. split; [lia|]. rewrite flag_set_P. change (Z.lor (Z.lor _ _) _) with 7. lia.
Qed.

(** Installing a zeroed page table: the directory's words... *)
Lemma pde_store_words m m1 d va p : wf_pgdir m d -> valid_page p -> p <> d ->
  wrote m m1 p PGSIZE (fun _ => u8 0) ->
  let m' := st32 m1 (d + 4 * PDX va)
              (Z.lor (Z.lor (Z.lor (V2P p) PTE_P) PTE_W) PTE_U) in
  frame {[d; p]} m m' /\
  (forall i, 0 <= i < 1024 -> i <> PDX va -> pde m' d i = pde m d i) /\
  (forall i, 0 <= i < 1024 -> present m' d i = (i =? PDX va) || present m d i) /\
  (forall i, 0 <= i < 1024 -> pgtab m' d i = if i =? PDX va then p else pgtab m d i) /\
  PTE_FLAGS (pde m' d (PDX va)) = Z.lor (Z.lor PTE_P PTE_W) PTE_U.
Proof.
  intros Hwf Hv Hp Hw m'.
  pose proof (wrote_page_frame _ _ _ _ Hw (proj1 Hv)) as Hf1.
  assert (frame {[d; p]} m m') as Hf.
  { eapply frame_trans; [eapply frame_mono; [exact Hf1|set_solver]|].
    destruct (pde_slot m d (PDX va) Hwf (PDX_range va)) as (Hpg & Hal & _).
    apply frame_st32; [done|]. rewrite Hpg. set_solver. }
  destruct (pde_entry_spec p Hv) as (Her & Hea & Hef & Hefl).
  assert (pde m' d (PDX va) = Z.lor (Z.lor (Z.lor (V2P p) PTE_P) PTE_W) PTE_U) as Hnew.
  { unfold pde, m'. rewrite ld32_st32_eq. by apply u32_id. }
  assert (forall i, 0 <= i < 1024 -> i <> PDX va -> pde m' d i = pde m d i) as Hold.
  { intros i Hi Hne. unfold pde, m'. rewrite ld32_st32_ne by lia.
    destruct (pde_slot m d i Hwf Hi) as (Hpg & Hal & _).
    apply (frame_ld32 _ _ _ _ Hf1); [done|]. rewrite Hpg. set_solver. }
  do 2 (split; [done|]). split; [|split; [|by rewrite Hnew]]; intros i Hi; unfold present, pgtab.
  all: destruct (Z.eqb_spec i (PDX va)) as [->|Hne]; by rewrite ?Hnew, ?Hold.
Qed.

(** ... and the view: one more table, no entry changed. *)
Lemma pde_store m m1 d va p : wf_pgdir m d -> present m d (PDX va) = false ->
  valid_page p -> p ∉ pgdir_pages m d -> wrote m m1 p PGSIZE (fun _ => u8 0) ->
  let m' := st32 m1 (d + 4 * PDX va)
              (Z.lor (Z.lor (Z.lor (V2P p) PTE_P) PTE_W) PTE_U) in
  wf_pgdir m' d /\ tables m' d = tables m d ∪ {[p]} /\
  (forall i, 0 <= i < 1024 -> present m d i = true -> pde m' d i = pde m d i) /\
  present m' d (PDX va) = true /\ pgtab m' d (PDX va) = p /\
  frame {[d; p]} m m' /\ (forall va', pte m' d va' = pte m d va').
Proof.
  intros Hwf Hnp Hv Hp Hw m'. unfold pgdir_pages in Hp.
  assert (p <> d) as Hpd by set_solver.
  destruct (pde_store_words m m1 d va p Hwf Hv Hpd Hw) as (Hf & Hold & Hpr & Hpg & Hfl).
  fold m' in Hf, Hold, Hpr, Hpg, Hfl. pose proof Hwf as (Hvd & Ht & Hinj).
  assert (forall i, 0 <= i < 1024 -> present m d i = true -> i <> PDX va) as Hne.
  { intros i Hi Hpi ->. congruence. }
  assert (forall i, 0 <= i < 1024 -> present m d i = true -> pgtab m d i <> p) as Hnp'.
  { intros i Hi Hpi <-. apply Hp. pose proof (pgtab_in_tables m d i Hi Hpi). set_solver. }
  split; [|split; [|split; [|split; [|split; [|split]]]]].
  - split; [done|]. split.
    + intros i Hi. rewrite Hpr, Hpg by done.
      destruct (Z.eqb_spec i (PDX va)) as [->|Hd]; [done|]. rewrite Hold by done. auto.
    + intros i j Hi Hj. rewrite !Hpr, !Hpg by done.
      destruct (Z.eqb_spec i (PDX va)), (Z.eqb_spec j (PDX va)); simpl; intros Hi' Hj' Heq.
      * congruence.
      * by destruct (Hnp' j).
      * by destruct (Hnp' i).
      * by apply Hinj.
  - apply set_eq. intros q. rewrite elem_of_union, elem_of_singleton, !elem_of_tables.
    split.
    + intros (i & Hi & Hpi & ->). rewrite Hpr, Hpg in * by done.
      destruct (Z.eqb_spec i (PDX va)); [by right|]. left. eauto.
    + intros [(i & Hi & Hpi & ->)| ->].
      * exists i. rewrite Hpr, Hpg by done. rewrite (proj2 (Z.eqb_neq _ _)); auto.
      * exists (PDX va). rewrite Hpr, Hpg, Z.eqb_refl by lia. auto using PDX_range.
  - intros i Hi Hpi. apply Hold; auto.
  - by rewrite Hpr, Z.eqb_refl by lia.
  - by rewrite Hpg, Z.eqb_refl by lia.
  - done.
  - intros va'. pose proof (PDX_range va'). unfold pte, pte_ptr. rewrite Hpr, Hpg by done.
    destruct (Z.eqb_spec (PDX va') (PDX va)) as [->|HD]; simpl.
    + rewrite Hnp. subst m'. pose proof (valid_page_ram p Hv). destruct Hvd, Hv.
      rewrite ld32_st32_ne by lia. by eapply wrote_zero_ld32; [done|lia..].
    + destruct (present m d (PDX va')) eqn:E; [|done].
      destruct (pte_ptr_page m d va' Hwf E) as (Hpp & Hal & _). unfold pte_ptr in *.
      apply (frame_ld32 _ _ _ _ Hf); [done|]. rewrite Hpp.
      destruct (Ht _ (PDX_range va') E) as (_ & Hd' & _).
      apply not_elem_of_union. rewrite !not_elem_of_singleton. auto using PDX_range.
Qed.

(** [s'] extends [s]: page tables were added to [d] from the front of the
    free list, and memory changed in the directory's own pages only. *)
Definition pt_extend (s : machine) (l : list Z) (s' : machine) (l' : list Z) (d : Z) : Prop :=
  kmem_inv s' l' /\ wf_pgdir (mem s') d /\
  (exists new, l = new ++ l' /\ tables (mem s') d = tables (mem s) d ∪ list_to_set new) /\
  (forall i, 0 <= i < 1024 -> present (mem s) d i = true -> pde (mem s') d i = pde (mem s) d i) /\
  frame (pgdir_pages (mem s') d) (mem s) (mem s') /\
  cr3 s' = cr3 s /\ use_lock s' = use_lock s.

Lemma pt_extend_refl s l d : kmem_inv s l -> wf_pgdir (mem s) d -> pt_extend s l s l d.
Proof.
  intros Hk Hwf. do 2 (split; [done|]). split; [|done].
  exists []. split; [done|]. set_solver.
Qed.

Lemma pt_extend_trans s1 l1 s2 l2 s3 l3 d :
  pt_extend s1 l1 s2 l2 d -> pt_extend s2 l2 s3 l3 d -> pt_extend s1 l1 s3 l3 d.
Proof.
  intros (Hk1 & Hw1 & (n1 & -> & Ht1) & Hp1 & Hf1 & Hc1 & Hu1)
         (Hk2 & Hw2 & (n2 & -> & Ht2) & Hp2 & Hf2 & Hc2 & Hu2).
  do 2 (split; [done|]). split; [|split; [|split; [|split; congruence]]].
  - exists (n1 ++ n2). rewrite <- app_assoc. split; [done|].
    rewrite Ht2, Ht1, list_to_set_app_L. set_solver.
  - intros i Hi Hp. rewrite Hp2, Hp1; auto. unfold present. by rewrite Hp1.
  - eapply frame_trans; [|exact Hf2]. eapply frame_mono; [exact Hf1|].
    unfold pgdir_pages. set_solver.
Qed.

(** The directory's pages and the free list are disjoint. *)
Definition pt_sep (s : machine) (l : list Z) (d : Z) : Prop :=
  kmem_inv s l /\ wf_pgdir (mem s) d /\ (forall p, p ∈ l -> p ∉ pgdir_pages (mem s) d).

Lemma pt_extend_sep s l s' l' d :
  pt_sep s l d -> pt_extend s l s' l' d -> pt_sep s' l' d.
Proof.
  intros ([_ Hd] & _ & Hs) (Hk & Hw & (n & -> & Ht) & _). do 2 (split; [done|]).
  intros p Hp Hin. unfold pgdir_pages in *. rewrite Ht in Hin.
  apply NoDup_app in Hd as (_ & Hd & _).
  assert (p ∈ n ++ l') as Hp' by set_solver. specialize (Hs p Hp'). set_solver.
Qed.

(** [pte_store] at the level of the machine. *)
Lemma pte_store_sep s l d va v : pt_sep s l d -> present (mem s) d (PDX va) = true ->
  let s' := set_mem (st32 (mem s) (pte_ptr (mem s) d va) v) s in
  pt_extend s l s' l d /\ tables (mem s') d = tables (mem s) d /\
  (forall i, 0 <= i < 1024 -> pde (mem s') d i = pde (mem s) d i) /\
  frame (tables (mem s) d) (mem s) (mem s') /\
  (forall va', PDX va' = PDX va /\ PTX va' = PTX va -> pte (mem s') d va' = u32 v) /\
  (forall va', ~ (PDX va' = PDX va /\ PTX va' = PTX va) -> pte (mem s') d va' = pte (mem s) d va').
Proof.
  intros (Hk & Hwf & Hsep) Hpres s'.
  destruct (pte_store (mem s) d va v Hwf Hpres) as (Hwf' & Ht & Hpd & Hf & Heq & Hne).
  pose proof (pgtab_in_tables _ _ _ (PDX_range va) Hpres) as Hint.
  assert (frame (tables (mem s) d) (mem s) (mem s')) as Hf'.
  { eapply frame_mono; [exact Hf|]. set_solver. }
  split; [|done]. split; [|split; [done|split; [|split; [auto|split; [|done]]]]].
  - eapply kmem_inv_frame; [done|done|exact Hf'|].
    intros q Hq. specialize (Hsep q Hq). unfold pgdir_pages in Hsep. set_solver.
  - exists []. split; [done|]. cbn [mem set_mem s']. rewrite Ht. set_solver.
  - eapply frame_mono; [exact Hf'|]. unfold pgdir_pages. cbn [mem set_mem s'].
    rewrite Ht. set_solver.
Qed.

(** Writes elsewhere keep the directory, its view and the free list. *)
Lemma pt_sep_frame X s s' l d : pt_sep s l d -> freelist s' = freelist s ->
  frame X (mem s) (mem s') -> (forall p, p ∈ X -> p ∉ l) -> pgdir_pages (mem s) d ## X ->
  pt_sep s' l d /\ tables (mem s') d = tables (mem s) d /\
  (forall i, 0 <= i < 1024 -> pde (mem s') d i = pde (mem s) d i) /\
  (forall va, pte (mem s') d va = pte (mem s) d va).
Proof.
  intros (Hk & Hwf & Hsep) Hfl Hf Hl HX.
  destruct (pt_frame X _ _ d Hwf Hf HX) as (Hwf' & Ht & Hpde & Hpte).
  split; [|done]. split; [|split; [done|]].
  - eapply kmem_inv_frame; [done|done|exact Hf|]. set_solver.
  - unfold pgdir_pages in *. by rewrite Ht.
Qed.
End pagetable.
