(* ===== verification/VmMap.v ===== *)
(** * [walkpgdir] and [mappages]

    What the two page-table primitives of [vm.c] do to the abstract page
    table, to the free list and to the rest of memory. *)

From S2P Require Import Prelude Machine CString Kalloc Vm PageTable.
From stdpp Require Import base numbers list gmap strings sorting.
Open Scope Z_scope.

Section vmmap.
Context {LK : Linker}.

(** ** [walkpgdir] *)

Lemma walkpgdir_lookup s d va : wf_pgdir (mem s) d ->
  walkpgdir d va false s =
  Ret (if present (mem s) d (PDX va) then pte_ptr (mem s) d va else 0, s).
Proof.
  intros Hwf. destruct (pde_slot (mem s) d (PDX va) Hwf (PDX_range va)) as (_ & _ & Hr).
  unfold walkpgdir, mbind, M_bind. rewrite load32_ram by lia.
  unfold present, pde. by destruct (flag_set _ _).
Qed.

Lemma walkpgdir_alloc_wp s l d va : pt_sep s l d ->
  wp (walkpgdir d va true) s (fun r s' => exists l', pt_extend s l s' l' d /\
    (forall va', pte (mem s') d va' = pte (mem s) d va') /\
    ((r = pte_ptr (mem s') d va /\ r <> 0 /\ present (mem s') d (PDX va) = true) \/
     (r = 0 /\ l = [] /\ s' = s))).
Proof.
  intros (Hk & Hwf & Hsep).
  destruct (pde_slot (mem s) d (PDX va) Hwf (PDX_range va)) as (_ & _ & Hr).
  unfold walkpgdir. rewrite wp_bind, wp_load32 by lia.
  destruct (flag_set _ _) eqn:E.
  { apply wp_ret. exists l. split; [by apply pt_extend_refl|]. split; [done|]. left.
    split; [done|]. pose proof (pte_ptr_page _ _ va Hwf E) as (_ & _ & Hp & _).
    unfold pte_ptr, pgtab, pde in Hp. split; [lia|done]. }
  cbn [negb]. rewrite wp_bind. eapply wp_mono; [by apply kalloc_wp|].
  intros r s1 Hr1. destruct l as [|p l].
  { destruct Hr1 as [-> ->]. apply wp_ret. exists []. split; [by apply pt_extend_refl|].
    split; [done|]. by right. }
  destruct Hr1 as (-> & Hv & Hpl & Hk1 & Hm1 & Hc1 & Hu1).
  pose proof (valid_page_ram p Hv) as Hpr. rewrite (proj2 (Z.eqb_neq _ _)) by lia.
  rewrite wp_bind. eapply wp_mono; [apply memset_ram; unfold ram_range; lia|].
  intros _ s2 [(Hf2 & Hc2 & Hu2)%only_mem_fields Hw]. rewrite Hm1 in Hw.
  rewrite wp_bind, wp_store32 by lia. apply wp_ret.
  destruct (pde_store (mem s) (mem s2) d va p Hwf E Hv) as
    (Hwf' & Ht & Hpde & Hpres & Htab & Hfr & Hpte); [by apply Hsep; set_solver|done|].
  exists l. split; [|split; [done|left; split; [|split]]].
  - split; [|split; [done|split; [|split; [done|split; [|split]]]]].
    + eapply (kmem_inv_frame {[d; p]} s1); [done|done|by rewrite Hm1|].
      intros q Hq. pose proof (Hsep q) as Hq'. unfold pgdir_pages in Hq'. set_solver.
    + exists [p]. split; [done|]. cbn [mem set_mem]. rewrite Ht. set_solver.
    + eapply frame_mono; [done|]. unfold pgdir_pages. cbn [mem set_mem]. rewrite Ht. set_solver.
    + cbn. congruence.
    + cbn. congruence.
  - unfold pte_ptr. cbn [mem set_mem]. by rewrite Htab.
  - lia.
  - done.
Qed.

(** ** [mappages] *)

(** The entries of [d] after mapping [k] pages from [a] to [pa]. *)
Definition mapped (m m' : gmap Z Z) (d a k pa perm : Z) : Prop :=
  forall va, 0 <= va < 2 ^ 32 ->
    pte m' d va = if (a <=? va) && (va <? a + k * PGSIZE)
                  then pte_entry (pa + (page_of va - a)) perm else pte m d va.

(** One iteration: walk, check, store. *)
Lemma map_one_wp s l d a pa perm (K : M machine Z) Q :
  pt_sep s l d -> a mod PGSIZE = 0 -> 0 <= a < 2 ^ 32 -> pa mod PGSIZE = 0 ->
  0 <= pa < 2 ^ 32 -> 0 <= perm < 4096 -> flag_set (pte (mem s) d a) PTE_P = false ->
  (l = [] -> Q (-1) s) ->
  (forall s' l', pt_extend s l s' l' d -> mapped (mem s) (mem s') d a 1 pa perm -> wp K s' Q) ->
  wp (pte ← walkpgdir d a true;
      if pte =? 0 then mret (-1)
      else e ← load32 pte;
           if flag_set e PTE_P then panic "remap"
           else _ ← store32 pte (Z.lor (Z.lor pa perm) PTE_P); K) s Q.
Proof.
  intros Hsep Ha Har Hpa Hpar Hperm Hnp Hfail HK. rewrite wp_bind.
  eapply wp_mono; [by apply walkpgdir_alloc_wp|]. intros r s1 (l1 & Hext & Hpte & Hr).
  destruct Hr as [(Hr & Hr0 & Hpres)|(-> & Hl & ->)]; [|by apply Hfail].
  rewrite (proj2 (Z.eqb_neq _ _)) by done.
  pose proof (pt_extend_sep _ _ _ _ _ Hsep Hext) as Hsep1.
  destruct (pte_ptr_page _ _ a (proj1 (proj2 Hsep1)) Hpres) as (Hpp & Hal & Hrr).
  subst r. rewrite wp_bind, wp_load32 by lia.
  assert (ld32 (mem s1) (pte_ptr (mem s1) d a) = pte (mem s1) d a) as ->.
  { unfold pte. by rewrite Hpres. }
  rewrite Hpte, Hnp. rewrite wp_bind, wp_store32 by lia. fold (pte_entry pa perm).
  destruct (pte_store_sep s1 l1 d a (pte_entry pa perm) Hsep1 Hpres) as
    (Hext2 & _ & _ & _ & Heq & Hne).
  apply (HK _ l1); [by eapply pt_extend_trans|].
  intros va Hva. destruct (_ && _) eqn:E.
  - rewrite Heq by lia. replace (pa + (page_of va - a)) with pa by lia.
    apply u32_id. by apply pte_entry_spec.
  - rewrite Hne by lia. apply Hpte.
Qed.

Lemma mappages_loop_wp d perm n : forall s l a last pa,
  pt_sep s l d -> a mod PGSIZE = 0 -> 0 <= a ->
  a + Z.of_nat (S n) * PGSIZE <= 2 ^ 32 -> last = a + Z.of_nat n * PGSIZE ->
  pa mod PGSIZE = 0 -> 0 <= pa -> pa + Z.of_nat (S n) * PGSIZE <= 2 ^ 32 ->
  0 <= perm < 4096 ->
  (forall va, a <= va < a + Z.of_nat (S n) * PGSIZE -> flag_set (pte (mem s) d va) PTE_P = false) ->
  wp (mappages_loop (S n) d a last pa perm) s (fun r s' => exists l' k,
    pt_extend s l s' l' d /\ mapped (mem s) (mem s') d a k pa perm /\
    ((r = 0 /\ k = Z.of_nat (S n)) \/ (r = -1 /\ l' = [] /\ 0 <= k < Z.of_nat (S n)))).
Proof.
  induction n as [|n IH]; intros s l a last pa Hsep Ha Ha0 Ha1 Hlast Hpa Hpa0 Hpa1 Hperm Hnp.
  all: match goal with |- context [mappages_loop (S ?x)] =>
         remember x as x' in |- *; cbn [mappages_loop]; subst x' end.
  all: apply map_one_wp with (l := l); [done|done|lia|done|lia|done|by apply Hnp; lia| |].
  - intros ->. exists [], 0. split; [apply pt_extend_refl; apply Hsep|].
    split; [|right; split_and!; [done|done|lia|lia]]. intros va Hva. wrote_case.
  - intros s1 l1 Hext Hmap. rewrite (proj2 (Z.eqb_eq _ _)) by lia. apply wp_ret.
    exists l1, 1. split; [done|]. split; [done|]. left. lia.
  - intros ->. exists [], 0. split; [apply pt_extend_refl; apply Hsep|].
    split; [|right; split_and!; [done|done|lia|lia]]. intros va Hva. wrote_case.
  - intros s1 l1 Hext Hmap. rewrite (proj2 (Z.eqb_neq _ _)) by lia.
    rewrite !u32_id by lia.
    eapply wp_mono; [apply (IH s1 l1); try lia|].
    + by eapply pt_extend_sep.
    + intros va Hva. rewrite (Hmap va) by lia.
      destruct (_ && _) eqn:E; [lia|]. apply Hnp. lia.
    + intros r s2 (l2 & k & Hext2 & Hmap2 & Hr). exists l2, (k + 1).
      split; [by eapply pt_extend_trans|].
      assert (0 <= k) by (destruct Hr as [[_ ->]|(_ & _ & ?)]; lia).
      split; [|destruct Hr as [[-> ->]|(-> & -> & Hk)]; [left|right; split_and!]; lia || done]. intros va Hva. rewrite (Hmap2 va), (Hmap va) by done.
      wrote_case. all: try done. f_equal. lia.
Qed.

(** Number of pages touched by [size] bytes at [va]. *)
Definition npages (va size : Z) : Z := (page_of (va + size - 1) - page_of va) / PGSIZE + 1.

Lemma mappages_wp s l d va size pa perm :
  pt_sep s l d -> 0 <= va -> 0 < size -> va + size <= 2 ^ 32 ->
  pa mod PGSIZE = 0 -> 0 <= pa -> pa + npages va size * PGSIZE <= 2 ^ 32 ->
  0 <= perm < 4096 ->
  (forall a, page_of va <= a < va + size -> flag_set (pte (mem s) d a) PTE_P = false) ->
  wp (mappages d va size pa perm) s (fun r s' => exists l' k,
    pt_extend s l s' l' d /\ mapped (mem s) (mem s') d (page_of va) k pa perm /\
    ((r = 0 /\ k = npages va size) \/ (r = -1 /\ l' = [] /\ 0 <= k < npages va size))).
Proof.
  intros Hsep Hva Hsz Hov Hpa Hpa0 Hpa1 Hperm Hnp. unfold mappages, npages in *.
  replace (PGROUNDDOWN va) with (page_of va) by lia.
  replace (PGROUNDDOWN (va + size - 1)) with (page_of (va + size - 1)) by lia.
  replace (u32 (page_of (va + size - 1) - page_of va)) with
    (page_of (va + size - 1) - page_of va) by lia.
  set (n := Z.to_nat ((page_of (va + size - 1) - page_of va) / PGSIZE)).
  assert (Z.of_nat (S n) = (page_of (va + size - 1) - page_of va) / PGSIZE + 1) as <-
    by (subst n; lia).
  apply mappages_loop_wp; try done; try lia.
  intros a Ha. set (b := Z.min a (va + size - 1)).
  assert (PDX a = PDX b /\ PTX a = PTX b) as [HD HT] by (subst b; lia).
  rewrite <- (Hnp b) by (subst b; lia). unfold pte, pte_ptr. by rewrite HD, HT.
Qed.
End vmmap.
