(* ===== verification/VmUser.v ===== *)
(** * User memory: [deallocuvm], [allocuvm], [freevm]

    The frames a directory maps in a range of user addresses, and how the
    operations of [vm.c] that grow, shrink and free user memory move
    pages between those frames, the page tables and the free list. *)

From S2P Require Import Prelude Machine CString Kalloc Vm PageTable VmMap.
From stdpp Require Import base numbers list gmap strings sorting.
Open Scope Z_scope.

Section vmuser.
Context {LK : Linker}.

Definition uframe (m : gmap Z Z) (d va : Z) : Z := P2V (PTE_ADDR (pte m d va)).
Definition mapped_page (m : gmap Z Z) (d va : Z) : bool := flag_set (pte m d va) PTE_P.

(** Frames mapped at the [n] pages from [a], in address order. *)
Definition user_frames (m : gmap Z Z) (d a : Z) (n : nat) : list Z :=
  uframe m d <$> filter (fun va => mapped_page m d va = true) (pages a n).

(** The directory, its user frames in the range and the free list are
    made of distinct allocatable pages. *)
Definition user_sep (s : machine) (l : list Z) (d a : Z) (n : nat) : Prop :=
  pt_sep s l d /\ NoDup (user_frames (mem s) d a n ++ l) /\
  Forall valid_page (user_frames (mem s) d a n) /\
  (forall p, p ∈ user_frames (mem s) d a n -> p ∉ pgdir_pages (mem s) d).

Lemma pages_app n k : forall a, pages a (n + k) = pages a n ++ pages (a + PGSIZE * Z.of_nat n) k.
Proof.
  induction n as [|n IH]; intros a; simpl.
  - f_equal. lia.
  - rewrite IH. do 3 f_equal. lia.
Qed.

Lemma user_frames_app m d a n k :
  user_frames m d a (n + k) =
  user_frames m d a n ++ user_frames m d (a + PGSIZE * Z.of_nat n) k.
Proof. unfold user_frames. by rewrite pages_app, filter_app, fmap_app. Qed.

Lemma user_frames_cons m d a n :
  user_frames m d a (S n) =
  (if mapped_page m d a then [uframe m d a] else []) ++ user_frames m d (a + PGSIZE) n.
Proof.
  unfold user_frames. cbn [pages]. rewrite filter_cons.
  destruct (mapped_page m d a); by rewrite ?decide_True, ?decide_False by done.
Qed.

Lemma pte_page m d va va' : page_of va = page_of va' -> pte m d va = pte m d va'.
Proof.
  intros. assert (PDX va = PDX va' /\ PTX va = PTX va') as [HD HT] by lia.
  unfold pte, pte_ptr. by rewrite HD, HT.
Qed.

Lemma elem_of_user_frames m d a n va : a mod PGSIZE = 0 ->
  a <= va < a + Z.of_nat n * PGSIZE -> mapped_page m d va = true ->
  uframe m d va ∈ user_frames m d a n.
Proof.
  intros Ha Hva Hm. unfold user_frames, uframe, mapped_page in *.
  rewrite (pte_page m d va (page_of va)) in * by lia.
  apply list_elem_of_fmap. exists (page_of va). split; [done|].
  apply list_elem_of_filter. split; [done|]. apply elem_of_pages; lia.
Qed.

(** Distinct frames belong to distinct pages. *)
Lemma user_frames_inj m d n a b : NoDup (user_frames m d 0 n) ->
  0 <= a < Z.of_nat n * PGSIZE -> 0 <= b < Z.of_nat n * PGSIZE ->
  mapped_page m d a = true -> mapped_page m d b = true -> uframe m d a = uframe m d b ->
  page_of a = page_of b.
Proof.
  intros Hnd Ha Hb Hma Hmb. unfold uframe, mapped_page in *.
  rewrite (pte_page m d a (page_of a)), (pte_page m d b (page_of b)) in * by lia.
  assert (forall x, 0 <= x < Z.of_nat n * PGSIZE -> flag_set (pte m d (page_of x)) PTE_P = true ->
    page_of x ∈ filter (fun va => mapped_page m d va = true) (pages 0 n)) as Hin.
  { intros x Hx Hm. apply list_elem_of_filter. split; [done|]. apply elem_of_pages; lia. }
  apply (NoDup_fmap_inj (uframe m d) _ _ _ Hnd); by apply Hin.
Qed.

Lemma user_frames_ext m m' d a n :
  (forall va, va ∈ pages a n -> pte m' d va = pte m d va) ->
  user_frames m' d a n = user_frames m d a n.
Proof.
  revert a. induction n as [|n IH]; intros a H; [done|].
  rewrite !user_frames_cons, (IH (a + PGSIZE)) by (intros; apply H; set_solver).
  unfold mapped_page, uframe. by rewrite (H a) by set_solver.
Qed.

Lemma user_frames_unmapped m d a n :
  (forall va, va ∈ pages a n -> mapped_page m d va = false) -> user_frames m d a n = [].
Proof.
  revert a. induction n as [|n IH]; intros a H; [done|].
  rewrite user_frames_cons, H by set_solver. apply IH. set_solver.
Qed.

(** ** [deallocuvm] *)

(** Entries after unmapping the [n] pages from [a]. *)
Definition unmapped (m m' : gmap Z Z) (d a : Z) (n : nat) : Prop :=
  forall va, 0 <= va < 2 ^ 32 ->
    pte m' d va = if (a <=? va) && (va <? a + Z.of_nat n * PGSIZE) && mapped_page m d va
                  then 0 else pte m d va.

(** Effect of freeing the user pages of a range: the frames return to the
    free list, the page tables stay. *)
Definition dealloc_post (s : machine) (l : list Z) (d a : Z) (n : nat)
    (s' : machine) (l' : list Z) : Prop :=
  kmem_inv s' l' /\ l' ≡ₚ user_frames (mem s) d a n ++ l /\
    wf_pgdir (mem s') d /\ tables (mem s') d = tables (mem s) d /\
    (forall i, 0 <= i < 1024 -> pde (mem s') d i = pde (mem s) d i) /\
    unmapped (mem s) (mem s') d a n /\
    frame (tables (mem s) d ∪ list_to_set (user_frames (mem s) d a n)) (mem s) (mem s') /\
    cr3 s' = cr3 s /\ use_lock s' = use_lock s.

(** Freeing the page at [a], when it is mapped. *)
Lemma dealloc_one_wp s l d a n : 0 <= a < 2 ^ 32 -> a mod PGSIZE = 0 ->
  user_sep s l d a (S n) -> present (mem s) d (PDX a) = true ->
  wp (e ← load32 (pte_ptr (mem s) d a);
      if flag_set e PTE_P then
        let pa := PTE_ADDR e in
        if pa =? 0 then panic "kfree" else _ ← kfree (P2V pa); store32 (pte_ptr (mem s) d a) 0
      else mret ()) s
    (fun _ s' => exists l', dealloc_post s l d a 1 s' l').
Proof.
  intros Ha Hal ((Hk & Hwf & Hsep) & Hnd & Hval & Hdis) Hpres.
  destruct (pte_ptr_page _ _ a Hwf Hpres) as (Hpp & Hpal & Hpr).
  rewrite wp_bind, wp_load32 by lia.
  assert (ld32 (mem s) (pte_ptr (mem s) d a) = pte (mem s) d a) as ->
    by (unfold pte; by rewrite Hpres).
  rewrite user_frames_cons in *. unfold mapped_page in *.
  unfold dealloc_post, unmapped. rewrite !user_frames_cons. unfold mapped_page.
  destruct (flag_set (pte (mem s) d a) PTE_P) eqn:E.
  - simpl in Hnd, Hval, Hdis. apply Forall_cons in Hval as [Hv Hval].
    apply NoDup_cons in Hnd as [Hnin Hnd].
    fold (uframe (mem s) d a). set (p := uframe (mem s) d a) in *.
    pose proof (valid_page_ram p Hv) as Hvr.
    rewrite (proj2 (Z.eqb_neq _ _)) by (unfold p, uframe in Hvr; lia).
    rewrite wp_bind. eapply wp_mono; [apply kfree_wp; [done|done|set_solver]|].
    intros _ s1 (Hk1 & Hf1 & Hc1 & Hu1).
    assert (p ∉ pgdir_pages (mem s) d) as Hpd by (apply Hdis; set_solver).
    destruct (pt_frame _ _ _ d Hwf Hf1 ltac:(set_solver)) as (Hwf1 & Ht1 & Hpde1 & Hpte1).
    assert (pte_ptr (mem s) d a = pte_ptr (mem s1) d a) as Hptr
      by (unfold pte_ptr, pgtab; by rewrite Hpde1 by lia).
    assert (present (mem s1) d (PDX a) = true) as Hpres1
      by (unfold present; by rewrite Hpde1 by lia).
    assert (pt_sep s1 (p :: l) d) as Hsep1.
    { do 2 (split; [done|]). unfold pgdir_pages in *. rewrite Ht1. intros q.
      rewrite elem_of_cons. intros [->|Hq]; [done|]. by apply Hsep. }
    rewrite wp_store32 by lia. rewrite Hptr.
    destruct (pte_store_sep s1 (p :: l) d a 0 Hsep1 Hpres1) as
      ((Hk2 & Hwf2 & _) & Ht2 & Hpde2 & Hf2 & Heq & Hne).
    exists (p :: l). split; [done|]. split; [done|]. split; [done|]. split; [by rewrite Ht2|].
    split; [intros i Hi; by rewrite Hpde2, Hpde1|]. split; [|split; [|done]].
    + intros va Hva. destruct (_ && _ && _) eqn:Ec.
      * rewrite Heq by lia. done.
      * destruct (decide (PDX va = PDX a /\ PTX va = PTX a)) as [[HD HT]|Hd].
        -- assert (pte (mem s) d va = pte (mem s) d a) as Hpa
             by (unfold pte, pte_ptr; by rewrite HD, HT).
           rewrite Hpa, E in Ec. lia.
        -- by rewrite Hne, Hpte1.
    + eapply frame_trans; [eapply frame_mono; [exact Hf1|]|eapply frame_mono; [exact Hf2|]].
      all: rewrite ?Ht1; set_solver.
  - apply wp_ret. exists l. do 5 (split; [done|]). split; [|done].
    intros va Hva. destruct (_ && _ && _) eqn:Ec; [|done].
    assert (PDX va = PDX a /\ PTX va = PTX a) as [HD HT] by lia.
    assert (pte (mem s) d va = pte (mem s) d a) as Hpa
      by (unfold pte, pte_ptr; by rewrite HD, HT).
    rewrite Hpa, E in Ec. lia.
Qed.

Lemma dealloc_skip s l d a n : pt_sep s l d ->
  (forall va, a <= va < a + Z.of_nat n * PGSIZE -> mapped_page (mem s) d va = false) ->
  a mod PGSIZE = 0 -> dealloc_post s l d a n s l.
Proof.
  intros (Hk & Hwf & _) Hun Ha. split; [done|]. split.
  { rewrite user_frames_unmapped; [done|]. intros va Hva.
    rewrite elem_of_pages in Hva by done. apply Hun. lia. }
  do 3 (split; [done|]). split; [|done].
  intros va Hva. destruct (_ && _ && _) eqn:E; [|done].
  rewrite Hun in E by lia. lia.
Qed.

Lemma dealloc_frames_rest s l d a k n s1 l1 : a mod PGSIZE = 0 -> 0 <= a ->
  a + Z.of_nat (k + n) * PGSIZE <= 2 ^ 32 -> dealloc_post s l d a k s1 l1 ->
  user_frames (mem s1) d (a + PGSIZE * Z.of_nat k) n =
  user_frames (mem s) d (a + PGSIZE * Z.of_nat k) n.
Proof.
  intros Ha Ha0 Hb (_ & _ & _ & _ & _ & Hun & _). apply user_frames_ext. intros va Hva.
  rewrite elem_of_pages in Hva by lia. rewrite (Hun va) by lia. wrote_case.
Qed.

Lemma dealloc_post_sep s l d a k n s1 l1 : a mod PGSIZE = 0 -> 0 <= a ->
  a + Z.of_nat (k + n) * PGSIZE <= 2 ^ 32 ->
  user_sep s l d a (k + n) -> dealloc_post s l d a k s1 l1 ->
  user_sep s1 l1 d (a + PGSIZE * Z.of_nat k) n.
Proof.
  intros Ha Ha0 Hb ((Hk & Hwf & Hsep) & Hnd & Hval & Hdis) Hpost.
  pose proof (dealloc_frames_rest _ _ _ _ _ _ _ _ Ha Ha0 Hb Hpost) as Hrest.
  destruct Hpost as (Hk1 & Hperm & Hwf1 & Ht1 & _).
  rewrite user_frames_app in *. unfold user_sep, pt_sep, pgdir_pages in *.
  rewrite Hrest, Ht1. split; [|split; [|split]].
  - do 2 (split; [done|]). intros p. rewrite Hperm, elem_of_app.
    intros [Hp|Hp]; [|by apply Hsep]. apply Hdis. set_solver.
  - rewrite Hperm, app_assoc, (Permutation_app_comm (user_frames _ _ _ n)). done.
  - by apply Forall_app in Hval as [_ ?].
  - intros p Hp. apply Hdis. set_solver.
Qed.

Lemma dealloc_post_trans s l d a k n s1 l1 s2 l2 : a mod PGSIZE = 0 -> 0 <= a ->
  a + Z.of_nat (k + n) * PGSIZE <= 2 ^ 32 -> dealloc_post s l d a k s1 l1 ->
  dealloc_post s1 l1 d (a + PGSIZE * Z.of_nat k) n s2 l2 -> dealloc_post s l d a (k + n) s2 l2.
Proof.
  intros Ha Ha0 Hb Hp1 Hp2.
  pose proof (dealloc_frames_rest _ _ _ _ _ _ _ _ Ha Ha0 Hb Hp1) as Hrest.
  destruct Hp1 as (Hk1 & Hperm1 & Hwf1 & Ht1 & Hpde1 & Hun1 & Hf1 & Hc1 & Hu1).
  destruct Hp2 as (Hk2 & Hperm2 & Hwf2 & Ht2 & Hpde2 & Hun2 & Hf2 & Hc2 & Hu2).
  rewrite Hrest in *. unfold dealloc_post. rewrite user_frames_app.
  split; [done|]. split.
  { rewrite Hperm2, Hperm1, app_assoc. by rewrite (Permutation_app_comm (user_frames _ _ _ n)). }
  split; [done|]. split; [congruence|]. split; [intros i Hi; by rewrite Hpde2, Hpde1|].
  split; [|split; [|split; congruence]].
  - intros va Hva. rewrite (Hun2 va) by done. unfold mapped_page at 1.
    rewrite !(Hun1 va) by done. unfold mapped_page.
    destruct (flag_set (pte (mem s) d va) PTE_P) eqn:F.
    2: { rewrite !andb_false_r, F. by rewrite andb_false_r. }
    rewrite !andb_true_r. destruct ((a <=? va) && (va <? a + Z.of_nat k * PGSIZE)) eqn:E1.
    { change (flag_set 0 PTE_P) with false. rewrite andb_false_r. wrote_case. }
    rewrite F, andb_true_r. wrote_case.
  - rewrite list_to_set_app_L. eapply frame_trans; [eapply frame_mono; [exact Hf1|set_solver]|].
    rewrite Ht1 in Hf2. eapply frame_mono; [exact Hf2|set_solver].
Qed.

Lemma dealloc_post_0 s l d a b s' l' :
  dealloc_post s l d a 0 s' l' -> dealloc_post s l d b 0 s' l'.
Proof.
  intros (Hk & Hperm & Hwf & Ht & Hpde & Hun & Hf). do 5 (split; [done|]). split; [|done].
  intros va Hva. rewrite (Hun va) by done. wrote_case.
Qed.

(** Next address after a missing page table: the start of the next 4 MB. *)
Lemma dealloc_next a : 0 <= a < KERNBASE ->
  u32 (u32 (PGADDR (PDX a + 1) 0 0 - PGSIZE) + PGSIZE) = (PDX a + 1) * 4194304.
Proof. intros. rewrite PGADDR_next by lia. lia. Qed.

(** [n] pages from [a] cover the addresses below [oldsz]. *)
Definition covers (a : Z) (n : nat) (oldsz : Z) : Prop :=
  (n = O /\ oldsz <= a) \/ (a + (Z.of_nat n - 1) * PGSIZE < oldsz <= a + Z.of_nat n * PGSIZE).

Lemma deallocuvm_loop_wp d oldsz fuel : forall n s l a,
  (n < fuel)%nat -> 0 <= a -> a mod PGSIZE = 0 -> oldsz <= KERNBASE -> covers a n oldsz ->
  user_sep s l d a n ->
  wp (deallocuvm_loop fuel d a oldsz) s (fun _ s' => exists l', dealloc_post s l d a n s' l').
Proof.
  induction fuel as [|fuel IH]; intros n s l a Hfuel Ha0 Ha Hold Hcov Hsep; [lia|].
  cbn [deallocuvm_loop]. destruct (Z.ltb_spec a oldsz) as [Hlt|Hge]; last first.
  { assert (n = O) as -> by (destruct Hcov; lia). apply wp_ret. exists l.
    apply dealloc_skip; [apply Hsep|lia|done]. }
  pose proof Hsep as ((Hk & Hwf & Hs) & _).
  rewrite wp_bind, (wp_run _ _ _ _ _ (walkpgdir_lookup s d a Hwf)).
  destruct (present (mem s) d (PDX a)) eqn:Hpres; last first.
  - change (0 =? 0) with true. cbv iota. rewrite dealloc_next by lia.
    set (a' := (PDX a + 1) * 4194304). set (k := Nat.min n (Z.to_nat ((a' - a) / PGSIZE))).
    assert (dealloc_post s l d a k s l) as Hskip.
    { apply dealloc_skip; [apply Hsep| |done]. intros va Hva. unfold mapped_page, pte.
      replace (PDX va) with (PDX a) by (subst k a'; lia). by rewrite Hpres. }
    assert (n = k + (n - k))%nat as Hn by (subst k; lia).
    assert (a + Z.of_nat (k + (n - k)) * PGSIZE <= 2 ^ 32) as Hb.
    { rewrite <- Hn. destruct Hcov; lia. }
    assert (user_sep s l d a' (n - k) /\
            (forall s' l', dealloc_post s l d a' (n - k) s' l' ->
              dealloc_post s l d (a + PGSIZE * Z.of_nat k) (n - k) s' l')) as [Hsep' Hconv].
    { destruct (decide (n = k)) as [<-|Hnk].
      - rewrite Nat.sub_diag. split; [|intros; by eapply dealloc_post_0].
        split; [done|]. split; [apply Hk|]. split; [by constructor|]. set_solver.
      - replace (a + PGSIZE * Z.of_nat k) with a' by (subst k a'; lia).
        split; [|done]. replace a' with (a + PGSIZE * Z.of_nat k) by (subst k a'; lia).
        eapply dealloc_post_sep; [done|done|exact Hb|by rewrite <- Hn|exact Hskip]. }
    eapply wp_mono; [apply (IH (n - k)%nat); [|lia|lia|done| |done]|].
    + subst k a'. destruct Hcov; lia.
    + unfold covers in *. subst k a'. lia.
    + intros _ s' [l' Hp]. exists l'. rewrite Hn.
      eapply dealloc_post_trans; [done|done|done|exact Hskip|]. auto.
  - destruct n as [|n]; [destruct Hcov; lia|].
    destruct (pte_ptr_page _ _ a Hwf Hpres) as (_ & _ & Hr).
    rewrite (proj2 (Z.eqb_neq _ _)) by lia.
    pose proof (dealloc_one_wp s l d a n ltac:(lia) Ha Hsep Hpres) as Hone.
    rewrite wp_bind in Hone |- *. eapply wp_mono; [exact Hone|]. cbv beta. intros e s0 He.
    rewrite wp_bind. eapply wp_mono; [exact He|]. intros _ s1 [l1 Hp1].
    replace (u32 (a + PGSIZE)) with (a + PGSIZE * Z.of_nat 1) by lia.
    assert (a + Z.of_nat (1 + n) * PGSIZE <= 2 ^ 32) by (destruct Hcov; lia).
    eapply wp_mono; [apply (IH n s1 l1); [lia|lia|lia|done| |]|].
    + unfold covers in *. lia.
    + by apply (dealloc_post_sep s l).
    + intros _ s2 [l2 Hp2]. exists l2. by apply (dealloc_post_trans s l d a 1 n s1 l1).
Qed.

Lemma deallocuvm_wp s l d oldsz newsz n : 0 <= newsz < oldsz -> oldsz <= KERNBASE ->
  covers (PGROUNDUP newsz) n oldsz -> user_sep s l d (PGROUNDUP newsz) n ->
  wp (deallocuvm d oldsz newsz) s (fun r s' => r = newsz /\
    exists l', dealloc_post s l d (PGROUNDUP newsz) n s' l').
Proof.
  intros Hsz Hold Hcov Hsep. unfold deallocuvm.
  rewrite (proj2 (Z.leb_gt _ _)) by lia. rewrite wp_bind.
  eapply wp_mono; [apply (deallocuvm_loop_wp d oldsz _ n s l); [|lia|lia|done|done|done]|].
  - unfold covers in Hcov. lia.
  - intros [] s' Hp. by apply wp_ret.
Qed.
End vmuser.
