(* ===== verification/VmAlloc.v ===== *)
(** * Growing user memory: [allocuvm]

    On success every new page is backed by a fresh zeroed frame; on
    failure the frames go back to the free list and no entry differs from
    before, only page tables may have been added. *)

From S2P Require Import Prelude Machine CString Kalloc Vm PageTable VmMap VmUser.
From stdpp Require Import base numbers list gmap strings sorting.
Open Scope Z_scope.

Section vmalloc.
Context {LK : Linker}.

(** Pages moved from the free list [l] to the [k] user pages from [a], to
    page tables of [d] and into the caller's hands ([h]); [l'] is left. *)
Definition alloc_moved (s : machine) (l : list Z) (d a : Z) (k : nat) (h : list Z)
    (s' : machine) (l' : list Z) : Prop :=
  kmem_inv s' l' /\ wf_pgdir (mem s') d /\
  exists new, l ≡ₚ user_frames (mem s') d a k ++ new ++ h ++ l' /\
    tables (mem s') d = tables (mem s) d ∪ list_to_set new.

(** [k] pages from [a] were added to directory [d] between [s] and [s']. *)
Definition alloc_post (s : machine) (l : list Z) (d a : Z) (k : nat)
    (s' : machine) (l' : list Z) : Prop :=
  alloc_moved s l d a k [] s' l' /\
  (forall i, 0 <= i < 1024 -> present (mem s) d i = true -> pde (mem s') d i = pde (mem s) d i) /\
  (forall va, 0 <= va < 2 ^ 32 -> ~ a <= va < a + Z.of_nat k * PGSIZE ->
     pte (mem s') d va = pte (mem s) d va) /\
  (forall va, a <= va < a + Z.of_nat k * PGSIZE ->
     mapped_page (mem s') d va = true /\
     PTE_FLAGS (pte (mem s') d va) = Z.lor (Z.lor PTE_W PTE_U) PTE_P /\
     ld8 (mem s') (uframe (mem s') d va + va mod PGSIZE) = 0) /\
  frame (pgdir_pages (mem s') d ∪ list_to_set (user_frames (mem s') d a k)) (mem s) (mem s') /\
  cr3 s' = cr3 s /\ use_lock s' = use_lock s.

Lemma alloc_post_refl s l d a : pt_sep s l d -> alloc_post s l d a 0 s l.
Proof.
  intros (Hk & Hwf & _). split.
  { do 2 (split; [done|]). exists []. split; [done|]. set_solver. }
  split; [done|]. split; [done|]. split; [lia|]. done.
Qed.

(** Separation after the allocation follows from separation before it. *)
Lemma alloc_sep s l d a k h s' l' : pt_sep s l d -> alloc_moved s l d a k h s' l' ->
  user_sep s' l' d a k.
Proof.
  intros (Hk & Hwf & Hsep) (Hk' & Hwf' & new & Hperm & Ht).
  destruct Hk as [Hl Hnd]. rewrite Hperm in Hnd.
  apply NoDup_app in Hnd as (Hnd1 & Hdis1 & Hnd2). apply NoDup_app in Hnd2 as (_ & Hdis2 & _).
  assert (forall p, p ∈ l -> valid_page p) as Hval.
  { by apply Forall_forall, (flist_valid (mem s) l (freelist s)). }
  assert (forall p, p ∈ l -> p ∉ new -> p ∉ pgdir_pages (mem s') d) as Hpg.
  { intros p Hp Hn. specialize (Hsep p Hp). unfold pgdir_pages in *. rewrite Ht.
    rewrite !not_elem_of_union, elem_of_list_to_set in *. tauto. }
  split; [|split; [|split]].
  - do 2 (split; [done|]). intros p Hp. apply Hpg; [rewrite Hperm; set_solver|].
    intros Hn. apply (Hdis2 p Hn). set_solver.
  - apply NoDup_app. split; [done|]. split; [|apply Hk'].
    intros p Hp Hp'. apply (Hdis1 p Hp). set_solver.
  - apply Forall_forall. intros p Hp. apply Hval. rewrite Hperm. set_solver.
  - intros p Hp. apply Hpg; [rewrite Hperm; set_solver|].
    intros Hn. apply (Hdis1 p Hp). set_solver.
Qed.

(** One page: [p] was taken from the free list, zeroed ([s2]) and mapped
    at the next address ([s3]). *)
Lemma alloc_step_moved s l d a k s1 p l2 s2 l3 s3 :
  a mod PGSIZE = 0 -> 0 <= a -> a + Z.of_nat (S k) * PGSIZE <= 2 ^ 32 -> valid_page p ->
  alloc_moved s l d a k [] s1 (p :: l2) ->
  (forall va, pte (mem s2) d va = pte (mem s1) d va) -> tables (mem s2) d = tables (mem s1) d ->
  pt_extend s2 l2 s3 l3 d ->
  mapped (mem s2) (mem s3) d (a + Z.of_nat k * PGSIZE) 1 (V2P p) (Z.lor PTE_W PTE_U) ->
  alloc_moved s l d a (S k) [] s3 l3 /\
  user_frames (mem s3) d a (S k) = user_frames (mem s1) d a k ++ [p].
Proof.
  intros Ha Ha0 Hb Hv (_ & _ & new & Hperm & Ht) Hpte Ht2
    (Hk3 & Hwf3 & (new3 & -> & Ht3) & _) Hmap.
  pose proof (valid_page_ram p Hv) as Hvr. destruct Hv as [Hal _].
  assert (user_frames (mem s3) d a (S k) = user_frames (mem s1) d a k ++ [p]) as Huf.
  { rewrite <- Nat.add_1_r, user_frames_app, user_frames_cons. f_equal.
    - apply user_frames_ext. intros va Hva. rewrite elem_of_pages in Hva by done.
      rewrite (Hmap va) by lia. rewrite (proj2 (andb_false_iff _ _)) by lia. apply Hpte.
    - unfold mapped_page, uframe. rewrite Hmap by lia.
      rewrite (proj2 (andb_true_iff _ _)) by lia.
      destruct (pte_entry_spec (V2P p) (Z.lor PTE_W PTE_U)) as (He & _ & Hf & _); [lia..|done|].
      replace (V2P p + _) with (V2P p) by lia. rewrite Hf, He. simpl. f_equal. lia. }
  split; [|done]. do 2 (split; [done|]). exists (new ++ new3). rewrite Huf. split.
  - rewrite Hperm, <- !app_assoc. apply Permutation_app_head. simpl.
    by rewrite <- Permutation_middle.
  - rewrite Ht3, Ht2, Ht, list_to_set_app_L. set_solver.
Qed.
Lemma alloc_step s l d a k s1 sk p l2 s2 l3 s3 :
  a mod PGSIZE = 0 -> 0 <= a -> a + Z.of_nat (S k) * PGSIZE <= 2 ^ 32 -> valid_page p ->
  pt_sep s l d -> alloc_post s l d a k s1 (p :: l2) ->
  mem sk = mem s1 -> cr3 sk = cr3 s1 -> use_lock sk = use_lock s1 -> only_mem sk s2 ->
  wrote (mem sk) (mem s2) p PGSIZE (fun _ => u8 0) ->
  (forall va, pte (mem s2) d va = pte (mem s1) d va) ->
  (forall i, 0 <= i < 1024 -> pde (mem s2) d i = pde (mem s1) d i) ->
  tables (mem s2) d = tables (mem s1) d ->
  pt_extend s2 l2 s3 l3 d ->
  mapped (mem s2) (mem s3) d (a + Z.of_nat k * PGSIZE) 1 (V2P p) (Z.lor PTE_W PTE_U) ->
  alloc_post s l d a (S k) s3 l3.
Proof.
  intros Ha Ha0 Hb Hv Hsep0 (Hmv & Hpde1 & Hpte1 & Hnew1 & Hf1 & Hc1 & Hu1) Hmk Hck Huk
    (_ & Hc2 & Hu2)%only_mem_fields Hw Hpte2 Hpde2 Ht2 Hext Hmap.
  destruct (alloc_step_moved s l d a k s1 p l2 s2 l3 s3) as [Hmv3 Huf]; try done.
  pose proof (alloc_sep s l d a (S k) [] s3 l3 Hsep0 Hmv3) as (_ & Hnd & _ & Hdis).
  pose proof (alloc_sep s l d a k [] s1 _ Hsep0 Hmv) as (_ & Hnd1 & _ & _).
  destruct Hext as (_ & _ & (new3 & _ & Ht3) & Hpde3 & Hf3 & Hc3 & Hu3).
  pose proof (wrote_page_frame p _ _ _ Hw (proj1 Hv)) as Hf2. rewrite Hmk in *.
  rewrite Huf in Hdis, Hnd. pose proof (valid_page_ram p Hv) as Hvr. destruct Hv as [Hal _].
  split; [done|]. split.
  { intros i Hi Hp. rewrite Hpde3, Hpde2, Hpde1; try done.
    unfold present in *. by rewrite Hpde2, Hpde1. }
  split.
  { intros va Hva Hn. rewrite (Hmap va) by done.
    rewrite (proj2 (andb_false_iff _ _)) by lia. rewrite Hpte2. apply Hpte1; [done|lia]. }
  split; [|split].
  - intros va Hva. unfold mapped_page, uframe. rewrite !(Hmap va) by lia.
    destruct ((a + Z.of_nat k * PGSIZE <=? va) && (va <? _)) eqn:E.
    + replace (V2P p + _) with (V2P p) by lia.
      destruct (pte_entry_spec (V2P p) (Z.lor PTE_W PTE_U)) as (He & Hfl & Hp & _); [lia|lia|done|].
      split; [done|]. split; [done|]. rewrite He. replace (P2V (V2P p)) with p by lia.
      rewrite Hf3. { rewrite (Hw _). wrote_case. }
      replace (page_of _) with p by lia. apply Hdis. set_solver.
    + rewrite Hpte2. destruct (Hnew1 va) as (Hm & Hfl & Hz); [lia|].
      do 2 (split; [done|]). fold (uframe (mem s1) d va).
      pose proof (elem_of_user_frames (mem s1) d a k va Ha ltac:(lia) Hm) as Hin.
      assert (page_of (uframe (mem s1) d va + va mod PGSIZE) = uframe (mem s1) d va) as Hpg
        by (unfold uframe; lia).
      rewrite Hf3, Hf2; [done|rewrite Hpg..].
      * rewrite NoDup_app in Hnd1. destruct Hnd1 as (_ & Hd & _). specialize (Hd _ Hin). set_solver.
      * apply Hdis. set_solver.
  - rewrite Huf, list_to_set_app_L. 
    assert (pgdir_pages (mem s1) d ⊆ pgdir_pages (mem s3) d) as Hsub
      by (unfold pgdir_pages; rewrite Ht3, Ht2; set_solver).
    eapply frame_trans; [eapply frame_mono; [exact Hf1|set_solver]|].
    eapply frame_trans; [eapply frame_mono; [exact Hf2|set_solver]|].
    eapply frame_mono; [exact Hf3|set_solver].
  - split; congruence.
Qed.

(** ** Undoing a failed allocation *)

(** Everything outside the pages that were free and the directory. *)
Definition quiet (s : machine) (l : list Z) (d : Z) (s' : machine) : Prop :=
  frame (list_to_set l ∪ pgdir_pages (mem s) d) (mem s) (mem s') /\
  cr3 s' = cr3 s /\ use_lock s' = use_lock s.

(** A directory that maps what it mapped in [s], after pages [new] of the
    free list became page tables; the caller still holds [h]. *)
Definition same_user (s : machine) (l : list Z) (d : Z) (h : list Z)
    (s' : machine) (l' : list Z) : Prop :=
  kmem_inv s' l' /\ wf_pgdir (mem s') d /\
  (exists new, l ≡ₚ new ++ h ++ l' /\ tables (mem s') d = tables (mem s) d ∪ list_to_set new) /\
  (forall va, 0 <= va < 2 ^ 32 -> mapped_page (mem s') d va = mapped_page (mem s) d va /\
     (mapped_page (mem s) d va = true -> pte (mem s') d va = pte (mem s) d va)) /\
  quiet s l d s'.

Lemma alloc_moved_quiet s l d a k h s' l' X : alloc_moved s l d a k h s' l' ->
  frame X (mem s) (mem s') -> X ⊆ list_to_set h ∪ pgdir_pages (mem s') d ∪ list_to_set (user_frames (mem s') d a k) ->
  cr3 s' = cr3 s -> use_lock s' = use_lock s -> quiet s l d s'.
Proof.
  intros (_ & _ & new & Hperm & Ht) Hf HX Hc Hu. split; [|done].
  eapply frame_mono; [exact Hf|]. unfold pgdir_pages in *. rewrite Ht in HX.
  rewrite Hperm, !list_to_set_app_L. set_solver.
Qed.

Lemma alloc_undo_wp s l d a k h s1 l1 oldsz newsz n :
  a = PGROUNDUP oldsz -> 0 <= oldsz < newsz -> newsz <= KERNBASE -> covers a n newsz ->
  (k <= n)%nat -> pt_sep s l d -> alloc_moved s l d a k h s1 l1 -> quiet s l d s1 ->
  (forall va, a <= va < a + Z.of_nat n * PGSIZE -> mapped_page (mem s) d va = false) ->
  (forall va, 0 <= va < 2 ^ 32 -> ~ a <= va < a + Z.of_nat k * PGSIZE ->
     pte (mem s1) d va = pte (mem s) d va) ->
  wp (deallocuvm d newsz oldsz) s1 (fun _ s2 => exists l2, same_user s l d h s2 l2).
Proof.
  intros -> Hsz Hmax Hcov Hkn Hsep Hmv (Hf1 & Hc1 & Hu1) Hun Hpte.
  set (a := PGROUNDUP oldsz) in *. assert (a mod PGSIZE = 0 /\ 0 <= a) as [Ha Ha0] by lia.
  assert (a + Z.of_nat n * PGSIZE <= 2 ^ 31) as Hb by (unfold covers in *; lia).
  assert (user_frames (mem s1) d a n = user_frames (mem s1) d a k) as Huf.
  { replace n with (k + (n - k))%nat by lia. rewrite user_frames_app.
    rewrite (user_frames_unmapped _ _ _ (n - k)), app_nil_r; [done|].
    intros va Hva. rewrite elem_of_pages in Hva by lia.
    unfold mapped_page. rewrite Hpte by lia. apply Hun. lia. }
  pose proof (alloc_sep _ _ _ _ _ _ _ _ Hsep Hmv) as Hus.
  destruct Hmv as (Hk1 & Hwf1 & new & Hperm & Ht1).
  eapply wp_mono; [apply (deallocuvm_wp s1 l1 d newsz oldsz n); try done|].
  { fold a. unfold user_sep in *. by rewrite Huf. }
  intros _ s2 (_ & l2 & Hk2 & Hperm2 & Hwf2 & Ht2 & _ & Hun2 & Hf2 & Hc2 & Hu2).
  fold a in Hperm2, Hun2, Hf2. rewrite Huf in *. exists l2. do 2 (split; [done|]). split; [|split; [|split]].
  - exists new. split; [|congruence]. rewrite Hperm, Hperm2.
    rewrite (Permutation_app_comm (user_frames _ _ _ _)), <- !app_assoc.
    by rewrite (Permutation_app_comm l1).
  - intros va Hva. unfold mapped_page in *. rewrite !(Hun2 va) by done.
    destruct (decide (a <= va < a + Z.of_nat n * PGSIZE)) as [Hin|Hout].
    + rewrite (Hun va Hin). split; [|done]. unfold mapped_page.
      rewrite (proj2 (andb_true_iff (a <=? va) _)) by lia. simpl.
      by destruct (flag_set (pte (mem s1) d va) PTE_P) eqn:F; rewrite ?F.
    + rewrite (proj2 (andb_false_iff _ _)) by lia. by rewrite Hpte by lia.
  - eapply frame_trans; [exact Hf1|]. eapply frame_mono; [exact Hf2|].
    unfold pgdir_pages. rewrite Ht1, Hperm, !list_to_set_app_L. set_solver.
  - split; congruence.
Qed.

Lemma alloc_post_quiet s l d a k s' l' : alloc_post s l d a k s' l' -> quiet s l d s'.
Proof.
  intros (Hmv & _ & _ & _ & Hf & Hc & Hu). eapply alloc_moved_quiet; eauto. set_solver.
Qed.

(** [mappages] found no page for a page table: [p] is still in hand. *)
Lemma alloc_fail_moved s l d a k s1 sk p l2 s2 s3 :
  a mod PGSIZE = 0 -> 0 <= a -> a + Z.of_nat k * PGSIZE <= 2 ^ 32 -> valid_page p ->
  alloc_post s l d a k s1 (p :: l2) ->
  mem sk = mem s1 -> cr3 sk = cr3 s1 -> use_lock sk = use_lock s1 -> only_mem sk s2 ->
  wrote (mem sk) (mem s2) p PGSIZE (fun _ => u8 0) ->
  (forall va, pte (mem s2) d va = pte (mem s1) d va) ->
  tables (mem s2) d = tables (mem s1) d ->
  pt_extend s2 l2 s3 [] d -> (forall va, 0 <= va < 2 ^ 32 -> pte (mem s3) d va = pte (mem s2) d va) ->
  alloc_moved s l d a k [p] s3 [] /\ quiet s l d s3.
Proof.
  intros Ha Ha0 Hb Hv Hpost Hmk Hck Huk (_ & Hc2 & Hu2)%only_mem_fields Hw Hpte2 Ht2
    (Hk3 & Hwf3 & (new3 & -> & Ht3) & _ & Hf3 & Hc3 & Hu3) Hpte3.
  pose proof (wrote_page_frame p _ _ _ Hw (proj1 Hv)) as Hf2. rewrite Hmk in Hf2.
  destruct Hpost as ((_ & _ & new & Hperm & Ht) & _ & _ & _ & Hf1 & Hc1 & Hu1).
  assert (user_frames (mem s3) d a k = user_frames (mem s1) d a k) as Huf.
  { apply user_frames_ext. intros va Hva. rewrite elem_of_pages in Hva by done.
    rewrite Hpte3 by lia. apply Hpte2. }
  assert (alloc_moved s l d a k [p] s3 []) as Hmv.
  { do 2 (split; [done|]). exists (new ++ new3). rewrite Huf. split.
    - rewrite Hperm, app_nil_r, <- !app_assoc. simpl. do 2 apply Permutation_app_head.
      apply Permutation_cons_append.
    - rewrite Ht3, Ht2, Ht, list_to_set_app_L. set_solver. }
  split; [done|]. eapply (alloc_moved_quiet _ _ _ _ _ _ _ _ _ Hmv); [|reflexivity|congruence..].
  rewrite Huf. assert (pgdir_pages (mem s1) d ⊆ pgdir_pages (mem s3) d) as Hsub
    by (unfold pgdir_pages; rewrite Ht3, Ht2; set_solver).
  eapply frame_trans; [eapply frame_mono; [exact Hf1|set_solver]|].
  eapply frame_trans; [eapply frame_mono; [exact Hf2|set_solver]|].
  eapply frame_mono; [exact Hf3|set_solver].
Qed.

(** Giving back the page in hand. *)
Lemma kfree_held_wp s l d p s1 l1 : pt_sep s l d -> same_user s l d [p] s1 l1 ->
  wp (kfree p) s1 (fun _ s2 => exists l2, same_user s l d [] s2 l2).
Proof.
  intros (Hk & Hwf & Hsep) (Hk1 & Hwf1 & (new & Hperm & Ht) & Hsame & Hf1 & Hc1 & Hu1).
  assert (p ∈ l) as Hp by (rewrite Hperm; set_solver).
  pose proof (kmem_inv_valid _ _ _ Hk Hp) as Hv.
  destruct Hk as [_ Hnd]. rewrite Hperm in Hnd. apply NoDup_app in Hnd as (_ & Hdis & Hnd).
  apply NoDup_cons in Hnd as [Hnin _].
  assert (p ∉ pgdir_pages (mem s1) d) as Hpd.
  { specialize (Hsep p Hp). unfold pgdir_pages in *. rewrite Ht.
    specialize (Hdis p). set_solver. }
  eapply wp_mono; [by apply (kfree_wp s1 l1 p)|]. intros _ s2 (Hk2 & Hf2 & Hc2 & Hu2).
  destruct (pt_frame _ _ _ d Hwf1 Hf2 ltac:(set_solver)) as (Hwf2 & Ht2 & _ & Hpte2).
  exists (p :: l1). do 2 (split; [done|]). split; [|split; [|split]].
  - exists new. split; [done|congruence].
  - intros va Hva. unfold mapped_page in *. rewrite !Hpte2. by apply Hsame.
  - eapply frame_trans; [exact Hf1|]. eapply frame_mono; [exact Hf2|].
    apply singleton_subseteq_l. rewrite elem_of_union, elem_of_list_to_set. by left.
  - split; congruence.
Qed.

(** ** The loop of [allocuvm] *)

Section loop.
Context (s : machine) (l : list Z) (d oldsz newsz : Z) (n : nat).
Let a : Z := PGROUNDUP oldsz.
Hypothesis (Hsz : 0 <= oldsz <= newsz) (Hmax : newsz <= KERNBASE) (Hcov : covers a n newsz).
Hypothesis Hsep : pt_sep s l d.
Hypothesis Hun :
  forall va, a <= va < a + Z.of_nat n * PGSIZE -> mapped_page (mem s) d va = false.

(** One iteration, as long as the size is not reached. *)
Lemma allocuvm_body_wp k s1 l1 (K : M machine Z) Q :
  (k < n)%nat -> oldsz < newsz -> alloc_post s l d a k s1 l1 ->
  (forall s2 l2, same_user s l d [] s2 l2 -> Q 0 s2) ->
  (forall s2 l2, alloc_post s l d a (S k) s2 l2 -> wp K s2 Q) ->
  wp (mem ← kalloc;
      if mem =? 0 then _ ← deallocuvm d newsz oldsz; mret 0
      else
        _ ← memset mem 0 PGSIZE;
        r ← mappages d (a + Z.of_nat k * PGSIZE) PGSIZE (V2P mem) (Z.lor PTE_W PTE_U);
        if r <? 0 then _ ← deallocuvm d newsz oldsz; _ ← kfree mem; mret 0 else K) s1 Q.
Proof.
  intros Hkn Hlt Hpost Hfail Hok. pose proof Hpost as (Hmv & _ & Hpte & _).
  assert (a mod PGSIZE = 0 /\ 0 <= a) as [Ha Ha0] by (subst a; lia).
  assert (a + Z.of_nat n * PGSIZE <= 2 ^ 31) as Hb by (unfold covers in Hcov; lia).
  pose proof (alloc_sep _ _ _ _ _ _ _ _ Hsep Hmv) as (Hsep1 & _).
  rewrite wp_bind. eapply wp_mono; [apply (kalloc_wp s1 l1), Hsep1|]. cbv beta.
  intros r sk Hr. destruct l1 as [|p l2].
  { destruct Hr as [-> ->]. change (0 =? 0) with true. cbv iota. rewrite wp_bind.
    eapply wp_mono; [apply (alloc_undo_wp s l d a k [] s1 [] oldsz newsz n); try (done || lia)|].
    { by eapply alloc_post_quiet. }
    intros _ s2 [l2 H2]. apply wp_ret. eauto. }
  destruct Hr as (-> & Hv & Hnin & Hkk & Hmk & Hck & Huk). pose proof (valid_page_ram p Hv).
  rewrite (proj2 (Z.eqb_neq _ _)) by lia. rewrite wp_bind.
  eapply wp_mono; [apply memset_ram; unfold ram_range; lia|]. intros _ s2 [Hom Hw].
  pose proof (wrote_page_frame p _ _ _ Hw (proj1 Hv)) as Hf2.
  destruct (pt_sep_frame {[p]} sk s2 l2 d) as (Hsep2 & Ht2 & Hpde2 & Hpte2); try done.
  { split; [done|]. rewrite Hmk. split; [apply Hsep1|]. intros q Hq. apply Hsep1. set_solver. }
  { by apply only_mem_fields. }
  { set_solver. }
  { rewrite Hmk. destruct Hsep1 as (_ & _ & Hd). specialize (Hd p). set_solver. }
  rewrite Hmk in Ht2, Hpde2, Hpte2.
  assert (npages (a + Z.of_nat k * PGSIZE) PGSIZE = 1) as Hnp by (unfold npages; lia).
  rewrite wp_bind. eapply wp_mono; [apply (mappages_wp s2 l2); try (done || lia)|].
  { destruct Hv. lia. }
  { intros va Hva. rewrite Hpte2, Hpte by lia. apply Hun. lia. }
  cbv beta. rewrite Hnp. replace (page_of _) with (a + Z.of_nat k * PGSIZE) by lia.
  intros r s3 (l3 & j & Hext & Hmap & [[-> ->]|(-> & -> & Hj)]).
  - change (0 <? 0) with false. cbv iota. eapply Hok.
    eapply (alloc_step s l d a k s1 sk p l2 s2 l3 s3); try done. lia.
  - change (-1 <? 0) with true. cbv iota. assert (j = 0) as -> by lia.
    destruct (alloc_fail_moved s l d a k s1 sk p l2 s2 s3) as [Hmv3 Hq3]; try done; [lia| |].
    { intros va Hva. rewrite (Hmap va) by done. wrote_case. }
    rewrite wp_bind. eapply wp_mono;
      [apply (alloc_undo_wp s l d a k [p] s3 [] oldsz newsz n); try (done || lia)|].
    { intros va Hva Hn. rewrite (Hmap va) by done. rewrite (proj2 (andb_false_iff _ _)) by lia.
      rewrite Hpte2. by apply Hpte. }
    intros _ s4 [l4 H4]. rewrite wp_bind. eapply wp_mono; [exact (kfree_held_wp s l d p s4 l4 Hsep H4)|].
    intros _ s5 [l5 H5]. apply wp_ret. eauto.
Qed.

Lemma allocuvm_loop_wp fuel : forall k s1 l1,
  (n - k < fuel)%nat -> (k <= n)%nat -> alloc_post s l d a k s1 l1 ->
  wp (allocuvm_loop fuel d (a + Z.of_nat k * PGSIZE) oldsz newsz) s1 (fun r s' =>
    (r = newsz /\ exists l', alloc_post s l d a n s' l') \/
    (r = 0 /\ exists l', same_user s l d [] s' l')).
Proof.
  induction fuel as [|fuel IH]; intros k s1 l1 Hfuel Hkn Hpost; [lia|].
  assert (0 <= a /\ oldsz <= a) as [Ha0 Holda] by (subst a; unfold covers in Hcov; lia).
  cbn [allocuvm_loop]. destruct (Z.ltb_spec (a + Z.of_nat k * PGSIZE) newsz) as [Hlt|Hge].
  - assert (k < n)%nat by (unfold covers in Hcov; lia).
    eapply (allocuvm_body_wp k s1 l1); [done|lia|done| |].
    + intros s2 l2 H2. right. eauto.
    + intros s2 l2 H2. replace (u32 _) with (a + Z.of_nat (S k) * PGSIZE).
      * apply (IH _ _ l2); [lia|lia|done].
      * unfold covers in Hcov. lia.
  - assert (k = n) as -> by (unfold covers in Hcov; lia).
    apply wp_ret. left. eauto.
Qed.
End loop.

Definition alloc_pages (oldsz newsz : Z) : nat :=
  Z.to_nat ((PGROUNDUP newsz - PGROUNDUP oldsz) / PGSIZE).

Lemma covers_alloc oldsz newsz : 0 <= oldsz <= newsz -> newsz <= KERNBASE ->
  covers (PGROUNDUP oldsz) (alloc_pages oldsz newsz) newsz.
Proof. unfold covers, alloc_pages. lia. Qed.

Lemma allocuvm_wp s l d oldsz newsz : 0 <= oldsz <= newsz -> newsz < SHAREDBASE ->
  pt_sep s l d ->
  (forall va, PGROUNDUP oldsz <= va < PGROUNDUP newsz -> mapped_page (mem s) d va = false) ->
  wp (allocuvm d oldsz newsz) s (fun r s' =>
    (r = newsz /\ exists l', alloc_post s l d (PGROUNDUP oldsz) (alloc_pages oldsz newsz) s' l') \/
    (r = 0 /\ exists l', same_user s l d [] s' l')).
Proof.
  intros Hsz Hmax Hsep Hun. unfold allocuvm.
  rewrite (proj2 (Z.leb_gt _ _)), (proj2 (Z.ltb_ge _ _)) by lia. cbv zeta.
  pose proof (covers_alloc oldsz newsz Hsz ltac:(lia)) as Hcov.
  pose proof (allocuvm_loop_wp s l d oldsz newsz _ Hsz ltac:(lia) Hcov Hsep) as Hl.
  specialize (Hl ltac:(intros va Hva; apply Hun; unfold alloc_pages in *; lia)
    (S (Z.to_nat ((newsz - PGROUNDUP oldsz) / PGSIZE + 1))) O s l).
  rewrite Z.add_0_r in Hl. apply Hl; [unfold alloc_pages; lia|lia|by apply alloc_post_refl].
Qed.
End vmalloc.
