(* ===== verification/VmFree.v ===== *)
(** * [freevm]: returning a whole address space

    The user frames below SHAREDBASE, the page tables and the directory
    go back to the free list; frames mapped at or above SHAREDBASE (the
    shared structures of a parent) are neither freed nor written. *)

From S2P Require Import Prelude Machine CString Kalloc Vm PageTable VmMap VmUser.
From stdpp Require Import base numbers list gmap strings sorting.
Open Scope Z_scope.

Section vmfree.
Context {LK : Linker}.

(** Page tables of the directory entries [i .. i+n). *)
Definition tabs (m : gmap Z Z) (d i n : Z) : list Z :=
  pgtab m d <$> filter (fun j => present m d j = true) (seqZ i n).

Lemma tabs_cons m d i n : 0 < n ->
  tabs m d i n = (if present m d i then [pgtab m d i] else []) ++ tabs m d (i + 1) (n - 1).
Proof.
  intros Hn. unfold tabs. rewrite seqZ_cons, filter_cons by lia.
  rewrite <- Z.add_1_r, <- Z.sub_1_r.
  destruct (present m d i); by rewrite ?decide_True, ?decide_False by done.
Qed.

Lemma elem_of_tabs m d i n p :
  p ∈ tabs m d i n <-> exists j, i <= j < i + n /\ present m d j = true /\ p = pgtab m d j.
Proof.
  unfold tabs. rewrite list_elem_of_fmap. split.
  - intros (j & -> & [Hp Hj%elem_of_seqZ]%list_elem_of_filter). eauto with lia.
  - intros (j & Hj & Hp & ->). exists j. split; [done|].
    apply list_elem_of_filter. by rewrite elem_of_seqZ.
Qed.

Lemma tabs_ext m m' d i n : 0 <= i -> i + n <= 1024 ->
  (forall j, 0 <= j < 1024 -> pde m' d j = pde m d j) -> tabs m' d i n = tabs m d i n.
Proof.
  intros Hi Hn Hpde. unfold tabs, present, pgtab.
  assert (forall j, j ∈ seqZ i n -> pde m' d j = pde m d j) as H.
  { intros j Hj%elem_of_seqZ. apply Hpde. lia. }
  clear -H. induction (seqZ i n) as [|j js IH]; [done|].
  rewrite !filter_cons, (H j) by set_solver.
  destruct (decide _); csimpl; rewrite ?(H j) by set_solver; [f_equal|]; apply IH; set_solver.
Qed.

Lemma NoDup_tabs m d i n : wf_pgdir m d -> 0 <= i -> i + n <= 1024 -> NoDup (tabs m d i n).
Proof.
  intros (_ & _ & Hinj) Hi Hn. unfold tabs. apply NoDup_fmap_2_strong.
  - intros x y [Hx Hx'%elem_of_seqZ]%list_elem_of_filter [Hy Hy'%elem_of_seqZ]%list_elem_of_filter.
    apply Hinj; auto with lia.
  - apply NoDup_filter, NoDup_seqZ.
Qed.

Lemma list_to_set_tabs m d : list_to_set (tabs m d 0 1024) = tables m d.
Proof. done. Qed.

Lemma freevm_loop_wp d n : forall s l i,
  kmem_inv s l -> wf_pgdir (mem s) d -> 0 <= i -> i + Z.of_nat n <= 1024 ->
  (forall p, p ∈ tabs (mem s) d i (Z.of_nat n) -> p ∉ l) ->
  wp (freevm_loop n d i) s (fun _ s' => exists l', kmem_inv s' l' /\
    l' ≡ₚ tabs (mem s) d i (Z.of_nat n) ++ l /\
    frame (list_to_set (tabs (mem s) d i (Z.of_nat n))) (mem s) (mem s') /\
    cr3 s' = cr3 s /\ use_lock s' = use_lock s).
Proof.
  induction n as [|n IH]; intros s l i Hk Hwf Hi Hn Hdis.
  { apply wp_ret. exists l. done. }
  cbn [freevm_loop]. destruct (pde_slot _ _ i Hwf ltac:(lia)) as (_ & _ & Hr).
  rewrite wp_bind, wp_load32 by lia. rewrite wp_bind.
  pose proof (NoDup_tabs (mem s) d i (Z.of_nat (S n)) Hwf Hi ltac:(lia)) as Hnd.
  rewrite tabs_cons in * by lia. replace (Z.of_nat (S n) - 1) with (Z.of_nat n) in * by lia.
  fold (pde (mem s) d i). fold (present (mem s) d i). fold (pgtab (mem s) d i).
  destruct (present (mem s) d i) eqn:Hp.
  - destruct (proj1 (proj2 Hwf) i ltac:(lia) Hp) as (Hv & Hne & _).
    set (p := pgtab (mem s) d i) in *. simpl in Hnd, Hdis. apply NoDup_cons in Hnd as [Hnp _].
    eapply wp_mono; [apply kfree_wp; [done|done|apply Hdis; set_solver]|].
    intros _ s1 (Hk1 & Hf1 & Hc1 & Hu1).
    assert (forall j, 0 <= j < 1024 -> pde (mem s1) d j = pde (mem s) d j) as Hpde.
    { intros j Hj. eapply pde_frame; eauto. set_solver. }
    destruct (pt_same_pdes _ _ d Hwf Hpde) as (Hwf1 & _).
    pose proof (tabs_ext _ _ d (i + 1) (Z.of_nat n) ltac:(lia) ltac:(lia) Hpde) as Ht.
    eapply wp_mono; [apply (IH s1 (p :: l)); [done|done|lia|lia|]|].
    { rewrite Ht. intros q Hq. apply not_elem_of_cons. split; [by intros ->|].
      apply Hdis. set_solver. }
    rewrite Ht. intros _ s2 (l' & Hk2 & Hperm & Hf2 & Hc2 & Hu2). exists l'.
    split; [done|]. split; [by rewrite Hperm, <- Permutation_middle|].
    split; [|split; congruence].
    eapply frame_trans; eapply frame_mono; [exact Hf1|set_solver|exact Hf2|set_solver].
  - apply wp_ret. simpl in *. apply (IH s l (i + 1)); auto with lia.
Qed.

(** What [freevm] gives back. *)
Definition space (m : gmap Z Z) (d : Z) (n : nat) : list Z :=
  d :: tabs m d 0 1024 ++ user_frames m d 0 n.

Lemma freevm_wp s l d n : Z.of_nat n * PGSIZE = SHAREDBASE -> user_sep s l d 0 n ->
  wp (freevm d) s (fun _ s' => exists l', kmem_inv s' l' /\
    l' ≡ₚ space (mem s) d n ++ l /\ frame (list_to_set (space (mem s) d n)) (mem s) (mem s') /\
    cr3 s' = cr3 s /\ use_lock s' = use_lock s).
Proof.
  intros Hn Hsep. pose proof Hsep as ((Hk & Hwf & Hl) & Hnd & Hval & Hdis).
  pose proof Hwf as (Hvd & Htd & _). pose proof (valid_page_ram d Hvd) as Hdr.
  unfold freevm. rewrite (proj2 (Z.eqb_neq _ _)) by lia. rewrite wp_bind.
  eapply wp_mono; [apply (deallocuvm_wp s l d SHAREDBASE 0 n); [lia|lia| |done]|].
  { unfold covers. right. lia. }
  intros _ s1 (_ & l1 & Hk1 & Hperm1 & Hwf1 & Ht1 & Hpde1 & _ & Hf1 & Hc1 & Hu1).
  pose proof (tabs_ext _ _ d 0 1024 ltac:(lia) ltac:(lia) Hpde1) as Htabs.
  change (PGROUNDUP 0) with 0 in *.
  assert (forall p, p ∈ pgdir_pages (mem s) d -> p ∉ l1) as Hpl.
  { intros p Hp. rewrite Hperm1, elem_of_app. intros [Hu|Hu]; [by eapply Hdis|by eapply Hl]. }
  rewrite wp_bind. replace (Z.to_nat NPDENTRIES) with 1024%nat by done.
  eapply wp_mono; [apply (freevm_loop_wp d 1024 s1 l1 0); [done|done|lia|done|]|].
  { change (Z.of_nat 1024) with 1024. rewrite Htabs. intros p Hp. apply Hpl.
    unfold pgdir_pages. rewrite <- list_to_set_tabs. set_solver. }
  change (Z.of_nat 1024) with 1024. rewrite Htabs.
  intros _ s2 (l2 & Hk2 & Hperm2 & Hf2 & Hc2 & Hu2).
  assert (d ∉ tabs (mem s) d 0 1024) as Hdt.
  { rewrite elem_of_tabs. intros (j & Hj & Hp & He). by destruct (Htd j ltac:(lia) Hp) as (_ & ? & _). }
  eapply wp_mono; [apply (kfree_wp s2 l2 d Hk2 Hvd)|].
  { rewrite Hperm2, elem_of_app. intros [Hd|Hd]; [done|].
    eapply (Hpl d); [unfold pgdir_pages; set_solver|done]. }
  intros _ s3 (Hk3 & Hf3 & Hc3 & Hu3). exists (d :: l2). split; [done|]. unfold space.
  split; [by rewrite Hperm2, Hperm1; simpl; rewrite <- app_assoc|]. split; [|split; congruence].
  rewrite <- list_to_set_tabs in Hf1.
  eapply frame_trans; [eapply frame_mono; [exact Hf1|set_solver]|].
  eapply frame_trans; eapply frame_mono; [exact Hf2|set_solver|exact Hf3|set_solver].
Qed.
End vmfree.
