(* ===== verification/VmKernel.v ===== *)
(** * [setupkvm]: the kernel part of every address space

    A fresh directory maps exactly the rows of [kmap]; when memory runs
    out, every page taken for it is given back. *)

From stdpp Require Import base numbers list gmap strings sorting.
From S2P Require Import Prelude Machine CString Kalloc Vm PageTable VmMap VmUser VmFree.
Open Scope Z_scope.

Section vmkernel.
Context {LK : Linker}.

(** Number of bytes of a row. *)
Definition row_size (k : kmap_row) : Z := u32 (phys_end k - phys_start k).

(** The entry the rows [ks] prescribe for [va]; 0 when no row covers it. *)
Fixpoint kmap_pte (ks : list kmap_row) (va : Z) : Z :=
  match ks with
  | [] => 0
  | k :: ks =>
      if (virt k <=? va) && (va <? virt k + row_size k)
      then pte_entry (phys_start k + (page_of va - virt k)) (perm k)
      else kmap_pte ks va
  end.

(** A directory, its tables and its user frames below SHAREDBASE were all
    taken from the free list [l], of which [l'] is left. *)
Definition new_space (s : machine) (l : list Z) (d : Z) (n : nat)
    (s' : machine) (l' : list Z) : Prop :=
  kmem_inv s' l' /\ wf_pgdir (mem s') d /\
  (exists new, l ≡ₚ d :: user_frames (mem s') d 0 n ++ new ++ l' /\
     tables (mem s') d = list_to_set new) /\
  frame (list_to_set l) (mem s) (mem s') /\ cr3 s' = cr3 s /\ use_lock s' = use_lock s.

(** All pages are back on the free list. *)
Definition returned (s : machine) (l : list Z) (s' : machine) : Prop :=
  exists l', kmem_inv s' l' /\ l' ≡ₚ l /\ frame (list_to_set l) (mem s) (mem s') /\
    cr3 s' = cr3 s /\ use_lock s' = use_lock s.

Lemma new_space_sep s l d n s' l' : kmem_inv s l -> new_space s l d n s' l' ->
  user_sep s' l' d 0 n.
Proof.
  intros Hk (Hk' & Hwf & (new & Hperm & Ht) & _).
  pose proof (fun p => kmem_inv_valid s l p Hk) as Hval. destruct Hk as [Hfl Hnd].
  rewrite Hperm in Hnd. apply NoDup_cons in Hnd as [Hd Hnd].
  apply NoDup_app in Hnd as (Hndu & Hdisu & Hnd). apply NoDup_app in Hnd as (_ & Hdisn & Hnd').
  assert (forall p, p <> d -> p ∉ new -> p ∉ pgdir_pages (mem s') d) as Hpg.
  { intros p Hpd Hpn. unfold pgdir_pages. rewrite Ht. set_solver. }
  split; [|split; [|split]].
  - do 2 (split; [done|]). intros p Hp. apply Hpg.
    + intros ->. apply Hd. set_solver.
    + intros Hn. by apply (Hdisn p Hn).
  - apply NoDup_app. split; [done|]. split; [|done].
    intros p Hp Hp'. apply (Hdisu p Hp). set_solver.
  - apply Forall_forall. intros p Hp. apply Hval. rewrite Hperm. set_solver.
  - intros p Hp. apply Hpg.
    + intros ->. apply Hd. set_solver.
    + intros Hn. apply (Hdisu p Hp). set_solver.
Qed.

Lemma new_space_freevm s l d n s' l' : Z.of_nat n * PGSIZE = SHAREDBASE -> kmem_inv s l ->
  new_space s l d n s' l' -> wp (freevm d) s' (fun _ s'' => returned s l s'').
Proof.
  intros Hn Hk Hnew. pose proof (new_space_sep _ _ _ _ _ _ Hk Hnew) as Hsep.
  destruct Hnew as (Hk' & Hwf & (new & Hperm & Ht) & Hf & Hc & Hu).
  eapply wp_mono; [apply (freevm_wp s' l' d n Hn Hsep)|].
  intros _ s'' (l'' & Hk'' & Hperm'' & Hf'' & Hc'' & Hu''). exists l''. split; [done|].
  assert (tabs (mem s') d 0 1024 ≡ₚ new) as Htabs.
  { apply NoDup_Permutation; [by apply NoDup_tabs| |].
    - destruct Hk as [_ Hnd]. rewrite Hperm in Hnd.
      apply NoDup_cons in Hnd as [_ Hnd]. apply NoDup_app in Hnd as (_ & _ & Hnd).
      by apply NoDup_app in Hnd as (? & _ & _).
    - intros p. rewrite <- !(elem_of_list_to_set (C := gset Z)), <- Ht.
      by rewrite list_to_set_tabs. }
  assert (space (mem s') d n ++ l' ≡ₚ l) as Hsp.
  { unfold space. rewrite Hperm, Htabs. simpl. f_equiv. rewrite <- app_assoc.
    rewrite app_assoc, (Permutation_app_comm new), <- app_assoc. done. }
  split; [by rewrite Hperm''|]. split; [|split; congruence].
  eapply frame_trans; [exact Hf|]. eapply frame_mono; [exact Hf''|].
  intros p. rewrite !elem_of_list_to_set, <- Hsp. set_solver.
Qed.

(** Growing page tables out of the free list keeps the accounting. *)
Lemma new_space_extend s l d n s1 l1 s2 l2 : new_space s l d n s1 l1 ->
  pt_extend s1 l1 s2 l2 d -> user_frames (mem s2) d 0 n = user_frames (mem s1) d 0 n ->
  new_space s l d n s2 l2.
Proof.
  intros (Hk1 & Hwf1 & (new & Hperm & Ht) & Hf & Hc & Hu)
    (Hk2 & Hwf2 & (new2 & -> & Ht2) & _ & Hf2 & Hc2 & Hu2) Huf.
  do 2 (split; [done|]). rewrite Huf. split; [|split; [|split; congruence]].
  - exists (new ++ new2). rewrite Hperm, <- !app_assoc. split; [done|].
    rewrite Ht2, Ht, list_to_set_app_L. done.
  - eapply frame_trans; [exact Hf|]. eapply frame_mono; [exact Hf2|].
    unfold pgdir_pages. rewrite Ht2, Ht, Hperm. simpl. rewrite !list_to_set_app_L. set_solver.
Qed.

(** ** The rows of [kmap] *)

Definition row_ok (before : list kmap_row) (k : kmap_row) : Prop :=
  virt k mod PGSIZE = 0 /\ KERNBASE <= virt k /\ 0 < row_size k /\
  row_size k mod PGSIZE = 0 /\ virt k + row_size k <= 2 ^ 32 /\
  phys_start k mod PGSIZE = 0 /\ 0 <= phys_start k /\ phys_start k + row_size k <= 2 ^ 32 /\
  0 <= perm k < 4096 /\
  (forall va, virt k <= va < virt k + row_size k -> kmap_pte before va = 0).

Fixpoint rows_ok (before ks : list kmap_row) : Prop :=
  match ks with
  | [] => True
  | k :: ks => row_ok before k /\ rows_ok (k :: before) ks
  end.

Lemma kmap_rows_ok : rows_ok [] kmap.
Proof.
  pose proof ld_data_aligned. pose proof ld_data_range. pose proof ld_end_range.
  unfold kmap. cbn [rows_ok]. unfold row_ok, row_size. cbn [virt phys_start phys_end perm].
  split_and!; try done; try lia.
  all: intros va Hva; cbn [kmap_pte virt phys_start phys_end perm]; unfold row_size;
    cbn [phys_start phys_end].
  all: repeat match goal with |- (if ?c then _ else _) = _ =>
         destruct c eqn:?; [exfalso; lia|] end; done.
Qed.

Lemma mapped_row m m' d k before :
  row_ok before k -> (forall va, 0 <= va < 2 ^ 32 -> pte m d va = kmap_pte before va) ->
  mapped m m' d (page_of (virt k)) (npages (virt k) (row_size k)) (phys_start k) (perm k) ->
  forall va, 0 <= va < 2 ^ 32 -> pte m' d va = kmap_pte (k :: before) va.
Proof.
  intros Hrow Hpte Hmap va Hva. rewrite (Hmap va Hva). cbn [kmap_pte]. rewrite Hpte by done.
  destruct Hrow as (Hvm & _ & Hs & Hsm & _).
  replace (page_of (virt k)) with (virt k) by lia.
  replace (npages (virt k) (row_size k) * PGSIZE) with (row_size k) by (unfold npages; lia).
  done.
Qed.

Lemma low_user_frames m d n : Z.of_nat n * PGSIZE = SHAREDBASE ->
  (forall va, 0 <= va < SHAREDBASE -> mapped_page m d va = false) -> user_frames m d 0 n = [].
Proof.
  intros Hn Hlow. apply user_frames_unmapped. intros va Hva.
  rewrite elem_of_pages in Hva by done. apply Hlow. lia.
Qed.

Section setup.
Context (s : machine) (l : list Z) (d : Z) (n : nat).
Hypothesis (Hn : Z.of_nat n * PGSIZE = SHAREDBASE) (Hk : kmem_inv s l).

Lemma setupkvm_loop_wp ks : forall before s1 l1,
  new_space s l d n s1 l1 -> rows_ok before ks ->
  (forall va, 0 <= va < 2 ^ 32 -> pte (mem s1) d va = kmap_pte before va) ->
  (forall va, va < KERNBASE -> kmap_pte before va = 0) ->
  wp (setupkvm_loop ks d) s1 (fun r s2 =>
    (r = d /\ exists l2, new_space s l d n s2 l2 /\
       forall va, 0 <= va < 2 ^ 32 -> pte (mem s2) d va = kmap_pte (rev_append ks before) va) \/
    (r = 0 /\ returned s l s2)).
Proof.
  induction ks as [|k ks IH]; intros before s1 l1 Hnew Hok Hpte Hlow.
  { apply wp_ret. left. eauto. }
  cbn [setupkvm_loop]. destruct Hok as [Hrow Hok]. fold (row_size k).
  pose proof (new_space_sep _ _ _ _ _ _ Hk Hnew) as (Hsep & _).
  assert (npages (virt k) (row_size k) * PGSIZE = row_size k) as Hnp
    by (unfold row_ok, npages in *; lia).
  rewrite wp_bind. eapply wp_mono; [apply (mappages_wp s1 l1); [done|unfold row_ok in Hrow; lia..|]|].
  { intros va Hva. unfold row_ok in Hrow. rewrite Hpte by lia.
    replace (kmap_pte before va) with 0; [done|]. symmetry. apply Hrow. lia. }
  cbv beta. intros r s2 (l2 & j & Hext & Hmap & Hr).
  assert (forall va, 0 <= va < KERNBASE -> pte (mem s2) d va = 0) as Hlow2.
  { intros va Hva. rewrite (Hmap va) by lia. unfold row_ok in Hrow.
    rewrite (proj2 (andb_false_iff _ _)) by lia. rewrite Hpte by lia. apply Hlow. lia. }
  assert (new_space s l d n s2 l2) as Hnew2.
  { eapply new_space_extend; [done|done|].
    rewrite !(low_user_frames _ d n Hn); [done|..]; intros va Hva; unfold mapped_page.
    - rewrite Hpte, Hlow by lia. done.
    - by rewrite Hlow2 by lia. }
  destruct Hr as [[-> ->]|(-> & _)].
  - change (0 <? 0) with false. cbv iota. apply (IH (k :: before) s2 l2); [done|done| |].
    + by eapply mapped_row.
    + intros va Hva. cbn [kmap_pte]. unfold row_ok in Hrow.
      rewrite (proj2 (andb_false_iff _ _)) by lia. by apply Hlow.
  - change (-1 <? 0) with true. cbv iota. rewrite wp_bind.
    eapply wp_mono; [by eapply new_space_freevm|].
    intros [] s3 Hret. apply wp_ret. by right.
Qed.
End setup.

(** A zeroed page is a directory that maps nothing. *)
Lemma zero_pgdir m m' d : valid_page d -> wrote m m' d PGSIZE (fun _ => u8 0) ->
  wf_pgdir m' d /\ tables m' d = ∅ /\ forall va, pte m' d va = 0.
Proof.
  intros Hv Hw. assert (forall i, 0 <= i < 1024 -> present m' d i = false) as Hp.
  { intros i Hi. unfold present, pde.
    by rewrite (wrote_zero_ld32 m m' d PGSIZE) by (done || lia). }
  split; [|split].
  - split; [done|]. split; intros i; intros; by rewrite Hp in * by lia.
  - apply set_eq. intros p. rewrite elem_of_tables. split; [|set_solver].
    intros (i & Hi & Hpi & _). by rewrite Hp in Hpi by lia.
  - intros va. unfold pte. by rewrite Hp by apply PDX_range.
Qed.

Lemma setupkvm_wp s l n : Z.of_nat n * PGSIZE = SHAREDBASE -> kmem_inv s l ->
  wp setupkvm s (fun r s' =>
    (r <> 0 /\ exists l', new_space s l r n s' l' /\
       forall va, 0 <= va < 2 ^ 32 -> pte (mem s') r va = kmap_pte (rev_append Vm.kmap []) va) \/
    (r = 0 /\ returned s l s')).
Proof.
  intros Hn Hk. unfold setupkvm. rewrite wp_bind.
  eapply wp_mono; [by apply (kalloc_wp s l)|]. cbv beta. intros r s1 Hr.
  destruct l as [|d l].
  { destruct Hr as [-> ->]. apply wp_ret. right. split; [done|]. by exists []. }
  destruct Hr as (-> & Hv & Hnin & Hk1 & Hm1 & Hc1 & Hu1). pose proof (valid_page_ram d Hv).
  rewrite (proj2 (Z.eqb_neq _ _)) by lia. rewrite wp_bind.
  eapply wp_mono; [apply memset_ram; unfold ram_range; lia|]. intros _ s2 [Hom Hw].
  apply only_mem_fields in Hom as (Hfl & Hc2 & Hu2).
  pose proof (wrote_page_frame d _ _ _ Hw (proj1 Hv)) as Hf2.
  destruct (zero_pgdir _ _ d Hv Hw) as (Hwf & Ht & Hpte).
  assert (new_space s (d :: l) d n s2 l) as Hnew.
  { split; [by eapply kmem_inv_frame; eauto; set_solver|]. split; [done|]. split.
    - exists []. rewrite (low_user_frames _ d n Hn); [done|].
      intros va _. unfold mapped_page. by rewrite Hpte.
    - rewrite <- Hm1. split; [|split; congruence]. eapply frame_mono; [exact Hf2|set_solver]. }
  change (DEVSPACE <? P2V PHYSTOP) with false. cbv iota.
  eapply wp_mono; [apply (setupkvm_loop_wp s (d :: l) d n Hn Hk Vm.kmap [] s2 l);
    [done|apply kmap_rows_ok|intros; apply Hpte|done]|].
  cbv beta. intros r s3 [(-> & H3)|H3]; [left|by right]. split; [lia|done].
Qed.

(** The kernel's view of physical memory in any directory that maps the
    rows of [kmap]: [P2V pa] is mapped to [pa]. *)
Lemma kmap_direct pa : 0 <= pa < PHYSTOP ->
  let e := kmap_pte (rev_append Vm.kmap []) (P2V pa) in
  flag_set e PTE_P = true /\ PTE_ADDR e = page_of pa /\ flag_set e PTE_U = false.
Proof.
  pose proof ld_data_aligned. pose proof ld_data_range. pose proof ld_end_range.
  intros Hpa e. assert (exists pm, (pm = 0 \/ pm = PTE_W) /\ e = pte_entry (page_of pa) pm)
    as (pm & Hpm & ->).
  { subst e. unfold Vm.kmap. cbn [rev_append kmap_pte virt phys_start perm]. unfold row_size.
    cbn [phys_start phys_end].
    repeat match goal with |- context [if ?c then _ else _] => destruct c eqn:? end.
    all: try (exfalso; lia).
    all: eexists; split; [|f_equal; lia]; auto. }
  destruct (pte_entry_spec (page_of pa) pm) as (Ha & Hf & Hp & _); [lia|lia|destruct Hpm; lia|].
  split; [done|]. split; [done|]. unfold flag_set. rewrite negb_false_iff, Z.eqb_eq.
  rewrite <- land_FLAGS, Hf by done. by destruct Hpm as [-> | ->].
Qed.
End vmkernel.
