(* ===== verification/VmCopy.v ===== *)
(** * [copyuvm]: the child's copy of its parent's memory *)

From stdpp Require Import base numbers list gmap strings sorting.
From S2P Require Import Prelude Machine CString Kalloc Vm PageTable VmMap VmUser VmFree.
From S2P Require Import VmKernel.
Open Scope Z_scope.

Section vmcopy.
Context {LK : Linker}.

(** A page [p] is taken off the free list and written ([s2]). *)
Definition page_taken (s1 : machine) (p : Z) (l2 : list Z) (s2 : machine) : Prop :=
  kmem_inv s2 l2 /\ valid_page p /\ (p ∉ l2) /\ frame {[p]} (mem s1) (mem s2) /\
  cr3 s2 = cr3 s1 /\ use_lock s2 = use_lock s1.

Lemma kalloc_write_wp {A B} s1 l1 (X : M machine B) (W : Z -> M machine A) (K : Z -> M machine B) f Q :
  kmem_inv s1 l1 ->
  (forall p s, valid_page p -> mem s = mem s1 -> wp (W p) s (fun _ s' =>
     only_mem s s' /\ wrote (mem s) (mem s') p PGSIZE f)) ->
  (l1 = [] -> wp X s1 Q) ->
  (forall p l2 s2, l1 = p :: l2 -> page_taken s1 p l2 s2 ->
     wrote (mem s1) (mem s2) p PGSIZE f -> wp (K p) s2 Q) ->
  wp (p ← kalloc; if p =? 0 then X else _ ← W p; K p) s1 Q.
Proof.
  intros Hk HW H0 H1. rewrite wp_bind. eapply wp_mono; [by apply (kalloc_wp s1 l1)|].
  cbv beta. intros r sk Hr. destruct l1 as [|p l2].
  { destruct Hr as [-> ->]. by apply H0. }
  destruct Hr as (-> & Hv & Hnin & Hkk & Hmk & Hck & Huk). pose proof (valid_page_ram p Hv).
  rewrite (proj2 (Z.eqb_neq _ _)) by lia. rewrite wp_bind.
  eapply wp_mono; [by apply (HW p sk)|]. intros _ s2 [Hom Hw].
  apply only_mem_fields in Hom as (Hfl & Hc2 & Hu2).
  pose proof (wrote_page_frame p _ _ _ Hw (proj1 Hv)) as Hf2.
  apply (H1 p l2 s2); [done| |by rewrite <- Hmk].
  split; [eapply kmem_inv_frame; eauto; set_solver|]. do 2 (split; [done|]).
  rewrite <- Hmk. split; [done|]. split; congruence.
Qed.

Section space.
Context (s : machine) (l : list Z) (d : Z) (n : nat).
Hypothesis (Hn : Z.of_nat n * PGSIZE = SHAREDBASE) (Hk : kmem_inv s l).

(** The new space is not affected by taking and writing a free page. *)
Lemma new_space_taken s1 p l2 s2 : new_space s l d n s1 (p :: l2) -> page_taken s1 p l2 s2 ->
  p ∈ l /\ (p ∉ user_frames (mem s1) d 0 n) /\ (p ∉ pgdir_pages (mem s1) d) /\
  pt_sep s2 l2 d /\ tables (mem s2) d = tables (mem s1) d /\
  (forall va, pte (mem s2) d va = pte (mem s1) d va).
Proof.
  intros Hnew (Hk2 & Hv & Hnin & Hf & _).
  pose proof (new_space_sep _ _ _ _ _ _ Hk Hnew) as ((Hk1 & Hwf1 & Hl1) & Hnd & _ & _).
  destruct Hnew as (_ & _ & (new & Hperm & _) & _).
  assert (p ∉ pgdir_pages (mem s1) d) as Hp by (apply Hl1; set_solver).
  destruct (pt_frame _ _ _ d Hwf1 Hf ltac:(set_solver)) as (Hwf2 & Ht & Hpde & Hpte).
  split; [rewrite Hperm; set_solver|].
  split; [apply NoDup_app in Hnd as (_ & Hd & _); intros Hu; apply (Hd p Hu); set_solver|].
  split; [done|]. split; [|done]. do 2 (split; [done|]). unfold pgdir_pages in *. rewrite Ht.
  intros q Hq. apply Hl1. set_solver.
Qed.

(** The frames after the [k]-th page was mapped to [p]. *)
Lemma user_frames_snoc m1 m3 k p perm : (k < n)%nat -> valid_page p -> 0 <= perm < 4096 ->
  (forall va, Z.of_nat k * PGSIZE <= va < SHAREDBASE -> mapped_page m1 d va = false) ->
  mapped m1 m3 d (Z.of_nat k * PGSIZE) 1 (V2P p) perm ->
  user_frames m3 d 0 n = user_frames m1 d 0 n ++ [p].
Proof.
  intros Hkn Hv Hperm Hun Hmap. pose proof (valid_page_ram p Hv) as Hvr. destruct Hv as [Hal _].
  replace n with (k + S (n - S k))%nat by lia. rewrite !user_frames_app, !user_frames_cons.
  assert (forall m, (forall va, Z.of_nat (S k) * PGSIZE <= va < SHAREDBASE -> mapped_page m d va = false) ->
    user_frames m d (0 + PGSIZE * Z.of_nat k + PGSIZE) (n - S k) = []) as Hrest.
  { intros m Hm. apply user_frames_unmapped. intros va Hva.
    rewrite elem_of_pages in Hva by lia. apply Hm. lia. }
  rewrite !Hrest, (Hun (0 + PGSIZE * Z.of_nat k)), !app_nil_r.
  - f_equal.
    + apply user_frames_ext. intros va Hva. rewrite elem_of_pages in Hva by done.
      rewrite (Hmap va) by lia. by rewrite (proj2 (andb_false_iff _ _)) by lia.
    + unfold mapped_page, uframe. rewrite Hmap by lia. rewrite (proj2 (andb_true_iff _ _)) by lia.
      replace (V2P p + _) with (V2P p) by lia.
      destruct (pte_entry_spec (V2P p) perm) as (He & _ & Hf & _); [lia|lia|done|].
      rewrite Hf, He. f_equal. lia.
  - lia.
  - intros va Hva. apply Hun. lia.
  - intros va Hva. unfold mapped_page. rewrite (Hmap va) by lia.
    rewrite (proj2 (andb_false_iff _ _)) by lia. apply Hun. lia.
Qed.

Lemma new_space_map s1 p l2 s2 l3 s3 k perm : (k < n)%nat -> 0 <= perm < 4096 ->
  new_space s l d n s1 (p :: l2) -> page_taken s1 p l2 s2 -> pt_extend s2 l2 s3 l3 d ->
  (forall va, Z.of_nat k * PGSIZE <= va < SHAREDBASE -> mapped_page (mem s1) d va = false) ->
  mapped (mem s2) (mem s3) d (Z.of_nat k * PGSIZE) 1 (V2P p) perm ->
  new_space s l d n s3 l3.
Proof.
  intros Hkn Hpm Hnew Htk (Hk3 & Hwf3 & (new3 & -> & Ht3) & _ & Hf3 & Hc3 & Hu3) Hun Hmap.
  destruct (new_space_taken _ _ _ _ Hnew Htk) as (Hpl & _ & _ & _ & Ht2 & Hpte2).
  destruct Htk as (_ & Hv & _ & Hf2 & Hc2 & Hu2).
  destruct Hnew as (_ & _ & (new & Hperm & Ht) & Hf & Hc & Hu).
  assert (user_frames (mem s3) d 0 n = user_frames (mem s1) d 0 n ++ [p]) as Huf.
  { apply (user_frames_snoc (mem s1) (mem s3) k p perm); [done..|]. intros va Hva.
    rewrite (Hmap va) by done. by rewrite Hpte2. }
  do 2 (split; [done|]). split; [|split; [|split; congruence]].
  - exists (new ++ new3). rewrite Huf, Ht3, Ht2, Ht, list_to_set_app_L. split; [|done].
    rewrite Hperm, <- !app_assoc. simpl. by rewrite <- Permutation_middle.
  - eapply frame_trans; [exact Hf|]. eapply frame_trans; eapply frame_mono; [exact Hf2| |exact Hf3|].
    + set_solver.
    + unfold pgdir_pages. rewrite Ht3, Ht2, Ht, Hperm. simpl. rewrite !list_to_set_app_L. set_solver.
Qed.

(** No page for a page table: the page in hand is freed first. *)
Lemma new_space_unmap s1 p l2 s2 l3 s3 :
  new_space s l d n s1 (p :: l2) -> page_taken s1 p l2 s2 -> pt_extend s2 l2 s3 l3 d ->
  (forall va, 0 <= va < 2 ^ 32 -> pte (mem s3) d va = pte (mem s2) d va) ->
  wp (kfree p) s3 (fun _ s4 => new_space s l d n s4 (p :: l3)).
Proof.
  intros Hnew Htk (Hk3 & Hwf3 & (new3 & -> & Ht3) & _ & Hf3 & Hc3 & Hu3) Hpte3.
  destruct (new_space_taken _ _ _ _ Hnew Htk) as (Hpl & _ & Hpd & _ & Ht2 & Hpte2).
  destruct Htk as (_ & Hv & Hnin & Hf2 & Hc2 & Hu2).
  destruct Hnew as (_ & _ & (new & Hperm & Ht) & Hf & Hc & Hu).
  eapply wp_mono; [apply (kfree_wp s3 l3 p); [done|done|set_solver]|].
  intros _ s4 (Hk4 & Hf4 & Hc4 & Hu4).
  assert (p ∉ pgdir_pages (mem s3) d) as Hpd3.
  { unfold pgdir_pages in *. rewrite Ht3, Ht2. set_solver. }
  destruct (pt_frame _ _ _ d Hwf3 Hf4 ltac:(set_solver)) as (Hwf4 & Ht4 & _ & Hpte4).
  assert (user_frames (mem s4) d 0 n = user_frames (mem s1) d 0 n) as Huf.
  { apply user_frames_ext. intros va Hva. rewrite elem_of_pages in Hva by done.
    rewrite Hpte4, Hpte3 by lia. apply Hpte2. }
  do 2 (split; [done|]). split; [|split; [|split; congruence]].
  - exists (new ++ new3). rewrite Huf, Ht4, Ht3, Ht2, Ht, list_to_set_app_L. split; [|done].
    rewrite Hperm, <- !app_assoc. do 3 f_equiv. by rewrite Permutation_middle.
  - eapply frame_trans; [exact Hf|]. eapply frame_trans; [eapply frame_mono; [exact Hf2|set_solver]|].
    eapply frame_trans; eapply frame_mono; [exact Hf3| |exact Hf4|set_solver].
    unfold pgdir_pages. rewrite Ht3, Ht2, Ht, Hperm. simpl. rewrite !list_to_set_app_L. set_solver.
Qed.
End space.

Lemma kmap_low va : va < KERNBASE -> kmap_pte (rev_append Vm.kmap []) va = 0.
Proof.
  pose proof ld_data_range. intros Hva. unfold Vm.kmap. cbn [rev_append kmap_pte virt].
  repeat match goal with |- (if ?c then _ else _) = _ => destruct c eqn:?; [exfalso; lia|] end.
  done.
Qed.

(** Directory [d] in memory [m1] maps copies of the first [k] pages that
    [pg] maps in [m], with the same permissions, and the kernel. *)
Definition copied (m : gmap Z Z) (pg : Z) (k : nat) (m1 : gmap Z Z) (d : Z) : Prop :=
  (forall va, Z.of_nat k * PGSIZE <= va < 2 ^ 32 ->
     pte m1 d va = kmap_pte (rev_append Vm.kmap []) va) /\
  (forall va, 0 <= va < Z.of_nat k * PGSIZE ->
     mapped_page m1 d va = true /\ PTE_FLAGS (pte m1 d va) = PTE_FLAGS (pte m pg va) /\
     ld8 m1 (uframe m1 d va + va mod PGSIZE) = ld8 m (uframe m pg va + va mod PGSIZE)).

Section copy.
Context (s : machine) (l : list Z) (pg sz d : Z) (n np : nat).
Hypothesis (Hn : Z.of_nat n * PGSIZE = SHAREDBASE) (Hsz : 0 <= sz <= SHAREDBASE).
Hypothesis (Hcov : covers 0 np sz) (Hsep : user_sep s l pg 0 np).
Hypothesis Hmapped :
  forall va, 0 <= va < Z.of_nat np * PGSIZE -> mapped_page (mem s) pg va = true.

(** The parent's directory and frames are unchanged while the child's
    space is built. *)
Lemma parent_intact s1 : frame (list_to_set l) (mem s) (mem s1) ->
  wf_pgdir (mem s1) pg /\ (forall va, pte (mem s1) pg va = pte (mem s) pg va) /\
  (forall va, 0 <= va < Z.of_nat np * PGSIZE -> valid_page (uframe (mem s) pg va) /\
     ld8 (mem s1) (uframe (mem s) pg va + va mod PGSIZE) =
     ld8 (mem s) (uframe (mem s) pg va + va mod PGSIZE)).
Proof.
  intros Hf. destruct Hsep as ((Hk & Hwf & Hl) & Hnd & Hval & _).
  destruct (pt_frame _ _ _ pg Hwf Hf) as (Hwf1 & _ & _ & Hpte1); [set_solver|].
  do 2 (split; [done|]). intros va Hva.
  pose proof (elem_of_user_frames (mem s) pg 0 np va ltac:(done) Hva (Hmapped va Hva)) as Hin.
  rewrite Forall_forall in Hval. split; [by apply Hval|]. apply Hf.
  destruct (Hval _ Hin) as [Hal _].
  replace (page_of _) with (uframe (mem s) pg va) by lia. rewrite elem_of_list_to_set.
  apply NoDup_app in Hnd as (_ & Hd & _). by apply Hd.
Qed.

Lemma copied_step s1 p l2 s2 l3 s3 k : (k < np)%nat ->
  kmem_inv s l -> new_space s l d n s1 (p :: l2) -> page_taken s1 p l2 s2 ->
  wrote (mem s1) (mem s2) p PGSIZE
    (fun i => ld8 (mem s1) (uframe (mem s) pg (Z.of_nat k * PGSIZE) + i)) ->
  pt_extend s2 l2 s3 l3 d -> copied (mem s) pg k (mem s1) d -> new_space s l d n s3 l3 ->
  mapped (mem s2) (mem s3) d (Z.of_nat k * PGSIZE) 1 (V2P p)
    (PTE_FLAGS (pte (mem s) pg (Z.of_nat k * PGSIZE))) ->
  copied (mem s) pg (S k) (mem s3) d.
Proof.
  intros Hkn Hk Hnew Htk Hw (_ & _ & _ & _ & Hf3 & _) [Hhi Hlo] Hnew3 Hmap.
  destruct (new_space_taken s l d n Hn Hk _ _ _ _ Hnew Htk) as (Hpl & Hpu & Hpd & _ & Ht2 & Hpte2).
  pose proof (new_space_sep _ _ _ _ _ _ Hk Hnew3) as (_ & _ & _ & Hdis3).
  destruct Htk as (_ & Hv & _ & Hf2 & _). pose proof (valid_page_ram p Hv) as Hvr.
  destruct Hv as [Hal _]. assert (Z.of_nat np * PGSIZE <= SHAREDBASE) as Hnp
    by (unfold covers in Hcov; lia).
  assert (forall va, 0 <= va < Z.of_nat (S k) * PGSIZE -> mapped_page (mem s3) d va = true ->
    page_of (uframe (mem s3) d va + va mod PGSIZE) ∉ pgdir_pages (mem s3) d) as Hout.
  { intros va Hva Hm. replace (page_of _) with (uframe (mem s3) d va) by (unfold uframe; lia).
    apply Hdis3. apply elem_of_user_frames; [done|lia|done]. }
  split.
  { intros va Hva. rewrite (Hmap va) by lia. rewrite (proj2 (andb_false_iff _ _)) by lia.
    rewrite Hpte2. apply Hhi. lia. }
  intros va Hva. destruct (decide (va < Z.of_nat k * PGSIZE)) as [Hlt|Hge].
  - destruct (Hlo va ltac:(lia)) as (Hm & Hfl & Hb).
    assert (pte (mem s3) d va = pte (mem s1) d va) as Hpte.
    { rewrite (Hmap va) by lia. rewrite (proj2 (andb_false_iff _ _)) by lia. apply Hpte2. }
    assert (mapped_page (mem s3) d va = true) as Hm3 by (unfold mapped_page; by rewrite Hpte).
    split; [done|]. rewrite Hpte. split; [done|]. rewrite Hf3 by auto.
    unfold uframe at 1. rewrite Hpte. fold (uframe (mem s1) d va). rewrite Hf2; [done|].
    replace (page_of _) with (uframe (mem s1) d va) by (unfold uframe; lia).
    intros Heq%elem_of_singleton. apply Hpu. rewrite <- Heq.
    apply elem_of_user_frames; [done|lia|done].
  - assert (page_of va = Z.of_nat k * PGSIZE) as Hpg by lia.
    assert (pte (mem s) pg va = pte (mem s) pg (Z.of_nat k * PGSIZE)) as Hpp
      by (apply pte_page; lia).
    assert (pte (mem s3) d va = pte_entry (V2P p) (PTE_FLAGS (pte (mem s) pg va))) as Hpte.
    { rewrite (Hmap va) by lia. rewrite (proj2 (andb_true_iff _ _)), Hpp by lia.
      f_equal. lia. }
    destruct (pte_entry_spec (V2P p) (PTE_FLAGS (pte (mem s) pg va)))
      as (He & Hfl & Hp & _); [lia..|].
    assert (mapped_page (mem s3) d va = true) as Hm3 by (unfold mapped_page; by rewrite Hpte).
    split; [done|]. rewrite Hpte, Hfl. split.
    { pose proof (Hmapped va ltac:(lia)) as Hmp. unfold mapped_page in Hmp.
      rewrite flag_set_P in Hmp. apply lor_P_id. lia. }
    rewrite Hf3 by auto. unfold uframe at 1. rewrite Hpte, He.
    replace (P2V (V2P p)) with p by lia. rewrite (Hw _).
    rewrite (proj2 (andb_true_iff _ _)) by lia.
    destruct Hnew as (_ & _ & _ & Hf & _). destruct (parent_intact s1 Hf) as (_ & _ & Hin).
    unfold uframe in *. rewrite <- Hpp. replace (p + _ - p) with (va mod PGSIZE) by lia.
    apply Hin. lia.
Qed.

(** Outcome of copying: the whole copy, or nothing taken. *)
Definition copy_result (r : Z) (s' : machine) : Prop :=
  (r = d /\ exists l', new_space s l d n s' l' /\ copied (mem s) pg np (mem s') d) \/
  (r = 0 /\ returned s l s').

Lemma copyuvm_loop_wp fuel : forall k s1 l1,
  (np - k < fuel)%nat -> (k <= np)%nat -> new_space s l d n s1 l1 ->
  copied (mem s) pg k (mem s1) d ->
  wp (copyuvm_loop fuel pg d (Z.of_nat k * PGSIZE) sz) s1 copy_result.
Proof.
  induction fuel as [|fuel IH]; intros k s1 l1 Hfuel Hkn Hnew Hcopied; [lia|].
  pose proof Hsep as ((Hk & _) & _). pose proof Hnew as (Hk1 & _ & _ & Hf & _).
  destruct (parent_intact s1 Hf) as (Hwfp & Hptep & Hinp).
  assert (Z.of_nat np * PGSIZE <= SHAREDBASE) as Hnp by (unfold covers in Hcov; lia).
  cbn [copyuvm_loop]. destruct (Z.ltb_spec (Z.of_nat k * PGSIZE) sz) as [Hlt|Hge]; last first.
  { assert (k = np) as -> by (unfold covers in Hcov; lia). apply wp_ret. left. eauto. }
  set (i := Z.of_nat k * PGSIZE) in *. assert (k < np)%nat as Hlt' by (unfold covers in Hcov; lia).
  rewrite wp_bind, (wp_run _ _ _ _ _ (walkpgdir_lookup s1 pg i Hwfp)).
  pose proof (Hmapped i ltac:(lia)) as Hmi. unfold mapped_page in Hmi. rewrite <- Hptep in Hmi.
  destruct (present (mem s1) pg (PDX i)) eqn:Hpres; [|unfold pte in Hmi; by rewrite Hpres in Hmi].
  destruct (pte_ptr_page _ _ i Hwfp Hpres) as (_ & _ & Hr).
  rewrite (proj2 (Z.eqb_neq _ _)) by lia. rewrite wp_bind, wp_load32 by lia.
  assert (ld32 (mem s1) (pte_ptr (mem s1) pg i) = pte (mem s1) pg i) as ->
    by (unfold pte; by rewrite Hpres).
  rewrite Hmi, Hptep. cbn [negb]. cbv zeta. fold (uframe (mem s) pg i).
  destruct (Hinp i ltac:(lia)) as [Hvf _]. pose proof (valid_page_ram _ Hvf) as Hvr.
  eapply (kalloc_write_wp s1 l1 _ (fun p => memmove p (uframe (mem s) pg i) PGSIZE) _
    (fun j => ld8 (mem s1) (uframe (mem s) pg i + j))); [done| | |].
  - intros p s2 Hv%valid_page_ram <-. apply memmove_ram; unfold ram_range; lia.
  - intros ->. rewrite wp_bind. eapply wp_mono; [exact (new_space_freevm s l d n s1 [] Hn Hk Hnew)|].
    intros [] s2 Hret. apply wp_ret. by right.
  - intros p l2 s2 -> Htk Hw.
    destruct (new_space_taken s l d n Hn Hk _ _ _ _ Hnew Htk) as (_ & _ & _ & Hsep2 & _ & Hpte2).
    assert (forall va, i <= va < SHAREDBASE -> mapped_page (mem s1) d va = false) as Hun.
    { intros va Hva. unfold mapped_page. rewrite (proj1 Hcopied) by lia. by rewrite kmap_low by lia. }
    pose proof Htk as (_ & Hv & _). pose proof (valid_page_ram p Hv). pose proof (proj1 Hv) as Hal.
    assert (npages i PGSIZE = 1) as Hnp1 by (unfold npages; lia).
    rewrite wp_bind. eapply wp_mono; [apply (mappages_wp s2 l2); [done|lia..|]|].
    { intros va Hva. rewrite Hpte2. apply Hun. lia. }
    cbv beta. rewrite Hnp1. replace (page_of i) with i by lia.
    intros r s3 (l3 & j & Hext & Hmap & [[-> ->]|(-> & -> & Hj)]).
    + change (0 <? 0) with false. cbv iota. replace (u32 (i + PGSIZE)) with (Z.of_nat (S k) * PGSIZE) by lia.
      assert (new_space s l d n s3 l3) as Hnew3.
      { eapply (new_space_map s l d n Hn Hk s1 p l2 s2 l3 s3 k
          (PTE_FLAGS (pte (mem s) pg i))); try (done || lia). }
      apply (IH (S k) s3 l3); [lia|lia|done|].
      by eapply (copied_step s1 p l2 s2 l3 s3 k).
    + change (-1 <? 0) with true. cbv iota. assert (j = 0) as -> by lia.
      rewrite wp_bind. eapply wp_mono; [eapply (new_space_unmap s l d n Hn Hk s1 p l2 s2 [] s3); try done|].
      { intros va Hva. rewrite (Hmap va) by done. wrote_case. }
      intros [] s4 Hnew4. rewrite wp_bind. eapply wp_mono; [exact (new_space_freevm s l d n s4 [p] Hn Hk Hnew4)|].
      intros [] s5 Hret. apply wp_ret. by right.
Qed.
End copy.

Lemma copyuvm_wp s l pg sz n np : Z.of_nat n * PGSIZE = SHAREDBASE -> 0 <= sz <= SHAREDBASE ->
  covers 0 np sz -> user_sep s l pg 0 np ->
  (forall va, 0 <= va < Z.of_nat np * PGSIZE -> mapped_page (mem s) pg va = true) ->
  wp (copyuvm pg sz) s (fun d s' =>
    (d <> 0 /\ exists l', new_space s l d n s' l' /\ copied (mem s) pg np (mem s') d) \/
    (d = 0 /\ returned s l s')).
Proof.
  intros Hn Hsz Hcov Hsep Hmapped. unfold copyuvm. rewrite wp_bind.
  eapply wp_mono; [apply (setupkvm_wp s l n Hn), Hsep|]. cbv beta.
  intros d s1 [(Hd & l1 & Hnew & Hpte)|[-> Hret]].
  - rewrite (proj2 (Z.eqb_neq _ _)) by lia.
    eapply wp_mono; [apply (copyuvm_loop_wp s l pg sz d n np Hn Hsz Hcov Hsep Hmapped _ 0 s1 l1)|].
    + unfold covers in Hcov. lia.
    + lia.
    + done.
    + split; [intros; apply Hpte; lia|lia].
    + intros r s2 [(-> & H2)|(-> & H2)]; [by left|by right].
  - change (0 =? 0) with true. cbv iota. apply wp_ret. by right.
Qed.
End vmcopy.
