(* ===== verification/VmAccess.v ===== *)
(** * Accesses through a page table: the MMU, [clearpteu], [uva2ka], [copyout] *)

From stdpp Require Import base numbers list gmap strings sorting.
From S2P Require Import Prelude Machine CString Kalloc Vm PageTable VmMap VmUser.
Open Scope Z_scope.

Section vmaccess.
Context {LK : Linker}.

(** Kernel address of the byte that [va] names in directory [d]. *)
Definition uaddr (m : gmap Z Z) (d va : Z) : Z := uframe m d va + va mod PGSIZE.

(** [va] is a user page of [d]: present and accessible to user code. *)
Definition user_page (m : gmap Z Z) (d va : Z) : bool :=
  mapped_page m d va && flag_set (pte m d va) PTE_U.

(** The hardware walk agrees with the abstract page table. *)
Lemma mmu_pte m d va w : wf_pgdir m d -> mapped_page m d va = true ->
  valid_page (uframe m d va) -> (w = true -> flag_set (pte m d va) PTE_W = true) ->
  mmu m (V2P d) va w = Some (uaddr m d va).
Proof.
  intros Hwf Hm Hv Hw. pose proof Hwf as (Hvd & Ht & _). pose proof (valid_page_ram d Hvd).
  pose proof (PDX_range va) as HD. unfold mapped_page, pte in Hm.
  destruct (present m d (PDX va)) eqn:Hp; [|done]. destruct (Ht _ HD Hp) as (Hvt & _ & Hfl).
  pose proof (valid_page_ram _ Hvt) as Hrt. pose proof (valid_page_ram _ Hv) as Hrf.
  unfold mmu. replace (V2P d + KERNBASE) with d by lia. fold (pde m d (PDX va)).
  assert (PTE_ADDR (pde m d (PDX va)) + KERNBASE = pgtab m d (PDX va)) as -> by (unfold pgtab in *; lia).
  fold (pte_ptr m d va).
  assert (ld32 m (pte_ptr m d va) = pte m d va) as Hpte by (unfold pte; by rewrite Hp).
  rewrite Hpte in *. unfold uframe in Hrf.
  assert (PTE_ADDR (pte m d va) + KERNBASE = uframe m d va) as -> by (unfold uframe; lia).
  fold (present m d (PDX va)). rewrite Hp, Hm, !(proj2 (in_ram_true _)) by (unfold uframe; lia).
  simpl. assert (flag_set (pde m d (PDX va)) PTE_W = true) as ->.
  { unfold flag_set. by rewrite <- land_FLAGS, Hfl by done. }
  destruct w; [by rewrite Hw|done].
Qed.

(** Kernel loads and stores at a user address reach the mapped frame. *)
Lemma kaddr_user s d va w : cr3 s = V2P d -> wf_pgdir (mem s) d -> 0 <= va < KERNBASE ->
  mapped_page (mem s) d va = true -> valid_page (uframe (mem s) d va) ->
  (w = true -> flag_set (pte (mem s) d va) PTE_W = true) ->
  kaddr s va w = Some (uaddr (mem s) d va).
Proof.
  intros Hc Hwf Hva Hm Hv Hw. unfold kaddr, in_ram.
  rewrite (proj2 (andb_false_iff _ _)) by lia. rewrite (proj2 (andb_true_iff _ _)) by lia.
  rewrite Hc. by apply mmu_pte.
Qed.

Lemma pte_load s d va : present (mem s) d (PDX va) = true ->
  ld32 (mem s) (pte_ptr (mem s) d va) = pte (mem s) d va.
Proof. intros Hp. unfold pte. by rewrite Hp. Qed.

Lemma mapped_present m d va : mapped_page m d va = true -> present m d (PDX va) = true.
Proof. unfold mapped_page, pte. by destruct (present m d (PDX va)). Qed.

(** [clearpteu] takes the page away from user code and changes nothing
    else of the directory. *)
Lemma clearpteu_wp s l d uva : pt_sep s l d -> 0 <= uva < 2 ^ 32 -> mapped_page (mem s) d uva = true ->
  wp (clearpteu d uva) s (fun _ s' => pt_sep s' l d /\
    (forall va, 0 <= va < 2 ^ 32 -> page_of va <> page_of uva ->
       pte (mem s') d va = pte (mem s) d va) /\
    pte (mem s') d uva = Z.land (pte (mem s) d uva) (Z.lnot PTE_U) /\
    frame (tables (mem s) d) (mem s) (mem s') /\ cr3 s' = cr3 s).
Proof.
  intros Hsep Huva Hm. pose proof Hsep as (Hk & Hwf & _). pose proof (mapped_present _ _ _ Hm) as Hp.
  unfold clearpteu. rewrite wp_bind, (wp_run _ _ _ _ _ (walkpgdir_lookup s d uva Hwf)), Hp.
  destruct (pte_ptr_page _ _ uva Hwf Hp) as (_ & _ & Hr).
  rewrite (proj2 (Z.eqb_neq _ _)) by lia. rewrite wp_bind, wp_load32, pte_load by (done || lia).
  rewrite wp_store32 by lia.
  destruct (pte_store_sep s l d uva (Z.land (pte (mem s) d uva) (Z.lnot PTE_U)) Hsep Hp)
    as (Hext & _ & _ & Hf & Heq & Hne).
  split; [by eapply pt_extend_sep|]. split; [|split; [|done]].
  - intros va Hva Hpg. apply Hne. lia.
  - rewrite Heq by done. unfold u32. rewrite <- Z.land_ones by lia.
    rewrite <- Z.land_assoc, (Z.land_comm (Z.lnot _)), Z.land_assoc, Z.land_ones by lia.
    f_equal. pose proof (ld32_range (mem s) (pte_ptr (mem s) d uva)).
    rewrite <- pte_load by done. lia.
Qed.

(** ** [uva2ka] and [copyout] *)

Lemma user_page_flags m d va : user_page m d va = true ->
  mapped_page m d va = true /\ (Z.land (pte m d va) PTE_P =? 0) = false /\
  (Z.land (pte m d va) PTE_U =? 0) = false.
Proof.
  unfold user_page, mapped_page, flag_set. intros [Hp Hu]%andb_true_iff.
  rewrite negb_true_iff in Hp, Hu. by rewrite Hp, Hu.
Qed.

Lemma uva2ka_user s d va : wf_pgdir (mem s) d -> user_page (mem s) d va = true ->
  uva2ka d va s = Ret (uframe (mem s) d va, s).
Proof.
  intros Hwf (Hm & HP & HU)%user_page_flags. pose proof (mapped_present _ _ _ Hm) as Hp.
  unfold uva2ka, mbind, M_bind. rewrite walkpgdir_lookup, Hp by done.
  destruct (pte_ptr_page _ _ va Hwf Hp) as (_ & _ & Hr).
  rewrite load32_ram, pte_load by (done || lia). by rewrite HP, HU.
Qed.

(** A page table exists but the page is not user accessible: NULL. *)
Lemma uva2ka_refused s d va : wf_pgdir (mem s) d -> present (mem s) d (PDX va) = true ->
  user_page (mem s) d va = false -> uva2ka d va s = Ret (0, s).
Proof.
  intros Hwf Hp Hu. unfold uva2ka, mbind, M_bind. rewrite walkpgdir_lookup, Hp by done.
  destruct (pte_ptr_page _ _ va Hwf Hp) as (_ & _ & Hr).
  rewrite load32_ram, pte_load by (done || lia).
  unfold user_page, mapped_page, flag_set in Hu.
  destruct (Z.land _ PTE_P =? 0); [done|]. by destruct (Z.land _ PTE_U =? 0).
Qed.

(** No page table: the NULL entry pointer is dereferenced, a load of
    virtual address 0 in the current address space. *)
Lemma uva2ka_no_table s d va : wf_pgdir (mem s) d -> present (mem s) d (PDX va) = false ->
  uva2ka d va s = (e ← load32 0;
                   if Z.land e PTE_P =? 0 then mret 0
                   else if Z.land e PTE_U =? 0 then mret 0 else mret (P2V (PTE_ADDR e))) s.
Proof.
  intros Hwf Hp. unfold uva2ka. unfold mbind at 1, M_bind at 1.
  by rewrite walkpgdir_lookup, Hp by done.
Qed.

(** The destination of a [copyout]: user pages with distinct frames, away
    from the directory and from the source. *)
Record copyout_ok (m : gmap Z Z) (d va buf len : Z) : Prop := {
  co_wf : wf_pgdir m d;
  co_range : 0 <= va /\ 0 <= len /\ va + len <= KERNBASE;
  co_buf : ram_range buf len;
  co_user : forall a, va <= a < va + len -> user_page m d a = true;
  co_valid : forall a, va <= a < va + len ->
    valid_page (uframe m d a) /\ uframe m d a ∉ pgdir_pages m d;
  co_inj : forall a b, va <= a < va + len -> va <= b < va + len ->
    uframe m d a = uframe m d b -> page_of a = page_of b;
  co_src : forall a i, va <= a < va + len -> 0 <= i < len -> page_of (buf + i) <> uframe m d a }.

(** What was copied. *)
Definition copied_out (s : machine) (d va buf len : Z) (s' : machine) : Prop :=
  only_mem s s' /\ (forall a, pte (mem s') d a = pte (mem s) d a) /\
  (forall i, 0 <= i < len -> ld8 (mem s') (uaddr (mem s) d (va + i)) = ld8 (mem s) (buf + i)) /\
  (forall b, (forall i, 0 <= i < len -> b <> uaddr (mem s) d (va + i)) ->
     ld8 (mem s') b = ld8 (mem s) b).

Lemma uframe_page m d a b : page_of a = page_of b -> uframe m d a = uframe m d b.
Proof. intros H. unfold uframe. by rewrite (pte_page m d a b). Qed.

(** One piece: [n] bytes inside the page of [va]. *)
Lemma copyout_chunk s s1 d va buf len n : copyout_ok (mem s) d va buf len -> 0 < n <= len ->
  va mod PGSIZE + n <= PGSIZE -> only_mem s s1 ->
  wrote (mem s) (mem s1) (uaddr (mem s) d va) n (fun i => ld8 (mem s) (buf + i)) ->
  copied_out s d va buf n s1 /\ copyout_ok (mem s1) d (va + n) (buf + n) (len - n).
Proof.
  intros [Hwf Hrg Hbuf Huser Hval Hinj Hsrc] Hn Hpg Hom Hw.
  destruct (Hval va ltac:(lia)) as [Hv Hnp]. pose proof (proj1 Hv) as Hal.
  assert (frame {[uframe (mem s) d va]} (mem s) (mem s1)) as Hf.
  { eapply wrote_frame; [exact Hw|lia|]. intros b Hb. unfold uaddr in Hb.
    apply elem_of_singleton. lia. }
  destruct (pt_frame _ _ _ d Hwf Hf ltac:(set_solver)) as (Hwf1 & Ht1 & _ & Hpte1).
  assert (forall i, 0 <= i < n -> uaddr (mem s) d (va + i) = uaddr (mem s) d va + i) as Hua.
  { intros i Hi. unfold uaddr. rewrite (uframe_page _ d (va + i) va) by lia. lia. }
  split; [split; [done|split; [done|split]]|].
  - intros i Hi. rewrite Hua, (Hw _) by done. wrote_case. f_equal. lia.
  - intros b Hb. rewrite (Hw b). wrote_case.
    destruct (Hb (b - uaddr (mem s) d va)); [lia|]. rewrite Hua; lia.
  - unfold ram_range in Hbuf. split; unfold user_page, mapped_page, uframe, pgdir_pages, ram_range in *;
      rewrite ?Ht1; try done; try lia.
    + intros a Ha. rewrite !Hpte1. apply Huser. lia.
    + intros a Ha. rewrite Hpte1. apply Hval. lia.
    + intros a b Ha Hb. rewrite !Hpte1. apply Hinj; lia.
    + intros a i Ha Hi. rewrite Hpte1. rewrite <- Z.add_assoc. apply Hsrc; lia.
Qed.

Lemma copied_out_trans s s1 s2 d va buf len n : copyout_ok (mem s) d va buf len -> 0 < n <= len ->
  copied_out s d va buf n s1 -> copied_out s1 d (va + n) (buf + n) (len - n) s2 ->
  copied_out s d va buf len s2.
Proof.
  intros [Hwf Hrg Hbuf Huser Hval Hinj Hsrc] Hn (Hom1 & Hpte1 & Hin1 & Hout1)
    (Hom2 & Hpte2 & Hin2 & Hout2).
  assert (forall a, uaddr (mem s1) d a = uaddr (mem s) d a) as Hua.
  { intros a. unfold uaddr, uframe. by rewrite Hpte1. }
  assert (forall a, va <= a < va + len -> page_of (uaddr (mem s) d a) = uframe (mem s) d a) as Hpg.
  { intros a Ha. destruct (Hval a Ha) as [[Hal _] _]. unfold uaddr. lia. }
  assert (forall a b, va <= a < va + len -> va <= b < va + len ->
    uaddr (mem s) d a = uaddr (mem s) d b -> a = b) as Hainj.
  { intros a b Ha Hb Heq. assert (page_of a = page_of b) as Hp.
    { apply Hinj; [done|done|]. by rewrite <- !Hpg, Heq. }
    unfold uaddr in Heq. rewrite (uframe_page _ d a b Hp) in Heq. lia. }
  split; [by etrans|]. split; [by intros a; rewrite Hpte2|]. split.
  - intros i Hi. destruct (decide (i < n)) as [Hlt|Hge].
    + rewrite Hout2, Hin1; [done|lia|]. intros j Hj. rewrite Hua. intros Heq.
      apply Hainj in Heq; lia.
    + specialize (Hin2 (i - n) ltac:(lia)). rewrite Hua in Hin2.
      replace (va + n + (i - n)) with (va + i) in Hin2 by lia.
      replace (buf + n + (i - n)) with (buf + i) in Hin2 by lia. rewrite Hin2. apply Hout1.
      intros j Hj Heq. apply (Hsrc (va + j) i); [lia|lia|]. rewrite Heq. apply Hpg. lia.
  - intros b Hb. rewrite Hout2, Hout1; [done| |].
    + intros i Hi. apply Hb. lia.
    + intros i Hi. rewrite Hua, <- Z.add_assoc. apply Hb. lia.
Qed.

Lemma copied_out_nil s d va buf : copied_out s d va buf 0 s.
Proof. do 2 (split; [done|]). split; [lia|done]. Qed.

Lemma copyout_loop_wp fuel : forall s d va buf len,
  copyout_ok (mem s) d va buf len -> (0 < fuel)%nat ->
  (0 < len -> npages va len < Z.of_nat fuel) ->
  wp (copyout_loop fuel d va buf len) s (fun r s' => r = 0 /\ copied_out s d va buf len s').
Proof.
  induction fuel as [|fuel IH]; intros s d va buf len Hok Hf0 Hfuel; [lia|].
  cbn [copyout_loop]. pose proof Hok as [Hwf Hrg Hbuf Huser Hval Hinj Hsrc].
  destruct (Z.ltb_spec 0 len) as [Hlt|Hge]; last first.
  { assert (len = 0) as -> by lia. apply wp_ret. split; [done|]. apply copied_out_nil. }
  cbv zeta. set (va0 := PGROUNDDOWN va). specialize (Hfuel Hlt).
  assert (va0 = page_of va /\ u32 (va - va0) = va mod PGSIZE /\
    u32 (PGSIZE - u32 (va - va0)) = PGSIZE - va mod PGSIZE) as (Hva0 & -> & ->) by (subst va0; lia).
  assert (user_page (mem s) d va0 = true) as Hu0.
  { specialize (Huser va ltac:(lia)). unfold user_page, mapped_page in *.
    by rewrite (pte_page _ d va0 va) by lia. }
  rewrite wp_bind, (wp_run _ _ _ _ _ (uva2ka_user s d va0 Hwf Hu0)).
  rewrite (uframe_page _ d va0 va) by lia. destruct (Hval va ltac:(lia)) as [Hv _].
  pose proof (valid_page_ram _ Hv). rewrite (proj2 (Z.eqb_neq _ _)) by lia.
  fold (uaddr (mem s) d va). unfold ram_range in Hbuf.
  set (n := if len <? PGSIZE - va mod PGSIZE then len else PGSIZE - va mod PGSIZE).
  assert (0 < n <= len /\ va mod PGSIZE + n <= PGSIZE /\
    (n = len \/ va0 + PGSIZE = va + n)) as (Hn & Hnp & Hnl)
    by (subst n; destruct (Z.ltb_spec len (PGSIZE - va mod PGSIZE)); lia).
  clearbody n.
  rewrite wp_bind. eapply wp_mono; [apply memmove_ram; unfold ram_range, uaddr; lia|].
  intros [] s1 [Hom Hw].
  destruct (copyout_chunk s s1 d va buf len n Hok Hn Hnp Hom Hw) as [Hco Hok1].
  replace (u32 (buf + n)) with (buf + n) by lia. replace (u32 (len - n)) with (len - n) by lia.
  destruct (decide (n = len)) as [->|Hne].
  - rewrite Z.sub_diag. destruct fuel as [|fuel]; [unfold npages in Hfuel; lia|].
    by apply wp_ret.
  - replace (u32 (va0 + PGSIZE)) with (va + n) by lia.
    eapply wp_mono; [apply (IH s1 d (va + n) (buf + n) (len - n) Hok1)|].
    + unfold npages in Hfuel. lia.
    + intros _. unfold npages in *. lia.
    + intros r s2 [-> Hco2]. split; [done|]. by eapply copied_out_trans.
Qed.

Lemma copyout_wp s d va buf len : copyout_ok (mem s) d va buf len ->
  wp (copyout d va buf len) s (fun r s' => r = 0 /\ copied_out s d va buf len s').
Proof.
  intros Hok. apply copyout_loop_wp; [done|lia|]. destruct Hok as [_ Hrg _ _ _ _ _].
  unfold npages. lia.
Qed.

(** The first page is not the user's: nothing is copied. *)
Lemma copyout_refused s d va buf len : wf_pgdir (mem s) d -> 0 <= va < 2 ^ 32 -> 0 < len ->
  present (mem s) d (PDX va) = true -> user_page (mem s) d va = false ->
  copyout d va buf len s = Ret (-1, s).
Proof.
  intros Hwf Hva Hlen Hp Hu. unfold copyout. cbn [copyout_loop].
  rewrite (proj2 (Z.ltb_lt _ _)) by done. cbv zeta. unfold mbind, M_bind.
  rewrite uva2ka_refused; [done|done| |].
  - by replace (PDX (PGROUNDDOWN va)) with (PDX va) by lia.
  - unfold user_page, mapped_page in *. by rewrite (pte_page _ d _ va) by lia.
Qed.
End vmaccess.
