(* ===== verification/Shared.v ===== *)
(** * Shared structures: [struct shared] and [access_shared_memory]

    The table of shared structures of a process ([proc.h]) and the
    routine of [vm.c] that maps the parent's frames of every structure
    into the child's new directory, from SHAREDBASE upwards. *)

From stdpp Require Import base numbers list gmap strings sorting.
From S2P Require Import Prelude Machine CString Kalloc Vm PageTable VmMap VmUser VmAlloc.
From S2P Require Import VmAccess.
Open Scope Z_scope.

Definition SHAREDNAME : nat := 10.
Definition SHAREDCOUNT : nat := 10.

(** [name] holds SHAREDNAME bytes, [size] is a C [int]. *)
Record shared := Shared { name : list Z; memstart : Z; size : Z }.

Definition set_memstart (a : Z) (e : shared) : shared := Shared (name e) a (size e).

Section shared.
Context {LK : Linker}.

(** The inner loop: one page of the structure per iteration. *)
Fixpoint share_pages (fuel : nat) (parent_pgdir pgdir va sz vpage_start struct_start i : Z)
    : M machine Z :=
  match fuel with
  | O => nofuel
  | S k =>
      if i <? sz then
        pte ← walkpgdir parent_pgdir struct_start false;
        if pte =? 0 then mret (-1)
        else
          e ← load32 pte;
          if negb (flag_set e PTE_P) then mret (-1)
          else
            let pa := PTE_ADDR e in
            r ← mappages pgdir vpage_start PGSIZE pa (Z.lor PTE_W PTE_U);
            if r <? 0 then
              _ ← deallocuvm pgdir (u32 (va + sz)) va; mret (-1)
            else
              share_pages k parent_pgdir pgdir va sz (u32 (vpage_start + PGSIZE))
                (u32 (struct_start + PGSIZE)) (u32 (i + PGSIZE))
      else mret 0
  end.

(** The outer loop over [curproc->shared]: it stops at the first entry of
    size 0 and returns the table with the addresses of the child. *)
Fixpoint access_shared_loop (parent_pgdir pgdir va : Z) (sh : list shared)
    : M machine (list shared * Z) :=
  match sh with
  | [] => mret ([], 0)
  | e :: sh' =>
      if size e =? 0 then mret (sh, 0)
      else
        let old_perm := PTE_FLAGS (memstart e) in
        let vpage_start := PGROUNDUP va in
        let struct_start := memstart e in
        let sz := PGROUNDUP (size e) in
        r ← share_pages (S (Z.to_nat (sz / PGSIZE))) parent_pgdir pgdir va sz
              vpage_start struct_start 0;
        if r <? 0 then mret (sh, -1)
        else
          '(sh', r) ← access_shared_loop parent_pgdir pgdir (u32 (va + sz)) sh';
          mret (set_memstart (u32 (va + old_perm)) e :: sh', r)
  end.

Definition access_shared (parent_pgdir pgdir : Z) (sh : list shared) : M machine (list shared * Z) :=
  access_shared_loop parent_pgdir pgdir SHAREDBASE sh.

(** ** The mapping it builds *)

(** [m'] maps [n] pages of [d] from [va] on to the frames that [pg] maps
    in [m0] from [ms] on; the other entries are those of [m]. *)
Definition maps_shared (m0 : gmap Z Z) (pg : Z) (m m' : gmap Z Z) (d va ms n : Z) : Prop :=
  forall a, 0 <= a < 2 ^ 32 ->
    pte m' d a = if (va <=? a) && (a <? va + n * PGSIZE)
                 then pte_entry (PTE_ADDR (pte m0 pg (ms + (page_of a - va)))) (Z.lor PTE_W PTE_U)
                 else pte m d a.

(** The parent's directory [pg] is apart from the child's [d] and from the
    free list. *)
Definition apart (s : machine) (l : list Z) (pg d : Z) : Prop :=
  pt_sep s l d /\ wf_pgdir (mem s) pg /\
  (forall p, p ∈ pgdir_pages (mem s) pg -> p ∉ l) /\
  pgdir_pages (mem s) pg ## pgdir_pages (mem s) d.

(** The parent's entries survive changes to the child's directory. *)
Lemma apart_extend s l s' l' pg d : apart s l pg d -> pt_extend s l s' l' d ->
  apart s' l' pg d /\ (forall a, pte (mem s') pg a = pte (mem s) pg a).
Proof.
  intros (Hsep & Hwf & Hl & Hdis) Hext. pose proof (pt_extend_sep _ _ _ _ _ Hsep Hext) as Hsep'.
  destruct Hext as (_ & _ & (new & -> & Ht) & _ & Hf & _).
  assert (pgdir_pages (mem s') d = pgdir_pages (mem s) d ∪ list_to_set new) as Hpg
    by (unfold pgdir_pages; by rewrite Ht, (assoc_L (∪))).
  assert (pgdir_pages (mem s) pg ## pgdir_pages (mem s') d) as Hdis'.
  { rewrite Hpg. apply disjoint_union_r. split; [done|]. apply elem_of_disjoint.
    intros p Hp Hn%elem_of_list_to_set. apply (Hl p Hp), elem_of_app. by left. }
  destruct (pt_frame _ _ _ pg Hwf Hf Hdis') as (Hwf' & Ht' & _ & Hpte).
  split; [|done]. do 2 (split; [done|]).
  assert (pgdir_pages (mem s') pg = pgdir_pages (mem s) pg) as -> by (unfold pgdir_pages; by rewrite Ht').
  split; [|done]. intros p Hp. specialize (Hl p Hp). set_solver.
Qed.

Lemma maps_shared_0 m0 pg m d va ms : maps_shared m0 pg m m d va ms 0.
Proof. intros a Ha. wrote_case. Qed.

Lemma shared_entry x : let e := pte_entry (PTE_ADDR x) (Z.lor PTE_W PTE_U) in
  PTE_ADDR e = PTE_ADDR x /\ PTE_FLAGS e = Z.lor (Z.lor PTE_W PTE_U) PTE_P /\
  flag_set e PTE_P = true.
Proof.
  destruct (pte_entry_spec (PTE_ADDR x) (Z.lor PTE_W PTE_U)) as (Ha & Hf & Hp & _);
    [lia|lia|done|]. done.
Qed.

Section pages.
Context (s : machine) (l : list Z) (pg d va ms : Z) (n : nat).
Hypothesis (Hap : apart s l pg d) (Hva : va mod PGSIZE = 0) (Hva0 : 0 <= va).
Hypothesis (Hvan : va + Z.of_nat n * PGSIZE <= KERNBASE).
Hypothesis (Hms : 0 <= ms) (Hmsn : ms + Z.of_nat n * PGSIZE <= KERNBASE).
Hypothesis Hmapped : forall k, 0 <= k < Z.of_nat n -> mapped_page (mem s) pg (ms + k * PGSIZE) = true.
Hypothesis Hfree :
  forall a, va <= a < va + Z.of_nat n * PGSIZE -> mapped_page (mem s) d a = false.

(** Frames of the structure's pages in the parent. *)
Definition struct_frames (k : nat) : list Z :=
  (fun i => uframe (mem s) pg (ms + i * PGSIZE)) <$> seqZ 0 (Z.of_nat k).

(** The frames belong to the parent: allocatable, distinct, not free and
    not part of the child's directory. *)
Definition frames_ok : Prop :=
  NoDup (struct_frames n) /\ Forall valid_page (struct_frames n) /\
  forall p, p ∈ struct_frames n -> (p ∉ l) /\ p ∉ pgdir_pages (mem s) d.

Lemma maps_shared_step k s1 s2 : (Z.of_nat k < Z.of_nat n) ->
  maps_shared (mem s) pg (mem s) (mem s1) d va ms (Z.of_nat k) ->
  mapped (mem s1) (mem s2) d (va + Z.of_nat k * PGSIZE) 1
    (PTE_ADDR (pte (mem s) pg (ms + Z.of_nat k * PGSIZE))) (Z.lor PTE_W PTE_U) ->
  maps_shared (mem s) pg (mem s) (mem s2) d va ms (Z.of_nat (S k)).
Proof.
  intros Hk Hm Hmap a Ha. rewrite (Hmap a Ha), (Hm a Ha).
  destruct ((va + Z.of_nat k * PGSIZE <=? a) && _) eqn:E1.
  - rewrite (proj2 (andb_true_iff _ _)) by lia.
    replace (page_of a - va) with (Z.of_nat k * PGSIZE) by lia. f_equal. lia.
  - assert ((va <=? a) && (a <? va + Z.of_nat (S k) * PGSIZE) =
            (va <=? a) && (a <? va + Z.of_nat k * PGSIZE)) as -> by lia. done.
Qed.

(** The frames the child maps after [k] pages. *)
Lemma shared_frames_mapped k m' : (k <= n)%nat ->
  maps_shared (mem s) pg (mem s) m' d va ms (Z.of_nat k) ->
  forall j, (j <= k)%nat -> user_frames m' d va j = struct_frames j.
Proof.
  intros Hk Hm. induction j as [|j IH]; intros Hj; [done|].
  unfold struct_frames in *. rewrite <- Nat.add_1_r at 1. rewrite user_frames_app, IH by lia.
  rewrite seqZ_S, fmap_app. f_equal. rewrite user_frames_cons. unfold mapped_page, uframe.
  rewrite (Hm (va + _)) by lia. rewrite (proj2 (andb_true_iff _ _)) by lia.
  replace (ms + (page_of _ - va)) with (ms + (0 + Z.of_nat j) * PGSIZE) by lia.
  destruct (shared_entry (pte (mem s) pg (ms + (0 + Z.of_nat j) * PGSIZE))) as (-> & _ & ->).
  done.
Qed.

Lemma shared_user_frames k m' : (k <= n)%nat ->
  maps_shared (mem s) pg (mem s) m' d va ms (Z.of_nat k) ->
  user_frames m' d va n = struct_frames k.
Proof.
  intros Hk Hm. rewrite <- (shared_frames_mapped k m' Hk Hm k) by lia.
  replace n with (k + (n - k))%nat by lia. rewrite user_frames_app.
  rewrite (user_frames_unmapped _ _ _ (n - k)), app_nil_r; [done|].
  intros a Ha. rewrite elem_of_pages in Ha by lia. unfold mapped_page.
  rewrite (Hm a) by lia. rewrite (proj2 (andb_false_iff _ _)) by lia. apply Hfree. lia.
Qed.

Lemma struct_frames_prefix k : (k <= n)%nat -> struct_frames k `prefix_of` struct_frames n.
Proof.
  intros Hk. unfold struct_frames. replace (Z.of_nat n) with (Z.of_nat k + Z.of_nat (n - k)) by lia.
  rewrite seqZ_app, fmap_app by lia. by apply prefix_app_r.
Qed.

(** What the loop leaves behind when it fails at page [k]: the frames the
    parent still maps are on the free list. *)
Definition share_failed (k : nat) (s' : machine) : Prop :=
  exists l', kmem_inv s' l' /\ l' ≡ₚ struct_frames k.

Lemma share_fail_sep k s2 : frames_ok -> (k <= n)%nat -> pt_extend s l s2 [] d ->
  maps_shared (mem s) pg (mem s) (mem s2) d va ms (Z.of_nat k) -> user_sep s2 [] d va n.
Proof.
  intros (Hnd & Hval & Hout) Hk Hext Hm. pose proof (shared_user_frames k _ Hk Hm) as Huf.
  destruct (struct_frames_prefix k Hk) as [rest Hpre].
  assert (forall p, p ∈ struct_frames k -> p ∈ struct_frames n) as Hin.
  { intros p Hp. rewrite Hpre, elem_of_app. by left. }
  split; [eapply pt_extend_sep; [apply Hap|done]|]. rewrite Huf, app_nil_r.
  split; [|split].
  - rewrite Hpre in Hnd. by apply NoDup_app in Hnd as (? & _ & _).
  - apply Forall_forall. intros p Hp. rewrite Forall_forall in Hval. by apply Hval, Hin.
  - destruct Hext as (_ & _ & (new & -> & Ht) & _). intros p Hp. rewrite app_nil_r in *.
    destruct (Hout p (Hin p Hp)) as [Hpl Hpd]. unfold pgdir_pages in *. rewrite Ht. set_solver.
Qed.

Lemma share_pages_wp fuel : forall k s1 l1, frames_ok ->
  (n - k < fuel)%nat -> (k <= n)%nat -> pt_extend s l s1 l1 d ->
  maps_shared (mem s) pg (mem s) (mem s1) d va ms (Z.of_nat k) ->
  wp (share_pages fuel pg d va (Z.of_nat n * PGSIZE) (va + Z.of_nat k * PGSIZE)
        (ms + Z.of_nat k * PGSIZE) (Z.of_nat k * PGSIZE)) s1 (fun r s' =>
    (r = 0 /\ exists l', pt_extend s l s' l' d /\
       maps_shared (mem s) pg (mem s) (mem s') d va ms (Z.of_nat n)) \/
    (r = -1 /\ exists k, (k < n)%nat /\ share_failed k s')).
Proof.
  induction fuel as [|fuel IH]; intros k s1 l1 Hfr Hfuel Hkn Hext Hm; [lia|].
  cbn [share_pages]. destruct (Z.ltb_spec (Z.of_nat k * PGSIZE) (Z.of_nat n * PGSIZE)) as [Hlt|Hge].
  2: { assert (k = n) as -> by lia. apply wp_ret. left. eauto. }
  destruct (apart_extend _ _ _ _ _ _ Hap Hext) as [(Hsep1 & Hwf1 & _) Hpte1].
  set (va' := ms + Z.of_nat k * PGSIZE).
  pose proof (Hmapped (Z.of_nat k) ltac:(lia)) as Hmk. fold va' in Hmk.
  assert (mapped_page (mem s1) pg va' = true) as Hmk1 by (unfold mapped_page; by rewrite Hpte1).
  pose proof (mapped_present _ _ _ Hmk1) as Hp.
  rewrite wp_bind, (wp_run _ _ _ _ _ (walkpgdir_lookup s1 pg va' Hwf1)), Hp.
  destruct (pte_ptr_page _ _ va' Hwf1 Hp) as (_ & _ & Hr).
  rewrite (proj2 (Z.eqb_neq _ _)) by lia. rewrite wp_bind, wp_load32, pte_load by (done || lia).
  unfold mapped_page in Hmk1. rewrite Hmk1, Hpte1. cbn [negb]. cbv zeta.
  assert (npages (va + Z.of_nat k * PGSIZE) PGSIZE = 1) as Hnp by (unfold npages; lia).
  rewrite wp_bind. eapply wp_mono; [apply (mappages_wp s1 l1); [done|lia|lia|lia|lia|lia|lia|done|]|].
  { intros a Ha. rewrite (Hm a) by lia. rewrite (proj2 (andb_false_iff _ _)) by lia.
    apply Hfree. lia. }
  cbv beta. rewrite Hnp. replace (page_of _) with (va + Z.of_nat k * PGSIZE) by lia.
  intros r s2 (l2 & j & Hext2 & Hmap & [[-> ->]|(-> & -> & Hj)]).
  - change (0 <? 0) with false. cbv iota.
    replace (u32 (va + _ + _)) with (va + Z.of_nat (S k) * PGSIZE) by lia.
    replace (u32 (va' + _)) with (ms + Z.of_nat (S k) * PGSIZE) by lia.
    replace (u32 (_ + _)) with (Z.of_nat (S k) * PGSIZE) by lia.
    apply (IH (S k) s2 l2); [done|lia|lia|by eapply pt_extend_trans|].
    eapply maps_shared_step; [lia|done|done].
  - change (-1 <? 0) with true. cbv iota. assert (j = 0) as -> by lia.
    assert (maps_shared (mem s) pg (mem s) (mem s2) d va ms (Z.of_nat k)) as Hm2.
    { intros a Ha. rewrite (Hmap a Ha), (Hm a Ha). wrote_case. }
    pose proof (pt_extend_trans _ _ _ _ _ _ _ Hext Hext2) as Hext'.
    pose proof (share_fail_sep k s2 Hfr Hkn Hext' Hm2) as Hus.
    replace (u32 (va + _)) with (va + Z.of_nat n * PGSIZE) by lia. rewrite wp_bind.
    eapply wp_mono; [apply (deallocuvm_wp s2 [] d _ va n); [lia|lia|..]|].
    + unfold covers. lia.
    + by replace (PGROUNDUP va) with va by lia.
    + intros _ s3 (_ & l3 & Hk3 & Hperm & _). apply wp_ret. right. split; [done|].
      exists k. split; [lia|]. exists l3. split; [done|].
      replace (PGROUNDUP va) with va in Hperm by lia.
      by rewrite Hperm, app_nil_r, (shared_user_frames k).
Qed.
End pages.

(** ** The whole table *)

(** Pages [access_shared_memory] maps for an entry. *)
Definition entry_pages (e : shared) : nat := Z.to_nat (PGROUNDUP (size e) / PGSIZE).

(** The table after a successful call: consecutive page-aligned places
    from [va] on, each address keeping its offset in the page. *)
Fixpoint relocate (va : Z) (sh : list shared) : list shared :=
  match sh with
  | [] => []
  | e :: sh' =>
      if size e =? 0 then sh
      else set_memstart (va + memstart e mod PGSIZE) e ::
           relocate (va + Z.of_nat (entry_pages e) * PGSIZE) sh'
  end.

(** Where the places of the entries in use end. *)
Fixpoint shared_end (va : Z) (sh : list shared) : Z :=
  match sh with
  | [] => va
  | e :: sh' => if size e =? 0 then va
                else shared_end (va + Z.of_nat (entry_pages e) * PGSIZE) sh'
  end.

(** The page-table entry the child has for [a]: that of the structure
    whose place contains [a], otherwise the one it had in [m]. *)
Fixpoint shared_pte (m0 : gmap Z Z) (pg : Z) (m : gmap Z Z) (d va : Z) (sh : list shared) (a : Z) : Z :=
  match sh with
  | [] => pte m d a
  | e :: sh' =>
      if size e =? 0 then pte m d a
      else if (va <=? a) && (a <? va + Z.of_nat (entry_pages e) * PGSIZE)
      then pte_entry (PTE_ADDR (pte m0 pg (memstart e + (page_of a - va)))) (Z.lor PTE_W PTE_U)
      else shared_pte m0 pg m d (va + Z.of_nat (entry_pages e) * PGSIZE) sh' a
  end.

(** A structure that lies in mapped memory of the parent. *)
Definition entry_ok (s : machine) (l : list Z) (pg d : Z) (e : shared) : Prop :=
  0 < size e < 2 ^ 31 /\ 0 <= memstart e /\
  memstart e + Z.of_nat (entry_pages e) * PGSIZE <= KERNBASE /\
  (forall k, 0 <= k < Z.of_nat (entry_pages e) ->
     mapped_page (mem s) pg (memstart e + k * PGSIZE) = true) /\
  frames_ok s l pg d (memstart e) (entry_pages e).

(** Entries before the first free one. *)
Fixpoint in_use (sh : list shared) : list shared :=
  match sh with
  | [] => []
  | e :: sh' => if size e =? 0 then [] else e :: in_use sh'
  end.

Lemma in_use_size e sh : e ∈ in_use sh -> size e <> 0.
Proof.
  induction sh as [|x sh IH]; simpl; [set_solver|].
  destruct (Z.eqb_spec (size x) 0); set_solver.
Qed.

Lemma entry_ok_extend s l s1 l1 pg d e : apart s l pg d -> pt_extend s l s1 l1 d ->
  entry_ok s l pg d e -> entry_ok s1 l1 pg d e.
Proof.
  intros Hap Hext (Hsz & Hm & Hmx & Hmap & Hnd & Hval & Hout).
  destruct (apart_extend _ _ _ _ _ _ Hap Hext) as [_ Hpte].
  assert (struct_frames s1 pg (memstart e) (entry_pages e) =
          struct_frames s pg (memstart e) (entry_pages e)) as Hsf.
  { unfold struct_frames, uframe. apply list_fmap_ext. intros i x _. by rewrite Hpte. }
  do 3 (split; [done|]). split; [intros k Hk; unfold mapped_page; rewrite Hpte; by apply Hmap|].
  unfold frames_ok. rewrite Hsf. do 2 (split; [done|]). intros p Hp.
  destruct (Hout p Hp) as [Hpl Hpd]. destruct Hext as (_ & _ & (new & -> & Ht) & _).
  unfold pgdir_pages in *. rewrite Ht. set_solver.
Qed.

Lemma shared_end_ge sh : forall va, va <= shared_end va sh.
Proof.
  induction sh as [|e sh IH]; intros va; simpl; [lia|]. destruct (size e =? 0); [lia|].
  specialize (IH (va + Z.of_nat (entry_pages e) * PGSIZE)). lia.
Qed.

Lemma shared_pte_below m0 pg m d sh a : forall va, a < va -> shared_pte m0 pg m d va sh a = pte m d a.
Proof.
  induction sh as [|e sh IH]; intros va Ha; simpl; [done|]. destruct (size e =? 0); [done|].
  rewrite (proj2 (andb_false_iff _ _)) by lia. apply IH. lia.
Qed.

Lemma shared_pte_ext m0 pg m m1 d sh a : (forall x, pte m1 pg x = pte m0 pg x) ->
  pte m1 d a = pte m d a ->
  forall va, shared_pte m1 pg m1 d va sh a = shared_pte m0 pg m d va sh a.
Proof.
  intros Hpg Hd. induction sh as [|e sh IH]; intros va; simpl; [done|].
  by rewrite Hpg, Hd, IH.
Qed.

Lemma shared_pte_step s s1 pg d va e sh a : size e <> 0 ->
  (forall x, pte (mem s1) pg x = pte (mem s) pg x) -> 0 <= a < 2 ^ 32 ->
  maps_shared (mem s) pg (mem s) (mem s1) d va (memstart e) (Z.of_nat (entry_pages e)) ->
  shared_pte (mem s1) pg (mem s1) d (va + Z.of_nat (entry_pages e) * PGSIZE) sh a =
  shared_pte (mem s) pg (mem s) d va (e :: sh) a.
Proof.
  intros Hsz Hpg Ha Hm. cbn [shared_pte]. rewrite (proj2 (Z.eqb_neq _ _) Hsz).
  specialize (Hm a Ha). destruct ((va <=? a) && _) eqn:E.
  - rewrite shared_pte_below by lia. done.
  - by apply shared_pte_ext.
Qed.

Lemma entry_pages_size e : 0 < size e < 2 ^ 31 ->
  PGROUNDUP (size e) = Z.of_nat (entry_pages e) * PGSIZE.
Proof. unfold entry_pages. lia. Qed.

Lemma access_shared_loop_wp pg d sh : forall s l va, apart s l pg d -> va mod PGSIZE = 0 -> 0 <= va ->
  shared_end va sh <= KERNBASE -> (forall e, e ∈ in_use sh -> entry_ok s l pg d e) ->
  (forall a, va <= a < shared_end va sh -> mapped_page (mem s) d a = false) ->
  wp (access_shared_loop pg d va sh) s (fun '(sh', r) s' =>
    (r = 0 /\ sh' = relocate va sh /\ exists l', pt_extend s l s' l' d /\
       forall a, 0 <= a < 2 ^ 32 -> pte (mem s') d a = shared_pte (mem s) pg (mem s) d va sh a) \/
    (r = -1 /\ exists e k, e ∈ in_use sh /\ (k < entry_pages e)%nat /\
       share_failed s pg (memstart e) k s')).
Proof.
  induction sh as [|e sh IH]; intros s l va Hap Hva Hva0 Hend Hok Hfree.
  { apply wp_ret. left. do 2 (split; [done|]). exists l.
    split; [|done]. apply pt_extend_refl; apply Hap. }
  cbn [access_shared_loop in_use relocate shared_end] in *.
  destruct (Z.eqb_spec (size e) 0) as [Hz|Hz].
  { apply wp_ret. left. do 2 (split; [done|]). exists l. split; [apply pt_extend_refl; apply Hap|].
    intros a Ha. cbn [shared_pte]. by rewrite Hz. }
  pose proof (Hok e ltac:(set_solver)) as (Hsz & Hm & Hmx & Hmap & Hfr).
  cbv zeta. rewrite entry_pages_size by done. set (n := entry_pages e) in *.
  replace (Z.to_nat (Z.of_nat n * PGSIZE / PGSIZE)) with n by lia.
  pose proof (shared_end_ge sh (va + Z.of_nat n * PGSIZE)) as Hge.
  replace (PGROUNDUP va) with va by lia. rewrite wp_bind.
  pose proof (share_pages_wp s l pg d va (memstart e) n Hap Hva Hva0 ltac:(lia) Hm Hmx Hmap
    ltac:(intros a Ha; apply Hfree; lia) (S n) O s l Hfr ltac:(lia) ltac:(lia)) as Hsp.
  rewrite Z.mul_0_l, !Z.add_0_r in Hsp. eapply wp_mono; [apply Hsp|].
  { apply pt_extend_refl; apply Hap. }
  { apply maps_shared_0. }
  cbv beta. intros r s1 [(-> & l1 & Hext & Hms)|(-> & k & Hk & Hfail)].
  - change (0 <? 0) with false. cbv iota. replace (u32 (va + Z.of_nat n * PGSIZE)) with (va + Z.of_nat n * PGSIZE) by lia.
    destruct (apart_extend _ _ _ _ _ _ Hap Hext) as [Hap1 Hpte1].
    rewrite wp_bind. eapply wp_mono; [apply (IH s1 l1); [done|lia|lia|done|..]|].
    + intros x Hx. eapply entry_ok_extend; [exact Hap|exact Hext|]. apply Hok. set_solver.
    + intros a Ha. unfold mapped_page. rewrite (Hms a) by lia.
      rewrite (proj2 (andb_false_iff _ _)) by lia. apply Hfree. lia.
    + cbv beta. intros [sh' r] s2 [(-> & -> & l2 & Hext2 & Hpte2)|(-> & x & k & Hx & Hk & l2 & Hk2 & Hp2)];
        apply wp_ret; [left|right].
      * split; [done|]. split; [do 2 f_equal; lia|]. exists l2.
        split; [by eapply pt_extend_trans|]. intros a Ha. rewrite Hpte2 by done.
        by apply shared_pte_step.
      * split; [done|]. exists x, k. split; [set_solver|]. split; [done|]. exists l2.
        split; [done|]. rewrite Hp2. unfold struct_frames, uframe.
        apply Permutation_refl', list_fmap_ext. intros i y _. by rewrite Hpte1.
  - change (-1 <? 0) with true. cbv iota. apply wp_ret. right. split; [done|].
    exists e, k. split; [set_solver|]. done.
Qed.

(** The place of the [i]-th entry in use. *)
Lemma relocate_lookup m0 pg m d sh i e : in_use sh !! i = Some e -> forall va, va mod PGSIZE = 0 ->
  exists va', relocate va sh !! i = Some (set_memstart (va' + memstart e mod PGSIZE) e) /\
    va <= va' /\ va' mod PGSIZE = 0 /\
    va' + Z.of_nat (entry_pages e) * PGSIZE <= shared_end va sh /\
    forall a, va' <= a < va' + Z.of_nat (entry_pages e) * PGSIZE ->
      shared_pte m0 pg m d va sh a =
      pte_entry (PTE_ADDR (pte m0 pg (memstart e + (page_of a - va')))) (Z.lor PTE_W PTE_U).
Proof.
  revert i. induction sh as [|x sh IH]; intros i Hi va Hva; [done|].
  cbn [in_use relocate shared_end shared_pte] in *. destruct (Z.eqb_spec (size x) 0) as [|Hz]; [done|].
  destruct i as [|i]; simpl in Hi.
  - injection Hi as ->. exists va. split; [done|]. split; [lia|]. split; [done|].
    pose proof (shared_end_ge sh (va + Z.of_nat (entry_pages e) * PGSIZE)).
    split; [lia|]. intros a Ha. by rewrite (proj2 (andb_true_iff _ _)) by lia.
  - destruct (IH i Hi (va + Z.of_nat (entry_pages x) * PGSIZE) ltac:(lia))
      as (va' & Hr & Hge & Hal & Hend & Hpte).
    exists va'. split; [done|]. split; [lia|]. do 2 (split; [done|]). intros a Ha.
    rewrite (proj2 (andb_false_iff _ _)) by lia. by apply Hpte.
Qed.

(** The page after the place of the [i]-th entry: the first page of the
    next one in use, or what the child had there. *)
Lemma relocate_next m0 pg m d sh i e : in_use sh !! i = Some e ->
  (forall f, f ∈ in_use sh -> 0 < size f < 2 ^ 31) -> forall va, va mod PGSIZE = 0 ->
  exists va', relocate va sh !! i = Some (set_memstart (va' + memstart e mod PGSIZE) e) /\
    va <= va' /\ va' mod PGSIZE = 0 /\ va' + Z.of_nat (entry_pages e) * PGSIZE <= shared_end va sh /\
    forall a, let b := va' + Z.of_nat (entry_pages e) * PGSIZE in b <= a < b + PGSIZE ->
      shared_pte m0 pg m d va sh a =
      match in_use sh !! S i with
      | Some f => pte_entry (PTE_ADDR (pte m0 pg (memstart f))) (Z.lor PTE_W PTE_U)
      | None => pte m d a
      end.
Proof.
  intros Hi Hsz. revert i Hi Hsz. induction sh as [|x sh IH]; intros i Hi Hsz va Hva; [done|].
  cbn [in_use relocate shared_end shared_pte] in *. destruct (Z.eqb_spec (size x) 0) as [|Hz]; [done|].
  destruct i as [|i].
  - injection Hi as ->. exists va. split; [done|]. split; [lia|]. split; [done|].
    pose proof (shared_end_ge sh (va + Z.of_nat (entry_pages e) * PGSIZE)) as Hge. split; [lia|]. intros a Ha.
    rewrite (proj2 (andb_false_iff _ _)) by lia. change ((e :: in_use sh) !! 1%nat) with (in_use sh !! 0%nat).
    destruct sh as [|f sh]; [done|]. cbn [in_use shared_pte] in *. destruct (Z.eqb_spec (size f) 0) as [|Hzf]; [done|].
    pose proof (Hsz f ltac:(set_solver)) as Hf. assert (0 < Z.of_nat (entry_pages f)) as Hpos by (unfold entry_pages; lia).
    rewrite (proj2 (andb_true_iff _ _)) by lia. cbn. do 2 f_equal. f_equal. lia.
  - destruct (IH i Hi ltac:(set_solver) (va + Z.of_nat (entry_pages x) * PGSIZE) ltac:(lia))
      as (va' & Hr & Hge & Hal & Hend & Hpte).
    exists va'. split; [done|]. split; [lia|]. do 2 (split; [done|]). intros a Ha.
    rewrite (proj2 (andb_false_iff _ _)) by lia. by apply Hpte.
Qed.

(** Bytes of a structure that lie in the pages mapped for it. *)
Definition reachable (e : shared) (j : Z) : Prop :=
  0 <= j < size e /\ memstart e mod PGSIZE + j < Z.of_nat (entry_pages e) * PGSIZE.

(** A structure that does not reach into a further page is reachable as a
    whole. *)
Lemma reachable_all e : 0 < size e < 2 ^ 31 ->
  memstart e mod PGSIZE + size e <= Z.of_nat (entry_pages e) * PGSIZE ->
  forall j, 0 <= j < size e -> reachable e j.
Proof. unfold reachable. lia. Qed.

(** Parent and child name the same byte. *)
Lemma same_frame m0 pg m m' d va sh i e : va mod PGSIZE = 0 -> 0 <= va -> shared_end va sh <= KERNBASE ->
  0 < size e < 2 ^ 31 -> 0 <= memstart e ->
  memstart e + Z.of_nat (entry_pages e) * PGSIZE <= KERNBASE ->
  (forall a, 0 <= a < 2 ^ 32 -> pte m' d a = shared_pte m0 pg m d va sh a) ->
  in_use sh !! i = Some e ->
  exists e', relocate va sh !! i = Some e' /\ name e' = name e /\ size e' = size e /\
    va <= memstart e' < KERNBASE /\
    forall j, reachable e j ->
      mapped_page m' d (memstart e' + j) = true /\
      PTE_FLAGS (pte m' d (memstart e' + j)) = Z.lor (Z.lor PTE_W PTE_U) PTE_P /\
      uaddr m' d (memstart e' + j) = uaddr m0 pg (memstart e + j).
Proof.
  intros Hva Hva0 Hend Hsz Hm Hmx Hpte Hi.
  destruct (relocate_lookup m0 pg m d sh i e Hi va Hva) as (va' & Hr & Hge & Hal & Hend' & Hplace).
  eexists. split; [exact Hr|]. cbn [name size memstart set_memstart]. do 2 (split; [done|]).
  assert (0 < Z.of_nat (entry_pages e)) as Hpos by (unfold entry_pages; lia).
  split; [lia|]. intros j [Hj Hjp]. set (a := va' + memstart e mod PGSIZE + j).
  assert (va' <= a < va' + Z.of_nat (entry_pages e) * PGSIZE) as Ha by lia.
  specialize (Hplace a Ha). rewrite <- Hpte in Hplace by lia.
  rewrite (pte_page m0 pg _ (memstart e + j)) in Hplace by lia.
  destruct (shared_entry (pte m0 pg (memstart e + j))) as (He & Hf & Hp).
  unfold mapped_page, uaddr, uframe. rewrite Hplace, Hf, Hp, He. do 2 (split; [done|]). lia.
Qed.

(** The child's directory [d] has room for the structures in use, and
    each of them lies in memory the parent [pg] maps. *)
Definition can_share (s : machine) (l : list Z) (pg d : Z) (sh : list shared) : Prop :=
  apart s l pg d /\ shared_end SHAREDBASE sh <= KERNBASE /\
  (forall e, e ∈ in_use sh -> entry_ok s l pg d e) /\
  (forall a, SHAREDBASE <= a < shared_end SHAREDBASE sh -> mapped_page (mem s) d a = false).

Lemma access_shared_wp s l pg d sh : can_share s l pg d sh ->
  wp (access_shared pg d sh) s (fun '(sh', r) s' =>
    (r = 0 /\ sh' = relocate SHAREDBASE sh /\ exists l', pt_extend s l s' l' d /\
       forall a, 0 <= a < 2 ^ 32 ->
         pte (mem s') d a = shared_pte (mem s) pg (mem s) d SHAREDBASE sh a) \/
    (r = -1 /\ exists e k, e ∈ in_use sh /\ (k < entry_pages e)%nat /\
       share_failed s pg (memstart e) k s')).
Proof.
  intros (Hap & Hend & Hok & Hfree). unfold access_shared.
  exact (access_shared_loop_wp pg d sh s l SHAREDBASE Hap eq_refl ltac:(lia) Hend Hok Hfree).
Qed.
End shared.
