(* ===== verification/Locks.v ===== *)
(** * [kernel/spinlock.c] and [kernel/sleeplock.c]

    Spin locks at the level of the CPUs: interrupt flags, the nesting
    counter of [pushcli] and the atomic exchange on the lock word.  A
    spinning [acquire] is [Blocked]. *)

From stdpp Require Import base numbers list gmap strings.
From S2P Require Import Prelude.
Open Scope Z_scope.

(** The fields of [struct cpu] used here, with the interrupt flag of
    [eflags]. *)
Record cpu := Cpu { apicid : Z; fl_if : bool; ncli : Z; intena : bool }.

Record spinlock := Spinlock { locked : Z; lk_cpu : option nat }.

Record lst := Lst { cpus : list cpu; locks : list spinlock }.

Definition set_cpus v s := Lst v (locks s).
Definition set_locks v s := Lst (cpus s) v.
Definition set_fl_if b c := Cpu (apicid c) b (ncli c) (intena c).
Definition set_ncli n c := Cpu (apicid c) (fl_if c) n (intena c).
Definition set_intena b c := Cpu (apicid c) (fl_if c) (ncli c) b.

Definition getc (i : nat) : M lst cpu := fun s =>
  match cpus s !! i with Some c => Ret (c, s) | None => Fault 0 end.
Definition setc (i : nat) (f : cpu -> cpu) : M lst () := fun s =>
  match cpus s !! i with Some c => Ret ((), set_cpus (<[i := f c]> (cpus s)) s) | None => Fault 0 end.
Definition getl (k : nat) : M lst spinlock := fun s =>
  match locks s !! k with Some l => Ret (l, s) | None => Fault 0 end.
Definition setl (k : nat) (f : spinlock -> spinlock) : M lst () := fun s =>
  match locks s !! k with Some l => Ret ((), set_locks (<[k := f l]> (locks s)) s) | None => Fault 0 end.

(** The code runs on CPU [me]; [lapicid()] reads its id. *)
Section spinlock.
Context (me : nat).

(** [for (i = 0; i < ncpu; ++i) if (cpus[i].apicid == apicid) return &cpus[i];] *)
Definition mycpu : M lst nat :=
  c ← getc me;
  if fl_if c then panic "mycpu called with interrupts enabled"
  else
    cs ← gets cpus;
    match list_find (fun d => apicid d = apicid c) cs with
    | Some (i, _) => mret i
    | None => panic "unknown apicid"
    end.

Definition pushcli : M lst () :=
  c ← getc me;
  let eflags := fl_if c in
  _ ← setc me (set_fl_if false);
  i ← mycpu; m ← getc i;
  _ ← (if ncli m =? 0 then i ← mycpu; setc i (set_intena eflags) else mret ());
  i ← mycpu; setc i (fun c => set_ncli (s32 (ncli c + 1)) c).

Definition popcli : M lst () :=
  c ← getc me;
  if fl_if c then panic "popcli - interruptible"
  else
    i ← mycpu;
    _ ← setc i (fun c => set_ncli (s32 (ncli c - 1)) c);
    m ← getc i;
    if ncli m <? 0 then panic "popcli"
    else if (ncli m =? 0) && intena m then setc me (set_fl_if true) else mret ().

Definition holding (k : nat) : M lst bool :=
  _ ← pushcli;
  l ← getl k;
  r ← (if locked l =? 0 then mret false
       else i ← mycpu; mret (bool_decide (lk_cpu l = Some i)));
  _ ← popcli;
  mret r.

(** [xchg(&lk->locked, 1)] *)
Definition xchg1 (k : nat) : M lst Z :=
  l ← getl k; _ ← setl k (fun l => Spinlock 1 (lk_cpu l)); mret (locked l).

Definition initlock (k : nat) : M lst () := setl k (fun _ => Spinlock 0 None).

Definition acquire (k : nat) : M lst () :=
  _ ← pushcli;
  h ← holding k;
  if h : bool then panic "acquire"
  else
    old ← xchg1 k;
    if negb (old =? 0) then blocked
    else i ← mycpu; setl k (fun l => Spinlock (locked l) (Some i)).

Definition release (k : nat) : M lst () :=
  h ← holding k;
  if negb h then panic "release"
  else
    _ ← setl k (fun l => Spinlock (locked l) None);
    _ ← setl k (fun l => Spinlock 0 (lk_cpu l));
    popcli.
End spinlock.

(** ** Sleep locks

    The fields of a sleep lock, and the critical sections of its functions
    (which its spin lock makes atomic) for the process [pid].  A lock that
    is taken makes [acquiresleep] sleep. *)

Record sleeplock := Sleeplock { sl_locked : bool; sl_pid : Z }.

Definition initsleeplock : sleeplock := Sleeplock false 0.
Definition acquiresleep (pid : Z) (lk : sleeplock) : option sleeplock :=
  if sl_locked lk then None else Some (Sleeplock true pid).
Definition releasesleep (lk : sleeplock) : sleeplock := Sleeplock false 0.
Definition holdingsleep (pid : Z) (lk : sleeplock) : bool := sl_locked lk && (sl_pid lk =? pid).
