(* ===== verification/LocksSpec.v ===== *)
(** * Spin locks and sleep locks: specifications

    The sequential behaviour of [acquire] and [release] on one CPU, and the
    interleaving of the instructions of several CPUs, for which the lock
    word gives mutual exclusion. *)

From stdpp Require Import base numbers list gmap strings.
From S2P Require Import Prelude Locks.
Open Scope Z_scope.

(** ** Sequential behaviour *)

(** CPUs have distinct ids, the nesting counter counts, and interrupts are
    off while it is positive. *)
Definition cpu_ok (c : cpu) : Prop :=
  0 <= ncli c < 2 ^ 31 - 2 /\ (0 < ncli c -> fl_if c = false).

Record cpus_ok (s : lst) : Prop := {
  ck_ids : forall i j c d, cpus s !! i = Some c -> cpus s !! j = Some d -> apicid c = apicid d -> i = j;
  ck_cpu : forall i c, cpus s !! i = Some c -> cpu_ok c }.

Section spec.
Context (s : lst) (me : nat) (c : cpu).
Hypothesis (Hids : forall i j c d, cpus s !! i = Some c -> cpus s !! j = Some d -> apicid c = apicid d -> i = j)
  (Hme : cpus s !! me = Some c).

(** [s] with the flag, counter and saved flag of [me] replaced. *)
Definition with_cpu (b : bool) (n : Z) (ie : bool) (ls : list spinlock) : lst :=
  Lst (<[me := Cpu (apicid c) b n ie]> (cpus s)) ls.

Lemma with_cpu_lookup b n ie ls : cpus (with_cpu b n ie ls) !! me = Some (Cpu (apicid c) b n ie).
Proof. apply list_lookup_insert_eq. by eapply lookup_lt_Some. Qed.

Lemma mycpu_run n ie ls : mycpu me (with_cpu false n ie ls) = Ret (me, with_cpu false n ie ls).
Proof.
  unfold mycpu, mbind, M_bind, getc. rewrite with_cpu_lookup. cbn [fl_if].
  unfold gets. cbn [cpus with_cpu apicid].
  assert (list_find (fun d => apicid d = apicid c) (<[me := Cpu (apicid c) false n ie]> (cpus s)) =
    Some (me, Cpu (apicid c) false n ie)) as ->; [|done].
  apply list_find_Some. split; [exact (with_cpu_lookup false n ie [])|]. split; [done|].
  intros j d Hd Hj Heq. rewrite list_lookup_insert_ne in Hd by lia.
  pose proof (Hids j me d c Hd Hme Heq). lia.
Qed.

Lemma setc_run b n ie ls f : setc me f (with_cpu b n ie ls) =
  Ret ((), with_cpu (fl_if (f (Cpu (apicid c) b n ie))) (ncli (f (Cpu (apicid c) b n ie)))
             (intena (f (Cpu (apicid c) b n ie))) ls) \/ apicid (f (Cpu (apicid c) b n ie)) <> apicid c.
Proof.
  destruct (decide (apicid (f (Cpu (apicid c) b n ie)) = apicid c)) as [He|He]; [left|by right].
  unfold setc. rewrite with_cpu_lookup. unfold with_cpu, set_cpus. cbn [cpus locks].
  rewrite list_insert_insert_eq. do 4 f_equal. destruct (f _) as [a' b' n' i']. cbn in *. by rewrite He.
Qed.

Lemma pushcli_run b n ie ls : 0 <= n < 2 ^ 31 - 1 ->
  pushcli me (with_cpu b n ie ls) = Ret ((), with_cpu false (n + 1) (if n =? 0 then b else ie) ls).
Proof.
  intros Hn. unfold pushcli, mbind, M_bind, getc. rewrite with_cpu_lookup. cbn [fl_if].
  destruct (setc_run b n ie ls (set_fl_if false)) as [->|H]; [|done]. cbn [set_fl_if fl_if ncli intena].
  rewrite mycpu_run, with_cpu_lookup. cbn [ncli].
  destruct (Z.eqb_spec n 0) as [->|Hz].
  - rewrite mycpu_run. destruct (setc_run false 0 ie ls (set_intena b)) as [->|H]; [|done].
    cbn [set_intena fl_if ncli intena]. rewrite mycpu_run.
    destruct (setc_run false 0 b ls (fun c => set_ncli (s32 (ncli c + 1)) c)) as [->|H]; done.
  - cbn. rewrite mycpu_run.
    destruct (setc_run false n ie ls (fun c => set_ncli (s32 (ncli c + 1)) c)) as [->|H]; [|done].
    cbn [set_ncli fl_if ncli intena]. by replace (s32 (n + 1)) with (n + 1) by lia.
Qed.

Lemma popcli_run n ie ls : 0 < n < 2 ^ 31 ->
  popcli me (with_cpu false n ie ls) = Ret ((), with_cpu ((n =? 1) && ie) (n - 1) ie ls).
Proof.
  intros Hn. unfold popcli, mbind, M_bind, getc. rewrite with_cpu_lookup. cbn [fl_if].
  rewrite mycpu_run. destruct (setc_run false n ie ls (fun c => set_ncli (s32 (ncli c - 1)) c)) as [->|H]; [|done].
  cbn [set_ncli fl_if ncli intena]. replace (s32 (n - 1)) with (n - 1) by lia.
  rewrite with_cpu_lookup. cbn [ncli intena].
  rewrite (proj2 (Z.ltb_ge _ _)) by lia.
  replace (n - 1 =? 0) with (n =? 1) by (destruct (Z.eqb_spec n 1), (Z.eqb_spec (n - 1) 0); lia || done).
  destruct ((n =? 1) && ie); [|done].
  destruct (setc_run false (n - 1) ie ls (set_fl_if true)) as [->|H]; done.
Qed.

(** Interrupts stay as they were, the saved flag is refreshed. *)
Lemma holding_run b n ie ls k l : 0 <= n < 2 ^ 31 - 1 -> (0 < n -> b = false) -> ls !! k = Some l ->
  holding me k (with_cpu b n ie ls) =
    Ret (negb (locked l =? 0) && bool_decide (lk_cpu l = Some me),
         with_cpu b n (if n =? 0 then b else ie) ls).
Proof.
  intros Hn Hb Hl. unfold holding, mbind, M_bind. rewrite pushcli_run by lia. unfold getl. cbn [locks with_cpu].
  rewrite Hl. set (ie' := if n =? 0 then b else ie).
  assert (popcli me (with_cpu false (n + 1) ie' ls) = Ret ((), with_cpu b n ie' ls)) as Hp.
  { rewrite popcli_run by lia. replace (n + 1 - 1) with n by lia. do 3 f_equal. unfold ie'.
    destruct (Z.eqb_spec (n + 1) 1), (Z.eqb_spec n 0); try lia; [done|]. symmetry. apply Hb. lia. }
  destruct (locked l =? 0); cbn [negb andb].
  - cbn. by rewrite Hp.
  - rewrite mycpu_run. cbn. by rewrite Hp.
Qed.

Lemma setl_run b n ie ls k l f : ls !! k = Some l ->
  setl k f (with_cpu b n ie ls) = Ret ((), with_cpu b n ie (<[k := f l]> ls)).
Proof. intros Hl. unfold setl. cbn [locks with_cpu]. by rewrite Hl. Qed.

Lemma xchg1_run b n ie ls k l : ls !! k = Some l ->
  xchg1 k (with_cpu b n ie ls) = Ret (locked l, with_cpu b n ie (<[k := Spinlock 1 (lk_cpu l)]> ls)).
Proof.
  intros Hl. unfold xchg1, mbind, M_bind, getl. cbn [locks with_cpu]. rewrite Hl.
  by rewrite (setl_run b n ie ls k l).
Qed.

Lemma acquire_run b n ie ls k l : 0 <= n < 2 ^ 31 - 2 -> (0 < n -> b = false) -> ls !! k = Some l ->
  locked l = 0 ->
  acquire me k (with_cpu b n ie ls) =
    Ret ((), with_cpu false (n + 1) (if n =? 0 then b else ie) (<[k := Spinlock 1 (Some me)]> ls)).
Proof.
  intros Hn Hb Hl H0. unfold acquire, mbind, M_bind. rewrite pushcli_run by lia.
  rewrite (holding_run _ _ _ _ k l) by (done || lia). rewrite H0. cbn [Z.eqb negb andb].
  rewrite (proj2 (Z.eqb_neq (n + 1) 0)) by lia.
  rewrite (xchg1_run _ _ _ _ k l Hl), H0. cbn [Z.eqb negb]. rewrite mycpu_run.
  rewrite (setl_run _ _ _ _ k (Spinlock 1 (lk_cpu l))) by (apply list_lookup_insert_eq; by eapply lookup_lt_Some).
  by rewrite list_insert_insert_eq.
Qed.

Lemma release_run n ie ls k l : 0 < n < 2 ^ 31 - 1 -> ls !! k = Some l -> locked l <> 0 ->
  lk_cpu l = Some me ->
  release me k (with_cpu false n ie ls) =
    Ret ((), with_cpu ((n =? 1) && ie) (n - 1) ie (<[k := Spinlock 0 None]> ls)).
Proof.
  intros Hn Hl H1 Hc. unfold release, mbind, M_bind.
  rewrite (holding_run _ _ _ _ k l) by (done || lia).
  rewrite (proj2 (Z.eqb_neq n 0)), (proj2 (Z.eqb_neq _ _) H1), bool_decide_eq_true_2 by (done || lia).
  cbn [negb andb]. rewrite (setl_run _ _ _ _ k l _ Hl).
  rewrite (setl_run _ _ _ _ k (Spinlock (locked l) None)) by (apply list_lookup_insert_eq; by eapply lookup_lt_Some).
  rewrite list_insert_insert_eq. by rewrite popcli_run by lia.
Qed.
End spec.

(** ** Interleaving of CPUs *)

Inductive call := Acquire | Release.

(** What a CPU does next in a call on lock [k]: [holding] is called by both
    functions, and [r] is its result. *)
Inductive phase :=
  | Idle
  | Enter (k : nat)                          (* acquire: pushcli() *)
  | Push (f : call) (k : nat)                (* holding: pushcli() *)
  | TestLocked (f : call) (k : nat)          (* lock->locked && *)
  | TestCpu (f : call) (k : nat)             (* lock->cpu == mycpu() *)
  | Pop (f : call) (k : nat) (r : bool)      (* holding: popcli(), and the test for panic *)
  | Want (k : nat)                           (* xchg(&lk->locked, 1) != 0 *)
  | Took (k : nat)                           (* lk->cpu = mycpu() *)
  | Drop (k : nat)                           (* lk->cpu = 0 *)
  | Dropped (k : nat)                        (* movl $0, lk->locked *)
  | Popping.                                 (* release: popcli() *)

Definition entry (f : call) (k : nat) : phase :=
  match f with Acquire => Enter k | Release => Push Release k end.

(** One instruction of CPU [me], with at most one access to the lock;
    [pushcli] and [popcli] touch only the CPU's own fields. *)
Definition instr (me : nat) (p : phase) : M lst phase :=
  match p with
  | Idle => mret Idle
  | Enter k => _ ← pushcli me; mret (Push Acquire k)
  | Push f k => _ ← pushcli me; mret (TestLocked f k)
  | TestLocked f k => l ← getl k; mret (if locked l =? 0 then Pop f k false else TestCpu f k)
  | TestCpu f k => l ← getl k; i ← mycpu me; mret (Pop f k (bool_decide (lk_cpu l = Some i)))
  | Pop f k r =>
      _ ← popcli me;
      match f, r with
      | Acquire, true => panic "acquire"
      | Acquire, false => mret (Want k)
      | Release, false => panic "release"
      | Release, true => mret (Drop k)
      end
  | Want k => old ← xchg1 k; mret (if negb (old =? 0) then Want k else Took k)
  | Took k => i ← mycpu me; _ ← setl k (fun l => Spinlock (locked l) (Some i)); mret Idle
  | Drop k => _ ← setl k (fun l => Spinlock (locked l) None); mret (Dropped k)
  | Dropped k => _ ← setl k (fun l => Spinlock 0 (lk_cpu l)); mret Popping
  | Popping => _ ← popcli me; mret Idle
  end.

(** The instructions of one call with no other CPU in between. *)
Fixpoint solo (n : nat) (me : nat) (p : phase) : M lst () :=
  match p, n with
  | Idle, _ => mret ()
  | _, O => blocked
  | _, S n => p' ← instr me p; solo n me p'
  end.

Lemma xchg1_again k s v s1 : xchg1 k s = Ret (v, s1) -> xchg1 k s1 = Ret (1, s1).
Proof.
  unfold xchg1, mbind, M_bind, getl, setl. destruct (locks s !! k) as [l|] eqn:E; [|done].
  rewrite E. intros [= <- <-]. cbn. rewrite !list_lookup_insert_eq by (by eapply lookup_lt_Some).
  cbn. rewrite list_lookup_insert_eq by (by eapply lookup_lt_Some). unfold set_locks. cbn.
  by rewrite list_insert_insert_eq.
Qed.

(** Once the exchange failed, the CPU spins until another one runs. *)
Lemma solo_spins n me k s v s1 : xchg1 k s = Ret (v, s1) -> solo n me (Want k) s1 = Blocked.
Proof.
  intros H%xchg1_again. induction n as [|n IH]; [done|]. cbn [solo instr]. unfold mbind, M_bind in *.
  rewrite H. exact IH.
Qed.

(** [acquire] and [release] are these instructions in this order. *)
Lemma solo_next n me p : p <> Idle -> solo (S n) me p = (p' ← instr me p; solo n me p').
Proof. by destruct p. Qed.

Ltac instrs := try (rewrite solo_next by done); cbn [instr negb]; unfold mbind, M_bind, mret, M_ret, getl.
Ltac ran t x s1 E := destruct t as [[x s1]| | | |] eqn:E; [|done..]; instrs.

Lemma solo_took n me k s : solo (S n) me (Took k) s =
  (i ← mycpu me; setl k (fun l => Spinlock (locked l) (Some i))) s.
Proof.
  instrs. ran (mycpu me s) i s1 Ei. ran (setl k (fun l => Spinlock (locked l) (Some i)) s1) x s2 Es.
  destruct x, n; done.
Qed.

(** From the exchange on. *)
Lemma solo_want n me k s : solo (S (S n)) me (Want k) s =
  (old ← xchg1 k; if negb (old =? 0) then blocked
   else i ← mycpu me; setl k (fun l => Spinlock (locked l) (Some i))) s.
Proof.
  instrs. ran (xchg1 k s) old s1 Ex. destruct (negb (old =? 0)).
  - exact (solo_spins (S n) me k s old s1 Ex).
  - exact (solo_took n me k s1).
Qed.

Lemma acquire_solo me k s : acquire me k s = solo 7 me (Enter k) s.
Proof.
  unfold acquire, holding. instrs. ran (pushcli me s) x s1 E1. ran (pushcli me s1) y s2 E2.
  destruct (locks s2 !! k) as [l|] eqn:El; [|done]. destruct (locked l =? 0); instrs.
  - ran (popcli me s2) z s3 E3. symmetry. exact (solo_want 1 me k s3).
  - rewrite El. ran (mycpu me s2) i s3 E3. ran (popcli me s3) z s4 E4.
    destruct (bool_decide _); [done|]. symmetry. exact (solo_want 0 me k s4).
Qed.

Lemma release_solo me k s : release me k s = solo 7 me (Push Release k) s.
Proof.
  unfold release, holding. instrs. ran (pushcli me s) x s1 E1.
  destruct (locks s1 !! k) as [l|] eqn:El; [|done]. destruct (locked l =? 0); instrs.
  - ran (popcli me s1) z s3 E3. done.
  - rewrite El. ran (mycpu me s1) i s3 E3. ran (popcli me s3) z s4 E4. destruct (bool_decide _); instrs; [|done].
    ran (setl k (fun l => Spinlock (locked l) None) s4) u s5 E5.
    ran (setl k (fun l => Spinlock 0 (lk_cpu l)) s5) v s6 E6.
    ran (popcli me s6) w s7 E7. by destruct w.
Qed.

Record thread := Thread { ph : phase; held : list nat }.
Record sys := Sys { lks : lst; threads : list thread }.

Definition at_phase (s : sys) (i : nat) (p : phase) (h : list nat) : Prop :=
  threads s !! i = Some (Thread p h).
Definition move (s : sys) (i : nat) (s' : lst) (p : phase) (h : list nat) : sys :=
  Sys s' (<[i := Thread p h]> (threads s)).

(** A CPU holds a lock from the store of itself as the owner to the store
    that clears the owner. *)
Definition held_after (p : phase) (h : list nat) : list nat :=
  match p with Took k => k :: h | Drop k => filter (fun x => x <> k) h | _ => h end.

(** A CPU that is not in a call starts any call on any lock; one that is
    in a call runs its next instruction.  A CPU that panics stops. *)
Inductive step (s : sys) : sys -> Prop :=
  | st_call i f k h : at_phase s i Idle h -> step s (move s i (lks s) (entry f k) h)
  | st_instr i p h p' s1 : at_phase s i p h -> p <> Idle -> instr i p (lks s) = Ret (p', s1) ->
      step s (move s i s1 p' (held_after p h)).

(** CPU [t] is past the exchange that won lock [k]. *)
Definition owns (t : thread) (k : nat) : Prop := k ∈ held t \/ ph t = Took k \/ ph t = Dropped k.

(** A CPU for which [holding] was true holds the lock; one that cleared
    the owner no longer does. *)
Definition phase_ok (t : thread) : Prop :=
  match ph t with
  | Pop _ k true | Drop k => k ∈ held t
  | Dropped k => k ∉ held t
  | _ => True
  end.

Record lock_inv (s : sys) : Prop := {
  li_excl : forall i j t u k, threads s !! i = Some t -> threads s !! j = Some u ->
    owns t k -> owns u k -> i = j;
  li_locked : forall i t k l, threads s !! i = Some t -> owns t k -> locks (lks s) !! k = Some l ->
    locked l <> 0;
  li_cpu : forall i t k l, threads s !! i = Some t -> locks (lks s) !! k = Some l ->
    lk_cpu l = Some i -> k ∈ held t;
  li_phase : forall i t, threads s !! i = Some t -> phase_ok t;
  li_ids : NoDup (apicid <$> cpus (lks s)) }.

(** The local operations leave the locks and the ids alone. *)
Definition local (s s' : lst) : Prop :=
  locks s' = locks s /\ apicid <$> cpus s' = apicid <$> cpus s.

#[export] Instance local_preorder : PreOrder local.
Proof. split; [done|]. intros a b c [H1 H2] [G1 G2]. split; congruence. Qed.

Lemma setc_local i f s s' : (forall c, apicid (f c) = apicid c) -> setc i f s = Ret ((), s') -> local s s'.
Proof.
  intros Hf. unfold setc. destruct (cpus s !! i) as [c|] eqn:E; [|done]. intros [= <-].
  split; [done|]. cbn. rewrite list_fmap_insert, Hf. apply list_insert_id.
  by rewrite list_lookup_fmap, E.
Qed.

(** Peeling off one step of a computation that returned. *)
Lemma bind_ret {S A B} (m : M S A) (f : A -> M S B) s r : (m ≫= f) s = Ret r ->
  exists a s1, m s = Ret (a, s1) /\ f a s1 = Ret r.
Proof. unfold mbind, M_bind. destruct (m s) as [[a s1]| | | |]; try done. eauto. Qed.

Ltac peel H := let a := fresh "a" in let s1 := fresh "s" in let E := fresh "E" in
  apply bind_ret in H as (a & s1 & E & H).

Lemma getc_local i s c s' : getc i s = Ret (c, s') -> s' = s.
Proof. unfold getc. destruct (cpus s !! i); [|done]. by intros [= _ <-]. Qed.

Lemma mycpu_local me s i s' : mycpu me s = Ret (i, s') -> s' = s.
Proof.
  unfold mycpu. intros H. peel H. apply getc_local in E as ->. destruct (fl_if a); [done|].
  peel H. unfold gets in E. injection E as <- <-. destruct (list_find _ _) as [[j d]|]; [|done].
  by injection H as _ <-.
Qed.

Lemma pushcli_local me s s' : pushcli me s = Ret ((), s') -> local s s'.
Proof.
  unfold pushcli. intros H. peel H. apply getc_local in E as ->.
  peel H. destruct a0. apply setc_local in E; [|done]. transitivity s0; [done|].
  peel H. apply mycpu_local in E0 as ->. peel H. apply getc_local in E0 as ->.
  peel H. destruct a2. transitivity s1.
  - destruct (ncli a1 =? 0).
    + peel E0. apply mycpu_local in E1 as ->. by apply setc_local in E0.
    + by injection E0 as <-.
  - peel H. apply mycpu_local in E1 as ->. by apply setc_local in H.
Qed.

Lemma popcli_local me s s' : popcli me s = Ret ((), s') -> local s s'.
Proof.
  unfold popcli. intros H. peel H. apply getc_local in E as ->. destruct (fl_if a); [done|].
  peel H. apply mycpu_local in E as ->. peel H. destruct a1. apply setc_local in E; [|done].
  transitivity s0; [done|]. peel H. apply getc_local in E0 as ->. destruct (ncli a1 <? 0); [done|].
  destruct ((ncli a1 =? 0) && intena a1); [by apply setc_local in H|by injection H as <-].
Qed.

Lemma mycpu_me me s i s' : NoDup (apicid <$> cpus s) -> mycpu me s = Ret (i, s') -> i = me.
Proof.
  intros Hnd. unfold mycpu. intros H. peel H. unfold getc in E.
  destruct (cpus s !! me) as [c|] eqn:Hc; [|done]. injection E as <- <-. destruct (fl_if c); [done|].
  peel H. unfold gets in E. injection E as <- <-.
  destruct (list_find _ _) as [[j d]|] eqn:Hf; [|done]. injection H as <- _.
  apply list_find_Some in Hf as (Hd & Heq & _).
  eapply NoDup_lookup; [exact Hnd| |]; rewrite list_lookup_fmap; [by rewrite Hd|by rewrite Hc, Heq].
Qed.

Lemma setl_inv k f s s' : setl k f s = Ret ((), s') ->
  exists l, locks s !! k = Some l /\ s' = set_locks (<[k := f l]> (locks s)) s.
Proof. unfold setl. destruct (locks s !! k) as [l|]; [|done]. intros [= <-]. eauto. Qed.

Lemma xchg1_inv k s v s' : xchg1 k s = Ret (v, s') ->
  exists l, locks s !! k = Some l /\ v = locked l /\
    s' = set_locks (<[k := Spinlock 1 (lk_cpu l)]> (locks s)) s.
Proof.
  unfold xchg1. intros H. peel H. unfold getl in E. destruct (locks s !! k) as [l|] eqn:Hl; [|done].
  injection E as <- <-. peel H. destruct a. apply setl_inv in E as (l' & Hl' & ->).
  injection H as <- <-. exists l. rewrite Hl in Hl'. by injection Hl' as <-.
Qed.

(** The threads after CPU [i] moved. *)
Lemma move_lookup s i s' p h j t : threads (move s i s' p h) !! j = Some t ->
  (j = i /\ t = Thread p h) \/ (j <> i /\ threads s !! j = Some t).
Proof.
  cbn. destruct (decide (j = i)) as [->|Hj].
  - intros Ht. left. split; [done|]. destruct (decide (i < length (threads s))%nat) as [Hlt|Hge].
    + rewrite list_lookup_insert_eq in Ht by done. congruence.
    + rewrite list_insert_ge in Ht by lia. apply lookup_lt_Some in Ht. lia.
  - rewrite list_lookup_insert_ne by done. auto.
Qed.

(** A step of CPU [i] that does not win a lock: what it owns shrinks, and
    the lock words of the locks still owned stay set. *)
Lemma inv_keep s i p h s' p' h' : lock_inv s -> at_phase s i p h ->
  (forall k, owns (Thread p' h') k -> owns (Thread p h) k) -> phase_ok (Thread p' h') ->
  NoDup (apicid <$> cpus s') ->
  (forall k l', locks s' !! k = Some l' -> exists l, locks (lks s) !! k = Some l /\
     (locked l <> 0 -> locked l' <> 0 \/ (owns (Thread p h) k /\ ~ owns (Thread p' h') k)) /\
     (forall j, lk_cpu l' = Some j -> (j = i -> k ∈ h') /\ (j <> i -> lk_cpu l = Some j))) ->
  lock_inv (move s i s' p' h').
Proof.
  intros [Hex Hlk Hcpu Hdr _] Hat Hsub Hdr' Hnd Hl.
  assert (forall j t k, threads (move s i s' p' h') !! j = Some t -> owns t k ->
    exists t0, threads s !! j = Some t0 /\ owns t0 k) as Hold.
  { intros j t k Hj Ho. apply move_lookup in Hj as [[-> ->]|[_ Hj]]; [|by exists t].
    exists (Thread p h). split; [done|]. by apply Hsub. }
  split; [| | | |done].
  - intros a b t u k Ha Hb Hta Htb. destruct (Hold a t k Ha Hta) as (t0 & Ht0 & Ho).
    destruct (Hold b u k Hb Htb) as (u0 & Hu0 & Hou). by eapply Hex.
  - intros j t k l' Hj Ho Hl'. destruct (Hold j t k Hj Ho) as (t0 & Ht0 & Ho0).
    destruct (Hl k l' Hl') as (l & Hll & Hlock & _).
    destruct (Hlock (Hlk j t0 k l Ht0 Ho0 Hll)) as [?|[Ho1 Hno]]; [done|].
    exfalso. assert (j = i) as -> by by eapply Hex.
    apply move_lookup in Hj as [[_ ->]|[? _]]; done.
  - intros j t k l' Hj Hl' Hc. destruct (Hl k l' Hl') as (l & Hll & _ & Hcase).
    destruct (Hcase j Hc) as [H1 H2]. apply move_lookup in Hj as [[-> ->]|[Hne Hj]]; [by apply H1|].
    eapply Hcpu; [done|exact Hll|by apply H2].
  - intros j t Hj. apply move_lookup in Hj as [[_ ->]|[_ Hj]]; [done|by eapply Hdr].
Qed.

(** A step that leaves the locks alone. *)
Lemma inv_local s i p h s' p' : lock_inv s -> at_phase s i p h ->
  (forall k, owns (Thread p' h) k -> owns (Thread p h) k) -> phase_ok (Thread p' h) ->
  local (lks s) s' -> lock_inv (move s i s' p' h).
Proof.
  intros Hinv Hat Hsub Hp [Hl Hid]. eapply inv_keep; [done|exact Hat|done|done|by rewrite Hid; apply Hinv|].
  intros k l' Hl'. rewrite Hl in Hl'. exists l'. split; [done|]. split; [by left|].
  intros j Hj. split; [|done]. intros ->. by apply (li_cpu s Hinv i (Thread p h) k l').
Qed.

(** A step that writes lock [k] without winning it. *)
Lemma inv_write s i p h p' h' k l l' : lock_inv s -> at_phase s i p h ->
  (forall k, owns (Thread p' h') k -> owns (Thread p h) k) -> phase_ok (Thread p' h') ->
  locks (lks s) !! k = Some l -> (forall k', k' <> k -> k' ∈ h -> k' ∈ h') ->
  (locked l <> 0 -> locked l' <> 0 \/ (owns (Thread p h) k /\ ~ owns (Thread p' h') k)) ->
  (forall j, lk_cpu l' = Some j -> (j = i -> k ∈ h') /\ (j <> i -> lk_cpu l = Some j)) ->
  lock_inv (move s i (set_locks (<[k := l']> (locks (lks s))) (lks s)) p' h').
Proof.
  intros Hinv Hat Hsub Hp Hl Hh Hlk Hc. eapply inv_keep; [done|exact Hat|done|done|apply Hinv|].
  intros k' x Hx. cbn in Hx. destruct (decide (k' = k)) as [->|Hk].
  - rewrite list_lookup_insert_eq in Hx by (by eapply lookup_lt_Some). injection Hx as <-. eauto.
  - rewrite list_lookup_insert_ne in Hx by done. exists x. split; [done|]. split; [by left|].
    intros j Hj. split; [|done]. intros ->. apply Hh; [done|]. by apply (li_cpu s Hinv i _ k' x Hat).
Qed.

(** Winning the exchange: the lock word was 0, so nobody owned the lock. *)
Lemma inv_take s i k h l : lock_inv s -> at_phase s i (Want k) h -> locks (lks s) !! k = Some l ->
  0 = locked l ->
  lock_inv (move s i (set_locks (<[k := Spinlock 1 (lk_cpu l)]> (locks (lks s))) (lks s)) (Took k) h).
Proof.
  intros [Hex Hlk Hcpu Hdr Hid] Hat Hl Hz.
  assert (forall j t k', threads (move s i (set_locks (<[k := Spinlock 1 (lk_cpu l)]> (locks (lks s))) (lks s)) (Took k) h) !! j = Some t ->
    owns t k' -> (k' = k /\ j = i) \/ (k' <> k /\ exists t0, threads s !! j = Some t0 /\ owns t0 k')) as Hold.
  { intros j t k' Hj Ho. apply move_lookup in Hj as [[-> ->]|[Hne Hj]].
    - destruct Ho as [Ho|[[= <-]|]]; [|by left|done].
      destruct (decide (k' = k)) as [->|]; [by left|]. right. split; [done|].
      exists (Thread (Want k) h). split; [done|by left].
    - right. split; [|eauto]. intros ->. by apply (Hlk j t k l Hj Ho Hl). }
  split; [| | | |done].
  - intros a b t u k' Ha Hb Hta Hub.
    destruct (Hold a t k' Ha Hta) as [[-> ->]|[Hne (t0 & Ht0 & Ho)]],
      (Hold b u _ Hb Hub) as [[Hk ->]|[Hne' (u0 & Hu0 & Hou)]]; try done. by eapply Hex.
  - intros j t k' l' Hj Ho Hl'. cbn in Hl'. destruct (decide (k' = k)) as [->|Hk].
    + rewrite list_lookup_insert_eq in Hl' by (by eapply lookup_lt_Some). by injection Hl' as <-.
    + rewrite list_lookup_insert_ne in Hl' by done.
      destruct (Hold j t k' Hj Ho) as [[? _]|[_ (t0 & Ht0 & Ho0)]]; [done|]. by eapply Hlk.
  - intros j t k' l' Hj Hl' Hc. cbn in Hl'.
    assert (exists l0, locks (lks s) !! k' = Some l0 /\ lk_cpu l0 = Some j) as (l0 & Hl0 & Hc0).
    { destruct (decide (k' = k)) as [->|Hk].
      - rewrite list_lookup_insert_eq in Hl' by (by eapply lookup_lt_Some). injection Hl' as <-. eauto.
      - rewrite list_lookup_insert_ne in Hl' by done. eauto. }
    apply move_lookup in Hj as [[-> ->]|[_ Hj]]; [by apply (Hcpu i _ k' l0 Hat)|by eapply Hcpu].
  - intros j t Hj. apply move_lookup in Hj as [[_ ->]|[_ Hj]]; [done|by eapply Hdr].
Qed.

(** The instructions before the exchange, and [popcli], change no lock. *)
Lemma quiet_inv s i p h p' s1 : lock_inv s -> at_phase s i p h -> instr i p (lks s) = Ret (p', s1) ->
  match p with Want _ | Took _ | Drop _ | Dropped _ | Idle => False | _ => True end ->
  lock_inv (move s i s1 p' h).
Proof.
  intros Hinv Hat H Hp. pose proof (li_ids s Hinv) as Hnd. pose proof (li_phase s Hinv i _ Hat) as Hok.
  assert (local (lks s) s1 /\ phase_ok (Thread p' h) /\ forall k, p' <> Took k /\ p' <> Dropped k) as (Hl & Hp' & Hno).
  { destruct p; try done; cbn [instr] in H; peel H.
    - destruct a. apply pushcli_local in E. by injection H as <- <-.
    - destruct a. apply pushcli_local in E. by injection H as <- <-.
    - unfold getl in E. destruct (locks _ !! k) as [l|]; [|done]. injection E as <- <-.
      injection H as <- <-. by destruct (locked l =? 0).
    - unfold getl in E. destruct (locks _ !! k) as [l|] eqn:Hk; [|done]. injection E as <- <-. peel H.
      apply mycpu_local in E as Hs. subst s0. apply mycpu_me in E as ->; [|done]. injection H as <- <-.
      split; [done|]. split; [|done]. unfold phase_ok. cbn. case_bool_decide as Hc; [|done].
      exact (li_cpu s Hinv i _ k l Hat Hk Hc).
    - destruct a. apply popcli_local in E. destruct f, r; try discriminate H; by injection H as <- <-.
    - destruct a. apply popcli_local in E. by injection H as <- <-. }
  eapply inv_local; [done|exact Hat| |done|done].
  intros k [?|[?|?]]; [by left|by destruct (Hno k)..].
Qed.

Lemma step_inv s s' : lock_inv s -> step s s' -> lock_inv s'.
Proof.
  intros Hinv Hst. destruct Hst as [i f k h Hat|i p h p' s1 Hat Hp H].
  { eapply inv_local; [done|exact Hat| |by destruct f|done].
    intros k' [?|[Hk|Hk]]; [by left|by destruct f..]. }
  pose proof (li_phase s Hinv i _ Hat) as Hok.
  destruct p as [|k|f k|f k|f k|f k r|k|k|k|k|]; try (by eapply quiet_inv); cbn [instr] in H; peel H.
  - apply xchg1_inv in E as (l & Hl & -> & ->). injection H as <- <-. cbn [held_after].
    destruct (Z.eqb_spec (locked l) 0) as [Hz|Hz]; cbn [negb]; [by eapply inv_take|].
    eapply inv_write; [done|exact Hat|done|done|exact Hl|done|by left|].
    cbn. intros j Hj. split; [|done]. intros ->. by apply (li_cpu s Hinv i _ k l Hat).
  - apply mycpu_local in E as Hs. subst s0. apply mycpu_me in E as ->; [|apply Hinv]. peel H.
    destruct a. apply setl_inv in E as (l & Hl & ->). injection H as <- <-. cbn [held_after].
    eapply inv_write; [done|exact Hat| |done|exact Hl|set_solver|by left|].
    + intros k' [Hk|[|]]; [|done|done]. apply elem_of_cons in Hk as [->|Hk]; [right; by left|by left].
    + cbn. intros j [= <-]. split; [|done]. set_solver.
  - destruct a. apply setl_inv in E as (l & Hl & ->). injection H as <- <-. cbn [held_after].
    unfold phase_ok in Hok. cbn in Hok.
    eapply inv_write; [done|exact Hat| | |exact Hl| |by left|done].
    + intros k' [Hk|[|[= <-]]]; [|done|by left]. left. by apply list_elem_of_filter in Hk as [_ ?].
    + unfold phase_ok. cbn. intros Hk. by apply list_elem_of_filter in Hk as [? _].
    + intros k' Hk Hin. by apply list_elem_of_filter.
  - destruct a. apply setl_inv in E as (l & Hl & ->). injection H as <- <-. cbn [held_after].
    eapply inv_write; [done|exact Hat| |done|exact Hl|done| |].
    + intros k' [?|[|]]; [by left|done|done].
    + intros _. right. split; [right; by right|]. intros [Hk|[|]]; [|done|done]. by apply Hok.
    + cbn. intros j Hj. split; [|done]. intros ->. by apply (li_cpu s Hinv i _ k l Hat).
Qed.

(** No CPU is in a critical section at the start. *)
Definition start (cs : list cpu) (n : nat) : sys :=
  Sys (Lst cs (replicate n (Spinlock 0 None))) (replicate (length cs) (Thread Idle [])).

Lemma start_inv cs n : NoDup (apicid <$> cs) -> lock_inv (start cs n).
Proof.
  intros Hnd. assert (forall i t k, threads (start cs n) !! i = Some t -> ~ owns t k) as Hno.
  { intros i t k [-> _]%lookup_replicate [?|[|]]; [set_solver|done|done]. }
  split; [| | | |done].
  - intros i j t u k Hi _ Ho. by apply (Hno i) in Ho.
  - intros i t k l Hi Ho. by apply (Hno i) in Ho.
  - intros i t k l _ [-> _]%lookup_replicate. done.
  - intros i t [-> _]%lookup_replicate. done.
Qed.

Lemma reach_inv s s' : lock_inv s -> rtc step s s' -> lock_inv s'.
Proof. intros H. induction 1 as [|a b c Hab _ IH]; [done|]. apply IH. by eapply step_inv. Qed.

Lemma acquiresleep_holds pid lk lk' : acquiresleep pid lk = Some lk' ->
  sl_locked lk = false /\ holdingsleep pid lk' = true /\ forall p, acquiresleep p lk' = None.
Proof.
  unfold acquiresleep, holdingsleep. destruct (sl_locked lk); [done|]. intros [= <-]. cbn.
  by rewrite Z.eqb_refl.
Qed.
