(* ===== verification/Bio.v ===== *)
(** * [kernel/bio.c] and [kernel/memide.c]: the buffer cache

    The buffers form a doubly linked circular list through [bcache.head],
    most recently used first.  A [struct buf *] into [bcache.buf] is its
    index; [None] is [&bcache.head], of which the code only uses the
    links.  The disk is the array of blocks of the in-memory image.  The
    spin lock of the cache makes its critical sections atomic; a process
    that has to wait for a buffer's sleep lock is [Blocked]. *)

From stdpp Require Import base numbers list gmap strings.
From S2P Require Import Prelude Machine Locks.
Open Scope Z_scope.

Definition BSIZE : Z := 512.
Definition NBUF : nat := 30.
Definition B_VALID : Z := 0x2.
Definition B_DIRTY : Z := 0x4.

Record buf := Buf {
  b_flags : Z;
  b_dev : Z;
  b_blockno : Z;
  b_lock : sleeplock;
  b_refcnt : Z;
  b_prev : option nat;
  b_next : option nat;
  b_data : list Z }.

Definition set_b_flags v b := Buf v (b_dev b) (b_blockno b) (b_lock b) (b_refcnt b) (b_prev b) (b_next b) (b_data b).
Definition set_b_dev v b := Buf (b_flags b) v (b_blockno b) (b_lock b) (b_refcnt b) (b_prev b) (b_next b) (b_data b).
Definition set_b_blockno v b := Buf (b_flags b) (b_dev b) v (b_lock b) (b_refcnt b) (b_prev b) (b_next b) (b_data b).
Definition set_b_lock v b := Buf (b_flags b) (b_dev b) (b_blockno b) v (b_refcnt b) (b_prev b) (b_next b) (b_data b).
Definition set_b_refcnt v b := Buf (b_flags b) (b_dev b) (b_blockno b) (b_lock b) v (b_prev b) (b_next b) (b_data b).
Definition set_b_prev v b := Buf (b_flags b) (b_dev b) (b_blockno b) (b_lock b) (b_refcnt b) v (b_next b) (b_data b).
Definition set_b_next v b := Buf (b_flags b) (b_dev b) (b_blockno b) (b_lock b) (b_refcnt b) (b_prev b) v (b_data b).
Definition set_b_data v b := Buf (b_flags b) (b_dev b) (b_blockno b) (b_lock b) (b_refcnt b) (b_prev b) (b_next b) v.

(** [bcache] and the disk, with [myproc()->pid] and the block writes made
    so far, oldest first: a crash leaves the disk after a prefix of them. *)
Record bst := Bst {
  bufs : list buf;
  head_prev : option nat;
  head_next : option nat;
  memdisk : list (list Z);
  writes : list (Z * list Z);
  mypid : Z }.

Definition set_bufs v s := Bst v (head_prev s) (head_next s) (memdisk s) (writes s) (mypid s).
Definition set_head_prev v s := Bst (bufs s) v (head_next s) (memdisk s) (writes s) (mypid s).
Definition set_head_next v s := Bst (bufs s) (head_prev s) v (memdisk s) (writes s) (mypid s).
Definition set_memdisk v s := Bst (bufs s) (head_prev s) (head_next s) v (writes s) (mypid s).
Definition set_writes v s := Bst (bufs s) (head_prev s) (head_next s) (memdisk s) v (mypid s).

Definition getb (i : nat) : M bst buf := fun s =>
  match bufs s !! i with Some b => Ret (b, s) | None => Fault 0 end.
Definition setb (i : nat) (f : buf -> buf) : M bst () := fun s =>
  match bufs s !! i with Some b => Ret ((), set_bufs (<[i := f b]> (bufs s)) s) | None => Fault 0 end.

(** [p->prev = v] and [p->next = v], where [p] may be the head. *)
Definition set_prev (p v : option nat) : M bst () :=
  match p with None => modify (set_head_prev v) | Some i => setb i (set_b_prev v) end.
Definition set_next (p v : option nat) : M bst () :=
  match p with None => modify (set_head_next v) | Some i => setb i (set_b_next v) end.

(** Insert [b] right after the head, the order of the stores as in
    [binit]; [init] stands for the initialisation of its lock. *)
Definition link_front (i : nat) (init : M bst ()) : M bst () :=
  h ← gets head_next; _ ← setb i (set_b_next h);
  _ ← setb i (set_b_prev None);
  _ ← init;
  h ← gets head_next; _ ← set_prev h (Some i);
  modify (set_head_next (Some i)).

Fixpoint binit_loop (n i : nat) : M bst () :=
  match n with
  | O => mret ()
  | S k => _ ← link_front i (setb i (set_b_lock initsleeplock)); binit_loop k (S i)
  end.

Definition binit : M bst () :=
  _ ← modify (set_head_prev None); _ ← modify (set_head_next None);
  binit_loop NBUF 0.

(** [acquiresleep(&b->lock)] *)
Definition lock_buf (i : nat) : M bst () :=
  b ← getb i; me ← gets mypid;
  match acquiresleep me (b_lock b) with
  | None => blocked
  | Some l => setb i (set_b_lock l)
  end.

Definition holding_buf (i : nat) : M bst bool :=
  b ← getb i; me ← gets mypid; mret (holdingsleep me (b_lock b)).

(** [for(b = bcache.head.next; b != &bcache.head; b = b->next)] *)
Fixpoint bget_cached (fuel : nat) (p : option nat) (dev blockno : Z) : M bst (option nat) :=
  match fuel, p with
  | O, _ => nofuel
  | _, None => mret None
  | S k, Some i =>
      b ← getb i;
      if (b_dev b =? dev) && (b_blockno b =? blockno) then mret (Some i)
      else bget_cached k (b_next b) dev blockno
  end.

(** [for(b = bcache.head.prev; b != &bcache.head; b = b->prev)] *)
Fixpoint bget_unused (fuel : nat) (p : option nat) : M bst (option nat) :=
  match fuel, p with
  | O, _ => nofuel
  | _, None => mret None
  | S k, Some i =>
      b ← getb i;
      if (b_refcnt b =? 0) && negb (flag_set (b_flags b) B_DIRTY) then mret (Some i)
      else bget_unused k (b_prev b)
  end.

Definition bget (dev blockno : Z) : M bst nat :=
  h ← gets head_next;
  o ← bget_cached (S NBUF) h dev blockno;
  match o with
  | Some i =>
      _ ← setb i (fun b => set_b_refcnt (u32 (b_refcnt b + 1)) b);
      _ ← lock_buf i; mret i
  | None =>
      h ← gets head_prev;
      o ← bget_unused (S NBUF) h;
      match o with
      | Some i =>
          _ ← setb i (set_b_dev dev); _ ← setb i (set_b_blockno blockno);
          _ ← setb i (set_b_flags 0); _ ← setb i (set_b_refcnt 1);
          _ ← lock_buf i; mret i
      | None => panic "bget: no buffers"
      end
  end.

(** [memmove(p, b->data, BSIZE)] on block [n] of the image. *)
Definition disk_write (n : Z) (d : list Z) : M bst () :=
  _ ← modify (fun s => set_memdisk (<[Z.to_nat n := d]> (memdisk s)) s);
  modify (fun s => set_writes (writes s ++ [(n, d)]) s).

Definition iderw (i : nat) : M bst () :=
  h ← holding_buf i;
  if negb h then panic "iderw: buf not locked"
  else
    b ← getb i; disk ← gets memdisk;
    if Z.land (b_flags b) (Z.lor B_VALID B_DIRTY) =? B_VALID then panic "iderw: nothing to do"
    else if negb (b_dev b =? 1) then panic "iderw: request not for disk 1"
    else if Z.of_nat (length disk) <=? b_blockno b then panic "iderw: block out of range"
    else
      _ ← (if flag_set (b_flags b) B_DIRTY then
             _ ← setb i (fun b => set_b_flags (Z.land (b_flags b) (Z.lnot B_DIRTY)) b);
             disk_write (b_blockno b) (b_data b)
           else setb i (set_b_data (nth (Z.to_nat (b_blockno b)) disk [])));
      setb i (fun b => set_b_flags (Z.lor (b_flags b) B_VALID) b).

Definition bread (dev blockno : Z) : M bst nat :=
  i ← bget dev blockno;
  b ← getb i;
  _ ← (if Z.land (b_flags b) B_VALID =? 0 then iderw i else mret ());
  mret i.

Definition bwrite (i : nat) : M bst () :=
  h ← holding_buf i;
  if negb h then panic "bwrite"
  else
    _ ← setb i (fun b => set_b_flags (Z.lor (b_flags b) B_DIRTY) b);
    iderw i.

Definition brelse (i : nat) : M bst () :=
  h ← holding_buf i;
  if negb h then panic "brelse"
  else
    _ ← setb i (fun b => set_b_lock (releasesleep (b_lock b)) b);
    _ ← setb i (fun b => set_b_refcnt (u32 (b_refcnt b - 1)) b);
    b ← getb i;
    if b_refcnt b =? 0 then
      b ← getb i; _ ← set_prev (b_next b) (b_prev b);
      b ← getb i; _ ← set_next (b_prev b) (b_next b);
      link_front i (mret ())
    else mret ().
