(* ===== verification/BioSpec.v ===== *)
(** * The buffer cache: LRU list, coherence, specifications

    The links of the buffers spell a permutation of the buffers (the LRU
    order); everything else about the cache is a function of the buffers
    without their links.  [bread] and [brelse] are specified against
    both. *)

From stdpp Require Import base numbers list gmap strings.
From S2P Require Import Prelude Machine Locks Bio.
Open Scope Z_scope.

(** ** The doubly linked list *)

Definition nx (s : bst) (p : option nat) : option nat :=
  match p with None => head_next s | Some i => bufs s !! i ≫= b_next end.
Definition pv (s : bst) (p : option nat) : option nat :=
  match p with None => head_prev s | Some i => bufs s !! i ≫= b_prev end.

Section links.
Context (n p : option nat -> option nat).

(** Neighbours in [c] point at each other. *)
Fixpoint links (c : list (option nat)) : Prop :=
  match c with
  | a :: (b :: _) as r => n a = b /\ p b = a /\ links r
  | _ => True
  end.

Lemma links_cons a b c : links (a :: b :: c) <-> n a = b /\ p b = a /\ links (b :: c).
Proof. done. Qed.

Lemma links_app c1 x c2 : links (c1 ++ x :: c2) <-> links (c1 ++ [x]) /\ links (x :: c2).
Proof.
  induction c1 as [|a [|b c1] IH].
  - cbn [app]. split; [intros; split; [done|done]|by intros [_ ?]].
  - cbn [app]. rewrite links_cons. cbn [app links]. tauto.
  - cbn [app] in *. rewrite !links_cons, IH. tauto.
Qed.
End links.

Lemma links_ext n p n' p' c : (forall a, a ∈ removelast c -> n' a = n a) ->
  (forall a, a ∈ tail c -> p' a = p a) -> links n p c -> links n' p' c.
Proof.
  induction c as [|a [|b c] IH]; [done..|]. intros Hn Hp. rewrite !links_cons. intros (H1 & H2 & H3).
  split; [|split].
  - rewrite Hn by (cbn; set_solver). done.
  - rewrite Hp by (cbn; set_solver). done.
  - apply IH; [| |done].
    + intros x Hx. apply Hn. change (removelast (a :: b :: c)) with (a :: removelast (b :: c)). set_solver.
    + intros x Hx. apply Hp. cbn in *. set_solver.
Qed.

(** [l] is the list from the head through the [next] pointers, and backwards
    through the [prev] pointers. *)
Definition ring (l : list nat) : list (option nat) := None :: (Some <$> l) ++ [None].
Definition linked (s : bst) (l : list nat) : Prop := links (nx s) (pv s) (ring l).

Lemma removelast_snoc {A} (l : list A) x : removelast (l ++ [x]) = l.
Proof. apply removelast_last. Qed.

Lemma removelast_ring l : removelast (ring l) = None :: (Some <$> l).
Proof. exact (removelast_snoc (None :: (Some <$> l)) None). Qed.

(** The neighbours of an element, one before it and one after it. *)
Lemma links_neighbours n p l1 i l2 : links n p (ring (l1 ++ i :: l2)) ->
  p (Some i) ∈ None :: (Some <$> l1) /\ n (Some i) ∈ (Some <$> l2) ++ [None].
Proof.
  intros Hl. unfold ring in Hl. rewrite fmap_app, <- app_assoc in Hl. cbn [fmap list_fmap app] in Hl.
  change (links n p ((None :: (Some <$> l1)) ++ Some i :: (Some <$> l2) ++ [None])) in Hl.
  destruct (exists_last (l := None :: (Some <$> l1))) as (c1 & a & Hc1); [done|].
  assert (exists y c, (Some <$> l2) ++ [None] = y :: c) as (y & c & Hy) by (destruct l2; cbn; eauto).
  rewrite Hc1, Hy, <- app_assoc in Hl. apply links_app in Hl as [_ (_ & -> & -> & _)].
  rewrite Hc1, Hy. split; set_solver.
Qed.

(** Taking an element out of the ring, and putting it in front. *)
Lemma links_unlink n p n' p' l1 i l2 : NoDup (l1 ++ i :: l2) -> links n p (ring (l1 ++ i :: l2)) ->
  n' (p (Some i)) = n (Some i) -> p' (n (Some i)) = p (Some i) ->
  (forall a, a <> p (Some i) -> a <> Some i -> n' a = n a) ->
  (forall a, a <> n (Some i) -> a <> Some i -> p' a = p a) ->
  links n' p' (ring (l1 ++ l2)).
Proof.
  intros Hnd Hl Hn Hp Hn' Hp'. unfold ring in *. rewrite fmap_app in *. cbn [fmap list_fmap] in *.
  rewrite <- app_assoc in *.
  assert (exists c1 a, None :: (Some <$> l1) = c1 ++ [a]) as (c1 & a & Hc1).
  { destruct (exists_last (l := None :: (Some <$> l1))) as (c1 & a & ?); [done|eauto]. }
  assert (exists b c2, (Some <$> l2) ++ [None] = b :: c2) as (b & c2 & Hc2).
  { destruct l2; cbn; eauto. }
  change (links n p (((None :: (Some <$> l1)) ++ Some i :: (Some <$> l2) ++ [None]))) in Hl.
  change (links n' p' (((None :: (Some <$> l1)) ++ (Some <$> l2) ++ [None]))).
  rewrite Hc1, Hc2 in *. rewrite <- app_assoc in *. cbn [app] in *.
  apply links_app in Hl as [Hl1 Hl]. apply links_cons in Hl as (Ha & Ha' & Hl).
  apply links_cons in Hl as (Hb & Hb' & Hl2). apply links_app. rewrite Ha', Hb in *.
  assert (NoDup (None :: (Some <$> l1))) as Hd1.
  { apply NoDup_cons. split; [by intros (? & ? & ?)%list_elem_of_fmap|].
    apply NoDup_fmap_2; [intros ?? [= ->]; done|]. by apply NoDup_app in Hnd as (? & _ & _). }
  assert (NoDup ((Some <$> l2) ++ [None])) as Hd2.
  { apply NoDup_app. split; [|split].
    - apply NoDup_fmap_2; [intros ?? [= ->]; done|].
      apply NoDup_app in Hnd as (_ & _ & [_ ?]%NoDup_cons). done.
    - intros x (y & -> & _)%list_elem_of_fmap [= Hx]%list_elem_of_singleton.
    - apply NoDup_singleton. }
  assert (Some i ∉ None :: (Some <$> l1)) as Hi1.
  { intros [?|(y & [= ->] & Hy)%list_elem_of_fmap]%elem_of_cons; [done|].
    apply NoDup_app in Hnd as (_ & Hd & _). apply (Hd y Hy). apply elem_of_cons. by left. }
  assert (Some i ∉ (Some <$> l2) ++ [None]) as Hi2.
  { intros [(y & [= ->] & Hy)%list_elem_of_fmap|Hx]%elem_of_app; [|by apply list_elem_of_singleton in Hx].
    apply NoDup_app in Hnd as (_ & _ & [Hd _]%NoDup_cons). done. }
  assert (forall x, x ∈ Some <$> l1 -> x ∈ (Some <$> l2) ++ [None] -> False) as Hdis.
  { intros x (y & -> & Hy)%list_elem_of_fmap [(z & [= ->] & Hz)%list_elem_of_fmap|Hx]%elem_of_app.
    - apply NoDup_app in Hnd as (_ & Hd & _). apply (Hd z Hy). apply elem_of_cons. by right.
    - by apply list_elem_of_singleton in Hx. }
  split.
  - eapply links_ext; [| |exact Hl1].
    + intros x Hx. rewrite removelast_snoc in Hx. rewrite Hc1 in Hd1, Hi1. apply Hn'.
      * intros ->. apply NoDup_app in Hd1 as (_ & Hd & _). by apply (Hd a Hx), list_elem_of_singleton.
      * intros ->. apply Hi1. apply elem_of_app. by left.
    + intros x Hx. apply Hp'.
      * intros ->. apply (Hdis b); [|rewrite Hc2; apply elem_of_cons; by left].
        rewrite <- Hc1 in Hx. done.
      * intros ->. apply Hi1. rewrite Hc1. rewrite <- Hc1 in Hx |- *. apply elem_of_cons. by right.
  - apply links_cons. split; [done|]. split; [done|]. eapply links_ext; [| |exact Hl2].
    + intros x Hx. rewrite <- Hc2, removelast_snoc in Hx. apply Hn'.
      * intros ->. assert (a ∈ None :: (Some <$> l1)) as Hax.
        { rewrite Hc1. apply elem_of_app. right. by apply list_elem_of_singleton. }
        apply list_elem_of_fmap in Hx as Hx'. destruct Hx' as (y & -> & _).
        apply elem_of_cons in Hax as [?|Hax]; [done|]. apply (Hdis _ Hax), elem_of_app. by left.
      * intros ->. apply Hi2. apply elem_of_app. by left.
    + intros x Hx. cbn in Hx. rewrite Hc2 in Hd2, Hi2. apply Hp'.
      * intros ->. by apply NoDup_cons in Hd2 as [? _].
      * intros ->. apply Hi2. apply elem_of_cons. by right.
Qed.

Lemma links_push n p n' p' i l : i ∉ l -> NoDup l -> links n p (ring l) ->
  n' None = Some i -> p' (Some i) = None -> n' (Some i) = n None -> p' (n None) = Some i ->
  (forall a, a <> None -> a <> Some i -> n' a = n a) ->
  (forall a, a <> n None -> a <> Some i -> p' a = p a) ->
  links n' p' (ring (i :: l)).
Proof.
  intros Hi Hnd Hl H1 H2 H3 H4 Hn Hp. unfold ring in *. cbn [fmap list_fmap app] in *.
  assert (exists b c, (Some <$> l) ++ [None] = b :: c) as (b & c & Hc) by (destruct l; cbn; eauto).
  assert (Some i ∉ (Some <$> l) ++ [None]) as Hi'.
  { intros [(y & [= ->] & Hy)%list_elem_of_fmap|Hx]%elem_of_app; [done|by apply list_elem_of_singleton in Hx]. }
  assert (NoDup ((Some <$> l) ++ [None])) as Hd.
  { apply NoDup_app. split; [apply NoDup_fmap_2; [intros ?? [= ->]; done|done]|]. split; [|apply NoDup_singleton].
    intros x (y & -> & _)%list_elem_of_fmap [= Hx]%list_elem_of_singleton. }
  rewrite Hc in *. apply links_cons in Hl as (Hb & _ & Hl). rewrite Hb in *.
  rewrite !links_cons. split; [done|]. split; [done|]. split; [done|]. split; [done|].
  eapply links_ext; [| |exact Hl].
  - intros x Hx. rewrite <- Hc, removelast_snoc in Hx. apply list_elem_of_fmap in Hx as (y & -> & Hy).
    apply Hn; [done|]. intros [= ->]. done.
  - intros x Hx. cbn in Hx. apply Hp.
    + intros ->. by apply NoDup_cons in Hd as [? _].
    + intros ->. apply Hi'. apply elem_of_cons. by right.
Qed.

(** ** Buffers without their links *)

Definition strip (b : buf) : buf := set_b_prev None (set_b_next None b).
Definition core (s : bst) : list buf := strip <$> bufs s.

(** The state with other buffers and links but the same disk. *)
Definition same_disk (s s' : bst) : Prop :=
  memdisk s' = memdisk s /\ writes s' = writes s /\ mypid s' = mypid s.

#[export] Instance same_disk_preorder : PreOrder same_disk.
Proof. split; [done|]. intros a b c (H1 & H2 & H3) (G1 & G2 & G3). repeat split; congruence. Qed.

Lemma core_lookup s i b : bufs s !! i = Some b -> core s !! i = Some (strip b).
Proof. intros H. unfold core. by rewrite list_lookup_fmap, H. Qed.

Lemma core_lookup_inv s i c : core s !! i = Some c -> exists b, bufs s !! i = Some b /\ strip b = c.
Proof. unfold core. rewrite list_lookup_fmap. destruct (bufs s !! i); cbn; [intros [= <-]; eauto|done]. Qed.

Lemma core_length s : length (core s) = length (bufs s).
Proof. apply length_fmap. Qed.

Lemma wp_getb s i b Q : bufs s !! i = Some b -> wp (getb i) s Q <-> Q b s.
Proof. intros H. apply wp_run. unfold getb. by rewrite H. Qed.

Lemma wp_setb s i b f Q : bufs s !! i = Some b ->
  wp (setb i f) s Q <-> Q () (set_bufs (<[i := f b]> (bufs s)) s).
Proof. intros H. apply wp_run. unfold setb. by rewrite H. Qed.

Lemma bufs_insert_eq s i b b' : bufs s !! i = Some b -> bufs (set_bufs (<[i := b']> (bufs s)) s) !! i = Some b'.
Proof. intros H. cbn. apply list_lookup_insert_eq. by eapply lookup_lt_Some. Qed.

(** Changing a buffer but not its links. *)
Lemma upd_core s i b b' : bufs s !! i = Some b -> b_prev b' = b_prev b -> b_next b' = b_next b ->
  core (set_bufs (<[i := b']> (bufs s)) s) = <[i := strip b']> (core s) /\
  (forall p, nx (set_bufs (<[i := b']> (bufs s)) s) p = nx s p) /\
  (forall p, pv (set_bufs (<[i := b']> (bufs s)) s) p = pv s p).
Proof.
  intros Hb Hp Hn. split; [unfold core; cbn; by rewrite list_fmap_insert|].
  split; intros [j|]; cbn; try done.
  all: destruct (decide (i = j)) as [<-|Hij];
    [rewrite list_lookup_insert_eq by (by eapply lookup_lt_Some); rewrite Hb; done
    |by rewrite list_lookup_insert_ne by done].
Qed.

Lemma linked_ext s s' l : (forall p, nx s' p = nx s p) -> (forall p, pv s' p = pv s p) ->
  linked s l -> linked s' l.
Proof. intros H1 H2. apply links_ext; auto. Qed.

(** [upd s i c]: buffer [i] has contents [c] now, nothing else changed. *)
Definition upd (s s' : bst) (i : nat) (c : buf) : Prop :=
  core s' = <[i := c]> (core s) /\ same_disk s s' /\ forall l, linked s l -> linked s' l.

Lemma upd_setb s i b b' : bufs s !! i = Some b -> b_prev b' = b_prev b -> b_next b' = b_next b ->
  upd s (set_bufs (<[i := b']> (bufs s)) s) i (strip b').
Proof.
  intros Hb Hp Hn. destruct (upd_core s i b b' Hb Hp Hn) as (H1 & H2 & H3).
  split; [done|]. split; [done|]. intros l. by apply linked_ext.
Qed.

Lemma upd_trans s1 s2 s3 i c d : upd s1 s2 i c -> upd s2 s3 i d -> upd s1 s3 i d.
Proof.
  intros (H1 & H2 & H3) (G1 & G2 & G3). split; [by rewrite G1, H1, list_insert_insert_eq|].
  split; [by etrans|]. auto.
Qed.

(** ** The scans of [bget] *)

Definition is_block (dev blockno : Z) (cs : list buf) (i : nat) : bool :=
  match cs !! i with Some b => (b_dev b =? dev) && (b_blockno b =? blockno) | None => false end.
Definition is_unused (cs : list buf) (i : nat) : bool :=
  match cs !! i with Some b => (b_refcnt b =? 0) && negb (flag_set (b_flags b) B_DIRTY) | None => false end.

Section scans.
Context (s : bst).

Lemma bget_cached_run dev blockno l : forall p fuel, Forall (fun i => (i < length (bufs s))%nat) l ->
  links (nx s) (pv s) (p :: (Some <$> l) ++ [None]) -> (length l < fuel)%nat ->
  bget_cached fuel (nx s p) dev blockno s = Ret (List.find (is_block dev blockno (core s)) l, s).
Proof.
  induction l as [|i l IH]; intros p [|fuel] Hv Hl Hf; cbn [length] in Hf; try lia.
  - cbn [fmap list_fmap app] in Hl. apply links_cons in Hl as (-> & _). done.
  - cbn [fmap list_fmap app] in Hl. apply links_cons in Hl as (-> & _ & Hl).
    apply Forall_cons in Hv as [Hi Hv]. apply lookup_lt_is_Some in Hi as [b Hb].
    cbn [bget_cached List.find]. unfold mbind, M_bind, getb at 1. rewrite Hb.
    unfold is_block at 1. rewrite (core_lookup s i b Hb). cbn [strip set_b_prev set_b_next b_dev b_blockno].
    destruct ((b_dev b =? dev) && (b_blockno b =? blockno)); [done|].
    specialize (IH (Some i) fuel Hv Hl). cbn [nx] in IH. rewrite Hb in IH. apply IH. lia.
Qed.

Lemma bget_unused_run l : forall p fuel, Forall (fun i => (i < length (bufs s))%nat) l ->
  links (nx s) (pv s) (None :: (Some <$> l) ++ [p]) -> (length l < fuel)%nat ->
  bget_unused fuel (pv s p) s = Ret (List.find (is_unused (core s)) (rev l), s).
Proof.
  induction l as [|i l IH] using rev_ind; intros p [|fuel] Hv Hl Hf; rewrite ?length_app in Hf; cbn [length] in Hf; try lia.
  - cbn [fmap list_fmap app] in Hl. apply links_cons in Hl as (_ & -> & _). done.
  - rewrite fmap_app in Hl. cbn [fmap list_fmap] in Hl. rewrite <- app_assoc in Hl. cbn [app] in Hl.
    change (links (nx s) (pv s) ((None :: (Some <$> l)) ++ Some i :: [p])) in Hl.
    apply links_app in Hl as [Hl (_ & -> & _)].
    apply Forall_app in Hv as [Hv [Hi _]%Forall_cons]. apply lookup_lt_is_Some in Hi as [b Hb].
    rewrite rev_app_distr. cbn [rev app bget_unused List.find]. unfold mbind, M_bind, getb at 1. rewrite Hb.
    unfold is_unused at 1. rewrite (core_lookup s i b Hb). cbn [strip set_b_prev set_b_next b_refcnt b_flags].
    destruct ((b_refcnt b =? 0) && negb (flag_set (b_flags b) B_DIRTY)); [done|].
    specialize (IH (Some i) fuel Hv Hl). cbn [pv] in IH. rewrite Hb in IH. apply IH. lia.
Qed.
End scans.

(** ** Coherence *)

(** A buffer is empty, holds a block of the disk as it is there, or holds a
    newer version of it that the log has pinned. *)
Record buf_ok (disk : list (list Z)) (b : buf) : Prop := {
  bo_flags : b_flags b = 0 \/ b_flags b = 2 \/ b_flags b = 6;
  bo_data : length (b_data b) = Z.to_nat BSIZE;
  bo_ref : 0 <= b_refcnt b < 2 ^ 32 - 1;
  bo_dev : b_flags b <> 0 -> b_dev b = 1;
  bo_block : b_dev b = 1 -> 0 <= b_blockno b < Z.of_nat (length disk);
  bo_locked : sl_locked (b_lock b) = true -> 0 < b_refcnt b /\ b_flags b <> 0;
  bo_sync : b_flags b = 2 -> sl_locked (b_lock b) = false ->
    disk !! Z.to_nat (b_blockno b) = Some (b_data b) }.

(** The cache's invariant: the LRU order [l], every buffer coherent, no
    block in two buffers. *)
Record cache (s : bst) (l : list nat) : Prop := {
  ca_linked : linked s l;
  ca_perm : l ≡ₚ seq 0 NBUF;
  ca_len : length (core s) = NBUF;
  ca_disk : Forall (fun d => length d = Z.to_nat BSIZE) (memdisk s);
  ca_ok : Forall (buf_ok (memdisk s)) (core s);
  ca_uniq : forall i j b c, core s !! i = Some b -> core s !! j = Some c ->
    b_dev b = 1 -> b_dev c = 1 -> b_blockno b = b_blockno c -> i = j }.

(** What a reader of block [n] sees: the cached version or the disk's. *)
Definition cached (cs : list buf) (n : Z) : option buf :=
  List.find (fun b => (b_dev b =? 1) && (b_blockno b =? n)) cs.
Definition view (s : bst) (n : Z) : list Z :=
  match cached (core s) n with
  | Some b => if b_flags b =? 0 then nth (Z.to_nat n) (memdisk s) [] else b_data b
  | None => nth (Z.to_nat n) (memdisk s) []
  end.

(** ** Running the operations on one buffer *)

(** [s] with buffer [i] replaced by [b]. *)
Definition put (s : bst) (i : nat) (b : buf) : bst := set_bufs (<[i := b]> (bufs s)) s.

Section put.
Context (s : bst) (i : nat).
Hypothesis Hi : (i < length (bufs s))%nat.

Lemma put_lookup b : bufs (put s i b) !! i = Some b.
Proof. by apply list_lookup_insert_eq. Qed.

Lemma put_id b : bufs s !! i = Some b -> put s i b = s.
Proof. intros H. unfold put. rewrite list_insert_id by done. by destruct s. Qed.

Lemma put_put b c : put (put s i b) i c = put s i c.
Proof. unfold put. cbn. by rewrite list_insert_insert_eq. Qed.

Lemma getb_put b : getb i (put s i b) = Ret (b, put s i b).
Proof. unfold getb. by rewrite put_lookup. Qed.

Lemma setb_put b f : setb i f (put s i b) = Ret ((), put s i (f b)).
Proof. unfold setb. rewrite put_lookup. fold (put (put s i b) i (f b)). by rewrite put_put. Qed.

Lemma lock_buf_put b : sl_locked (b_lock b) = false ->
  lock_buf i (put s i b) = Ret ((), put s i (set_b_lock (Sleeplock true (mypid s)) b)).
Proof.
  intros Hl. unfold lock_buf, mbind, M_bind. rewrite getb_put. unfold gets, acquiresleep. rewrite Hl.
  by rewrite setb_put.
Qed.

Lemma holding_put b : holding_buf i (put s i b) = Ret (holdingsleep (mypid s) (b_lock b), put s i b).
Proof. unfold holding_buf, mbind, M_bind. by rewrite getb_put. Qed.

(** Reading an empty buffer from the disk. *)
Lemma iderw_read b : holdingsleep (mypid s) (b_lock b) = true -> b_flags b = 0 -> b_dev b = 1 ->
  b_blockno b < Z.of_nat (length (memdisk s)) ->
  iderw i (put s i b) =
    Ret ((), put s i (set_b_flags 2 (set_b_data (nth (Z.to_nat (b_blockno b)) (memdisk s) []) b))).
Proof.
  intros Hh Hf Hd Hr. unfold iderw, mbind, M_bind. rewrite holding_put, Hh. cbn [negb].
  rewrite getb_put. unfold gets. cbn [memdisk put set_bufs]. rewrite Hf, Hd.
  change (Z.land 0 (Z.lor B_VALID B_DIRTY) =? B_VALID) with false. cbn [Z.eqb negb Pos.eqb].
  rewrite (proj2 (Z.leb_gt _ _)) by lia. change (flag_set 0 B_DIRTY) with false. cbn iota.
  rewrite !setb_put. cbn [b_flags set_b_data]. by rewrite Hf.
Qed.

(** Writing a dirty buffer to the disk. *)
Lemma iderw_write b : holdingsleep (mypid s) (b_lock b) = true -> b_flags b = 6 \/ b_flags b = 4 -> b_dev b = 1 ->
  b_blockno b < Z.of_nat (length (memdisk s)) ->
  iderw i (put s i b) =
    Ret ((), set_writes (writes s ++ [(b_blockno b, b_data b)])
       (set_memdisk (<[Z.to_nat (b_blockno b) := b_data b]> (memdisk s)) (put s i (set_b_flags 2 b)))).
Proof.
  intros Hh Hf Hd Hr. unfold iderw, mbind, M_bind. rewrite holding_put, Hh. cbn [negb].
  rewrite getb_put. unfold gets. cbn [memdisk put set_bufs].
  replace (Z.land (b_flags b) (Z.lor B_VALID B_DIRTY) =? B_VALID) with false by (by destruct Hf as [-> | ->]).
  rewrite Hd. cbn [Z.eqb negb Pos.eqb]. rewrite (proj2 (Z.leb_gt _ _)) by lia.
  replace (flag_set (b_flags b) B_DIRTY) with true by (by destruct Hf as [-> | ->]).
  rewrite setb_put. unfold disk_write, mbind, M_bind, modify. unfold setb. cbn [bufs set_writes set_memdisk].
  rewrite put_lookup. f_equal. f_equal. unfold put, set_writes, set_memdisk, set_bufs. cbn.
  rewrite list_insert_insert_eq. do 2 f_equal. destruct Hf as [-> | ->]; done.
Qed.
End put.

Lemma put_core s i b : core (put s i b) = <[i := strip b]> (core s).
Proof. unfold core, put. cbn. by rewrite list_fmap_insert. Qed.

Lemma put_linked s i b b' l : bufs s !! i = Some b -> b_prev b' = b_prev b -> b_next b' = b_next b ->
  linked s l -> linked (put s i b') l.
Proof. intros Hb Hp Hn. destruct (upd_core s i b b' Hb Hp Hn) as (_ & H2 & H3). by apply linked_ext. Qed.

Lemma cache_index s l i : cache s l -> i ∈ l -> (i < length (bufs s))%nat.
Proof.
  intros H Hi. rewrite (ca_perm _ _ H) in Hi. rewrite <- core_length, (ca_len _ _ H).
  apply elem_of_seq in Hi. lia.
Qed.

Lemma cache_scan s l : cache s l -> Forall (fun i => (i < length (bufs s))%nat) l /\ (length l < S NBUF)%nat.
Proof.
  intros H. split; [apply Forall_forall; intros i; by apply cache_index|].
  rewrite (ca_perm _ _ H), length_seq. unfold NBUF. lia.
Qed.

Lemma find_in {A} (f : A -> bool) l : (exists x, x ∈ l /\ f x = true) -> exists x, List.find f l = Some x.
Proof.
  intros (x & Hx & Hf). destruct (List.find f l) as [y|] eqn:E; [eauto|].
  apply list_elem_of_In in Hx. by rewrite (List.find_none f l E x Hx) in Hf.
Qed.

Lemma find_spec {A} (f : A -> bool) l x : List.find f l = Some x -> x ∈ l /\ f x = true.
Proof. intros H. apply List.find_some in H as [H1 H2]. split; [by apply list_elem_of_In|done]. Qed.

(** The cached version of a block sits in one buffer, which the scan finds. *)
Lemma cached_some s l n b : cache s l -> cached (core s) n = Some b ->
  exists i, core s !! i = Some b /\ b_dev b = 1 /\ b_blockno b = n /\
    List.find (is_block 1 n (core s)) l = Some i.
Proof.
  intros H Hc. apply find_spec in Hc as [Hin [Hd%Z.eqb_eq Hn%Z.eqb_eq]%andb_true_iff].
  apply list_elem_of_lookup in Hin as [i Hi]. exists i. repeat (split; [done|]).
  destruct (find_in (is_block 1 n (core s)) l) as [j Hj].
  - exists i. split; [|unfold is_block; by rewrite Hi, Hd, Hn, !Z.eqb_refl].
    rewrite (ca_perm _ _ H). apply lookup_lt_Some in Hi. rewrite (ca_len _ _ H) in Hi. apply elem_of_seq. lia.
  - rewrite Hj. f_equal. apply find_spec in Hj as [_ Hj]. unfold is_block in Hj.
    destruct (core s !! j) as [c|] eqn:E; [|done].
    apply andb_true_iff in Hj as [Hjd%Z.eqb_eq Hjn%Z.eqb_eq].
    apply (ca_uniq _ _ H j i c b); congruence.
Qed.

Lemma cached_none s l n : cached (core s) n = None -> List.find (is_block 1 n (core s)) l = None.
Proof.
  intros Hc. destruct (List.find _ l) as [i|] eqn:E; [|done]. exfalso.
  apply find_spec in E as [_ E]. unfold is_block in E. destruct (core s !! i) as [b|] eqn:Hi; [|done].
  apply list_elem_of_lookup_2, list_elem_of_In in Hi. unfold cached in Hc.
  by rewrite (List.find_none _ _ Hc _ Hi) in E.
Qed.

(** ** [bread] *)

(** The buffer [bread] picks for block [n]: the one that caches it, else the
    least recently used free one. *)
Definition target (cs : list buf) (l : list nat) (n : Z) : option nat :=
  match List.find (is_block 1 n cs) l with
  | Some i => Some i
  | None => List.find (is_unused cs) (rev l)
  end.

(** The contents of that buffer afterwards. *)
Definition opened (s : bst) (n : Z) : buf :=
  match cached (core s) n with
  | Some b => Buf (if b_flags b =? 0 then 2 else b_flags b) 1 n (Sleeplock true (mypid s))
                (b_refcnt b + 1) None None (view s n)
  | None => Buf 2 1 n (Sleeplock true (mypid s)) 1 None None (view s n)
  end.

Lemma bget_run s l n i : cache s l -> target (core s) l n = Some i ->
  (forall b, cached (core s) n = Some b -> sl_locked (b_lock b) = false /\ b_refcnt b < 2 ^ 32 - 2) ->
  exists x, bufs s !! i = Some x /\
    bget 1 n s = Ret (i, put s i (set_b_lock (Sleeplock true (mypid s))
      (match cached (core s) n with
       | Some _ => set_b_refcnt (b_refcnt x + 1) x
       | None => Buf 0 1 n (b_lock x) 1 (b_prev x) (b_next x) (b_data x)
       end))).
Proof.
  intros Hc Ht Hl. destruct (cache_scan s l Hc) as [Hv Hlen].
  assert (i ∈ l) as Hil.
  { unfold target in Ht. destruct (List.find _ l) eqn:E.
    - injection Ht as ->. by apply find_spec in E as [? _].
    - apply find_spec in Ht as [Ht _]. apply list_elem_of_In. rewrite in_rev. by apply list_elem_of_In. }
  pose proof (cache_index s l i Hc Hil) as Hi. destruct (lookup_lt_is_Some_2 _ _ Hi) as [x Hx].
  exists x. split; [done|]. unfold bget, mbind, M_bind, gets at 1.
  pose proof (ca_linked _ _ Hc) as Hlk. unfold linked, ring in Hlk.
  change (head_next s) with (nx s None). rewrite (bget_cached_run s 1 n l None (S NBUF) Hv Hlk Hlen).
  destruct (cached (core s) n) as [b|] eqn:Hb.
  - destruct (cached_some s l n b Hc Hb) as (j & Hj & Hd & Hn & Hf). unfold target in Ht. rewrite Hf in *.
    injection Ht as ->. apply core_lookup_inv in Hj as (x' & Hx' & <-). rewrite Hx in Hx'. injection Hx' as <-.
    destruct (Hl _ eq_refl) as [Hu Hr]. cbn in Hu, Hr.
    pose proof (bo_ref _ _ (proj1 (Forall_lookup _ _) (ca_ok _ _ Hc) i _ (core_lookup s i x Hx))) as Hr0. cbn in Hr0.
    rewrite <- (put_id s i Hi x Hx) at 1. rewrite setb_put by done. rewrite lock_buf_put by done.
    cbn. by replace (u32 (b_refcnt x + 1)) with (b_refcnt x + 1) by lia.
  - pose proof (cached_none s l n Hb) as Hf. unfold target in Ht. rewrite Hf in *. unfold gets.
    change (head_prev s) with (pv s None).
    rewrite (bget_unused_run s l None (S NBUF) Hv) by done. rewrite Ht.
    assert (sl_locked (b_lock x) = false) as Hu.
    { destruct (sl_locked (b_lock x)) eqn:E; [|done].
      pose proof (proj1 (Forall_lookup _ _) (ca_ok _ _ Hc) i _ (core_lookup s i x Hx)) as Hok.
      destruct (bo_locked _ _ Hok) as [Hr _]; [done|]. cbn in Hr.
      apply find_spec in Ht as [_ Ht]. unfold is_unused in Ht. rewrite (core_lookup s i x Hx) in Ht.
      cbn in Ht. apply andb_true_iff in Ht as [Ht%Z.eqb_eq _]. lia. }
    rewrite <- (put_id s i Hi x Hx) at 1. rewrite !setb_put by done. rewrite lock_buf_put by done. done.
Qed.

Lemma cache_lookup s l i b : cache s l -> core s !! i = Some b -> buf_ok (memdisk s) b.
Proof. intros H Hb. eapply Forall_lookup; [apply (ca_ok _ _ H)|done]. Qed.

Lemma memdisk_nth s l n : cache s l -> 0 <= n < Z.of_nat (length (memdisk s)) ->
  exists d, memdisk s !! Z.to_nat n = Some d /\ nth (Z.to_nat n) (memdisk s) [] = d /\ length d = Z.to_nat BSIZE.
Proof.
  intros H Hn. destruct (lookup_lt_is_Some_2 (memdisk s) (Z.to_nat n)) as [d Hd]; [lia|].
  exists d. split; [done|]. split; [by apply nth_lookup_Some|].
  by eapply Forall_lookup in Hd; [|apply (ca_disk _ _ H)].
Qed.

(** What readers see of a block in a cached, unlocked, clean buffer. *)
Lemma view_length s l n : cache s l -> 0 <= n < Z.of_nat (length (memdisk s)) -> length (view s n) = Z.to_nat BSIZE.
Proof.
  intros H Hn. unfold view. destruct (memdisk_nth s l n H Hn) as (d & _ & -> & Hlen).
  destruct (cached (core s) n) as [b|] eqn:Hb; [|done]. destruct (b_flags b =? 0); [done|].
  destruct (cached_some s l n b H Hb) as (i & Hi & _). by apply (cache_lookup s l i b H Hi).
Qed.

Lemma cache_put s s' l i b : cache s l -> linked s' l -> same_disk s s' -> core s' = <[i := b]> (core s) ->
  (i < length (core s))%nat -> buf_ok (memdisk s) b ->
  (forall j c, j <> i -> core s !! j = Some c -> b_dev b = 1 -> b_dev c = 1 -> b_blockno b <> b_blockno c) ->
  cache s' l.
Proof.
  intros H Hl (Hd & _) Hc Hi Hok Hu. split.
  - done.
  - apply H.
  - rewrite Hc, length_insert. apply H.
  - rewrite Hd. apply H.
  - rewrite Hc, Hd. apply Forall_insert; [apply H|done].
  - rewrite Hc. intros j k x y Hx Hy Hjx Hjy Heq.
    destruct (decide (j = i)) as [->|Hji], (decide (k = i)) as [->|Hki]; try done.
    + rewrite list_lookup_insert_eq in Hx by done. injection Hx as <-.
      rewrite list_lookup_insert_ne in Hy by done. by destruct (Hu k y Hki Hy Hjx Hjy).
    + rewrite list_lookup_insert_eq in Hy by done. injection Hy as <-.
      rewrite list_lookup_insert_ne in Hx by done. by destruct (Hu j x Hji Hx Hjy Hjx).
    + rewrite list_lookup_insert_ne in Hx, Hy by done. by eapply (ca_uniq _ _ H j k).
Qed.

Lemma opened_block s n : b_blockno (opened s n) = n.
Proof. unfold opened. by destruct (cached (core s) n). Qed.

Section bread.
Context (s : bst) (l : list nat) (n : Z) (i : nat).
Hypotheses (Hc : cache s l) (Hn : 0 <= n < Z.of_nat (length (memdisk s)))
  (Ht : target (core s) l n = Some i)
  (Hl : forall b, cached (core s) n = Some b -> sl_locked (b_lock b) = false /\ b_refcnt b < 2 ^ 32 - 2).

Lemma opened_ok : buf_ok (memdisk s) (opened s n).
Proof.
  pose proof (view_length s l n Hc Hn) as Hvl. unfold opened.
  destruct (cached (core s) n) as [b|] eqn:Hb; [|split; cbn; try done; auto; lia].
  destruct (Hl b eq_refl) as [Hlk' Hr]. destruct (cached_some s l n b Hc Hb) as (j & Hj & _).
  destruct (cache_lookup s l j b Hc Hj) as [Hfl _ Hrf _ _ _ _].
  split; cbn; try done; [|lia|intros _; split; [lia|]].
  all: destruct Hfl as [-> |[-> | ->]]; cbn; auto.
Qed.

Lemma opened_uniq j c : j <> i -> core s !! j = Some c -> b_dev c = 1 -> n <> b_blockno c.
Proof.
  intros Hji Hj Hcd ->. destruct (cached (core s) (b_blockno c)) as [b|] eqn:Hb.
  - destruct (cached_some s l _ b Hc Hb) as (k & Hk & Hkd & Hkn & Hf). unfold target in Ht. rewrite Hf in Ht.
    injection Ht as ->. apply Hji. apply (ca_uniq _ _ Hc j i c b); congruence.
  - pose proof (list_elem_of_lookup_2 _ _ _ Hj) as Hin. apply list_elem_of_In in Hin.
    pose proof (List.find_none _ _ Hb _ Hin) as E. cbn in E. by rewrite Hcd, !Z.eqb_refl in E.
Qed.

Lemma opened_cache x b : bufs s !! i = Some x -> strip b = opened s n -> b_prev b = b_prev x ->
  b_next b = b_next x ->
  core (put s i b) = <[i := opened s n]> (core s) /\ same_disk s (put s i b) /\ cache (put s i b) l.
Proof.
  intros Hx Hs Hp Hnx. pose proof (lookup_lt_Some _ _ _ Hx) as Hi.
  assert (core (put s i b) = <[i := opened s n]> (core s)) as Hcs by (by rewrite put_core, Hs).
  split; [done|]. split; [done|]. eapply cache_put; [done| |done|exact Hcs|by rewrite core_length|apply opened_ok|].
  - eapply put_linked; [done..|apply Hc].
  - rewrite opened_block. intros j c Hji Hj _. by apply (opened_uniq j).
Qed.

(** [bread] returns the target buffer, locked, with the block as readers see
    it; every other buffer, the LRU order and the disk stay as they are. *)
Lemma bread_run : exists s', bread 1 n s = Ret (i, s') /\
  core s' = <[i := opened s n]> (core s) /\ same_disk s s' /\ cache s' l.
Proof.
  destruct (bget_run s l n i Hc Ht Hl) as (x & Hx & Hrun). pose proof opened_cache as Hop.
  pose proof (lookup_lt_Some _ _ _ Hx) as Hi. unfold bread, mbind, M_bind. rewrite Hrun, getb_put by done.
  destruct (cached (core s) n) as [b|] eqn:Hb.
  - destruct (cached_some s l n b Hc Hb) as (j & Hj & Hdv & Hbn & Hf). unfold target in Ht. rewrite Hf in Ht.
    injection Ht as ->. pose proof (cache_lookup s l i b Hc Hj) as Hok.
    apply core_lookup_inv in Hj as (x' & Hx' & <-). rewrite Hx in Hx'. injection Hx' as <-. cbn in Hdv, Hbn.
    destruct (bo_flags _ _ Hok) as [Hfl|Hfl]; cbn in Hfl.
    + cbn [b_flags set_b_lock set_b_refcnt]. rewrite Hfl. change (Z.land 0 B_VALID =? 0) with true. cbn iota.
      rewrite iderw_read; cbn; try done; [|unfold holdingsleep; cbn; by rewrite Z.eqb_refl|lia].
      eexists. split; [done|]. eapply Hop; [done| |done|done].
      unfold opened, view. rewrite Hb. clear - Hfl Hdv Hbn. destruct x. cbn in *. by subst.
    + replace (Z.land _ B_VALID =? 0) with false by (cbn; destruct Hfl as [-> | ->]; done).
      eexists. split; [done|]. eapply Hop; [done| |done|done].
      unfold opened, view. rewrite Hb. clear - Hfl Hdv Hbn. destruct x. cbn in *. by destruct Hfl; subst.
  - cbn [b_flags set_b_lock]. change (Z.land 0 B_VALID =? 0) with true. cbn iota.
    rewrite iderw_read; cbn; try done; [|unfold holdingsleep; cbn; by rewrite Z.eqb_refl|lia].
    eexists. split; [done|]. eapply Hop; [done| |done|done].
    unfold opened, view. by rewrite Hb.
Qed.
End bread.

(** ** [brelse] *)

(** Same buffers up to links, same disk. *)
Definition relinked (s s' : bst) : Prop := core s' = core s /\ same_disk s s'.

#[export] Instance relinked_preorder : PreOrder relinked.
Proof. split; [split; done|]. intros a b c [H1 H2] [G1 G2]. split; [congruence|by etrans]. Qed.

Definition ptr_ok (s : bst) (p : option nat) : Prop :=
  match p with None => True | Some i => (i < length (bufs s))%nat end.

Lemma ptr_ok_relinked s s' p : relinked s s' -> ptr_ok s p -> ptr_ok s' p.
Proof. intros [H _]. destruct p; [|done]. cbn. by rewrite <- !core_length, H. Qed.

Lemma set_prev_run s p v : ptr_ok s p -> exists s', set_prev p v s = Ret ((), s') /\ relinked s s' /\
  pv s' p = v /\ (forall q, q <> p -> pv s' q = pv s q) /\ (forall q, nx s' q = nx s q).
Proof.
  destruct p as [i|]; cbn [ptr_ok set_prev].
  - intros Hi. destruct (lookup_lt_is_Some_2 _ _ Hi) as [b Hb]. exists (put s i (set_b_prev v b)).
    split; [unfold setb; by rewrite Hb|]. split; [|split; [|split]].
    + split; [|done]. rewrite put_core. apply list_insert_id. exact (core_lookup s i b Hb).
    + cbn. by rewrite list_lookup_insert_eq.
    + intros [j|] Hj; [|done]. cbn. rewrite list_lookup_insert_ne; congruence.
    + intros [j|]; [|done]. cbn. destruct (decide (i = j)) as [<-|Hij];
        [by rewrite list_lookup_insert_eq, Hb by done|by rewrite list_lookup_insert_ne by done].
  - intros _. eexists. split; [done|]. split; [done|]. split; [done|]. split; [by intros [j|]|by intros [j|]].
Qed.

Lemma set_next_run s p v : ptr_ok s p -> exists s', set_next p v s = Ret ((), s') /\ relinked s s' /\
  nx s' p = v /\ (forall q, q <> p -> nx s' q = nx s q) /\ (forall q, pv s' q = pv s q).
Proof.
  destruct p as [i|]; cbn [ptr_ok set_next].
  - intros Hi. destruct (lookup_lt_is_Some_2 _ _ Hi) as [b Hb]. exists (put s i (set_b_next v b)).
    split; [unfold setb; by rewrite Hb|]. split; [|split; [|split]].
    + split; [|done]. rewrite put_core. apply list_insert_id. exact (core_lookup s i b Hb).
    + cbn. by rewrite list_lookup_insert_eq.
    + intros [j|] Hj; [|done]. cbn. rewrite list_lookup_insert_ne; congruence.
    + intros [j|]; [|done]. cbn. destruct (decide (i = j)) as [<-|Hij];
        [by rewrite list_lookup_insert_eq, Hb by done|by rewrite list_lookup_insert_ne by done].
  - intros _. eexists. split; [done|]. split; [done|]. split; [done|]. split; [by intros [j|]|by intros [j|]].
Qed.

Lemma getb_run s i : (i < length (bufs s))%nat ->
  exists b, getb i s = Ret (b, s) /\ b_next b = nx s (Some i) /\ b_prev b = pv s (Some i).
Proof.
  intros Hi. destruct (lookup_lt_is_Some_2 _ _ Hi) as [b Hb]. exists b. unfold getb. cbn. by rewrite Hb.
Qed.

Lemma links_ends n p (P : option nat -> Prop) c : links n p c -> Forall P c ->
  forall x, x ∈ removelast c -> P (n x).
Proof.
  induction c as [|a [|b c] IH]; cbn [removelast]; [set_solver..|].
  intros (H1 & H2 & H3) [Ha [Hb Hc]%Forall_cons]%Forall_cons x [->|Hx]%elem_of_cons; [by rewrite H1|].
  apply IH; [done|by apply Forall_cons|done].
Qed.

(** [link_front] puts a buffer that is not in the list in front of it. *)
Lemma link_front_run s i l : linked s l -> NoDup l -> i ∉ l -> (i < length (bufs s))%nat ->
  Forall (fun j => (j < length (bufs s))%nat) l ->
  exists s', link_front i (mret ()) s = Ret ((), s') /\ relinked s s' /\ linked s' (i :: l).
Proof.
  intros Hl Hnd Hi Hlen Hv. unfold link_front, mbind, M_bind, gets.
  destruct (set_next_run s (Some i) (head_next s)) as (s1 & E1 & R1 & A1 & B1 & C1); [done|].
  cbn [set_next] in E1. rewrite E1.
  destruct (set_prev_run s1 (Some i) None) as (s2 & E2 & R2 & A2 & B2 & C2); [by eapply ptr_ok_relinked|].
  cbn [set_prev] in E2. rewrite E2. cbn [mret M_ret].
  assert (relinked s s2) as R12 by (by etrans).
  assert (head_next s2 = nx s None) as Hh.
  { change (head_next s2) with (nx s2 None). by rewrite C2, B1. }
  assert (ptr_ok s (nx s None)) as Hp.
  { eapply (links_ends _ _ _ _ Hl); [|rewrite removelast_ring; apply elem_of_cons; by left].
    apply Forall_cons. split; [done|]. apply Forall_app. split; [by apply Forall_fmap|by apply Forall_singleton]. }
  destruct (set_prev_run s2 (head_next s2) (Some i)) as (s3 & E3 & R3 & A3 & B3 & C3).
  { rewrite Hh. by eapply ptr_ok_relinked. }
  rewrite E3. eexists. split; [done|]. split; [transitivity s2; [done|]; destruct R3 as [? ?]; by split|].
  rewrite Hh in *. assert (nx s None <> Some i) as Hni.
  { destruct l as [|j l]; cbn [linked ring fmap list_fmap app] in Hl; destruct Hl as [-> _]; [done|].
    intros [= ->]. apply Hi, elem_of_cons. by left. }
  assert (forall a, a <> None -> nx (set_head_next (Some i) s3) a = nx s3 a) as Hs by (by intros [j|]).
  assert (forall a, pv (set_head_next (Some i) s3) a = pv s3 a) as Hs' by (by intros [j|]).
  apply (links_push (nx s) (pv s)); try done.
  - by rewrite Hs', B3, A2.
  - by rewrite Hs, C3, C2, A1.
  - intros a Ha Ha'. by rewrite Hs, C3, C2, B1.
  - intros a Ha Ha'. by rewrite Hs', B3, B2, C1.
Qed.

(** The relinking of [brelse]: move to the front. *)
Definition to_front (i : nat) (l : list nat) : list nat := i :: filter (fun j => j <> i) l.

Lemma filter_ne_id (i : nat) (l : list nat) : i ∉ l -> filter (fun j => j <> i) l = l.
Proof.
  induction l as [|j l IH]; [done|]. intros Hi. rewrite filter_cons_True by set_solver.
  f_equal. apply IH. set_solver.
Qed.

Lemma filter_split (i : nat) l1 l2 : NoDup (l1 ++ i :: l2) -> filter (fun j => j <> i) (l1 ++ i :: l2) = l1 ++ l2.
Proof.
  intros (H1 & H2 & [H3 H4]%NoDup_cons)%NoDup_app. rewrite filter_app, filter_cons_False by tauto.
  rewrite !filter_ne_id; [done|done|]. intros Hx. apply (H2 i Hx), elem_of_cons. by left.
Qed.

Lemma relink_run s i l : linked s l -> NoDup l -> i ∈ l -> Forall (fun j => (j < length (bufs s))%nat) l ->
  exists s', (b ← getb i; _ ← set_prev (b_next b) (b_prev b);
              b ← getb i; _ ← set_next (b_prev b) (b_next b);
              link_front i (mret ())) s = Ret ((), s') /\ relinked s s' /\ linked s' (to_front i l).
Proof.
  intros Hl Hnd Hi Hv. unfold to_front. apply list_elem_of_split in Hi as (l1 & l2 & ->).
  rewrite filter_split by done.
  pose proof Hv as [_ [Hlen _]%Forall_cons]%Forall_app.
  destruct (getb_run s i Hlen) as (b & E0 & Hbn & Hbp). unfold mbind, M_bind. rewrite E0, Hbn, Hbp.
  assert (Forall (ptr_ok s) (ring (l1 ++ i :: l2))) as Hok.
  { apply Forall_cons. split; [done|]. apply Forall_app. split; [by apply Forall_fmap|by apply Forall_singleton]. }
  assert (ptr_ok s (nx s (Some i)) /\ ptr_ok s (pv s (Some i)) /\ nx s (Some i) <> Some i /\ pv s (Some i) <> Some i)
    as (Hpn & Hpp & Hnn & Hnp).
  { destruct (links_neighbours _ _ _ _ _ Hl) as [Ha Hb].
    assert (forall z, z ∈ ring (l1 ++ i :: l2) -> ptr_ok s z) as Hall by (by apply Forall_forall).
    apply NoDup_app in Hnd as (_ & Hd & [Hd2 _]%NoDup_cons).
    split; [|split; [|split]].
    - apply Hall. unfold ring. rewrite fmap_app. set_solver.
    - apply Hall. unfold ring. rewrite fmap_app. set_solver.
    - intros E. rewrite E in Hb. apply elem_of_app in Hb as [(z & [= ->] & ?)%list_elem_of_fmap|?]; set_solver.
    - intros E. rewrite E in Ha. apply elem_of_cons in Ha as [?|(z & [= ->] & ?)%list_elem_of_fmap]; [done|].
      apply (Hd z); set_solver. }
  destruct (set_prev_run s (nx s (Some i)) (pv s (Some i)) Hpn) as (s1 & E1 & R1 & A1 & B1 & C1). rewrite E1.
  destruct (getb_run s1 i) as (b1 & E2 & Hbn1 & Hbp1); [by apply (ptr_ok_relinked s s1 (Some i))|].
  rewrite E2, Hbn1, Hbp1, C1, B1 by done.
  destruct (set_next_run s1 (pv s (Some i)) (nx s (Some i))) as (s2 & E3 & R3 & A3 & B3 & C3);
    [by eapply ptr_ok_relinked|].
  rewrite E3. assert (relinked s s2) as R by (by etrans).
  destruct (link_front_run s2 i (l1 ++ l2)) as (s3 & E4 & R4 & Hl4).
  - apply (links_unlink (nx s) (pv s) _ _ l1 i l2); try done.
    + by rewrite C3.
    + intros a Ha _. by rewrite B3, C1.
    + intros a Ha _. by rewrite C3, B1.
  - apply NoDup_app in Hnd as (H1 & H2 & [_ H3]%NoDup_cons). apply NoDup_app. split; [done|]. split; [|done].
    intros x Hx Hx'. apply (H2 x Hx), elem_of_cons. by right.
  - apply NoDup_app in Hnd as (H1 & H2 & [H3 _]%NoDup_cons). intros [Hx|Hx]%elem_of_app; [|done].
    apply (H2 i Hx), elem_of_cons. by left.
  - by apply (ptr_ok_relinked s s2 (Some i)).
  - apply Forall_app in Hv as [Hv1 [_ Hv2]%Forall_cons]. rewrite <- core_length, (proj1 R), core_length.
    by apply Forall_app.
  - rewrite E4. exists s3. split; [done|]. split; [by etrans|done].
Qed.

Lemma cache_relinked s s' l l' : cache s l -> relinked s s' -> linked s' l' -> l' ≡ₚ l -> cache s' l'.
Proof.
  intros H [Hc (Hd & _)] Hl Hp. split.
  - done.
  - rewrite Hp. apply H.
  - rewrite Hc. apply H.
  - rewrite Hd. apply H.
  - rewrite Hc, Hd. apply H.
  - rewrite Hc. apply H.
Qed.

Lemma to_front_perm i l : NoDup l -> i ∈ l -> to_front i l ≡ₚ l.
Proof.
  intros Hnd Hi. unfold to_front. apply list_elem_of_split in Hi as (l1 & l2 & ->).
  rewrite filter_split by done. by rewrite Permutation_middle.
Qed.

Lemma cache_NoDup s l : cache s l -> NoDup l.
Proof. intros H. rewrite (ca_perm _ _ H). apply NoDup_seq. Qed.

Lemma cache_elem s l i b : cache s l -> core s !! i = Some b -> i ∈ l.
Proof.
  intros H Hb. rewrite (ca_perm _ _ H). apply elem_of_seq. apply lookup_lt_Some in Hb.
  rewrite (ca_len _ _ H) in Hb. lia.
Qed.

(** Buffer [b] after its lock is given up. *)
Definition released (b : buf) : buf :=
  set_b_refcnt (b_refcnt b - 1) (set_b_lock (Sleeplock false 0) b).

(** [brelse] gives up the lock; the last user moves the buffer to the front. *)
Lemma brelse_run s l i b : cache s l -> core s !! i = Some b -> holdingsleep (mypid s) (b_lock b) = true ->
  (b_flags b = 2 -> memdisk s !! Z.to_nat (b_blockno b) = Some (b_data b)) ->
  exists s', brelse i s = Ret ((), s') /\ core s' = <[i := released b]> (core s) /\ same_disk s s' /\
    cache s' (if b_refcnt b =? 1 then to_front i l else l).
Proof.
  intros Hc Hb Hh Hsync. pose proof (cache_elem _ _ _ _ Hc Hb) as Hil.
  pose proof (cache_lookup s l i b Hc Hb) as Hok. pose proof (lookup_lt_Some _ _ _ Hb) as Hlen.
  apply core_lookup_inv in Hb as (x & Hx & <-). pose proof (lookup_lt_Some _ _ _ Hx) as Hi.
  cbn [strip set_b_prev set_b_next b_lock b_flags b_blockno b_data b_refcnt] in *.
  assert (sl_locked (b_lock x) = true) as Hlk by (unfold holdingsleep in Hh; by destruct (sl_locked (b_lock x))).
  destruct (bo_locked _ _ Hok Hlk) as [Hr _]. pose proof (bo_ref _ _ Hok) as Hr'. cbn in Hr, Hr'.
  replace (brelse i s) with (brelse i (put s i x)) by (by rewrite put_id).
  unfold brelse, mbind, M_bind. rewrite holding_put, Hh by done. cbn [negb].
  rewrite !setb_put, getb_put by done. cbn [b_refcnt set_b_refcnt set_b_lock].
  replace (u32 (b_refcnt x - 1)) with (b_refcnt x - 1) by lia.
  set (x' := set_b_refcnt _ _). assert (cache (put s i x') l /\ core (put s i x') = <[i := released (strip x)]> (core s))
    as [Hc' Hcore].
  { assert (core (put s i x') = <[i := released (strip x)]> (core s)) as Hcore by (by rewrite put_core).
    split; [|done]. eapply cache_put; [done| |done|exact Hcore|done| |].
    - eapply put_linked; [done..|apply Hc].
    - destruct Hok. split; cbn in *; try done; [lia|]. auto.
    - intros j c Hj Hcj H1 H2 H3. apply Hj.
      apply (ca_uniq _ _ Hc j i c (strip x)); try done. by apply core_lookup. }
  destruct (Z.eqb_spec (b_refcnt x - 1) 0) as [Hz|Hz].
  - rewrite (proj2 (Z.eqb_eq (b_refcnt x) 1)) by lia.
    destruct (relink_run (put s i x') i l) as (s' & Hrun & Hrl & Hlk').
    + apply Hc'.
    + by eapply cache_NoDup.
    + done.
    + by apply cache_scan.
    + unfold mbind, M_bind in Hrun. rewrite Hrun. exists s'. split; [done|].
      split; [by rewrite (proj1 Hrl)|]. split; [apply Hrl|].
      eapply cache_relinked; [exact Hc'|done|done|]. apply to_front_perm; [by eapply cache_NoDup|done].
  - rewrite (proj2 (Z.eqb_neq (b_refcnt x) 1)) by lia. exists (put s i x'). done.
Qed.

(** [bwrite] makes the disk agree with the buffer. *)
Lemma bwrite_run s l i b : cache s l -> core s !! i = Some b -> holdingsleep (mypid s) (b_lock b) = true ->
  exists s', bwrite i s = Ret ((), s') /\ core s' = <[i := set_b_flags 2 b]> (core s) /\
    memdisk s' = <[Z.to_nat (b_blockno b) := b_data b]> (memdisk s) /\
    writes s' = writes s ++ [(b_blockno b, b_data b)] /\ mypid s' = mypid s /\ cache s' l.
Proof.
  intros Hc Hb Hh. pose proof (cache_lookup s l i b Hc Hb) as Hok. pose proof (lookup_lt_Some _ _ _ Hb) as Hlen.
  pose proof Hb as Hb0.
  apply core_lookup_inv in Hb as (x & Hx & <-). pose proof (lookup_lt_Some _ _ _ Hx) as Hi.
  cbn [strip set_b_prev set_b_next b_lock b_flags b_blockno b_data b_refcnt] in *.
  assert (sl_locked (b_lock x) = true) as Hlk by (unfold holdingsleep in Hh; by destruct (sl_locked (b_lock x))).
  destruct (bo_locked _ _ Hok Hlk) as [Hr Hf]. cbn in Hr, Hf. pose proof (bo_dev _ _ Hok Hf) as Hdv. cbn in Hdv.
  pose proof (bo_block _ _ Hok Hdv) as Hbk. cbn in Hbk. pose proof (bo_flags _ _ Hok) as Hfl. cbn in Hfl.
  replace (bwrite i s) with (bwrite i (put s i x)) by (by rewrite put_id).
  unfold bwrite, mbind, M_bind. rewrite holding_put, Hh by done. cbn [negb].
  rewrite setb_put by done. rewrite iderw_write; cbn [set_b_flags b_lock b_flags b_dev b_blockno b_data]; try done;
    [|left; destruct Hfl as [?|[-> | ->]]; done|lia].
  eexists. split; [done|].
  assert (core (put s i (set_b_flags 2 (set_b_flags (Z.lor (b_flags x) B_DIRTY) x))) = <[i := set_b_flags 2 (strip x)]> (core s))
    as Hcore by (by rewrite put_core).
  split; [exact Hcore|]. split; [done|]. split; [done|]. split; [done|]. split; cbn [memdisk set_writes set_memdisk].
  - eapply linked_ext; [| |eapply (put_linked s i x (set_b_flags 2 x)); [done..|apply Hc]]; by intros [j|].
  - apply Hc.
  - change (length (core (put s i (set_b_flags 2 (set_b_flags (Z.lor (b_flags x) B_DIRTY) x)))) = NBUF).
    rewrite Hcore, length_insert. apply Hc.
  - apply Forall_insert; [apply Hc|]. apply Hok.
  - change (core (set_writes _ _)) with (core (put s i (set_b_flags 2 (set_b_flags (Z.lor (b_flags x) B_DIRTY) x)))).
    rewrite Hcore. apply Forall_lookup. intros j c Hj. destruct (decide (j = i)) as [->|Hji].
    + rewrite list_lookup_insert_eq in Hj by done. injection Hj as <-.
      destruct Hok. split; cbn in *; try done; auto; [by rewrite length_insert|].
      intros _ Hu. by rewrite Hlk in Hu.
    + rewrite list_lookup_insert_ne in Hj by done. destruct (cache_lookup s l j c Hc Hj) as [A1 A2 A3 A4 A5 A6 A7].
      split; try done; [by rewrite length_insert|]. intros H1 H2.
      rewrite list_lookup_insert_ne; [by apply A7|]. intros E. apply Hji.
      assert (b_dev c = 1) as Hdc by (apply A4; lia). specialize (A5 Hdc).
      apply (ca_uniq _ _ Hc j i c (strip x)); try done. cbn. lia.
  - change (core (set_writes _ _)) with (core (put s i (set_b_flags 2 (set_b_flags (Z.lor (b_flags x) B_DIRTY) x)))).
    rewrite Hcore. intros j k y z Hy Hz Hyd Hzd Heq.
    assert (forall j y, <[i := set_b_flags 2 (strip x)]> (core s) !! j = Some y ->
      exists y', core s !! j = Some y' /\ b_dev y' = b_dev y /\ b_blockno y' = b_blockno y) as Hback.
    { intros j0 y0 Hy0. destruct (decide (j0 = i)) as [->|Hne].
      - rewrite list_lookup_insert_eq in Hy0 by done. injection Hy0 as <-. eauto.
      - rewrite list_lookup_insert_ne in Hy0 by done. eauto. }
    apply Hback in Hy as (y' & Hy' & E1 & E2). apply Hback in Hz as (z' & Hz' & F1 & F2).
    apply (ca_uniq _ _ Hc j k y' z'); congruence.
Qed.

(** ** What readers see *)

Lemma cached_iff s l n b : cache s l ->
  cached (core s) n = Some b <-> exists i, core s !! i = Some b /\ b_dev b = 1 /\ b_blockno b = n.
Proof.
  intros H. split.
  - intros Hc. destruct (cached_some s l n b H Hc) as (i & ? & ? & ? & _). eauto.
  - intros (i & Hi & Hd & Hn). destruct (cached (core s) n) as [c|] eqn:E.
    + destruct (cached_some s l n c H E) as (j & Hj & Hjd & Hjn & _).
      assert (i = j) as <- by (apply (ca_uniq _ _ H i j b c); congruence). congruence.
    + pose proof (list_elem_of_lookup_2 _ _ _ Hi) as Hin. apply list_elem_of_In in Hin.
      pose proof (List.find_none _ _ E _ Hin) as Hf. cbn in Hf. by rewrite Hd, Hn, !Z.eqb_refl in Hf.
Qed.

Lemma cached_None s l n : cache s l -> cached (core s) n = None ->
  forall i b, core s !! i = Some b -> b_dev b = 1 -> b_blockno b <> n.
Proof.
  intros H Hc i b Hi Hd Hn. assert (cached (core s) n = Some b) as E by (apply (cached_iff s l); eauto).
  by rewrite Hc in E.
Qed.

Lemma view_buf s l n i b : cache s l -> core s !! i = Some b -> b_dev b = 1 -> b_blockno b = n ->
  b_flags b <> 0 -> view s n = b_data b.
Proof.
  intros H Hi Hd Hn Hf. unfold view. rewrite (proj2 (cached_iff s l n b H)) by eauto.
  by rewrite (proj2 (Z.eqb_neq _ _)).
Qed.

(** A block in no buffer, in an empty one or in a clean one nobody uses is
    read from the disk. *)
Lemma view_disk s l n : cache s l ->
  (forall i b, core s !! i = Some b -> b_dev b = 1 -> b_blockno b = n -> b_flags b <> 6 /\ sl_locked (b_lock b) = false) ->
  view s n = nth (Z.to_nat n) (memdisk s) [].
Proof.
  intros H Hb. unfold view. destruct (cached (core s) n) as [b|] eqn:E; [|done].
  apply (cached_iff s l) in E as (i & Hi & Hd & Hn); [|done].
  destruct (Z.eqb_spec (b_flags b) 0) as [|Hf]; [done|].
  destruct (Hb i b Hi Hd Hn) as [H6 Hl]. pose proof (cache_lookup s l i b H Hi) as Hok.
  destruct (bo_flags _ _ Hok) as [?|[H2|?]]; [done| |done].
  symmetry. apply nth_lookup_Some. subst n. by apply (bo_sync _ _ Hok).
Qed.

(** The views of two states agree on a block whose buffers agree. *)
Lemma view_same s s' l l' n : cache s l -> cache s' l' ->
  nth (Z.to_nat n) (memdisk s') [] = nth (Z.to_nat n) (memdisk s) [] ->
  (forall i b, core s !! i = Some b -> b_dev b = 1 -> b_blockno b = n ->
     exists j b', core s' !! j = Some b' /\ b_dev b' = 1 /\ b_blockno b' = n /\
       b_flags b' = b_flags b /\ b_data b' = b_data b) ->
  (forall i b, core s' !! i = Some b -> b_dev b = 1 -> b_blockno b = n ->
     exists j b', core s !! j = Some b' /\ b_dev b' = 1 /\ b_blockno b' = n) ->
  view s' n = view s n.
Proof.
  intros H H' Hd Hf Hb. unfold view. destruct (cached (core s) n) as [b|] eqn:E.
  - apply (cached_iff s l) in E as (i & Hi & Hdv & Hn); [|done].
    destruct (Hf i b Hi Hdv Hn) as (j & b' & Hj & Hjd & Hjn & Hjf & Hjdat).
    rewrite (proj2 (cached_iff s' l' n b' H')) by eauto. by rewrite Hjf, Hjdat, Hd.
  - destruct (cached (core s') n) as [b|] eqn:E'; [|done].
    apply (cached_iff s' l') in E' as (i & Hi & Hdv & Hn); [|done].
    destruct (Hb i b Hi Hdv Hn) as (j & b' & Hj & Hjd & Hjn).
    by destruct (cached_None s l n H E j b' Hj Hjd).
Qed.

(** Changing a buffer without moving it to another block changes no other
    block's view. *)
Lemma view_other s s' l l' i b b' n : cache s l -> cache s' l' -> core s !! i = Some b ->
  core s' = <[i := b']> (core s) -> b_dev b = 1 -> b_dev b' = 1 -> b_blockno b' = b_blockno b ->
  nth (Z.to_nat n) (memdisk s') [] = nth (Z.to_nat n) (memdisk s) [] -> n <> b_blockno b ->
  view s' n = view s n.
Proof.
  intros H H' Hb Hc Hd Hd' Hbn Hdisk Hn. pose proof (lookup_lt_Some _ _ _ Hb) as Hlen.
  eapply view_same; [done|done|done| |]; rewrite Hc.
  - intros j c Hj Hjd Hjn. exists j, c. rewrite list_lookup_insert_ne; [done|]. intros <-. congruence.
  - intros j c Hj Hjd Hjn. destruct (decide (i = j)) as [<-|Hij].
    + rewrite list_lookup_insert_eq in Hj by done. injection Hj as <-. congruence.
    + rewrite list_lookup_insert_ne in Hj by done. eauto.
Qed.

Lemma is_unused_spec cs i : is_unused cs i = true <-> exists b, cs !! i = Some b /\ b_refcnt b = 0 /\ flag_set (b_flags b) B_DIRTY = false.
Proof.
  unfold is_unused. destruct (cs !! i) as [b|]; [|naive_solver].
  rewrite andb_true_iff, negb_true_iff, Z.eqb_eq. naive_solver.
Qed.

Lemma dirty_flag s l i b : cache s l -> core s !! i = Some b -> flag_set (b_flags b) B_DIRTY = false <-> b_flags b <> 6.
Proof.
  intros H Hb. destruct (bo_flags _ _ (cache_lookup s l i b H Hb)) as [-> |[-> | ->]]; naive_solver.
Qed.

Lemma target_some s l n : cache s l ->
  ((exists i b, core s !! i = Some b /\ b_dev b = 1 /\ b_blockno b = n) \/
   (exists i b, core s !! i = Some b /\ b_refcnt b = 0 /\ b_flags b <> 6)) ->
  exists i, target (core s) l n = Some i.
Proof.
  intros H Hor. unfold target. destruct (List.find (is_block 1 n (core s)) l) as [i|] eqn:E; [eauto|].
  destruct Hor as [(i & b & Hi & Hd & Hn)|(i & b & Hi & Hr & Hf)].
  - destruct (cached_some s l n b H) as (j & _ & _ & _ & Hj); [apply (cached_iff s l); eauto|]. congruence.
  - apply find_in. exists i. split.
    + apply list_elem_of_In. rewrite <- in_rev. apply list_elem_of_In. by eapply cache_elem.
    + apply is_unused_spec. exists b. split; [done|]. split; [done|]. by apply (dirty_flag s l i b H Hi).
Qed.

(** The buffer that was taken: the block's own, or a free one. *)
Lemma target_inv s l n i : cache s l -> target (core s) l n = Some i ->
  exists b, core s !! i = Some b /\
    ((b_dev b = 1 /\ b_blockno b = n) \/ (b_refcnt b = 0 /\ b_flags b <> 6)).
Proof.
  intros H. unfold target. destruct (List.find (is_block 1 n (core s)) l) as [j|] eqn:E.
  - intros [= ->]. apply find_spec in E as [_ E]. unfold is_block in E. destruct (core s !! i) as [b|]; [|done].
    apply andb_true_iff in E as [E1%Z.eqb_eq E2%Z.eqb_eq]. eauto.
  - intros (_ & (b & Hb & Hr & Hf)%is_unused_spec)%find_spec. exists b. split; [done|]. right.
    split; [done|]. by apply (dirty_flag s l i b H Hb).
Qed.

(** Opening a buffer changes what no reader sees. *)
Lemma bread_view s s' l n i : cache s l -> cache s' l -> target (core s) l n = Some i -> same_disk s s' ->
  core s' = <[i := opened s n]> (core s) -> forall m, view s' m = view s m.
Proof.
  intros H H' Ht (Hd & _) Hc m. destruct (target_inv s l n i H Ht) as (b & Hb & Hor).
  pose proof (lookup_lt_Some _ _ _ Hb) as Hlen.
  assert (core s' !! i = Some (opened s n)) as Hi by (by rewrite Hc, list_lookup_insert_eq).
  assert (b_dev (opened s n) = 1 /\ b_blockno (opened s n) = n /\ b_data (opened s n) = view s n) as (Hod & Hon & Hodat)
    by (unfold opened; by destruct (cached (core s) n)).
  destruct (decide (m = n)) as [->|Hmn].
  - rewrite (view_buf s' l n i (opened s n)); try done.
    unfold opened. destruct (cached (core s) n) as [c|]; [|done]. cbn. by destruct (Z.eqb_spec (b_flags c) 0).
  - destruct Hor as [[Hbd Hbn]|[Hr Hf]].
    + eapply view_other; try done; try congruence.
    + destruct (decide (b_dev b = 1 /\ b_blockno b = m)) as [[Hbd Hbm]|Hno].
      * rewrite (view_disk s' l m), (view_disk s l m), Hd; [done|done| |done|].
        -- intros j c Hj Hjd Hjm. assert (j = i) as -> by (apply (ca_uniq _ _ H j i c b); congruence).
           rewrite Hb in Hj. injection Hj as <-. split; [done|]. destruct (sl_locked (b_lock b)) eqn:El; [|done].
           destruct (bo_locked _ _ (cache_lookup s l i b H Hb) El). lia.
        -- intros j c Hj Hjd Hjm. exfalso. destruct (decide (j = i)) as [->|Hji].
           ++ rewrite Hi in Hj. injection Hj as <-. congruence.
           ++ rewrite Hc, list_lookup_insert_ne in Hj by done. apply Hji.
              apply (ca_uniq _ _ H j i c b); congruence.
      * eapply view_same; [done|done|by rewrite Hd| |]; rewrite Hc.
        -- intros j c Hj Hjd Hjm. exists j, c. rewrite list_lookup_insert_ne; [done|].
           intros <-. rewrite Hb in Hj. injection Hj as <-. tauto.
        -- intros j c Hj Hjd Hjm. destruct (decide (j = i)) as [->|Hji].
           ++ rewrite list_lookup_insert_eq in Hj by done. injection Hj as <-. congruence.
           ++ rewrite list_lookup_insert_ne in Hj by done. eauto.
Qed.
