(* ===== verification/Log.v ===== *)
(** * [kernel/log.c]: the redo log

    [struct log] without its spin lock, on top of the buffer cache.  A
    [begin_op] that has to wait is [Blocked]; [wakeup(&log)] only lets such
    a caller try again.  [readsb] of [fs.c] is here because [initlog] calls
    it. *)

From stdpp Require Import base numbers list gmap strings.
From S2P Require Import Prelude Bytes Machine Locks Bio.
Open Scope Z_scope.

Definition MAXOPBLOCKS : Z := 10.
Definition LOGSIZE : Z := MAXOPBLOCKS * 3.

Record superblock := Superblock {
  sb_size : Z;
  sb_nblocks : Z;
  sb_ninodes : Z;
  sb_nlog : Z;
  sb_logstart : Z;
  sb_inodestart : Z;
  sb_bmapstart : Z }.

(** The fields of [struct log]; [lh_n] and [lh_block] are [log.lh]. *)
Record log := Log {
  l_start : Z;
  l_size : Z;
  l_outstanding : Z;
  l_committing : bool;
  l_dev : Z;
  lh_n : Z;
  lh_block : list Z }.

Definition set_l_start v g := Log v (l_size g) (l_outstanding g) (l_committing g) (l_dev g) (lh_n g) (lh_block g).
Definition set_l_size v g := Log (l_start g) v (l_outstanding g) (l_committing g) (l_dev g) (lh_n g) (lh_block g).
Definition set_l_outstanding v g := Log (l_start g) (l_size g) v (l_committing g) (l_dev g) (lh_n g) (lh_block g).
Definition set_l_committing v g := Log (l_start g) (l_size g) (l_outstanding g) v (l_dev g) (lh_n g) (lh_block g).
Definition set_l_dev v g := Log (l_start g) (l_size g) (l_outstanding g) (l_committing g) v (lh_n g) (lh_block g).
Definition set_lh_n v g := Log (l_start g) (l_size g) (l_outstanding g) (l_committing g) (l_dev g) v (lh_block g).
Definition set_lh_block v g := Log (l_start g) (l_size g) (l_outstanding g) (l_committing g) (l_dev g) (lh_n g) v.

Record jst := Jst { bio : bst; jlog : log }.
Definition set_bio v s := Jst v (jlog s).
Definition set_jlog v s := Jst (bio s) v.

Definition onbio {A} (m : M bst A) : M jst A := zoom bio set_bio m.
Definition getlog {A} (f : log -> A) : M jst A := gets (fun s => f (jlog s)).
Definition setlog (f : log -> log) : M jst () := modify (fun s => set_jlog (f (jlog s)) s).

(** [log.lh.block[i] = v]; a store past the array is outside the model. *)
Definition set_block (i : nat) (v : Z) : M jst () :=
  if Z.of_nat i <? LOGSIZE then setlog (fun g => set_lh_block (<[i := v]> (lh_block g)) g) else fault 0.
Definition get_block (i : nat) : M jst Z := getlog (fun g => nth i (lh_block g) 0).

(** [b->data], and writing it. *)
Definition bdata (i : nat) : M bst (list Z) := b ← getb i; mret (b_data b).
Definition set_bdata (i : nat) (d : list Z) : M bst () := setb i (set_b_data d).

Definition readsb (dev : Z) : M bst superblock :=
  bp ← bread dev 1;
  d ← bdata bp;
  let w k := rd32 d (4 * k) in
  _ ← brelse bp;
  mret (Superblock (w 0%nat) (w 1%nat) (w 2%nat) (w 3%nat) (w 4%nat) (w 5%nat) (w 6%nat)).

(** One iteration of [install_trans] and of [write_log]. *)
Definition install_block (tail : nat) : M jst () :=
  dev ← getlog l_dev; st ← getlog l_start; dst ← get_block tail;
  lbuf ← onbio (bread dev (u32 (st + Z.of_nat tail + 1)));
  dbuf ← onbio (bread dev (u32 dst));
  d ← onbio (bdata lbuf); _ ← onbio (set_bdata dbuf d);
  _ ← onbio (bwrite dbuf);
  _ ← onbio (brelse lbuf);
  onbio (brelse dbuf).

Definition log_block (tail : nat) : M jst () :=
  dev ← getlog l_dev; st ← getlog l_start; src ← get_block tail;
  to ← onbio (bread dev (u32 (st + Z.of_nat tail + 1)));
  from ← onbio (bread dev (u32 src));
  d ← onbio (bdata from); _ ← onbio (set_bdata to d);
  _ ← onbio (bwrite to);
  _ ← onbio (brelse from);
  onbio (brelse to).

(** [for (tail = 0; tail < log.lh.n; tail++)] *)
Fixpoint for_tail (body : nat -> M jst ()) (n tail : nat) : M jst () :=
  match n with
  | O => mret ()
  | S k => _ ← body tail; for_tail body k (S tail)
  end.

Definition install_trans : M jst () := n ← getlog lh_n; for_tail install_block (Z.to_nat n) 0.
Definition write_log : M jst () := n ← getlog lh_n; for_tail log_block (Z.to_nat n) 0.

Definition read_head : M jst () :=
  dev ← getlog l_dev; st ← getlog l_start;
  bp ← onbio (bread dev (u32 st));
  d ← onbio (bdata bp);
  _ ← setlog (set_lh_n (s32 (rd32 d 0)));
  n ← getlog lh_n;
  _ ← for_tail (fun i => set_block i (s32 (rd32 d (4 + 4 * i)))) (Z.to_nat n) 0;
  onbio (brelse bp).

Definition write_head : M jst () :=
  dev ← getlog l_dev; st ← getlog l_start;
  bp ← onbio (bread dev (u32 st));
  n ← getlog lh_n;
  d ← onbio (bdata bp); _ ← onbio (set_bdata bp (wr32 d 0 n));
  _ ← for_tail (fun i =>
        v ← get_block i; d ← onbio (bdata bp);
        onbio (set_bdata bp (wr32 d (4 + 4 * i) v))) (Z.to_nat n) 0;
  _ ← onbio (bwrite bp);
  onbio (brelse bp).

Definition recover_from_log : M jst () :=
  _ ← read_head;
  _ ← install_trans;
  _ ← setlog (set_lh_n 0);
  write_head.

Definition initlog (dev : Z) : M jst () :=
  if BSIZE <=? 4 + 4 * LOGSIZE then panic "initlog: too big logheader"
  else
    sb ← onbio (readsb dev);
    _ ← setlog (set_l_start (s32 (sb_logstart sb)));
    _ ← setlog (set_l_size (s32 (sb_nlog sb)));
    _ ← setlog (set_l_dev dev);
    recover_from_log.

Definition begin_op : M jst () :=
  c ← getlog l_committing; n ← getlog lh_n; o ← getlog l_outstanding;
  if c : bool then blocked
  else if LOGSIZE <? n + (o + 1) * MAXOPBLOCKS then blocked
  else setlog (fun g => set_l_outstanding (l_outstanding g + 1) g).

Definition commit : M jst () :=
  n ← getlog lh_n;
  if 0 <? n then
    _ ← write_log;
    _ ← write_head;
    _ ← install_trans;
    _ ← setlog (set_lh_n 0);
    write_head
  else mret ().

Definition end_op : M jst () :=
  _ ← setlog (fun g => set_l_outstanding (l_outstanding g - 1) g);
  c ← getlog l_committing;
  if c : bool then panic "log.committing"
  else
    o ← getlog l_outstanding;
    if o =? 0 then
      _ ← setlog (set_l_committing true);
      _ ← commit;
      setlog (set_l_committing false)
    else mret ().

(** [for (i = 0; i < log.lh.n; i++) if (log.lh.block[i] == b->blockno) break;] *)
Fixpoint absorb (n i : nat) (blockno : Z) (l : list Z) : nat :=
  match n with
  | O => i
  | S k => if u32 (nth i l 0) =? blockno then i else absorb k (S i) blockno l
  end.

Definition log_write (b : nat) : M jst () :=
  n ← getlog lh_n; sz ← getlog l_size;
  if (LOGSIZE <=? n) || (sz - 1 <=? n) then panic "too big a transaction"
  else
    o ← getlog l_outstanding;
    if o <? 1 then panic "log_write outside of trans"
    else
      x ← onbio (getb b);
      l ← getlog lh_block;
      let i := absorb (Z.to_nat n) 0 (b_blockno x) l in
      _ ← set_block i (s32 (b_blockno x));
      _ ← (if Z.of_nat i =? n then setlog (set_lh_n (n + 1)) else mret ());
      onbio (setb b (fun b => set_b_flags (Z.lor (b_flags b) B_DIRTY) b)).
