(* ===== verification/BioAbs.v ===== *)
(** * The buffer cache as a store of blocks

    [holds s l H D]: one process uses the cache.  [H] are the buffers it
    holds, each with its block and whether it has been changed since the
    disk, the log or another process would know; [D] are the blocks pinned
    by the log.  The operations are specified by their effect on [H], [D],
    the disk and the blocks as readers see them ([view]). *)

From stdpp Require Import base numbers list gmap strings.
From S2P Require Import Prelude Bytes Machine Locks Bio BioSpec Log.
Open Scope Z_scope.

Record holds (s : bst) (l : list nat) (H : gmap nat (Z * bool)) (D : gset Z) : Prop := {
  h_cache : cache s l;
  h_index : forall i x, H !! i = Some x -> (i < NBUF)%nat;
  h_free : forall i b, core s !! i = Some b -> H !! i = None -> b_refcnt b = 0;
  h_held : forall i b n (c : bool), core s !! i = Some b -> H !! i = Some (n, c) ->
    b_dev b = 1 /\ b_blockno b = n /\ b_lock b = Sleeplock true (mypid s) /\ b_refcnt b = 1 /\
    (c = false -> b_flags b = 2 -> memdisk s !! Z.to_nat n = Some (b_data b));
  h_dirty : forall i b, core s !! i = Some b -> b_flags b = 6 -> b_blockno b ∈ D;
  h_pinned : forall n, n ∈ D -> exists i b, core s !! i = Some b /\ b_dev b = 1 /\ b_blockno b = n /\ b_flags b = 6 }.

Definition in_range (s : bst) (n : Z) : Prop := 0 <= n < Z.of_nat (length (memdisk s)).

Section holds.
Context (s : bst) (l : list nat) (H : gmap nat (Z * bool)) (D : gset Z) (Hs : holds s l H D).

Lemma held_buf i n c : H !! i = Some (n, c) -> exists b, core s !! i = Some b /\ b_dev b = 1 /\ b_blockno b = n /\
  b_lock b = Sleeplock true (mypid s) /\ b_refcnt b = 1 /\ b_flags b <> 0 /\ b_data b = view s n /\ in_range s n /\
  (c = false -> b_flags b = 2 -> memdisk s !! Z.to_nat n = Some (b_data b)).
Proof.
  intros Hi. destruct (lookup_lt_is_Some_2 (core s) i) as [b Hb].
  { rewrite (ca_len _ _ (h_cache _ _ _ _ Hs)). by eapply h_index. }
  exists b. destruct (h_held _ _ _ _ Hs i b n c Hb Hi) as (Hd & Hn & Hl & Hr & Hc).
  pose proof (cache_lookup s l i b (h_cache _ _ _ _ Hs) Hb) as Hok.
  destruct (bo_locked _ _ Hok) as [_ Hf]; [by rewrite Hl|].
  repeat (split; [done|]). split; [symmetry; by eapply view_buf; [apply Hs|..]|].
  split; [unfold in_range; rewrite <- Hn; by apply Hok|done].
Qed.

(** Different buffers hold different blocks. *)
Lemma held_inj i j n c d : H !! i = Some (n, c) -> H !! j = Some (n, d) -> i = j.
Proof.
  intros Hi Hj. destruct (held_buf i n c Hi) as (b & Hb & Hd & Hn & _).
  destruct (held_buf j n d Hj) as (b' & Hb' & Hd' & Hn' & _).
  apply (ca_uniq _ _ (h_cache _ _ _ _ Hs) i j b b'); congruence.
Qed.

(** A buffer is free when fewer than [NBUF] are held or pinned. *)
Lemma unused_exists : (size H + size D < NBUF)%nat ->
  exists i b, core s !! i = Some b /\ b_refcnt b = 0 /\ b_flags b <> 6.
Proof.
  intros Hsz. destruct (decide (Exists (fun i => H !! i = None /\ (fun b => b_flags b <> 6) (nth i (core s) (Buf 6 0 0 initsleeplock 0 None None [])))
    (seq 0 NBUF))) as [Hex|Hno].
  - apply Exists_exists in Hex as (i & Hi & HN & Hf). apply elem_of_seq in Hi.
    destruct (lookup_lt_is_Some_2 (core s) i) as [b Hb]; [rewrite (ca_len _ _ (h_cache _ _ _ _ Hs)); lia|].
    erewrite nth_lookup_Some in Hf by exact Hb. exists i, b. split; [done|]. split; [by eapply h_free|done].
  - exfalso. rewrite <- (length_seq NBUF 0), <- size_dom in Hsz.
    set (free := filter (fun i => H !! i = None) (seq 0 NBUF)).
    set (dir := (fun i => b_blockno (nth i (core s) (Buf 6 0 0 initsleeplock 0 None None []))) <$> free).
    assert (forall i, i ∈ free -> exists b, core s !! i = Some b /\ b_flags b = 6 /\ b_dev b = 1 /\
      nth i (core s) (Buf 6 0 0 initsleeplock 0 None None []) = b) as Hfree.
    { intros i [HN Hi]%list_elem_of_filter. assert (i < NBUF)%nat by (apply elem_of_seq in Hi; lia).
      destruct (lookup_lt_is_Some_2 (core s) i) as [b Hb]; [rewrite (ca_len _ _ (h_cache _ _ _ _ Hs)); lia|].
      exists b. pose proof (nth_lookup_Some _ _ (Buf 6 0 0 initsleeplock 0 None None []) _ Hb) as Hnth.
      assert (b_flags b = 6) as H6.
      { destruct (decide (b_flags b = 6)) as [|Hne]; [done|]. exfalso. apply Hno, Exists_exists.
        exists i. by rewrite Hnth. }
      repeat (split; [done|]). split; [|done]. apply (cache_lookup s l i b (h_cache _ _ _ _ Hs) Hb). lia. }
    assert (length (seq 0 NBUF) <= size (dom H) + size D)%nat; [|lia].
    transitivity (length (filter (fun i => ¬ (H !! i = None)) (seq 0 NBUF)) + length free)%nat.
    { unfold free. clear. induction (seq 0 NBUF) as [|i q IH]; [done|]. rewrite !filter_cons.
      repeat case_decide; cbn [length] in *; try tauto; lia. }
    apply Nat.add_le_mono.
    + rewrite <- (size_list_to_set (C := gset nat)) by (apply NoDup_filter, NoDup_seq).
      apply subseteq_size. intros i Hi. apply elem_of_list_to_set, list_elem_of_filter in Hi as [Hi _].
      apply elem_of_dom. by destruct (H !! i).
    + rewrite <- (length_fmap (fun i => b_blockno (nth i (core s) (Buf 6 0 0 initsleeplock 0 None None []))) free). fold dir.
      rewrite <- (size_list_to_set (C := gset Z)).
      * apply subseteq_size. intros n Hn. apply elem_of_list_to_set, list_elem_of_fmap in Hn as (i & -> & Hi).
        destruct (Hfree i Hi) as (b & Hb & H6 & _ & ->). by eapply h_dirty.
      * apply NoDup_fmap_2_strong; [|apply NoDup_filter, NoDup_seq]. intros i j Hi Hj Heq.
        destruct (Hfree i Hi) as (b & Hb & _ & Hd & Hn). destruct (Hfree j Hj) as (b' & Hb' & _ & Hd' & Hn').
        rewrite Hn, Hn' in Heq. by apply (ca_uniq _ _ (h_cache _ _ _ _ Hs) i j b b').
Qed.

Section bread.
Context (n : Z) (Hn : in_range s n) (Hno : forall i c, H !! i <> Some (n, c)).

Lemma not_held i b : core s !! i = Some b -> b_dev b = 1 -> b_blockno b = n -> H !! i = None.
Proof.
  intros Hb Hd Hbn. destruct (H !! i) as [[m c]|] eqn:E; [|done]. exfalso.
  destruct (h_held _ _ _ _ Hs i b m c Hb E) as (_ & Hm & _). apply (Hno i c). congruence.
Qed.

Lemma not_locked i b : core s !! i = Some b -> b_dev b = 1 -> b_blockno b = n ->
  b_refcnt b = 0 /\ sl_locked (b_lock b) = false.
Proof.
  intros Hb Hd Hbn. pose proof (h_free _ _ _ _ Hs i b Hb (not_held i b Hb Hd Hbn)) as Hr. split; [done|].
  destruct (sl_locked (b_lock b)) eqn:E; [|done].
  destruct (bo_locked _ _ (cache_lookup s l i b (h_cache _ _ _ _ Hs) Hb) E). lia.
Qed.

Lemma opened_fields : b_dev (opened s n) = 1 /\ b_lock (opened s n) = Sleeplock true (mypid s) /\
  b_data (opened s n) = view s n.
Proof. unfold opened. by destruct (cached (core s) n). Qed.

Lemma opened_flags : b_refcnt (opened s n) = 1 /\ b_flags (opened s n) = if decide (n ∈ D) then 6 else 2.
Proof.
  pose proof (h_cache _ _ _ _ Hs) as Hc. unfold opened. destruct (cached (core s) n) as [b|] eqn:Hb.
  - apply (cached_iff s l) in Hb as (j & Hj & Hd & Hbn); [|done]. cbn.
    destruct (not_locked j b Hj Hd Hbn) as [-> _]. split; [done|].
    destruct (decide (n ∈ D)) as [HD|HD].
    + destruct (h_pinned _ _ _ _ Hs n HD) as (k & b' & Hk & Hkd & Hkn & H6).
      assert (j = k) as <- by (apply (ca_uniq _ _ Hc j k b b'); congruence).
      replace b with b' by congruence. by rewrite H6.
    + destruct (bo_flags _ _ (cache_lookup s l j b Hc Hj)) as [-> |[-> |H6]]; [done|done|].
      pose proof (h_dirty _ _ _ _ Hs j b Hj H6). congruence.
  - split; [done|]. rewrite decide_False; [done|]. intros HD.
    destruct (h_pinned _ _ _ _ Hs n HD) as (k & b' & Hk & Hkd & Hkn & _).
    by apply (cached_None s l n Hc Hb k b').
Qed.

(** A clean block is in the buffer as it is on the disk. *)
Lemma opened_sync : n ∉ D -> memdisk s !! Z.to_nat n = Some (view s n).
Proof.
  intros HD. pose proof (h_cache _ _ _ _ Hs) as Hc.
  destruct (memdisk_nth s l n Hc Hn) as (d & Hd1 & Hd2 & _). rewrite Hd1. f_equal. rewrite <- Hd2.
  symmetry. apply (view_disk s l n Hc). intros j b Hj Hjd Hjn.
  split; [intros H6; apply HD; rewrite <- Hjn; by eapply h_dirty|by eapply not_locked].
Qed.

Lemma opened_holds s' i b0 : core s !! i = Some b0 ->
  ((b_dev b0 = 1 /\ b_blockno b0 = n) \/ (b_refcnt b0 = 0 /\ b_flags b0 <> 6)) ->
  core s' = <[i := opened s n]> (core s) -> same_disk s s' -> cache s' l -> holds s' l (<[i := (n, false)]> H) D.
Proof.
  intros Hb0 Hor Hcore (Hd & _ & Hp) Hc'. pose proof (lookup_lt_Some _ _ _ Hb0) as Hlen.
  pose proof (h_cache _ _ _ _ Hs) as Hc.
  destruct opened_fields as (Hod & Hol & Hodat). destruct opened_flags as [Hor' Hof].
  split; rewrite ?Hcore, ?Hd, ?Hp.
  - done.
  - intros j x. destruct (decide (j = i)) as [->|Hji]; [intros _; rewrite <- (ca_len _ _ Hc); done|].
    rewrite lookup_insert_ne by done. apply Hs.
  - intros j b Hj HN. apply lookup_insert_None in HN as [HN Hji].
    rewrite list_lookup_insert_ne in Hj by done. by eapply h_free.
  - intros j b m c Hj Hm. destruct (decide (j = i)) as [->|Hji].
    + rewrite lookup_insert_eq in Hm. injection Hm as <- <-. rewrite list_lookup_insert_eq in Hj by done. injection Hj as <-.
      split; [done|]. split; [apply opened_block|]. split; [done|]. split; [done|]. intros _ H2.
      rewrite Hodat. apply opened_sync. rewrite Hof in H2. by destruct (decide (n ∈ D)).
    + rewrite lookup_insert_ne in Hm by done. rewrite list_lookup_insert_ne in Hj by done. by apply (h_held _ _ _ _ Hs j).
  - intros j b Hj H6. destruct (decide (j = i)) as [->|Hji].
    + rewrite list_lookup_insert_eq in Hj by done. injection Hj as <-. rewrite opened_block.
      rewrite Hof in H6. by destruct (decide (n ∈ D)).
    + rewrite list_lookup_insert_ne in Hj by done. by eapply h_dirty.
  - intros m Hm. destruct (h_pinned _ _ _ _ Hs m Hm) as (j & b & Hj & Hdj & Hbm & H6).
    destruct (decide (j = i)) as [->|Hji].
    + exists i, (opened s n). rewrite list_lookup_insert_eq by done. split; [done|]. rewrite Hb0 in Hj. injection Hj as ->.
      destruct Hor as [[_ Hbn]|[_ Hne]]; [|done]. replace m with n in * by congruence.
      split; [done|]. split; [apply opened_block|]. by rewrite Hof, decide_True.
    + exists j, b. by rewrite list_lookup_insert_ne.
Qed.

Lemma bread_wp : (size H + size D < NBUF)%nat \/ n ∈ D ->
  exists i s', bread 1 n s = Ret (i, s') /\ holds s' l (<[i := (n, false)]> H) D /\ H !! i = None /\
    same_disk s s' /\ forall m, view s' m = view s m.
Proof.
  intros Hroom. pose proof (h_cache _ _ _ _ Hs) as Hc. destruct (target_some s l n Hc) as [i Ht].
  { destruct Hroom as [Hr|Hr]; [right; by apply unused_exists|left].
    destruct (h_pinned _ _ _ _ Hs n Hr) as (i & b & ? & ? & ? & _). eauto. }
  destruct (bread_run s l n i Hc Hn Ht) as (s' & Hrun & Hcore & Hsd & Hc').
  { intros b Hb. apply (cached_iff s l) in Hb as (j & Hj & Hd & Hbn); [|done].
    destruct (not_locked j b Hj Hd Hbn) as [-> ?]. split; [done|lia]. }
  exists i, s'. split; [done|]. destruct (target_inv s l n i Hc Ht) as (b0 & Hb0 & Hor).
  split; [by eapply opened_holds|]. split; [|split; [done|by eapply bread_view]].
  destruct Hor as [[Hd Hbn]|[Hr _]]; [by eapply not_held|]. destruct (H !! i) as [[m c]|] eqn:E; [|done].
  destruct (h_held _ _ _ _ Hs i b0 m c Hb0 E) as (_ & _ & _ & Hr' & _). lia.
Qed.
End bread.

(** Changing a held buffer in place. *)
Lemma held_upd s' i n c0 c b b' D' : H !! i = Some (n, c0) -> core s !! i = Some b ->
  core s' = <[i := b']> (core s) -> cache s' l -> mypid s' = mypid s ->
  b_dev b' = 1 -> b_blockno b' = n -> b_lock b' = b_lock b -> b_refcnt b' = b_refcnt b ->
  (c = false -> b_flags b' = 2 -> memdisk s' !! Z.to_nat n = Some (b_data b')) ->
  (forall m, 0 <= m -> m <> n -> memdisk s' !! Z.to_nat m = memdisk s !! Z.to_nat m) ->
  (n ∈ D' <-> b_flags b' = 6) -> (forall m, m <> n -> m ∈ D' <-> m ∈ D) ->
  holds s' l (<[i := (n, c)]> H) D'.
Proof.
  intros Hi Hb Hcore Hc' Hp Hd' Hn' Hl' Hr' Hsync Hdisk Hdn Hdm. pose proof (lookup_lt_Some _ _ _ Hb) as Hlen.
  destruct (h_held _ _ _ _ Hs i b n c0 Hb Hi) as (Hd & Hn & Hl & Hr & _). pose proof (h_cache _ _ _ _ Hs) as Hc.
  assert (forall j b1, j <> i -> core s !! j = Some b1 -> b_dev b1 = 1 -> b_blockno b1 <> n) as Hother.
  { intros j b1 Hji Hj Hjd Hjn. apply Hji. apply (ca_uniq _ _ Hc j i b1 b); congruence. }
  split; rewrite ?Hcore, ?Hp.
  - done.
  - intros j x. destruct (decide (j = i)) as [->|Hji]; [intros _; by rewrite <- (ca_len _ _ Hc)|].
    rewrite lookup_insert_ne by done. apply Hs.
  - intros j b1 Hj HN. apply lookup_insert_None in HN as [HN Hji].
    rewrite list_lookup_insert_ne in Hj by done. by eapply h_free.
  - intros j b1 m d Hj Hm. destruct (decide (j = i)) as [->|Hji].
    + rewrite lookup_insert_eq in Hm. injection Hm as <- <-. rewrite list_lookup_insert_eq in Hj by done. injection Hj as <-.
      split; [done|]. split; [done|]. split; [congruence|]. split; [congruence|done].
    + rewrite lookup_insert_ne in Hm by done. rewrite list_lookup_insert_ne in Hj by done.
      destruct (h_held _ _ _ _ Hs j b1 m d Hj Hm) as (E1 & E2 & E3 & E4 & E5).
      repeat (split; [done|]). intros Hf H2. rewrite Hdisk; [auto| |].
      * rewrite <- E2. by apply (cache_lookup s l j b1 Hc Hj).
      * rewrite <- E2. by apply (Hother j).
  - intros j b1 Hj H6. destruct (decide (j = i)) as [->|Hji].
    + rewrite list_lookup_insert_eq in Hj by done. injection Hj as <-. rewrite Hn'. by apply Hdn.
    + rewrite list_lookup_insert_ne in Hj by done. apply Hdm; [|by eapply h_dirty].
      apply (Hother j); [done|done|]. apply (cache_lookup s l j b1 Hc Hj). lia.
  - intros m Hm. destruct (decide (m = n)) as [->|Hmn].
    + exists i, b'. rewrite list_lookup_insert_eq by done. repeat (split; [done|]). by apply Hdn.
    + apply Hdm in Hm; [|done]. destruct (h_pinned _ _ _ _ Hs m Hm) as (j & b1 & Hj & Hjd & Hjm & H6).
      exists j, b1. rewrite list_lookup_insert_ne; [done|]. intros <-. congruence.
Qed.

(** Writing through [b->data]. *)
Lemma set_bdata_wp i n c d : H !! i = Some (n, c) -> length d = Z.to_nat BSIZE ->
  exists s', set_bdata i d s = Ret ((), s') /\ holds s' l (<[i := (n, true)]> H) D /\ same_disk s s' /\
    view s' n = d /\ forall m, m <> n -> view s' m = view s m.
Proof.
  intros Hi Hd. destruct (held_buf i n c Hi) as (b & Hb & Hdv & Hbn & Hl & Hr & Hf & _ & Hrng & _).
  pose proof (h_cache _ _ _ _ Hs) as Hc. pose proof (cache_lookup s l i b Hc Hb) as Hok. pose proof Hb as Hb0.
  apply core_lookup_inv in Hb as (x & Hx & <-). cbn [strip set_b_prev set_b_next b_dev b_blockno b_lock b_refcnt b_flags] in *.
  pose proof (lookup_lt_Some _ _ _ Hb0) as Hlen.
  exists (put s i (set_b_data d x)). split; [unfold set_bdata, setb; by rewrite Hx|].
  assert (core (put s i (set_b_data d x)) = <[i := set_b_data d (strip x)]> (core s)) as Hcore by (by rewrite put_core).
  assert (cache (put s i (set_b_data d x)) l) as Hc'.
  { eapply cache_put; [done| |done|exact Hcore|done| |].
    - by eapply put_linked; [..|apply Hc].
    - destruct Hok. split; cbn in *; try done. intros _ Hu. by rewrite Hl in Hu.
    - intros j b1 Hji Hj H1 H2 H3. apply Hji. by apply (ca_uniq _ _ Hc j i b1 (strip x)). }
  assert (core (put s i (set_b_data d x)) !! i = Some (set_b_data d (strip x))) as Hi'
    by (by rewrite Hcore, list_lookup_insert_eq).
  split; [|split; [done|split]].
  - eapply held_upd; try done. cbn. split; [|intros H6; rewrite <- Hbn; by apply (h_dirty _ _ _ _ Hs i (strip x))].
    intros HD. destruct (h_pinned _ _ _ _ Hs n HD) as (j & b1 & Hj & Hjd & Hjn & H6).
    assert (j = i) as -> by (apply (ca_uniq _ _ Hc j i b1 (strip x)); cbn; congruence).
    rewrite Hb0 in Hj. by injection Hj as <-.
  - by apply (view_buf _ l n i (set_b_data d (strip x))).
  - intros m Hm. eapply (view_other s _ l l i); try done. cbn. congruence.
Qed.

(** Pinning a buffer, as [log_write] does. *)
Lemma pin_wp i n c : H !! i = Some (n, c) ->
  exists s', setb i (fun b => set_b_flags (Z.lor (b_flags b) B_DIRTY) b) s = Ret ((), s') /\
    holds s' l (<[i := (n, false)]> H) (D ∪ {[n]}) /\ same_disk s s' /\ forall m, view s' m = view s m.
Proof.
  intros Hi. destruct (held_buf i n c Hi) as (b & Hb & Hdv & Hbn & Hl & Hr & Hf & Hdat & Hrng & _).
  pose proof (h_cache _ _ _ _ Hs) as Hc. pose proof (cache_lookup s l i b Hc Hb) as Hok. pose proof Hb as Hb0.
  apply core_lookup_inv in Hb as (x & Hx & <-). cbn [strip set_b_prev set_b_next b_dev b_blockno b_lock b_refcnt b_flags b_data] in *.
  pose proof (lookup_lt_Some _ _ _ Hb0) as Hlen.
  assert (Z.lor (b_flags x) B_DIRTY = 6) as H6 by (destruct (bo_flags _ _ Hok) as [E|[E|E]]; cbn in E; rewrite E in *; done).
  exists (put s i (set_b_flags 6 x)). split; [unfold setb; by rewrite Hx, H6|].
  assert (core (put s i (set_b_flags 6 x)) = <[i := set_b_flags 6 (strip x)]> (core s)) as Hcore by (by rewrite put_core).
  assert (cache (put s i (set_b_flags 6 x)) l) as Hc'.
  { eapply cache_put; [done| |done|exact Hcore|done| |].
    - by eapply put_linked; [..|apply Hc].
    - destruct Hok as [? ? ? ? ? Hbl ?]. split; cbn in *; try done; [by auto|]. intros Hlk. split; [|done]. by apply Hbl.
    - intros j b1 Hji Hj H1 H2 H3. apply Hji. by apply (ca_uniq _ _ Hc j i b1 (strip x)). }
  split; [|split; [done|]].
  - eapply held_upd; try done; [set_solver|set_solver].
  - intros m. destruct (decide (m = n)) as [->|Hm].
    + rewrite <- Hdat. apply (view_buf _ l n i (set_b_flags 6 (strip x))); try done. by rewrite Hcore, list_lookup_insert_eq.
    + eapply (view_other s _ l l i); try done. cbn. congruence.
Qed.

Lemma bwrite_wp i n c : H !! i = Some (n, c) ->
  exists s', bwrite i s = Ret ((), s') /\ holds s' l (<[i := (n, false)]> H) (D ∖ {[n]}) /\
    memdisk s' = <[Z.to_nat n := view s n]> (memdisk s) /\ writes s' = writes s ++ [(n, view s n)] /\
    mypid s' = mypid s /\ forall m, 0 <= m -> view s' m = view s m.
Proof.
  intros Hi. destruct (held_buf i n c Hi) as (b & Hb & Hdv & Hbn & Hl & Hr & Hf & Hdat & Hrng & _).
  pose proof (h_cache _ _ _ _ Hs) as Hc. pose proof (lookup_lt_Some _ _ _ Hb) as Hlen.
  destruct (bwrite_run s l i b Hc Hb) as (s' & Hrun & Hcore & Hdisk & Hw & Hp & Hc').
  { rewrite Hl. unfold holdingsleep. cbn. apply Z.eqb_refl. }
  rewrite Hbn, Hdat in *. exists s'. split; [done|]. unfold in_range in Hrng.
  assert (core s' !! i = Some (set_b_flags 2 b)) as Hi' by (by rewrite Hcore, list_lookup_insert_eq).
  assert (forall m, 0 <= m -> m <> n -> memdisk s' !! Z.to_nat m = memdisk s !! Z.to_nat m) as Hother.
  { intros m Hm Hmn. rewrite Hdisk. apply list_lookup_insert_ne. lia. }
  split; [|split; [done|split; [done|split; [done|]]]].
  - eapply held_upd; try done; [|set_solver|set_solver].
    intros _ _. rewrite Hdisk, list_lookup_insert_eq by lia. cbn. by rewrite Hdat.
  - intros m Hm. destruct (decide (m = n)) as [->|Hmn].
    + rewrite (view_buf _ l n i (set_b_flags 2 b)); try done.
    + eapply (view_other s _ l l i); try done; [|congruence]. rewrite !nth_lookup. by rewrite Hother.
Qed.
End holds.

Lemma brelse_wp s l H D i n : holds s l H D -> H !! i = Some (n, false) ->
  exists s' l', brelse i s = Ret ((), s') /\ holds s' l' (delete i H) D /\ same_disk s s' /\
    forall m, view s' m = view s m.
Proof.
  intros Hs Hi. destruct (held_buf s l H D Hs i n false Hi) as (b & Hb & Hdv & Hbn & Hl & Hr & Hf & Hdat & Hrng & Hsync).
  pose proof (h_cache _ _ _ _ Hs) as Hc. pose proof (lookup_lt_Some _ _ _ Hb) as Hlen.
  destruct (brelse_run s l i b Hc Hb) as (s' & Hrun & Hcore & Hsd & Hc').
  { rewrite Hl. unfold holdingsleep. cbn. apply Z.eqb_refl. }
  { rewrite Hbn. auto. }
  eexists s', _. split; [done|]. split; [|split; [done|]].
  - destruct Hsd as (Hd & _ & Hp). split; rewrite ?Hcore, ?Hd, ?Hp.
    + exact Hc'.
    + intros j x Hj. apply lookup_delete_Some in Hj as [_ Hj]. by eapply h_index.
    + intros j b1 Hj HN. destruct (decide (j = i)) as [->|Hji].
      * rewrite list_lookup_insert_eq in Hj by done. injection Hj as <-. cbn. lia.
      * rewrite list_lookup_insert_ne in Hj by done. rewrite lookup_delete_ne in HN by done. by eapply h_free.
    + intros j b1 m d Hj Hm. apply lookup_delete_Some in Hm as [Hji Hm].
      rewrite list_lookup_insert_ne in Hj by done. by apply (h_held _ _ _ _ Hs j).
    + intros j b1 Hj H6. destruct (decide (j = i)) as [->|Hji].
      * rewrite list_lookup_insert_eq in Hj by done. injection Hj as <-. by apply (h_dirty _ _ _ _ Hs i b).
      * rewrite list_lookup_insert_ne in Hj by done. by eapply h_dirty.
    + intros m Hm. destruct (h_pinned _ _ _ _ Hs m Hm) as (j & b1 & Hj & Hjd & Hjm & H6).
      destruct (decide (j = i)) as [->|Hji].
      * exists i, (released b). rewrite list_lookup_insert_eq by done. rewrite Hb in Hj. by injection Hj as <-.
      * exists j, b1. by rewrite list_lookup_insert_ne.
  - intros m. destruct (decide (m = n)) as [->|Hm].
    + rewrite <- Hdat. eapply (view_buf _ _ n i (released b)); [exact Hc'| | | |]; try done.
      by rewrite Hcore, list_lookup_insert_eq.
    + eapply (view_other s _ l _ i); [done|exact Hc'|exact Hb|exact Hcore|done|done|done| |congruence].
      by rewrite (proj1 Hsd).
Qed.
