(* ===== verification/LogSpec.v ===== *)
(** * The log: commit, recovery, crashes

    What [commit] and [recover_from_log] write to the disk, and what a
    crash between two block writes leaves for recovery. *)

From stdpp Require Import base numbers list gmap strings.
From S2P Require Import Prelude Bytes Machine Locks Bio BioSpec Log BioAbs.
Open Scope Z_scope.

(** ** Block writes *)

(** The disk after the writes [ws]. *)
Definition apply_writes (D : list (list Z)) (ws : list (Z * list Z)) : list (list Z) :=
  foldl (fun D w => <[Z.to_nat w.1 := w.2]> D) D ws.

(** From [s] to [s'] the blocks [ws] were written, in this order. *)
Definition wrote (s s' : bst) (ws : list (Z * list Z)) : Prop :=
  memdisk s' = apply_writes (memdisk s) ws /\ writes s' = writes s ++ ws /\ mypid s' = mypid s.

Lemma wrote_nil s s' : same_disk s s' -> wrote s s' [].
Proof. intros (H1 & H2 & H3). unfold wrote. by rewrite app_nil_r. Qed.

Lemma wrote_app s1 s2 s3 w1 w2 : wrote s1 s2 w1 -> wrote s2 s3 w2 -> wrote s1 s3 (w1 ++ w2).
Proof.
  intros (H1 & H2 & H3) (G1 & G2 & G3). unfold wrote, apply_writes in *.
  rewrite foldl_app, app_assoc, <- H2, <- H1. repeat split; congruence.
Qed.

Lemma wrote_same s1 s2 s3 w : wrote s1 s2 w -> same_disk s2 s3 -> wrote s1 s3 w.
Proof. intros H1 H2. rewrite <- (app_nil_r w). eapply wrote_app; [done|by apply wrote_nil]. Qed.

Lemma same_wrote s1 s2 s3 w : same_disk s1 s2 -> wrote s2 s3 w -> wrote s1 s3 w.
Proof. intros H1 H2. change w with ([] ++ w). eapply wrote_app; [by apply wrote_nil|done]. Qed.

Lemma apply_writes_length D ws : length (apply_writes D ws) = length D.
Proof.
  unfold apply_writes. revert D. induction ws as [|w ws IH]; intros D; [done|]. cbn. by rewrite IH, length_insert.
Qed.

Lemma wrote_range s s' ws n : wrote s s' ws -> in_range s' n <-> in_range s n.
Proof. intros (H & _). unfold in_range. by rewrite H, apply_writes_length. Qed.

Lemma same_range s s' n : same_disk s s' -> in_range s' n <-> in_range s n.
Proof. intros (H & _). unfold in_range. by rewrite H. Qed.

Lemma apply_writes_other D ws n : 0 <= n -> (forall w, w ∈ ws -> 0 <= w.1 /\ w.1 <> n) ->
  apply_writes D ws !! Z.to_nat n = D !! Z.to_nat n.
Proof.
  intros Hn. unfold apply_writes. revert D. induction ws as [|w ws IH]; intros D Hw; [done|]. cbn.
  rewrite IH by set_solver. rewrite list_lookup_insert_ne; [done|].
  destruct (Hw w) as [? ?]; [set_solver|]. lia.
Qed.

Lemma apply_writes_in D ws n d : 0 <= n < Z.of_nat (length D) -> NoDup (fst <$> ws) -> (n, d) ∈ ws ->
  (forall w, w ∈ ws -> 0 <= w.1) -> apply_writes D ws !! Z.to_nat n = Some d.
Proof.
  intros Hn. revert D Hn. induction ws as [|w ws IH]; intros D Hn Hnd Hin Hpos; [set_solver|].
  rewrite fmap_cons in Hnd. apply NoDup_cons in Hnd as [Hw Hnd]. apply elem_of_cons in Hin as [<-|Hin].
  - change (apply_writes (<[Z.to_nat n := d]> D) ws !! Z.to_nat n = Some d).
    rewrite apply_writes_other; [by apply list_lookup_insert_eq; lia|lia|].
    intros w Hin. split; [set_solver|]. intros E. apply Hw. cbn. rewrite <- E. by apply (list_elem_of_fmap_2 fst).
  - change (apply_writes (<[Z.to_nat w.1 := w.2]> D) ws !! Z.to_nat n = Some d). apply IH; try done; [|set_solver].
    by rewrite length_insert.
Qed.

(** ** The sections of the log code *)

Lemma onbio_wp {A} (m : M bst A) b g a b' Q : m b = Ret (a, b') ->
  wp (onbio m) (Jst b g) Q <-> Q a (Jst b' g).
Proof. intros H. apply wp_run. unfold onbio, zoom. cbn. by rewrite H. Qed.

Lemma wp_unit {S} (m : M S ()) s s' : wp m s (fun _ t => t = s') -> m s = Ret ((), s').
Proof. unfold wp. destruct (m s) as [[[] t]| | | |]; by try intros ->. Qed.

Lemma bdata_run s l H D i n c : holds s l H D -> H !! i = Some (n, c) -> bdata i s = Ret (view s n, s).
Proof.
  intros Hs Hi. destruct (held_buf s l H D Hs i n c Hi) as (b & Hb & _ & _ & _ & _ & _ & Hd & _).
  apply core_lookup_inv in Hb as (x & Hx & <-). unfold bdata, mbind, M_bind, getb. rewrite Hx. cbn. by rewrite <- Hd.
Qed.

Lemma view_len s l H D n : holds s l H D -> in_range s n -> length (view s n) = Z.to_nat BSIZE.
Proof. intros Hs Hn. by apply (view_length s l); [apply Hs|]. Qed.

(** The quiet cache: nobody holds a buffer. *)
Abbreviation quiet s l D := (holds s l ∅ D).

Section copy.
Context (s : bst) (l : list nat) (D : gset Z) (src dst : Z).
Hypotheses (Hs : quiet s l D) (Hsrc : in_range s src) (Hdst : in_range s dst) (Hne : src <> dst).

(** The state after the two [bread]s, in either order. *)
Definition both (s' : bst) (i j : nat) : Prop :=
  holds s' l (<[i := (src, false)]> (<[j := (dst, false)]> ∅)) D /\ i <> j /\ same_disk s s' /\
  forall m, view s' m = view s m.

Lemma read_both_sd : (size D < NBUF)%nat -> (S (size D) < NBUF)%nat \/ dst ∈ D ->
  exists i j s1 s2, bread 1 src s = Ret (i, s1) /\ bread 1 dst s1 = Ret (j, s2) /\ both s2 i j.
Proof.
  intros H1 H2.
  destruct (bread_wp s l ∅ D Hs src Hsrc) as (i & s1 & E1 & Hs1 & _ & Hd1 & Hv1); [done|left; rewrite map_size_empty; lia|].
  destruct (bread_wp s1 l _ D Hs1 dst) as (j & s2 & E2 & Hs2 & Hj & Hd2 & Hv2).
  - by apply (same_range s).
  - intros k c. destruct (decide (k = i)) as [->|]; [rewrite lookup_insert_eq; congruence|by rewrite lookup_insert_ne].
  - rewrite map_size_insert_None, map_size_empty by done. destruct H2 as [H2|H2]; [left; lia|by right].
  - exists i, j, s1, s2. repeat (split; [done|]). apply lookup_insert_None in Hj as [_ Hij].
    split; [|split; [done|split; [by etrans|intros m; by rewrite Hv2]]].
    by rewrite insert_insert_ne.
Qed.

Lemma read_both_ds : (size D < NBUF)%nat -> (S (size D) < NBUF)%nat \/ src ∈ D ->
  exists i j s1 s2, bread 1 dst s = Ret (j, s1) /\ bread 1 src s1 = Ret (i, s2) /\ both s2 i j.
Proof.
  intros H1 H2.
  destruct (bread_wp s l ∅ D Hs dst Hdst) as (j & s1 & E1 & Hs1 & _ & Hd1 & Hv1); [done|left; rewrite map_size_empty; lia|].
  destruct (bread_wp s1 l _ D Hs1 src) as (i & s2 & E2 & Hs2 & Hj & Hd2 & Hv2).
  - by apply (same_range s).
  - intros k c. destruct (decide (k = j)) as [->|]; [rewrite lookup_insert_eq; congruence|by rewrite lookup_insert_ne].
  - rewrite map_size_insert_None, map_size_empty by done. destruct H2 as [H2|H2]; [left; lia|by right].
  - exists i, j, s1, s2. repeat (split; [done|]). apply lookup_insert_None in Hj as [_ Hij].
    split; [congruence|split; [by etrans|intros m; by rewrite Hv2]].
Qed.

(** Copying, writing and releasing. *)
Definition copied (s' : bst) (l' : list nat) : Prop :=
  quiet s' l' (D ∖ {[dst]}) /\ wrote s s' [(dst, view s src)] /\
  forall m, 0 <= m -> view s' m = if decide (m = dst) then view s src else view s m.

Lemma copy_both s2 i j : both s2 i j ->
  exists s3 s4 s5 s6 l', set_bdata j (view s src) s2 = Ret ((), s3) /\ bwrite j s3 = Ret ((), s4) /\
    brelse i s4 = Ret ((), s5) /\ brelse j s5 = Ret ((), s6) /\ copied s6 l'.
Proof.
  intros (Hh & Hij & Hd & Hv).
  destruct (set_bdata_wp s2 l _ D Hh j dst false (view s src)) as (s3 & E3 & H3 & Hd3 & Hv3 & Hv3').
  { by rewrite lookup_insert_ne, lookup_insert_eq. }
  { by eapply view_len. }
  rewrite insert_insert_ne, insert_insert_eq in H3 by done.
  destruct (bwrite_wp s3 l _ D H3 j dst true) as (s4 & E4 & H4 & Hm4 & Hw4 & Hp4 & Hv4).
  { by rewrite lookup_insert_ne, lookup_insert_eq. }
  rewrite insert_insert_ne, insert_insert_eq in H4 by done.
  destruct (brelse_wp s4 l _ _ i src H4) as (s5 & l5 & E5 & H5 & Hd5 & Hv5); [by rewrite lookup_insert_eq|].
  rewrite delete_insert_id in H5 by (by rewrite lookup_insert_ne).
  destruct (brelse_wp s5 l5 _ _ j dst H5) as (s6 & l6 & E6 & H6 & Hd6 & Hv6); [by rewrite lookup_insert_eq|].
  rewrite delete_insert_id in H6 by done.
  exists s3, s4, s5, s6, l6. repeat (split; [done|]). split.
  - apply (wrote_same _ s4); [|by etrans]. rewrite Hv3 in *. destruct Hd as (A1 & A2 & A3), Hd3 as (B1 & B2 & B3).
    split; [rewrite Hm4, B1, A1; done|]. split; congruence.
  - intros m Hm. rewrite Hv6, Hv5, Hv4 by done. destruct (decide (m = dst)) as [->|Hmd]; [done|].
    by rewrite Hv3', Hv.
Qed.
End copy.

(** ** The log and its region of the disk *)

Definition log_blocks (g : log) : list Z := take (Z.to_nat (lh_n g)) (lh_block g).

(** The region of the log, and the blocks the transaction has changed. *)
Record log_ok (b : bst) (g : log) : Prop := {
  lo_dev : l_dev g = 1;
  lo_start : 0 <= l_start g;
  lo_size : 0 < l_size g;
  lo_end : l_start g + l_size g <= Z.of_nat (length (memdisk b)) < 2 ^ 31;
  lo_n : 0 <= lh_n g <= LOGSIZE /\ lh_n g < l_size g;
  lo_len : length (lh_block g) = Z.to_nat LOGSIZE;
  lo_nodup : NoDup (log_blocks g);
  lo_home : forall n, n ∈ log_blocks g -> in_range b n /\ ~ l_start g <= n < l_start g + l_size g }.

(** A block outside the log. *)
Definition home (g : log) (n : Z) : Prop := 0 <= n /\ ~ l_start g <= n < l_start g + l_size g.

Lemma log_blocks_lookup b g t n : log_ok b g -> log_blocks g !! t = Some n ->
  nth t (lh_block g) 0 = n /\ u32 n = n /\ s32 n = n /\ in_range b n /\ home g n /\ (t < Z.to_nat (lh_n g))%nat.
Proof.
  intros Hg Ht. pose proof (list_elem_of_lookup_2 _ _ _ Ht) as Hin.
  destruct (lo_home _ _ Hg n Hin) as [Hr Hh]. unfold log_blocks in Ht. apply lookup_take_Some in Ht as [Ht Hlt].
  pose proof (lo_end _ _ Hg). unfold in_range, home in *. split; [by apply nth_lookup_Some|]. lia.
Qed.

Lemma log_blocks_length b g : log_ok b g -> length (log_blocks g) = Z.to_nat (lh_n g).
Proof.
  intros Hg. unfold log_blocks. rewrite length_take, (lo_len _ _ Hg). pose proof (lo_n _ _ Hg). lia.
Qed.

Lemma log_ok_wrote b b' ws g : wrote b b' ws -> log_ok b g -> log_ok b' g.
Proof.
  intros Hw [A1 A2 A3 A4 A5 A6 A7 A8]. split; try done.
  - by rewrite (proj1 Hw), apply_writes_length.
  - intros n Hn. rewrite (wrote_range _ _ _ _ Hw). auto.
Qed.

(** One block of [write_log]: the cached block goes to its place in the log. *)
Lemma log_block_run b l D g t n : quiet b l D -> log_ok b g -> log_blocks g !! t = Some n -> n ∈ D ->
  (size D < NBUF)%nat -> (forall m, m ∈ D -> home g m) ->
  exists b' l', log_block t (Jst b g) = Ret ((), Jst b' g) /\ quiet b' l' D /\
    wrote b b' [(l_start g + Z.of_nat t + 1, view b n)] /\
    forall m, 0 <= m -> view b' m = if decide (m = l_start g + Z.of_nat t + 1) then view b n else view b m.
Proof.
  intros Hq Hg Ht HnD Hsz HD. destruct (log_blocks_lookup b g t n Hg Ht) as (Hnth & Hu & _ & Hr & Hh & Hlt).
  set (dst := l_start g + Z.of_nat t + 1). destruct Hg as [A1 A2 A3 A4 A5 A6 A7 A8]. unfold home in *.
  assert (in_range b dst) as Hrd by (unfold in_range, dst; lia).
  assert (n <> dst) as Hne by (unfold dst; lia).
  destruct (read_both_ds b l D n dst Hq Hr Hrd Hne Hsz) as (i & j & s1 & s2 & E1 & E2 & Hb); [by right|].
  destruct (copy_both b l D n dst Hq Hr s2 i j Hb) as (s3 & s4 & s5 & s6 & l' & E3 & E4 & E5 & E6 & H6 & Hw & Hv).
  exists s6, l'. split.
  - apply wp_unit.
    unfold log_block, get_block, getlog. wp_steps. cbn [jlog]. rewrite A1, Hnth, Hu.
    replace (u32 (l_start g + Z.of_nat t + 1)) with dst by (unfold dst; lia).
    rewrite (onbio_wp _ _ _ _ _ _ E1). wp_step. rewrite (onbio_wp _ _ _ _ _ _ E2). wp_step.
    rewrite (onbio_wp _ _ _ (view b n) s2).
    2: { rewrite (bdata_run s2 l _ D i n false (proj1 Hb)) by apply lookup_insert_eq.
         by destruct Hb as (_ & _ & _ & ->). }
    wp_step. rewrite (onbio_wp _ _ _ _ _ _ E3). wp_step. rewrite (onbio_wp _ _ _ _ _ _ E4). wp_step.
    rewrite (onbio_wp _ _ _ _ _ _ E5). by rewrite (onbio_wp _ _ _ _ _ _ E6).
  - split; [|done]. replace (D ∖ {[dst]}) with D in H6; [done|]. apply set_eq. intros m. split; [|set_solver].
    intros Hm. apply elem_of_difference. split; [done|]. intros ->%elem_of_singleton.
    destruct (HD dst Hm) as [_ Hhd]. unfold dst in Hhd. lia.
Qed.

(** One block of [install_trans]: the block of the log goes home. *)
Lemma install_block_run b l D g t n : quiet b l D -> log_ok b g -> log_blocks g !! t = Some n ->
  (size D < NBUF)%nat -> n ∈ D \/ (S (size D) < NBUF)%nat ->
  exists b' l', install_block t (Jst b g) = Ret ((), Jst b' g) /\ quiet b' l' (D ∖ {[n]}) /\
    wrote b b' [(n, view b (l_start g + Z.of_nat t + 1))] /\
    forall m, 0 <= m -> view b' m = if decide (m = n) then view b (l_start g + Z.of_nat t + 1) else view b m.
Proof.
  intros Hq Hg Ht Hsz Hroom. destruct (log_blocks_lookup b g t n Hg Ht) as (Hnth & Hu & _ & Hr & Hh & Hlt).
  set (src := l_start g + Z.of_nat t + 1). destruct Hg as [A1 A2 A3 A4 A5 A6 A7 A8]. unfold home in *.
  assert (in_range b src) as Hrd by (unfold in_range, src; lia).
  assert (src <> n) as Hne by (unfold src; lia).
  destruct (read_both_sd b l D src n Hq Hrd Hr Hne Hsz) as (i & j & s1 & s2 & E1 & E2 & Hb); [tauto|].
  destruct (copy_both b l D src n Hq Hrd s2 i j Hb) as (s3 & s4 & s5 & s6 & l' & E3 & E4 & E5 & E6 & H6 & Hw & Hv).
  exists s6, l'. split; [|done].
  apply wp_unit.
  unfold install_block, get_block, getlog. wp_steps. cbn [jlog]. rewrite A1, Hnth, Hu.
  replace (u32 (l_start g + Z.of_nat t + 1)) with src by (unfold src; lia).
  rewrite (onbio_wp _ _ _ _ _ _ E1). wp_step. rewrite (onbio_wp _ _ _ _ _ _ E2). wp_step.
  rewrite (onbio_wp _ _ _ (view b src) s2).
  2: { rewrite (bdata_run s2 l _ D i src false (proj1 Hb)) by apply lookup_insert_eq.
       by destruct Hb as (_ & _ & _ & ->). }
  wp_step. rewrite (onbio_wp _ _ _ _ _ _ E3). wp_step. rewrite (onbio_wp _ _ _ _ _ _ E4). wp_step.
  rewrite (onbio_wp _ _ _ _ _ _ E5). by rewrite (onbio_wp _ _ _ _ _ _ E6).
Qed.

(** ** [write_log] and [install_trans] *)

(** The writes of the two loops, for the blocks [ns] at positions [t], ... of
    the log. *)
Fixpoint log_writes (st : Z) (V : Z -> list Z) (t : nat) (ns : list Z) : list (Z * list Z) :=
  match ns with
  | [] => []
  | n :: ns => (st + Z.of_nat t + 1, V n) :: log_writes st V (S t) ns
  end.
Fixpoint home_writes (st : Z) (V : Z -> list Z) (t : nat) (ns : list Z) : list (Z * list Z) :=
  match ns with
  | [] => []
  | n :: ns => (n, V (st + Z.of_nat t + 1)) :: home_writes st V (S t) ns
  end.

Lemma log_writes_ext st V V' ns : forall t, (forall n, n ∈ ns -> V n = V' n) -> log_writes st V t ns = log_writes st V' t ns.
Proof. induction ns as [|n ns IH]; intros t H; [done|]. cbn. rewrite (IH (S t)) by set_solver. rewrite H by set_solver. done. Qed.

Lemma home_writes_ext st V V' ns : forall t, (forall k, (t <= k < t + length ns)%nat -> V (st + Z.of_nat k + 1) = V' (st + Z.of_nat k + 1)) ->
  home_writes st V t ns = home_writes st V' t ns.
Proof.
  induction ns as [|n ns IH]; intros t H; [done|]. cbn. rewrite (IH (S t)) by (intros; apply H; cbn; lia).
  rewrite H by (cbn; lia). done.
Qed.

Section loops.
Context (g : log).

(** [ns] are the logged blocks from position [t] on. *)
Definition from_pos (t : nat) (ns : list Z) : Prop :=
  forall k n, ns !! k = Some n -> log_blocks g !! (t + k)%nat = Some n.

Lemma from_pos_cons t n ns : from_pos t (n :: ns) -> log_blocks g !! t = Some n /\ from_pos (S t) ns.
Proof.
  intros H. split; [rewrite <- (Nat.add_0_r t); by apply H|].
  intros k m Hk. replace (S t + k)%nat with (t + S k)%nat by lia. by apply H.
Qed.

Lemma write_log_loop : forall ns t b l D, quiet b l D -> log_ok b g -> (size D < NBUF)%nat ->
  (forall m, m ∈ D -> home g m) -> from_pos t ns -> (forall n, n ∈ ns -> n ∈ D) ->
  exists b' l', for_tail log_block (length ns) t (Jst b g) = Ret ((), Jst b' g) /\ quiet b' l' D /\
    wrote b b' (log_writes (l_start g) (view b) t ns) /\ (forall m, home g m -> view b' m = view b m) /\
    (forall k, (k < t)%nat -> view b' (l_start g + Z.of_nat k + 1) = view b (l_start g + Z.of_nat k + 1)) /\
    (forall k n, ns !! k = Some n -> view b' (l_start g + Z.of_nat (t + k) + 1) = view b n).
Proof.
  induction ns as [|n ns IH]; intros t b l D Hq Hg Hsz HD Hpos HnD.
  - exists b, l. split; [done|]. split; [done|]. split; [by apply wrote_nil|]. done.
  - apply from_pos_cons in Hpos as [Ht Hpos]. pose proof (lo_start _ _ Hg) as Hst.
    destruct (log_blocks_lookup b g t n Hg Ht) as (_ & _ & _ & _ & Hh & Hlt).
    destruct (log_block_run b l D g t n Hq Hg Ht) as (b1 & l1 & E1 & Hq1 & Hw1 & Hv1); [set_solver|done..|].
    destruct (IH (S t) b1 l1 D Hq1 (log_ok_wrote _ _ _ _ Hw1 Hg) Hsz HD Hpos) as (b2 & l2 & E2 & Hq2 & Hw2 & Hv2 & Hv2' & Hv2'');
      [set_solver|].
    assert (forall m, home g m -> view b1 m = view b m) as Hhome.
    { intros m [Hm0 Hm]. rewrite Hv1 by done. rewrite decide_False; [done|]. pose proof (lo_n _ _ Hg). lia. }
    exists b2, l2. split; [cbn [length for_tail]; unfold mbind, M_bind; by rewrite E1|]. split; [done|].
    split; [|split; [|split]].
    + cbn [log_writes]. rewrite (log_writes_ext _ _ (view b1)).
      * exact (wrote_app _ _ _ _ _ Hw1 Hw2).
      * intros m Hm. symmetry. apply Hhome. apply HD. set_solver.
    + intros m Hm. by rewrite Hv2, Hhome.
    + intros k Hk. rewrite Hv2' by lia. rewrite Hv1 by lia. by rewrite decide_False by lia.
    + intros [|k] m Hk.
      * injection Hk as ->. rewrite Nat.add_0_r, Hv2', Hv1 by lia. by rewrite decide_True.
      * cbn in Hk. replace (t + S k)%nat with (S t + k)%nat by lia. rewrite (Hv2'' k m Hk). apply Hhome, HD. apply list_elem_of_lookup_2 in Hk. set_solver.
Qed.

Lemma install_loop : forall ns t b l D, quiet b l D -> log_ok b g -> (size D < NBUF)%nat ->
  from_pos t ns -> NoDup ns -> (forall n, n ∈ ns -> n ∈ D) \/ D = ∅ ->
  exists b' l', for_tail install_block (length ns) t (Jst b g) = Ret ((), Jst b' g) /\
    quiet b' l' (D ∖ list_to_set ns) /\
    wrote b b' (home_writes (l_start g) (view b) t ns) /\
    (forall m, 0 <= m -> m ∉ ns -> view b' m = view b m) /\
    (forall k n, ns !! k = Some n -> view b' n = view b (l_start g + Z.of_nat (t + k) + 1)).
Proof.
  induction ns as [|n ns IH]; intros t b l D Hq Hg Hsz Hpos Hnd HnD.
  - exists b, l. split; [done|]. split; [cbn; by rewrite difference_empty_L|]. split; [by apply wrote_nil|]. done.
  - apply from_pos_cons in Hpos as [Ht Hpos]. pose proof (lo_start _ _ Hg) as Hst. apply NoDup_cons in Hnd as [Hn Hnd].
    destruct (log_blocks_lookup b g t n Hg Ht) as (_ & _ & _ & _ & [Hn0 Hh] & Hlt).
    destruct (install_block_run b l D g t n Hq Hg Ht) as (b1 & l1 & E1 & Hq1 & Hw1 & Hv1); [done| |].
    { destruct HnD as [HnD| ->]; [left; set_solver|right; rewrite size_empty; unfold NBUF; lia]. }
    assert (size (D ∖ {[n]}) <= size D)%nat by (apply subseteq_size; set_solver).
    destruct (IH (S t) b1 l1 (D ∖ {[n]}) Hq1 (log_ok_wrote _ _ _ _ Hw1 Hg)) as (b2 & l2 & E2 & Hq2 & Hw2 & Hv2 & Hv2');
      [lia|done|done|destruct HnD as [HnD| ->]; [left; set_solver|right; set_solver]|].
    assert (forall k, (t <= k)%nat -> (k < Z.to_nat (lh_n g))%nat ->
      view b1 (l_start g + Z.of_nat k + 1) = view b (l_start g + Z.of_nat k + 1)) as Hlog.
    { intros k Hk Hkn. rewrite Hv1 by lia. rewrite decide_False; [done|]. pose proof (lo_n _ _ Hg). lia. }
    exists b2, l2. split; [cbn [length for_tail]; unfold mbind, M_bind; by rewrite E1|].
    split; [|split; [|split]].
    + replace (D ∖ list_to_set (n :: ns)) with (D ∖ {[n]} ∖ list_to_set ns) by set_solver. done.
    + cbn [home_writes]. rewrite (home_writes_ext _ _ (view b1)).
      * exact (wrote_app _ _ _ _ _ Hw1 Hw2).
      * intros k Hk. symmetry. apply Hlog; [lia|].
        destruct (lookup_lt_is_Some_2 ns (k - S t)) as [m Hm]; [lia|]. apply Hpos in Hm.
        replace (S t + (k - S t))%nat with k in Hm by lia. by apply (log_blocks_lookup b g _ m Hg).
    + intros m Hm0 Hm. rewrite Hv2, Hv1 by (done || set_solver). rewrite decide_False; [done|set_solver].
    + intros [|k] m Hk.
      * injection Hk as ->. rewrite Hv2, Hv1, decide_True, Nat.add_0_r by done. done.
      * cbn in Hk. rewrite (Hv2' k m Hk). replace (t + S k)%nat with (S t + k)%nat by lia. apply Hlog; [lia|].
        apply Hpos in Hk. by apply (log_blocks_lookup b g _ m Hg).
Qed.
End loops.

(** ** The header block *)

Record header (h : list Z) (ns : list Z) : Prop := {
  hd_len : length h = Z.to_nat BSIZE;
  hd_n : s32 (rd32 h 0) = Z.of_nat (length ns);
  hd_block : forall k n, ns !! k = Some n -> s32 (rd32 h (4 + 4 * k)) = n }.

(** What the loop of [write_head] leaves in the buffer. *)
Fixpoint fill (n t : nat) (blk d : list Z) : list Z :=
  match n with
  | O => d
  | S k => fill k (S t) blk (wr32 d (4 + 4 * t) (nth t blk 0))
  end.

Lemma fill_length n : forall t blk d, length (fill n t blk d) = length d.
Proof. induction n as [|n IH]; intros t blk d; [done|]. cbn [fill]. by rewrite IH, length_wr32. Qed.

Lemma fill_before n : forall t blk d k, (k + 4 <= 4 + 4 * t)%nat -> rd32 (fill n t blk d) k = rd32 d k.
Proof.
  induction n as [|n IH]; intros t blk d k Hk; [done|]. cbn [fill]. rewrite IH by lia.
  apply rd32_wr_out. lia.
Qed.

Lemma fill_in n : forall t blk d k, (t <= k < t + n)%nat -> (4 + 4 * (t + n) <= length d)%nat ->
  rd32 (fill n t blk d) (4 + 4 * k) = u32 (nth k blk 0).
Proof.
  induction n as [|n IH]; intros t blk d k Hk Hlen; [lia|]. cbn [fill].
  destruct (decide (k = t)) as [->|Hkt].
  - rewrite fill_before by lia. apply rd32_wr32. lia.
  - apply IH; rewrite ?length_wr32; lia.
Qed.

Lemma fill_header b g d : log_ok b g -> length d = Z.to_nat BSIZE ->
  header (fill (Z.to_nat (lh_n g)) 0 (lh_block g) (wr32 d 0 (lh_n g))) (log_blocks g).
Proof.
  intros Hg Hd. pose proof (lo_n _ _ Hg) as Hn. unfold LOGSIZE, MAXOPBLOCKS in Hn. split.
  - by rewrite fill_length, length_wr32.
  - rewrite fill_before by lia. rewrite rd32_wr32 by (unfold BSIZE in Hd; lia).
    rewrite (log_blocks_length b g Hg). lia.
  - intros k n Hk. destruct (log_blocks_lookup b g k n Hg Hk) as (Hnth & _ & Hs & _ & _ & Hlt).
    rewrite fill_in by (rewrite ?length_wr32, ?Hd; unfold BSIZE; lia). rewrite Hnth. lia.
Qed.

Lemma fill_run g bp st D n : forall t b l c, holds b l {[bp := (st, c)]} D ->
  exists b', for_tail (fun i => v ← get_block i; d ← onbio (bdata bp); onbio (set_bdata bp (wr32 d (4 + 4 * i) v))) n t (Jst b g)
      = Ret ((), Jst b' g) /\ (exists c', holds b' l {[bp := (st, c')]} D) /\ same_disk b b' /\
    view b' st = fill n t (lh_block g) (view b st) /\ forall m, m <> st -> view b' m = view b m.
Proof.
  induction n as [|n IH]; intros t b l c Hh; [exists b; split; [done|]; split; [eauto|]; done|]. cbn [for_tail fill].
  assert ({[bp := (st, c)]} !! bp = Some (st, c)) as Hbp by apply lookup_singleton_eq.
  destruct (held_buf b l _ D Hh bp st c Hbp) as (x & _ & _ & _ & _ & _ & _ & _ & Hr & _).
  destruct (set_bdata_wp b l _ D Hh bp st c (wr32 (view b st) (4 + 4 * t) (nth t (lh_block g) 0)))
    as (b1 & E1 & Hh1 & Hd1 & Hv1 & Hv1'); [done|rewrite length_wr32; by eapply view_len|].
  rewrite insert_singleton_eq in Hh1.
  destruct (IH (S t) b1 l true Hh1) as (b2 & E2 & Hh2 & Hd2 & Hv2 & Hv2').
  exists b2. split.
  - unfold mbind, M_bind, get_block, getlog, gets, onbio at 1, zoom. cbn [bio set_bio jlog].
    rewrite (bdata_run b l _ D bp st c Hh Hbp). unfold onbio at 1, zoom. cbn [bio set_bio jlog]. by rewrite E1.
  - split; [done|]. split; [by etrans|]. split; [by rewrite Hv2, Hv1|]. intros m Hm. by rewrite Hv2', Hv1'.
Qed.

Lemma write_head_run b l D g : quiet b l D -> log_ok b g -> l_start g ∉ D -> (size D < NBUF)%nat ->
  exists b' l' h, write_head (Jst b g) = Ret ((), Jst b' g) /\ quiet b' l' D /\
    wrote b b' [(l_start g, h)] /\ header h (log_blocks g) /\
    forall m, 0 <= m -> view b' m = if decide (m = l_start g) then h else view b m.
Proof.
  intros Hq Hg HD Hsz. set (st := l_start g) in *.
  assert (in_range b st /\ u32 st = st) as [Hr Hu].
  { pose proof (lo_start _ _ Hg). pose proof (lo_end _ _ Hg). pose proof (lo_size _ _ Hg). unfold in_range, st. lia. }
  destruct (bread_wp b l ∅ D Hq st Hr) as (i & b1 & E1 & Hh1 & _ & Hd1 & Hv1); [done|left; rewrite map_size_empty; lia|].
  rewrite insert_empty in Hh1.
  destruct (set_bdata_wp b1 l _ D Hh1 i st false (wr32 (view b1 st) 0 (lh_n g))) as (b2 & E2 & Hh2 & Hd2 & Hv2 & Hv2').
  { apply lookup_singleton_eq. }
  { rewrite length_wr32. eapply view_len; [exact Hh1|]. by apply (same_range b). }
  rewrite insert_singleton_eq in Hh2.
  destruct (fill_run g i st D (Z.to_nat (lh_n g)) 0 b2 l true Hh2) as (b3 & E3 & (c & Hh3) & Hd3 & Hv3 & Hv3').
  destruct (bwrite_wp b3 l _ D Hh3 i st c) as (b4 & E4 & Hh4 & Hm4 & Hw4 & Hp4 & Hv4); [apply lookup_singleton_eq|].
  rewrite insert_singleton_eq in Hh4.
  destruct (brelse_wp b4 l _ _ i st Hh4) as (b5 & l5 & E5 & Hh5 & Hd5 & Hv5); [apply lookup_singleton_eq|].
  rewrite delete_singleton_eq in Hh5.
  exists b5, l5, (view b3 st). split; [|split; [|split; [|split]]].
  - apply wp_unit. unfold write_head, getlog. wp_steps. cbn [jlog]. rewrite (lo_dev _ _ Hg). fold st. rewrite Hu.
    rewrite (onbio_wp _ _ _ _ _ _ E1). wp_steps. cbn [jlog].
    rewrite (onbio_wp _ _ _ _ _ _ (bdata_run b1 l _ D i st false Hh1 (lookup_singleton_eq _ _))). wp_step.
    rewrite (onbio_wp _ _ _ _ _ _ E2). wp_step. rewrite (wp_run _ _ _ _ _ E3). wp_step.
    rewrite (onbio_wp _ _ _ _ _ _ E4). by rewrite (onbio_wp _ _ _ _ _ _ E5).
  - by replace D with (D ∖ {[st]}) by set_solver.
  - apply (wrote_same _ b4); [|done]. destruct Hd1 as (A1 & A2 & A3), Hd2 as (B1 & B2 & B3), Hd3 as (C1 & C2 & C3).
    split; [rewrite Hm4, C1, B1, A1; done|]. split; congruence.
  - rewrite Hv3, Hv2. apply (fill_header b); [done|]. eapply view_len; [exact Hh1|]. by apply (same_range b).
  - intros m Hm. rewrite Hv5, Hv4 by done. destruct (decide (m = st)) as [->|Hms]; [done|].
    by rewrite Hv3', Hv2', Hv1.
Qed.

Lemma set_block_run i v s : (i < Z.to_nat LOGSIZE)%nat ->
  set_block i v s = Ret ((), set_jlog (set_lh_block (<[i := v]> (lh_block (jlog s))) (jlog s)) s).
Proof. intros Hi. unfold set_block. rewrite (proj2 (Z.ltb_lt _ _)) by lia. done. Qed.

Lemma read_blocks_run d n : forall t b g, (t + n <= Z.to_nat LOGSIZE)%nat -> length (lh_block g) = Z.to_nat LOGSIZE ->
  exists bl, for_tail (fun i => set_block i (s32 (rd32 d (4 + 4 * i)))) n t (Jst b g) = Ret ((), Jst b (set_lh_block bl g)) /\
    length bl = Z.to_nat LOGSIZE /\ (forall k, (k < t)%nat -> bl !! k = lh_block g !! k) /\
    (forall k, (t <= k < t + n)%nat -> bl !! k = Some (s32 (rd32 d (4 + 4 * k)))).
Proof.
  induction n as [|n IH]; intros t b g Hn Hlen.
  - exists (lh_block g). split; [by destruct g|]. split; [done|]. split; [done|]. lia.
  - cbn [for_tail]. unfold mbind, M_bind. rewrite set_block_run by lia. cbn [jlog set_jlog bio].
    destruct (IH (S t) b (set_lh_block (<[t := s32 (rd32 d (4 + 4 * t))]> (lh_block g)) g)) as (bl & E & Hl & Hb & Hi);
      [lia|cbn; by rewrite length_insert|].
    exists bl. split; [exact E|]. split; [done|]. split.
    + intros k Hk. rewrite Hb by lia. cbn. rewrite list_lookup_insert_ne by lia. done.
    + intros k Hk. destruct (decide (k = t)) as [->|]; [|apply Hi; lia].
      rewrite Hb by lia. cbn. apply list_lookup_insert_eq. lia.
Qed.

(** The region of the log, without a transaction. *)
Record region_ok (b : bst) (g : log) : Prop := {
  ro_dev : l_dev g = 1;
  ro_start : 0 <= l_start g;
  ro_size : 0 < l_size g;
  ro_end : l_start g + l_size g <= Z.of_nat (length (memdisk b)) < 2 ^ 31;
  ro_len : length (lh_block g) = Z.to_nat LOGSIZE }.

(** What reading the header leaves alone. *)
Definition same_region (g g' : log) : Prop :=
  l_start g' = l_start g /\ l_size g' = l_size g /\ l_outstanding g' = l_outstanding g /\ l_committing g' = l_committing g.

(** A list of blocks that can be logged. *)
Record loggable (b : bst) (g : log) (ns : list Z) : Prop := {
  lg_n : Z.of_nat (length ns) <= LOGSIZE /\ Z.of_nat (length ns) < l_size g;
  lg_nodup : NoDup ns;
  lg_home : forall n, n ∈ ns -> in_range b n /\ home g n }.

Lemma log_ok_region b g : log_ok b g -> region_ok b g.
Proof. intros []. by split. Qed.

Lemma log_ok_loggable b g : log_ok b g -> loggable b g (log_blocks g).
Proof.
  intros Hg. split.
  - rewrite (log_blocks_length b g Hg). pose proof (lo_n _ _ Hg). lia.
  - apply Hg.
  - intros n Hn. destruct (lo_home _ _ Hg n Hn) as [Hr Hh]. split; [done|]. split; [|done]. unfold in_range in Hr. lia.
Qed.

Lemma log_ok_make b g ns : region_ok b g -> loggable b g ns -> lh_n g = Z.of_nat (length ns) -> log_blocks g = ns ->
  log_ok b g.
Proof.
  intros [A1 A2 A3 A4 A5] [B1 B2 B3] Hn Hb. split; try done; rewrite ?Hb; try done; [lia|].
  intros n Hin. destruct (B3 n Hin) as [? [_ ?]]. done.
Qed.

Lemma read_head_run b l D g ns : quiet b l D -> region_ok b g -> loggable b g ns -> header (view b (l_start g)) ns ->
  (size D < NBUF)%nat ->
  exists b' l' g', read_head (Jst b g) = Ret ((), Jst b' g') /\ quiet b' l' D /\ same_disk b b' /\
    (forall m, view b' m = view b m) /\ log_ok b' g' /\ log_blocks g' = ns /\ same_region g g'.
Proof.
  intros Hq Hg Hns Hhd Hsz. set (st := l_start g) in *. set (n := length ns).
  assert (in_range b st /\ u32 st = st) as [Hr Hu].
  { destruct Hg. unfold in_range, st. lia. }
  pose proof (lg_n _ _ _ Hns) as Hn.
  destruct (bread_wp b l ∅ D Hq st Hr) as (i & b1 & E1 & Hh1 & _ & Hd1 & Hv1); [done|left; rewrite map_size_empty; lia|].
  rewrite insert_empty in Hh1.
  destruct (read_blocks_run (view b1 st) n 0 b1 (set_lh_n (Z.of_nat n) g)) as (bl & E2 & Hbl & _ & Hk); [lia|apply Hg|].
  destruct (brelse_wp b1 l _ _ i st Hh1) as (b2 & l2 & E3 & Hh3 & Hd3 & Hv3); [apply lookup_singleton_eq|].
  rewrite delete_singleton_eq in Hh3. set (g' := set_lh_block bl (set_lh_n (Z.of_nat n) g)) in *.
  assert (log_blocks g' = ns) as Hlb.
  { unfold log_blocks, g'. cbn. rewrite Nat2Z.id. apply list_eq. intros k. destruct (decide (k < n)%nat) as [Hlt|Hge].
    - rewrite lookup_take_lt, Hk by lia. destruct (lookup_lt_is_Some_2 ns k Hlt) as [m Hm]. rewrite Hm. f_equal.
      rewrite Hv1. by apply (hd_block _ _ Hhd).
    - rewrite lookup_take_ge by lia. symmetry. apply lookup_ge_None. unfold n in Hge. lia. }
  assert (same_disk b b2) as Hsd by (by etrans).
  exists b2, l2, g'. split; [|split; [done|split; [done|split; [intros m; by rewrite Hv3, Hv1|split; [|done]]]]].
  - apply wp_unit. unfold read_head, getlog. wp_steps. cbn [jlog]. rewrite (ro_dev _ _ Hg). fold st. rewrite Hu.
    rewrite (onbio_wp _ _ _ _ _ _ E1). wp_step.
    rewrite (onbio_wp _ _ _ _ _ _ (bdata_run b1 l _ D i st false Hh1 (lookup_singleton_eq _ _))). wp_step.
    unfold setlog. wp_steps. cbn [jlog set_jlog bio lh_n set_lh_n]. rewrite Hv1 in *. rewrite (hd_n _ _ Hhd), Nat2Z.id. fold n.
    rewrite (wp_run _ _ _ _ _ E2). by rewrite (onbio_wp _ _ _ _ _ _ E3).
  - apply (log_ok_make _ _ ns); [| |done|done].
    + destruct Hg. split; try done. by rewrite (proj1 Hsd).
    + destruct Hns as [B1 B2 B3]. split; [done|done|]. intros m Hm. rewrite (same_range b b2) by done. by apply B3.
Qed.

(** ** [commit] *)

Lemma home_writes_eq st V W ns : forall t, (forall k n, ns !! k = Some n -> V (st + Z.of_nat (t + k) + 1) = W n) ->
  home_writes st V t ns = (fun n => (n, W n)) <$> ns.
Proof.
  induction ns as [|n ns IH]; intros t H; [done|]. cbn. rewrite <- (H 0%nat n eq_refl), Nat.add_0_r.
  rewrite IH; [done|]. intros k m Hk. rewrite <- (H (S k) m Hk). do 3 f_equal. lia.
Qed.

(** Everything [commit] writes: the log, the header, the blocks at home, the
    empty header. *)
Definition commit_writes (g : log) (V : Z -> list Z) (h1 h0 : list Z) : list (Z * list Z) :=
  log_writes (l_start g) V 0 (log_blocks g) ++ [(l_start g, h1)] ++
  ((fun n => (n, V n)) <$> log_blocks g) ++ [(l_start g, h0)].

Lemma log_ok_empty b g : log_ok b g -> log_ok b (set_lh_n 0 g) /\ log_blocks (set_lh_n 0 g) = [].
Proof.
  intros [A1 A2 A3 A4 A5 A6 A7 A8]. assert (log_blocks (set_lh_n 0 g) = []) as He by done.
  split; [|done]. split; try done; rewrite ?He; [constructor|set_solver].
Qed.

Lemma commit_run b l g : quiet b l (list_to_set (log_blocks g)) -> log_ok b g -> 0 < lh_n g < Z.of_nat NBUF ->
  exists b' l' h1 h0, commit (Jst b g) = Ret ((), Jst b' (set_lh_n 0 g)) /\ quiet b' l' ∅ /\
    wrote b b' (commit_writes g (view b) h1 h0) /\ header h1 (log_blocks g) /\ header h0 [] /\
    forall m, home g m -> view b' m = view b m.
Proof.
  intros Hq Hg Hn. set (bl := log_blocks g) in *. set (D := list_to_set bl : gset Z) in *.
  pose proof (log_blocks_length b g Hg) as Hlen. fold bl in Hlen.
  assert (size D < NBUF)%nat as Hsz by (unfold D; rewrite size_list_to_set by apply Hg; lia).
  assert (forall m, m ∈ D -> home g m) as HD.
  { intros m Hm. apply elem_of_list_to_set in Hm. by apply (lg_home _ _ _ (log_ok_loggable b g Hg)). }
  assert (l_start g ∉ D) as Hst.
  { intros Hin. destruct (HD _ Hin) as [_ Hh]. pose proof (lo_size _ _ Hg). lia. }
  destruct (write_log_loop g bl 0 b l D Hq Hg Hsz HD) as (b1 & l1 & E1 & Hq1 & Hw1 & Hv1 & _ & Hv1');
    [by intros k n|unfold D; set_solver|].
  pose proof (log_ok_wrote _ _ _ _ Hw1 Hg) as Hg1.
  destruct (write_head_run b1 l1 D g Hq1 Hg1 Hst Hsz) as (b2 & l2 & h1 & E2 & Hq2 & Hw2 & Hh1 & Hv2).
  pose proof (log_ok_wrote _ _ _ _ Hw2 Hg1) as Hg2.
  destruct (install_loop g bl 0 b2 l2 D Hq2 Hg2 Hsz) as (b3 & l3 & E3 & Hq3 & Hw3 & Hv3 & Hv3');
    [by intros k n|apply Hg|left; unfold D; set_solver|].
  replace (D ∖ list_to_set bl) with (∅ : gset Z) in Hq3 by set_solver.
  pose proof (log_ok_wrote _ _ _ _ Hw3 Hg2) as Hg3. destruct (log_ok_empty b3 g Hg3) as [Hg3' He].
  destruct (write_head_run b3 l3 ∅ (set_lh_n 0 g) Hq3 Hg3') as (b4 & l4 & h0 & E4 & Hq4 & Hw4 & Hh0 & Hv4);
    [set_solver|rewrite size_empty; unfold NBUF; lia|]. rewrite He in Hh0.
  assert (forall k n, bl !! k = Some n -> view b2 (l_start g + Z.of_nat (0 + k) + 1) = view b n) as Hlog.
  { intros k n Hk. pose proof (lo_start _ _ Hg). rewrite Hv2, decide_False by lia. by apply Hv1'. }
  exists b4, l4, h1, h0. split; [|split; [done|split; [|split; [done|split; [done|]]]]].
  - apply wp_unit. unfold commit, write_log, install_trans, getlog. wp_steps. cbn [jlog].
    rewrite (proj2 (Z.ltb_lt 0 (lh_n g))) by lia. wp_steps. cbn [jlog]. rewrite <- Hlen.
    rewrite (wp_run _ _ _ _ _ E1). wp_step. rewrite (wp_run _ _ _ _ _ E2). wp_steps. cbn [jlog]. rewrite <- Hlen.
    rewrite (wp_run _ _ _ _ _ E3). unfold setlog. wp_steps. cbn [jlog set_jlog bio]. by rewrite (wp_run _ _ _ _ _ E4).
  - unfold commit_writes. fold bl. eapply wrote_app; [exact Hw1|]. eapply wrote_app; [exact Hw2|].
    eapply wrote_app; [|exact Hw4]. by rewrite (home_writes_eq _ _ (view b)) in Hw3.
  - intros m Hm. destruct (Hm) as [Hm0 Hm1]. pose proof (lo_size _ _ Hg).
    assert (view b2 m = view b m) as H2 by (rewrite Hv2, decide_False by lia; by apply Hv1).
    rewrite Hv4, decide_False by (cbn; lia). destruct (decide (m ∈ bl)) as [Hin|Hin]; [|by rewrite Hv3].
    apply list_elem_of_lookup in Hin as [k Hk]. by rewrite (Hv3' k m Hk), (Hlog k m Hk).
Qed.

(** ** [recover_from_log] *)

Lemma recover_run b l g ns : quiet b l ∅ -> region_ok b g -> loggable b g ns -> header (view b (l_start g)) ns ->
  exists b' l' g' h0, recover_from_log (Jst b g) = Ret ((), Jst b' g') /\ quiet b' l' ∅ /\ log_ok b' g' /\ lh_n g' = 0 /\
    header h0 [] /\ wrote b b' (home_writes (l_start g) (view b) 0 ns ++ [(l_start g, h0)]) /\
    same_region g g'.
Proof.
  intros Hq Hg Hns Hh. assert (size (∅ : gset Z) < NBUF)%nat as Hsz by (rewrite size_empty; unfold NBUF; lia).
  destruct (read_head_run b l ∅ g ns Hq Hg Hns Hh Hsz) as (b1 & l1 & g1 & E1 & Hq1 & Hd1 & Hv1 & Hg1 & Hlb & Hst & Hss & Hso & Hsc).
  pose proof (log_blocks_length b1 g1 Hg1) as Hlen. rewrite Hlb in Hlen.
  destruct (install_loop g1 ns 0 b1 l1 ∅ Hq1 Hg1 Hsz) as (b2 & l2 & E2 & Hq2 & Hw2 & _);
    [intros k n; by rewrite Hlb|apply Hns|by right|].
  replace (∅ ∖ list_to_set ns) with (∅ : gset Z) in Hq2 by set_solver.
  destruct (log_ok_empty b2 g1 (log_ok_wrote _ _ _ _ Hw2 Hg1)) as [Hg2 He].
  destruct (write_head_run b2 l2 ∅ (set_lh_n 0 g1) Hq2 Hg2) as (b3 & l3 & h0 & E3 & Hq3 & Hw3 & Hh0 & _);
    [set_solver|done|]. rewrite He in Hh0.
  exists b3, l3, (set_lh_n 0 g1), h0. split; [|split; [done|split; [by eapply log_ok_wrote|split; [done|split; [done|split; [|done]]]]]].
  - apply wp_unit. unfold recover_from_log, install_trans, getlog. wp_step. rewrite (wp_run _ _ _ _ _ E1). wp_steps. cbn [jlog].
    rewrite <- Hlen, (wp_run _ _ _ _ _ E2). unfold setlog. wp_steps. cbn [jlog set_jlog bio]. by rewrite (wp_run _ _ _ _ _ E3).
  - eapply same_wrote; [exact Hd1|]. rewrite <- Hst. eapply wrote_app; [|exact Hw3].
    rewrite (home_writes_ext _ _ (view b1)); [exact Hw2|]. intros k Hk. by rewrite Hv1.
Qed.
