(* ===== verification/LogCrash.v ===== *)
(** * Crashes and recovery

    A crash stops the machine between two block writes; the disk keeps the
    writes made so far and the memory is lost.  The machine then boots:
    [binit] builds an empty cache and [initlog] recovers.  It may crash
    again while recovering. *)

From stdpp Require Import base numbers list gmap strings.
From S2P Require Import Prelude Bytes Machine Locks Bio BioSpec Log BioAbs LogSpec.
Open Scope Z_scope.

(** ** Booting *)

(** Memory at boot: the kernel's data segment is zero. *)
Definition zero_block : list Z := replicate (Z.to_nat BSIZE) 0.
Definition zero_buf : buf := Buf 0 0 0 (Sleeplock false 0) 0 None None zero_block.
Definition zero_bio (D : list (list Z)) (pid : Z) : bst := Bst (replicate NBUF zero_buf) None None D [] pid.
Definition zero_log : log := Log 0 0 0 false 0 0 (replicate (Z.to_nat LOGSIZE) 0).

Lemma binit_run D pid : Forall (fun d => length d = Z.to_nat BSIZE) D ->
  exists b l, binit (zero_bio D pid) = Ret ((), b) /\ quiet b l ∅ /\ same_disk (zero_bio D pid) b.
Proof.
  intros HD. unfold zero_bio, zero_buf.
  assert (length zero_block = Z.to_nat BSIZE) as Hz by apply length_replicate. generalize dependent zero_block. intros z Hz.
  eexists _, (rev (seq 0 NBUF)). split; [vm_compute; reflexivity|]. split; [|done].
  split.
  - split.
    + vm_compute. repeat split.
    + symmetry. apply Permutation_rev.
    + done.
    + done.
    + cbn [core bufs fmap list_fmap]. repeat (apply Forall_cons; split; [split; cbn; try done; lia|]). by apply Forall_nil.
    + cbn [core bufs fmap list_fmap]. intros i j b c Hi Hj Hb. exfalso.
      repeat (destruct i as [|i]; [cbn in Hi; injection Hi as <-; done|]). done.
  - done.
  - cbn [core bufs fmap list_fmap]. intros i b Hi _.
    repeat (destruct i as [|i]; [cbn in Hi; by injection Hi as <-|]). done.
  - intros i b n c _ Hi. by rewrite lookup_empty in Hi.
  - cbn [core bufs fmap list_fmap]. intros i b Hi Hb. exfalso.
    repeat (destruct i as [|i]; [cbn in Hi; injection Hi as <-; done|]). done.
  - set_solver.
Qed.

(** Booting from the disk [D]: the cache, then the log. *)
Definition reboot (D : list (list Z)) (pid : Z) : outcome (() * jst) :=
  (_ ← onbio binit; initlog 1) (Jst (zero_bio D pid) zero_log).

(** A clean cache shows the disk. *)
Lemma quiet_view b l n : quiet b l ∅ -> view b n = nth (Z.to_nat n) (memdisk b) [].
Proof.
  intros Hq. apply (view_disk b l n (h_cache _ _ _ _ Hq)). intros i x Hx Hd Hn. split.
  - intros H6. pose proof (h_dirty _ _ _ _ Hq i x Hx H6). set_solver.
  - destruct (sl_locked (b_lock x)) eqn:E; [|done].
    destruct (bo_locked _ _ (cache_lookup b l i x (h_cache _ _ _ _ Hq) Hx) E) as [Hr _].
    pose proof (h_free _ _ _ _ Hq i x Hx (lookup_empty i)). lia.
Qed.

(** The disk: blocks of [BSIZE] bytes, a super block that says where the
    log is. *)
Record layout (D : list (list Z)) (st sz : Z) : Prop := {
  ly_blocks : Forall (fun d => length d = Z.to_nat BSIZE) D;
  ly_super : 1 < Z.of_nat (length D) /\ ~ st <= 1 < st + sz;
  ly_start : s32 (rd32 (nth 1 D []) 16) = st;
  ly_size : s32 (rd32 (nth 1 D []) 12) = sz;
  ly_region : 0 <= st /\ 0 < sz /\ st + sz <= Z.of_nat (length D) < 2 ^ 31 }.

(** The super block in the bytes of its block. *)
Definition sb_of (d : list Z) : superblock :=
  Superblock (rd32 d 0) (rd32 d 4) (rd32 d 8) (rd32 d 12) (rd32 d 16) (rd32 d 20) (rd32 d 24).

Lemma readsb_run b l : quiet b l ∅ -> in_range b 1 ->
  exists b' l', readsb 1 b = Ret (sb_of (nth 1 (memdisk b) []), b') /\ quiet b' l' ∅ /\ same_disk b b'.
Proof.
  intros Hq Hr. destruct (bread_wp b l ∅ ∅ Hq 1 Hr) as (i & b1 & E1 & Hh1 & _ & Hd1 & Hv1);
    [done|left; rewrite map_size_empty, size_empty; unfold NBUF; lia|].
  rewrite insert_empty in Hh1.
  destruct (brelse_wp b1 l _ _ i 1 Hh1) as (b2 & l2 & E2 & Hh2 & Hd2 & _); [apply lookup_singleton_eq|].
  rewrite delete_singleton_eq in Hh2. exists b2, l2. split; [|split; [done|by etrans]].
  unfold readsb, mbind, M_bind. rewrite E1.
  rewrite (bdata_run b1 l _ ∅ i 1 false Hh1) by apply lookup_singleton_eq. rewrite E2.
  by rewrite Hv1, (quiet_view b l 1 Hq).
Qed.

(** A kernel that has started: a clean cache and an empty log. *)
Record started (st sz : Z) (s : jst) : Prop := {
  sd_quiet : exists l, quiet (bio s) l ∅;
  sd_log : log_ok (bio s) (jlog s);
  sd_n : lh_n (jlog s) = 0;
  sd_idle : l_outstanding (jlog s) = 0 /\ l_committing (jlog s) = false;
  sd_region : l_start (jlog s) = st /\ l_size (jlog s) = sz }.

(** What recovery writes on a disk whose header lists [ns]. *)
Lemma reboot_run D pid st sz ns : layout D st sz -> header (nth (Z.to_nat st) D []) ns ->
  loggable (zero_bio D pid) (set_l_size sz (set_l_start st zero_log)) ns ->
  exists s h0, reboot D pid = Ret ((), s) /\ header h0 [] /\ started st sz s /\
    writes (bio s) = home_writes st (fun n => nth (Z.to_nat n) D []) 0 ns ++ [(st, h0)] /\
    memdisk (bio s) = apply_writes D (writes (bio s)).
Proof.
  intros HD Hh Hns. destruct (binit_run D pid (ly_blocks _ _ _ HD)) as (b & l & E1 & Hq & Hd).
  destruct Hd as (Hdm & Hdw & Hdp). cbn [zero_bio memdisk writes] in Hdm, Hdw.
  destruct (readsb_run b l Hq) as (b1 & l1 & E2 & Hq1 & Hd1).
  { unfold in_range. rewrite Hdm. pose proof (ly_super _ _ _ HD). lia. }
  rewrite Hdm in E2.
  set (g := Log st sz 0 false 1 0 (replicate (Z.to_nat LOGSIZE) 0)).
  pose proof (ly_region _ _ _ HD) as Hreg. assert (memdisk b1 = D) as Hm1 by (by rewrite (proj1 Hd1)).
  destruct (recover_run b1 l1 g ns Hq1) as (b2 & l2 & g2 & h0 & E3 & Hq2 & Hg2 & Hn2 & Hh0 & Hw & Hst2 & Hsz2 & Ho2 & Hc2).
  - split; cbn [g l_dev l_start l_size lh_block]; [reflexivity|lia|lia|rewrite Hm1; lia|apply length_replicate].
  - destruct Hns as [B1 B2 B3]. split; [done|done|]. intros n Hn. destruct (B3 n Hn) as [Hr Hhm].
    split; [unfold in_range; by rewrite Hm1|exact Hhm].
  - rewrite (quiet_view b1 l1 _ Hq1), Hm1. exact Hh.
  - exists (Jst b2 g2), h0. destruct Hw as (Hwm & Hww & _). cbn [bio jlog].
    assert (writes b2 = home_writes st (fun n => nth (Z.to_nat n) D []) 0 ns ++ [(st, h0)]) as Hwr.
    { rewrite Hww, (proj1 (proj2 Hd1)), Hdw. cbn [app g l_start]. f_equal. apply home_writes_ext.
      intros k _. by rewrite (quiet_view b1 l1 _ Hq1), Hm1. }
    split; [|split; [done|split; [split; cbn [bio jlog]; [exists l2; exact Hq2|exact Hg2|exact Hn2|rewrite Ho2, Hc2; split; reflexivity|rewrite Hst2, Hsz2; split; reflexivity]|split; [exact Hwr|]]]].
    + unfold reboot. apply wp_unit. wp_step. rewrite (onbio_wp _ _ _ _ _ _ E1). unfold initlog.
      change (BSIZE <=? 4 + 4 * LOGSIZE) with false. cbn iota. wp_step. rewrite (onbio_wp _ _ _ _ _ _ E2).
      unfold setlog. wp_steps. cbn [jlog set_jlog bio]. cbn [sb_of sb_logstart sb_nlog]. rewrite (ly_start _ _ _ HD), (ly_size _ _ _ HD).
      change (set_l_dev 1 (set_l_size sz (set_l_start st zero_log))) with g. by rewrite (wp_run _ _ _ _ _ E3).
    + rewrite Hwm, Hm1, Hwr. f_equal. cbn [g l_start]. f_equal. apply home_writes_ext.
      intros k _. by rewrite (quiet_view b1 l1 _ Hq1), Hm1.
Qed.

(** ** Crashes *)

(** Between two transactions: an empty log in memory and on the disk. *)
Record idle (st sz : Z) (s : jst) : Prop := {
  id_started : started st sz s;
  id_layout : layout (memdisk (bio s)) st sz;
  id_header : header (nth (Z.to_nat st) (memdisk (bio s)) []) [] }.

(** The disks a crash can leave: [D0] after some of the writes [ws], and
    then, any number of times, after some of the writes of a recovery. *)
Inductive crashed (pid : Z) (D0 : list (list Z)) (ws : list (Z * list Z)) : list (list Z) -> Prop :=
  | crash_op k : crashed pid D0 ws (apply_writes D0 (take k ws))
  | crash_recovery D s k : crashed pid D0 ws D -> reboot D pid = Ret ((), s) ->
      crashed pid D0 ws (apply_writes D (take k (writes (bio s)))).

Lemma apply_writes_app D w1 w2 : apply_writes D (w1 ++ w2) = apply_writes (apply_writes D w1) w2.
Proof. apply foldl_app. Qed.

Lemma layout_writes D st sz ws : layout D st sz ->
  (forall w, w ∈ ws -> 0 <= w.1 /\ w.1 <> 1 /\ length w.2 = Z.to_nat BSIZE) -> layout (apply_writes D ws) st sz.
Proof.
  intros HD Hw. assert (nth 1 (apply_writes D ws) [] = nth 1 D []) as H1.
  { rewrite !nth_lookup. change 1%nat with (Z.to_nat 1). rewrite apply_writes_other; [done|lia|].
    intros w Hin. destruct (Hw w Hin) as (? & ? & _). done. }
  destruct HD as [A1 A2 A3 A4 A5]. split; rewrite ?apply_writes_length, ?H1; try done.
  unfold apply_writes. clear A2 A3 A4 A5 H1. revert D A1. induction ws as [|w ws IH]; intros D HD; [done|]. cbn. apply IH; [set_solver|].
  apply Forall_insert; [done|]. apply (Hw w). set_solver.
Qed.

Section crash.
Context (pid st sz : Z) (D0 : list (list Z)) (V : Z -> list Z) (ns : list Z).

(** A block outside the log. *)
Definition outside (m : Z) : Prop := 0 <= m < Z.of_nat (length D0) /\ ~ st <= m < st + sz.

Hypotheses (HD0 : layout D0 st sz) (Hh0 : header (nth (Z.to_nat st) D0 []) [])
  (Hnd : NoDup ns) (Hlen : Z.of_nat (length ns) <= LOGSIZE /\ Z.of_nat (length ns) < sz)
  (Hns : forall n, n ∈ ns -> outside n /\ n <> 1)
  (HVlen : forall n, n ∈ ns -> length (V n) = Z.to_nat BSIZE)
  (HV : forall m, outside m -> m ∉ ns -> D0 !! Z.to_nat m = Some (V m)).

Definition HW : list (Z * list Z) := (fun n => (n, V n)) <$> ns.

Record base (D : list (list Z)) : Prop := {
  ba_layout : layout D st sz;
  ba_length : length D = length D0 }.

(** The three kinds of disks a crash leaves: nothing of the transaction,
    the whole transaction in the log, the whole transaction at home. *)
Definition before (D : list (list Z)) : Prop :=
  base D /\ header (nth (Z.to_nat st) D []) [] /\ forall m, outside m -> D !! Z.to_nat m = D0 !! Z.to_nat m.
Definition inlog (D : list (list Z)) : Prop :=
  base D /\ header (nth (Z.to_nat st) D []) ns /\
  (forall k n, ns !! k = Some n -> nth (Z.to_nat (st + Z.of_nat k + 1)) D [] = V n) /\
  (forall m, outside m -> m ∉ ns -> D !! Z.to_nat m = D0 !! Z.to_nat m).
Definition after (D : list (list Z)) : Prop :=
  base D /\ header (nth (Z.to_nat st) D []) [] /\ forall m, outside m -> D !! Z.to_nat m = Some (V m).

Lemma st_ok : 0 <= st < Z.of_nat (length D0) /\ st <> 1.
Proof. destruct HD0 as [_ ? _ _ ?]. lia. Qed.

Lemma HW_spec w : w ∈ HW -> outside w.1 /\ w.1 ∈ ns /\ w.2 = V w.1 /\ w.1 <> 1.
Proof. intros (n & -> & Hn)%list_elem_of_fmap. destruct (Hns n Hn). done. Qed.

Lemma base_writes D ws : base D -> (forall w, w ∈ ws -> 0 <= w.1 /\ w.1 <> 1 /\ length w.2 = Z.to_nat BSIZE) ->
  base (apply_writes D ws).
Proof. intros [H1 H2] Hw. split; [by apply layout_writes|by rewrite apply_writes_length]. Qed.

(** Overwriting the header. *)
Lemma write_header D h : base D -> length h = Z.to_nat BSIZE -> base (apply_writes D [(st, h)]) /\
  nth (Z.to_nat st) (apply_writes D [(st, h)]) [] = h /\
  forall m, 0 <= m -> m <> st -> apply_writes D [(st, h)] !! Z.to_nat m = D !! Z.to_nat m.
Proof.
  intros HD Hl. pose proof st_ok as [Hr H1]. split; [|split].
  - apply base_writes; [done|]. intros w ->%list_elem_of_singleton. cbn [fst snd]. split; [lia|]. split; [lia|done].
  - apply nth_lookup_Some, list_lookup_insert_eq. cbn [fst]. rewrite (ba_length _ HD). lia.
  - intros m Hm Hne. apply apply_writes_other; [done|]. intros w ->%list_elem_of_singleton. cbn [fst snd]. lia.
Qed.

(** A prefix of the writes home. *)
Lemma inlog_prefix D j : inlog D -> inlog (apply_writes D (take j HW)).
Proof.
  intros (Hb & Hh & Hlog & Hout). pose proof st_ok as [Hr H1].
  assert (forall w, w ∈ take j HW -> w ∈ HW) as Hin by (intros w Hw; by eapply elem_of_take in Hw as (? & ? & _); eapply list_elem_of_lookup_2).
  assert (forall m, 0 <= m -> (m ∉ ns) -> apply_writes D (take j HW) !! Z.to_nat m = D !! Z.to_nat m) as Hsame.
  { intros m Hm Hno. apply apply_writes_other; [done|]. intros w Hw. destruct (HW_spec w (Hin w Hw)) as ([? ?] & Hwn & _).
    split; [lia|]. by intros <-. }
  assert (forall m, st <= m < st + sz -> m ∉ ns) as Hreg by (intros m Hm Hmn; destruct (Hns m Hmn) as [[_ ?] _]; lia).
  split; [|split; [|split]].
  - apply base_writes; [done|]. intros w Hw. destruct (HW_spec w (Hin w Hw)) as ([? ?] & Hwn & -> & ?).
    split; [lia|]. split; [done|by apply HVlen].
  - rewrite nth_lookup, Hsame, <- nth_lookup; [done|lia|apply Hreg; destruct HD0; lia].
  - intros k n Hk. pose proof (lookup_lt_Some _ _ _ Hk). rewrite nth_lookup, Hsame, <- nth_lookup; [by apply Hlog|lia|apply Hreg; lia].
  - intros m Hm Hmn. rewrite Hsame; [by apply Hout|destruct Hm; lia|done].
Qed.

(** All of the writes home. *)
Lemma inlog_home D m : inlog D -> outside m -> apply_writes D HW !! Z.to_nat m = Some (V m).
Proof.
  intros (Hb & _ & _ & Hout) Hm. destruct (decide (m ∈ ns)) as [Hin|Hno].
  - apply apply_writes_in.
    + rewrite (ba_length _ Hb). by destruct Hm.
    + unfold HW. rewrite <- list_fmap_compose. cbn. by rewrite list_fmap_id.
    + apply list_elem_of_fmap. eauto.
    + intros w Hw. destruct (HW_spec w Hw) as ([? ?] & _). lia.
  - rewrite apply_writes_other; [|destruct Hm; lia|].
    + by rewrite Hout, HV.
    + intros w Hw. destruct (HW_spec w Hw) as ([? ?] & Hwn & _). split; [lia|]. by intros <-.
Qed.

Lemma inlog_done D h : inlog D -> header h [] -> after (apply_writes D (HW ++ [(st, h)])).
Proof.
  intros HD Hh. pose proof (inlog_prefix D (length HW) HD) as HD'. rewrite take_ge in HD' by done.
  rewrite apply_writes_app. destruct (write_header (apply_writes D HW) h) as (Hb & Hst & Hm); [apply HD'|apply Hh|].
  split; [done|]. split; [by rewrite Hst|]. intros m Hom. rewrite Hm; [by apply inlog_home|destruct Hom; lia|].
  intros ->. destruct Hom as [_ Hno]. destruct HD0. lia.
Qed.

Lemma rewrite_header D h m : base D -> header h [] -> outside m -> apply_writes D [(st, h)] !! Z.to_nat m = D !! Z.to_nat m.
Proof.
  intros Hb Hh Hm. destruct (write_header D h Hb (hd_len _ _ Hh)) as (_ & _ & Hs). apply Hs; [destruct Hm; lia|].
  intros ->. destruct Hm as [_ Hno]. destruct HD0. lia.
Qed.

Lemma before_header D h : before D -> header h [] -> before (apply_writes D [(st, h)]).
Proof.
  intros (Hb & _ & Hm) Hh. destruct (write_header D h Hb (hd_len _ _ Hh)) as (Hb' & Hst & _).
  split; [done|]. split; [by rewrite Hst|]. intros m Hom. by rewrite rewrite_header, Hm.
Qed.

Lemma after_header D h : after D -> header h [] -> after (apply_writes D [(st, h)]).
Proof.
  intros (Hb & _ & Hm) Hh. destruct (write_header D h Hb (hd_len _ _ Hh)) as (Hb' & Hst & _).
  split; [done|]. split; [by rewrite Hst|]. intros m Hom. by rewrite rewrite_header, Hm.
Qed.

Lemma base_loggable D l : base D -> l = ns \/ l = [] -> loggable (zero_bio D pid) (set_l_size sz (set_l_start st zero_log)) l.
Proof.
  intros Hb Hl. destruct (ly_region _ _ _ HD0) as (? & ? & ?). split; cbn [l_size set_l_size set_l_start].
  - destruct Hl as [-> | ->]; [done|]. cbn [length]. unfold LOGSIZE, MAXOPBLOCKS. lia.
  - destruct Hl as [-> | ->]; [done|constructor].
  - intros n Hn. destruct Hl as [-> | ->]; [|set_solver]. destruct (Hns n Hn) as [[Hr Ho] _].
    unfold in_range, home. cbn [memdisk zero_bio l_start l_size set_l_size set_l_start]. rewrite (ba_length _ Hb). lia.
Qed.

(** Recovery completes, and its writes keep the disk of one of the kinds. *)
Lemma recover_before D : before D -> exists s h, reboot D pid = Ret ((), s) /\ header h [] /\
  started st sz s /\ writes (bio s) = [(st, h)] /\ before (memdisk (bio s)).
Proof.
  intros HD. destruct (HD) as (Hb & Hh & _).
  destruct (reboot_run D pid st sz [] (ba_layout _ Hb) Hh (base_loggable D [] Hb (or_intror eq_refl))) as (s & h & E & Hh' & Hn & Hw & Hm).
  exists s, h. split; [done|]. split; [done|]. split; [done|]. split; [done|]. rewrite Hm, Hw. by apply before_header.
Qed.

Lemma recover_after D : after D -> exists s h, reboot D pid = Ret ((), s) /\ header h [] /\
  started st sz s /\ writes (bio s) = [(st, h)] /\ after (memdisk (bio s)).
Proof.
  intros HD. destruct (HD) as (Hb & Hh & _).
  destruct (reboot_run D pid st sz [] (ba_layout _ Hb) Hh (base_loggable D [] Hb (or_intror eq_refl))) as (s & h & E & Hh' & Hn & Hw & Hm).
  exists s, h. split; [done|]. split; [done|]. split; [done|]. split; [done|]. rewrite Hm, Hw. by apply after_header.
Qed.

Lemma recover_inlog D : inlog D -> exists s h, reboot D pid = Ret ((), s) /\ header h [] /\
  started st sz s /\ writes (bio s) = HW ++ [(st, h)] /\ after (memdisk (bio s)).
Proof.
  intros HD. destruct (HD) as (Hb & Hh & Hlog & _).
  destruct (reboot_run D pid st sz ns (ba_layout _ Hb) Hh (base_loggable D ns Hb (or_introl eq_refl))) as (s & h & E & Hh' & Hn & Hw & Hm).
  rewrite (home_writes_eq _ _ V) in Hw by exact Hlog.
  exists s, h. split; [done|]. split; [done|]. split; [done|]. split; [exact Hw|]. rewrite Hm, Hw. by apply inlog_done.
Qed.

(** A prefix of some writes and one more. *)
Lemma take_snoc_cases {A} k (l : list A) x : take k (l ++ [x]) = take k l \/ take k (l ++ [x]) = l ++ [x].
Proof.
  destruct (decide (k <= length l)%nat); [left; by rewrite take_app_le|right].
  apply take_ge. rewrite length_app. cbn. lia.
Qed.

Definition kinds (D : list (list Z)) : Prop := before D \/ inlog D \/ after D.

Lemma kinds_recovery D s k : kinds D -> reboot D pid = Ret ((), s) -> kinds (apply_writes D (take k (writes (bio s)))).
Proof.
  intros [HD|[HD|HD]] Hrun.
  - destruct (recover_before D HD) as (s' & h & E & Hh & _ & Hw & _). rewrite E in Hrun. injection Hrun as ->. rewrite Hw.
    destruct (take_snoc_cases k [] (st, h)) as [Ht|Ht]; cbn [app] in Ht; rewrite Ht; [rewrite take_nil|]; left; [done|by apply before_header].
  - destruct (recover_inlog D HD) as (s' & h & E & Hh & _ & Hw & _). rewrite E in Hrun. injection Hrun as ->. rewrite Hw.
    destruct (take_snoc_cases k HW (st, h)) as [-> | ->]; right; [left; by apply inlog_prefix|right; by apply inlog_done].
  - destruct (recover_after D HD) as (s' & h & E & Hh & _ & Hw & _). rewrite E in Hrun. injection Hrun as ->. rewrite Hw.
    destruct (take_snoc_cases k [] (st, h)) as [Ht|Ht]; cbn [app] in Ht; rewrite Ht; [rewrite take_nil|]; right; right; [done|by apply after_header].
Qed.

(** ** The writes of [commit] *)

Lemma log_writes_spec t w : forall l, w ∈ log_writes st V t l ->
  exists j n, l !! j = Some n /\ w = (st + Z.of_nat (t + j) + 1, V n).
Proof.
  intros l. revert t. induction l as [|n l IH]; intros t; cbn [log_writes]; [set_solver|].
  intros [->|Hw]%elem_of_cons.
  - exists 0%nat, n. by rewrite Nat.add_0_r.
  - destruct (IH (S t) Hw) as (j & m & Hj & ->). exists (S j), m. split; [done|]. by rewrite Nat.add_succ_r.
Qed.

Lemma log_writes_in : forall l t j n, l !! j = Some n -> (st + Z.of_nat (t + j) + 1, V n) ∈ log_writes st V t l.
Proof.
  induction l as [|m l IH]; intros t [|j] n Hj; [done|done| |].
  - injection Hj as ->. rewrite Nat.add_0_r. apply elem_of_cons. by left.
  - apply elem_of_cons. right. replace (t + S j)%nat with (S t + j)%nat by lia. by apply IH.
Qed.

Lemma log_writes_length : forall l t, length (log_writes st V t l) = length l.
Proof. induction l as [|n l IH]; intros t; [done|]. cbn. by rewrite IH. Qed.

Lemma log_writes_NoDup : forall l t, NoDup (fst <$> log_writes st V t l).
Proof.
  induction l as [|n l IH]; intros t; [constructor|]. cbn [log_writes fmap list_fmap fst]. constructor; [|apply IH].
  intros (w & E & Hw)%list_elem_of_fmap. apply log_writes_spec in Hw as (j & m & _ & ->). cbn in E. lia.
Qed.

Definition LW : list (Z * list Z) := log_writes st V 0 ns.

Lemma LW_range w : w ∈ LW -> st < w.1 < st + sz /\ 0 <= w.1 /\ w.1 <> 1 /\ length w.2 = Z.to_nat BSIZE.
Proof.
  intros (j & n & Hj & ->)%log_writes_spec. cbn [fst snd]. pose proof (lookup_lt_Some _ _ _ Hj).
  destruct (ly_super _ _ _ HD0) as [_ ?]. pose proof (ly_region _ _ _ HD0).
  split; [lia|]. split; [lia|]. split; [lia|]. apply HVlen. by eapply list_elem_of_lookup_2.
Qed.

Lemma base_D0 : base D0.
Proof. by split. Qed.

Lemma LW_prefix k : before (apply_writes D0 (take k LW)).
Proof.
  assert (forall w, w ∈ take k LW -> w ∈ LW) as Hin by (intros w Hw; by eapply elem_of_take in Hw as (? & ? & _); eapply list_elem_of_lookup_2).
  split; [|split].
  - apply base_writes; [apply base_D0|]. intros w Hw. by apply LW_range, Hin.
  - rewrite nth_lookup, apply_writes_other, <- nth_lookup; [done|apply st_ok|].
    intros w Hw. destruct (LW_range w (Hin w Hw)). lia.
  - intros m [Hm Hno]. apply apply_writes_other; [lia|]. intros w Hw. destruct (LW_range w (Hin w Hw)). lia.
Qed.

Lemma LW_header h : header h ns -> inlog (apply_writes D0 (LW ++ [(st, h)])).
Proof.
  intros Hh. pose proof (LW_prefix (length LW)) as (Hb & _ & Hm). rewrite take_ge in Hb, Hm by done.
  rewrite apply_writes_app. destruct (write_header (apply_writes D0 LW) h Hb (hd_len _ _ Hh)) as (Hb' & Hst & Hs).
  pose proof (ly_region _ _ _ HD0) as Hreg.
  split; [done|]. split; [by rewrite Hst|]. split.
  - intros k n Hk. pose proof (lookup_lt_Some _ _ _ Hk). apply nth_lookup_Some. rewrite Hs by lia. apply apply_writes_in.
    + lia.
    + apply log_writes_NoDup.
    + by apply (log_writes_in ns 0 k n).
    + intros w Hw. by apply LW_range.
  - intros m Hom _. rewrite Hs; [by apply Hm|destruct Hom; lia|]. intros ->. destruct Hom. lia.
Qed.

(** Up to the header the transaction did not happen, from there on it did. *)
Lemma commit_kinds h1 h0 k : header h1 ns -> header h0 [] ->
  kinds (apply_writes D0 (take k (LW ++ [(st, h1)] ++ HW ++ [(st, h0)]))).
Proof.
  intros H1 H0. destruct (decide (k <= length LW)%nat) as [Hk|Hk].
  { left. rewrite take_app_le by done. apply LW_prefix. }
  rewrite app_assoc, take_app_ge by (rewrite length_app; cbn; lia). rewrite apply_writes_app. right.
  destruct (take_snoc_cases (k - length (LW ++ [(st, h1)])) HW (st, h0)) as [-> | ->].
  - left. by apply inlog_prefix, LW_header.
  - right. by apply inlog_done; [apply LW_header|].
Qed.

Lemma commit_after h1 h0 : header h1 ns -> header h0 [] -> after (apply_writes D0 (LW ++ [(st, h1)] ++ HW ++ [(st, h0)])).
Proof. intros H1 H0. rewrite app_assoc, apply_writes_app. by apply inlog_done; [apply LW_header|]. Qed.

Lemma crashed_kinds h1 h0 D : header h1 ns -> header h0 [] ->
  crashed pid D0 (LW ++ [(st, h1)] ++ HW ++ [(st, h0)]) D -> kinds D.
Proof.
  intros H1 H0. induction 1 as [k|D s k _ IH Hrun]; [by apply commit_kinds|by apply kinds_recovery].
Qed.

(** Recovery of a disk of one of the kinds: everything or nothing. *)
Lemma recover_kinds D : kinds D -> exists s, reboot D pid = Ret ((), s) /\ idle st sz s /\ length (memdisk (bio s)) = length D0 /\
  ((forall m, outside m -> memdisk (bio s) !! Z.to_nat m = D0 !! Z.to_nat m) \/
   (forall m, outside m -> memdisk (bio s) !! Z.to_nat m = Some (V m))).
Proof.
  intros [HD|[HD|HD]].
  - destruct (recover_before D HD) as (s & h & E & _ & Hn & _ & ([Hl Hlen0] & Hh & Hm)). exists s. split; [done|].
    split; [split; assumption|]. split; [done|]. by left.
  - destruct (recover_inlog D HD) as (s & h & E & _ & Hn & _ & ([Hl Hlen0] & Hh & Hm)). exists s. split; [done|].
    split; [split; assumption|]. split; [done|]. by right.
  - destruct (recover_after D HD) as (s & h & E & _ & Hn & _ & ([Hl Hlen0] & Hh & Hm)). exists s. split; [done|].
    split; [split; assumption|]. split; [done|]. by right.
Qed.
End crash.

(** A disk that was shut down between transactions is mounted. *)
Lemma mount_run D pid st sz : layout D st sz -> header (nth (Z.to_nat st) D []) [] ->
  exists s, reboot D pid = Ret ((), s) /\ idle st sz s /\ length (memdisk (bio s)) = length D /\
    forall m, outside st sz D m -> memdisk (bio s) !! Z.to_nat m = D !! Z.to_nat m.
Proof.
  intros HD Hh. assert (forall m, outside st sz D m -> D !! Z.to_nat m = Some (nth (Z.to_nat m) D [])) as Hlk.
  { intros m [Hm _]. destruct (lookup_lt_is_Some_2 D (Z.to_nat m)) as [d Hd]; [lia|]. rewrite Hd. f_equal. by rewrite (nth_lookup_Some D _ [] d Hd). }
  destruct (recover_kinds pid st sz D (fun m => nth (Z.to_nat m) D []) [] HD Hh) with D as (s & Hs & Hi & Hl & Hor).
  - constructor.
  - cbn. pose proof (ly_region _ _ _ HD). split; [by vm_compute|lia].
  - intros n Hn. by apply not_elem_of_nil in Hn.
  - intros n Hn. by apply not_elem_of_nil in Hn.
  - intros m Hm _. by apply Hlk.
  - left. split; [by split|]. by split.
  - exists s. split; [exact Hs|]. split; [exact Hi|]. split; [exact Hl|]. intros m Hm. destruct Hor as [Hor|Hor]; [by apply Hor|].
    by rewrite Hlk; [apply Hor|].
Qed.

(** ** The last [end_op] of a transaction *)

(** A state in which the last file-system call of a transaction ends. *)
Record can_commit (b : bst) (l : list nat) (g : log) : Prop := {
  cc_quiet : quiet b l (list_to_set (log_blocks g));
  cc_log : log_ok b g;
  cc_idle : l_committing g = false /\ l_outstanding g = 1;
  cc_n : 0 < lh_n g < Z.of_nat NBUF;
  cc_layout : layout (memdisk b) (l_start g) (l_size g);
  cc_header : header (nth (Z.to_nat (l_start g)) (memdisk b) []) [];
  cc_super : 1 ∉ log_blocks g }.

Lemma end_op_run b l g : can_commit b l g ->
  exists b' l' h1 h0, end_op (Jst b g) = Ret ((), Jst b' (set_lh_n 0 (set_l_outstanding 0 g))) /\ quiet b' l' ∅ /\
    wrote b b' (commit_writes g (view b) h1 h0) /\ header h1 (log_blocks g) /\ header h0 [] /\
    forall m, home g m -> view b' m = view b m.
Proof.
  intros [Hq Hg [Hc Ho] Hn _ _ _]. set (g' := set_l_committing true (set_l_outstanding 0 g)).
  assert (log_ok b g') as Hg' by (destruct Hg; by split).
  destruct (commit_run b l g' Hq Hg' Hn) as (b' & l' & h1 & h0 & E & Hrest).
  exists b', l', h1, h0. split; [|done]. apply wp_unit. unfold end_op, getlog, setlog. wp_steps.
  cbn [jlog set_jlog bio l_committing l_outstanding set_l_outstanding]. rewrite Hc, Ho. wp_steps.
  change (1 - 1) with 0. rewrite Z.eqb_refl. wp_steps. cbn [jlog set_jlog bio].
  fold g'.
  rewrite (wp_run _ _ _ _ _ E). wp_steps. cbn [jlog set_jlog bio].
  destruct g; cbn in *. by subst.
Qed.
