(* ===== verification/LogTx.v ===== *)
(** * Transactions

    [begin_op], any number of block updates through [log_write] and
    [end_op], from a state between transactions.  [store_block] is what
    every writer of [fs.c] does with a block. *)

From stdpp Require Import base numbers list gmap strings.
From S2P Require Import Prelude Bytes Machine Locks Bio BioSpec Log BioAbs LogSpec LogCrash.
Open Scope Z_scope.

Definition store_block (n : Z) (d : list Z) : M jst () :=
  bp ← onbio (bread 1 n);
  _ ← onbio (set_bdata bp d);
  _ ← log_write bp;
  onbio (brelse bp).

Fixpoint store_blocks (ws : list (Z * list Z)) : M jst () :=
  match ws with
  | [] => mret ()
  | w :: ws => _ ← store_block w.1 w.2; store_blocks ws
  end.

Definition transaction (ws : list (Z * list Z)) : M jst () :=
  _ ← begin_op; _ ← store_blocks ws; end_op.

(** ** [log_write] *)

(** The loop of [log_write] stops at the first entry of the block. *)
Lemma absorb_spec blk l : forall k t,
  let j := absorb k t blk l in
  (t <= j <= t + k)%nat /\ ((j < t + k)%nat -> u32 (nth j l 0) = blk) /\
  (forall i, (t <= i < j)%nat -> u32 (nth i l 0) <> blk).
Proof.
  induction k as [|k IH]; intros t j; unfold j; cbn [absorb]; [split; [lia|split; lia]|].
  destruct (Z.eqb_spec (u32 (nth t l 0)) blk) as [E|E]; [split; [lia|split; [done|lia]]|].
  destruct (IH (S t)) as (H1 & H2 & H3). split; [lia|]. split; [intros; apply H2; lia|].
  intros i Hi. destruct (decide (i = t)) as [->|]; [done|]. apply H3. lia.
Qed.

(** The blocks of the transaction after [log_write] of block [n]. *)
Definition logged (n : Z) (g g' : log) : Prop :=
  log_blocks g' = (if decide (n ∈ log_blocks g) then log_blocks g else log_blocks g ++ [n]) /\ same_region g g'.

Lemma log_insert b g n : log_ok b g -> lh_n g < LOGSIZE -> lh_n g < l_size g - 1 -> in_range b n -> home g n ->
  let j := absorb (Z.to_nat (lh_n g)) 0 n (lh_block g) in
  let g1 := set_lh_block (<[j := n]> (lh_block g)) g in
  let g' := if Z.of_nat j =? lh_n g then set_lh_n (lh_n g + 1) g1 else g1 in
  (j < Z.to_nat LOGSIZE)%nat /\ log_ok b g' /\ logged n g g'.
Proof.
  intros Hg Hn1 Hn2 Hr Hh j g1 g'. destruct (absorb_spec n (lh_block g) (Z.to_nat (lh_n g)) 0) as (Hj & Heq & Hne).
  fold j in Hj, Heq, Hne. destruct (lo_n _ _ Hg) as [Hn _]. pose proof (lo_len _ _ Hg) as Hlen.
  assert (forall k, (k < Z.to_nat (lh_n g))%nat -> log_blocks g !! k = Some (nth k (lh_block g) 0)) as Hnth.
  { intros k Hk. unfold log_blocks. rewrite lookup_take_lt by lia.
    destruct (lookup_lt_is_Some_2 (lh_block g) k) as [m Hm]; [rewrite Hlen; lia|]. by rewrite (nth_lookup_Some _ _ _ _ Hm). }
  split; [lia|]. destruct (Z.eqb_spec (Z.of_nat j) (lh_n g)) as [Ej|Ej].
  - assert (n ∉ log_blocks g) as Hno.
    { intros Hin. apply list_elem_of_lookup in Hin as [k Hk]. destruct (log_blocks_lookup b g k n Hg Hk) as (E & Hu & _ & _ & _ & Hlt).
      apply (Hne k); [lia|]. by rewrite E. }
    assert (log_blocks g' = log_blocks g ++ [n]) as Hlb.
    { unfold g', g1, log_blocks. cbn [lh_n lh_block set_lh_n set_lh_block].
      replace (Z.to_nat (lh_n g + 1)) with (S j) by lia. replace (Z.to_nat (lh_n g)) with j by lia.
      rewrite (take_S_r _ _ n) by (apply list_lookup_insert_eq; lia). by rewrite take_insert_ge by lia. }
    split; [|split; [by rewrite decide_False|done]].
    unfold g' in *.
    destruct Hg as [A1 A2 A3 A4 A5 A6 A7 A8]. split; try done; cbn [lh_n lh_block l_size set_lh_n set_lh_block g1].
    + lia.
    + by rewrite length_insert.
    + rewrite Hlb. apply NoDup_app. split; [done|]. split; [set_solver|apply NoDup_singleton].
    + intros m Hm. rewrite Hlb in Hm. apply elem_of_app in Hm as [Hm|Hm]; [by apply A8|]. apply list_elem_of_singleton in Hm as ->.
      split; [done|]. apply Hh.
  - assert (log_blocks g !! j = Some n) as Hjn.
    { rewrite Hnth by lia. f_equal. rewrite <- Heq by lia.
      destruct (log_blocks_lookup b g j _ Hg (Hnth j ltac:(lia))) as (_ & Hu & _). by rewrite Hu. }
    assert (g' = g) as Hgg.
    { unfold g', g1. unfold log_blocks in Hjn. apply lookup_take_Some in Hjn as [Hjn _].
      rewrite list_insert_id by done. by destruct g. }
    rewrite Hgg. split; [done|]. split; [by rewrite decide_True by (by eapply list_elem_of_lookup_2)|done].
Qed.

Lemma log_write_run b l H g i n c : holds b l H (list_to_set (log_blocks g)) -> H !! i = Some (n, c) -> log_ok b g ->
  lh_n g < LOGSIZE -> lh_n g < l_size g - 1 -> 1 <= l_outstanding g -> home g n ->
  exists b' g', log_write i (Jst b g) = Ret ((), Jst b' g') /\
    holds b' l (<[i := (n, false)]> H) (list_to_set (log_blocks g')) /\ log_ok b' g' /\ logged n g g' /\
    same_disk b b' /\ forall m, view b' m = view b m.
Proof.
  intros Hb Hi Hg Hn1 Hn2 Ho Hh.
  destruct (held_buf b l _ _ Hb i n c Hi) as (x0 & Hx0 & _ & Hbn & _ & _ & _ & _ & Hr & _).
  apply core_lookup_inv in Hx0 as (x & Hx & <-). cbn [strip set_b_prev set_b_next b_blockno] in Hbn.
  destruct (pin_wp b l _ _ Hb i n c Hi) as (b' & Hpin & Hb' & Hd & Hv).
  destruct (log_insert b g n Hg Hn1 Hn2 Hr Hh) as (Hj & Hg' & Hlog & Hreg).
  eexists b', _. split; [|split; [|split; [|split; [by split|by split]]]].
  - unfold log_write, getlog. apply wp_unit. wp_steps. cbn [jlog].
    replace ((LOGSIZE <=? lh_n g) || (l_size g - 1 <=? lh_n g)) with false by lia. wp_steps. cbn [jlog].
    rewrite (proj2 (Z.ltb_ge _ _)) by lia. wp_step. rewrite (onbio_wp _ b g x b); [|unfold getb; by rewrite Hx].
    wp_steps. cbn [jlog]. rewrite Hbn. replace (s32 n) with n by (pose proof (lo_end _ _ Hg); unfold in_range in Hr; lia).
    rewrite (wp_run _ _ _ _ _ (set_block_run _ _ _ Hj)). cbn [jlog set_jlog bio].
    destruct (Z.of_nat (absorb (Z.to_nat (lh_n g)) 0 n (lh_block g)) =? lh_n g) eqn:E; unfold setlog; wp_steps; cbn [jlog set_jlog bio].
    + by apply (onbio_wp _ b _ _ _ _ Hpin).
    + by apply (onbio_wp _ b _ _ _ _ Hpin).
  - rewrite Hlog. destruct (decide (n ∈ log_blocks g)) as [Hin|Hin].
    + replace (list_to_set (log_blocks g) : gset Z) with (list_to_set (log_blocks g) ∪ {[n]} : gset Z) by set_solver. done.
    + rewrite list_to_set_app_L. cbn. by rewrite union_empty_r_L.
  - destruct Hg' as [A1 A2 A3 A4 A5 A6 A7 A8]. split; try done; [by rewrite (proj1 Hd)|].
    intros m Hm. rewrite (same_range b b') by done. auto.
Qed.

(** ** Updating blocks *)

Definition update (V : Z -> list Z) (w : Z * list Z) : Z -> list Z := fun m => if decide (m = w.1) then w.2 else V m.

(** A transaction that started in [s0] and has reached [s]. *)
Record in_tx (st sz : Z) (s0 s : jst) : Prop := {
  it_quiet : exists l, quiet (bio s) l (list_to_set (log_blocks (jlog s)));
  it_log : log_ok (bio s) (jlog s);
  it_busy : l_outstanding (jlog s) = 1 /\ l_committing (jlog s) = false;
  it_region : l_start (jlog s) = st /\ l_size (jlog s) = sz;
  it_disk : same_disk (bio s0) (bio s) }.

(** A block that a transaction may write, and its new contents. *)
Definition writable (st sz : Z) (s : jst) (w : Z * list Z) : Prop :=
  in_range (bio s) w.1 /\ ~ st <= w.1 < st + sz /\ w.1 <> 1 /\ length w.2 = Z.to_nat BSIZE.

Section tx.
Context (st sz : Z) (s0 : jst) (K : gset Z) (HK : Z.of_nat (size K) <= MAXOPBLOCKS) (Hsz : MAXOPBLOCKS + 1 < sz).

Lemma few_blocks s : in_tx st sz s0 s -> list_to_set (log_blocks (jlog s)) ⊆ K -> 0 <= lh_n (jlog s) <= MAXOPBLOCKS.
Proof.
  intros Hs Hsub. pose proof (it_log _ _ _ _ Hs) as Hg. pose proof (lo_n _ _ Hg).
  apply subseteq_size in Hsub. rewrite size_list_to_set in Hsub by apply Hg. rewrite (log_blocks_length _ _ Hg) in Hsub. lia.
Qed.

Lemma store_block_run s w : in_tx st sz s0 s -> list_to_set (log_blocks (jlog s)) ⊆ K -> writable st sz s0 w ->
  exists s', store_block w.1 w.2 s = Ret ((), s') /\ in_tx st sz s0 s' /\
    (list_to_set (log_blocks (jlog s')) : gset Z) = {[w.1]} ∪ list_to_set (log_blocks (jlog s)) /\
    forall m, view (bio s') m = update (view (bio s)) w m.
Proof.
  intros Hs Hsub (Hr & Hh & _ & Hd). destruct w as [n d]. cbn [fst snd] in *. pose proof (few_blocks s Hs Hsub) as Hfew.
  destruct Hs as [[l Hq] Hg [Ho Hc] [Hst Hss] Hdisk]. destruct s as [b g]. cbn [bio jlog] in *. unfold MAXOPBLOCKS in *.
  rewrite <- (same_range _ b) in Hr by done. assert (home g n) as Hhome by (unfold home, in_range in *; lia).
  destruct (bread_wp b l ∅ _ Hq n Hr) as (i & b1 & E1 & Hb1 & _ & Hd1 & Hv1); [done| |].
  { left. rewrite map_size_empty, size_list_to_set by apply Hg. rewrite (log_blocks_length _ _ Hg). unfold NBUF. lia. }
  rewrite insert_empty in Hb1.
  destruct (set_bdata_wp b1 l _ _ Hb1 i n false d (lookup_singleton_eq _ _) Hd) as (b2 & E2 & Hb2 & Hd2 & Hv2 & Hv2').
  rewrite insert_singleton_eq in Hb2.
  assert (log_ok b2 g) as Hg2 by (apply (log_ok_wrote b b2 []); [apply wrote_nil; by etrans|done]).
  destruct (log_write_run b2 l _ g i n true Hb2 (lookup_singleton_eq _ _) Hg2) as (b3 & g3 & E3 & Hb3 & Hg3 & [Hlb Hreg] & Hd3 & Hv3);
    [unfold LOGSIZE, MAXOPBLOCKS; lia|lia|lia|done|]. rewrite insert_singleton_eq in Hb3.
  destruct (brelse_wp b3 l _ _ i n Hb3 (lookup_singleton_eq _ _)) as (b4 & l4 & E4 & Hb4 & Hd4 & Hv4).
  rewrite delete_singleton_eq in Hb4. destruct Hreg as (R1 & R2 & R3 & R4).
  exists (Jst b4 g3). split; [|split; [split; cbn [bio jlog]|split; cbn [bio jlog]]].
  - unfold store_block. apply wp_unit. wp_step. rewrite (onbio_wp _ _ _ _ _ _ E1). wp_step. rewrite (onbio_wp _ _ _ _ _ _ E2).
    wp_step. rewrite (wp_run _ _ _ _ _ E3). by rewrite (onbio_wp _ _ _ _ _ _ E4).
  - by exists l4.
  - apply (log_ok_wrote b3 b4 []); [by apply wrote_nil|done].
  - by rewrite R3, R4.
  - by rewrite R1, R2.
  - etrans; [exact Hdisk|]. etrans; [exact Hd1|]. etrans; [exact Hd2|]. by etrans.
  - rewrite Hlb. destruct (decide (n ∈ log_blocks g)); [set_solver|]. rewrite list_to_set_app_L. set_solver.
  - intros m. rewrite Hv4, Hv3. unfold update. cbn [fst snd]. destruct (decide (m = n)) as [->|Hm]; [done|]. by rewrite Hv2', Hv1.
Qed.

Lemma store_blocks_run ws : forall s, in_tx st sz s0 s -> list_to_set (log_blocks (jlog s)) ⊆ K ->
  Forall (writable st sz s0) ws -> list_to_set ws.*1 ⊆ K ->
  exists s', store_blocks ws s = Ret ((), s') /\ in_tx st sz s0 s' /\
    (list_to_set (log_blocks (jlog s')) : gset Z) = list_to_set ws.*1 ∪ list_to_set (log_blocks (jlog s)) /\
    forall m, view (bio s') m = foldl update (view (bio s)) ws m.
Proof.
  induction ws as [|w ws IH]; intros s Hs Hsub Hw HwK.
  - exists s. split; [done|]. split; [done|]. split; [set_solver|done].
  - apply Forall_cons in Hw as [Hw Hws]. cbn [fmap list_fmap list_to_set] in HwK.
    destruct (store_block_run s w Hs Hsub Hw) as (s1 & E1 & Hs1 & Hl1 & Hv1).
    destruct (IH s1 Hs1) as (s2 & E2 & Hs2 & Hl2 & Hv2); [set_solver|done|set_solver|].
    exists s2. split; [cbn [store_blocks]; unfold mbind, M_bind; by rewrite E1|]. split; [done|].
    split; [rewrite Hl2, Hl1; set_solver|]. intros m. rewrite Hv2. cbn [foldl].
    assert (forall V V', (forall m, V m = V' m) -> forall m, foldl update V ws m = foldl update V' ws m) as Hext; [|by apply Hext].
    clear. induction ws as [|x ws IH]; intros V V' HV m; cbn; [done|]. apply IH. intros k. unfold update. by rewrite HV.
Qed.
End tx.

(** ** Whole transactions *)

Lemma begin_op_run st sz s : started st sz s ->
  begin_op s = Ret ((), set_jlog (set_l_outstanding 1 (jlog s)) s).
Proof.
  intros [_ _ Hn [Ho Hc] _]. unfold begin_op, getlog, setlog. apply wp_unit. wp_steps. rewrite Hc, Hn, Ho.
  change (LOGSIZE <? 0 + (0 + 1) * MAXOPBLOCKS) with false. wp_steps. by rewrite Ho.
Qed.

Lemma started_in_tx st sz s : started st sz s -> in_tx st sz s (set_jlog (set_l_outstanding 1 (jlog s)) s).
Proof.
  intros [[l Hq] Hg Hn [Ho Hc] Hr].
  assert (log_blocks (jlog s) = []) as He by (unfold log_blocks; by rewrite Hn).
  split; cbn [bio jlog set_jlog l_outstanding l_committing l_start l_size set_l_outstanding]; try done.
  - exists l. unfold log_blocks in *. cbn [lh_n lh_block set_l_outstanding]. by rewrite He.
  - destruct Hg. by split.
Qed.

(** What [end_op] makes of the blocks of a transaction: the writes [tx],
    all of them or none of them after a crash. *)
Section finish.
Context (pid st sz : Z) (s0 s : jst).
Hypotheses (H0 : idle st sz s0) (Hs : in_tx st sz s0 s) (Hn : 0 < lh_n (jlog s) <= MAXOPBLOCKS) (Hsup : 1 ∉ log_blocks (jlog s)).

Definition old (m : Z) : option (list Z) := memdisk (bio s0) !! Z.to_nat m.

Lemma finish_run : exists s' tx, end_op s = Ret ((), s') /\ idle st sz s' /\ writes (bio s') = writes (bio s0) ++ tx /\
  length (memdisk (bio s')) = length (memdisk (bio s0)) /\
  (forall m, outside st sz (memdisk (bio s0)) m -> memdisk (bio s') !! Z.to_nat m = Some (view (bio s) m)) /\
  forall D, crashed pid (memdisk (bio s0)) tx D -> exists r, reboot D pid = Ret ((), r) /\ idle st sz r /\
    ((forall m, outside st sz (memdisk (bio s0)) m -> memdisk (bio r) !! Z.to_nat m = old m) \/
     (forall m, outside st sz (memdisk (bio s0)) m -> memdisk (bio r) !! Z.to_nat m = Some (view (bio s) m))).
Proof.
  destruct H0 as [Hstart Hlay Hhead]. destruct Hs as [[l Hq] Hg [Ho Hc] [Hst Hss] Hdisk]. destruct s as [b g]. cbn [bio jlog] in *.
  pose proof (proj1 Hdisk) as Hm. unfold MAXOPBLOCKS in Hn.
  assert (can_commit b l g) as Hcc.
  { split; try done; [unfold NBUF; lia|by rewrite Hst, Hss, Hm|by rewrite Hst, Hm]. }
  destruct (end_op_run b l g Hcc) as (b' & l' & h1 & h0 & E & Hq' & Hw & Hh1 & Hh0 & _).
  set (ns := log_blocks g) in *. set (D0 := memdisk (bio s0)) in *.
  assert (forall n, n ∈ ns -> outside st sz D0 n /\ n <> 1) as Hns.
  { intros n Hin. destruct (lo_home _ _ Hg n Hin) as [Hr Hno]. split; [|by intros ->].
    unfold in_range, outside in *. rewrite Hm in Hr. rewrite Hst, Hss in Hno. done. }
  assert (forall m, outside st sz D0 m -> in_range b m) as Hrange by (intros m [Hr _]; unfold in_range; by rewrite Hm).
  assert (forall m, outside st sz D0 m -> m ∉ ns -> D0 !! Z.to_nat m = Some (view b m)) as HV.
  { intros m Ho' Hno. rewrite <- Hm.
    apply (opened_sync b l ∅ _ Hq m (Hrange m Ho')); [intros i c; by rewrite lookup_empty|]. by rewrite elem_of_list_to_set. }
  assert (forall n, n ∈ ns -> length (view b n) = Z.to_nat BSIZE) as HVl.
  { intros n Hin. eapply view_len; [exact Hq|]. by apply Hrange, Hns. }
  assert (Z.of_nat (length ns) <= LOGSIZE /\ Z.of_nat (length ns) < sz) as Hlen.
  { unfold ns. rewrite (log_blocks_length _ _ Hg). pose proof (lo_n _ _ Hg). rewrite Hss in *. lia. }
  assert (commit_writes g (view b) h1 h0 = LW st (view b) ns ++ [(st, h1)] ++ HW (view b) ns ++ [(st, h0)]) as Hcw
    by (unfold commit_writes; by rewrite Hst).
  rewrite Hcw in Hw. destruct Hw as (Hwm & Hww & _).
  pose proof (commit_after st sz D0 (view b) ns Hlay Hhead (lo_nodup _ _ Hg) Hlen Hns HVl HV h1 h0 Hh1 Hh0) as Haft.
  rewrite Hm in Hwm. rewrite <- Hwm in Haft. destruct Haft as ([Hlay' _] & Hhd' & Hout).
  exists (Jst b' (set_lh_n 0 (set_l_outstanding 0 g))), (LW st (view b) ns ++ [(st, h1)] ++ HW (view b) ns ++ [(st, h0)]).
  split; [exact E|]. split; [|split; [|split; [cbn [bio]; by rewrite Hwm, apply_writes_length|split; [exact Hout|]]]].
  - split; [|exact Hlay'|exact Hhd']. split; cbn [bio jlog]; [by exists l'| |reflexivity|by split|by split].
    destruct Hg as [A1 A2 A3 A4 A5 A6 A7 A8]. split; cbn [l_dev l_start l_size lh_n lh_block set_lh_n set_l_outstanding]; try assumption.
    + by rewrite Hwm, apply_writes_length, <- Hm.
    + unfold LOGSIZE, MAXOPBLOCKS. lia.
    + constructor.
    + intros n Hin. by apply elem_of_nil in Hin.
  - cbn [bio]. rewrite Hww. by rewrite (proj1 (proj2 Hdisk)).
  - intros D HD.
    pose proof (crashed_kinds pid st sz D0 (view b) ns Hlay Hhead (lo_nodup _ _ Hg) Hlen Hns HVl HV h1 h0 D Hh1 Hh0 HD) as Hk.
    destruct (recover_kinds pid st sz D0 (view b) ns Hlay Hhead (lo_nodup _ _ Hg) Hlen Hns HVl HV D Hk) as (r & Er & Hid & _ & Hor).
    exists r. split; [exact Er|]. split; [exact Hid|exact Hor].
Qed.
End finish.

(** The contents of the blocks after the updates [ws] of the disk [D]. *)
Definition updated (D : list (list Z)) (ws : list (Z * list Z)) : Z -> list Z :=
  foldl update (fun m => nth (Z.to_nat m) D []) ws.

Lemma transaction_run pid st sz s ws : idle st sz s -> ws <> [] -> Forall (writable st sz s) ws ->
  Z.of_nat (size (list_to_set ws.*1 : gset Z)) <= MAXOPBLOCKS -> MAXOPBLOCKS + 1 < sz ->
  let D0 := memdisk (bio s) in
  exists s' tx, transaction ws s = Ret ((), s') /\ idle st sz s' /\ writes (bio s') = writes (bio s) ++ tx /\
    (forall m, outside st sz D0 m -> memdisk (bio s') !! Z.to_nat m = Some (updated D0 ws m)) /\
    forall D, crashed pid D0 tx D -> exists r, reboot D pid = Ret ((), r) /\ idle st sz r /\
      ((forall m, outside st sz D0 m -> memdisk (bio r) !! Z.to_nat m = D0 !! Z.to_nat m) \/
       (forall m, outside st sz D0 m -> memdisk (bio r) !! Z.to_nat m = Some (updated D0 ws m))).
Proof.
  intros H0 Hne Hw Hk Hsz D0. pose proof (id_started _ _ _ H0) as Hst. pose proof (started_in_tx st sz s Hst) as Htx.
  set (s1 := set_jlog (set_l_outstanding 1 (jlog s)) s) in *. set (K := list_to_set ws.*1 : gset Z) in *.
  assert (log_blocks (jlog s1) = []) as He.
  { unfold s1, log_blocks. cbn [jlog set_jlog lh_n set_l_outstanding]. by rewrite (sd_n _ _ _ Hst). }
  destruct (store_blocks_run st sz s K Hk Hsz ws s1 Htx) as (s2 & E2 & Hs2 & Hl2 & Hv2); [rewrite He; set_solver|done|done|].
  assert ((list_to_set (log_blocks (jlog s2)) : gset Z) = K) as Hl2' by (rewrite Hl2, He; set_solver). clear Hl2. rename Hl2' into Hl2.
  assert (forall m, outside st sz D0 m -> view (bio s2) m = updated D0 ws m) as Hview.
  { intros m _. rewrite Hv2. unfold updated. destruct (sd_quiet _ _ _ Hst) as [l Hq].
    assert (forall us V V', (forall m, V m = V' m) -> forall m, foldl update V us m = foldl update V' us m) as Hext.
    { induction us as [|x us IH]; intros V V' HV k; cbn; [done|]. apply IH. intros j. unfold update. by rewrite HV. }
    apply Hext. intros k. by apply (quiet_view _ l). }
  pose proof (few_blocks st sz s K Hk s2 Hs2 ltac:(by rewrite Hl2)) as Hfew.
  assert (0 < lh_n (jlog s2)) as Hpos.
  { destruct (decide (lh_n (jlog s2) = 0)) as [Hz|]; [|lia]. exfalso. destruct ws as [|w ws]; [done|].
    assert (w.1 ∈ (list_to_set (log_blocks (jlog s2)) : gset Z)) as Hin by (rewrite Hl2; unfold K; set_solver).
    apply elem_of_list_to_set in Hin. unfold log_blocks in Hin. rewrite Hz in Hin. by apply elem_of_nil in Hin. }
  destruct (finish_run pid st sz s s2 H0 Hs2) as (s' & tx & E' & Hid & Hww & _ & Hnew & Hcr); [lia| |].
  { intros Hin. assert (1 ∈ K) as H1 by (rewrite <- Hl2; by apply elem_of_list_to_set).
    unfold K in H1. apply elem_of_list_to_set, list_elem_of_fmap in H1 as (w & Hw1 & Hin1).
    destruct (proj1 (Forall_forall _ _) Hw w Hin1) as (_ & _ & Hn1 & _). congruence. }
  exists s', tx. split.
  { unfold transaction. unfold mbind, M_bind. rewrite (begin_op_run st sz s Hst). fold s1. by rewrite E2. }
  split; [exact Hid|]. split; [exact Hww|]. split; [intros m Hm; rewrite <- Hview by exact Hm; by apply Hnew|].
  intros D HD. destruct (Hcr D HD) as (r & Er & Hr & Hor). exists r. split; [exact Er|]. split; [exact Hr|].
  destruct Hor as [Hor|Hor]; [by left|right]. intros m Hm. rewrite <- Hview by exact Hm. by apply Hor.
Qed.
