(* ===== verification/FsState.v ===== *)
(** * State of the file system layers

    The structures of [kernel/file.h], [kernel/fs.h], [kernel/pipe.c] and
    [kernel/console.c], and the record of all of them that the code of
    [fs.c], [file.c], [pipe.c] and [console.c] runs on.  A pointer to an
    entry of [icache.inode] or [ftable.file] is its index; a pipe is named
    by the address of its page. *)

From stdpp Require Import base numbers list gmap strings.
From S2P Require Import Prelude Bytes Machine Locks Bio Log.
Open Scope Z_scope.

Definition NINODE : nat := 50.
Definition NFILE : nat := 100.
Definition NDEV : Z := 10.
Definition ROOTDEV : Z := 1.
Definition ROOTINO : Z := 1.
Definition NDIRECT : Z := 12.
Definition NINDIRECT : Z := BSIZE / 4.
Definition MAXFILE : Z := NDIRECT + NINDIRECT.
Definition SIZEOF_DINODE : Z := 64.
Definition IPB : Z := BSIZE / SIZEOF_DINODE.
Definition BPB : Z := BSIZE * 8.
Definition DIRSIZ : nat := 14.
Definition SIZEOF_DIRENT : Z := 16.
Definition T_DIR : Z := 1.
Definition T_FILE : Z := 2.
Definition T_DEV : Z := 3.

(** [struct inode] *)
Record inode := Inode {
  i_dev : Z;
  i_inum : Z;
  i_ref : Z;
  i_lock : sleeplock;
  i_valid : bool;
  i_type : Z;
  i_major : Z;
  i_minor : Z;
  i_nlink : Z;
  i_size : Z;
  i_addrs : list Z }.

Definition set_i_dev v p := Inode v (i_inum p) (i_ref p) (i_lock p) (i_valid p) (i_type p) (i_major p) (i_minor p) (i_nlink p) (i_size p) (i_addrs p).
Definition set_i_inum v p := Inode (i_dev p) v (i_ref p) (i_lock p) (i_valid p) (i_type p) (i_major p) (i_minor p) (i_nlink p) (i_size p) (i_addrs p).
Definition set_i_ref v p := Inode (i_dev p) (i_inum p) v (i_lock p) (i_valid p) (i_type p) (i_major p) (i_minor p) (i_nlink p) (i_size p) (i_addrs p).
Definition set_i_lock v p := Inode (i_dev p) (i_inum p) (i_ref p) v (i_valid p) (i_type p) (i_major p) (i_minor p) (i_nlink p) (i_size p) (i_addrs p).
Definition set_i_valid v p := Inode (i_dev p) (i_inum p) (i_ref p) (i_lock p) v (i_type p) (i_major p) (i_minor p) (i_nlink p) (i_size p) (i_addrs p).
Definition set_i_type v p := Inode (i_dev p) (i_inum p) (i_ref p) (i_lock p) (i_valid p) v (i_major p) (i_minor p) (i_nlink p) (i_size p) (i_addrs p).
Definition set_i_major v p := Inode (i_dev p) (i_inum p) (i_ref p) (i_lock p) (i_valid p) (i_type p) v (i_minor p) (i_nlink p) (i_size p) (i_addrs p).
Definition set_i_minor v p := Inode (i_dev p) (i_inum p) (i_ref p) (i_lock p) (i_valid p) (i_type p) (i_major p) v (i_nlink p) (i_size p) (i_addrs p).
Definition set_i_nlink v p := Inode (i_dev p) (i_inum p) (i_ref p) (i_lock p) (i_valid p) (i_type p) (i_major p) (i_minor p) v (i_size p) (i_addrs p).
Definition set_i_size v p := Inode (i_dev p) (i_inum p) (i_ref p) (i_lock p) (i_valid p) (i_type p) (i_major p) (i_minor p) (i_nlink p) v (i_addrs p).
Definition set_i_addrs v p := Inode (i_dev p) (i_inum p) (i_ref p) (i_lock p) (i_valid p) (i_type p) (i_major p) (i_minor p) (i_nlink p) (i_size p) v.

(** [struct file] *)
Inductive fdtype := FD_NONE | FD_PIPE | FD_INODE.
#[global] Instance fdtype_eq_dec : EqDecision fdtype.
Proof. solve_decision. Defined.

Record file := File {
  f_type : fdtype;
  f_ref : Z;
  f_readable : bool;
  f_writable : bool;
  f_pipe : Z;
  f_ip : option nat;
  f_off : Z }.

Definition set_f_type v f := File v (f_ref f) (f_readable f) (f_writable f) (f_pipe f) (f_ip f) (f_off f).
Definition set_f_ref v f := File (f_type f) v (f_readable f) (f_writable f) (f_pipe f) (f_ip f) (f_off f).
Definition set_f_readable v f := File (f_type f) (f_ref f) v (f_writable f) (f_pipe f) (f_ip f) (f_off f).
Definition set_f_writable v f := File (f_type f) (f_ref f) (f_readable f) v (f_pipe f) (f_ip f) (f_off f).
Definition set_f_pipe v f := File (f_type f) (f_ref f) (f_readable f) (f_writable f) v (f_ip f) (f_off f).
Definition set_f_ip v f := File (f_type f) (f_ref f) (f_readable f) (f_writable f) (f_pipe f) v (f_off f).
Definition set_f_off v f := File (f_type f) (f_ref f) (f_readable f) (f_writable f) (f_pipe f) (f_ip f) v.

(** [struct pipe] *)
Record pipe := Pipe {
  p_data : list Z;
  p_nread : Z;
  p_nwrite : Z;
  p_readopen : bool;
  p_writeopen : bool }.

Definition set_p_data v p := Pipe v (p_nread p) (p_nwrite p) (p_readopen p) (p_writeopen p).
Definition set_p_nread v p := Pipe (p_data p) v (p_nwrite p) (p_readopen p) (p_writeopen p).
Definition set_p_nwrite v p := Pipe (p_data p) (p_nread p) v (p_readopen p) (p_writeopen p).
Definition set_p_readopen v p := Pipe (p_data p) (p_nread p) (p_nwrite p) v (p_writeopen p).
Definition set_p_writeopen v p := Pipe (p_data p) (p_nread p) (p_nwrite p) (p_readopen p) v.

(** [input] of [console.c] *)
Record input := Input { in_buf : list Z; in_r : Z; in_w : Z; in_e : Z }.
Definition set_in_buf v x := Input v (in_r x) (in_w x) (in_e x).
Definition set_in_r v x := Input (in_buf x) v (in_w x) (in_e x).
Definition set_in_w v x := Input (in_buf x) (in_r x) v (in_e x).
Definition set_in_e v x := Input (in_buf x) (in_r x) (in_w x) v.

(** The screen and the serial line: the display's text buffer [crt] and its
    cursor register, whether there is a UART and what was sent to it, and
    [panicked]. *)
Record screen := Screen {
  crt : list Z;
  crtpos : Z;
  uart : bool;
  serial : list Z;
  panicked : bool }.
Definition set_crt v x := Screen v (crtpos x) (uart x) (serial x) (panicked x).
Definition set_crtpos v x := Screen (crt x) v (uart x) (serial x) (panicked x).
Definition set_serial v x := Screen (crt x) (crtpos x) (uart x) v (panicked x).

(** The whole state: memory, the log and the buffer cache, the super block,
    the tables, the console's input buffer and its screen, the channels
    [pipe.c] and [console.c] have passed to [wakeup], and of the current
    process [killed] and [cwd]. *)
Record fs := Fs {
  fm : machine;
  jrn : jst;
  sb : superblock;
  icache : list inode;
  ftable : list file;
  pipes : gmap Z pipe;
  cons_in : input;
  scr : screen;
  woken : list Z;
  mykilled : bool;
  mycwd : option nat }.

Definition set_fm v s := Fs v (jrn s) (sb s) (icache s) (ftable s) (pipes s) (cons_in s) (scr s) (woken s) (mykilled s) (mycwd s).
Definition set_jrn v s := Fs (fm s) v (sb s) (icache s) (ftable s) (pipes s) (cons_in s) (scr s) (woken s) (mykilled s) (mycwd s).
Definition set_sb v s := Fs (fm s) (jrn s) v (icache s) (ftable s) (pipes s) (cons_in s) (scr s) (woken s) (mykilled s) (mycwd s).
Definition set_icache v s := Fs (fm s) (jrn s) (sb s) v (ftable s) (pipes s) (cons_in s) (scr s) (woken s) (mykilled s) (mycwd s).
Definition set_ftable v s := Fs (fm s) (jrn s) (sb s) (icache s) v (pipes s) (cons_in s) (scr s) (woken s) (mykilled s) (mycwd s).
Definition set_pipes v s := Fs (fm s) (jrn s) (sb s) (icache s) (ftable s) v (cons_in s) (scr s) (woken s) (mykilled s) (mycwd s).
Definition set_cons_in v s := Fs (fm s) (jrn s) (sb s) (icache s) (ftable s) (pipes s) v (scr s) (woken s) (mykilled s) (mycwd s).
Definition set_scr v s := Fs (fm s) (jrn s) (sb s) (icache s) (ftable s) (pipes s) (cons_in s) v (woken s) (mykilled s) (mycwd s).
Definition set_woken v s := Fs (fm s) (jrn s) (sb s) (icache s) (ftable s) (pipes s) (cons_in s) (scr s) v (mykilled s) (mycwd s).

(** Running the lower layers. *)
Definition onmach {A} (m : M machine A) : M fs A := zoom fm set_fm m.
Definition onj {A} (m : M jst A) : M fs A := zoom jrn set_jrn m.
Definition onscr {A} (m : M screen A) : M fs A := zoom scr set_scr m.
Definition onb {A} (m : M bst A) : M fs A := onj (onbio m).

(** Reading and writing through [struct inode *]. *)
Definition geti (i : nat) : M fs inode := fun s =>
  match icache s !! i with Some p => Ret (p, s) | None => Fault 0 end.
Definition seti (i : nat) (f : inode -> inode) : M fs () := fun s =>
  match icache s !! i with
  | Some p => Ret ((), set_icache (<[i := f p]> (icache s)) s)
  | None => Fault 0
  end.

(** Reading and writing through [struct file *]. *)
Definition getf (i : nat) : M fs file := fun s =>
  match ftable s !! i with Some p => Ret (p, s) | None => Fault 0 end.
Definition setf (i : nat) (f : file -> file) : M fs () := fun s =>
  match ftable s !! i with
  | Some p => Ret ((), set_ftable (<[i := f p]> (ftable s)) s)
  | None => Fault 0
  end.

(** Reading and writing through [struct pipe *]. *)
Definition getpipe (a : Z) : M fs pipe := fun s =>
  match pipes s !! a with Some p => Ret (p, s) | None => Fault a end.
Definition setpipe (a : Z) (f : pipe -> pipe) : M fs () := fun s =>
  match pipes s !! a with
  | Some p => Ret ((), set_pipes (<[a := f p]> (pipes s)) s)
  | None => Fault a
  end.

Definition wakeup (chan : Z) : M fs () := modify (fun s => set_woken (woken s ++ [chan]) s).
