(* ===== verification/Screen.v ===== *)
(** * [kernel/console.c] and [kernel/uart.c]: output

    The CGA screen, the serial line and [cprintf].  Characters are [Z]; a
    format is the list of its characters up to the NUL.  [cons.lock] makes
    a call atomic; once the kernel has panicked nothing returns. *)

From stdpp Require Import base numbers list strings.
From S2P Require Import Prelude Bytes Locks Bio Log FsState.
Open Scope Z_scope.

(** ** The screen *)

Definition BACKSPACE : Z := 0x100.
Definition NEWLINE : Z := 10.

(** Sending a character down the serial line, when there is one; the wait
    for the transmitter to become ready is bounded. *)
Definition uartputc (c : Z) : M screen () :=
  modify (fun x => if uart x then set_serial (serial x ++ [u8 c]) x else x).

(** [crt[pos] = v], [memmove(crt, crt+80, ..)] and [memset(crt+pos, 0, ..)]
    on the text buffer; a store past its end is outside the model. *)
Definition crt_store (pos v : Z) : M screen () := fun x =>
  if (0 <=? pos) && (pos <? Z.of_nat (length (crt x)))
  then Ret ((), set_crt (<[Z.to_nat pos := v]> (crt x)) x) else Fault pos.
Definition crt_scroll : M screen () :=
  modify (fun x => set_crt (wr (crt x) 0 (sub (crt x) 80 (23 * 80))) x).
Definition crt_clear (pos : Z) : M screen () :=
  modify (fun x => set_crt (wr (crt x) (Z.to_nat pos) (replicate (Z.to_nat (24 * 80 - pos)) 0)) x).

Definition cgaputc (c : Z) : M screen () :=
  pos ← gets crtpos;
  pos ← (if c =? NEWLINE then mret (pos + (80 - pos mod 80))
         else if c =? BACKSPACE then mret (if 0 <? pos then pos - 1 else pos)
         else _ ← crt_store pos (Z.lor (Z.land c 0xff) 0x0700); mret (pos + 1));
  if (pos <? 0) || (25 * 80 <? pos) then panic "pos under/overflow"
  else
    pos ← (if 24 <=? pos / 80 then
             _ ← crt_scroll;
             let pos := pos - 80 in
             _ ← crt_clear pos; mret pos
           else mret pos);
    _ ← modify (set_crtpos (u16 pos));
    crt_store pos (Z.lor 32 0x0700).

Definition consputc (c : Z) : M screen () :=
  p ← gets panicked;
  if p : bool then blocked
  else
    _ ← (if c =? BACKSPACE then _ ← uartputc 8; _ ← uartputc 32; uartputc 8 else uartputc c);
    cgaputc c.

Fixpoint consputs (l : list Z) : M screen () :=
  match l with
  | [] => mret ()
  | c :: l => _ ← consputc c; consputs l
  end.

(** ** Formatted output *)

(** The digits of [x], last first: [do ... while((x /= base) != 0)]; [buf]
    has 16 bytes, a store past its end is outside the model. *)
Definition digit (d : Z) : Z := if d <? 10 then 48 + d else 87 + d.
Fixpoint digits_loop (room : nat) (x base : Z) : option (list Z) :=
  match room with
  | O => None
  | S k =>
      let d := digit (x mod base) in
      if x / base =? 0 then Some [d]
      else match digits_loop k (x / base) base with Some l => Some (d :: l) | None => None end
  end.

(** What [printint] puts into [buf]; [xx] is an [int]. *)
Definition printint_buf (xx base : Z) (sign : bool) : option (list Z) :=
  let xx := s32 xx in
  let neg := sign && (xx <? 0) in
  let x := if neg then u32 (- xx) else u32 xx in
  match digits_loop 16 x base with
  | None => None
  | Some l => if neg then if (length l <? 16)%nat then Some (l ++ [45]) else None else Some l
  end.

Definition printint (xx base : Z) (sign : bool) : M screen () :=
  match printint_buf xx base sign with
  | None => fault 0
  | Some l => consputs (rev l)
  end.

(** The words after [fmt] on the stack: an integer or a pointer to a
    string, [None] for NULL. *)
Inductive vararg := VInt (x : Z) | VStr (s : option (list Z)).

Definition PERCENT : Z := 37.
Definition NULL_STR : list Z := chars "(null)".

Fixpoint cprintf (fmt : list Z) (args : list vararg) : M screen () :=
  match fmt with
  | [] => mret ()
  | c :: fmt =>
      if negb (c =? PERCENT) then _ ← consputc c; cprintf fmt args
      else
        match fmt with
        | [] => mret ()
        | c :: fmt =>
            if c =? 100 then
              match args with VInt x :: args => _ ← printint x 10 true; cprintf fmt args | _ => fault 0 end
            else if (c =? 120) || (c =? 112) then
              match args with VInt x :: args => _ ← printint x 16 false; cprintf fmt args | _ => fault 0 end
            else if c =? 115 then
              match args with
              | VStr s :: args => _ ← consputs (default NULL_STR s); cprintf fmt args
              | _ => fault 0
              end
            else if c =? PERCENT then _ ← consputc PERCENT; cprintf fmt args
            else _ ← consputc PERCENT; _ ← consputc c; cprintf fmt args
        end
  end.
