(* ===== verification/Fs.v ===== *)
(** * [kernel/fs.c]: blocks, inodes, directories, paths

    Definitions only.  [char *] arguments that point to memory are
    addresses, those that point to a local structure of the caller are the
    bytes of that structure ([place], [source]); a path is the list of its
    characters up to the NUL.  [icache.lock] makes its critical sections
    atomic; a process that has to wait for an inode's sleep lock is
    [Blocked]. *)

From stdpp Require Import base numbers list gmap strings.
From S2P Require Import Prelude Bytes Machine CString Locks Bio Log FsState Screen.
Open Scope Z_scope.

(** Where data goes, and where it comes from. *)
Inductive place := ToMem (a : Z) | ToLocal.
Inductive source := FromMem (a : Z) | FromLocal (l : list Z).

Fixpoint store_bytes (a : Z) (l : list Z) : M machine () :=
  match l with
  | [] => mret ()
  | v :: l => _ ← store8 a v; store_bytes (a + 1) l
  end.
Fixpoint load_bytes (a : Z) (n : nat) : M machine (list Z) :=
  match n with
  | O => mret []
  | S k => v ← load8 a; l ← load_bytes (a + 1) k; mret (v :: l)
  end.

(** [memmove(dst + k, l, |l|)] and [memmove(.., src + k, n)]. *)
Definition put_bytes (dst : place) (k : Z) (l : list Z) : M fs () :=
  match dst with ToMem a => onmach (store_bytes (a + k) l) | ToLocal => mret () end.
Definition get_bytes (src : source) (k : Z) (n : nat) : M fs (list Z) :=
  match src with FromMem a => onmach (load_bytes (a + k) n) | FromLocal l => mret (sub l (Z.to_nat k) n) end.

(** ** Blocks *)

Definition bzero (dev bno : Z) : M fs () :=
  bp ← onb (bread dev bno);
  _ ← onb (set_bdata bp (replicate (Z.to_nat BSIZE) 0));
  _ ← onj (log_write bp);
  onb (brelse bp).

Definition BBLOCK (b : Z) (sb : superblock) : Z := u32 (b / BPB + sb_bmapstart sb).

(** [bp->data[bi/8] & m], [|= m] and [&= ~m], with [m = 1 << (bi % 8)]. *)
Definition bit_set (d : list Z) (bi : nat) : bool :=
  negb (Z.land (rd8 d (bi / 8)) (Z.shiftl 1 (Z.of_nat bi mod 8)) =? 0).
Definition set_bit (d : list Z) (bi : nat) : list Z :=
  <[(bi / 8)%nat := Z.lor (rd8 d (bi / 8)) (Z.shiftl 1 (Z.of_nat bi mod 8))]> d.
Definition clear_bit (d : list Z) (bi : nat) : list Z :=
  <[(bi / 8)%nat := Z.land (rd8 d (bi / 8)) (Z.lnot (Z.shiftl 1 (Z.of_nat bi mod 8)))]> d.

(** [for(bi = 0; bi < BPB && b + bi < sb.size; bi++)]: the first clear bit. *)
Fixpoint free_bit (n bi : nat) (b size : Z) (d : list Z) : option nat :=
  match n with
  | O => None
  | S k =>
      if b + Z.of_nat bi <? size then
        if bit_set d bi then free_bit k (S bi) b size d else Some bi
      else None
  end.

(** [for(b = 0; b < sb.size; b += BPB)] *)
Fixpoint balloc_loop (fuel : nat) (dev b : Z) : M fs Z :=
  match fuel with
  | O => nofuel
  | S k =>
      sb ← gets sb;
      if b <? sb_size sb then
        bp ← onb (bread dev (BBLOCK b sb));
        d ← onb (bdata bp);
        match free_bit (Z.to_nat BPB) 0 b (sb_size sb) d with
        | Some bi =>
            _ ← onb (set_bdata bp (set_bit d bi));
            _ ← onj (log_write bp);
            _ ← onb (brelse bp);
            _ ← bzero dev (b + Z.of_nat bi);
            mret (b + Z.of_nat bi)
        | None => _ ← onb (brelse bp); balloc_loop k dev (b + BPB)
        end
      else panic "balloc: out of blocks"
  end.

Definition balloc (dev : Z) : M fs Z :=
  sb ← gets sb; balloc_loop (S (Z.to_nat (sb_size sb / BPB) + 1)) dev 0.

Definition bfree (dev b : Z) : M fs () :=
  sb ← gets sb;
  bp ← onb (bread dev (BBLOCK b sb));
  let bi := Z.to_nat (b mod BPB) in
  d ← onb (bdata bp);
  if negb (bit_set d bi) then panic "freeing free block"
  else
    _ ← onb (set_bdata bp (clear_bit d bi));
    _ ← onj (log_write bp);
    onb (brelse bp).

(** ** Inodes *)

Definition IBLOCK (i : Z) (sb : superblock) : Z := u32 (i / IPB + sb_inodestart sb).

(** The offset of [(struct dinode* )bp->data + inum%IPB]. *)
Definition dinode_at (inum : Z) : nat := Z.to_nat (SIZEOF_DINODE * (inum mod IPB)).

(** [dip->type]; storing the fields of [ip] to [*dip], and back. *)
Definition dip_type (d : list Z) (k : nat) : Z := s16 (rd16 d k).
Definition to_dinode (ip : inode) (d : list Z) (k : nat) : list Z :=
  let d := wr16 d k (i_type ip) in
  let d := wr16 d (k + 2) (i_major ip) in
  let d := wr16 d (k + 4) (i_minor ip) in
  let d := wr16 d (k + 6) (i_nlink ip) in
  let d := wr32 d (k + 8) (i_size ip) in
  wr d (k + 12) (concat (le32 <$> i_addrs ip)).
Definition from_dinode (d : list Z) (k : nat) (ip : inode) : inode :=
  Inode (i_dev ip) (i_inum ip) (i_ref ip) (i_lock ip) (i_valid ip)
    (s16 (rd16 d k)) (s16 (rd16 d (k + 2))) (s16 (rd16 d (k + 4))) (s16 (rd16 d (k + 6)))
    (rd32 d (k + 8)) ((fun j => rd32 d (k + 12 + 4 * j)) <$> seq 0 (Z.to_nat NDIRECT + 1)).

Definition iinit (dev : Z) : M fs () :=
  _ ← modify (fun s => set_icache (set_i_lock initsleeplock <$> icache s) s);
  x ← onb (readsb dev);
  _ ← modify (set_sb x);
  onscr (cprintf (chars "sb: size %d nblocks %d ninodes %d nlog %d logstart %d inodestart %d bmap start %d" ++ [NEWLINE])
    (VInt <$> [sb_size x; sb_nblocks x; sb_ninodes x; sb_nlog x; sb_logstart x; sb_inodestart x; sb_bmapstart x])).

(** The scan of [iget]: the entry of the inode, else the first empty slot. *)
Fixpoint iget_scan (dev inum : Z) (i : nat) (empty : option nat) (l : list inode) : nat + option nat :=
  match l with
  | [] => inr empty
  | p :: l =>
      if (0 <? i_ref p) && (i_dev p =? dev) && (i_inum p =? inum) then inl i
      else
        let empty := match empty with None => if i_ref p =? 0 then Some i else None | _ => empty end in
        iget_scan dev inum (S i) empty l
  end.

Definition iget (dev inum : Z) : M fs nat :=
  l ← gets icache;
  match iget_scan dev inum 0 None l with
  | inl i => _ ← seti i (fun p => set_i_ref (i_ref p + 1) p); mret i
  | inr None => panic "iget: no inodes"
  | inr (Some i) =>
      _ ← seti i (set_i_dev dev); _ ← seti i (set_i_inum inum);
      _ ← seti i (set_i_ref 1); _ ← seti i (set_i_valid false);
      mret i
  end.

(** [for(inum = 1; inum < sb.ninodes; inum++)] *)
Fixpoint ialloc_loop (n : nat) (dev type inum : Z) : M fs nat :=
  match n with
  | O => panic "ialloc: no inodes"
  | S k =>
      sb ← gets sb;
      bp ← onb (bread dev (IBLOCK inum sb));
      d ← onb (bdata bp);
      let at_ := dinode_at inum in
      if dip_type d at_ =? 0 then
        _ ← onb (set_bdata bp (wr16 (wr d at_ (replicate (Z.to_nat SIZEOF_DINODE) 0)) at_ type));
        _ ← onj (log_write bp);
        _ ← onb (brelse bp);
        iget dev inum
      else _ ← onb (brelse bp); ialloc_loop k dev type (inum + 1)
  end.

Definition ialloc (dev type : Z) : M fs nat :=
  sb ← gets sb; ialloc_loop (Z.to_nat (sb_ninodes sb - 1)) dev type 1.

Definition iupdate (i : nat) : M fs () :=
  ip ← geti i; sb ← gets sb;
  bp ← onb (bread (i_dev ip) (IBLOCK (i_inum ip) sb));
  d ← onb (bdata bp);
  _ ← onb (set_bdata bp (to_dinode ip d (dinode_at (i_inum ip))));
  _ ← onj (log_write bp);
  onb (brelse bp).

Definition idup (i : nat) : M fs nat := _ ← seti i (fun p => set_i_ref (i_ref p + 1) p); mret i.

(** [myproc()->pid] *)
Definition mypid_of : M fs Z := gets (fun s => mypid (bio (jrn s))).

Definition lock_inode (i : nat) : M fs () :=
  ip ← geti i; me ← mypid_of;
  match acquiresleep me (i_lock ip) with
  | None => blocked
  | Some l => seti i (set_i_lock l)
  end.

Definition ilock (p : option nat) : M fs () :=
  match p with
  | None => panic "ilock"
  | Some i =>
      ip ← geti i;
      if i_ref ip <? 1 then panic "ilock"
      else
        _ ← lock_inode i;
        ip ← geti i;
        if i_valid ip then mret ()
        else
          sb ← gets sb;
          bp ← onb (bread (i_dev ip) (IBLOCK (i_inum ip) sb));
          d ← onb (bdata bp);
          _ ← seti i (from_dinode d (dinode_at (i_inum ip)));
          _ ← onb (brelse bp);
          _ ← seti i (set_i_valid true);
          ip ← geti i;
          if i_type ip =? 0 then panic "ilock: no type" else mret ()
  end.

Definition iunlock (p : option nat) : M fs () :=
  match p with
  | None => panic "iunlock"
  | Some i =>
      ip ← geti i; me ← mypid_of;
      if negb (holdingsleep me (i_lock ip)) || (i_ref ip <? 1) then panic "iunlock"
      else seti i (fun p => set_i_lock (releasesleep (i_lock p)) p)
  end.

(** ** Inode content *)

Definition bmap (i : nat) (bn : Z) : M fs Z :=
  ip ← geti i;
  if bn <? NDIRECT then
    let addr := nth (Z.to_nat bn) (i_addrs ip) 0 in
    if addr =? 0 then
      addr ← balloc (i_dev ip);
      _ ← seti i (fun p => set_i_addrs (<[Z.to_nat bn := addr]> (i_addrs p)) p);
      mret addr
    else mret addr
  else
    let bn := bn - NDIRECT in
    if bn <? NINDIRECT then
      addr ← (let addr := nth (Z.to_nat NDIRECT) (i_addrs ip) 0 in
              if addr =? 0 then
                addr ← balloc (i_dev ip);
                _ ← seti i (fun p => set_i_addrs (<[Z.to_nat NDIRECT := addr]> (i_addrs p)) p);
                mret addr
              else mret addr);
      bp ← onb (bread (i_dev ip) addr);
      d ← onb (bdata bp);
      let addr := rd32 d (4 * Z.to_nat bn) in
      addr ← (if addr =? 0 then
                addr ← balloc (i_dev ip);
                d ← onb (bdata bp);
                _ ← onb (set_bdata bp (wr32 d (4 * Z.to_nat bn) addr));
                _ ← onj (log_write bp);
                mret addr
              else mret addr);
      _ ← onb (brelse bp);
      mret addr
    else panic "bmap: out of range".

(** [for(i = 0; i < NDIRECT; i++)] *)
Fixpoint trunc_direct (n k : nat) (i : nat) : M fs () :=
  match n with
  | O => mret ()
  | S n =>
      ip ← geti i;
      let a := nth k (i_addrs ip) 0 in
      _ ← (if negb (a =? 0) then
             _ ← bfree (i_dev ip) a;
             seti i (fun p => set_i_addrs (<[k := 0]> (i_addrs p)) p)
           else mret ());
      trunc_direct n (S k) i
  end.

(** [for(j = 0; j < NINDIRECT; j++)] over the indirect block [bp]. *)
Fixpoint trunc_indirect (n j : nat) (dev : Z) (bp : nat) : M fs () :=
  match n with
  | O => mret ()
  | S n =>
      d ← onb (bdata bp);
      let a := rd32 d (4 * j) in
      _ ← (if negb (a =? 0) then bfree dev a else mret ());
      trunc_indirect n (S j) dev bp
  end.

Definition itrunc (i : nat) : M fs () :=
  _ ← trunc_direct (Z.to_nat NDIRECT) 0 i;
  ip ← geti i;
  let a := nth (Z.to_nat NDIRECT) (i_addrs ip) 0 in
  _ ← (if negb (a =? 0) then
         bp ← onb (bread (i_dev ip) a);
         _ ← trunc_indirect (Z.to_nat NINDIRECT) 0 (i_dev ip) bp;
         _ ← onb (brelse bp);
         _ ← bfree (i_dev ip) a;
         seti i (fun p => set_i_addrs (<[Z.to_nat NDIRECT := 0]> (i_addrs p)) p)
       else mret ());
  _ ← seti i (set_i_size 0);
  iupdate i.

Definition iput (i : nat) : M fs () :=
  _ ← lock_inode i;
  ip ← geti i;
  _ ← (if i_valid ip && (i_nlink ip =? 0) then
         ip ← geti i;
         let r := i_ref ip in
         if r =? 1 then
           _ ← itrunc i;
           _ ← seti i (set_i_type 0);
           _ ← iupdate i;
           seti i (set_i_valid false)
         else mret ()
       else mret ());
  _ ← seti i (fun p => set_i_lock (releasesleep (i_lock p)) p);
  seti i (fun p => set_i_ref (i_ref p - 1) p).

Definition iunlockput (p : option nat) : M fs () :=
  _ ← iunlock p;
  match p with None => fault 0 | Some i => iput i end.

(** [struct stat] *)
Record stat := Stat { st_type : Z; st_dev : Z; st_ino : Z; st_nlink : Z; st_size : Z }.
Definition stati (i : nat) : M fs stat :=
  ip ← geti i; mret (Stat (i_type ip) (i_dev ip) (i_inum ip) (i_nlink ip) (i_size ip)).

(** [devsw[major].read] and [.write]: the bytes read, the bytes to write. *)
Class Devsw := {
  dev_read : Z -> option (nat -> Z -> M fs (Z * list Z));
  dev_write : Z -> option (nat -> source -> Z -> M fs Z) }.

Section inode_data.
Context {DS : Devsw}.

(** [for(tot=0; tot<n; tot+=m, off+=m, dst+=m)]; every round but the last
    ends at a block boundary, so [fuel] rounds cover [fuel - 1] blocks. *)
Fixpoint readi_loop (fuel : nat) (i : nat) (dst : place) (tot off n : Z) : M fs (list Z) :=
  match fuel with
  | O => nofuel
  | S k =>
      if tot <? n then
        ip ← geti i;
        addr ← bmap i (off / BSIZE);
        bp ← onb (bread (i_dev ip) addr);
        let m := Z.min (n - tot) (BSIZE - off mod BSIZE) in
        d ← onb (bdata bp);
        let chunk := sub d (Z.to_nat (off mod BSIZE)) (Z.to_nat m) in
        _ ← put_bytes dst tot chunk;
        _ ← onb (brelse bp);
        r ← readi_loop k i dst (tot + m) (u32 (off + m)) n;
        mret (chunk ++ r)
      else mret []
  end.

(** The result and the bytes stored at [dst]. *)
Definition readi (i : nat) (dst : place) (off n : Z) : M fs (Z * list Z) :=
  ip ← geti i;
  if i_type ip =? T_DEV then
    if (i_major ip <? 0) || (NDEV <=? i_major ip) then mret (-1, [])
    else match dev_read (i_major ip) with
         | None => mret (-1, [])
         | Some read =>
             '(r, l) ← read i (s32 n);
             _ ← put_bytes dst 0 l;
             mret (r, l)
         end
  else if (i_size ip <? off) || (u32 (off + n) <? off) then mret (-1, [])
  else
    let n := if i_size ip <? u32 (off + n) then i_size ip - off else n in
    l ← readi_loop (S (S (Z.to_nat (n / BSIZE + 1)))) i dst 0 off n;
    mret (s32 n, l).

Fixpoint writei_loop (fuel : nat) (i : nat) (src : source) (tot off n : Z) : M fs Z :=
  match fuel with
  | O => nofuel
  | S k =>
      if tot <? n then
        ip ← geti i;
        addr ← bmap i (off / BSIZE);
        bp ← onb (bread (i_dev ip) addr);
        let m := Z.min (n - tot) (BSIZE - off mod BSIZE) in
        l ← get_bytes src tot (Z.to_nat m);
        d ← onb (bdata bp);
        _ ← onb (set_bdata bp (wr d (Z.to_nat (off mod BSIZE)) l));
        _ ← onj (log_write bp);
        _ ← onb (brelse bp);
        writei_loop k i src (tot + m) (u32 (off + m)) n
      else mret off
  end.

Definition writei (i : nat) (src : source) (off n : Z) : M fs Z :=
  ip ← geti i;
  if i_type ip =? T_DEV then
    if (i_major ip <? 0) || (NDEV <=? i_major ip) then mret (-1)
    else match dev_write (i_major ip) with
         | None => mret (-1)
         | Some write => write i src (s32 n)
         end
  else if (i_size ip <? off) || (u32 (off + n) <? off) then mret (-1)
  else if MAXFILE * BSIZE <? u32 (off + n) then mret (-1)
  else
    off ← writei_loop (S (S (Z.to_nat (n / BSIZE + 1)))) i src 0 off n;
    ip ← geti i;
    _ ← (if (0 <? n) && (i_size ip <? off) then
           _ ← seti i (set_i_size off); iupdate i
         else mret ());
    mret (s32 n).

(** ** Directories *)

Definition namecmp (s t : list Z) : M fs Z := strncmp (arr s) (arr t) DIRSIZ.

(** [struct dirent] *)
Definition de_inum (d : list Z) : Z := rd16 d 0.
Definition de_name (d : list Z) : list Z := sub d 2 DIRSIZ.

(** [for(off = 0; off < dp->size; off += sizeof(de))] *)
Fixpoint dirlookup_loop (fuel : nat) (dp : nat) (name : list Z) (off : Z) : M fs (option (nat * Z)) :=
  match fuel with
  | O => nofuel
  | S k =>
      p ← geti dp;
      if off <? i_size p then
        '(r, de) ← readi dp ToLocal off SIZEOF_DIRENT;
        if negb (r =? SIZEOF_DIRENT) then panic "dirlookup read"
        else if de_inum de =? 0 then dirlookup_loop k dp name (u32 (off + SIZEOF_DIRENT))
        else
          c ← namecmp name (de_name de);
          if c =? 0 then
            i ← iget (i_dev p) (de_inum de); mret (Some (i, off))
          else dirlookup_loop k dp name (u32 (off + SIZEOF_DIRENT))
      else mret None
  end.

(** The inode and the offset of its entry. *)
Definition dirlookup (dp : nat) (name : list Z) : M fs (option (nat * Z)) :=
  p ← geti dp;
  if negb (i_type p =? T_DIR) then panic "dirlookup not DIR"
  else dirlookup_loop (S (Z.to_nat (i_size p / SIZEOF_DIRENT + 1))) dp name 0.

(** The first empty entry of [dp], or its end. *)
Fixpoint dirlink_loop (fuel : nat) (dp : nat) (off : Z) : M fs Z :=
  match fuel with
  | O => nofuel
  | S k =>
      p ← geti dp;
      if off <? i_size p then
        '(r, de) ← readi dp ToLocal off SIZEOF_DIRENT;
        if negb (r =? SIZEOF_DIRENT) then panic "dirlink read"
        else if de_inum de =? 0 then mret off
        else dirlink_loop k dp (off + SIZEOF_DIRENT)
      else mret off
  end.

Definition dirlink (dp : nat) (name : list Z) (inum : Z) : M fs Z :=
  o ← dirlookup dp name;
  match o with
  | Some (ip, _) => _ ← iput ip; mret (-1)
  | None =>
      p ← geti dp;
      off ← dirlink_loop (S (Z.to_nat (i_size p / SIZEOF_DIRENT + 1))) dp 0;
      nm ← strncpy (arr name) DIRSIZ;
      r ← writei dp (FromLocal (le16 inum ++ nm)) off SIZEOF_DIRENT;
      if negb (r =? SIZEOF_DIRENT) then panic "dirlink" else mret 0
  end.

(** ** Paths *)

Definition SLASH : Z := 47.

Fixpoint skip_slashes (path : list Z) : list Z :=
  match path with
  | c :: r => if c =? SLASH then skip_slashes r else path
  | [] => []
  end.

(** The characters up to the next slash, and the rest. *)
Fixpoint take_elem (path : list Z) : list Z * list Z :=
  match path with
  | c :: r => if c =? SLASH then ([], path) else let '(e, rest) := take_elem r in (c :: e, rest)
  | [] => ([], [])
  end.

(** The rest of the path and the new contents of [name]. *)
Definition skipelem (path name : list Z) : option (list Z * list Z) :=
  match skip_slashes path with
  | [] => None
  | path =>
      let '(s, path) := take_elem path in
      let name :=
        if (DIRSIZ <=? length s)%nat then wr name 0 (take DIRSIZ s)
        else wr name 0 (s ++ [0]) in
      Some (skip_slashes path, name)
  end.

Fixpoint namex_loop (fuel : nat) (ip : nat) (path : list Z) (parent : bool) (name : list Z) :
    M fs (option nat * list Z) :=
  match fuel with
  | O => nofuel
  | S k =>
      match skipelem path name with
      | Some (path, name) =>
          _ ← ilock (Some ip);
          p ← geti ip;
          if negb (i_type p =? T_DIR) then _ ← iunlockput (Some ip); mret (None, name)
          else if parent && bool_decide (path = []) then
            _ ← iunlock (Some ip); mret (Some ip, name)
          else
            o ← dirlookup ip name;
            match o with
            | None => _ ← iunlockput (Some ip); mret (None, name)
            | Some (next, _) => _ ← iunlockput (Some ip); namex_loop k next path parent name
            end
      | None => if parent then _ ← iput ip; mret (None, name) else mret (Some ip, name)
      end
  end.

Definition namex (path : list Z) (parent : bool) (name : list Z) : M fs (option nat * list Z) :=
  ip ← (match path with
        | c :: _ => if c =? SLASH then iget ROOTDEV ROOTINO
                    else cwd ← gets mycwd; match cwd with Some i => idup i | None => fault 0 end
        | [] => cwd ← gets mycwd; match cwd with Some i => idup i | None => fault 0 end
        end);
  namex_loop (S (length path)) ip path parent name.

Definition namei (path : list Z) : M fs (option nat) :=
  '(ip, _) ← namex path false (replicate DIRSIZ 0); mret ip.

(** The parent and the last element. *)
Definition nameiparent (path name : list Z) : M fs (option nat * list Z) := namex path true name.
End inode_data.
