(* ===== verification/TxSpec.v ===== *)
(** * Blocks inside a transaction

    The code of [fs.c] sees the disk through [bread], [log_write] and
    [brelse] inside a transaction.  [tx] describes a point of such code:
    the buffers it holds, the blocks it has logged, and, by [blocks], the
    contents every block has for it. *)

From stdpp Require Import base numbers list gmap strings.
From S2P Require Import Prelude Bytes Machine Locks Bio BioSpec Log BioAbs LogSpec LogCrash.
From S2P Require Import LogTx FsState.
Open Scope Z_scope.

(** What the code reads in block [n]. *)
Definition blocks (s : fs) (n : Z) : list Z := view (bio (jrn s)) n.

Section tx.
(** The log has [sz] blocks from [st] on; the transaction began in [s0]. *)
Context (st sz : Z) (s0 : jst).

Record tx (H : gmap nat (Z * bool)) (L : gset Z) (s : jst) : Prop := {
  tx_holds : exists l, holds (bio s) l H L;
  tx_blocks : (list_to_set (log_blocks (jlog s)) : gset Z) = L;
  tx_log : log_ok (bio s) (jlog s);
  tx_busy : l_outstanding (jlog s) = 1 /\ l_committing (jlog s) = false;
  tx_region : l_start (jlog s) = st /\ l_size (jlog s) = sz;
  tx_disk : same_disk (bio s0) (bio s) }.

Lemma in_tx_tx s : in_tx st sz s0 s -> tx ∅ (list_to_set (log_blocks (jlog s))) s.
Proof. intros [A1 A2 A3 A4 A5]. by split. Qed.
Lemma tx_in_tx L s : tx ∅ L s -> in_tx st sz s0 s.
Proof. intros [A1 A2 A3 A4 A5 A6]. split; try done. by rewrite A2. Qed.

Lemma tx_count H L s : tx H L s -> lh_n (jlog s) = Z.of_nat (size L).
Proof.
  intros [_ A2 A3 _ _ _]. rewrite <- A2, size_list_to_set by apply A3. rewrite (log_blocks_length _ _ A3). pose proof (lo_n _ _ A3). lia.
Qed.

(** A block of the disk outside the log. *)
Definition on_disk (n : Z) : Prop := in_range (bio s0) n.
Definition loggable_block (n : Z) : Prop := on_disk n /\ ~ st <= n < st + sz.

Lemma tx_len H L s n : tx H L (jrn s) -> on_disk n -> length (blocks s n) = Z.to_nat BSIZE.
Proof.
  intros [[l A1] _ _ _ _ A6] Hn. eapply view_len; [exact A1|]. by rewrite (same_range _ _ _ A6).
Qed.

(** A step of the cache that leaves the log alone. *)
Lemma tx_bio H H' L s b : tx H L s -> (exists l, holds b l H' L) -> same_disk (bio s) b -> tx H' L (set_bio b s).
Proof.
  intros [A1 A2 A3 A4 A5 A6] Hb Hd. split; cbn [bio jlog set_bio]; try done; [|by etrans].
  apply (log_ok_wrote (bio s) b []); [by apply wrote_nil|done].
Qed.

Section steps.
Context (s : fs) (H : gmap nat (Z * bool)) (L : gset Z) (Hs : tx H L (jrn s)).

Lemma bread_tx n : on_disk n -> (forall i c, H !! i <> Some (n, c)) -> (size H + size L < NBUF)%nat ->
  exists i s', onb (bread 1 n) s = Ret (i, s') /\ tx (<[i := (n, false)]> H) L (jrn s') /\ H !! i = None /\
    (forall m, blocks s' m = blocks s m) /\ s' = set_jrn (jrn s') s.
Proof.
  intros Hn Hno Hroom. destruct (tx_holds _ _ _ Hs) as [l Hl].
  destruct (bread_wp _ l H L Hl n) as (i & b & Hr & Hb & HN & Hd & Hv); [|done|by left|].
  { by rewrite (same_range _ _ _ (tx_disk _ _ _ Hs)). }
  exists i, (set_jrn (set_bio b (jrn s)) s). split; [unfold onb, onj, onbio, zoom; by rewrite Hr|].
  split; [by eapply tx_bio; [exact Hs|by exists l|]|]. by split.
Qed.

Lemma bdata_tx i n c : H !! i = Some (n, c) -> onb (bdata i) s = Ret (blocks s n, s).
Proof.
  intros Hi. destruct (tx_holds _ _ _ Hs) as [l Hl].
  destruct (held_buf _ l _ _ Hl i n c Hi) as (x & Hx & _ & _ & _ & _ & _ & Hdat & _).
  apply core_lookup_inv in Hx as (b & Hb & <-). cbn [strip set_b_prev set_b_next b_data] in Hdat.
  unfold onb, onj, onbio, zoom, bdata. unfold mbind, M_bind, getb, mret, M_ret. rewrite Hb. rewrite Hdat.
  unfold blocks. destruct s as [? [] ? ? ? ? ? ? ? ? ?]. done.
Qed.

Lemma set_bdata_tx i n c d : H !! i = Some (n, c) -> length d = Z.to_nat BSIZE ->
  exists s', onb (set_bdata i d) s = Ret ((), s') /\ tx (<[i := (n, true)]> H) L (jrn s') /\
    (forall m, blocks s' m = update (blocks s) (n, d) m) /\ s' = set_jrn (jrn s') s.
Proof.
  intros Hi Hd. destruct (tx_holds _ _ _ Hs) as [l Hl].
  destruct (set_bdata_wp _ l H L Hl i n c d Hi Hd) as (b & Hr & Hb & Hsd & Hv & Hv').
  exists (set_jrn (set_bio b (jrn s)) s). split; [unfold onb, onj, onbio, zoom; by rewrite Hr|].
  split; [by eapply tx_bio; [exact Hs|by exists l|]|]. split; [|done].
  intros m. unfold blocks, update. cbn [fst snd jrn set_jrn bio set_bio]. destruct (decide (m = n)) as [->|Hm]; [done|by apply Hv'].
Qed.

Lemma log_write_tx i n c : H !! i = Some (n, c) -> loggable_block n -> (size L <= Z.to_nat MAXOPBLOCKS)%nat -> MAXOPBLOCKS + 1 < sz ->
  exists s', onj (log_write i) s = Ret ((), s') /\ tx (<[i := (n, false)]> H) ({[n]} ∪ L) (jrn s') /\
    (forall m, blocks s' m = blocks s m) /\ s' = set_jrn (jrn s') s.
Proof.
  intros Hi [Hn Hlog] HL Hsz. pose proof (tx_count _ _ _ Hs) as Hcnt. destruct Hs as [[l A1] A2 A3 [A4 A4'] [A5 A5'] A6].
  destruct s as [m0 [b g] q1 q2 q3 q4 q5 q6 q7 q8 q9]. cbn [jrn bio jlog] in *. unfold MAXOPBLOCKS in *.
  rewrite <- A2 in A1.
  destruct (log_write_run b l H g i n c A1 Hi A3) as (b' & g' & Hr & Hb & Hg & [Hlb Hreg] & Hd & Hv);
    [unfold LOGSIZE, MAXOPBLOCKS; lia|lia|lia|by unfold home, on_disk, in_range in *; lia|]. destruct Hreg as (R1 & R2 & R3 & R4).
  eexists. split; [unfold onj, zoom; cbn [jrn]; by rewrite Hr|]. cbn [jrn set_jrn]. split; [|by split].
  assert (list_to_set (log_blocks g') = {[n]} ∪ L) as E.
  { rewrite Hlb, <- A2. destruct (decide (n ∈ log_blocks g)); [set_solver|]. rewrite list_to_set_app_L. set_solver. }
  split; cbn [bio jlog]; [exists l; by rewrite <- E|done|done|by rewrite R3, R4|by rewrite R1, R2|by etrans].
Qed.

Lemma brelse_tx i n : H !! i = Some (n, false) ->
  exists s', onb (brelse i) s = Ret ((), s') /\ tx (delete i H) L (jrn s') /\
    (forall m, blocks s' m = blocks s m) /\ s' = set_jrn (jrn s') s.
Proof.
  intros Hi. destruct (tx_holds _ _ _ Hs) as [l Hl].
  destruct (brelse_wp _ l H L i n Hl Hi) as (b & l' & Hr & Hb & Hd & Hv).
  exists (set_jrn (set_bio b (jrn s)) s). split; [unfold onb, onj, onbio, zoom; by rewrite Hr|].
  split; [by eapply tx_bio; [exact Hs|by exists l'|]|]. by split.
Qed.
End steps.
End tx.
