(* ===== verification/FsDisk.v ===== *)
(** * The layout of the disk

    The bitmap of used blocks, the inodes and the blocks they own, as
    functions of the contents [V] of all blocks.  [consistent] says that
    every block has at most one owner and that owned blocks are marked as
    used; freeing and reusing blocks keep it. *)

From stdpp Require Import base numbers list gmap strings.
From S2P Require Import Prelude Bytes Machine Locks Bio Log LogTx FsState Fs.
Open Scope Z_scope.

(** ** Bits *)

Lemma bit_set_testbit d bi : bit_set d bi = Z.testbit (rd8 d (bi / 8)) (Z.of_nat bi mod 8).
Proof.
  unfold bit_set. rewrite Z.shiftl_1_l. pose proof (Z.mod_pos_bound (Z.of_nat bi) 8 ltac:(lia)) as Hm.
  destruct (Z.testbit (rd8 d (bi / 8)) (Z.of_nat bi mod 8)) eqn:E.
  - apply negb_true_iff, Z.eqb_neq. intros H0. apply (f_equal (fun x => Z.testbit x (Z.of_nat bi mod 8))) in H0.
    rewrite Z.land_spec, E, Z.pow2_bits_true, Z.testbit_0_l in H0 by lia. done.
  - apply negb_false_iff, Z.eqb_eq. apply Z.bits_inj'. intros n Hn. rewrite Z.land_spec, Z.testbit_0_l.
    destruct (decide (n = Z.of_nat bi mod 8)) as [->|Hne]; [by rewrite E|].
    by rewrite Z.pow2_bits_false, andb_false_r by lia.
Qed.

Lemma rd8_insert d i j v : (j < length d)%nat -> rd8 (<[j := v]> d) i = if decide (i = j) then v else rd8 d i.
Proof.
  intros Hj. unfold rd8. rewrite !nth_lookup. destruct (decide (i = j)) as [->|Hne].
  - by rewrite list_lookup_insert_eq.
  - by rewrite list_lookup_insert_ne by done.
Qed.

Lemma same_bit (i j : nat) : (i / 8 = j / 8)%nat -> Z.of_nat i mod 8 = Z.of_nat j mod 8 -> i = j.
Proof.
  intros H1 H2. assert (i mod 8 = j mod 8)%nat as H3 by (apply Nat2Z.inj; by rewrite !Nat2Z.inj_mod).
  rewrite (Nat.div_mod_eq i 8), (Nat.div_mod_eq j 8). by rewrite H1, H3.
Qed.

Lemma bit_set_set d bi bj : (bi / 8 < length d)%nat ->
  bit_set (set_bit d bi) bj = bit_set d bj || bool_decide (bj = bi).
Proof.
  intros Hl. rewrite !bit_set_testbit. unfold set_bit. rewrite rd8_insert, Z.shiftl_1_l by done.
  pose proof (Z.mod_pos_bound (Z.of_nat bi) 8 ltac:(lia)). pose proof (Z.mod_pos_bound (Z.of_nat bj) 8 ltac:(lia)).
  destruct (decide (bj / 8 = bi / 8)%nat) as [E|E].
  - rewrite Z.lor_spec, E. f_equal. destruct (decide (bj = bi)) as [->|Hne].
    + by rewrite Z.pow2_bits_true, bool_decide_eq_true_2 by lia.
    + rewrite bool_decide_eq_false_2 by done. apply Z.pow2_bits_false. intros E'. by apply Hne, same_bit.
  - rewrite bool_decide_eq_false_2 by congruence. by rewrite orb_false_r.
Qed.

Lemma bit_set_clear d bi bj : (bi / 8 < length d)%nat ->
  bit_set (clear_bit d bi) bj = bit_set d bj && negb (bool_decide (bj = bi)).
Proof.
  intros Hl. rewrite !bit_set_testbit. unfold clear_bit. rewrite rd8_insert, Z.shiftl_1_l by done.
  pose proof (Z.mod_pos_bound (Z.of_nat bi) 8 ltac:(lia)). pose proof (Z.mod_pos_bound (Z.of_nat bj) 8 ltac:(lia)).
  destruct (decide (bj / 8 = bi / 8)%nat) as [E|E].
  - rewrite Z.land_spec, Z.lnot_spec, E by lia. f_equal. f_equal. destruct (decide (bj = bi)) as [->|Hne].
    + by rewrite Z.pow2_bits_true, bool_decide_eq_true_2 by lia.
    + rewrite bool_decide_eq_false_2 by done. apply Z.pow2_bits_false. intros E'. by apply Hne, same_bit.
  - rewrite bool_decide_eq_false_2 by congruence. by rewrite andb_true_r.
Qed.

(** A block of bytes. *)
Definition block_ok (d : list Z) : Prop := length d = Z.to_nat BSIZE /\ bytes d.

Lemma lor_bit_range a k : 0 <= a < 256 -> 0 <= k < 8 -> 0 <= Z.lor a (2 ^ k) < 256.
Proof.
  intros Ha Hk. assert (0 <= 2 ^ k < 2 ^ 8) as Hp by (split; [lia|apply Z.pow_lt_mono_r; lia]).
  split; [apply Z.lor_nonneg; lia|]. destruct (decide (Z.lor a (2 ^ k) = 0)) as [->|Hz]; [lia|].
  apply (Z.log2_lt_pow2 _ 8); [assert (0 <= Z.lor a (2 ^ k)) by (apply Z.lor_nonneg; lia); lia|].
  rewrite Z.log2_lor by lia. rewrite Z.log2_pow2 by lia.
  assert (Z.log2 a < 8) by (destruct (decide (a = 0)) as [->|]; [by vm_compute|apply Z.log2_lt_pow2; lia]). lia.
Qed.

Lemma land_range a m : 0 <= a < 256 -> 0 <= Z.land a m < 256.
Proof.
  intros Ha. split; [apply Z.land_nonneg; lia|]. destruct (decide (Z.land a m = 0)) as [->|Hz]; [lia|].
  assert (0 <= Z.land a m) by (apply Z.land_nonneg; lia).
  apply Z.le_lt_trans with a; [|lia]. apply Z.ldiff_le; [lia|]. apply Z.bits_inj'. intros n Hn.
  rewrite Z.ldiff_spec, Z.land_spec, Z.testbit_0_l. by destruct (Z.testbit a n), (Z.testbit m n).
Qed.

Lemma block_ok_set d bi : block_ok d -> block_ok (set_bit d bi).
Proof.
  intros [Hl Hb]. split; [unfold set_bit; by rewrite length_insert|]. apply Forall_insert; [done|].
  rewrite Z.shiftl_1_l. apply lor_bit_range; [by apply rd8_range|]. pose proof (Z.mod_pos_bound (Z.of_nat bi) 8 ltac:(lia)). lia.
Qed.

Lemma block_ok_clear d bi : block_ok d -> block_ok (clear_bit d bi).
Proof.
  intros [Hl Hb]. split; [unfold clear_bit; by rewrite length_insert|]. apply Forall_insert; [done|].
  apply land_range. by apply rd8_range.
Qed.

(** ** Inodes on the disk *)

Lemma length_words l : length (concat (le32 <$> l)) = (4 * length l)%nat.
Proof. induction l as [|v l IH]; [done|]. cbn [fmap list_fmap concat length]. rewrite length_app, IH. cbn. lia. Qed.

Lemma rd8_words l j v i : l !! j = Some v -> (i < 4)%nat -> rd8 (concat (le32 <$> l)) (4 * j + i) = rd8 (le32 v) i.
Proof.
  revert j. induction l as [|w l IH]; intros [|j] Hj Hi; [done..| |].
  - injection Hj as ->. unfold rd8. cbn [fmap list_fmap concat]. by rewrite app_nth1 by (cbn; lia).
  - cbn [fmap list_fmap concat]. unfold rd8. rewrite app_nth2 by (cbn; lia).
    replace (4 * S j + i - length (le32 w))%nat with (4 * j + i)%nat by (cbn; lia). by apply IH.
Qed.

(** A word of an array of words. *)
Lemma rd32_words d k l j v : l !! j = Some v -> (k + 4 * length l <= length d)%nat ->
  rd32 (wr d k (concat (le32 <$> l))) (k + 4 * j) = u32 v.
Proof.
  intros Hj Hl. pose proof (lookup_lt_Some _ _ _ Hj). unfold rd32. rewrite !rd8_wr_in by (rewrite length_words; lia).
  replace (k + 4 * j - k)%nat with (4 * j + 0)%nat by lia. replace (k + 4 * j + 1 - k)%nat with (4 * j + 1)%nat by lia.
  replace (k + 4 * j + 2 - k)%nat with (4 * j + 2)%nat by lia. replace (k + 4 * j + 3 - k)%nat with (4 * j + 3)%nat by lia.
  rewrite !(rd8_words l j v) by (done || lia). unfold rd8, le32. cbn [nth]. lia.
Qed.

(** The fields an inode has in memory fit those on the disk. *)
Record inode_fits (ip : inode) : Prop := {
  if_type : - 2 ^ 15 <= i_type ip < 2 ^ 15;
  if_major : - 2 ^ 15 <= i_major ip < 2 ^ 15;
  if_minor : - 2 ^ 15 <= i_minor ip < 2 ^ 15;
  if_nlink : - 2 ^ 15 <= i_nlink ip < 2 ^ 15;
  if_size : 0 <= i_size ip < 2 ^ 32;
  if_len : length (i_addrs ip) = 13%nat;
  if_addrs : Forall (fun a => 0 <= a < 2 ^ 32) (i_addrs ip) }.

Lemma length_to_dinode ip d k : length (to_dinode ip d k) = length d.
Proof. unfold to_dinode, wr16, wr32. by rewrite !length_wr. Qed.

Ltac wr_out := repeat first [rewrite rd16_wr_out by (cbn [length le16 le32]; rewrite ?length_words; lia)
                            |rewrite rd32_wr_out by (cbn [length le16 le32]; rewrite ?length_words; lia)].

(** What [iupdate] stores, [ilock] loads. *)
Lemma from_to_dinode ip d k : inode_fits ip -> (k + 64 <= length d)%nat -> from_dinode (to_dinode ip d k) k ip = ip.
Proof.
  intros [H1 H2 H3 H4 H5 H6 H7] Hk. unfold from_dinode, to_dinode, wr16, wr32.
  assert (forall d' o v, (o + 2 <= length d')%nat -> rd16 (wr d' o (le16 v)) o = u16 v) as R16 by apply rd16_wr16.
  assert (forall d' o v, (o + 4 <= length d')%nat -> rd32 (wr d' o (le32 v)) o = u32 v) as R32 by apply rd32_wr32.
  assert (((fun j => rd32 (wr (wr (wr (wr (wr (wr d k (le16 (i_type ip))) (k + 2) (le16 (i_major ip))) (k + 4) (le16 (i_minor ip)))
     (k + 6) (le16 (i_nlink ip))) (k + 8) (le32 (i_size ip))) (k + 12) (concat (le32 <$> i_addrs ip))) (k + 12 + 4 * j)) <$> seq 0 (Z.to_nat NDIRECT + 1))
     = i_addrs ip) as ->.
  { apply list_eq. intros j. rewrite list_lookup_fmap. destruct (decide (j < 13)%nat) as [Hj|Hj].
    - rewrite lookup_seq_lt by (unfold NDIRECT; lia). cbn [fmap option_fmap option_map].
      destruct (lookup_lt_is_Some_2 (i_addrs ip) j) as [v Hv]; [lia|].
      rewrite Nat.add_0_l, (rd32_words _ _ _ j v Hv), Hv by (rewrite !length_wr; lia). f_equal. apply u32_id. by apply (Forall_lookup_1 _ _ _ _ H7 Hv).
    - rewrite !(proj2 (lookup_ge_None _ _)); [done|lia|rewrite length_seq; unfold NDIRECT; lia]. }
  destruct ip as [dev inum ref lk val ty ma mi nl si ad]. cbn [i_dev i_inum i_ref i_lock i_valid i_type i_major i_minor i_nlink i_size i_addrs] in *.
  f_equal; wr_out; rewrite ?R16, ?R32 by (rewrite ?length_wr; lia); lia.
Qed.

(** Other inodes of the block keep theirs. *)
Lemma from_to_other ip jp d k k' : (k + 64 <= k' \/ k' + 64 <= k)%nat -> length (i_addrs ip) = 13%nat ->
  from_dinode (to_dinode ip d k) k' jp = from_dinode d k' jp.
Proof.
  intros Hk Hl. unfold from_dinode, to_dinode, wr16, wr32. f_equal; wr_out; try done.
  apply list_fmap_ext. intros i j Hj. apply lookup_seq in Hj as [-> Hj]. unfold NDIRECT in Hj. wr_out. done.
Qed.

Lemma block_ok_to_dinode ip d k : block_ok d -> block_ok (to_dinode ip d k).
Proof.
  intros [Hl Hb]. split; [by rewrite length_to_dinode|]. unfold to_dinode, wr16, wr32.
  repeat apply bytes_wr; try done; try apply bytes_le16; try apply bytes_le32.
  unfold bytes. apply Forall_concat, Forall_fmap, Forall_true. intros v. apply bytes_le32.
Qed.

Lemma from_dinode_fits d k ip : bytes d -> inode_fits (from_dinode d k ip).
Proof.
  intros Hb. split; cbn [i_type i_major i_minor i_nlink i_size i_addrs from_dinode]; try lia.
  - by apply rd32_range.
  - rewrite length_fmap, length_seq. unfold NDIRECT. lia.
  - apply Forall_fmap, Forall_true. intros j. by apply rd32_range.
Qed.

(** ** Regions *)

(** The super block: the log, the inodes, the bitmap and the data follow
    each other on a disk of [len] blocks. *)
Definition data_start (x : superblock) : Z := sb_bmapstart x + (sb_size x / BPB + 1).

Record geometry (x : superblock) (st sz len : Z) : Prop := {
  g_log : 1 < st /\ MAXOPBLOCKS + 1 < sz /\ st + sz <= sb_inodestart x;
  g_inodes : 0 < sb_ninodes x /\ sb_inodestart x + (sb_ninodes x / IPB + 1) <= sb_bmapstart x;
  g_bmap : data_start x <= sb_size x;
  g_size : sb_size x <= len < 2 ^ 31;
  g_few : sb_size x / BPB + 1 < MAXOPBLOCKS }.

Section disk.
Context (x : superblock) (st sz len : Z) (G : geometry x st sz len).
Implicit Types (V : Z -> list Z).

Definition is_bmap (n : Z) : Prop := sb_bmapstart x <= n < data_start x.
Definition is_data (n : Z) : Prop := data_start x <= n < sb_size x.
Definition is_inode (n : Z) : Prop := sb_inodestart x <= n < sb_bmapstart x.

Definition used V (b : Z) : bool := bit_set (V (BBLOCK b x)) (Z.to_nat (b mod BPB)).

(** The constants, for [lia]. *)
Ltac geo := unfold is_bmap, is_data, is_inode, data_start, BBLOCK, IBLOCK, BPB, IPB, BSIZE, SIZEOF_DINODE, MAXOPBLOCKS in *;
  change (512 * 8) with 4096 in *; change (512 / 64) with 8 in *.

Lemma BBLOCK_bmap b : 0 <= b < sb_size x -> BBLOCK b x = sb_bmapstart x + b / BPB /\ is_bmap (BBLOCK b x).
Proof. intros Hb. destruct G as [[? [? ?]] [? ?] Hg Hs _]. geo. lia. Qed.

Lemma IBLOCK_inode i : 0 <= i < sb_ninodes x -> IBLOCK i x = sb_inodestart x + i / IPB /\ is_inode (IBLOCK i x).
Proof. intros Hi. destruct G as [[? [? ?]] [? ?] Hg Hs _]. geo. lia. Qed.

(** The regions are apart. *)
Lemma regions n : (is_bmap n \/ is_data n \/ is_inode n) -> 0 <= n < len /\ n <> 1 /\ ~ st <= n < st + sz.
Proof. destruct G as [[? [? ?]] [? ?] Hg Hs _]. geo. lia. Qed.

Lemma bmap_apart n : is_bmap n -> ~ is_data n /\ ~ is_inode n.
Proof. unfold is_bmap, is_data, is_inode. lia. Qed.
Lemma data_apart n : is_data n -> ~ is_bmap n /\ ~ is_inode n.
Proof. destruct G as [[? [? ?]] [? ?] Hg Hs _]. geo. lia. Qed.

(** A bit stands for one block. *)
Lemma same_block b c : 0 <= b < sb_size x -> 0 <= c < sb_size x -> BBLOCK b x = BBLOCK c x ->
  Z.to_nat (b mod BPB) = Z.to_nat (c mod BPB) -> b = c.
Proof.
  intros Hb Hc H1 H2. rewrite (proj1 (BBLOCK_bmap b Hb)), (proj1 (BBLOCK_bmap c Hc)) in H1. unfold BPB, BSIZE in *.
  pose proof (Z.div_mod b 4096). pose proof (Z.div_mod c 4096). change (512 * 8) with 4096 in *.
  pose proof (Z.mod_pos_bound b 4096). pose proof (Z.mod_pos_bound c 4096). lia.
Qed.

Lemma bit_index b : (Z.to_nat (b mod BPB) / 8 < Z.to_nat BSIZE)%nat.
Proof.
  unfold BPB, BSIZE. pose proof (Z.mod_pos_bound b (512 * 8) ltac:(lia)).
  apply Nat.Div0.div_lt_upper_bound. lia.
Qed.

(** ** Freeing and taking blocks *)

(** The blocks [bs] have been freed. *)
Record freed (bs : list Z) V V' : Prop := {
  fr_other : forall n, ~ is_bmap n -> V' n = V n;
  fr_used : forall b, 0 <= b < sb_size x -> used V' b = used V b && negb (bool_decide (b ∈ bs));
  fr_ok : forall n, block_ok (V n) -> block_ok (V' n) }.

Lemma freed_nil V V' : (forall n, V' n = V n) -> freed [] V V'.
Proof.
  intros E. split; [by intros; rewrite E| |by intros n; rewrite E]. intros b Hb. unfold used. rewrite E.
  rewrite bool_decide_eq_false_2 by apply not_elem_of_nil. by rewrite andb_true_r.
Qed.

Lemma freed_app bs cs V V' V'' : freed bs V V' -> freed cs V' V'' -> freed (bs ++ cs) V V''.
Proof.
  intros [A1 A2 A3] [B1 B2 B3]. split; [by intros; rewrite B1, A1| |by auto].
  intros b Hb. rewrite B2, A2, <- andb_assoc by done. f_equal. rewrite <- negb_orb. f_equal.
  rewrite <- bool_decide_or. apply bool_decide_ext. by rewrite elem_of_app.
Qed.

Lemma freed_ext bs V1 V2 V1' V2' : (forall n, V2 n = V1 n) -> (forall n, V2' n = V1' n) -> freed bs V1 V1' -> freed bs V2 V2'.
Proof.
  intros E E' [A1 A2 A3]. split; [intros; by rewrite E, E', A1| |intros n; rewrite E, E'; apply A3].
  intros b Hb. unfold used in *. by rewrite E, E', A2.
Qed.

Lemma freed_one V b : 0 <= b < sb_size x -> block_ok (V (BBLOCK b x)) ->
  freed [b] V (update V (BBLOCK b x, clear_bit (V (BBLOCK b x)) (Z.to_nat (b mod BPB)))).
Proof.
  intros Hb Hok. unfold update. cbn [fst snd]. split.
  - intros n Hn. rewrite decide_False; [done|]. intros ->. by apply Hn, BBLOCK_bmap.
  - intros c Hc. unfold used. destruct (decide (BBLOCK c x = BBLOCK b x)) as [E|E].
    + rewrite bit_set_clear by (rewrite (proj1 Hok); apply bit_index). rewrite E. f_equal. f_equal. apply bool_decide_ext.
      rewrite list_elem_of_singleton. split; [intros H; by apply same_block|by intros ->].
    + rewrite bool_decide_eq_false_2, andb_true_r; [done|]. rewrite list_elem_of_singleton. by intros ->.
  - intros n Hn. destruct (decide _) as [->|]; [by apply block_ok_clear|done].
Qed.

(** The block [b] has been taken and zeroed. *)
Definition zeros : list Z := replicate (Z.to_nat BSIZE) 0.

Record taken (b : Z) V V' : Prop := {
  tk_block : V' b = zeros;
  tk_other : forall n, ~ is_bmap n -> n <> b -> V' n = V n;
  tk_used : forall c, 0 <= c < sb_size x -> used V' c = used V c || bool_decide (c = b);
  tk_ok : forall n, block_ok (V n) -> block_ok (V' n) }.

Lemma block_ok_zeros : block_ok zeros.
Proof. split; [apply length_replicate|]. apply Forall_replicate. lia. Qed.

(** ** Inodes and what they own *)

Definition blank_inode : inode := Inode 0 0 0 initsleeplock false 0 0 0 0 0 [].
Definition load_inode V (i : Z) (ip : inode) : inode := from_dinode (V (IBLOCK i x)) (dinode_at i) ip.
Definition dnode V (i : Z) : inode := load_inode V i blank_inode.

Lemma load_fields V i ip : let d := dnode V i in let l := load_inode V i ip in
  i_type l = i_type d /\ i_major l = i_major d /\ i_minor l = i_minor d /\ i_nlink l = i_nlink d /\
  i_size l = i_size d /\ i_addrs l = i_addrs d.
Proof. done. Qed.

Lemma dinode_at_room i : (dinode_at i + 64 <= Z.to_nat BSIZE)%nat.
Proof. unfold dinode_at. geo. pose proof (Z.mod_pos_bound i 8 ltac:(lia)). lia. Qed.

Lemma dinode_at_apart i j : 0 <= i < sb_ninodes x -> 0 <= j < sb_ninodes x -> i <> j -> IBLOCK i x = IBLOCK j x ->
  (dinode_at i + 64 <= dinode_at j \/ dinode_at j + 64 <= dinode_at i)%nat.
Proof.
  intros Hi Hj Hne E. rewrite (proj1 (IBLOCK_inode i Hi)), (proj1 (IBLOCK_inode j Hj)) in E. unfold dinode_at. geo. lia.
Qed.

(** The block of inode [i] after [iupdate]. *)
Definition put_inode V (i : Z) (ip : inode) : Z -> list Z :=
  update V (IBLOCK i x, to_dinode ip (V (IBLOCK i x)) (dinode_at i)).

Lemma put_inode_eq V i ip : inode_fits ip -> length (V (IBLOCK i x)) = Z.to_nat BSIZE -> load_inode (put_inode V i ip) i ip = ip.
Proof.
  intros Hf Hl. unfold load_inode, put_inode, update. cbn [fst snd]. rewrite decide_True by done.
  apply from_to_dinode; [done|]. rewrite Hl. apply dinode_at_room.
Qed.

Lemma put_inode_ne V i j ip jp : 0 <= i < sb_ninodes x -> 0 <= j < sb_ninodes x -> i <> j -> length (i_addrs ip) = 13%nat ->
  load_inode (put_inode V i ip) j jp = load_inode V j jp.
Proof.
  intros Hi Hj Hne Hl. unfold load_inode, put_inode, update. cbn [fst snd]. destruct (decide (IBLOCK j x = IBLOCK i x)) as [E|E]; [|done].
  rewrite E. apply from_to_other; [|done]. by apply dinode_at_apart.
Qed.

Lemma put_inode_other V i ip n : n <> IBLOCK i x -> put_inode V i ip n = V n.
Proof. intros H. unfold put_inode, update. cbn [fst snd]. by rewrite decide_False. Qed.

Lemma put_inode_ok V i ip n : block_ok (V n) -> block_ok (put_inode V i ip n).
Proof.
  intros H. unfold put_inode, update. cbn [fst snd]. destruct (decide _) as [->|]; [by apply block_ok_to_dinode|done].
Qed.

(** The entries of an indirect block, and the blocks of an inode. *)
Definition entries (d : list Z) : list Z := (fun j => rd32 d (4 * j)) <$> seq 0 (Z.to_nat NINDIRECT).
Definition indirect_blocks V (a : Z) : list Z := if a =? 0 then [] else nonzero (entries (V a)) ++ [a].
Definition inode_blocks V (addrs : list Z) : list Z :=
  nonzero (take (Z.to_nat NDIRECT) addrs) ++ indirect_blocks V (nth (Z.to_nat NDIRECT) addrs 0).

Definition inums : list Z := seqZ 0 (sb_ninodes x).
Definition all_blocks V : list Z := concat ((fun i => inode_blocks V (i_addrs (dnode V i))) <$> inums).

Record consistent V : Prop := {
  c_ok : forall n, is_bmap n \/ is_data n \/ is_inode n -> block_ok (V n);
  c_meta : forall b, 0 <= b < data_start x -> used V b = true;
  c_nodup : NoDup (all_blocks V);
  c_used : forall b, b ∈ all_blocks V -> is_data b /\ used V b = true }.

Lemma elem_all_blocks V b : b ∈ all_blocks V <-> exists i, 0 <= i < sb_ninodes x /\ b ∈ inode_blocks V (i_addrs (dnode V i)).
Proof.
  unfold all_blocks. rewrite list_elem_of_In, in_concat. split.
  - intros (l & Hl & Hb). apply list_elem_of_In in Hl, Hb. apply list_elem_of_fmap in Hl as (i & -> & Hi). apply elem_of_seqZ in Hi. exists i. split; [lia|done].
  - intros (i & Hi & Hb). eexists. rewrite <- !list_elem_of_In. split; [|exact Hb]. apply list_elem_of_fmap. exists i. split; [done|]. apply elem_of_seqZ. lia.
Qed.

(** Inode [i] and the others. *)
Lemma inums_split i : 0 <= i < sb_ninodes x -> exists l1 l2, inums = l1 ++ i :: l2 /\
  forall j, j ∈ l1 ++ l2 -> 0 <= j < sb_ninodes x /\ j <> i.
Proof.
  intros Hi. assert (i ∈ inums) as Hin by (apply elem_of_seqZ; lia).
  apply list_elem_of_split in Hin as (l1 & l2 & E). exists l1, l2. split; [done|]. intros j Hj.
  assert (NoDup (l1 ++ i :: l2)) as Hnd by (rewrite <- E; apply NoDup_seqZ).
  assert (j ∈ inums) as Hj' by (rewrite E; set_solver). apply elem_of_seqZ in Hj'. split; [lia|].
  intros ->. apply NoDup_app in Hnd as (_ & H1 & H2). apply NoDup_cons in H2 as [H2 _].
  apply elem_of_app in Hj as [Hj|Hj]; [|done]. by apply (H1 _ Hj), list_elem_of_here.
Qed.

Lemma all_blocks_split V i l1 l2 : inums = l1 ++ i :: l2 ->
  all_blocks V ≡ₚ inode_blocks V (i_addrs (dnode V i)) ++ concat ((fun j => inode_blocks V (i_addrs (dnode V j))) <$> l1 ++ l2).
Proof.
  intros E. unfold all_blocks. rewrite E, !fmap_app, fmap_cons, !concat_app. cbn [concat].
  rewrite !app_assoc. f_equiv. apply Permutation_app_comm.
Qed.

(** An inode's blocks depend on its addresses and its indirect block. *)
Lemma inode_blocks_ext V V' A : (forall a, a = nth (Z.to_nat NDIRECT) A 0 -> a <> 0 -> V' a = V a) ->
  inode_blocks V' A = inode_blocks V A.
Proof.
  intros H. unfold inode_blocks, indirect_blocks. destruct (Z.eqb_spec (nth (Z.to_nat NDIRECT) A 0) 0); [done|]. by rewrite H.
Qed.

Lemma indirect_in V A a : a = nth (Z.to_nat NDIRECT) A 0 -> a <> 0 -> a ∈ inode_blocks V A.
Proof.
  intros -> Ha. unfold inode_blocks, indirect_blocks. rewrite (proj2 (Z.eqb_neq _ _) Ha). set_solver.
Qed.

(** What a change outside the data and the inode blocks leaves alone. *)
Lemma dnode_same V V' i jp : 0 <= i < sb_ninodes x -> V' (IBLOCK i x) = V (IBLOCK i x) -> load_inode V' i jp = load_inode V i jp.
Proof. intros Hi E. unfold load_inode. by rewrite E. Qed.

Lemma freed_load bs V V' i jp : freed bs V V' -> 0 <= i < sb_ninodes x -> load_inode V' i jp = load_inode V i jp.
Proof.
  intros Hf Hi. apply dnode_same; [done|]. apply (fr_other _ _ _ Hf). intros Hb. by apply bmap_apart in Hb as [_ Hb]; apply Hb, IBLOCK_inode.
Qed.

(** [itrunc]: the blocks of inode [i] are freed and its addresses cleared. *)
Lemma trunc_consistent V V1 i ip : consistent V -> 0 <= i < sb_ninodes x ->
  freed (inode_blocks V (i_addrs (dnode V i))) V V1 -> inode_fits ip -> i_addrs ip = replicate 13 0 ->
  consistent (put_inode V1 i ip) /\
  forall j jp, 0 <= j < sb_ninodes x -> j <> i -> load_inode (put_inode V1 i ip) j jp = load_inode V j jp.
Proof.
  intros [C1 C2 C3 C4] Hi Hf Hfit Hz. set (V2 := put_inode V1 i ip).
  assert (forall j jp, 0 <= j < sb_ninodes x -> j <> i -> load_inode V2 j jp = load_inode V j jp) as Hload.
  { intros j jp Hj Hne. unfold V2. rewrite put_inode_ne by (by rewrite ?Hz). by eapply freed_load. }
  split; [|exact Hload]. destruct (inums_split i Hi) as (l1 & l2 & E & Hl).
  assert (forall n, is_data n -> V2 n = V n) as Hdata.
  { intros n Hn. unfold V2. rewrite put_inode_other; [apply (fr_other _ _ _ Hf)|]; [by apply data_apart in Hn as [Hn _]|].
    intros ->. apply data_apart in Hn as [_ Hn]. by apply Hn, IBLOCK_inode. }
  assert (forall b, 0 <= b < sb_size x -> used V2 b = used V1 b) as Hused.
  { intros b Hb. unfold used, V2. rewrite put_inode_other; [done|]. intros Eb. pose proof (proj2 (BBLOCK_bmap b Hb)) as Hbm.
    rewrite Eb in Hbm. apply bmap_apart in Hbm as [_ Hbm]. by apply Hbm, IBLOCK_inode. }
  assert (all_blocks V2 ≡ₚ concat ((fun j => inode_blocks V (i_addrs (dnode V j))) <$> l1 ++ l2)) as Hall.
  { rewrite (all_blocks_split V2 i l1 l2 E). assert (i_addrs (dnode V2 i) = replicate 13 0) as ->.
    { transitivity (i_addrs (load_inode V2 i ip)); [done|]. unfold V2. rewrite put_inode_eq; [done|done|].
      assert (block_ok (V (IBLOCK i x))) as Hok by (apply C1; right; right; by apply IBLOCK_inode).
      apply (fr_ok _ _ _ Hf) in Hok. apply Hok. }
    change (inode_blocks V2 (replicate 13 0)) with (@nil Z). cbn [app].
    match goal with |- ?a ≡ₚ ?b => assert (a = b) as ->; [|done] end. f_equal. apply list_fmap_ext. intros k j Hk. apply list_elem_of_lookup_2, Hl in Hk as [Hj Hne].
    cbn beta. unfold dnode. rewrite Hload by done. apply inode_blocks_ext. intros a Ha Ha0. apply Hdata, C4.
    apply elem_all_blocks. exists j. split; [done|]. by apply indirect_in. }
  pose proof C3 as C3'. rewrite (all_blocks_split V i l1 l2 E) in C3'. apply NoDup_app in C3' as (_ & Hdisj & Hnd).
  split.
  - intros n Hn. unfold V2. apply put_inode_ok, (fr_ok _ _ _ Hf), C1. done.
  - intros b Hb. assert (0 <= b < sb_size x) as Hb' by (destruct G; lia).
    rewrite Hused, (fr_used _ _ _ Hf), C2, bool_decide_eq_false_2; [done| |done..|done]. intros Hin.
    assert (is_data b) as Hd by (apply C4, elem_all_blocks; by exists i). unfold is_data in Hd. lia.
  - by rewrite Hall.
  - intros b Hb. rewrite Hall in Hb.
    assert (b ∈ all_blocks V) as Hin by (rewrite (all_blocks_split V i l1 l2 E); apply elem_of_app; by right).
    destruct (C4 b Hin) as [Hd Hu]. split; [done|]. rewrite Hused, (fr_used _ _ _ Hf), Hu, bool_decide_eq_false_2;
      [done| |destruct G; unfold is_data in Hd; geo; lia..]. intros Hbi. by apply (Hdisj b).
Qed.

Lemma all_blocks_ext V V' : (forall i, 0 <= i < sb_ninodes x ->
    inode_blocks V' (i_addrs (dnode V' i)) = inode_blocks V (i_addrs (dnode V i))) -> all_blocks V' = all_blocks V.
Proof.
  intros H. unfold all_blocks. f_equal. apply list_fmap_ext. intros k i Hi. apply H.
  apply list_elem_of_lookup_2, elem_of_seqZ in Hi. lia.
Qed.

Lemma consistent_ext V V' : (forall n, is_bmap n \/ is_data n \/ is_inode n -> V' n = V n) -> consistent V -> consistent V'.
Proof.
  intros E [C1 C2 C3 C4].
  assert (forall b, 0 <= b < sb_size x -> used V' b = used V b) as Eu.
  { intros b Hb. unfold used. rewrite E; [done|]. left. by apply BBLOCK_bmap. }
  assert (all_blocks V' = all_blocks V) as Ea.
  { apply all_blocks_ext. intros i Hi. unfold dnode. rewrite (dnode_same V V'); [|done|apply E; right; right; by apply IBLOCK_inode].
    apply inode_blocks_ext. intros a Ha H0. apply E. right; left. apply C4, elem_all_blocks. exists i. split; [done|]. by apply indirect_in. }
  split.
  - intros n Hn. rewrite E by done. by apply C1.
  - intros b Hb. rewrite Eu by (destruct G; lia). by apply C2.
  - by rewrite Ea.
  - intros b Hb. rewrite Ea in Hb. destruct (C4 b Hb) as [Hd Hu]. split; [done|]. rewrite Eu; [done|]. destruct G. geo. lia.
Qed.

(** [iupdate] of an inode whose addresses are those on the disk. *)
Lemma put_consistent V i ip : consistent V -> 0 <= i < sb_ninodes x -> inode_fits ip -> i_addrs ip = i_addrs (dnode V i) ->
  consistent (put_inode V i ip).
Proof.
  intros [C1 C2 C3 C4] Hi Hfit Ha. set (V2 := put_inode V i ip). pose proof (IBLOCK_inode i Hi) as [_ Hib].
  assert (forall n, is_data n -> V2 n = V n) as Hdata.
  { intros n Hn. apply put_inode_other. intros ->. by apply data_apart in Hn as [_ Hn]. }
  assert (forall b, 0 <= b < sb_size x -> used V2 b = used V b) as Hused.
  { intros b Hb. unfold used, V2. rewrite put_inode_other; [done|]. intros Eb. pose proof (proj2 (BBLOCK_bmap b Hb)) as Hbm.
    rewrite Eb in Hbm. by apply bmap_apart in Hbm as [_ Hbm]. }
  assert (all_blocks V2 = all_blocks V) as Ea.
  { apply all_blocks_ext. intros j Hj. assert (i_addrs (dnode V2 j) = i_addrs (dnode V j)) as ->.
    { destruct (decide (j = i)) as [->|Hne].
      - rewrite <- Ha. transitivity (i_addrs (load_inode V2 i ip)); [done|]. unfold V2. rewrite put_inode_eq; [done|done|].
        apply C1. by right; right.
      - unfold dnode, V2. rewrite put_inode_ne; [done..|]. apply Hfit. }
    apply inode_blocks_ext. intros a Ha' Ha0. apply Hdata, C4, elem_all_blocks. exists j. split; [done|]. by apply indirect_in. }
  split.
  - intros n Hn. apply put_inode_ok. by apply C1.
  - intros b Hb. rewrite Hused by (destruct G; lia). by apply C2.
  - by rewrite Ea.
  - intros b Hb. rewrite Ea in Hb. destruct (C4 b Hb) as [Hd Hu]. split; [done|]. rewrite Hused; [done|]. destruct G. geo. lia.
Qed.
End disk.
