(* ===== verification/FileData.v ===== *)
(** * Files on the disk

    What an inode and its blocks represent: a sequence of data blocks, an
    indirect block for those from the thirteenth on, and the bytes of the
    file. *)

From stdpp Require Import base numbers list gmap strings.
From S2P Require Import Prelude Bytes Machine Locks Bio Log LogTx FsState Fs FsDisk.
Open Scope Z_scope.

(** ** Bytes in blocks *)

Definition BS : nat := Z.to_nat BSIZE.

Lemma length_blocks (V : Z -> list Z) bs : (forall b, b ∈ bs -> length (V b) = BS) -> length (concat (V <$> bs)) = (BS * length bs)%nat.
Proof.
  induction bs as [|b bs IH]; intros H; [done|]. rewrite fmap_cons. cbn [concat length]. rewrite length_app, IH, H by set_solver. lia.
Qed.

(** Byte [k] of block [j]. *)
Lemma block_byte (V : Z -> list Z) bs : forall j b k, (forall b, b ∈ bs -> length (V b) = BS) -> bs !! j = Some b -> (k < BS)%nat ->
  concat (V <$> bs) !! (BS * j + k)%nat = V b !! k.
Proof.
  induction bs as [|c bs IH]; intros j b k H Hj Hk; [done|]. rewrite fmap_cons. cbn [concat]. destruct j as [|j].
  - injection Hj as ->. rewrite Nat.mul_0_r, lookup_app_l; [done|]. rewrite H by set_solver. lia.
  - rewrite lookup_app_r by (rewrite H by set_solver; lia). rewrite H by set_solver.
    replace (BS * S j + k - BS)%nat with (BS * j + k)%nat by lia. apply IH; [set_solver|done|done].
Qed.

(** Blocks needed for [n] bytes. *)
Definition nblk (n : nat) : nat := (n + (BS - 1)) / BS.

Lemma nblk_spec n : (n <= BS * nblk n)%nat /\ (BS * nblk n < n + BS)%nat.
Proof.
  unfold nblk. pose proof (Nat.div_mod_eq (n + (BS - 1)) BS) as E. pose proof (Nat.mod_upper_bound (n + (BS - 1)) BS) as L.
  assert (BS = 512%nat) as -> by reflexivity. change BS with 512%nat in *. lia.
Qed.
Lemma nblk_unique n m : (n <= BS * m)%nat -> (BS * m < n + BS)%nat -> m = nblk n.
Proof. intros H1 H2. pose proof (nblk_spec n). change BS with 512%nat in *. lia. Qed.

(** ** Files *)

Record afile := AFile { a_blocks : list Z; a_ind : Z; a_data : list Z }.

Definition ND : nat := Z.to_nat NDIRECT.
Definition NI : nat := Z.to_nat NINDIRECT.

Definition pad (n : nat) (l : list Z) : list Z := l ++ replicate (n - length l) 0.
Definition fblocks (a : afile) : list Z := a_blocks a ++ nonzero [a_ind a].

Lemma fb_data a c : c ∈ a_blocks a -> c ∈ fblocks a.
Proof. intros H. unfold fblocks. set_solver. Qed.
Lemma fb_ind a : a_ind a <> 0 -> a_ind a ∈ fblocks a.
Proof. intros H. unfold fblocks. rewrite nonzero_cons, (proj2 (Z.eqb_neq _ _) H). set_solver. Qed.

(** [ip] and the blocks [V] hold the file [a]. *)
Record rep (V : Z -> list Z) (ip : inode) (a : afile) : Prop := {
  rp_size : i_size ip = Z.of_nat (length (a_data a));
  rp_count : (nblk (length (a_data a)) <= length (a_blocks a))%nat;
  rp_max : (length (a_blocks a) <= ND + NI)%nat;
  rp_addrs : i_addrs ip = pad ND (take ND (a_blocks a)) ++ [a_ind a];
  rp_none : (length (a_blocks a) <= ND)%nat -> a_ind a = 0;
  rp_ind : (ND < length (a_blocks a))%nat -> a_ind a <> 0 /\ entries (V (a_ind a)) = pad NI (drop ND (a_blocks a));
  rp_nonzero : Forall (fun b => b <> 0) (a_blocks a);
  rp_full : forall b, b ∈ fblocks a -> length (V b) = BS;
  rp_data : a_data a = take (length (a_data a)) (concat (V <$> a_blocks a)) }.

Lemma nonzero_all l : Forall (fun b => b <> 0) l -> nonzero l = l.
Proof.
  induction 1 as [|b l Hb _ IH]; [done|]. rewrite nonzero_cons, IH. by rewrite (proj2 (Z.eqb_neq _ _) Hb).
Qed.

Lemma nonzero_pad n l : Forall (fun b => b <> 0) l -> nonzero (pad n l) = l.
Proof. intros H. unfold pad. by rewrite nonzero_app, nonzero_zeros, app_nil_r, nonzero_all. Qed.

Lemma length_pad n l : (length l <= n)%nat -> length (pad n l) = n.
Proof. intros H. unfold pad. rewrite length_app, length_replicate. lia. Qed.

Section rep.
Context (V : Z -> list Z) (ip : inode) (a : afile) (H : rep V ip a).

Lemma rep_len : length (i_addrs ip) = 13%nat.
Proof. rewrite (rp_addrs _ _ _ H), length_app, length_pad; [done|]. rewrite length_take. lia. Qed.

Lemma rep_ind_nth : nth ND (i_addrs ip) 0 = a_ind a.
Proof.
  rewrite (rp_addrs _ _ _ H), app_nth2; rewrite length_pad by (rewrite length_take; lia); [by rewrite Nat.sub_diag|lia].
Qed.

(** The blocks of the inode are those of the file. *)
Lemma rep_blocks : inode_blocks V (i_addrs ip) = fblocks a.
Proof.
  unfold inode_blocks, fblocks, indirect_blocks. change (Z.to_nat NDIRECT) with ND. rewrite rep_ind_nth.
  assert (take ND (i_addrs ip) = pad ND (take ND (a_blocks a))) as ->.
  { rewrite (rp_addrs _ _ _ H). apply take_app_length'. symmetry. apply length_pad. rewrite length_take. lia. }
  pose proof (rp_nonzero _ _ _ H) as Hnz. rewrite nonzero_pad by by apply Forall_take. rewrite nonzero_cons.
  destruct (decide (length (a_blocks a) <= ND)%nat) as [Hl|Hl].
  - rewrite (rp_none _ _ _ H Hl). cbn [Z.eqb]. rewrite take_ge by done. done.
  - destruct (rp_ind _ _ _ H ltac:(lia)) as [Hi He]. rewrite (proj2 (Z.eqb_neq _ _) Hi), He.
    rewrite nonzero_pad by by apply Forall_drop. by rewrite app_assoc, take_drop.
Qed.

(** Where block [j] of the file is. *)
Lemma rep_direct j b : a_blocks a !! j = Some b -> (j < ND)%nat -> nth j (i_addrs ip) 0 = b.
Proof.
  intros Hj Hl. apply nth_lookup_Some. rewrite (rp_addrs _ _ _ H). unfold pad. rewrite <- app_assoc.
  apply lookup_app_l_Some. by rewrite lookup_take_lt.
Qed.
Lemma rep_indirect j b : a_blocks a !! j = Some b -> (ND <= j)%nat ->
  a_ind a <> 0 /\ rd32 (V (a_ind a)) (4 * (j - ND)) = b.
Proof.
  intros Hj Hl. pose proof (lookup_lt_Some _ _ _ Hj) as Hlt. destruct (rp_ind _ _ _ H ltac:(lia)) as [Hi He]. split; [done|].
  assert (entries (V (a_ind a)) !! (j - ND)%nat = Some b) as E.
  { rewrite He. unfold pad. apply lookup_app_l_Some. rewrite lookup_drop. by replace (ND + (j - ND))%nat with j by lia. }
  unfold entries in E. rewrite list_lookup_fmap, lookup_seq_lt in E; [by injection E|].
  pose proof (rp_max _ _ _ H). change NI with (Z.to_nat NINDIRECT) in *. lia.
Qed.

(** Byte [n] of the file. *)
Lemma file_byte n : (n < length (a_data a))%nat -> exists b, a_blocks a !! (n / BS)%nat = Some b /\ a_data a !! n = V b !! (n mod BS)%nat.
Proof.
  intros Hn. pose proof (nblk_spec (length (a_data a))) as [Hs _]. pose proof (rp_count _ _ _ H) as Hc.
  pose proof (Nat.div_mod_eq n BS) as E. pose proof (Nat.mod_upper_bound n BS ltac:(by change BS with 512%nat)) as L.
  assert (n / BS < length (a_blocks a))%nat as Hlt. { change BS with 512%nat in *. nia. }
  destruct (lookup_lt_is_Some_2 _ _ Hlt) as [b Hb]. exists b. split; [done|].
  rewrite (rp_data _ _ _ H), lookup_take_lt by done. rewrite E at 1. apply block_byte; [|done|done].
  intros c Hc'. apply (rp_full _ _ _ H). apply elem_of_app. by left.
Qed.

(** Only the file's own blocks matter. *)
Lemma rep_ext V' : (forall b, b ∈ fblocks a -> V' b = V b) -> rep V' ip a.
Proof.
  intros HV. destruct H as [A1 A2 A3 A4 A5 A6 A7 A8 A9]. split; try done.
  - intros Hl. destruct (A6 Hl) as [Hi He]. split; [done|]. rewrite HV; [done|]. unfold fblocks. apply elem_of_app. right.
    rewrite nonzero_cons, (proj2 (Z.eqb_neq _ _) Hi). set_solver.
  - intros b Hb. rewrite HV by done. by apply A8.
  - rewrite A9 at 1. f_equal. f_equal. apply list_fmap_ext. intros k b Hb. symmetry. apply HV. unfold fblocks. apply elem_of_app. left.
    by eapply list_elem_of_lookup_2.
Qed.

(** The other fields of the inode do not. *)
Lemma rep_inode jp : i_size jp = i_size ip -> i_addrs jp = i_addrs ip -> rep V jp a.
Proof. intros E1 E2. destruct H as [A1 A2 A3 A4 A5 A6 A7 A8 A9]. split; try done; congruence. Qed.
End rep.

Definition no_file : afile := AFile [] 0 [].

Lemma rep_empty V ip : i_size ip = 0 -> i_addrs ip = replicate 13 0 -> rep V ip no_file.
Proof.
  intros H1 H2. split; cbn; try done; [lia|lia|intros b Hb; by apply elem_of_nil in Hb].
Qed.

(** ** Growing a file *)

Lemma entries_wr d k b : length d = BS -> (k < NI)%nat -> 0 <= b < 2 ^ 32 -> entries (wr32 d (4 * k) b) = <[k := b]> (entries d).
Proof.
  intros Hd Hk Hb. apply list_eq. intros j. unfold entries. change (Z.to_nat NINDIRECT) with NI.
  destruct (decide (j < NI)%nat) as [Hj|Hj].
  - rewrite list_lookup_fmap, lookup_seq_lt by done. cbn [fmap option_fmap option_map]. destruct (decide (j = k)) as [->|Hne].
    + rewrite list_lookup_insert_eq by (rewrite length_fmap, length_seq; done). rewrite rd32_wr32; [f_equal; lia|].
      change BS with 512%nat in *. change NI with 128%nat in *. lia.
    + rewrite list_lookup_insert_ne by done. rewrite list_lookup_fmap, lookup_seq_lt by done. cbn [fmap option_fmap option_map]. f_equal.
      apply rd32_wr_out. change (length (le32 b)) with 4%nat. lia.
  - rewrite !lookup_ge_None_2; [done| |]; rewrite ?length_insert, length_fmap, length_seq; lia.
Qed.

Lemma pad_insert n l b : (length l < n)%nat -> <[length l := b]> (pad n l) = pad n (l ++ [b]).
Proof.
  intros H. unfold pad. rewrite insert_app_r_alt, Nat.sub_diag by done. rewrite length_app. cbn [length].
  replace (n - length l)%nat with (S (n - (length l + 1))) by lia. cbn [replicate]. by rewrite <- app_assoc.
Qed.

Section grow.
Context (V : Z -> list Z) (ip : inode) (a : afile) (H : rep V ip a) (b : Z) (Hb : b <> 0) (HVb : length (V b) = BS).
Let n : nat := length (a_blocks a).
Local Abbreviation grown ind := (AFile (a_blocks a ++ [b]) ind (a_data a)).

Lemma grown_data (V' : Z -> list Z) : (forall c, c ∈ a_blocks a -> V' c = V c) -> a_data a = take (length (a_data a)) (concat (V' <$> a_blocks a ++ [b])).
Proof.
  intros HV. rewrite fmap_app, concat_app. assert (V' <$> a_blocks a = V <$> a_blocks a) as ->.
  { apply list_fmap_ext. intros k c Hc. apply HV. by eapply list_elem_of_lookup_2. }
  assert (length (concat (V <$> a_blocks a)) = (BS * n)%nat) as Hl.
  { apply length_blocks. intros c Hc. apply (rp_full _ _ _ H). apply elem_of_app. by left. }
  rewrite take_app_le; [apply (rp_data _ _ _ H)|]. rewrite Hl. pose proof (rp_count _ _ _ H). pose proof (nblk_spec (length (a_data a))).
  change BS with 512%nat in *. subst n. nia.
Qed.

Lemma rep_grow_direct : (n < ND)%nat -> rep V (set_i_addrs (<[n := b]> (i_addrs ip)) ip) (grown (a_ind a)).
Proof.
  intros Hn. destruct H as [A1 A2 A3 A4 A5 A6 A7 A8 A9]. split; cbn [a_blocks a_ind a_data i_size i_addrs set_i_addrs];
    rewrite ?length_app; fold n in A2, A3, A5, A6 |- *; cbn [length]; try done; try lia.
  - rewrite A4. rewrite !take_ge by (rewrite ?length_app; cbn [length]; fold n; lia). rewrite insert_app_l by (rewrite length_pad by (fold n; lia); lia).
    unfold n at 1. rewrite pad_insert by done. done.
  - apply Forall_app. split; [done|by constructor].
  - intros c. unfold fblocks. cbn [a_blocks a_ind]. rewrite !elem_of_app. intros [[Hc|Hc]|Hc].
    + by apply A8, fb_data.
    + by apply list_elem_of_singleton in Hc as ->.
    + apply A8. unfold fblocks. apply elem_of_app. by right.
  - by apply grown_data.
Qed.

(** Entry [n - ND] of the indirect block, which may be new. *)
Lemma rep_grow_indirect ind V' : (ND <= n < ND + NI)%nat -> ind <> 0 -> (ind ∉ a_blocks a ++ [b]) -> length (V ind) = BS -> 0 <= b < 2 ^ 32 ->
  entries (V ind) = pad NI (drop ND (a_blocks a)) -> (forall c, c <> ind -> V' c = V c) -> V' ind = wr32 (V ind) (4 * (n - ND)) b ->
  rep V' (set_i_addrs (<[ND := ind]> (i_addrs ip)) ip) (grown ind).
Proof.
  intros Hn Hi Hni HVi Hb32 He HV HVi'. destruct H as [A1 A2 A3 A4 A5 A6 A7 A8 A9].
  assert (forall c, c ∈ a_blocks a ++ [b] -> V' c = V c) as HVb'.
  { intros c Hc. apply HV. by intros ->. }
  split; cbn [a_blocks a_ind a_data i_size i_addrs set_i_addrs];
    rewrite ?length_app; fold n in A2, A3, A5, A6 |- *; cbn [length]; try done; try lia.
  - rewrite A4. rewrite (take_app_le _ [b]) by (fold n; lia).
    assert (length (pad ND (take ND (a_blocks a))) = ND) as Hl by (apply length_pad; rewrite length_take; lia).
    rewrite insert_app_r_alt by (rewrite Hl; lia). by rewrite Hl, Nat.sub_diag.
  - intros _. split; [done|]. rewrite HVi', entries_wr by (done || lia). rewrite He, (drop_app_le _ [b]) by (fold n; lia).
    assert (length (drop ND (a_blocks a)) = (n - ND)%nat) as Hl by (by rewrite length_drop). rewrite <- Hl. apply pad_insert. lia.
  - apply Forall_app. split; [done|by constructor].
  - intros c. unfold fblocks. cbn [a_blocks a_ind]. rewrite elem_of_app. intros [Hc|Hc].
    + rewrite HVb' by done. apply elem_of_app in Hc as [Hc|Hc]; [by apply A8, fb_data|by apply list_elem_of_singleton in Hc as ->].
    + rewrite nonzero_cons, (proj2 (Z.eqb_neq _ _) Hi) in Hc. apply list_elem_of_singleton in Hc as ->. by rewrite HVi', length_wr32.
  - apply grown_data. intros c Hc. apply HVb', elem_of_app. by left.
Qed.
End grow.

(** ** Writing bytes into a block of the file *)

Lemma concat_update (V V' : Z -> list Z) bs j b o q : NoDup bs -> bs !! j = Some b -> (forall c, c ∈ bs -> length (V c) = BS) ->
  (o + length q <= BS)%nat -> (forall c, c <> b -> V' c = V c) -> V' b = wr (V b) o q ->
  concat (V' <$> bs) = wr (concat (V <$> bs)) (BS * j + o) q.
Proof.
  intros Hnd Hj Hlen Ho HV HVb. rewrite <- (take_drop_middle bs j b Hj) in Hnd, Hlen |- *.
  apply NoDup_app in Hnd as (_ & Hd1 & Hd2). apply NoDup_cons in Hd2 as [Hd2 _].
  assert (forall l : list Z, b ∉ l -> V' <$> l = V <$> l) as Hsame.
  { intros l Hl. apply list_fmap_ext. intros k c Hc. apply HV. intros ->. by apply Hl, list_elem_of_lookup_2 with k. }
  assert (length (concat (V <$> take j bs)) = (BS * j)%nat) as Hl1.
  { rewrite length_blocks; [rewrite length_take; pose proof (lookup_lt_Some _ _ _ Hj); f_equal; lia|]. intros c Hc. apply Hlen. set_solver. }
  assert (length (V b) = BS) as Hlb by (apply Hlen; set_solver).
  rewrite !fmap_app, !fmap_cons, !concat_app. cbn [concat]. rewrite (Hsame (take j bs)), (Hsame (drop (S j) bs)), HVb;
    [|done|intros Hin; by apply (Hd1 b Hin), list_elem_of_here].
  rewrite !wr_split; [|rewrite !length_app, Hl1, Hlb; lia|lia].
  rewrite take_app_ge, drop_app_ge by lia. rewrite Hl1. replace (BS * j + o - BS * j)%nat with o by lia.
  replace (BS * j + o + length q - BS * j)%nat with (o + length q)%nat by lia.
  rewrite take_app_le, drop_app_le by lia. by rewrite <- !app_assoc.
Qed.

Lemma splice_take (L q : list Z) m e : (e <= m)%nat -> (m <= length L)%nat -> (e + length q <= length L)%nat ->
  take e (take m L) ++ q ++ drop (e + length q) (take m L) = take (Nat.max m (e + length q)) (wr L e q).
Proof.
  intros He Hm Hq. rewrite wr_split, take_take, (Nat.min_l e) by done.
  rewrite (take_app_ge _ (q ++ _)) by (rewrite length_take; lia). f_equal. rewrite length_take, (Nat.min_l e) by lia.
  rewrite take_app_ge by lia. f_equal. rewrite take_drop_commute. destruct (decide (e + length q <= m)%nat).
  - rewrite Nat.max_l by done. f_equal. f_equal. lia.
  - rewrite !drop_ge; [done|rewrite length_take; lia..].
Qed.

Lemma rep_write V V' ip a j b o q : rep V ip a -> NoDup (fblocks a) -> a_blocks a !! j = Some b ->
  (o + length q <= BS)%nat -> (BS * j + o <= length (a_data a))%nat ->
  (forall c, c <> b -> V' c = V c) -> V' b = wr (V b) o q ->
  let data := take (BS * j + o) (a_data a) ++ q ++ drop (BS * j + o + length q) (a_data a) in
  rep V' (set_i_size (Z.of_nat (length data)) ip) (AFile (a_blocks a) (a_ind a) data).
Proof.
  intros H Hnd Hj Ho Hoff HV HVb data. pose proof H as [A1 A2 A3 A4 A5 A6 A7 A8 A9].
  assert (b ∈ a_blocks a) as Hin by (by eapply list_elem_of_lookup_2).
  assert (NoDup (a_blocks a) /\ (a_ind a <> 0 -> a_ind a <> b)) as [Hndb Hib].
  { unfold fblocks in Hnd. apply NoDup_app in Hnd as (N1 & N2 & _). split; [done|]. intros Hi E. apply (N2 _ Hin).
    rewrite E in Hi |- *. rewrite nonzero_cons, (proj2 (Z.eqb_neq _ _) Hi). apply list_elem_of_here. }
  assert (forall c, c ∈ a_blocks a -> length (V c) = BS) as Hful by (intros c Hc; by apply A8, fb_data).
  assert (length (concat (V <$> a_blocks a)) = (BS * length (a_blocks a))%nat) as Hlc by by apply length_blocks.
  pose proof (lookup_lt_Some _ _ _ Hj) as Hjl.
  assert (length data = Nat.max (length (a_data a)) (BS * j + o + length q)) as Hld.
  { unfold data. rewrite !length_app, length_take, length_drop. lia. }
  split; cbn [a_blocks a_ind a_data i_size i_addrs set_i_size]; try done.
  - rewrite Hld. destruct (Nat.max_spec (length (a_data a)) (BS * j + o + length q)) as [[_ ->]|[_ ->]]; [|done].
    pose proof (nblk_spec (BS * j + o + length q)). change BS with 512%nat in *. nia.
  - intros Hl. destruct (A6 Hl) as [Hi He]. split; [done|]. by rewrite HV by by apply Hib.
  - intros c Hc. destruct (decide (c = b)) as [->|Hne]; [rewrite HVb, length_wr|rewrite HV by done]; by apply A8.
  - rewrite (concat_update V V' (a_blocks a) j b o q) by done. rewrite Hld. unfold data. rewrite A9 at 1 2.
    apply splice_take; [done| |]; rewrite Hlc; pose proof (nblk_spec (length (a_data a))); change BS with 512%nat in *; nia.
Qed.
