(* ===== verification/FsSpec.v ===== *)
(** * Freeing blocks and dropping inodes

    [bfree], [iupdate], [itrunc] and [iput] inside a transaction. *)

From stdpp Require Import base numbers list gmap strings.
From S2P Require Import Prelude Bytes Machine Locks Bio BioSpec Log BioAbs LogSpec LogCrash.
From S2P Require Import LogTx FsState Fs TxSpec FsDisk.
Open Scope Z_scope.

Section fs.
Context (x : superblock) (st sz : Z) (s0 : jst).
Context (G : geometry x st sz (Z.of_nat (length (memdisk (bio s0))))).

(** The blocks a transaction may log: the bitmap and some others. *)
Context (K : gset Z) (HK : (size K <= Z.to_nat MAXOPBLOCKS)%nat) (Hbm : forall n, is_bmap x n -> n ∈ K).

(** A point of the code: the buffers held are data blocks, the blocks
    logged are among [K]. *)
Record at_point (H : gmap nat (Z * bool)) (s : fs) : Prop := {
  ap_sb : sb s = x;
  ap_tx : exists L, tx st sz s0 H L (jrn s) /\ L ⊆ K;
  ap_held : forall i n c, H !! i = Some (n, c) -> is_data x n;
  ap_few : (size H <= 4)%nat }.

(** Only the journal has changed. *)
Definition only_jrn (s s' : fs) : Prop := s' = set_jrn (jrn s') s.
#[local] Instance only_jrn_preorder : PreOrder only_jrn.
Proof.
  split; [intros s; by destruct s|]. unfold only_jrn. intros s t u H1 H2. rewrite H2, H1. by destruct s.
Qed.

Lemma at_jrn H H' s s' : at_point H s -> only_jrn s s' -> (exists L, tx st sz s0 H' L (jrn s') /\ L ⊆ K) ->
  (forall i n c, H' !! i = Some (n, c) -> is_data x n) -> (size H' <= 4)%nat -> at_point H' s'.
Proof. intros [A1 _ _ _] Ho Ht Hh Hf. split; [rewrite Ho; done|done..]. Qed.

(** Changing an inode in memory. *)
Lemma at_icache H s l : at_point H s -> at_point H (set_icache l s).
Proof. intros [A1 A2 A3 A4]. by split. Qed.

Lemma log_room (L : gset Z) : L ⊆ K -> (size L <= Z.to_nat MAXOPBLOCKS)%nat.
Proof. intros H. apply subseteq_size in H. lia. Qed.

Lemma region_block n : is_bmap x n \/ is_data x n \/ is_inode x n -> on_disk s0 n /\ loggable_block st sz s0 n.
Proof.
  intros Hn. destruct (regions x st sz _ G n Hn) as (H1 & H2 & H3). unfold loggable_block, on_disk, in_range. tauto.
Qed.

(** Reading a block and writing it back changed. *)
Lemma open_block H s n : at_point H s -> is_bmap x n \/ is_inode x n \/ (is_data x n /\ forall i c, H !! i <> Some (n, c)) ->
  exists bp t, onb (bread 1 n) s = Ret (bp, t) /\ H !! bp = None /\ only_jrn s t /\
    (forall m, blocks t m = blocks s m) /\ onb (bdata bp) t = Ret (blocks s n, t) /\
    exists L, L ⊆ K /\ tx st sz s0 (<[bp := (n, false)]> H) L (jrn t).
Proof.
  intros [A1 (L & A2 & A3) A4 A5] Hn.
  assert (is_bmap x n \/ is_data x n \/ is_inode x n) as Hr by tauto. destruct (region_block n Hr) as [Hd _].
  destruct (bread_tx st sz s0 s H L A2 n Hd) as (bp & t & E & Ht & HN & Hv & Ho).
  - intros i c Hi. destruct Hn as [Hn|[Hn|[_ Hn]]]; [| |by apply (Hn i c)].
    + by apply A4, (data_apart x st sz _ G) in Hi as [Hi _].
    + by apply A4, (data_apart x st sz _ G) in Hi as [_ Hi].
  - pose proof (log_room L A3). unfold MAXOPBLOCKS, NBUF in *. lia.
  - exists bp, t. split; [done|]. split; [done|]. split; [done|]. split; [done|]. split; [|by exists L].
    rewrite (bdata_tx st sz s0 t _ L Ht bp n false) by apply lookup_insert_eq. by rewrite Hv.
Qed.

Lemma close_block H s t bp n L : at_point H s -> only_jrn s t -> L ⊆ K -> H !! bp = None ->
  tx st sz s0 (<[bp := (n, false)]> H) L (jrn t) ->
  exists u, onb (brelse bp) t = Ret ((), u) /\ at_point H u /\ only_jrn s u /\ forall m, blocks u m = blocks t m.
Proof.
  intros Hs Ho HL HN Ht. destruct (brelse_tx st sz s0 t _ L Ht bp n (lookup_insert_eq _ _ _)) as (u & E & Hu & Hv & Ho').
  rewrite delete_insert_id in Hu by done. exists u. split; [done|]. assert (only_jrn s u) as Hou by (by etrans; [exact Ho|]).
  split; [|by split]. apply (at_jrn H H s u Hs Hou); [by exists L|apply Hs..].
Qed.

Lemma store_close H s t bp n d L : at_point H s -> only_jrn s t -> L ⊆ K -> H !! bp = None ->
  tx st sz s0 (<[bp := (n, false)]> H) L (jrn t) -> (is_bmap x n \/ is_data x n \/ is_inode x n) -> n ∈ K -> length d = Z.to_nat BSIZE ->
  exists u, (_ ← onb (set_bdata bp d); _ ← onj (log_write bp); onb (brelse bp)) t = Ret ((), u) /\ at_point H u /\ only_jrn s u /\
    forall m, blocks u m = update (blocks t) (n, d) m.
Proof.
  intros Hs Ho HL HN Ht Hr HnK Hd. destruct (region_block n Hr) as [_ Hlog].
  destruct (set_bdata_tx st sz s0 t _ L Ht bp n false d (lookup_insert_eq _ _ _) Hd) as (t1 & E1 & Ht1 & Hv1 & Ho1).
  rewrite insert_insert_eq in Ht1.
  destruct (log_write_tx st sz s0 t1 _ L Ht1 bp n true (lookup_insert_eq _ _ _) Hlog (log_room L HL)) as (t2 & E2 & Ht2 & Hv2 & Ho2).
  { apply (g_log _ _ _ _ G). }
  rewrite insert_insert_eq in Ht2.
  destruct (close_block H s t2 bp n ({[n]} ∪ L) Hs) as (u & E3 & Hu & Hou & Hv3); [|set_solver|done|done|].
  { etrans; [exact Ho|]. etrans; [exact Ho1|exact Ho2]. }
  exists u. split; [by rewrite (run_bind _ _ _ _ _ E1), (run_bind _ _ _ _ _ E2)|]. split; [done|]. split; [done|].
  intros m. by rewrite Hv3, Hv2, Hv1.
Qed.

Lemma bfree_run H s b : at_point H s -> is_data x b -> used x (blocks s) b = true -> block_ok (blocks s (BBLOCK b x)) ->
  exists s', bfree 1 b s = Ret ((), s') /\ at_point H s' /\ only_jrn s s' /\ freed x [b] (blocks s) (blocks s').
Proof.
  intros Hs Hb Hu Hok. assert (0 <= b < sb_size x) as Hb'.
  { pose proof (regions x st sz _ G b (or_intror (or_introl Hb))). unfold is_data in Hb. lia. }
  destruct (BBLOCK_bmap x st sz _ G b Hb') as [_ Hbb]. unfold bfree.
  rewrite (run_bind (gets sb) _ s (sb s) s eq_refl), (ap_sb _ _ Hs).
  destruct (open_block H s (BBLOCK b x) Hs (or_introl Hbb)) as (bp & t & E & HN & Ho & Hv & Ed & L & HL & Ht).
  rewrite (run_bind _ _ _ _ _ E), (run_bind _ _ _ _ _ Ed). unfold used in Hu. rewrite Hu. cbn [negb].
  destruct (store_close H s t bp (BBLOCK b x) (clear_bit (blocks s (BBLOCK b x)) (Z.to_nat (b mod BPB))) L Hs Ho HL HN Ht)
    as (u & Eu & Hu' & Hou & Hvu); [by left|by apply Hbm|by apply block_ok_clear|].
  exists u. split; [done|]. split; [done|]. split; [done|].
  apply (freed_ext x [b] (blocks s) (blocks s) (update (blocks s) (BBLOCK b x, clear_bit (blocks s (BBLOCK b x)) (Z.to_nat (b mod BPB)))));
    [done| |by apply (freed_one x st sz _ G)].
  intros n. rewrite Hvu. unfold update. cbn [fst snd]. destruct (decide _); [done|]. apply Hv.
Qed.

Lemma geti_run i s ip : icache s !! i = Some ip -> geti i s = Ret (ip, s).
Proof. intros H. unfold geti. by rewrite H. Qed.
Lemma seti_run i f s ip : icache s !! i = Some ip -> seti i f s = Ret ((), set_icache (<[i := f ip]> (icache s)) s).
Proof. intros H. unfold seti. by rewrite H. Qed.

Lemma iupdate_run H s i ip : at_point H s -> icache s !! i = Some ip -> i_dev ip = 1 -> 0 <= i_inum ip < sb_ninodes x ->
  IBLOCK (i_inum ip) x ∈ K -> length (blocks s (IBLOCK (i_inum ip) x)) = Z.to_nat BSIZE ->
  exists s', iupdate i s = Ret ((), s') /\ at_point H s' /\ only_jrn s s' /\
    forall n, blocks s' n = put_inode x (blocks s) (i_inum ip) ip n.
Proof.
  intros Hs Hi Hdev Hin HinK Hl. destruct (IBLOCK_inode x st sz _ G _ Hin) as [_ Hib]. unfold iupdate.
  rewrite (run_bind _ _ _ _ _ (geti_run i s ip Hi)), (run_bind (gets sb) _ s (sb s) s eq_refl), (ap_sb _ _ Hs), Hdev.
  destruct (open_block H s (IBLOCK (i_inum ip) x) Hs (or_intror (or_introl Hib))) as (bp & t & E & HN & Ho & Hv & Ed & L & HL & Ht).
  rewrite (run_bind _ _ _ _ _ E), (run_bind _ _ _ _ _ Ed).
  destruct (store_close H s t bp (IBLOCK (i_inum ip) x) (to_dinode ip (blocks s (IBLOCK (i_inum ip) x)) (dinode_at (i_inum ip))) L Hs Ho HL HN Ht)
    as (u & Eu & Hu & Hou & Hvu); [by do 2 right|done|by rewrite length_to_dinode|].
  exists u. split; [done|]. split; [done|]. split; [done|].
  intros n. rewrite Hvu. unfold put_inode, update. cbn [fst snd]. destruct (decide _); [done|]. apply Hv.
Qed.

(** ** [itrunc] *)

(** Blocks that can be freed one after the other. *)
Definition freeable (V : Z -> list Z) (bs : list Z) : Prop :=
  NoDup bs /\ forall b, b ∈ bs -> is_data x b /\ used x V b = true /\ block_ok (V (BBLOCK b x)).

Lemma data_range b : is_data x b -> 0 <= b < sb_size x.
Proof. intros Hb. pose proof (regions x st sz _ G b (or_intror (or_introl Hb))). unfold is_data in Hb. lia. Qed.

Lemma freeable_freed V V' bs cs : freeable V (bs ++ cs) -> freed x bs V V' -> freeable V' cs.
Proof.
  intros [Hnd Hall] Hf. apply NoDup_app in Hnd as (_ & Hdisj & Hnd). split; [done|]. intros b Hb.
  destruct (Hall b) as (Hd & Hu & Hok); [set_solver|]. split; [done|]. split; [|by apply (fr_ok _ _ _ _ Hf)].
  rewrite (fr_used _ _ _ _ Hf), Hu, bool_decide_eq_false_2; [done| |by apply data_range]. intros Hin. by apply (Hdisj b).
Qed.

(** [if(a) bfree(dev, a)] *)
Lemma free_if H s a l : at_point H s -> freeable (blocks s) (nonzero (a :: l)) ->
  exists s', (if negb (a =? 0) then bfree 1 a else mret ()) s = Ret ((), s') /\ at_point H s' /\ only_jrn s s' /\
    freed x (nonzero [a]) (blocks s) (blocks s') /\ freeable (blocks s') (nonzero l).
Proof.
  intros Hs Hf. rewrite nonzero_cons in *. destruct (Z.eqb_spec a 0) as [->|Hne]; cbn [negb].
  - exists s. split; [done|]. split; [done|]. split; [reflexivity|]. split; [by apply freed_nil|done].
  - destruct (proj2 Hf a (list_elem_of_here _ _)) as (Hd & Hu & Hok).
    destruct (bfree_run H s a Hs Hd Hu Hok) as (s' & E & Hs' & Ho & Hfr). exists s'. split; [done|]. split; [done|]. split; [done|].
    split; [done|]. by apply (freeable_freed _ _ [a] (nonzero l) Hf).
Qed.

Lemma trunc_indirect_run H bp a s : forall n j, at_point H s -> H !! bp = Some (a, false) -> (j + n = Z.to_nat NINDIRECT)%nat ->
  freeable (blocks s) (nonzero (drop j (entries (blocks s a)))) ->
  exists s', trunc_indirect n j 1 bp s = Ret ((), s') /\ at_point H s' /\ only_jrn s s' /\
    freed x (nonzero (drop j (entries (blocks s a)))) (blocks s) (blocks s').
Proof.
  intros n. revert s. induction n as [|n IH]; intros s j Hs Hbp Hj Hf.
  - exists s. split; [done|]. split; [done|]. split; [reflexivity|]. rewrite drop_ge by (unfold entries; rewrite length_fmap, length_seq; lia).
    by apply freed_nil.
  - cbn [trunc_indirect]. destruct (ap_tx _ _ Hs) as (L & Ht & _). rewrite (run_bind _ _ _ _ _ (bdata_tx st sz s0 s H L Ht bp a false Hbp)).
    assert (entries (blocks s a) !! j = Some (rd32 (blocks s a) (4 * j))) as He.
    { unfold entries. rewrite list_lookup_fmap, lookup_seq_lt by lia. done. }
    rewrite (drop_S _ _ _ He) in Hf |- *. destruct (free_if H s _ _ Hs Hf) as (t & E & Hat & Hot & Hfr & Hft).
    rewrite (run_bind _ _ _ _ _ E). assert (blocks t a = blocks s a) as Ea.
    { apply (fr_other _ _ _ _ Hfr). by apply (ap_held _ _ Hs), (data_apart x st sz _ G) in Hbp as [Hbp _]. }
    rewrite <- Ea in Hft. destruct (IH t (S j) Hat Hbp) as (u & Eu & Hu & Hou & Hfu); [lia|done|].
    exists u. split; [done|]. split; [done|]. split; [by etrans|]. rewrite Ea in Hfu. rewrite nonzero_cons.
    pose proof (freed_app x _ _ _ _ _ Hfr Hfu) as Hfin. rewrite nonzero_cons in Hfin. by destruct (rd32 (blocks s a) (4 * j) =? 0).
Qed.

(** Only the journal and inode [i] have changed. *)
Definition only_inode (i : nat) (ip : inode) (s s' : fs) : Prop :=
  s' = set_icache (<[i := ip]> (icache s)) (set_jrn (jrn s') s).

Lemma only_inode_trans i ip ip' s t u : only_inode i ip s t -> only_inode i ip' t u -> only_inode i ip' s u.
Proof.
  unfold only_inode. intros H1 H2. rewrite H2, H1. cbn [icache set_icache set_jrn jrn]. rewrite list_insert_insert_eq. by destruct s.
Qed.
Lemma only_jrn_inode i ip s t : icache s !! i = Some ip -> only_jrn s t -> only_inode i ip s t.
Proof. unfold only_jrn, only_inode. intros Hi H. rewrite list_insert_id by done. rewrite H. by destruct s. Qed.
Lemma seti_inode i ip ip' s : icache s !! i = Some ip -> only_inode i ip' s (set_icache (<[i := ip']> (icache s)) s).
Proof. unfold only_inode. intros Hi. by destruct s. Qed.
Lemma only_inode_lookup i ip ip' s t : icache s !! i = Some ip -> only_inode i ip' s t -> icache t !! i = Some ip'.
Proof. intros Hi H. rewrite H. cbn [icache set_icache]. apply list_lookup_insert_eq. by eapply lookup_lt_Some. Qed.
Lemma only_jrn_icache s t : only_jrn s t -> icache t = icache s.
Proof. intros H. rewrite H. done. Qed.

(** Entries [k .. k+n) cleared. *)
Definition cleared (k n : nat) (A : list Z) : list Z := take k A ++ replicate n 0 ++ drop (k + n) A.

Lemma cleared_S k n A : (k < length A)%nat -> cleared (S k) n (<[k := 0]> A) = cleared k (S n) A.
Proof.
  intros Hk. unfold cleared. rewrite (take_S_r _ _ 0) by (by apply list_lookup_insert_eq). rewrite take_insert_ge by lia.
  rewrite drop_insert_lt by lia. rewrite <- app_assoc. cbn [replicate app]. do 4 f_equal. lia.
Qed.

Lemma trunc_direct_run H i : forall n k s ip, at_point H s -> icache s !! i = Some ip -> i_dev ip = 1 ->
  (k + n <= length (i_addrs ip))%nat -> freeable (blocks s) (nonzero (take n (drop k (i_addrs ip)))) ->
  exists s', trunc_direct n k i s = Ret ((), s') /\ at_point H s' /\
    only_inode i (set_i_addrs (cleared k n (i_addrs ip)) ip) s s' /\
    freed x (nonzero (take n (drop k (i_addrs ip)))) (blocks s) (blocks s').
Proof.
  induction n as [|n IH]; intros k s ip Hs Hi Hdev Hk Hf.
  - exists s. split; [done|]. split; [done|]. split; [|by apply freed_nil]. unfold cleared. cbn [replicate app].
    rewrite Nat.add_0_r, take_drop. replace (set_i_addrs (i_addrs ip) ip) with ip by (by destruct ip). by apply only_jrn_inode.
  - cbn [trunc_direct]. rewrite (run_bind _ _ _ _ _ (geti_run i s ip Hi)).
    destruct (lookup_lt_is_Some_2 (i_addrs ip) k) as [a Ha]; [lia|].
    rewrite (nth_lookup_Some _ _ 0 a Ha), Hdev. rewrite (drop_S _ _ _ Ha) in Hf |- *. cbn [take] in Hf |- *.
    destruct (free_if H s a _ Hs Hf) as (t & E & Hat & Hot & Hfr & Hft).
    set (ip1 := set_i_addrs (<[k := 0]> (i_addrs ip)) ip).
    assert (exists t1, (if negb (a =? 0) then _ ← bfree 1 a; seti i (fun p => set_i_addrs (<[k := 0]> (i_addrs p)) p) else mret ()) s = Ret ((), t1) /\
      at_point H t1 /\ only_inode i ip1 s t1 /\ (forall m, blocks t1 m = blocks t m)) as (t1 & E1 & Hat1 & Hot1 & Hv1).
    { destruct (Z.eqb_spec a 0) as [->|Hne]; cbn [negb] in E |- *.
      - injection E as <-. exists s. split; [done|]. split; [done|]. split; [|done].
        replace ip1 with ip; [by apply only_jrn_inode|]. unfold ip1. rewrite list_insert_id by done. by destruct ip.
      - assert (icache t !! i = Some ip) as Hit by (by rewrite (only_jrn_icache s t)).
        eexists. rewrite (run_bind _ _ _ _ _ E), (seti_run i _ t ip Hit). split; [done|]. split; [by apply at_icache|].
        split; [|done]. apply (only_inode_trans i ip ip1 s t); [by apply only_jrn_inode|by eapply seti_inode]. }
    rewrite (run_bind _ _ _ _ _ E1). pose proof (only_inode_lookup i ip ip1 s t1 Hi Hot1) as Hi1.
    assert (freeable (blocks t1) (nonzero (take n (drop (S k) (i_addrs ip1))))) as Hf1.
    { unfold ip1. cbn [i_addrs set_i_addrs]. rewrite drop_insert_lt by lia. destruct Hft as [Hnd Hall]. split; [done|].
      intros b Hb. destruct (Hall b Hb) as (A1 & A2 & A3). unfold used in *. rewrite !Hv1. done. }
    destruct (IH (S k) t1 ip1 Hat1 Hi1 Hdev) as (u & Eu & Hu & Hou & Hfu); [unfold ip1; cbn [i_addrs set_i_addrs]; rewrite length_insert; lia|done|].
    exists u. split; [done|]. split; [done|]. unfold ip1 in Hou. cbn [i_addrs set_i_addrs] in Hou. rewrite cleared_S in Hou by lia.
    split; [by apply (only_inode_trans i ip1 _ s t1)|]. unfold ip1 in Hfu. cbn [i_addrs set_i_addrs] in Hfu. rewrite drop_insert_lt in Hfu by lia.
    rewrite nonzero_cons. assert (freed x (nonzero [a]) (blocks s) (blocks t1)) as Hfr1 by (by apply (freed_ext x _ (blocks s) (blocks s) (blocks t))).
    pose proof (freed_app x _ _ _ _ _ Hfr1 Hfu) as Hfin. rewrite nonzero_cons in Hfin. by destruct (a =? 0).
Qed.

(** [if(ip->addrs[NDIRECT])] of [itrunc]. *)
Definition trunc_tail (i : nat) : M fs () :=
  ip ← geti i;
  let a := nth (Z.to_nat NDIRECT) (i_addrs ip) 0 in
  if negb (a =? 0) then
    bp ← onb (bread (i_dev ip) a);
    _ ← trunc_indirect (Z.to_nat NINDIRECT) 0 (i_dev ip) bp;
    _ ← onb (brelse bp);
    _ ← bfree (i_dev ip) a;
    seti i (fun p => set_i_addrs (<[Z.to_nat NDIRECT := 0]> (i_addrs p)) p)
  else mret ().

Lemma trunc_tail_run H i s ip : at_point H s -> icache s !! i = Some ip -> i_dev ip = 1 -> length (i_addrs ip) = 13%nat ->
  let a := nth (Z.to_nat NDIRECT) (i_addrs ip) 0 in
  freeable (blocks s) (indirect_blocks (blocks s) a) -> (forall j c, H !! j <> Some (a, c)) -> (size H <= 3)%nat ->
  exists s', trunc_tail i s = Ret ((), s') /\ at_point H s' /\
    only_inode i (set_i_addrs (<[Z.to_nat NDIRECT := 0]> (i_addrs ip)) ip) s s' /\
    freed x (indirect_blocks (blocks s) a) (blocks s) (blocks s').
Proof.
  intros Hs Hi Hdev Hlen a Hf Hno Hsz. unfold trunc_tail. rewrite (run_bind _ _ _ _ _ (geti_run i s ip Hi)), Hdev. fold a.
  destruct (lookup_lt_is_Some_2 (i_addrs ip) (Z.to_nat NDIRECT)) as [a' Ha]; [rewrite Hlen; unfold NDIRECT; lia|].
  assert (a' = a) as -> by (unfold a; by rewrite (nth_lookup_Some _ _ 0 a' Ha)).
  unfold indirect_blocks in *. destruct (Z.eqb_spec a 0) as [Ea|Hne]; cbn [negb].
  { exists s. split; [done|]. split; [done|]. split; [|by apply freed_nil].
    rewrite list_insert_id by (by rewrite Ha, Ea). replace (set_i_addrs (i_addrs ip) ip) with ip by (by destruct ip). by apply only_jrn_inode. }
  destruct (proj2 Hf a) as (Had & _ & _); [set_solver|].
  destruct (open_block H s a Hs) as (bp & t & E & HN & Ho & Hv & _ & L & HL & Ht); [by right; right|].
  assert (at_point (<[bp := (a, false)]> H) t) as Hat.
  { apply (at_jrn H _ s t Hs Ho); [by exists L| |rewrite map_size_insert_None by done; lia].
    intros j n c Hj. apply lookup_insert_Some in Hj as [[_ [= <- <-]]|[_ Hj]]; [done|by apply (ap_held _ _ Hs) in Hj]. }
  destruct Hf as [Hnd Hall]. assert (freeable (blocks t) (nonzero (entries (blocks t a)) ++ [a])) as Hft.
  { rewrite Hv. split; [done|]. intros b Hb. destruct (Hall b Hb) as (A1 & A2 & A3). unfold used in *. by rewrite !Hv. }
  assert (freeable (blocks t) (nonzero (drop 0 (entries (blocks t a))))) as Hf0.
  { destruct Hft as [B1 B2]. apply NoDup_app in B1 as (B1 & _ & _). split; [done|]. intros b Hb. apply B2. apply elem_of_app. by left. }
  destruct (trunc_indirect_run _ bp a t (Z.to_nat NINDIRECT) 0 Hat (lookup_insert_eq _ _ _) eq_refl Hf0) as (t1 & E1 & Ht1 & Ho1 & Hfr1).
  rewrite drop_0 in Hfr1. destruct (ap_tx _ _ Ht1) as (L1 & Htx1 & HL1).
  destruct (close_block H s t1 bp a L1 Hs) as (t2 & E2 & Ht2 & Ho2 & Hv2); [by etrans|done|done|done|].
  assert (freed x (nonzero (entries (blocks s a))) (blocks s) (blocks t2)) as Hfr2.
  { rewrite Hv in Hfr1. by apply (freed_ext x _ (blocks t) _ (blocks t1)). }
  rewrite Hv in Hft. assert (freeable (blocks s) (nonzero (entries (blocks s a)) ++ [a])) as Hfs by (by split).
  destruct (proj2 (freeable_freed _ _ _ _ Hfs Hfr2) a (list_elem_of_here _ _)) as (_ & Hua & Hoka).
  destruct (bfree_run H t2 a Ht2 Had Hua Hoka) as (t3 & E3 & Ht3 & Ho3 & Hfr3).
  assert (only_jrn s t3) as Ho13 by (by etrans). assert (icache t3 !! i = Some ip) as Hi3 by (by rewrite (only_jrn_icache s t3)).
  eexists. rewrite (run_bind _ _ _ _ _ E), (run_bind _ _ _ _ _ E1), (run_bind _ _ _ _ _ E2), (run_bind _ _ _ _ _ E3), (seti_run i _ t3 ip Hi3).
  split; [done|]. split; [by apply at_icache|]. split.
  - apply (only_inode_trans i ip _ s t3); [by apply only_jrn_inode|by eapply seti_inode].
  - by apply (freed_app x _ _ _ (blocks t2)).
Qed.

Lemma cleared_all A : length A = 13%nat -> <[Z.to_nat NDIRECT := 0]> (cleared 0 (Z.to_nat NDIRECT) A) = replicate 13 0.
Proof.
  intros HA. unfold cleared. change (Z.to_nat NDIRECT) with 12%nat. cbn [take app Nat.add].
  destruct (drop 12 A) as [|v l] eqn:E; [apply (f_equal length) in E; rewrite length_drop in E; cbn in E; lia|].
  assert (l = []) as -> by (apply (f_equal length) in E; rewrite length_drop in E; cbn in E; destruct l; [done|cbn in E; lia]). done.
Qed.

Lemma itrunc_run s i ip : at_point ∅ s -> icache s !! i = Some ip -> i_dev ip = 1 -> 0 <= i_inum ip < sb_ninodes x ->
  IBLOCK (i_inum ip) x ∈ K -> length (i_addrs ip) = 13%nat -> block_ok (blocks s (IBLOCK (i_inum ip) x)) ->
  freeable (blocks s) (inode_blocks (blocks s) (i_addrs ip)) ->
  exists s' V1, itrunc i s = Ret ((), s') /\ at_point ∅ s' /\
    only_inode i (set_i_size 0 (set_i_addrs (replicate 13 0) ip)) s s' /\
    freed x (inode_blocks (blocks s) (i_addrs ip)) (blocks s) V1 /\
    forall n, blocks s' n = put_inode x V1 (i_inum ip) (set_i_size 0 (set_i_addrs (replicate 13 0) ip)) n.
Proof.
  intros Hs Hi Hdev Hin HinK Hlen Hok Hf. pose (ip1 := set_i_addrs (cleared 0 (Z.to_nat NDIRECT) (i_addrs ip)) ip).
  unfold inode_blocks in Hf.
  destruct (trunc_direct_run ∅ i (Z.to_nat NDIRECT) 0 s ip Hs Hi Hdev) as (t & E & Ht & Ho & Hfr);
    [rewrite Hlen; unfold NDIRECT; lia| |]. { destruct Hf as [B1 B2]. apply NoDup_app in B1 as (B1 & _ & _). split; [done|]. intros b Hb. apply B2, elem_of_app. by left. }
  rewrite drop_0 in Hfr. pose proof (only_inode_lookup i ip _ s t Hi Ho) as Hit. fold ip1 in Hit, Ho.
  assert (length (i_addrs ip1) = 13%nat) as Hl1.
  { unfold ip1, cleared. cbn [i_addrs set_i_addrs]. rewrite !length_app, length_replicate, length_drop, length_take, Hlen. unfold NDIRECT. lia. }
  set (a := nth (Z.to_nat NDIRECT) (i_addrs ip) 0) in *.
  assert (nth (Z.to_nat NDIRECT) (i_addrs ip1) 0 = a) as Ea.
  { unfold ip1, cleared, a. cbn [i_addrs set_i_addrs]. change (Z.to_nat NDIRECT) with 12%nat. cbn [take app Nat.add].
    transitivity (nth 0 (drop 12 (i_addrs ip)) 0); [done|]. by rewrite !nth_lookup, lookup_drop. }
  assert (freeable (blocks t) (indirect_blocks (blocks s) a)) as Hft by (by eapply freeable_freed).
  assert (indirect_blocks (blocks t) a = indirect_blocks (blocks s) a) as Eind.
  { unfold indirect_blocks in *. destruct (Z.eqb_spec a 0); [done|]. rewrite (fr_other _ _ _ _ Hfr); [done|].
    destruct (proj2 Hft a) as (Hd & _); [set_solver|]. by apply (data_apart x st sz _ G) in Hd as [Hd _]. }
  rewrite <- Eind in Hft. rewrite <- Ea in Hft.
  destruct (trunc_tail_run ∅ i t ip1 Ht Hit Hdev Hl1 Hft) as (t1 & E1 & Ht1 & Ho1 & Hfr1); [by intros; rewrite lookup_empty|rewrite map_size_empty; lia|].
  rewrite Ea, Eind in Hfr1. pose proof (only_inode_trans i _ _ s t t1 Ho Ho1) as Hot1.
  replace (set_i_addrs (<[Z.to_nat NDIRECT := 0]> (i_addrs ip1)) ip1) with (set_i_addrs (replicate 13 0) ip) in Hot1
    by (unfold ip1; cbn [i_addrs set_i_addrs]; rewrite cleared_all by done; by destruct ip).
  pose proof (freed_app x _ _ _ _ _ Hfr Hfr1) as Hfin.
  pose proof (only_inode_lookup i ip _ s t1 Hi Hot1) as Hi1.
  set (ip2 := set_i_size 0 (set_i_addrs (replicate 13 0) ip)).
  set (t2 := set_icache (<[i := ip2]> (icache t1)) t1).
  assert (icache t2 !! i = Some ip2) as Hi2 by (apply list_lookup_insert_eq; by eapply lookup_lt_Some).
  destruct (iupdate_run ∅ t2 i ip2 (at_icache _ _ _ Ht1) Hi2 Hdev Hin HinK) as (u & Eu & Hu & Hou & Hvu).
  { apply (fr_ok _ _ _ _ Hfin). done. }
  exists u, (blocks t2). split.
  { unfold itrunc. rewrite (run_bind _ _ _ _ _ E). unfold trunc_tail in E1.
    revert E1. rewrite !(run_bind _ _ _ _ _ (geti_run i t ip1 Hit)). cbn zeta. intros E1. rewrite (run_bind _ _ _ _ _ E1), (run_bind _ _ _ _ _ (seti_run i _ t1 _ Hi1)). done. }
  split; [done|]. split; [|by split].
  apply (only_inode_trans i (set_i_addrs (replicate 13 0) ip) ip2 s t1); [done|].
  apply (only_inode_trans i ip2 ip2 t1 t2); [by eapply seti_inode|by apply only_jrn_inode].
Qed.
End fs.
