(* ===== verification/FsRead.v ===== *)
(** * Reading files

    [bmap] on a block the file has, [readi], and [ilock] change nothing of
    what the blocks hold.  [reading] describes a journal after such reads,
    inside a transaction or outside; [readi] delivers the bytes of the file
    that the inode represents. *)

From stdpp Require Import base numbers list gmap strings.
From S2P Require Import Prelude Bytes Machine Locks Bio BioSpec Log BioAbs LogSpec LogCrash.
From S2P Require Import LogTx.
From S2P Require Import FsState Fs TxSpec FsDisk FileData FsSpec.
Open Scope Z_scope.

(** ** Reading blocks *)

(** [j] reads as [j0]; the buffers [H] are held, the blocks [L] logged. *)
Record reading (H : gmap nat (Z * bool)) (L : gset Z) (j0 j : jst) : Prop := {
  rg_holds : exists l, holds (bio j) l H L;
  rg_disk : same_disk (bio j0) (bio j);
  rg_log : jlog j = jlog j0;
  rg_view : forall n, view (bio j) n = view (bio j0) n }.

Lemma reading_trans H H' L j0 j1 j2 : reading H L j0 j1 -> reading H' L j1 j2 -> reading H' L j0 j2.
Proof.
  intros [A1 A2 A3 A4] [B1 B2 B3 B4]. split; [done|by etrans|congruence|]. intros n. by rewrite B4, A4.
Qed.
Lemma reading_refl H L j : (exists l, holds (bio j) l H L) -> reading H L j j.
Proof. by split. Qed.

Lemma reading_idle st sz j0 j : idle st sz j0 -> reading ∅ ∅ j0 j -> idle st sz j.
Proof.
  intros [[A1 A2 A3 A4 A5] A6 A7] [B1 B2 B3 B4]. pose proof B2 as (E & _). split; [|by rewrite E..].
  split; rewrite ?B3; try done. apply (log_ok_wrote (bio j0) (bio j) []); [by apply wrote_nil|done].
Qed.

Lemma idle_reading st sz j : idle st sz j -> reading ∅ ∅ j j.
Proof. intros [[A1 _ _ _ _] _ _]. by apply reading_refl. Qed.

Section read.
Context (H : gmap nat (Z * bool)) (L : gset Z) (s : fs) (Hs : exists l, holds (bio (jrn s)) l H L).

(** [bread], [bdata], and [brelse] after steps that leave the journal alone. *)
Lemma read_block n : in_range (bio (jrn s)) n -> (forall i c, H !! i <> Some (n, c)) -> (size H + size L < NBUF)%nat ->
  exists bp j, onb (bread 1 n) s = Ret (bp, set_jrn j s) /\ (forall t, jrn t = j -> onb (bdata bp) t = Ret (blocks s n, t)) /\
    forall t, jrn t = j -> exists j', onb (brelse bp) t = Ret ((), set_jrn j' t) /\ reading H L (jrn s) j'.
Proof.
  intros Hn Hno Hroom. destruct Hs as [l Hl]. destruct (bread_wp _ l H L Hl n Hn Hno (or_introl Hroom)) as (i & b & Hr & Hb & HN & Hd & Hv).
  exists i, (set_bio b (jrn s)). split; [unfold onb, onj, onbio, zoom; by rewrite Hr|]. split.
  - intros t Ht. unfold onb, onj, onbio, zoom. rewrite Ht. cbn [bio set_bio]. rewrite (bdata_run b l _ L i n false Hb) by apply lookup_insert_eq.
    rewrite Hv. unfold blocks. do 2 f_equal. destruct t. cbn in *. subst. done.
  - intros t Ht. destruct (brelse_wp b l _ L i n Hb) as (b' & l' & Hr' & Hb' & Hd' & Hv'); [apply lookup_insert_eq|].
    exists (set_bio b' (jrn t)). split; [unfold onb, onj, onbio, zoom; rewrite Ht; cbn [bio set_bio]; by rewrite Hr'|].
    rewrite Ht. split; cbn [bio jlog set_bio].
    + exists l'. rewrite delete_insert_id in Hb' by done. done.
    + by etrans.
    + done.
    + intros m. by rewrite Hv', Hv.
Qed.

(** ** A block of a file *)

Context (i : nat) (ip : inode) (Hi : icache s !! i = Some ip) (Hdev : i_dev ip = 1).
Context (a : afile) (R : rep (blocks s) ip a) (Hr : forall b, b ∈ fblocks a -> in_range (bio (jrn s)) b).
Context (Hfree : forall b k c, b ∈ fblocks a -> H !! k <> Some (b, c)) (Hroom : (size H + size L < NBUF)%nat).

Lemma bmap_old j b : a_blocks a !! j = Some b ->
  exists t, bmap i (Z.of_nat j) s = Ret (b, set_jrn t s) /\ reading H L (jrn s) t.
Proof.
  intros Hj. assert (b <> 0) as Hb by (by apply (Forall_lookup_1 _ _ _ _ (rp_nonzero _ _ _ R) Hj)).
  unfold bmap. rewrite (run_bind _ _ _ _ _ (geti_run i s ip Hi)). rewrite Nat2Z.id. destruct (Z.ltb_spec (Z.of_nat j) NDIRECT) as [Hd|Hd].
  - rewrite (rep_direct _ _ _ R j b Hj ltac:(unfold ND; lia)), (proj2 (Z.eqb_neq _ _) Hb). exists (jrn s). split; [by destruct s|by apply reading_refl].
  - destruct (rep_indirect _ _ _ R j b Hj ltac:(unfold ND; lia)) as [Hi0 He]. pose proof (rep_ind_nth _ _ _ R) as E.
    pose proof (lookup_lt_Some _ _ _ Hj) as Hl. pose proof (rp_max _ _ _ R) as Hm.
    change (Z.to_nat NDIRECT) with ND. rewrite (proj2 (Z.ltb_lt (Z.of_nat j - NDIRECT) NINDIRECT)) by (change NINDIRECT with 128; change NI with 128%nat in Hm; change ND with 12%nat in Hm; change NDIRECT with 12 in *; lia).
    rewrite E, (proj2 (Z.eqb_neq _ _) Hi0). rewrite (run_bind (mret (a_ind a)) _ s (a_ind a) s eq_refl), Hdev.
    destruct (read_block (a_ind a) (Hr _ (fb_ind a Hi0)) (fun k c => Hfree _ k c (fb_ind a Hi0)) Hroom) as (bp & j1 & E1 & E2 & E3).
    rewrite (run_bind _ _ _ _ _ E1), (run_bind _ _ _ _ _ (E2 (set_jrn j1 s) eq_refl)).
    replace (Z.to_nat (Z.of_nat j - NDIRECT)) with (j - ND)%nat by (unfold ND, NDIRECT in *; lia).
    rewrite He, (proj2 (Z.eqb_neq _ _) Hb), (run_bind (mret b) _ _ b (set_jrn j1 s) eq_refl).
    destruct (E3 (set_jrn j1 s) eq_refl) as (j2 & E4 & G). rewrite (run_bind _ _ _ _ _ E4). exists j2. split; [done|exact G].
Qed.
End read.

(** ** Where the bytes go *)


Lemma store_app l1 l2 : forall a m m', store_bytes a (l1 ++ l2) m = Ret ((), m') ->
  exists m1, store_bytes a l1 m = Ret ((), m1) /\ store_bytes (a + Z.of_nat (length l1)) l2 m1 = Ret ((), m').
Proof.
  induction l1 as [|v l1 IH]; intros a m m' E; cbn [app store_bytes length] in *.
  - exists m. by rewrite Z.add_0_r.
  - unfold mbind, M_bind in E |- *. destruct (store8 a v m) as [[[] m0]| | | |]; try done. destruct (IH _ _ _ E) as (m1 & E1 & E2).
    exists m1. split; [done|]. by replace (a + Z.of_nat (S (length l1))) with (a + 1 + Z.of_nat (length l1)) by lia.
Qed.

Lemma put_fm dst k l s t : put_bytes dst k l s = Ret ((), t) -> t = set_fm (fm t) s.
Proof.
  destruct dst as [a|]; cbn; [|intros [= <-]; by destruct s]. unfold onmach, zoom. destruct (store_bytes _ _ _) as [[[] m]| | | |]; try done.
  by intros [= <-].
Qed.

Lemma put_jrn dst k l s t j : put_bytes dst k l s = Ret ((), t) -> put_bytes dst k l (set_jrn j s) = Ret ((), set_jrn j t).
Proof.
  destruct dst as [a|]; cbn; [|by intros [= <-]]. unfold onmach, zoom. cbn [fm set_jrn]. destruct (store_bytes _ _ _) as [[[] m]| | | |]; try done.
  by intros [= <-].
Qed.

Lemma put_app dst k l1 l2 s t : put_bytes dst k (l1 ++ l2) s = Ret ((), t) ->
  exists u, put_bytes dst k l1 s = Ret ((), u) /\ put_bytes dst (k + Z.of_nat (length l1)) l2 u = Ret ((), t).
Proof.
  destruct dst as [a|]; cbn; [|by exists s]. unfold onmach, zoom. destruct (store_bytes (a + k) (l1 ++ l2) (fm s)) as [[[] m]| | | |] eqn:E; try done.
  intros [= <-]. destruct (store_app _ _ _ _ _ E) as (m1 & -> & E2). exists (set_fm m1 s). split; [done|]. cbn [fm set_fm].
  rewrite Z.add_assoc, E2. done.
Qed.

(** ** [readi] *)

Lemma lookup_sub d k n i : (i < n)%nat -> sub d k n !! i = d !! (k + i)%nat.
Proof. intros Hi. unfold sub. by rewrite lookup_take_lt, lookup_drop. Qed.

Lemma rep_sub V ip a j b o m : rep V ip a -> a_blocks a !! j = Some b -> (o + m <= BS)%nat -> (BS * j + o + m <= length (a_data a))%nat ->
  sub (V b) o m = sub (a_data a) (BS * j + o) m.
Proof.
  intros R Hj Ho Hl. assert (length (V b) = BS) as Hb by (by eapply rp_full, fb_data, list_elem_of_lookup_2).
  apply list_eq_same_length with m; [by rewrite length_sub by lia..|]. intros k x y Hk Hx Hy. rewrite lookup_sub in Hx, Hy by done.
  destruct (file_byte _ _ _ R (BS * j + o + k) ltac:(lia)) as (b' & Hb' & E).
  assert ((BS * j + o + k) / BS = j)%nat as Ed by (symmetry; apply (Nat.div_unique _ BS j (o + k)); lia).
  assert ((BS * j + o + k) mod BS = o + k)%nat as Em by (symmetry; apply (Nat.mod_unique _ BS j (o + k)); lia).
  rewrite Ed, Hj in Hb'. injection Hb' as <-. rewrite Em in E. congruence.
Qed.

Lemma sub_split d k n m : (n <= m)%nat -> sub d k m = sub d k n ++ sub d (k + n) (m - n).
Proof.
  intros H. unfold sub. rewrite <- drop_drop. rewrite <- (take_drop n (take m (drop k d))) at 1.
  rewrite take_take, (Nat.min_l n m) by done. f_equal. rewrite (take_drop_commute (drop k d) (m - n) n). do 2 f_equal. lia.
Qed.

Section readi.
Context {DS : Devsw} (H : gmap nat (Z * bool)) (L : gset Z) (Hroom : (size H + size L < NBUF)%nat).
Context (i : nat) (ip : inode) (Hdev : i_dev ip = 1) (a : afile) (Hfree : forall b k c, b ∈ fblocks a -> H !! k <> Some (b, c)).

(** A state in which inode [i] can be read. *)
Record can_read (s : fs) : Prop := {
  cr_holds : exists l, holds (bio (jrn s)) l H L;
  cr_inode : icache s !! i = Some ip;
  cr_rep : rep (blocks s) ip a;
  cr_range : forall b, b ∈ fblocks a -> in_range (bio (jrn s)) b }.

Lemma can_read_step s t j : can_read s -> reading H L (jrn s) j -> jrn t = j -> icache t = icache s -> can_read t.
Proof.
  intros [A1 A2 A3 A4] [B1 B2 B3 B4] Ej Ei. split; rewrite ?Ej, ?Ei; try done.
  - apply (rep_ext _ _ _ A3). intros b _. unfold blocks. by rewrite Ej, B4.
  - intros b Hb. rewrite (same_range _ _ _ B2). by apply A4.
Qed.

(** One round copies the bytes up to the end of the block. *)
Lemma readi_round fuel s u dst tot off n : can_read s -> 0 <= tot < n -> 0 <= off -> off + (n - tot) <= Z.of_nat (length (a_data a)) ->
  let m := Z.min (n - tot) (BSIZE - off mod BSIZE) in let l := sub (a_data a) (Z.to_nat off) (Z.to_nat m) in
  put_bytes dst tot l s = Ret ((), u) -> exists j, reading H L (jrn s) j /\
    readi_loop (S fuel) i dst tot off n s = (r ← readi_loop fuel i dst (tot + m) (off + m) n; mret (l ++ r)) (set_jrn j u).
Proof.
  intros C Ht Ho Hl m l Hput. pose proof (cr_rep _ C) as R. assert (0 <= off mod BSIZE < BSIZE) as Hmod by (apply Z.mod_pos_bound; done).
  pose proof (Z.div_mod off BSIZE ltac:(done)) as Ed. set (q := off / BSIZE) in *. assert (0 <= q) as Hq by (apply Z.div_pos; done).
  assert (BS = Z.to_nat BSIZE) as EB by done. unfold BSIZE in *. pose proof (rp_count _ _ _ R). pose proof (nblk_spec (length (a_data a))).
  pose proof (rp_max _ _ _ R) as Hmax. change ND with 12%nat in Hmax. change NI with 128%nat in Hmax.
  destruct (lookup_lt_is_Some_2 (a_blocks a) (Z.to_nat q)) as [b Hb]; [lia|].
  cbn [readi_loop]. rewrite (proj2 (Z.ltb_lt _ _)) by lia. rewrite (run_bind _ _ _ _ _ (geti_run i s ip (cr_inode _ C))).
  destruct (bmap_old H L s (cr_holds _ C) i ip (cr_inode _ C) Hdev a R (cr_range _ C) Hfree Hroom (Z.to_nat q) b Hb) as (j1 & E1 & G1).
  rewrite Z2Nat.id in E1 by done. unfold BSIZE. fold q. rewrite (run_bind _ _ _ _ _ E1), Hdev.
  pose proof (can_read_step s (set_jrn j1 s) j1 C G1 eq_refl eq_refl) as C1. pose proof (fb_data a b (list_elem_of_lookup_2 _ _ _ Hb)) as Hin.
  destruct (read_block H L (set_jrn j1 s) (cr_holds _ C1) b (cr_range _ C1 b Hin) (fun k c => Hfree b k c Hin) Hroom) as (bp & j2 & E2 & E3 & E4).
  rewrite (run_bind _ _ _ _ _ E2), (run_bind _ _ _ _ _ (E3 (set_jrn j2 (set_jrn j1 s)) eq_refl)). fold m.
  assert (sub (blocks (set_jrn j1 s) b) (Z.to_nat (off mod 512)) (Z.to_nat m) = l) as ->.
  { rewrite (rep_sub _ _ _ (Z.to_nat q) b _ _ (cr_rep _ C1) Hb) by lia. unfold l. f_equal. lia. }
  pose proof (put_jrn dst tot l s u j2 Hput) as Hput'. change (set_jrn j2 (set_jrn j1 s)) with (set_jrn j2 s).
  rewrite (run_bind _ _ _ _ _ Hput'). destruct (E4 (set_jrn j2 u) eq_refl) as (j3 & E5 & G2). rewrite (run_bind _ _ _ _ _ E5).
  exists j3. split; [by eapply reading_trans|]. replace (u32 (off + m)) with (off + m) by lia. done.
Qed.

Lemma readi_loop_run fuel : forall s t dst tot off n, can_read s -> 0 <= tot <= n -> 0 <= off ->
  off + (n - tot) <= Z.of_nat (length (a_data a)) -> tot = n \/ n - tot + off mod BSIZE <= BSIZE * Z.of_nat fuel ->
  let l := sub (a_data a) (Z.to_nat off) (Z.to_nat (n - tot)) in
  put_bytes dst tot l s = Ret ((), t) -> exists j, reading H L (jrn s) j /\ readi_loop (S fuel) i dst tot off n s = Ret (l, set_jrn j t).
Proof.
  induction fuel as [|fuel IH]; intros s t dst tot off n C Ht Ho Hl Hf l Hput.
  all: assert (0 <= off mod BSIZE < BSIZE) as Hmod by (by apply Z.mod_pos_bound).
  all: destruct (decide (tot = n)) as [->|Hne].
  1,3: exists (jrn t); unfold l in *; rewrite Z.sub_diag in *; change (sub (a_data a) (Z.to_nat off) (Z.to_nat 0)) with (@nil Z) in *;
    cbn [readi_loop]; rewrite Z.ltb_irrefl; assert (t = s) as -> by (destruct dst; cbn in Hput; [unfold onmach, zoom in Hput; cbn in Hput; injection Hput as <-; by destruct s|by injection Hput]);
    (split; [apply reading_refl, C|by destruct s]).
  { unfold BSIZE in *. lia. }
  set (m := Z.min (n - tot) (BSIZE - off mod BSIZE)). assert (0 < m <= n - tot) as Hm by (unfold BSIZE in *; lia).
  set (l1 := sub (a_data a) (Z.to_nat off) (Z.to_nat m)). set (l2 := sub (a_data a) (Z.to_nat (off + m)) (Z.to_nat (n - (tot + m)))).
  assert (l = l1 ++ l2) as El.
  { unfold l, l1, l2. rewrite (sub_split _ _ (Z.to_nat m)) by lia. f_equal. f_equal; lia. }
  assert (length l1 = Z.to_nat m) as Hl1 by (apply length_sub; lia).
  rewrite El in Hput. destruct (put_app _ _ _ _ _ _ Hput) as (u & P1 & P2).
  destruct (readi_round (S fuel) s u dst tot off n C ltac:(lia) Ho Hl P1) as (j1 & G1 & E1).
  rewrite Hl1, Z2Nat.id in P2 by lia. pose proof (put_fm _ _ _ _ _ P1) as Eu.
  destruct (IH (set_jrn j1 u) (set_jrn j1 t) dst (tot + m) (off + m) n) as (j2 & G2 & E2); [|lia|lia|lia| |by apply put_jrn|].
  - apply (can_read_step s (set_jrn j1 u) j1 C G1); [done|]. by rewrite Eu.
  - subst m. destruct (Z.min_spec (n - tot) (BSIZE - off mod BSIZE)) as [[Hlt ->]|[Hge ->]].
    + left. lia.
    + right. replace (off + (BSIZE - off mod BSIZE)) with ((off / BSIZE + 1) * BSIZE) by (pose proof (Z.div_mod off BSIZE ltac:(done)); lia).
      rewrite Z.mod_mul by done. unfold BSIZE in *. lia.
  - exists j2. split; [eapply reading_trans; [exact G1|]; exact G2|]. rewrite E1. rewrite (run_bind _ _ _ _ _ E2). rewrite El. done.
Qed.

(** The bytes of the file from [off] on, [n] of them if it is long enough. *)
Definition piece (d : list Z) (off n : Z) : list Z := sub d (Z.to_nat off) (Z.to_nat (Z.min n (Z.of_nat (length d) - off))).

Lemma readi_run s t dst off n : can_read s -> i_type ip <> T_DEV -> 0 <= off <= Z.of_nat (length (a_data a)) -> 0 <= n -> off + n < 2 ^ 32 ->
  put_bytes dst 0 (piece (a_data a) off n) s = Ret ((), t) ->
  exists j, reading H L (jrn s) j /\ readi i dst off n s = Ret ((Z.of_nat (length (piece (a_data a) off n)), piece (a_data a) off n), set_jrn j t).
Proof.
  intros C Hty Ho Hn Hov Hput. pose proof (cr_rep _ C) as R. unfold readi. rewrite (run_bind _ _ _ _ _ (geti_run i s ip (cr_inode _ C))).
  rewrite (proj2 (Z.eqb_neq _ _) Hty), (rp_size _ _ _ R). rewrite (u32_id (off + n)) by lia. rewrite (proj2 (Z.ltb_ge _ off)), (proj2 (Z.ltb_ge (off + n) off)) by lia.
  cbn [orb]. set (n' := if _ <? _ then _ else _). assert (n' = Z.min n (Z.of_nat (length (a_data a)) - off)) as En.
  { unfold n'. destruct (Z.ltb_spec (Z.of_nat (length (a_data a))) (off + n)); lia. }
  unfold piece in *. rewrite <- En in *. assert (0 <= n') as Hn' by lia.
  assert (0 <= off mod BSIZE < BSIZE) by (by apply Z.mod_pos_bound). pose proof (Z.div_mod n' BSIZE ltac:(done)). pose proof (Z.mod_pos_bound n' BSIZE ltac:(done)).
  destruct (readi_loop_run (S (Z.to_nat (n' / BSIZE + 1))) s t dst 0 off n' C) as (j & G & E); rewrite ?Z.sub_0_r; try done; try lia.
  { right. assert (0 <= n' / BSIZE) by (by apply Z.div_pos). unfold BSIZE in *. lia. }
  exists j. split; [done|]. rewrite Z.sub_0_r in E. rewrite (run_bind _ _ _ _ _ E). cbv [mret M_ret]. do 3 f_equal.
  pose proof (rp_max _ _ _ R) as Hmax. pose proof (rp_count _ _ _ R). pose proof (nblk_spec (length (a_data a))).
  change ND with 12%nat in Hmax. change NI with 128%nat in Hmax. change BS with 512%nat in *. rewrite length_sub by lia. lia.
Qed.

(** Outside the file, and past the end of the address space. *)
Lemma readi_outside s dst off n : icache s !! i = Some ip -> i_type ip <> T_DEV -> i_size ip < off \/ u32 (off + n) < off ->
  readi i dst off n s = Ret ((-1, []), s).
Proof.
  intros Hi Hty Ho. unfold readi. rewrite (run_bind _ _ _ _ _ (geti_run i s ip Hi)), (proj2 (Z.eqb_neq _ _) Hty).
  assert ((i_size ip <? off) || (u32 (off + n) <? off) = true) as ->; [|done]. apply orb_true_iff. lia.
Qed.
End readi.

(** ** Locking an inode *)

(** The entry after [ilock] has read it. *)
Definition loaded (s : fs) (ip : inode) : inode :=
  set_i_valid true (load_inode (sb s) (blocks s) (i_inum ip) (set_i_lock (Sleeplock true (mypid (bio (jrn s)))) ip)).

(** [ilock] of an entry that was not read yet. *)
Lemma ilock_run H L s i ip : (exists l, holds (bio (jrn s)) l H L) -> (size H + size L < NBUF)%nat ->
  icache s !! i = Some ip -> i_dev ip = 1 -> 1 <= i_ref ip -> sl_locked (i_lock ip) = false -> i_valid ip = false ->
  in_range (bio (jrn s)) (IBLOCK (i_inum ip) (sb s)) -> (forall k c, H !! k <> Some (IBLOCK (i_inum ip) (sb s), c)) ->
  i_type (loaded s ip) <> 0 ->
  exists j, ilock (Some i) s = Ret ((), set_icache (<[i := loaded s ip]> (icache s)) (set_jrn j s)) /\ reading H L (jrn s) j.
Proof.
  intros Hh Hroom Hi Hdev Href Hlk Hval Hn Hfree Hty. set (pid := mypid (bio (jrn s))).
  unfold ilock. rewrite (run_bind _ _ _ _ _ (geti_run i s ip Hi)), (proj2 (Z.ltb_ge _ _) Href).
  set (ip1 := set_i_lock (Sleeplock true pid) ip). set (s1 := set_icache (<[i := ip1]> (icache s)) s).
  assert (lock_inode i s = Ret ((), s1)) as E0.
  { unfold lock_inode. rewrite (run_bind _ _ _ _ _ (geti_run i s ip Hi)), (run_bind mypid_of _ s pid s eq_refl).
    unfold acquiresleep. rewrite Hlk. by rewrite (seti_run i _ s ip Hi). }
  assert (i < length (icache s))%nat as Hlen by (by eapply lookup_lt_Some).
  assert (icache s1 !! i = Some ip1) as Hi1 by (by apply list_lookup_insert_eq).
  rewrite (run_bind _ _ _ _ _ E0), (run_bind _ _ _ _ _ (geti_run i s1 ip1 Hi1)).
  change (i_valid ip1) with (i_valid ip). change (i_dev ip1) with (i_dev ip). change (i_inum ip1) with (i_inum ip). rewrite Hval, Hdev.
  rewrite (run_bind (gets sb) _ s1 (sb s) s1 eq_refl).
  destruct (read_block H L s1 Hh (IBLOCK (i_inum ip) (sb s)) Hn Hfree Hroom) as (bp & j1 & E1 & E2 & E3).
  rewrite (run_bind _ _ _ _ _ E1), (run_bind _ _ _ _ _ (E2 (set_jrn j1 s1) eq_refl)).
  rewrite (run_bind _ _ _ _ _ (seti_run i _ (set_jrn j1 s1) ip1 Hi1)). set (ip2 := from_dinode _ _ ip1). cbn [icache set_jrn s1 set_icache].
  set (s2 := set_icache _ _). destruct (E3 s2 eq_refl) as (j2 & E4 & G). rewrite (run_bind _ _ _ _ _ E4).
  assert (icache (set_jrn j2 s2) !! i = Some ip2) as Hi2 by (cbn; apply list_lookup_insert_eq; by rewrite length_insert).
  rewrite (run_bind _ _ _ _ _ (seti_run i _ (set_jrn j2 s2) ip2 Hi2)). set (s3 := set_icache _ _).
  assert (s3 = set_icache (<[i := loaded s ip]> (icache s)) (set_jrn j2 s)) as E5.
  { unfold s3, s2, s1, set_icache, set_jrn. cbn. by rewrite !list_insert_insert_eq. }
  assert (icache s3 !! i = Some (loaded s ip)) as Hi3 by (rewrite E5; by apply list_lookup_insert_eq).
  rewrite (run_bind _ _ _ _ _ (geti_run i s3 _ Hi3)), (proj2 (Z.eqb_neq _ _) Hty). exists j2. split; [by rewrite E5|exact G].
Qed.
