(* ===== verification/Mkfs.v ===== *)
(** * [tools/mkfs.c]: building the first disk image

    The program runs on a little-endian host, where [xshort] and [xint] are
    the identity.  The image is the list of its sectors; writing past the
    end extends the file with zeros, reading past the end fails.  A failed
    assertion and [exit(1)] stop the program.  A file argument is its name
    and what [read] returns on it, call by call, or nothing when it cannot
    be opened. *)

From stdpp Require Import base numbers list gmap strings.
From S2P Require Import Prelude Bytes Machine Locks Bio Log FsState Fs.
Open Scope Z_scope.

Definition FSSIZE : Z := 1000.
Definition NINODES : Z := 200.
Definition nbitmap : Z := FSSIZE / (BSIZE * 8) + 1.
Definition ninodeblocks : Z := NINODES / IPB + 1.
Definition nlog : Z := LOGSIZE.
(** [nmeta], [nblocks] and the super block as [main] sets them. *)
Definition nmeta : Z := 2 + nlog + ninodeblocks + nbitmap.
Definition nblocks : Z := FSSIZE - nmeta.
Definition mksb : superblock :=
  Superblock FSSIZE nblocks NINODES nlog 2 (2 + nlog) (2 + nlog + ninodeblocks).

(** The image and the counters [freeinode] and [freeblock]. *)
Record mkst := Mkst { img : list (list Z); freeinode : Z; freeblock : Z }.
Definition set_img v s := Mkst v (freeinode s) (freeblock s).
Definition set_freeinode v s := Mkst (img s) v (freeblock s).
Definition set_freeblock v s := Mkst (img s) (freeinode s) v.

Definition zeroes : list Z := replicate (Z.to_nat BSIZE) 0.

Definition assert_ (b : bool) : M mkst () := if b then mret () else panic "assert".

Definition wsect (sec : Z) (buf : list Z) : M mkst () :=
  modify (fun s =>
    let n := Z.to_nat sec in
    let l := img s ++ replicate (S n - length (img s)) zeroes in
    set_img (<[n := buf]> l) s).

Definition rsect (sec : Z) : M mkst (list Z) := fun s =>
  match img s !! Z.to_nat sec with Some d => Ret (d, s) | None => Panic "read" end.

(** [*dip = *ip] for entry [inum % IPB] of its block, and back. *)
Definition winode (inum : Z) (ip : inode) : M mkst () :=
  let bn := IBLOCK inum mksb in
  buf ← rsect bn; wsect bn (to_dinode ip buf (dinode_at inum)).

(** A [struct dinode] of zeros. *)
Definition zero_dinode : inode := Inode 0 0 0 initsleeplock false 0 0 0 0 0 (replicate (Z.to_nat NDIRECT + 1) 0).

Definition rinode (inum : Z) : M mkst inode :=
  let bn := IBLOCK inum mksb in
  buf ← rsect bn; mret (from_dinode buf (dinode_at inum) zero_dinode).

Definition ialloc (type : Z) : M mkst Z :=
  inum ← gets freeinode;
  _ ← modify (fun s => set_freeinode (u32 (freeinode s + 1)) s);
  let din := set_i_size 0 (set_i_nlink 1 (set_i_type type zero_dinode)) in
  _ ← winode inum din;
  mret inum.

(** [buf[i/8] = buf[i/8] | (0x1 << (i%8))] *)
Definition mark_used (buf : list Z) (i : nat) : list Z :=
  <[(i / 8)%nat := u8 (Z.lor (nth (i / 8) buf 0) (Z.shiftl 1 (Z.of_nat (i mod 8))))]> buf.

Definition balloc (used : Z) : M mkst () :=
  _ ← assert_ (used <? BSIZE * 8);
  wsect (sb_bmapstart mksb) (foldl mark_used zeroes (seq 0 (Z.to_nat used))).

(** [freeblock++] *)
Definition new_block : M mkst Z :=
  b ← gets freeblock; _ ← modify (fun s => set_freeblock (u32 (freeblock s + 1)) s); mret b.

(** [din.addrs[k]], allocated if it is 0. *)
Definition din_block (din : inode) (k : nat) : M mkst inode :=
  if nth k (i_addrs din) 0 =? 0 then b ← new_block; mret (set_i_addrs (<[k := b]> (i_addrs din)) din)
  else mret din.

(** The block [x] for file block [fbn], and the inode. *)
Definition iappend_block (din : inode) (fbn : Z) : M mkst (inode * Z) :=
  if fbn <? NDIRECT then
    din ← din_block din (Z.to_nat fbn);
    mret (din, nth (Z.to_nat fbn) (i_addrs din) 0)
  else
    din ← din_block din (Z.to_nat NDIRECT);
    let ind := nth (Z.to_nat NDIRECT) (i_addrs din) 0 in
    let k := Z.to_nat (4 * (fbn - NDIRECT)) in
    indirect ← rsect ind;
    if rd32 indirect k =? 0 then
      b ← new_block;
      let indirect := wr32 indirect k b in
      _ ← wsect ind indirect;
      mret (din, rd32 indirect k)
    else mret (din, rd32 indirect k).

(** [while(n > 0)]; every round takes at least one byte of [p]. *)
Fixpoint iappend_loop (fuel : nat) (din : inode) (off : Z) (p : list Z) : M mkst (inode * Z) :=
  match p with
  | [] => mret (din, off)
  | _ =>
      match fuel with
      | O => nofuel
      | S fuel =>
          let fbn := off / BSIZE in
          _ ← assert_ (fbn <? MAXFILE);
          '(din, x) ← iappend_block din fbn;
          let n1 := Z.min (Z.of_nat (length p)) ((fbn + 1) * BSIZE - off) in
          buf ← rsect x;
          _ ← wsect x (wr buf (Z.to_nat (off - fbn * BSIZE)) (take (Z.to_nat n1) p));
          iappend_loop fuel din (u32 (off + n1)) (drop (Z.to_nat n1) p)
      end
  end.

Definition iappend (inum : Z) (p : list Z) : M mkst () :=
  din ← rinode inum;
  '(din, off) ← iappend_loop (length p) din (i_size din) p;
  winode inum (set_i_size off din).

(** [bzero(&de)], [de.inum = xshort(inum)] and the copy of the name. *)
Definition dirent (inum : Z) (name : list Z) : list Z := le16 inum ++ take DIRSIZ (name ++ replicate DIRSIZ 0).

(** The entries [.] and [..] of a new directory. *)
Definition dots (ino parent : Z) : M mkst () :=
  _ ← iappend ino (dirent ino (chars "."));
  iappend ino (dirent parent (chars "..")).

(** A directory below the root. *)
Definition makedir (rootino : Z) (name : list Z) : M mkst Z :=
  ino ← ialloc T_DIR;
  _ ← dots ino rootino;
  _ ← iappend rootino (dirent ino name);
  mret ino.

(** The i-numbers of [/bin] and [/home]. *)
Definition makedirs : M mkst (Z * Z) :=
  rootino ← ialloc T_DIR;
  _ ← assert_ (rootino =? ROOTINO);
  _ ← dots rootino rootino;
  _ ← makedir rootino (chars "dev");
  binino ← makedir rootino (chars "bin");
  homeino ← makedir rootino (chars "home");
  mret (binino, homeino).

(** [while((cc = read(fd, buf, sizeof(buf))) > 0) iappend(inum, buf, cc);] *)
Fixpoint copy_file (inum : Z) (reads : list (list Z)) : M mkst () :=
  match reads with
  | [] | [] :: _ => mret ()
  | buf :: reads => _ ← iappend inum buf; copy_file inum reads
  end.

(** [argv[i] + 5] after [user/]. *)
Definition shortname (arg : list Z) : list Z :=
  if decide (take 5 arg = chars "user/") then drop 5 arg else arg.

(** [shortname[0] == '_'] *)
Definition skip_mark (short : list Z) : bool * list Z :=
  match short with c :: s => if c =? 95 then (true, s) else (false, short) | [] => (false, []) end.

Definition add_file (binino homeino : Z) (arg : list Z * option (list (list Z))) : M mkst () :=
  let short := shortname arg.1 in
  _ ← assert_ (bool_decide (47 ∉ short));
  match arg.2 with
  | None => panic "open"
  | Some reads =>
      let '(bin, short) := skip_mark short in
      let dirino := if bin then binino else homeino in
      inum ← ialloc T_FILE;
      _ ← iappend dirino (dirent inum short);
      copy_file inum reads
  end.

Fixpoint add_files (binino homeino : Z) (args : list (list Z * option (list (list Z)))) : M mkst () :=
  match args with
  | [] => mret ()
  | arg :: args => _ ← add_file binino homeino arg; add_files binino homeino args
  end.

(** [for(i = 0; i < FSSIZE; i++) wsect(i, zeroes);] *)
Fixpoint wzeroes (n : nat) (i : Z) : M mkst () :=
  match n with O => mret () | S n => _ ← wsect i zeroes; wzeroes n (i + 1) end.

(** [memmove(buf, &sb, sizeof(sb))] *)
Definition sb_bytes (x : superblock) : list Z :=
  concat (le32 <$> [sb_size x; sb_nblocks x; sb_ninodes x; sb_nlog x; sb_logstart x; sb_inodestart x; sb_bmapstart x]).

(** [main], from the truncated image on. *)
Definition mkfs_main (args : list (list Z * option (list (list Z)))) : M mkst () :=
  _ ← modify (set_freeblock nmeta);
  _ ← wzeroes (Z.to_nat FSSIZE) 0;
  _ ← wsect 1 (wr zeroes 0 (sb_bytes mksb));
  '(binino, homeino) ← makedirs;
  _ ← add_files binino homeino args;
  fb ← gets freeblock;
  balloc fb.

Definition mkfs_start : mkst := Mkst [] 1 0.
Definition final {A} (o : outcome (() * A)) : option A := match o with Ret (_, s) => Some s | _ => None end.

(** The image, if the program ends with [exit(0)]. *)
Definition mkfs (args : list (list Z * option (list (list Z)))) : option (list (list Z)) :=
  option_map img (final (mkfs_main args mkfs_start)).
