(* ===== verification/MkfsSpec.v ===== *)
(** * The image [mkfs] builds

    [mk_core F J s] relates the files [F] built so far and their inodes [J]
    to the image: every file has its own blocks, taken from the data region
    in order, and the rest of the region is still zero.  [mk_ok C s] says
    that the inodes are on the disk and that the files have the types and
    contents [C].  Every operation of [mkfs] is a step on [C]. *)

From stdpp Require Import base numbers list gmap strings.
From S2P Require Import Prelude Bytes Machine Locks Bio Log LogTx FsState Fs FsDisk FileData.
From S2P Require Import Mkfs.
Open Scope Z_scope.

(** ** Sectors *)

Definition sect (s : mkst) (n : Z) : list Z := nth (Z.to_nat n) (img s) [].

Record image (s : mkst) : Prop := {
  im_len : length (img s) = Z.to_nat FSSIZE;
  im_ok : Forall block_ok (img s) }.

Definition put_sect (n : Z) (d : list Z) (s : mkst) : mkst := set_img (<[Z.to_nat n := d]> (img s)) s.

Section sectors.
Context (s : mkst) (H : image s).

Lemma rsect_run n : 0 <= n < FSSIZE -> rsect n s = Ret (sect s n, s).
Proof.
  intros Hn. unfold rsect, sect. destruct (lookup_lt_is_Some_2 (img s) (Z.to_nat n)) as [d Hd]; [rewrite (im_len _ H); lia|].
  by rewrite Hd, (nth_lookup_Some _ _ _ _ Hd).
Qed.

Lemma sect_ok n : 0 <= n < FSSIZE -> block_ok (sect s n).
Proof.
  intros Hn. unfold sect. destruct (lookup_lt_is_Some_2 (img s) (Z.to_nat n)) as [d Hd]; [rewrite (im_len _ H); lia|].
  rewrite (nth_lookup_Some _ _ _ _ Hd). apply (Forall_lookup_1 _ _ _ _ (im_ok _ H) Hd).
Qed.

Lemma wsect_run n d : 0 <= n < FSSIZE -> wsect n d s = Ret ((), put_sect n d s).
Proof.
  intros Hn. unfold wsect, modify, put_sect. do 3 f_equal. replace (S (Z.to_nat n) - length (img s))%nat with 0%nat by (rewrite (im_len _ H); lia).
  cbn [replicate]. by rewrite app_nil_r.
Qed.

Lemma put_image n d : block_ok d -> image (put_sect n d s).
Proof. destruct H as [H1 H2]. intros Hd. split; cbn [img put_sect set_img]; [by rewrite length_insert|by apply Forall_insert]. Qed.

Lemma sect_put n d m : 0 < n < FSSIZE -> sect (put_sect n d s) m = update (sect s) (n, d) m.
Proof.
  intros Hn. unfold sect, update. cbn [fst snd img put_sect set_img]. rewrite !nth_lookup. destruct (decide (m = n)) as [->|Hne].
  - by rewrite list_lookup_insert_eq by (rewrite (im_len _ H); lia).
  - by rewrite list_lookup_insert_ne by lia.
Qed.
Lemma sect_put_eq n d : 0 < n < FSSIZE -> sect (put_sect n d s) n = d.
Proof. intros Hn. rewrite sect_put by done. unfold update. by rewrite decide_True. Qed.
Lemma sect_put_ne n d m : 0 < n < FSSIZE -> m <> n -> sect (put_sect n d s) m = sect s m.
Proof. intros Hn Hm. rewrite sect_put by done. unfold update. by rewrite decide_False. Qed.
End sectors.

(** ** The files and their blocks *)

Definition owned (F : list afile) : list Z := concat (fblocks <$> F).

Lemma owned_elem F k a b : F !! k = Some a -> b ∈ fblocks a -> b ∈ owned F.
Proof.
  intros Hk Hb. unfold owned. rewrite <- (take_drop_middle F k a Hk), fmap_app, fmap_cons, concat_app. cbn [concat]. set_solver.
Qed.

(** The blocks of file [k] and those of the others. *)
Lemma files_owned F k a a' : F !! k = Some a -> exists l,
  owned F ≡ₚ fblocks a ++ l /\ owned (<[k := a']> F) ≡ₚ fblocks a' ++ l /\
  forall j b c, j <> k -> F !! j = Some b -> c ∈ fblocks b -> c ∈ l.
Proof.
  intros Hk. exists (owned (take k F) ++ owned (drop (S k) F)). pose proof (lookup_lt_Some _ _ _ Hk) as Hlt.
  rewrite insert_take_drop by done. split_and!.
  1: rewrite <- (take_drop_middle F k a Hk) at 1.
  1,2: unfold owned; rewrite fmap_app, fmap_cons, concat_app; cbn [concat]; rewrite !app_assoc; apply Permutation_app; [apply Permutation_app_comm|done].
  intros j b c Hne Hj Hc. apply elem_of_app. destruct (decide (j < k)%nat).
  - left. apply (owned_elem _ j b); [by rewrite lookup_take_lt|done].
  - right. apply (owned_elem _ (j - S k) b); [|done]. rewrite lookup_drop. by replace (S k + (j - S k))%nat with j by lia.
Qed.

Record mk_core (F : list afile) (J : list inode) (s : mkst) : Prop := {
  mc_image : image s;
  mc_rep : Forall2 (rep (sect s)) J F;
  mc_nodup : NoDup (owned F);
  mc_range : forall b, b ∈ owned F -> nmeta <= b < freeblock s;
  mc_count : freeblock s = nmeta + Z.of_nat (length (owned F));
  mc_free : freeblock s <= FSSIZE;
  mc_fresh : forall n, freeblock s <= n < FSSIZE -> sect s n = zeroes }.

(** File [k] grows by the next [m] free blocks, and only its blocks change. *)
Lemma core_step F J s k a s' a' din m : mk_core F J s -> F !! k = Some a -> image s' ->
  (forall n, n ∉ fblocks a' -> sect s' n = sect s n) -> rep (sect s') din a' ->
  fblocks a' ≡ₚ fblocks a ++ seqZ (freeblock s) m -> 0 <= m -> freeblock s' = freeblock s + m -> freeblock s' <= FSSIZE ->
  mk_core (<[k := a']> F) (<[k := din]> J) s'.
Proof.
  intros [C1 C2 C3 C4 C5 C6 C7] Hk Him HV Hrep Hp Hm Hf Hle. destruct (files_owned F k a a' Hk) as (l & Ep & Ep' & Hl).
  assert (owned (<[k := a']> F) ≡ₚ owned F ++ seqZ (freeblock s) m) as E.
  { rewrite Ep', Ep, Hp, <- !app_assoc. f_equiv. apply Permutation_app_comm. }
  assert (NoDup (owned (<[k := a']> F))) as Hnd.
  { rewrite E. apply NoDup_app. split; [done|]. split; [|apply NoDup_seqZ]. intros b Hb Hb'. apply C4 in Hb. apply elem_of_seqZ in Hb'. lia. }
  split; try done.
  - apply Forall2_same_length_lookup. pose proof (Forall2_length _ _ _ C2) as Hlen. split; [by rewrite !length_insert|].
    intros j ip b Hj Hb. apply list_lookup_insert_Some in Hj as [(<- & <- & _)|[Hne Hj]]; apply list_lookup_insert_Some in Hb as [(Ek & <- & _)|[Hne' Hb]]; try done.
    apply (rep_ext _ _ _ (Forall2_lookup_lr _ _ _ _ _ _ C2 Hj Hb)). intros c Hc. apply HV. intros Hc'.
    rewrite Ep' in Hnd. apply NoDup_app in Hnd as (_ & Hd & _). by apply (Hd c Hc'), (Hl j b).
  - intros b Hb. rewrite E in Hb. apply elem_of_app in Hb as [Hb|Hb]; [apply C4 in Hb; lia|]. apply elem_of_seqZ in Hb. lia.
  - rewrite E, length_app, length_seqZ. lia.
  - intros n Hn. rewrite HV; [apply C7; lia|]. rewrite Hp. intros Hin. apply elem_of_app in Hin as [Hin|Hin].
    + apply (owned_elem _ _ _ _ Hk), C4 in Hin. lia.
    + apply elem_of_seqZ in Hin. lia.
Qed.

(** ** One block of a file *)

Lemma entries_nth d k v : entries d !! k = Some v -> rd32 d (4 * k) = v.
Proof.
  unfold entries. rewrite list_lookup_fmap. intros H. destruct (decide (k < Z.to_nat NINDIRECT)%nat) as [Hk|Hk].
  - rewrite lookup_seq_lt in H by done. by injection H.
  - by rewrite lookup_ge_None_2 in H by (rewrite length_seq; lia).
Qed.

Lemma pad_nth n l : (length l < n)%nat -> pad n l !! length l = Some 0.
Proof. intros H. unfold pad. rewrite lookup_app_r, Nat.sub_diag by done. apply lookup_replicate_2. lia. Qed.

Lemma lookup_nth (l : list Z) k : (k < length l)%nat -> l !! k = Some (nth k l 0).
Proof. intros H. destruct (lookup_lt_is_Some_2 l k H) as [v Hv]. by rewrite Hv, (nth_lookup_Some _ _ _ _ Hv). Qed.

Lemma entries_zeroes : entries zeroes = replicate NI 0.
Proof. vm_compute. reflexivity. Qed.

Lemma new_block_run s : freeblock s <= FSSIZE -> 0 <= freeblock s ->
  new_block s = Ret (freeblock s, set_freeblock (freeblock s + 1) s).
Proof. intros H1 H2. unfold new_block, FSSIZE in *. cbv [mbind M_bind gets modify mret M_ret]. do 3 f_equal. lia. Qed.

Section block.
Context (F : list afile) (J : list inode) (s : mkst) (H : mk_core F J s).
Context (k : nat) (a : afile) (Hk : F !! k = Some a) (z : Z) (din : inode) (HJ : J !! k = Some (set_i_size z din)).
Let n : nat := length (a_blocks a).

Lemma file_rep : rep (sect s) (set_i_size z din) a.
Proof. apply (Forall2_lookup_lr _ _ _ _ _ _ (mc_rep _ _ _ H) HJ Hk). Qed.
Lemma file_range b : b ∈ fblocks a -> nmeta <= b < freeblock s.
Proof. intros Hb. apply (mc_range _ _ _ H). by eapply owned_elem. Qed.
Lemma file_nodup : NoDup (fblocks a).
Proof. destruct (files_owned F k a a Hk) as (l & E & _). pose proof (mc_nodup _ _ _ H) as Hn. rewrite E in Hn. by apply NoDup_app in Hn as [Hn _]. Qed.

(** A block the file has. *)
Lemma block_old j b : a_blocks a !! j = Some b -> iappend_block din (Z.of_nat j) s = Ret ((din, b), s).
Proof.
  intros Hj. pose proof file_rep as R. pose proof (list_elem_of_lookup_2 _ _ _ Hj) as Hin.
  assert (b <> 0) as Hb by (by apply (Forall_lookup_1 _ _ _ _ (rp_nonzero _ _ _ R) Hj)).
  unfold iappend_block, din_block. rewrite Nat2Z.id. destruct (Z.ltb_spec (Z.of_nat j) NDIRECT) as [Hd|Hd].
  - pose proof (rep_direct _ _ _ R j b Hj ltac:(unfold ND; lia)) as E. cbn [i_addrs set_i_size] in E.
    rewrite E, (proj2 (Z.eqb_neq _ _) Hb). cbv [mbind M_bind mret M_ret]. by rewrite E.
  - destruct (rep_indirect _ _ _ R j b Hj ltac:(unfold ND; lia)) as [Hi He]. pose proof (rep_ind_nth _ _ _ R) as E.
    cbn [i_addrs set_i_size] in E. change (Z.to_nat NDIRECT) with ND. rewrite E, (proj2 (Z.eqb_neq _ _) Hi).
    rewrite (run_bind (mret din) _ s din s eq_refl), E. pose proof (file_range _ (fb_ind a Hi)) as Hr. pose proof (mc_free _ _ _ H).
    rewrite (run_bind _ _ _ _ _ (rsect_run s (mc_image _ _ _ H) (a_ind a) ltac:(change nmeta with 59 in *; lia))).
    replace (Z.to_nat (4 * (Z.of_nat j - NDIRECT))) with (4 * (j - ND))%nat by (unfold ND, NDIRECT in *; lia).
    by rewrite He, (proj2 (Z.eqb_neq _ _) Hb).
Qed.

(** What a new block leaves. *)
Definition grown_to (s' : mkst) (din' : inode) (b : Z) : Prop := exists ind,
  mk_core (<[k := AFile (a_blocks a ++ [b]) ind (a_data a)]> F) (<[k := set_i_size z din']> J) s' /\
  din' = set_i_addrs (i_addrs din') din /\ freeinode s' = freeinode s /\
  (forall m, m < nmeta -> sect s' m = sect s m) /\ freeblock s' = freeblock s + (if decide (n = ND) then 2 else 1).

Lemma block_new_direct : (n < ND)%nat -> freeblock s < FSSIZE ->
  exists s' din' b, iappend_block din (Z.of_nat n) s = Ret ((din', b), s') /\ grown_to s' din' b.
Proof.
  intros Hn Hf. pose proof file_rep as R. pose proof (mc_range _ _ _ H). assert (nmeta <= freeblock s) as Hm by (rewrite (mc_count _ _ _ H); lia).
  change nmeta with 59 in *. set (b := freeblock s).
  exists (set_freeblock (b + 1) s), (set_i_addrs (<[n := b]> (i_addrs din)) din), b. split.
  - unfold iappend_block, din_block. rewrite Nat2Z.id, (proj2 (Z.ltb_lt _ _)) by (unfold ND in Hn; lia).
    assert (nth n (i_addrs din) 0 = 0) as E.
    { apply nth_lookup_Some. pose proof (rp_addrs _ _ _ R) as E. cbn [i_addrs set_i_size] in E. rewrite E. apply lookup_app_l_Some.
      rewrite take_ge by (fold n; lia). by apply pad_nth. }
    rewrite E. cbn [Z.eqb]. rewrite (run_bind _ _ _ _ _ (run_bind _ _ _ _ _ (new_block_run s ltac:(lia) ltac:(lia)))).
    cbv [mret M_ret]. cbn [i_addrs set_i_addrs]. rewrite (nth_lookup_Some (<[n := b]> (i_addrs din)) n 0 b); [done|].
    apply list_lookup_insert_eq. pose proof (rep_len _ _ _ R) as El. cbn [i_addrs set_i_size] in El. rewrite El. change ND with 12%nat in Hn. lia.
  - assert (rep (sect s) (set_i_addrs (<[n := b]> (i_addrs din)) (set_i_size z din)) (AFile (a_blocks a ++ [b]) (a_ind a) (a_data a))) as R'.
    { apply (rep_grow_direct _ _ _ R b); [subst b; lia| |done]. subst b. by rewrite (mc_fresh _ _ _ H) by lia. }
    exists (a_ind a). split; [|split_and!; try done; rewrite decide_False by lia; done].
    apply (core_step F J s k a _ _ _ 1 H Hk); try done.
    + destruct (mc_image _ _ _ H). by split.
    + unfold fblocks. cbn [a_blocks a_ind]. change (seqZ (freeblock s) 1) with [b]. rewrite <- !app_assoc. f_equiv. apply Permutation_app_comm.
    + cbn [freeblock set_freeblock]. subst b. lia.
Qed.

(** The block [ind] is the indirect block, found or new; entry [n - ND] of it
    gets the new block. *)
Lemma block_new_entry ind m s1 : (ND <= n < ND + NI)%nat -> nmeta <= freeblock s -> s1 = set_freeblock (freeblock s + m) s ->
  (m = 0 /\ n <> ND /\ ind = a_ind a \/ m = 1 /\ n = ND /\ ind = freeblock s) -> freeblock s + m < FSSIZE ->
  let b := freeblock s + m in let d := wr32 (sect s ind) (4 * (n - ND)) b in
  rd32 (sect s ind) (4 * (n - ND)) = 0 /\ nmeta <= ind < FSSIZE /\
  grown_to (put_sect ind d (set_freeblock (b + 1) s1)) (set_i_addrs (<[ND := ind]> (i_addrs din)) din) b.
Proof.
  intros Hn Hm -> Hc Hf b d. pose proof file_rep as R. change nmeta with 59 in *.
  assert (nonzero [a_ind a] = if m =? 0 then [ind] else []) as Hnz.
  { rewrite nonzero_cons. destruct Hc as [(-> & Hne & ->)|(-> & E & ->)]; cbn [Z.eqb].
    - by rewrite (proj2 (Z.eqb_neq _ _) (proj1 (rp_ind _ _ _ R ltac:(fold n; lia)))).
    - by rewrite (rp_none _ _ _ R) by (fold n; lia). }
  assert (ind <> b /\ ind <> 0 /\ 59 <= ind < FSSIZE /\ entries (sect s ind) = pad NI (drop ND (a_blocks a))) as (Hib & Hi0 & Hir & He).
  { destruct Hc as [(-> & Hne & ->)|(-> & E & ->)].
    - destruct (rp_ind _ _ _ R ltac:(fold n; lia)) as [Hi0 He]. pose proof (file_range _ (fb_ind a Hi0)). change nmeta with 59 in *. split_and!; try done; lia.
    - rewrite (mc_fresh _ _ _ H), entries_zeroes, drop_ge by (fold n; lia). split_and!; try done; lia. }
  assert (ind ∉ a_blocks a) as Hia.
  { destruct Hc as [(-> & Hne & _)|(-> & E & ->)].
    - pose proof file_nodup as Hnd. unfold fblocks in Hnd. apply NoDup_app in Hnd as (_ & Hnd & _). rewrite Hnz in Hnd. intros Hin. apply (Hnd _ Hin), list_elem_of_here.
    - intros Hin. apply fb_data, file_range in Hin. lia. }
  pose proof (mc_image _ _ _ H) as Him. pose proof (sect_ok s Him ind ltac:(lia)) as Hok.
  assert (length (drop ND (a_blocks a)) = n - ND)%nat as Hld by by rewrite length_drop.
  split; [apply entries_nth; rewrite He, <- Hld; apply pad_nth; lia|]. split; [lia|].
  assert (image (set_freeblock (b + 1) (set_freeblock b s))) as Him' by (by destruct Him).
  set (s2 := set_freeblock (b + 1) (set_freeblock b s)) in *.
  assert (forall c, c <> ind -> sect (put_sect ind d s2) c = sect s c) as Hne by (intros c Hc'; by rewrite (sect_put_ne s2 Him' ind d c) by lia).
  exists ind. split; [|split_and!; [done|done| |destruct Hc as [(-> & Hx & _)|(-> & Hx & _)]; [rewrite decide_False by done|rewrite decide_True by done]; subst b; cbn; lia]].
  2: { intros c Hlt. change nmeta with 59 in Hlt. apply Hne. lia. }
  apply (core_step F J s k a _ _ _ (m + 1) H Hk).
  - apply put_image; [done|]. split; [unfold d; by rewrite length_wr32, (proj1 Hok)|]. apply bytes_wr; [apply Hok|apply bytes_le32].
  - intros c Hc'. apply Hne. intros ->. apply Hc'. apply (fb_ind (AFile (a_blocks a ++ [b]) ind (a_data a))). done.
  - apply (rep_grow_indirect (sect s) _ a R b); try done; try (subst b; unfold FSSIZE in *; lia).
    + rewrite (mc_fresh _ _ _ H); [done|]. subst b. destruct Hc as [(-> & _)|(-> & _)]; lia.
    + rewrite not_elem_of_app. split; [done|]. by rewrite list_elem_of_singleton.
    + apply Hok.
    + apply sect_put_eq; [done|lia].
  - unfold fblocks at 1. cbn [a_blocks a_ind]. unfold fblocks. rewrite Hnz, nonzero_cons, (proj2 (Z.eqb_neq _ _) Hi0).
    destruct Hc as [(-> & _)|(-> & _ & ->)]; cbn [Z.eqb].
    + change (seqZ (freeblock s) (0 + 1)) with [freeblock s]. subst b. rewrite Z.add_0_r, <- !app_assoc. f_equiv. apply Permutation_app_comm.
    + change (seqZ (freeblock s) (1 + 1)) with [freeblock s; 1 + freeblock s]. subst b. rewrite app_nil_r, <- app_assoc. f_equiv.
      rewrite (Z.add_comm 1). apply Permutation_app_comm.
  - destruct Hc as [(-> & _)|(-> & _)]; lia.
  - subst b. cbn. lia.
  - subst b. cbn. lia.
Qed.

Lemma block_new_indirect : (ND <= n < ND + NI)%nat -> freeblock s + (if decide (n = ND) then 1 else 0) < FSSIZE ->
  exists s' din' b, iappend_block din (Z.of_nat n) s = Ret ((din', b), s') /\ grown_to s' din' b.
Proof.
  intros Hn Hf. pose proof file_rep as R. assert (nmeta <= freeblock s) as Hm by (rewrite (mc_count _ _ _ H); lia).
  pose proof (rep_ind_nth _ _ _ R) as Ei. pose proof (rep_len _ _ _ R) as El. cbn [i_addrs set_i_size] in Ei, El.
  set (m := if decide (n = ND) then 1 else 0) in *. set (ind := if decide (n = ND) then freeblock s else a_ind a).
  destruct (block_new_entry ind m _ Hn Hm eq_refl) as (H0 & Hr & G); [subst m ind; destruct (decide (n = ND)); auto|done|].
  eexists _, _, _. split; [|exact G]. unfold iappend_block. rewrite (proj2 (Z.ltb_ge _ _)) by (unfold ND in Hn; lia).
  assert (din_block din (Z.to_nat NDIRECT) s = Ret (set_i_addrs (<[ND := ind]> (i_addrs din)) din, set_freeblock (freeblock s + m) s)) as Ed.
  { unfold din_block. change (Z.to_nat NDIRECT) with ND. rewrite Ei. subst m ind. destruct (decide (n = ND)) as [E|E].
    - rewrite (rp_none _ _ _ R) by (fold n; lia). cbn [Z.eqb]. change nmeta with 59 in *. by rewrite (run_bind _ _ _ _ _ (new_block_run s ltac:(lia) ltac:(lia))).
    - rewrite (proj2 (Z.eqb_neq _ _) (proj1 (rp_ind _ _ _ R ltac:(fold n; lia)))). rewrite list_insert_id.
      + rewrite Z.add_0_r. by destruct s, din.
      + rewrite <- Ei. apply lookup_nth. rewrite El. unfold ND, NDIRECT. lia. }
  rewrite (run_bind _ _ _ _ _ Ed). cbn [i_addrs set_i_addrs]. assert (nth (Z.to_nat NDIRECT) (<[ND := ind]> (i_addrs din)) 0 = ind) as ->.
  { apply nth_lookup_Some. apply list_lookup_insert_eq. rewrite El. unfold ND, NDIRECT. lia. }
  replace (Z.to_nat (4 * (Z.of_nat n - NDIRECT))) with (4 * (n - ND))%nat by (unfold ND, NDIRECT in *; lia).
  set (s1 := set_freeblock (freeblock s + m) s). change nmeta with 59 in *. assert (image s1) as Him by (by destruct (mc_image _ _ _ H)).
  rewrite (run_bind _ _ _ _ _ (rsect_run s1 Him ind ltac:(lia))). change (sect s1) with (sect s). rewrite H0. cbn [Z.eqb].
  assert (0 <= m <= 1) by (subst m; destruct (decide (n = ND)); lia).
  rewrite (run_bind _ _ _ _ _ (new_block_run s1 ltac:(cbn; lia) ltac:(cbn; lia))). cbn [freeblock s1 set_freeblock].
  set (s2 := set_freeblock (freeblock s + m + 1) s1). assert (image s2) as Him2 by (by destruct (mc_image _ _ _ H)).
  rewrite (run_bind _ _ _ _ _ (wsect_run s2 Him2 ind _ ltac:(lia))). cbv [mret M_ret]. do 3 f_equal.
  rewrite rd32_wr32; [unfold FSSIZE in *; lia|]. rewrite (proj1 (sect_ok s (mc_image _ _ _ H) ind ltac:(lia))).
  change NI with 128%nat in *. change ND with 12%nat in *. change (Z.to_nat BSIZE) with 512%nat. lia.
Qed.

Lemma block_new : (n < ND + NI)%nat -> freeblock s + (if decide (n = ND) then 2 else 1) <= FSSIZE ->
  exists s' din' b, iappend_block din (Z.of_nat n) s = Ret ((din', b), s') /\ grown_to s' din' b.
Proof.
  intros Hn Hf. destruct (decide (n < ND)%nat).
  - apply block_new_direct; [done|]. destruct (decide _); lia.
  - apply block_new_indirect; [lia|]. destruct (decide _); lia.
Qed.
End block.

(** ** [iappend] *)

(** Blocks that a file of [n] bytes takes. *)
Definition fcount (n : nat) : nat := (nblk n + if decide (ND < nblk n)%nat then 1 else 0)%nat.

Lemma nblk_mono n m : (n <= m)%nat -> (nblk n <= nblk m)%nat.
Proof. intros H. pose proof (nblk_spec n). pose proof (nblk_spec m). change BS with 512%nat in *. lia. Qed.
Lemma fcount_mono n m : (n <= m)%nat -> (fcount n <= fcount m)%nat.
Proof. intros H. pose proof (nblk_mono n m H). unfold fcount. do 2 destruct (decide _); lia. Qed.

Lemma fcount_rep V ip a : rep V ip a -> length (a_blocks a) = nblk (length (a_data a)) -> length (fblocks a) = fcount (length (a_data a)).
Proof.
  intros R E. unfold fblocks, fcount. rewrite length_app, E. f_equal. destruct (decide _) as [Hl|Hl]; rewrite <- E in Hl.
  - by rewrite nonzero_cons, (proj2 (Z.eqb_neq _ _) (proj1 (rp_ind _ _ _ R Hl))).
  - by rewrite (rp_none _ _ _ R) by lia.
Qed.

(** The next [q] of the file's bytes are in the image. *)
Record appended (k : nat) (F : list afile) (J : list inode) (s : mkst) (a : afile) (din : inode) (q : list Z)
    (s' : mkst) (a' : afile) (din' : inode) : Prop := {
  ad_core : mk_core (<[k := a']> F) (<[k := set_i_size (Z.of_nat (length (a_data a'))) din']> J) s';
  ad_data : a_data a' = a_data a ++ q;
  ad_count : length (a_blocks a') = nblk (length (a_data a'));
  ad_din : din' = set_i_addrs (i_addrs din') din;
  ad_next : freeinode s' = freeinode s;
  ad_meta : forall m, m < nmeta -> sect s' m = sect s m;
  ad_free : freeblock s' = freeblock s + Z.of_nat (fcount (length (a_data a'))) - Z.of_nat (fcount (length (a_data a))) }.

Lemma appended_trans k F J s a din q s1 a1 din1 q' s2 a2 din2 : appended k F J s a din q s1 a1 din1 ->
  appended k (<[k := a1]> F) (<[k := set_i_size (Z.of_nat (length (a_data a1))) din1]> J) s1 a1 din1 q' s2 a2 din2 ->
  appended k F J s a din (q ++ q') s2 a2 din2.
Proof.
  intros [A1 A2 A3 A4 A5 A6 A7] [B1 B2 B3 B4 B5 B6 B7]. rewrite !list_insert_insert_eq in B1. split; try done.
  - by rewrite B2, A2, app_assoc.
  - rewrite B4, A4. done.
  - congruence.
  - intros m Hm. by rewrite B6, A6.
  - lia.
Qed.

(** [bcopy] into a block of the file, at its end. *)
Lemma core_write F J s k a z din j b o q : mk_core F J s -> F !! k = Some a -> J !! k = Some (set_i_size z din) ->
  a_blocks a !! j = Some b -> length (a_data a) = (BS * j + o)%nat -> (o + length q <= BS)%nat -> bytes q ->
  nmeta <= b < FSSIZE /\
  let s' := put_sect b (wr (sect s b) o q) s in let a' := AFile (a_blocks a) (a_ind a) (a_data a ++ q) in
  mk_core (<[k := a']> F) (<[k := set_i_size (Z.of_nat (length (a_data a'))) din]> J) s' /\ forall m, m < nmeta -> sect s' m = sect s m.
Proof.
  intros H Hk HJ Hj Hlen Ho Hq. pose proof (file_rep F J s H k a Hk z din HJ) as R. pose proof (file_nodup F J s H k a Hk) as Hnd.
  pose proof (fb_data a b (list_elem_of_lookup_2 _ _ _ Hj)) as Hin. pose proof (file_range F J s H k a Hk b Hin) as Hb.
  pose proof (mc_free _ _ _ H) as Hf. change nmeta with 59 in *. split; [lia|]. intros s' a'. pose proof (mc_image _ _ _ H) as Him.
  destruct (sect_ok s Him b ltac:(lia)) as [Hl Hby].
  assert (forall c, c <> b -> sect s' c = sect s c) as HV by (intros c Hc; by apply sect_put_ne; [|lia|]).
  split; [|intros m Hm; apply HV; lia]. apply (core_step F J s k a _ _ _ 0 H Hk).
  - apply put_image; [done|]. split; [by rewrite length_wr|by apply bytes_wr].
  - intros c Hc. apply HV. by intros ->.
  - pose proof (rep_write _ (sect s') _ _ j b o q R Hnd Hj Ho ltac:(lia) HV (sect_put_eq s Him b _ ltac:(lia))) as R'. cbv zeta in R'.
    rewrite <- Hlen, take_ge, drop_ge, app_nil_r in R' by lia. exact R'.
  - by rewrite app_nil_r.
  - done.
  - cbn. lia.
  - done.
Qed.

(** The block at the end of the file, found or new. *)
Lemma end_block F J s k a din : mk_core F J s -> F !! k = Some a -> J !! k = Some (set_i_size (Z.of_nat (length (a_data a))) din) ->
  length (a_blocks a) = nblk (length (a_data a)) -> let len := length (a_data a) in (len < BS * (ND + NI))%nat ->
  freeblock s + Z.of_nat (fcount (S len)) - Z.of_nat (fcount len) <= FSSIZE ->
  exists s' a' din' b, iappend_block din (Z.of_nat (len / BS)) s = Ret ((din', b), s') /\
    mk_core (<[k := a']> F) (<[k := set_i_size (Z.of_nat len) din']> J) s' /\ a_data a' = a_data a /\ a_blocks a' !! (len / BS)%nat = Some b /\
    length (a_blocks a') = nblk (S len) /\ din' = set_i_addrs (i_addrs din') din /\ freeinode s' = freeinode s /\
    (forall m, m < nmeta -> sect s' m = sect s m) /\ freeblock s' = freeblock s + Z.of_nat (fcount (S len)) - Z.of_nat (fcount len).
Proof.
  intros H Hk HJ Hc len Hmax Hf. pose proof (Nat.div_mod_eq len BS) as E. pose proof (Nat.mod_upper_bound len BS ltac:(by change BS with 512%nat)) as L.
  pose proof (nblk_spec len) as N1. pose proof (nblk_spec (S len)) as N2. destruct (decide (len / BS < length (a_blocks a))%nat) as [Hlt|Hge].
  - destruct (lookup_lt_is_Some_2 _ _ Hlt) as [b Hb]. exists s, a, din, b.
    assert (nblk (S len) = nblk len) as En. { fold len in Hc. change BS with 512%nat in *. lia. }
    rewrite (block_old F J s H k a Hk _ din HJ _ b Hb), !list_insert_id by done. unfold fcount. rewrite En.
    split_and!; try done; [by destruct din|lia].
  - assert (len / BS = length (a_blocks a))%nat as Ej. { fold len in Hc. change BS with 512%nat in *. lia. }
    assert (nblk (S len) = S (length (a_blocks a))) as En. { fold len in Hc. change BS with 512%nat in *. lia. }
    assert (Z.of_nat (fcount (S len)) - Z.of_nat (fcount len) = if decide (length (a_blocks a) = ND) then 2 else 1) as Ef.
    { unfold fcount. rewrite En. fold len in Hc. rewrite <- Hc. repeat destruct (decide _); lia. }
    assert (length (a_blocks a) < ND + NI)%nat as Hr. { change BS with 512%nat in *. lia. }
    destruct (block_new F J s H k a Hk _ din HJ Hr ltac:(lia)) as (s' & din' & b & Er & ind & G1 & G2 & G3 & G4 & G5).
    eexists s', _, din', b. rewrite Ej. split; [exact Er|]. split; [exact G1|]. cbn [a_blocks a_data]. rewrite length_app.
    split_and!; try done; [|cbn; lia|lia]. rewrite lookup_app_r, Nat.sub_diag by done. done.
Qed.

Lemma iappend_body F J s k a din p fuel : mk_core F J s -> F !! k = Some a -> J !! k = Some (set_i_size (Z.of_nat (length (a_data a))) din) ->
  length (a_blocks a) = nblk (length (a_data a)) -> bytes p -> p <> [] ->
  let len := length (a_data a) in let n1 := Nat.min (length p) (BS - len mod BS) in (len + length p <= BS * (ND + NI))%nat ->
  freeblock s + Z.of_nat (fcount (len + length p)) - Z.of_nat (fcount len) <= FSSIZE ->
  exists s' a' din', appended k F J s a din (take n1 p) s' a' din' /\
    iappend_loop (S fuel) din (Z.of_nat len) p s = iappend_loop fuel din' (Z.of_nat (len + n1)) (drop n1 p) s'.
Proof.
  intros H Hk HJ Hc Hp Hne len n1 Hmax Hf. pose proof (Nat.div_mod_eq len BS) as E. pose proof (Nat.mod_upper_bound len BS ltac:(by change BS with 512%nat)) as L.
  assert (1 <= length p)%nat as Hp1 by (destruct p; cbn; [done|lia]).
  pose proof (fcount_mono (S len) (len + length p) ltac:(lia)) as Hfm.
  destruct (end_block F J s k a din H Hk HJ Hc ltac:(change BS with 512%nat in *; lia) ltac:(fold len; lia)) as (s1 & a1 & din1 & b & Er & C & Ed & Hb & Hc1 & Edin & En & Em & Efb).
  fold len in Er, C, Hb, Hc1, Efb.
  assert (length (take n1 p) = n1) as Hn1 by (rewrite length_take; lia).
  assert (<[k := a1]> F !! k = Some a1) as Hk1. { apply list_lookup_insert_eq. by eapply lookup_lt_Some. }
  assert (<[k := set_i_size (Z.of_nat len) din1]> J !! k = Some (set_i_size (Z.of_nat len) din1)) as HJ1.
  { apply list_lookup_insert_eq. by eapply lookup_lt_Some. }
  destruct (core_write _ _ s1 k a1 _ din1 (len / BS) b (len mod BS) (take n1 p) C Hk1 HJ1 Hb) as [Hbr [C2 Em2]];
    [by rewrite Ed|rewrite Hn1; lia|by apply Forall_take|]. rewrite !list_insert_insert_eq in C2.
  eexists _, _, din1. split.
  - assert (nblk (len + n1) = nblk (S len)) as Enb.
    { pose proof (nblk_spec (len + n1)). pose proof (nblk_spec (S len)). change BS with 512%nat in *. lia. }
    split; [exact C2|by rewrite <- Ed|..]; cbn [a_blocks a_data freeinode freeblock put_sect set_img]; rewrite ?Ed, ?length_app, ?Hn1; fold len; try done.
    + by rewrite Enb.
    + intros m Hm. by rewrite Em2, Em.
    + unfold fcount in Efb |- *. by rewrite Enb.
  - destruct p as [|c p]; [done|]. set (q := c :: p) in *. cbn [iappend_loop]. fold q. unfold q at 1. cbv iota.
    assert (Z.of_nat len / BSIZE = Z.of_nat (len / BS)) as -> by (rewrite Nat2Z.inj_div; done).
    rewrite (proj2 (Z.ltb_lt _ _)) by (unfold MAXFILE; change NDIRECT with 12; change NINDIRECT with 128; change BS with 512%nat in *; change ND with 12%nat in *; change NI with 128%nat in *; lia).
    rewrite (run_bind (assert_ true) _ s () s eq_refl), (run_bind _ _ _ _ _ Er). change nmeta with 59 in *.
    rewrite (run_bind _ _ _ _ _ (rsect_run s1 (mc_image _ _ _ C) b ltac:(lia))).
    assert (Z.min (Z.of_nat (length q)) ((Z.of_nat (len / BS) + 1) * BSIZE - Z.of_nat len) = Z.of_nat n1) as ->.
    { subst n1. change BS with 512%nat in *. change BSIZE with 512. lia. }
    rewrite Nat2Z.id. replace (Z.to_nat (Z.of_nat len - Z.of_nat (len / BS) * BSIZE)) with (len mod BS)%nat.
    2: { change BS with 512%nat in *. change BSIZE with 512. lia. }
    rewrite (run_bind _ _ _ _ _ (wsect_run s1 (mc_image _ _ _ C) b _ ltac:(lia))).
    replace (u32 (Z.of_nat len + Z.of_nat n1)) with (Z.of_nat (len + n1)); [done|].
    change BS with 512%nat in *. change ND with 12%nat in *. change NI with 128%nat in *. lia.
Qed.

Lemma iappend_loop_run fuel : forall p F J s k a din, mk_core F J s -> F !! k = Some a ->
  J !! k = Some (set_i_size (Z.of_nat (length (a_data a))) din) -> length (a_blocks a) = nblk (length (a_data a)) -> bytes p ->
  (length p <= fuel)%nat -> let len := length (a_data a) in (len + length p <= BS * (ND + NI))%nat ->
  freeblock s + Z.of_nat (fcount (len + length p)) - Z.of_nat (fcount len) <= FSSIZE ->
  exists s' a' din', iappend_loop fuel din (Z.of_nat len) p s = Ret ((din', Z.of_nat (len + length p)), s') /\ appended k F J s a din p s' a' din'.
Proof.
  induction fuel as [|fuel IH]; intros p F J s k a din H Hk HJ Hc Hp Hfu len Hmax Hf; (destruct p as [|c p]; [|cbn [length] in Hfu; try lia]).
  1,2: exists s, a, din; cbn [iappend_loop length]; rewrite Nat.add_0_r; split; [done|]; split; rewrite ?app_nil_r, ?list_insert_id by done; try done; [by destruct din|lia].
  destruct (iappend_body F J s k a din (c :: p) fuel H Hk HJ Hc Hp ltac:(done) Hmax Hf) as (s1 & a1 & din1 & A & Es).
  fold len in Es. rewrite Es. clear Es.
  set (q := c :: p) in *. fold len in A |- *. set (n1 := Nat.min (length q) (BS - len mod BS)) in *.
  assert (1 <= n1 <= length q)%nat as Hn1. { pose proof (Nat.mod_upper_bound len BS ltac:(by change BS with 512%nat)). subst n1 q. cbn [length]. lia. }
  assert (length (a_data a1) = len + n1)%nat as Hl1. { rewrite (ad_data _ _ _ _ _ _ _ _ _ _ A), length_app, length_take. fold len. lia. }
  assert (len + n1 + length (drop n1 q) = len + length q)%nat as Ht by (rewrite length_drop; lia).
  destruct (IH (drop n1 q) _ _ s1 k a1 din1 (ad_core _ _ _ _ _ _ _ _ _ _ A)) as (s2 & a2 & din2 & E & B).
  - apply list_lookup_insert_eq. by eapply lookup_lt_Some.
  - apply list_lookup_insert_eq. by eapply lookup_lt_Some.
  - apply A.
  - by apply Forall_drop.
  - rewrite length_drop. subst q. cbn [length] in *. lia.
  - by rewrite Hl1, Ht.
  - rewrite Hl1, Ht, (ad_free _ _ _ _ _ _ _ _ _ _ A), Hl1. fold len. lia.
  - exists s2, a2, din2. rewrite Hl1, Ht in E. split; [done|]. rewrite <- (take_drop n1 q). by eapply appended_trans.
Qed.

(** ** Inodes *)

Abbreviation mknode s := (dnode mksb (sect s)).
Definition dnodes (s : mkst) (n : nat) : list inode := (fun k => mknode s (Z.of_nat k + 1)) <$> seq 0 n.

Lemma dnodes_lookup s n k ip : dnodes s n !! k = Some ip <-> (k < n)%nat /\ ip = mknode s (Z.of_nat k + 1).
Proof.
  unfold dnodes. rewrite list_lookup_fmap. destruct (decide (k < n)%nat) as [Hk|Hk].
  - rewrite lookup_seq_lt by done. cbn. split; [by intros [= <-]|by intros [_ ->]].
  - rewrite lookup_ge_None_2 by (rewrite length_seq; lia). split; [done|by intros [? _]].
Qed.
Lemma length_dnodes s n : length (dnodes s n) = n.
Proof. unfold dnodes. by rewrite length_fmap, length_seq. Qed.

Lemma mk_geometry : geometry mksb 2 30 FSSIZE.
Proof. split; vm_compute; (split; [done|]) || done; done. Qed.

Lemma iblock_range i : 0 <= i < NINODES -> 32 <= IBLOCK i mksb < 58.
Proof. intros Hi. destruct (IBLOCK_inode mksb 2 30 FSSIZE mk_geometry i Hi) as [_ H]. exact H. Qed.

(** Changes to the inode blocks leave the files alone. *)
Lemma core_ext F J s J' s' : mk_core F J s -> image s' -> (forall n, nmeta <= n -> sect s' n = sect s n) -> freeblock s' = freeblock s ->
  Forall2 (fun ip jp => i_size jp = i_size ip /\ i_addrs jp = i_addrs ip) J J' -> mk_core F J' s'.
Proof.
  intros [C1 C2 C3 C4 C5 C6 C7] Him HV Hf HJ. assert (nmeta <= freeblock s) as Hm by (rewrite C5; lia).
  split; rewrite ?Hf; try done; [|intros n Hn; rewrite HV by lia; by apply C7].
  apply Forall2_same_length_lookup. split; [by rewrite <- (Forall2_length _ _ _ HJ), (Forall2_length _ _ _ C2)|]. intros k jp a Hj Ha.
  destruct (Forall2_lookup_r _ _ _ _ _ HJ Hj) as (ip & Hi & E1 & E2). pose proof (Forall2_lookup_lr _ _ _ _ _ _ C2 Hi Ha) as R.
  apply (rep_inode _ _ _ (rep_ext _ _ _ R _ (fun b Hb => HV b (proj1 (C4 b (owned_elem _ _ _ _ Ha Hb)))))); done.
Qed.

Lemma winode_run s i ip : image s -> 0 <= i < NINODES -> exists s', winode i ip s = Ret ((), s') /\ image s' /\
  (forall n, sect s' n = put_inode mksb (sect s) i ip n) /\ freeinode s' = freeinode s /\ freeblock s' = freeblock s.
Proof.
  intros Him Hi. pose proof (iblock_range i Hi) as Hb. unfold FSSIZE in *.
  exists (put_sect (IBLOCK i mksb) (to_dinode ip (sect s (IBLOCK i mksb)) (dinode_at i)) s). split_and!; try done.
  - unfold winode. by rewrite (run_bind _ _ _ _ _ (rsect_run s Him (IBLOCK i mksb) ltac:(unfold FSSIZE; lia))), (wsect_run s Him) by (unfold FSSIZE; lia).
  - apply put_image; [done|]. apply block_ok_to_dinode, sect_ok; [done|unfold FSSIZE; lia].
  - intros n. apply sect_put; [done|unfold FSSIZE; lia].
Qed.

(** The inodes are those on the disk except that of file [k]. *)
Lemma winode_core F J s k ip : mk_core F J s -> J !! k = Some ip -> inode_fits ip -> Z.of_nat (length F) < NINODES ->
  (forall j jp, j <> k -> J !! j = Some jp -> jp = mknode s (Z.of_nat j + 1)) ->
  exists s', winode (Z.of_nat k + 1) ip s = Ret ((), s') /\ mk_core F (dnodes s' (length F)) s' /\ freeinode s' = freeinode s /\
    (forall n, n < 32 -> sect s' n = sect s n) /\ (forall i, 0 <= i < NINODES -> i <> Z.of_nat k + 1 -> mknode s' i = mknode s i) /\
    load_inode mksb (sect s') (Z.of_nat k + 1) ip = ip.
Proof.
  intros C Hk Hfit Hlen HJ. pose proof (Forall2_length _ _ _ (mc_rep _ _ _ C)) as El. pose proof (lookup_lt_Some _ _ _ Hk) as Hlt.
  assert (0 <= Z.of_nat k + 1 < NINODES) as Hi by lia. pose proof (iblock_range _ Hi) as Hb. pose proof (mc_image _ _ _ C) as Him.
  destruct (winode_run s _ ip Him Hi) as (s' & E & Him' & HV & En & Ef). exists s'. split; [done|].
  assert (forall i jp, load_inode mksb (sect s') i jp = load_inode mksb (put_inode mksb (sect s) (Z.of_nat k + 1) ip) i jp) as HL.
  { intros i jp. unfold load_inode. by rewrite HV. }
  assert (load_inode mksb (sect s') (Z.of_nat k + 1) ip = ip) as Hown.
  { rewrite HL. apply put_inode_eq; [done|]. apply sect_ok; [done|]. unfold FSSIZE. lia. }
  assert (forall i, 0 <= i < NINODES -> i <> Z.of_nat k + 1 -> mknode s' i = mknode s i) as Hother.
  { intros i Hi' Hne. unfold dnode. rewrite HL. apply (put_inode_ne mksb 2 30 FSSIZE mk_geometry); try done. apply Hfit. }
  split_and!; try done.
  - apply (core_ext F J s); try done.
    + intros n Hn. rewrite HV. apply put_inode_other. change nmeta with 59 in Hn. lia.
    + apply Forall2_same_length_lookup. split; [by rewrite length_dnodes|]. intros j jp ip' Hj Hj'. apply dnodes_lookup in Hj' as [Hjl ->].
      destruct (decide (j = k)) as [->|Hne].
      * rewrite Hk in Hj. injection Hj as <-. exact (conj (f_equal i_size Hown) (f_equal i_addrs Hown)).
      * rewrite Hother by lia. by rewrite (HJ j jp Hne Hj).
  - intros n Hn. rewrite HV. apply put_inode_other. lia.
Qed.

(** ** The files built so far *)

Definition head_block (n : Z) : list Z := if n =? 1 then wr zeroes 0 (sb_bytes mksb) else zeroes.

(** [C] has the type and the contents of the files 1, 2, ... *)
Record mk_files (C : list (Z * list Z)) (F : list afile) (s : mkst) : Prop := {
  mf_core : mk_core F (dnodes s (length F)) s;
  mf_data : a_data <$> F = C.*2;
  mf_count : Forall (fun a => length (a_blocks a) = nblk (length (a_data a))) F;
  mf_next : freeinode s = Z.of_nat (length F) + 1;
  mf_few : Z.of_nat (length F) < NINODES;
  mf_type : forall k c, C !! k = Some c -> let ip := mknode s (Z.of_nat k + 1) in
    i_type ip = c.1 /\ i_nlink ip = 1 /\ i_major ip = 0 /\ i_minor ip = 0;
  mf_unused : forall i, i = 0 \/ freeinode s <= i < NINODES -> mknode s i = zero_dinode;
  mf_head : forall n, 0 <= n < 32 -> sect s n = head_block n }.

Definition mk_ok (C : list (Z * list Z)) (s : mkst) : Prop := exists F, mk_files C F s.

(** The files [C] fit on the disk. *)
Definition total (C : list (Z * list Z)) : nat := sum_list_with (fun c => fcount (length c.2)) C.
Record fits (C : list (Z * list Z)) : Prop := {
  ft_size : Forall (fun c => (length c.2 <= BS * (ND + NI))%nat) C;
  ft_total : nmeta + Z.of_nat (total C) <= FSSIZE;
  ft_few : Z.of_nat (length C) < NINODES }.

Lemma total_owned C F J s : mk_core F J s -> a_data <$> F = C.*2 ->
  Forall (fun a => length (a_blocks a) = nblk (length (a_data a))) F -> length (owned F) = total C.
Proof.
  intros H. pose proof (mc_rep _ _ _ H) as R. clear H. revert C. induction R as [|ip a J F Ha _ IH]; intros [|c C] Hd Hc; try done.
  rewrite !fmap_cons in Hd. injection Hd as E Hd. apply Forall_cons in Hc as [Hc HC]. unfold owned. rewrite fmap_cons. cbn [concat total sum_list_with].
  rewrite length_app, (fcount_rep _ _ _ Ha Hc), E. f_equal. by apply IH.
Qed.

Lemma total_insert C k c c' : C !! k = Some c -> (total (<[k := c']> C) + fcount (length c.2) = total C + fcount (length c'.2))%nat.
Proof.
  revert k. induction C as [|e C IH]; intros [|k] Hk; try done.
  - injection Hk as ->. change (fcount (length c'.2) + total C + fcount (length c.2) = fcount (length c.2) + total C + fcount (length c'.2))%nat. lia.
  - specialize (IH k Hk). change (fcount (length e.2) + total (<[k := c']> C) + fcount (length c.2) = fcount (length e.2) + total C + fcount (length c'.2))%nat. lia.
Qed.

Lemma addrs_range F J s k a ip : mk_core F J s -> F !! k = Some a -> J !! k = Some ip -> Forall (fun b => 0 <= b < 2 ^ 32) (i_addrs ip).
Proof.
  intros C Hk HJ. pose proof (Forall2_lookup_lr _ _ _ _ _ _ (mc_rep _ _ _ C) HJ Hk) as R. rewrite (rp_addrs _ _ _ R).
  pose proof (mc_free _ _ _ C) as Hf. unfold FSSIZE in Hf.
  assert (forall b, b ∈ fblocks a -> 0 <= b < 2 ^ 32) as Hb.
  { intros b Hb. pose proof (mc_range _ _ _ C b (owned_elem _ _ _ _ Hk Hb)). change nmeta with 59 in *. lia. }
  apply Forall_app. split.
  - apply Forall_app. split; [|apply Forall_replicate; lia]. apply Forall_take, Forall_forall. intros b Hin. by apply Hb, fb_data.
  - apply Forall_singleton. destruct (decide (a_ind a = 0)) as [->|Hne]; [lia|]. by apply Hb, fb_ind.
Qed.

Lemma mk_files_lookup C F s k c : mk_files C F s -> C !! k = Some c -> exists a, F !! k = Some a /\ a_data a = c.2.
Proof.
  intros H Hk. assert ((a_data <$> F) !! k = Some c.2) as E by (rewrite (mf_data _ _ _ H), list_lookup_fmap, Hk; done).
  rewrite list_lookup_fmap in E. destruct (F !! k) as [a|] eqn:Ea; [|done]. exists a. by injection E.
Qed.

(** [winode] at the end of [iappend]. *)
Lemma close_run C F s k ty a p s1 a1 din : mk_files C F s -> C !! k = Some (ty, a_data a) -> F !! k = Some a ->
  appended k F (dnodes s (length F)) s a (mknode s (Z.of_nat k + 1)) p s1 a1 din -> (length (a_data a1) <= BS * (ND + NI))%nat ->
  exists s', winode (Z.of_nat k + 1) (set_i_size (Z.of_nat (length (a_data a1))) din) s1 = Ret ((), s') /\
    mk_files (<[k := (ty, a_data a ++ p)]> C) (<[k := a1]> F) s'.
Proof.
  intros [H1 H2 H3 H4 H5 H6 H7 H8] Hk Ha [A1 A2 A3 A4 A5 A6 A7] Hmax. pose proof (lookup_lt_Some _ _ _ Ha) as Hlt.
  set (i := Z.of_nat k + 1) in *. assert (0 <= i < NINODES) as Hi by lia. pose proof (iblock_range i Hi) as Hib.
  set (ip := set_i_size (Z.of_nat (length (a_data a1))) din) in *. set (J := <[k := ip]> (dnodes s (length F))) in *.
  assert (J !! k = Some ip) as HJ by (apply list_lookup_insert_eq; by rewrite length_dnodes).
  assert (forall j, 0 <= j < NINODES -> mknode s1 j = mknode s j) as Hsame.
  { intros j Hj. pose proof (iblock_range j Hj). apply dnode_same; [done|]. apply A6. change nmeta with 59. lia. }
  assert (<[k := a1]> F !! k = Some a1) as Ha1 by (by apply list_lookup_insert_eq).
  assert (inode_fits ip) as Hfit.
  { pose proof (from_dinode_fits (sect s (IBLOCK i mksb)) (dinode_at i) blank_inode) as [].
    { apply sect_ok; [apply H1|]. unfold FSSIZE. lia. }
    pose proof (rep_len _ _ _ (Forall2_lookup_lr _ _ _ _ _ _ (mc_rep _ _ _ A1) HJ Ha1)) as Hl.
    split; unfold ip; try rewrite A4; cbn [i_type i_major i_minor i_nlink i_size i_addrs set_i_size set_i_addrs]; try done.
    - change BS with 512%nat in Hmax. change ND with 12%nat in Hmax. change NI with 128%nat in Hmax. lia.
    - by apply (addrs_range _ _ _ _ _ _ A1 Ha1 HJ). }
  destruct (winode_core _ _ s1 k ip A1 HJ Hfit) as (s' & E & Hc & En & Eh & Eo & Eown).
  { by rewrite length_insert. }
  { intros j jp Hne Hj. unfold J in Hj. rewrite list_lookup_insert_ne in Hj by done. apply dnodes_lookup in Hj as [Hj ->]. rewrite Hsame by lia. done. }
  exists s'. split; [done|]. rewrite length_insert in Hc. fold i in Eo, Eown. split.
  - by rewrite length_insert.
  - rewrite !list_fmap_insert, H2, A2. done.
  - by apply Forall_insert.
  - rewrite length_insert. congruence.
  - by rewrite length_insert.
  - intros j c Hj. pose proof (lookup_lt_Some _ _ _ Hj) as Hjl. rewrite length_insert in Hjl.
    assert (length C = length F) as ElC by (rewrite <- (length_fmap snd C), <- H2; apply length_fmap).
    apply list_lookup_insert_Some in Hj as [(<- & <- & _)|[Hne Hj]].
    + destruct (H6 k _ Hk) as (T1 & T2 & T3 & T4). cbn [fst] in *. fold i in T1, T2, T3, T4 |- *.
      destruct (load_fields mksb (sect s') i ip) as (E1 & E2 & E3 & E4 & _ & _). rewrite Eown in E1, E2, E3, E4.
      rewrite <- E1, <- E2, <- E3, <- E4. unfold ip. by rewrite A4.
    + rewrite Eo by lia. rewrite Hsame by lia. by apply H6.
  - intros j Hj. rewrite Eo, Hsame by lia. apply H7. lia.
  - intros n Hn. rewrite Eh, A6 by (change nmeta with 59; lia). by apply H8.
Qed.

Lemma iappend_run C s k ty d p : mk_ok C s -> C !! k = Some (ty, d) -> bytes p -> fits (<[k := (ty, d ++ p)]> C) ->
  exists s', iappend (Z.of_nat k + 1) p s = Ret ((), s') /\ mk_ok (<[k := (ty, d ++ p)]> C) s'.
Proof.
  intros [F H] Hk Hp [T1 T2 T3]. destruct (mk_files_lookup C F s k _ H Hk) as (a & Ha & Ed). cbn [snd] in Ed. subst d.
  pose proof H as [H1 H2 H3 H4 H5 H6 H7 H8]. pose proof (lookup_lt_Some _ _ _ Ha) as Hlt. pose proof (lookup_lt_Some _ _ _ Hk) as HltC.
  set (i := Z.of_nat k + 1). assert (0 <= i < NINODES) as Hi by lia. pose proof (iblock_range i Hi) as Hib.
  assert (dnodes s (length F) !! k = Some (mknode s i)) as HJ by by apply dnodes_lookup.
  pose proof (rp_size _ _ _ (Forall2_lookup_lr _ _ _ _ _ _ (mc_rep _ _ _ H1) HJ Ha)) as Esz.
  pose proof (total_insert C k _ (ty, a_data a ++ p) Hk) as Et. cbn [snd] in Et. pose proof (total_owned C F _ s H1 H2 H3) as Eo.
  pose proof (mc_count _ _ _ H1) as Ec. rewrite Eo in Ec.
  assert (length (a_data a ++ p) <= BS * (ND + NI))%nat as Hmax.
  { refine (Forall_lookup_1 _ _ k (ty, a_data a ++ p) T1 _). by apply list_lookup_insert_eq. }
  rewrite length_app in Hmax, Et.
  destruct (iappend_loop_run (length p) p F _ s k a (mknode s i) H1 Ha) as (s1 & a1 & din & El & A); try done.
  { rewrite <- Esz. by destruct (mknode s i). }
  { by apply (Forall_lookup_1 _ _ _ _ H3 Ha). }
  { lia. }
  assert (length (a_data a1) = length (a_data a) + length p)%nat as Ha1. { by rewrite (ad_data _ _ _ _ _ _ _ _ _ _ A), length_app. }
  destruct (close_run C F s k ty a p s1 a1 din H Hk Ha A ltac:(lia)) as (s' & Ew & H').
  exists s'. split; [|by eexists]. unfold iappend. assert (rinode i s = Ret (mknode s i, s)) as Er.
  { unfold rinode. by rewrite (run_bind _ _ _ _ _ (rsect_run s (mc_image _ _ _ H1) (IBLOCK i mksb) ltac:(unfold FSSIZE; lia))). }
  rewrite (run_bind _ _ _ _ _ Er), Esz, (run_bind _ _ _ _ _ El), <- Ha1. exact Ew.
Qed.

Lemma ialloc_run C s ty : mk_ok C s -> Z.of_nat (length C) + 1 < NINODES -> 0 <= ty < 2 ^ 15 ->
  exists s', ialloc ty s = Ret (Z.of_nat (length C) + 1, s') /\ mk_ok (C ++ [(ty, [])]) s'.
Proof.
  intros [F [H1 H2 H3 H4 H5 H6 H7 H8]] Hfew Hty. assert (length C = length F) as ElC by (rewrite <- (length_fmap snd C), <- H2; apply length_fmap).
  set (n := length F) in *. set (din := set_i_size 0 (set_i_nlink 1 (set_i_type ty zero_dinode))).
  set (s1 := set_freeinode (Z.of_nat n + 2) s).
  assert (mk_core (F ++ [no_file]) (dnodes s n ++ [din]) s1) as H1'.
  { assert (owned (F ++ [no_file]) = owned F) as Eo by (unfold owned; rewrite fmap_app, concat_app; apply app_nil_r).
    destruct H1 as [[I1 I2] C2 C3 C4 C5 C6 C7]. split; rewrite ?Eo; try done. apply Forall2_app; [done|]. constructor; [|done]. by apply rep_empty. }
  assert ((dnodes s n ++ [din]) !! n = Some din) as Hn by (rewrite lookup_app_r, length_dnodes, Nat.sub_diag by (rewrite length_dnodes; lia); done).
  destruct (winode_core _ _ s1 n din H1' Hn) as (s' & E & Hc & En & Eh & Eo & Eown).
  { split; cbn; try lia; [done|]. repeat constructor; lia. }
  { rewrite length_app. cbn. lia. }
  { intros j jp Hne Hj. apply lookup_app_Some in Hj as [Hj|[Hj1 Hj2]]; [by apply dnodes_lookup in Hj as [_ ->]|].
    rewrite length_dnodes in Hj1, Hj2. apply lookup_lt_Some in Hj2. cbn in Hj2. lia. }
  rewrite length_app in Hc. cbn [length] in Hc. exists s'. split.
  - unfold ialloc. rewrite (run_bind (gets freeinode) _ s (freeinode s) s eq_refl), H4.
    rewrite (run_bind (modify _) _ s () s1); [|cbv [modify]; do 3 f_equal; unfold NINODES in *; lia].
    fold din. rewrite (run_bind _ _ _ _ _ E), ElC. done.
  - exists (F ++ [no_file]). split; rewrite ?length_app; cbn [length].
    + done.
    + by rewrite !fmap_app, H2.
    + apply Forall_app. split; [done|]. by constructor.
    + rewrite En. cbn. lia.
    + lia.
    + intros k c Hk. apply lookup_app_Some in Hk as [Hk|[Hk1 Hk2]].
      * pose proof (lookup_lt_Some _ _ _ Hk). rewrite Eo by lia. by apply H6.
      * pose proof (lookup_lt_Some _ _ _ Hk2) as Hl. cbn in Hl. replace k with n in * by lia. rewrite ElC, Nat.sub_diag in Hk2. injection Hk2 as <-.
        destruct (load_fields mksb (sect s') (Z.of_nat n + 1) din) as (E1 & E2 & E3 & E4 & _ & _). rewrite Eown in E1, E2, E3, E4.
        cbv zeta. rewrite <- E1, <- E2, <- E3, <- E4. done.
    + intros j Hj. rewrite En in Hj. cbn in Hj. rewrite Eo by lia. apply H7. lia.
    + intros m Hm. rewrite Eh by lia. by apply H8.
Qed.

(** ** Smaller images *)

Create HintDb mkfs.

Inductive below : list (Z * list Z) -> list (Z * list Z) -> Prop :=
  | below_nil D : below [] D
  | below_cons c d C D : (length c.2 <= length d.2)%nat -> below C D -> below (c :: C) (d :: D).
#[export] Hint Constructors below : mkfs.

Lemma below_refl C : below C C.
Proof. induction C; eauto with mkfs. Qed.
Lemma below_app C D : below C (C ++ D).
Proof. induction C; cbn; eauto with mkfs. Qed.
#[export] Hint Resolve below_refl below_app : mkfs.
#[export] Instance below_trans : Transitive below.
Proof.
  intros C D E H. revert E. induction H as [|c d C D Hl _ IH]; intros E HE; [constructor|].
  inversion HE as [|? e ? E' Hl' HE']; subst. constructor; [lia|by apply IH].
Qed.

Lemma fits_below C D : below C D -> fits D -> fits C.
Proof.
  intros H [F1 F2 F3]. assert (length C <= length D /\ total C <= total D)%nat as [Hl Ht].
  { clear F1 F2 F3. induction H as [|c d C D Hl _ [IH1 IH2]]; [cbn; lia|]. pose proof (fcount_mono _ _ Hl) as Hm. cbn [length].
    change (total (c :: C)) with (fcount (length c.2) + total C)%nat. change (total (d :: D)) with (fcount (length d.2) + total D)%nat. lia. }
  split; [|lia..]. clear -H F1. induction H as [|c d C D Hl _ IH]; [constructor|]. apply Forall_cons in F1 as [? ?]. constructor; [lia|by apply IH].
Qed.

#[export] Instance fits_dec C : Decision (fits C).
Proof.
  refine (cast_if (decide (Forall (fun c => (length c.2 <= BS * (ND + NI))%nat) C /\ nmeta + Z.of_nat (total C) <= FSSIZE /\ Z.of_nat (length C) < NINODES)));
    [abstract (destruct_and?; by split)|abstract (by intros []; auto)].
Defined.

(** ** The program *)

Abbreviation tree := (list (Z * list Z)).

(** On every image of the files [C], [m] returns [r] and leaves [C']. *)
Definition builds {A} (m : M mkst A) (C : tree) (r : A) (C' : tree) : Prop :=
  forall s, mk_ok C s -> exists s', m s = Ret (r, s') /\ mk_ok C' s'.

Lemma builds_ret {A} (r : A) C : builds (mret r) C r C.
Proof. intros s H. by exists s. Qed.
Lemma builds_bind {A B} (m : M mkst A) (f : A -> M mkst B) C r C' r' C'' : builds m C r C' -> builds (f r) C' r' C'' -> builds (m ≫= f) C r' C''.
Proof. intros Hm Hf s Hs. destruct (Hm s Hs) as (s1 & E & H1). rewrite (run_bind _ _ _ _ _ E). by apply Hf. Qed.
Lemma builds_assert C b : b = true -> builds (assert_ b) C () C.
Proof. intros ->. apply builds_ret. Qed.

Definition grow (k : nat) (p : list Z) (C : tree) : tree := alter (fun c => (c.1, c.2 ++ p)) k C.

Lemma grow_insert k p C c : C !! k = Some c -> grow k p C = <[k := (c.1, c.2 ++ p)]> C.
Proof.
  intros H. apply list_eq. intros j. unfold grow. destruct (decide (j = k)) as [->|Hne].
  - rewrite list_lookup_alter_eq, H, list_lookup_insert_eq by (by eapply lookup_lt_Some). done.
  - by rewrite list_lookup_alter_ne, list_lookup_insert_ne.
Qed.

Lemma builds_iappend C k p i : (k < length C)%nat -> i = Z.of_nat k + 1 -> bytes p -> fits (grow k p C) -> builds (iappend i p) C () (grow k p C).
Proof.
  intros Hk -> Hp Hf s Hs. destruct (lookup_lt_is_Some_2 _ _ Hk) as [[ty d] Hc]. rewrite (grow_insert _ _ _ _ Hc) in Hf |- *. by apply iappend_run.
Qed.

Lemma builds_ialloc C ty : Z.of_nat (length C) + 1 < NINODES -> 0 <= ty < 2 ^ 15 -> builds (ialloc ty) C (Z.of_nat (length C) + 1) (C ++ [(ty, [])]).
Proof. intros H1 H2 s Hs. by apply ialloc_run. Qed.

Lemma bytes_dirent i name : bytes name -> bytes (dirent i name).
Proof.
  intros H. apply Forall_app. split; [apply bytes_le16|]. apply Forall_take, Forall_app. split; [done|]. apply Forall_replicate. lia.
Qed.

Lemma length_grow k p C : length (grow k p C) = length C.
Proof. apply length_alter. Qed.
Lemma below_grow k p C : below C (grow k p C).
Proof.
  revert k. induction C as [|c C IH]; intros [|k]; [constructor..| |].
  - constructor; [cbn; rewrite length_app; lia|apply below_refl].
  - constructor; [done|apply IH].
Qed.
Lemma below_grow_app k p C D : below (grow k p C) (grow k p C ++ D).
Proof. apply below_app. Qed.
#[export] Hint Resolve below_grow below_grow_app : mkfs.

(** The root, [/dev], [/bin] and [/home]. *)
Definition entry (i : Z) (name : string) : list Z := dirent i (chars name).
Definition tree0 : tree :=
  [(T_DIR, entry 1 "." ++ entry 1 ".." ++ entry 2 "dev" ++ entry 3 "bin" ++ entry 4 "home");
   (T_DIR, entry 2 "." ++ entry 1 ".."); (T_DIR, entry 3 "." ++ entry 1 ".."); (T_DIR, entry 4 "." ++ entry 1 "..")].

Lemma bytes_chars_dirent i name : bytes (entry i name).
Proof.
  apply bytes_dirent. unfold bytes, chars. apply Forall_fmap, Forall_true. intros c. pose proof (Ascii.N_ascii_bounded c). cbn. lia.
Qed.

Definition with_dots (k : nat) (parent : Z) (C : tree) : tree := grow k (entry parent "..") (grow k (entry (Z.of_nat k + 1) ".") C).

Lemma builds_dots C k parent : (k < length C)%nat -> fits (with_dots k parent C) -> builds (dots (Z.of_nat k + 1) parent) C () (with_dots k parent C).
Proof.
  intros Hk Hf. unfold dots. eapply builds_bind; (apply builds_iappend; rewrite ?length_grow; [done|done|apply bytes_chars_dirent|]); [|done].
  eapply fits_below; [|exact Hf]. apply below_grow.
Qed.

Definition with_dir (name : string) (C : tree) : tree :=
  grow 0 (entry (Z.of_nat (length C) + 1) name) (with_dots (length C) 1 (C ++ [(T_DIR, [])])).

Lemma builds_makedir C name : (0 < length C)%nat -> fits (with_dir name C) ->
  builds (makedir 1 (chars name)) C (Z.of_nat (length C) + 1) (with_dir name C).
Proof.
  intros Hl Hf. unfold makedir. pose proof (ft_few _ Hf) as Hn. unfold with_dir, with_dots in Hn. rewrite !length_grow, length_app in Hn. cbn [length] in Hn.
  eapply builds_bind; [apply builds_ialloc; [lia|done]|]. eapply builds_bind; [apply builds_dots|].
  - rewrite length_app. cbn. lia.
  - eapply fits_below; [|exact Hf]. apply below_grow.
  - eapply builds_bind; [|apply builds_ret]. apply (builds_iappend _ 0); [|done|apply bytes_chars_dirent|exact Hf].
    unfold with_dots. rewrite !length_grow, length_app. cbn. lia.
Qed.

Lemma fits_tree0 : fits tree0.
Proof. refine (bool_decide_unpack _ _). vm_compute. exact I. Qed.

Lemma builds_makedirs : builds makedirs [] (3, 4) tree0.
Proof.
  unfold makedirs. eapply builds_bind; [apply builds_ialloc; [done|done]|]. eapply builds_bind; [by apply builds_assert|].
  assert (tree0 = with_dir "home" (with_dir "bin" (with_dir "dev" (with_dots 0 1 ([] ++ [(T_DIR, [])]))))) as E by (vm_compute; reflexivity).
  pose proof fits_tree0 as H3. rewrite E in H3 |- *. clear E. set (C0 := with_dots 0 1 _) in *.
  assert (forall name C, below C (with_dir name C)) as Hb.
  { intros name C. unfold with_dir, with_dots. etransitivity; [apply below_app|]. do 2 (etransitivity; [apply below_grow|]). apply below_grow. }
  pose proof (fits_below _ _ (Hb _ _) H3) as H2. pose proof (fits_below _ _ (Hb _ _) H2) as H1. pose proof (fits_below _ _ (Hb _ _) H1) as H0.
  eapply builds_bind; [apply (builds_dots _ 0); [cbn; lia|exact H0]|].
  eapply builds_bind; [apply builds_makedir; [cbn; lia|exact H1]|]. eapply builds_bind; [apply builds_makedir; [cbn; lia|exact H2]|].
  eapply builds_bind; [apply builds_makedir; [cbn; lia|exact H3]|]. apply builds_ret.
Qed.

(** ** The files of the command line *)

(** What [read] delivers until it returns 0. *)
Fixpoint contents (reads : list (list Z)) : list Z :=
  match reads with [] | [] :: _ => [] | buf :: reads => buf ++ contents reads end.

Abbreviation arg := (list Z * option (list (list Z)))%type.

(** The directory (its place in the tree) and the name in it. *)
Definition target (name : list Z) : nat * list Z :=
  let '(bin, short) := skip_mark (shortname name) in (if bin then 2%nat else 3%nat, short).

Definition tree_add (C : tree) (a : arg) : tree :=
  let '(dir, name) := target a.1 in
  grow dir (dirent (Z.of_nat (length C) + 1) name) (C ++ [(T_FILE, [])]).
Definition tree_file (C : tree) (a : arg) : tree := grow (length C) (contents (default [] a.2)) (tree_add C a).

(** The tree of all files. *)
Definition mktree (args : list arg) : tree := foldl tree_file tree0 args.

(** A file [mkfs] can copy. *)
Record arg_ok (a : arg) : Prop := {
  ag_name : bytes a.1;
  ag_path : 47 ∉ shortname a.1;
  ag_open : is_Some a.2;
  ag_bytes : Forall bytes (default [] a.2);
  ag_string : 0 ∉ a.1 }.

Lemma grow_grow k p q C : grow k q (grow k p C) = grow k (p ++ q) C.
Proof. unfold grow. rewrite list_alter_alter_eq. apply list_alter_ext; [|done]. intros c _. cbn. by rewrite app_assoc. Qed.

Lemma grow_nil k C : grow k [] C = C.
Proof. unfold grow. apply list_alter_id. intros [ty d]. cbn. by rewrite app_nil_r. Qed.

Lemma below_contents k p q C : below (grow k p C) (grow k (p ++ q) C).
Proof. rewrite <- grow_grow. apply below_grow. Qed.

Lemma builds_copy reads : forall C k, (k < length C)%nat -> Forall bytes reads -> fits (grow k (contents reads) C) ->
  builds (copy_file (Z.of_nat k + 1) reads) C () (grow k (contents reads) C).
Proof.
  induction reads as [|[|c buf] reads IH]; intros C k Hk Hr Hf; cbn [copy_file contents] in *; [rewrite grow_nil; apply builds_ret..|].
  apply Forall_cons in Hr as [Hb Hr]. rewrite <- grow_grow in Hf |- *. eapply builds_bind; [apply (builds_iappend _ k); try done|].
  - eapply fits_below; [apply below_grow|exact Hf].
  - apply IH; [by rewrite length_grow|done..].
Qed.

Lemma bytes_target name : bytes name -> bytes (target name).2.
Proof.
  intros H. assert (bytes (shortname name)) as Hs by (unfold shortname; destruct (decide _); [by apply Forall_drop|done]).
  unfold target, skip_mark. destruct (shortname name) as [|c l]; [done|]. pose proof Hs as [Hc Hl]%Forall_cons. by destruct (c =? 95).
Qed.

Lemma target_lt name : ((target name).1 < 4)%nat.
Proof. unfold target. destruct (skip_mark _) as [[] ?]; cbn; lia. Qed.

Lemma builds_add_file C a : (4 <= length C)%nat -> arg_ok a -> fits (tree_file C a) -> builds (add_file 3 4 a) C () (tree_file C a).
Proof.
  intros Hl [A1 A2 A3 A4] Hf. pose proof (ft_few _ Hf) as Hn. pose proof (target_lt a.1) as Ht. pose proof (bytes_target a.1 A1) as Hb.
  unfold add_file. eapply builds_bind; [by apply builds_assert, bool_decide_eq_true_2|]. destruct a as [name [reads|]]; [|by destruct A3]. cbn [fst snd default] in *.
  unfold tree_file, tree_add in *. unfold target in *. cbn [fst snd default] in *. destruct (skip_mark (shortname name)) as [bin short]. cbn [fst snd] in *.
  rewrite !length_grow, length_app in Hn. cbn [length] in Hn.
  eapply builds_bind; [apply builds_ialloc; [lia|done]|]. set (k := if bin then 2%nat else 3%nat) in *.
  eapply builds_bind; [apply (builds_iappend _ k)|].
  - rewrite length_app. cbn. lia.
  - by destruct bin.
  - by apply bytes_dirent.
  - eapply fits_below; [apply below_grow|exact Hf].
  - apply builds_copy; [|done|exact Hf]. rewrite length_grow, length_app. cbn. lia.
Qed.

Lemma length_tree_file C a : length (tree_file C a) = S (length C).
Proof. unfold tree_file, tree_add. destruct (target a.1). rewrite !length_grow, length_app. cbn. lia. Qed.

Lemma below_tree_file C a : below C (tree_file C a).
Proof. unfold tree_file, tree_add. destruct (target a.1). etransitivity; [apply below_app|]. etransitivity; apply below_grow. Qed.

Lemma below_tree args : forall C, below C (foldl tree_file C args).
Proof. induction args as [|a args IH]; intros C; cbn; [apply below_refl|]. etransitivity; [apply below_tree_file|apply IH]. Qed.

Lemma builds_add_files args : forall C, (4 <= length C)%nat -> Forall arg_ok args -> fits (foldl tree_file C args) ->
  builds (add_files 3 4 args) C () (foldl tree_file C args).
Proof.
  induction args as [|a args IH]; intros C Hl Ha Hf; cbn [add_files foldl] in *; [apply builds_ret|]. apply Forall_cons in Ha as [H1 H2].
  eapply builds_bind; [apply builds_add_file; try done|].
  - eapply fits_below; [apply below_tree|exact Hf].
  - apply IH; [rewrite length_tree_file; lia|done..].
Qed.
