(* ===== verification/MkfsImage.v ===== *)
(** * The finished image

    [mkfs] from the empty file to the image: the zeroed disk, the super
    block, the bitmap; the image is consistent and holds the files of
    [mktree args]. *)

From stdpp Require Import base numbers list gmap strings.
From S2P Require Import Prelude Bytes Machine Locks Bio Log LogTx FsState Fs FsDisk FileData.
From S2P Require Import Mkfs MkfsSpec.
Open Scope Z_scope.

(** ** The empty disk *)

Lemma wzeroes_run n : forall s, wzeroes n (Z.of_nat (length (img s))) s = Ret ((), set_img (img s ++ replicate n zeroes) s).
Proof.
  induction n as [|n IH]; intros s; cbn [wzeroes]; [rewrite app_nil_r; by destruct s|].
  assert (wsect (Z.of_nat (length (img s))) zeroes s = Ret ((), set_img (img s ++ [zeroes]) s)) as E.
  { unfold wsect, modify. do 3 f_equal. rewrite Nat2Z.id, Nat.sub_succ_l, Nat.sub_diag by done. change (replicate 1 zeroes) with [zeroes].
    by rewrite insert_app_r_alt, Nat.sub_diag. }
  rewrite (run_bind _ _ _ _ _ E). specialize (IH (set_img (img s ++ [zeroes]) s)). cbn [img set_img] in IH. rewrite length_app in IH. cbn [length] in IH.
  replace (Z.of_nat (length (img s)) + 1) with (Z.of_nat (length (img s) + 1)) by lia. rewrite IH. unfold set_img. cbn [img freeinode freeblock].
  by rewrite <- app_assoc.
Qed.

Lemma block_ok_zeroes : block_ok zeroes.
Proof. exact block_ok_zeros. Qed.

Lemma rd8_zeroes k : rd8 zeroes k = 0.
Proof.
  unfold rd8, zeroes. rewrite nth_lookup. destruct (_ !! k) as [v|] eqn:E; [|done]. by apply lookup_replicate in E as [-> _].
Qed.

Lemma zero_node k : from_dinode zeroes k blank_inode = zero_dinode.
Proof.
  assert (forall j, rd16 zeroes j = 0) as R16 by (intros j; unfold rd16; rewrite !rd8_zeroes; done).
  assert (forall j, rd32 zeroes j = 0) as R32 by (intros j; unfold rd32; rewrite !rd8_zeroes; done).
  unfold from_dinode, zero_dinode, blank_inode. rewrite !R16, R32. f_equal. apply list_eq. intros j. rewrite list_lookup_fmap.
  destruct (decide (j < Z.to_nat NDIRECT + 1)%nat).
  - rewrite lookup_seq_lt, lookup_replicate_2 by done. cbn [fmap option_fmap option_map]. by rewrite R32.
  - rewrite !lookup_ge_None_2; [done|rewrite length_replicate|rewrite length_seq]; lia.
Qed.

Definition empty_disk : mkst := Mkst (<[1%nat := wr zeroes 0 (sb_bytes mksb)]> (replicate (Z.to_nat FSSIZE) zeroes)) 1 nmeta.

Lemma sect_empty n : 0 <= n < FSSIZE -> sect empty_disk n = head_block n.
Proof.
  intros Hn. unfold sect, empty_disk, head_block. cbn [img]. rewrite nth_lookup. destruct (Z.eqb_spec n 1) as [->|Hne].
  - rewrite list_lookup_insert_eq; [done|]. rewrite length_replicate. unfold FSSIZE. lia.
  - rewrite list_lookup_insert_ne, lookup_replicate_2 by (unfold FSSIZE in *; lia). done.
Qed.

Lemma empty_ok : mk_ok [] empty_disk.
Proof.
  assert (image empty_disk) as Him.
  { split; unfold empty_disk; cbn [img]; [by rewrite length_insert, length_replicate|]. apply Forall_insert; [apply Forall_replicate, block_ok_zeroes|].
    split; [rewrite length_wr; apply block_ok_zeroes|]. apply bytes_wr; [apply block_ok_zeroes|]. apply Forall_concat, Forall_fmap, Forall_true. intros v. apply bytes_le32. }
  exists []. split; try done.
  - split; try done.
    + constructor.
    + intros b Hb. by apply elem_of_nil in Hb.
    + intros n Hn. rewrite sect_empty by (change (freeblock empty_disk) with 59 in Hn; lia). unfold head_block.
      change (freeblock empty_disk) with 59 in Hn. by rewrite (proj2 (Z.eqb_neq _ _)) by lia.
  - intros i Hi. change (freeinode empty_disk) with 1 in Hi. assert (0 <= i < NINODES) as Hi' by (unfold NINODES in *; lia). pose proof (iblock_range i Hi') as Hb.
    unfold dnode, load_inode. rewrite sect_empty by (unfold FSSIZE; lia). unfold head_block. rewrite (proj2 (Z.eqb_neq _ _)) by lia. apply zero_node.
  - intros n Hn. apply sect_empty. unfold FSSIZE. lia.
Qed.

(** ** The bitmap *)

Lemma mark_used_set d i : block_ok d -> mark_used d i = set_bit d i.
Proof.
  intros [_ Hb]. unfold mark_used, set_bit. f_equal. fold (rd8 d (i / 8)). rewrite Nat2Z.inj_mod, !Z.shiftl_1_l. change (Z.of_nat 8) with 8.
  assert (0 <= Z.lor (rd8 d (i / 8)) (2 ^ (Z.of_nat i mod 8)) < 256); [|lia].
  apply lor_bit_range; [by apply rd8_range|]. apply Z.mod_pos_bound. lia.
Qed.

Lemma bitmap_ok n : block_ok (foldl mark_used zeroes (seq 0 n)).
Proof.
  induction n as [|n IH]; [apply block_ok_zeroes|]. rewrite seq_S, foldl_app. cbn [foldl]. rewrite mark_used_set by done. by apply block_ok_set.
Qed.

Lemma bitmap_bit n b : (n <= 4096)%nat -> (b < 4096)%nat -> bit_set (foldl mark_used zeroes (seq 0 n)) b = bool_decide (b < n)%nat.
Proof.
  intros Hn Hb. induction n as [|n IH].
  - cbn [seq foldl]. rewrite bit_set_testbit, rd8_zeroes, Z.testbit_0_l. by rewrite bool_decide_eq_false_2 by lia.
  - rewrite seq_S, foldl_app. cbn [foldl]. rewrite mark_used_set by apply bitmap_ok. rewrite bit_set_set, IH, <- bool_decide_or by
      (rewrite ?(proj1 (bitmap_ok n)); try lia; change (Z.to_nat BSIZE) with 512%nat; apply Nat.Div0.div_lt_upper_bound; lia).
    apply bool_decide_ext. lia.
Qed.

(** ** The whole program *)

(** The contents of the blocks of a disk. *)
Definition block_of (D : list (list Z)) (n : Z) : list Z := nth (Z.to_nat n) D [].

(** What the finished disk [D] holds. *)
Record disk_holds (C : tree) (D : list (list Z)) : Prop := {
  dh_len : length D = Z.to_nat FSSIZE;
  dh_ok : Forall block_ok D;
  dh_head : forall n, 0 <= n < 32 -> block_of D n = head_block n;
  dh_files : forall k c, C !! k = Some c -> let ip := dnode mksb (block_of D) (Z.of_nat k + 1) in
    i_type ip = c.1 /\ i_nlink ip = 1 /\ exists a, rep (block_of D) ip a /\ a_data a = c.2;
  dh_unused : forall i, i = 0 \/ Z.of_nat (length C) < i < NINODES -> dnode mksb (block_of D) i = zero_dinode;
  dh_consistent : consistent mksb (block_of D);
  dh_used : forall b, 0 <= b < FSSIZE -> used mksb (block_of D) b = bool_decide (b < nmeta + Z.of_nat (total C)) }.

Lemma concat_none {A B} (f : A -> list B) l : (forall x, x ∈ l -> f x = []) -> concat (f <$> l) = [].
Proof. induction l as [|x l IH]; intros H; [done|]. rewrite fmap_cons. cbn [concat]. rewrite H, IH by set_solver. done. Qed.

(** The blocks of all inodes are those of the files. *)
Lemma all_blocks_owned V F : Z.of_nat (length F) < NINODES -> (forall k a, F !! k = Some a -> rep V (dnode mksb V (Z.of_nat k + 1)) a) ->
  (forall i, i = 0 \/ Z.of_nat (length F) < i < NINODES -> dnode mksb V i = zero_dinode) -> all_blocks mksb V = owned F.
Proof.
  intros Hl Hr Hz. set (g := fun i => inode_blocks V (i_addrs (dnode mksb V i))).
  assert (forall i, i = 0 \/ Z.of_nat (length F) < i < NINODES -> g i = []) as Hg by (intros i Hi; unfold g; by rewrite Hz).
  unfold all_blocks, inums. fold g. change (sb_ninodes mksb) with NINODES.
  replace NINODES with (1 + (Z.of_nat (length F) + (NINODES - 1 - Z.of_nat (length F)))) by lia.
  rewrite seqZ_app, fmap_app, concat_app by lia. rewrite seqZ_app, fmap_app, concat_app by lia.
  rewrite (concat_none g (seqZ 0 1)), (concat_none g (seqZ (0 + 1 + _) _)).
  - rewrite app_nil_r. cbn [app]. unfold owned. f_equal. apply list_eq. intros k. rewrite !list_lookup_fmap.
    destruct (F !! k) as [a|] eqn:Ea.
    + pose proof (lookup_lt_Some _ _ _ Ea). rewrite lookup_seqZ_lt by lia. cbn. f_equal. unfold g. replace (0 + 1 + Z.of_nat k) with (Z.of_nat k + 1) by lia.
      apply rep_blocks. by apply Hr.
    + apply lookup_ge_None in Ea. rewrite lookup_seqZ_ge by lia. done.
  - intros i Hi. apply Hg. apply elem_of_seqZ in Hi. lia.
  - intros i Hi. apply Hg. apply elem_of_seqZ in Hi. lia.
Qed.

Definition bitmap (n : Z) : list Z := foldl mark_used zeroes (seq 0 (Z.to_nat n)).

Section finished.
Context (C : tree) (F : list afile) (s : mkst) (H : mk_files C F s).
Let s' : mkst := put_sect 58 (bitmap (freeblock s)) s.

Lemma fin_image : image s'.
Proof. apply put_image; [apply H|apply bitmap_ok]. Qed.
Lemma fin_other n : n <> 58 -> sect s' n = sect s n.
Proof. intros Hn. apply sect_put_ne; [apply H|unfold FSSIZE; lia|done]. Qed.

Lemma fin_node i : 0 <= i < NINODES -> dnode mksb (sect s') i = mknode s i.
Proof. intros Hi. pose proof (iblock_range i Hi). apply dnode_same; [done|]. apply fin_other. lia. Qed.

Lemma fin_zero i : i = 0 \/ Z.of_nat (length F) < i < NINODES -> dnode mksb (sect s') i = zero_dinode.
Proof. intros Hi. rewrite fin_node by (unfold NINODES in *; lia). apply (mf_unused _ _ _ H). rewrite (mf_next _ _ _ H). lia. Qed.

Lemma fin_rep k a : F !! k = Some a -> rep (sect s') (dnode mksb (sect s') (Z.of_nat k + 1)) a.
Proof.
  intros Hk. pose proof (lookup_lt_Some _ _ _ Hk). pose proof (mf_core _ _ _ H) as H1. rewrite fin_node by (pose proof (mf_few _ _ _ H); lia).
  assert (dnodes s (length F) !! k = Some (mknode s (Z.of_nat k + 1))) as HJ by by apply dnodes_lookup.
  apply (rep_ext _ _ _ (Forall2_lookup_lr _ _ _ _ _ _ (mc_rep _ _ _ H1) HJ Hk)). intros b Hb. apply fin_other.
  pose proof (mc_range _ _ _ H1 b (owned_elem _ _ _ _ Hk Hb)). change nmeta with 59 in *. lia.
Qed.

Lemma fin_used b : 0 <= b < FSSIZE -> used mksb (sect s') b = bool_decide (b < freeblock s).
Proof.
  intros Hb. destruct (BBLOCK_bmap mksb 2 30 FSSIZE mk_geometry b Hb) as [E _]. unfold used. rewrite E.
  pose proof (mf_core _ _ _ H) as H1. pose proof (mc_free _ _ _ H1). unfold FSSIZE in *.
  change (sb_bmapstart mksb) with 58. rewrite Z.div_small, Z.mod_small by (unfold BPB, BSIZE; lia). change (58 + 0) with 58.
  unfold s'. rewrite sect_put_eq; [|apply H|unfold FSSIZE; lia]. unfold bitmap. rewrite bitmap_bit by lia. apply bool_decide_ext.
  lia.
Qed.

Lemma fin_consistent : consistent mksb (sect s').
Proof.
  pose proof (mf_core _ _ _ H) as H1. pose proof (mc_free _ _ _ H1) as Hf. pose proof (mc_count _ _ _ H1) as Hc.
  assert (all_blocks mksb (sect s') = owned F) as Hall by (apply all_blocks_owned; [apply H|apply fin_rep|apply fin_zero]). split.
  - intros n Hn. apply sect_ok; [apply fin_image|]. destruct (regions mksb 2 30 FSSIZE mk_geometry n Hn) as [? _]. done.
  - intros b Hb. change (data_start mksb) with 59 in Hb. change nmeta with 59 in *. rewrite fin_used by (unfold FSSIZE; lia). apply bool_decide_eq_true_2. lia.
  - rewrite Hall. apply H1.
  - intros b Hb. rewrite Hall in Hb. pose proof (mc_range _ _ _ H1 b Hb) as Hr. change nmeta with 59 in *. split.
    + unfold is_data. change (data_start mksb) with 59. change (sb_size mksb) with FSSIZE. lia.
    + rewrite fin_used by lia. apply bool_decide_eq_true_2. lia.
Qed.

Lemma finished : disk_holds C (img s').
Proof.
  pose proof (mf_core _ _ _ H) as H1. pose proof (total_owned C F _ s H1 (mf_data _ _ _ H) (mf_count _ _ _ H)) as Et.
  assert (length F = length C) as ElC by (rewrite <- (length_fmap snd C), <- (mf_data _ _ _ H); symmetry; apply length_fmap).
  split; try apply fin_image; change (block_of (img s')) with (sect s').
  - intros n Hn. rewrite fin_other by lia. by apply (mf_head _ _ _ H).
  - intros k c Hk. destruct (mk_files_lookup C F s k c H Hk) as (a & Ha & Hd). pose proof (lookup_lt_Some _ _ _ Ha).
    pose proof (fin_rep k a Ha) as R. rewrite fin_node in R |- * by (pose proof (mf_few _ _ _ H); lia).
    destruct (mf_type _ _ _ H k c Hk) as (T1 & T2 & _). cbv zeta. split_and!; [done..|]. by exists a.
  - rewrite <- ElC. apply fin_zero.
  - apply fin_consistent.
  - intros b Hb. rewrite fin_used by done. rewrite (mc_count _ _ _ H1), Et. done.
Qed.
End finished.

Lemma empty_run : wzeroes (Z.to_nat FSSIZE) 0 (Mkst [] 1 nmeta) = Ret ((), Mkst (replicate (Z.to_nat FSSIZE) zeroes) 1 nmeta).
Proof. exact (wzeroes_run (Z.to_nat FSSIZE) (Mkst [] 1 nmeta)). Qed.

Lemma super_run : wsect 1 (wr zeroes 0 (sb_bytes mksb)) (Mkst (replicate (Z.to_nat FSSIZE) zeroes) 1 nmeta) = Ret ((), empty_disk).
Proof. apply wsect_run; [|done]. split; cbn [img]; [apply length_replicate|apply Forall_replicate, block_ok_zeroes]. Qed.

Lemma mkfs_run args : Forall arg_ok args -> fits (mktree args) -> exists D, mkfs args = Some D /\ disk_holds (mktree args) D.
Proof.
  intros Ha Hf. destruct (builds_makedirs _ empty_ok) as (s1 & E1 & H1).
  destruct (builds_add_files args tree0 ltac:(cbn; lia) Ha Hf s1 H1) as (s2 & E2 & F & H2). fold (mktree args) in H2.
  pose proof (mf_core _ _ _ H2) as C2. pose proof (mc_free _ _ _ C2) as Hfr. unfold FSSIZE in Hfr.
  pose proof (finished _ F s2 H2) as HD. set (s3 := put_sect 58 (bitmap (freeblock s2)) s2) in HD.
  assert (balloc (freeblock s2) s2 = Ret ((), s3)) as E3.
  { unfold balloc. rewrite (proj2 (Z.ltb_lt _ _)) by (unfold BSIZE; lia). rewrite (run_bind (assert_ true) _ s2 () s2 eq_refl).
    change (sb_bmapstart mksb) with 58. apply (wsect_run s2 (mc_image _ _ _ C2)). unfold FSSIZE. lia. }
  assert (mkfs_main args mkfs_start = Ret ((), s3)) as E; [|exists (img s3); split; [unfold mkfs; by rewrite E|exact HD]].
  unfold mkfs_main. eapply eq_trans; [eapply run_bind; reflexivity|].
  eapply eq_trans; [eapply run_bind; exact empty_run|]. eapply eq_trans; [eapply run_bind; exact super_run|].
  eapply eq_trans; [eapply run_bind; exact E1|]. eapply eq_trans; [eapply run_bind; exact E2|].
  eapply eq_trans; [eapply run_bind; reflexivity|]. exact E3.
Qed.
