(* ===== verification/FsInv.v ===== *)
(** * The tables of the file system

    The counts in [icache] and [ftable] against the references that are
    held: by processes, through [ofile] and [cwd], and by the open files.
    A pipe has an end open for the one file that refers to it.  [iput],
    [idup], [filedup] and [fileclose] keep the counts right, and the disk
    consistent. *)

From stdpp Require Import base numbers list gmap strings.
From S2P Require Import Prelude Bytes Machine Locks Bio BioSpec Log BioAbs LogSpec LogCrash.
From S2P Require Import LogTx FsState Fs TxSpec FsDisk FsSpec.
Open Scope Z_scope.

(** ** Counting *)

Definition refs (i : nat) (l : list nat) : nat := length (filter (fun j => j = i) l).
Definition one (i : nat) (o : option nat) : nat := if decide (o = Some i) then 1 else 0.

Lemma refs_cons i j l : refs i (j :: l) = (one i (Some j) + refs i l)%nat.
Proof.
  unfold refs, one. rewrite filter_cons. destruct (decide (j = i)) as [->|Hne]; [by rewrite decide_True|rewrite decide_False; [done|congruence]].
Qed.
Lemma refs_app i l k : refs i (l ++ k) = (refs i l + refs i k)%nat.
Proof. unfold refs. by rewrite filter_app, length_app. Qed.
Lemma refs_elem i l : i ∈ l -> (0 < refs i l)%nat.
Proof.
  intros H. apply list_elem_of_split in H as (l1 & l2 & ->). rewrite refs_app, refs_cons. unfold one. rewrite decide_True by done. lia.
Qed.
#[export] Instance refs_proper i : Proper ((≡ₚ) ==> (=)) (refs i).
Proof. intros l k H. unfold refs. by rewrite H. Qed.

Lemma one_self i : one i (Some i) = 1%nat.
Proof. unfold one. by rewrite decide_True. Qed.
Lemma one_other i j : i <> j -> one i (Some j) = 0%nat.
Proof. intros H. unfold one. rewrite decide_False; [done|congruence]. Qed.
Lemma one_none i : one i None = 0%nat.
Proof. done. Qed.

Lemma refs_insert {A} (g : A -> option nat) i (l : list A) k a b : l !! k = Some a ->
  (refs i (omap g (<[k := b]> l)) + one i (g a) = refs i (omap g l) + one i (g b))%nat.
Proof.
  intros Hk. assert (forall c l', refs i (omap g (c :: l')) = (one i (g c) + refs i (omap g l'))%nat) as Hc.
  { intros c l'. cbn [omap list_omap]. destruct (g c); [apply refs_cons|by rewrite one_none]. }
  rewrite (insert_take_drop l k b) by (by eapply lookup_lt_Some).
  rewrite <- (take_drop_middle l k a Hk) at 3. rewrite !omap_app, !refs_app, !Hc. lia.
Qed.

(** The inode and the end of a pipe an open file refers to. *)
Definition file_inode (f : file) : option nat :=
  if 0 <? f_ref f then match f_type f with FD_INODE => f_ip f | _ => None end else None.
Definition file_end (f : file) : option (Z * bool) :=
  if 0 <? f_ref f then match f_type f with FD_PIPE => Some (f_pipe f, f_writable f) | _ => None end else None.
Definition holders (i : nat) (l : list file) : nat := refs i (omap file_inode l).

Definition open_end (P : gmap Z pipe) (e : Z * bool) : bool :=
  match P !! e.1 with Some q => if e.2 then p_writeopen q else p_readopen q | None => false end.

(** ** The invariant *)

Section inv.
Context (x : superblock).

Definition cached (V : Z -> list Z) (ip : inode) : Prop :=
  i_dev ip = 1 /\ 0 <= i_inum ip < sb_ninodes x /\ (i_valid ip = true -> load_inode x V (i_inum ip) ip = ip).

Record inodes_ok (V : Z -> list Z) (ir : list nat) (ft : list file) (l : list inode) : Prop := {
  io_inode : forall i ip, l !! i = Some ip -> sl_locked (i_lock ip) = false /\
    i_ref ip = Z.of_nat (refs i ir + holders i ft) /\ (0 < i_ref ip -> cached V ip);
  io_refs : forall i, i ∈ ir -> (i < length l)%nat;
  io_uniq : forall i j ip jp, l !! i = Some ip -> l !! j = Some jp -> 0 < i_ref ip -> 0 < i_ref jp ->
    i_inum ip = i_inum jp -> i = j }.

Record files_ok (fr : list nat) (n : nat) (ft : list file) : Prop := {
  fo_file : forall k f, ft !! k = Some f -> f_ref f = Z.of_nat (refs k fr) /\
    (0 < f_ref f -> f_type f = FD_INODE -> exists i, f_ip f = Some i /\ (i < n)%nat);
  fo_refs : forall k, k ∈ fr -> (k < length ft)%nat }.

Record ends_ok (P : gmap Z pipe) (ft : list file) : Prop := {
  eo_open : forall e, open_end P e = true <-> exists k f, ft !! k = Some f /\ file_end f = Some e;
  eo_uniq : forall j k f g e, ft !! j = Some f -> ft !! k = Some g -> file_end f = Some e -> file_end g = Some e -> j = k;
  eo_live : forall p q, P !! p = Some q -> p_readopen q || p_writeopen q = true }.

(** [V] is what the code reads of the disk, [fr] and [ir] are the
    references the processes hold. *)
Record fs_ok (V : Z -> list Z) (fr ir : list nat) (s : fs) : Prop := {
  fs_sb : sb s = x;
  fs_disk : consistent x V;
  fs_inodes : inodes_ok V ir (ftable s) (icache s);
  fs_files : files_ok fr (length (icache s)) (ftable s);
  fs_ends : ends_ok (pipes s) (ftable s) }.

(** ** References to inodes *)

(** Entry [i] of [icache] changes; the other inodes in use read the same
    on the disk. *)
Lemma inodes_put V V' ir ir' ft l i ip ip' : inodes_ok V ir ft l -> l !! i = Some ip ->
  sl_locked (i_lock ip') = false -> i_ref ip' = Z.of_nat (refs i ir' + holders i ft) ->
  (0 < i_ref ip' -> 0 < i_ref ip /\ i_inum ip' = i_inum ip /\ cached V' ip') ->
  (forall j, j <> i -> refs j ir' = refs j ir) -> (forall j, j ∈ ir' -> (j < length l)%nat) ->
  (forall j jp, j <> i -> l !! j = Some jp -> 0 < i_ref jp -> load_inode x V' (i_inum jp) jp = load_inode x V (i_inum jp) jp) ->
  inodes_ok V' ir' ft (<[i := ip']> l).
Proof.
  intros [O1 O2 O3] Hi Hl Hr Hc Ho Hin Hd. pose proof (lookup_lt_Some _ _ _ Hi) as Hlt. split.
  - intros j jp Hj. apply list_lookup_insert_Some in Hj as [(<- & <- & _)|[Hne Hj]].
    + split; [done|]. split; [done|]. intros H. by apply Hc.
    + destruct (O1 j jp Hj) as (A1 & A2 & A3). split; [done|]. split; [by rewrite Ho|]. intros H. destruct (A3 H) as (B1 & B2 & B3).
      split; [done|]. split; [done|]. intros Hv. rewrite (Hd j jp) by done. by apply B3.
  - intros j Hj. rewrite length_insert. by apply Hin.
  - intros j k jp kp Hj Hk Pj Pk E.
    apply list_lookup_insert_Some in Hj as [(<- & <- & _)|[Hnj Hj]]; apply list_lookup_insert_Some in Hk as [(<- & <- & _)|[Hnk Hk]]; [done| | |by eapply O3].
    + destruct (Hc Pj) as (P1 & E1 & _). apply (O3 i k ip kp); [done..|congruence].
    + destruct (Hc Pk) as (P1 & E1 & _). apply (O3 j i jp ip); [done..|congruence].
Qed.

Lemma cached_ref V ip r : cached V ip -> cached V (set_i_ref r ip).
Proof.
  intros (H1 & H2 & H3). split; [done|]. split; [done|]. intros Hv. cbn [i_inum set_i_ref].
  transitivity (set_i_ref r (load_inode x V (i_inum ip) ip)); [done|]. by rewrite H3.
Qed.
Lemma cached_lock V ip k : cached V ip -> cached V (set_i_lock k ip).
Proof.
  intros (H1 & H2 & H3). split; [done|]. split; [done|]. intros Hv. cbn [i_inum set_i_lock].
  transitivity (set_i_lock k (load_inode x V (i_inum ip) ip)); [done|]. by rewrite H3.
Qed.

Lemma inodes_ref V ir ft l i : inodes_ok V ir ft l -> i ∈ ir -> exists ip, l !! i = Some ip /\ 0 < i_ref ip /\ cached V ip /\ sl_locked (i_lock ip) = false.
Proof.
  intros [O1 O2 O3] Hi. destruct (lookup_lt_is_Some_2 l i (O2 i Hi)) as [ip Hp]. exists ip. destruct (O1 i ip Hp) as (A1 & A2 & A3).
  apply refs_elem in Hi. assert (0 < i_ref ip) by lia. auto.
Qed.

Lemma inodes_dup V ir ft l i ip : inodes_ok V ir ft l -> i ∈ ir -> l !! i = Some ip ->
  inodes_ok V (i :: ir) ft (<[i := set_i_ref (i_ref ip + 1) ip]> l).
Proof.
  intros O Hi Hp. destruct (io_inode _ _ _ _ O i ip Hp) as (A1 & A2 & A3). pose proof (refs_elem _ _ Hi).
  apply (inodes_put V V ir _ ft l i ip); [done..| | | | |done].
  - cbn [i_ref set_i_ref]. rewrite refs_cons, one_self. lia.
  - intros _. split; [lia|]. split; [done|]. apply cached_ref, A3. lia.
  - intros j Hj. by rewrite refs_cons, one_other.
  - intros j Hj. apply (io_refs _ _ _ _ O). apply elem_of_cons in Hj as [->|]; done.
Qed.
End inv.

(** ** [iput] *)

Section iput.
Context (x : superblock) (st sz : Z) (s0 : jst).
Context (G : geometry x st sz (Z.of_nat (length (memdisk (bio s0))))).
Context (K : gset Z) (HK : (size K <= Z.to_nat MAXOPBLOCKS)%nat) (Hbm : forall n, is_bmap x n -> n ∈ K).
Local Abbreviation at_point := (at_point x st sz s0 K).

Lemma inode_freeable V i : consistent x V -> 0 <= i < sb_ninodes x -> freeable x V (inode_blocks V (i_addrs (dnode x V i))).
Proof.
  intros [C1 C2 C3 C4] Hi. destruct (inums_split x st sz _ G i Hi) as (l1 & l2 & E & _). split.
  - rewrite (all_blocks_split x V i l1 l2 E) in C3. by apply NoDup_app in C3 as (C3 & _).
  - intros b Hb. destruct (C4 b) as [Hd Hu]; [apply elem_all_blocks; by exists i|]. split; [done|]. split; [done|].
    apply C1. left. apply (BBLOCK_bmap x st sz _ G). by apply (data_range x st sz s0 G K HK).
Qed.

(** An inode dropped from memory and from the disk. *)
Definition dropped (ip : inode) : inode := set_i_type 0 (set_i_size 0 (set_i_addrs (replicate 13 0) ip)).

Lemma dropped_fits ip : inode_fits ip -> inode_fits (dropped ip).
Proof. intros [A1 A2 A3 A4 A5 A6 A7]. split; cbn; try done; try lia. repeat constructor; lia. Qed.

Context (i : nat) (s : fs) (ip : inode).
Context (Hs : at_point ∅ s) (Hi : icache s !! i = Some ip) (Hl : sl_locked (i_lock ip) = false).

Let me : Z := mypid (bio (jrn s)).
Let ipl : inode := set_i_lock (Sleeplock true me) ip.
Let s1 : fs := set_icache (<[i := ipl]> (icache s)) s.

Lemma lock_inode_run : lock_inode i s = Ret ((), s1).
Proof.
  unfold lock_inode. rewrite (run_bind _ _ _ _ _ (geti_run i s ip Hi)), (run_bind mypid_of _ s me s eq_refl).
  unfold acquiresleep. rewrite Hl. by rewrite (seti_run i _ s ip Hi).
Qed.

Lemma icache_s1 : icache s1 !! i = Some ipl.
Proof. apply list_lookup_insert_eq. by eapply lookup_lt_Some. Qed.

(** [releasesleep] and [ip->ref--] *)
Lemma iput_tail t jp : only_inode i jp s t -> at_point ∅ t ->
  exists u, (_ ← seti i (fun p => set_i_lock (releasesleep (i_lock p)) p); seti i (fun p => set_i_ref (i_ref p - 1) p)) t = Ret ((), u) /\
    at_point ∅ u /\ only_inode i (set_i_ref (i_ref jp - 1) (set_i_lock (Sleeplock false 0) jp)) s u /\ jrn u = jrn t.
Proof.
  intros Ho Ht. pose proof (only_inode_lookup i ip jp s t Hi Ho) as Hj. eexists.
  rewrite (run_bind _ _ _ _ _ (seti_run i _ t jp Hj)). erewrite seti_run by (apply list_lookup_insert_eq; by eapply lookup_lt_Some).
  split; [done|]. split; [by do 2 apply at_icache|]. split; [|done].
  apply (only_inode_trans i jp _ s t _ Ho). unfold only_inode. cbn [icache set_icache jrn]. rewrite list_insert_insert_eq. by destruct t.
Qed.

Lemma iput_keep_run : i_valid ip && (i_nlink ip =? 0) && (i_ref ip =? 1) = false ->
  exists s', iput i s = Ret ((), s') /\ at_point ∅ s' /\
    only_inode i (set_i_ref (i_ref ip - 1) (set_i_lock (Sleeplock false 0) ip)) s s' /\ jrn s' = jrn s.
Proof.
  intros Hc. destruct (iput_tail s1 ipl) as (u & E & Hu & Ho & Hj); [by eapply seti_inode|by apply at_icache|].
  exists u. split; [|by split]. unfold iput. rewrite (run_bind _ _ _ _ _ lock_inode_run), (run_bind _ _ _ _ _ (geti_run i s1 ipl icache_s1)).
  cbn [ipl i_valid i_nlink set_i_lock]. rewrite (run_bind _ _ s1 () s1); [done|].
  destruct (i_valid ip && (i_nlink ip =? 0)); [|done]. cbn [andb] in Hc. rewrite (run_bind _ _ _ _ _ (geti_run i s1 ipl icache_s1)).
  cbn [ipl i_ref set_i_lock]. by rewrite Hc.
Qed.

Lemma iput_drop_run : consistent x (blocks s) -> cached x (blocks s) ip -> IBLOCK (i_inum ip) x ∈ K ->
  i_valid ip = true -> i_nlink ip = 0 -> i_ref ip = 1 ->
  exists s' V1, iput i s = Ret ((), s') /\ at_point ∅ s' /\
    only_inode i (set_i_ref 0 (set_i_lock (Sleeplock false 0) (set_i_valid false (dropped ip)))) s s' /\
    freed x (inode_blocks (blocks s) (i_addrs ip)) (blocks s) V1 /\
    (forall n, n <> IBLOCK (i_inum ip) x -> blocks s' n = V1 n) /\
    load_inode x (blocks s') (i_inum ip) (dropped ip) = dropped ip /\
    consistent x (blocks s') /\
    forall j jp, 0 <= j < sb_ninodes x -> j <> i_inum ip -> load_inode x (blocks s') j jp = load_inode x (blocks s) j jp.
Proof.
  intros Hcon (Hdev & Hin & Hval) HinK Hv Hn Hr. specialize (Hval Hv).
  assert (i_addrs ip = i_addrs (dnode x (blocks s) (i_inum ip))) as Ea by (by rewrite <- Hval at 1).
  pose proof (c_ok _ _ Hcon _ (or_intror (or_intror (proj2 (IBLOCK_inode x st sz _ G _ Hin))))) as Hok.
  assert (inode_fits ip) as Hfit by (rewrite <- Hval; apply from_dinode_fits, Hok).
  destruct (itrunc_run x st sz s0 G K HK Hbm s1 i ipl) as (t & V1 & E1 & Ht & Ho1 & Hfr & Hb1);
    [by apply at_icache|apply icache_s1|done..|apply Hfit|done| |].
  { change (blocks s1) with (blocks s). cbn [ipl i_addrs set_i_lock]. rewrite Ea. by apply inode_freeable. }
  change (blocks s1) with (blocks s) in Hfr. cbn [ipl i_addrs set_i_lock i_inum] in Hfr, Hb1.
  set (ipt := set_i_size 0 (set_i_addrs (replicate 13 0) ipl)) in *. set (V2 := put_inode x V1 (i_inum ip) ipt) in *.
  assert (inode_fits ipt) as Hft. { destruct Hfit. split; try done. repeat constructor; lia. }
  pose proof Hfr as Hfr'. rewrite Ea in Hfr'.
  destruct (trunc_consistent x st sz _ G (blocks s) V1 (i_inum ip) ipt Hcon Hin Hfr' Hft eq_refl) as [Hc2 Hl2]. fold V2 in Hc2, Hl2.
  assert (consistent x (blocks t)) as Hct by (by apply (consistent_ext x st sz _ G V2)).
  pose proof (only_inode_trans i _ _ s s1 t (seti_inode i ip ipl s Hi) Ho1) as Hot.
  pose proof (only_inode_lookup i ip ipt s t Hi Hot) as Hit.
  set (ipd := set_i_type 0 ipt). set (t1 := set_icache (<[i := ipd]> (icache t)) t).
  assert (icache t1 !! i = Some ipd) as Hi1 by (apply list_lookup_insert_eq; by eapply lookup_lt_Some).
  assert (length (blocks t (IBLOCK (i_inum ip) x)) = Z.to_nat BSIZE) as Hlen.
  { apply (c_ok _ _ Hct). right; right. by apply (IBLOCK_inode x st sz _ G). }
  destruct (iupdate_run x st sz s0 G K HK Hbm ∅ t1 i ipd ltac:(by apply at_icache) Hi1 Hdev Hin HinK Hlen) as (u & E2 & Hu & Ho2 & Hb2).
  change (blocks t1) with (blocks t) in Hb2. cbn [ipd ipt ipl i_inum set_i_type set_i_size set_i_addrs set_i_lock] in Hb2.
  set (ipf := set_i_valid false ipd). set (u1 := set_icache (<[i := ipf]> (icache u)) u).
  assert (only_inode i ipd s u) as Hou.
  { apply (only_inode_trans i ipd ipd s t1); [|by apply only_jrn_inode].
    apply (only_inode_trans i ipt ipd s t); [done|by eapply seti_inode]. }
  pose proof (only_inode_lookup i ip ipd s u Hi Hou) as Hiu.
  destruct (iput_tail u1 ipf) as (v & E3 & Hv' & Ho3 & Hj); [|by apply at_icache|].
  { apply (only_inode_trans i ipd ipf s u); [done|by eapply seti_inode]. }
  assert (forall n, blocks v n = put_inode x (blocks t) (i_inum ip) ipd n) as Hbv.
  { intros n. unfold blocks at 1. rewrite Hj. exact (Hb2 n). }
  assert (inode_fits ipd) as Hfd. { destruct Hft. by split. }
  exists v, V1. split; [|split; [done|split; [|split; [done|split; [|split; [|split]]]]]].
  - unfold iput. rewrite (run_bind _ _ _ _ _ lock_inode_run), (run_bind _ _ _ _ _ (geti_run i s1 ipl icache_s1)).
    cbn [ipl i_valid i_nlink set_i_lock]. rewrite Hv, Hn. cbn [andb Z.eqb]. rewrite (run_bind _ _ s1 () u1); [done|].
    rewrite (run_bind _ _ _ _ _ (geti_run i s1 ipl icache_s1)). cbn [ipl i_ref set_i_lock]. rewrite Hr. cbn [Z.eqb Pos.eqb].
    rewrite (run_bind _ _ _ _ _ E1), (run_bind _ _ _ _ _ (seti_run i _ t ipt Hit)).
    change (set_icache (<[i := set_i_type 0 ipt]> (icache t)) t) with t1. by rewrite (run_bind _ _ _ _ _ E2), (seti_run i _ u ipd Hiu).
  - unfold ipf, ipd, ipt, ipl, dropped in *. cbn in Ho3 |- *. rewrite Hr in Ho3. exact Ho3.
  - intros n Hne. rewrite Hbv, put_inode_other, Hb1 by done. unfold V2. by rewrite put_inode_other.
  - transitivity (set_i_lock (i_lock ip) (load_inode x (put_inode x (blocks t) (i_inum ip) ipd) (i_inum ip) ipd)).
    + unfold load_inode. rewrite Hbv. by destruct ip.
    + rewrite put_inode_eq by done. unfold ipd, ipt, ipl, dropped. by destruct ip.
  - apply (consistent_ext x st sz _ G (put_inode x (blocks t) (i_inum ip) ipd)); [intros n _; apply Hbv|].
    apply (put_consistent x st sz _ G); [done..|]. transitivity (i_addrs (load_inode x V2 (i_inum ip) ipt)).
    + unfold V2. rewrite put_inode_eq; [done..|]. apply (fr_ok _ _ _ _ Hfr). exact Hok.
    + unfold dnode, load_inode. by rewrite Hb1.
  - intros j jp Hj' Hne. rewrite <- (Hl2 j jp Hj' Hne). transitivity (load_inode x (put_inode x (blocks t) (i_inum ip) ipd) j jp).
    + unfold load_inode. by rewrite Hbv.
    + rewrite (put_inode_ne x st sz _ G) by done. unfold load_inode. by rewrite Hb1.
Qed.

(** [iput] drops one of the references. *)
Lemma iput_ok ir ft : consistent x (blocks s) -> inodes_ok x (blocks s) (i :: ir) ft (icache s) -> IBLOCK (i_inum ip) x ∈ K ->
  exists s' ip', iput i s = Ret ((), s') /\ at_point ∅ s' /\ only_inode i ip' s s' /\
    consistent x (blocks s') /\ inodes_ok x (blocks s') ir ft (icache s').
Proof.
  intros Hcon O HinK. destruct (io_inode _ _ _ _ _ O i ip Hi) as (_ & Hr & Hca). rewrite refs_cons, one_self in Hr.
  assert (cached x (blocks s) ip) as Hca' by (apply Hca; lia). clear Hca.
  assert (forall j, j <> i -> refs j ir = refs j (i :: ir)) as Hother by (intros j Hj; by rewrite refs_cons, one_other).
  assert (forall j, j ∈ ir -> (j < length (icache s))%nat) as Hin by (intros j Hj; apply (io_refs _ _ _ _ _ O); set_solver).
  assert (forall s' ip', only_inode i ip' s s' -> icache s' = <[i := ip']> (icache s)) as Hic by (intros s' ip' ->; done).
  destruct (i_valid ip && (i_nlink ip =? 0) && (i_ref ip =? 1)) eqn:Hc.
  - apply andb_true_iff in Hc as [[Hv Hn%Z.eqb_eq]%andb_true_iff Hr1%Z.eqb_eq].
    destruct (iput_drop_run Hcon Hca' HinK Hv Hn Hr1) as (s' & V1 & E & Hs' & Ho & _ & _ & _ & Hcon' & Hload).
    eexists s', _. split; [done|]. split; [done|]. split; [exact Ho|]. split; [done|]. rewrite (Hic _ _ Ho).
    apply (inodes_put x (blocks s) _ (i :: ir) _ _ _ i ip); try done; [cbn; lia|].
    intros j jp Hne Hj Hp. destruct (io_inode _ _ _ _ _ O j jp Hj) as (_ & _ & Hcj). destruct (Hcj Hp) as (_ & Hjin & _).
    apply Hload; [done|]. intros Eq. apply Hne. apply (io_uniq _ _ _ _ _ O j i jp ip); [done..|lia|done].
  - destruct (iput_keep_run Hc) as (s' & E & Hs' & Ho & Hj).
    eexists s', _. split; [done|]. split; [done|]. split; [exact Ho|]. unfold blocks in *. rewrite Hj. split; [done|].
    rewrite (Hic _ _ Ho). apply (inodes_put x (view (bio (jrn s))) _ (i :: ir) _ _ _ i ip); try done; [cbn; lia|].
    intros _. split; [lia|]. split; [done|]. by apply cached_ref, cached_lock.
Qed.
End iput.

(** ** References to files *)

Lemma files_ref x V fr ir s k : fs_ok x V fr ir s -> k ∈ fr -> exists f, ftable s !! k = Some f /\ 1 <= f_ref f.
Proof.
  intros [_ _ _ [F1 F2] _] Hk. destruct (lookup_lt_is_Some_2 _ _ (F2 k Hk)) as [f Hf]. exists f. split; [done|].
  destruct (F1 k f Hf) as [-> _]. apply refs_elem in Hk. lia.
Qed.

(** Only [ref] of an open file changes. *)
Lemma ends_same P ft k f g : ends_ok P ft -> ft !! k = Some f -> file_end g = file_end f -> ends_ok P (<[k := g]> ft).
Proof.
  intros [E1 E2 E3] Hk He.
  assert (forall j h, <[k := g]> ft !! j = Some h -> exists h', ft !! j = Some h' /\ file_end h = file_end h') as Hback.
  { intros j h Hj. apply list_lookup_insert_Some in Hj as [(<- & <- & _)|[_ Hj]]; eauto. }
  split; [|intros i j a b e Hi Hj Ha Hb|done].
  - intros e. rewrite E1. split.
    + intros (j & h & Hj & Hh). destruct (decide (j = k)) as [->|Hne].
      * exists k, g. split; [apply list_lookup_insert_eq; by eapply lookup_lt_Some|]. rewrite He. congruence.
      * exists j, h. split; [by rewrite list_lookup_insert_ne|done].
    + intros (j & h & Hj & Hh). destruct (Hback j h Hj) as (h' & Hj' & Eq). exists j, h'. split; [done|congruence].
  - destruct (Hback i a Hi) as (a' & Hi' & Ea). destruct (Hback j b Hj) as (b' & Hj' & Eb). apply (E2 i j a' b' e); [done..|congruence|congruence].
Qed.

Lemma inodes_same x V ir ft l k f g : inodes_ok x V ir ft l -> ft !! k = Some f -> file_inode g = file_inode f ->
  inodes_ok x V ir (<[k := g]> ft) l.
Proof.
  intros [O1 O2 O3] Hk Hg. split; [|done..]. intros i ip Hi. destruct (O1 i ip Hi) as (A1 & A2 & A3). split; [done|]. split; [|done].
  rewrite A2. pose proof (refs_insert file_inode i ft k f g Hk). rewrite Hg in *. unfold holders. lia.
Qed.

Lemma file_ref_same f r : 0 < f_ref f -> 0 < r -> file_inode (set_f_ref r f) = file_inode f /\ file_end (set_f_ref r f) = file_end f.
Proof.
  intros H1 H2. unfold file_inode, file_end. cbn [f_ref f_type f_ip f_pipe f_writable set_f_ref].
  rewrite (proj2 (Z.ltb_lt 0 r) H2), (proj2 (Z.ltb_lt 0 _) H1). done.
Qed.

Lemma files_put fr fr' n ft k f g : files_ok fr n ft -> ft !! k = Some f -> f_ref g = Z.of_nat (refs k fr') ->
  (0 < f_ref g -> f_type g = FD_INODE -> 0 < f_ref f /\ f_type f = FD_INODE /\ f_ip g = f_ip f) ->
  (forall j, j <> k -> refs j fr' = refs j fr) -> (forall j, j ∈ fr' -> (j < length ft)%nat) -> files_ok fr' n (<[k := g]> ft).
Proof.
  intros [F1 F2] Hk Hg Ht Ho Hin. split; [|intros j Hj; rewrite length_insert; by apply Hin].
  intros j h Hj. apply list_lookup_insert_Some in Hj as [(<- & <- & _)|[Hne Hj]].
  - split; [done|]. intros P1 P2. destruct (Ht P1 P2) as (Q1 & Q2 & ->). by apply (F1 k f Hk).
  - destruct (F1 j h Hj) as [A1 A2]. by rewrite Ho.
Qed.
