(* ===== verification/Pipe.v ===== *)
(** * [kernel/pipe.c]: pipes

    A reader or writer that has to wait goes to sleep in the middle of its
    call: the functions return [Asleep] with the number of bytes done, and
    the call is resumed from there.  [p->lock] makes each stretch between
    two sleeps atomic.  [pipealloc] is in [File.v], with [filealloc]. *)

From stdpp Require Import base numbers list gmap strings.
From S2P Require Import Prelude Bytes Machine CString Kalloc Locks Bio Log FsState.
Open Scope Z_scope.

Definition PIPESIZE : Z := 512.

(** The addresses of [p->nread] and [p->nwrite], after the spin lock of 52
    bytes and the data. *)
Definition nread_of (p : Z) : Z := p + 52 + PIPESIZE.
Definition nwrite_of (p : Z) : Z := p + 52 + PIPESIZE + 4.

(** A finished call with its result, or a caller asleep in pipe [p] with
    [i] bytes done. *)
Inductive progress := Done (r : Z) | Asleep (p i : Z).

Section pipe.
Context {LK : Linker}.

Definition pipeclose (p : Z) (writable : bool) : M fs () :=
  _ ← (if writable then
         _ ← setpipe p (set_p_writeopen false); wakeup (nread_of p)
       else
         _ ← setpipe p (set_p_readopen false); wakeup (nwrite_of p));
  x ← getpipe p;
  if negb (p_readopen x) && negb (p_writeopen x) then
    _ ← modify (fun s => set_pipes (delete p (pipes s)) s);
    onmach (kfree p)
  else mret ().

(** [p->data[p->nwrite++ % PIPESIZE] = c] *)
Definition pipe_put (c : Z) (x : pipe) : pipe :=
  set_p_nwrite (u32 (p_nwrite x + 1))
    (set_p_data (<[Z.to_nat (p_nwrite x mod PIPESIZE) := c]> (p_data x)) x).

(** [for(; i < n; i++)], entered again after each sleep; [k] bounds the
    bytes left. *)
Fixpoint pipewrite_loop (k : nat) (p addr n i : Z) : M fs progress :=
  if i <? n then
    match k with
    | O => nofuel
    | S k =>
        x ← getpipe p;
        if p_nwrite x =? u32 (p_nread x + PIPESIZE) then
          killed ← gets mykilled;
          if negb (p_readopen x) || killed then mret (Done (-1))
          else _ ← wakeup (nread_of p); mret (Asleep p i)
        else
          c ← onmach (load8 (addr + i));
          _ ← setpipe p (pipe_put c);
          pipewrite_loop k p addr n (i + 1)
    end
  else _ ← wakeup (nread_of p); mret (Done n).

Definition pipewrite_from (p addr n i : Z) : M fs progress := pipewrite_loop (Z.to_nat (n - i)) p addr n i.
Definition pipewrite (p addr n : Z) : M fs progress := pipewrite_from p addr n 0.

(** [for(i = 0; i < n; i++)] of [piperead]: the number of bytes copied. *)
Fixpoint piperead_loop (k : nat) (p addr i : Z) : M fs Z :=
  match k with
  | O => mret i
  | S k =>
      x ← getpipe p;
      if p_nread x =? p_nwrite x then mret i
      else
        _ ← onmach (store8 (addr + i) (nth (Z.to_nat (p_nread x mod PIPESIZE)) (p_data x) 0));
        _ ← setpipe p (fun x => set_p_nread (u32 (p_nread x + 1)) x);
        piperead_loop k p addr (i + 1)
  end.

Definition piperead (p addr n : Z) : M fs progress :=
  x ← getpipe p;
  if (p_nread x =? p_nwrite x) && p_writeopen x then
    killed ← gets mykilled;
    if killed : bool then mret (Done (-1)) else mret (Asleep p 0)
  else
    i ← piperead_loop (Z.to_nat n) p addr 0;
    _ ← wakeup (nwrite_of p);
    mret (Done i).
End pipe.
