(* ===== verification/PipeSpec.v ===== *)
(** * Pipes as bounded queues

    The ring buffer of a pipe holds a queue of at most [PIPESIZE] bytes;
    [pipewrite] and [piperead] append to it and take from it. *)

From stdpp Require Import base numbers list gmap strings.
From S2P Require Import Prelude Bytes Machine CString Kalloc Locks Bio Log FsState Fs Pipe.
Open Scope Z_scope.

Definition used (x : pipe) : Z := u32 (p_nwrite x - p_nread x).
Definition at_ring (x : pipe) (j : nat) : Z := nth (Z.to_nat ((p_nread x + Z.of_nat j) mod PIPESIZE)) (p_data x) 0.
Definition queue (x : pipe) : list Z := at_ring x <$> seq 0 (Z.to_nat (used x)).

Record pipe_ok (x : pipe) : Prop := {
  pk_data : length (p_data x) = Z.to_nat PIPESIZE;
  pk_nread : 0 <= p_nread x < 2 ^ 32;
  pk_nwrite : 0 <= p_nwrite x < 2 ^ 32;
  pk_used : used x <= PIPESIZE }.

Lemma queue_length x : length (queue x) = Z.to_nat (used x).
Proof. unfold queue. by rewrite length_fmap, length_seq. Qed.

(** The two tests of the code. *)
Lemma full_test x : pipe_ok x -> (p_nwrite x =? u32 (p_nread x + PIPESIZE)) = bool_decide (length (queue x) = Z.to_nat PIPESIZE).
Proof.
  intros [H1 H2 H3 H4]. rewrite queue_length. unfold used, PIPESIZE in *.
  destruct (Z.eqb_spec (p_nwrite x) (u32 (p_nread x + 512))); symmetry;
    [apply bool_decide_eq_true_2|apply bool_decide_eq_false_2]; lia.
Qed.

Lemma empty_test x : pipe_ok x -> (p_nread x =? p_nwrite x) = bool_decide (queue x = []).
Proof.
  intros [H1 H2 H3 H4]. destruct (Z.eqb_spec (p_nread x) (p_nwrite x)) as [E|E]; symmetry;
    [apply bool_decide_eq_true_2|apply bool_decide_eq_false_2].
  - apply nil_length_inv. rewrite queue_length. unfold used. lia.
  - intros Hq. apply (f_equal length) in Hq. rewrite queue_length in Hq. unfold used in Hq. cbn in Hq. lia.
Qed.

Lemma queue_put c x : pipe_ok x -> (length (queue x) < Z.to_nat PIPESIZE)%nat ->
  pipe_ok (pipe_put c x) /\ queue (pipe_put c x) = queue x ++ [c].
Proof.
  intros [H1 H2 H3 H4] Hlen. rewrite queue_length in Hlen. unfold used, PIPESIZE in *.
  assert (used (pipe_put c x) = used x + 1) as Hu by (unfold used; cbn; lia). unfold used in Hu.
  split; [split; cbn; rewrite ?length_insert; unfold used, PIPESIZE in *; cbn in *; lia|].
  unfold queue, used. rewrite Hu, Z2Nat.inj_add, seq_app, fmap_app by lia. cbn [Nat.add fmap list_fmap seq Z.to_nat].
  f_equal.
  - apply list_fmap_ext. intros j k Hk. apply lookup_seq in Hk as [-> Hj]. unfold at_ring. cbn.
    rewrite !nth_lookup, list_lookup_insert_ne; [done|]. unfold PIPESIZE. lia.
  - change (Z.to_nat 1) with 1%nat. cbn [seq fmap list_fmap]. f_equal. unfold at_ring. cbn. apply nth_lookup_Some.
    unfold PIPESIZE. replace ((p_nread x + Z.of_nat (Z.to_nat (u32 (p_nwrite x - p_nread x)))) mod 512) with (p_nwrite x mod 512) by lia.
    apply list_lookup_insert_eq. lia.
Qed.

Lemma queue_get x c q : pipe_ok x -> queue x = c :: q ->
  nth (Z.to_nat (p_nread x mod PIPESIZE)) (p_data x) 0 = c /\
  pipe_ok (set_p_nread (u32 (p_nread x + 1)) x) /\ queue (set_p_nread (u32 (p_nread x + 1)) x) = q.
Proof.
  intros [H1 H2 H3 H4] Hq. assert (0 < used x) as Hpos.
  { apply (f_equal length) in Hq. rewrite queue_length in Hq. cbn in Hq. lia. }
  unfold queue in Hq. replace (Z.to_nat (used x)) with (S (Z.to_nat (used x - 1))) in Hq by lia.
  cbn [seq fmap list_fmap] in Hq. injection Hq as Hc Hq. unfold used, PIPESIZE in *.
  assert (used (set_p_nread (u32 (p_nread x + 1)) x) = used x - 1) as Hu by (unfold used; cbn; lia). unfold used in Hu.
  split; [|split].
  - rewrite <- Hc. unfold at_ring. by rewrite Z.add_0_r.
  - split; cbn; unfold used, PIPESIZE in *; cbn in *; lia.
  - rewrite <- Hq. unfold queue, used. rewrite Hu. rewrite <- fmap_S_seq, <- list_fmap_compose.
    apply list_fmap_ext. intros j k Hk. unfold at_ring. cbn. do 2 f_equal. unfold PIPESIZE. lia.
Qed.

(** ** The state around one pipe *)

(** Pipe [p] of [s'] is [x]; only memory, that pipe and the wakeups of [s]
    may have changed. *)
Definition only_pipe (p : Z) (s s' : fs) : Prop :=
  exists m q w, s' = set_woken w (set_pipes q (set_fm m s)) /\ forall a, a <> p -> q !! a = pipes s !! a.

#[export] Instance only_pipe_preorder p : PreOrder (only_pipe p).
Proof.
  split.
  - intros s. exists (fm s), (pipes s), (woken s). split; [by destruct s|done].
  - intros s1 s2 s3 (m & q & w & -> & H) (m' & q' & w' & -> & H'). exists m', q', w'. split; [done|].
    intros a Ha. rewrite H' by done. cbn. by apply H.
Qed.

Section spec.
Context {LK : Linker} (p : Z).

Definition pipe_is (s : fs) (x : pipe) : Prop := pipes s !! p = Some x /\ pipe_ok x.

Lemma getpipe_run s x : pipes s !! p = Some x -> getpipe p s = Ret (x, s).
Proof. intros H. unfold getpipe. by rewrite H. Qed.

Lemma setpipe_run s x f : pipes s !! p = Some x -> setpipe p f s = Ret ((), set_pipes (<[p := f x]> (pipes s)) s).
Proof. intros H. unfold setpipe. by rewrite H. Qed.

(** The [n] bytes at [addr] are [l]. *)
Definition readable (m : machine) (addr : Z) (l : list Z) : Prop :=
  forall j c, l !! j = Some c -> load8 (addr + Z.of_nat j) m = Ret (c, m).

(** What a stretch of [pipewrite] does: it appends as many bytes as fit. *)
Definition fits (x : pipe) (l : list Z) (i : nat) : nat :=
  Nat.min (length l - i) (Z.to_nat PIPESIZE - length (queue x)).

Definition write_outcome (s s' : fs) (x : pipe) (l : list Z) (i : nat) (r : progress) : Prop :=
  let k := fits x l i in
  if bool_decide (i + k = length l)%nat then r = Done (Z.of_nat (length l)) /\ woken s' = woken s ++ [nread_of p]
  else if negb (p_readopen x) || mykilled s then r = Done (-1) /\ woken s' = woken s
  else r = Asleep p (Z.of_nat (i + k)) /\ woken s' = woken s ++ [nread_of p].

Lemma pipewrite_loop_wp addr l : forall k s x i, pipe_is s x -> readable (fm s) addr l ->
  (i + k = length l)%nat ->
  wp (pipewrite_loop k p addr (Z.of_nat (length l)) (Z.of_nat i)) s (fun r s' =>
    exists x', pipe_is s' x' /\ queue x' = queue x ++ take (fits x l i) (drop i l) /\
      p_readopen x' = p_readopen x /\ p_writeopen x' = p_writeopen x /\
      write_outcome s s' x l i r /\ fm s' = fm s /\ only_pipe p s s').
Proof.
  induction k as [|k IH]; intros s x i [Hx Hok] Hl Hi.
  - cbn [pipewrite_loop]. rewrite (proj2 (Z.ltb_ge _ _)) by lia. unfold wakeup. wp_steps.
    assert (fits x l i = 0%nat) as Hf by (unfold fits; lia).
    exists x. split; [done|]. split; [by rewrite Hf, app_nil_r|]. split; [done|]. split; [done|].
    unfold write_outcome. rewrite Hf, bool_decide_eq_true_2 by lia. split; [done|]. split; [done|].
    exists (fm s), (pipes s), (woken s ++ [nread_of p]). split; [by destruct s|done].
  - cbn [pipewrite_loop]. rewrite (proj2 (Z.ltb_lt _ _)) by lia. wp_step. rewrite (wp_run _ _ _ _ _ (getpipe_run s x Hx)).
    rewrite full_test by done.
    assert (length (queue x) <= Z.to_nat PIPESIZE)%nat as Hle by (rewrite queue_length; pose proof (pk_used _ Hok); lia).
    destruct (decide (length (queue x) = Z.to_nat PIPESIZE)) as [Hfull|Hfull].
    + rewrite bool_decide_eq_true_2 by done. wp_steps.
      assert (fits x l i = 0%nat) as Hf by (unfold fits; lia).
      destruct (negb (p_readopen x) || mykilled s) eqn:Ek; unfold wakeup; wp_steps.
      * exists x. split; [done|]. split; [by rewrite Hf, app_nil_r|]. split; [done|]. split; [done|].
        unfold write_outcome. rewrite Hf, bool_decide_eq_false_2, Ek by lia. split; [done|]. done.
      * exists x. split; [done|]. split; [by rewrite Hf, app_nil_r|]. split; [done|]. split; [done|].
        unfold write_outcome. rewrite Hf, bool_decide_eq_false_2, Ek, Nat.add_0_r by lia. split; [done|]. split; [done|].
        exists (fm s), (pipes s), (woken s ++ [nread_of p]). split; [by destruct s|done].
    + rewrite bool_decide_eq_false_2 by done.
      destruct (lookup_lt_is_Some_2 l i) as [c Hc]; [lia|].
      destruct (queue_put c x Hok) as [Hok' Hq']; [lia|].
      wp_step. unfold onmach at 1. rewrite wp_zoom, (wp_run _ _ _ _ _ (Hl i c Hc)).
      replace (set_fm (fm s) s) with s by (by destruct s).
      wp_step. rewrite (wp_run _ _ _ _ _ (setpipe_run s x _ Hx)).
      replace (Z.of_nat i + 1) with (Z.of_nat (S i)) by lia.
      eapply wp_mono.
      { apply (IH _ (pipe_put c x) (S i)); [|done|lia]. split; [apply lookup_insert_eq|done]. }
      intros r s' (x' & Hx' & Hqx & Hr & Hw & Hout & Hm & Hop).
      assert (fits x l i = S (fits (pipe_put c x) l (S i))) as Hfit.
      { unfold fits. rewrite Hq', length_app. cbn. lia. }
      exists x'. split; [done|]. split.
      { rewrite Hqx, Hq', Hfit, (drop_S l c i Hc). cbn [take]. by rewrite <- app_assoc. }
      split; [done|]. split; [done|]. split; [|split; [done|]].
      * unfold write_outcome in *. rewrite Hfit. replace (i + S (fits (pipe_put c x) l (S i)))%nat with (S i + fits (pipe_put c x) l (S i))%nat by lia. exact Hout.
      * etrans; [|exact Hop]. exists (fm s), (<[p := pipe_put c x]> (pipes s)), (woken s). split; [by destruct s|].
        intros a Ha. by rewrite lookup_insert_ne.
Qed.

(** What [piperead] does on a pipe it does not have to wait for. *)
Lemma piperead_loop_wp addr : forall k s x i m', pipe_is s x ->
  store_bytes (addr + i) (take k (queue x)) (fm s) = Ret ((), m') ->
  wp (piperead_loop k p addr i) s (fun r s' =>
    r = i + Z.of_nat (length (take k (queue x))) /\
    exists x', pipe_is s' x' /\ queue x' = drop k (queue x) /\ p_readopen x' = p_readopen x /\
      p_writeopen x' = p_writeopen x /\ fm s' = m' /\ woken s' = woken s /\ only_pipe p s s').
Proof.
  induction k as [|k IH]; intros s x i m' [Hx Hok] Hst.
  - cbn [piperead_loop take length store_bytes] in *. injection Hst as <-. wp_steps. rewrite ?Hq. split; [symmetry; apply Z.add_0_r|].
    exists x. by rewrite drop_0.
  - cbn [piperead_loop]. wp_step. rewrite (wp_run _ _ _ _ _ (getpipe_run s x Hx)), empty_test by done.
    destruct (queue x) as [|c q] eqn:Hq.
    + rewrite bool_decide_eq_true_2 by done. cbn [take length store_bytes] in *. injection Hst as <-. wp_steps. rewrite ?Hq. split; [symmetry; apply Z.add_0_r|].
      exists x. done.
    + rewrite bool_decide_eq_false_2 by done. destruct (queue_get x c q Hok Hq) as (Hn & Hok' & Hq').
      cbn [take store_bytes] in Hst. unfold mbind, M_bind in Hst.
      destruct (store8 (addr + i) c (fm s)) as [[[] m1]| | | |] eqn:E1; try done.
      wp_step. unfold onmach at 1. rewrite wp_zoom, Hn, (wp_run _ _ _ _ _ E1).
      wp_step. rewrite (wp_run _ _ _ _ _ (setpipe_run (set_fm m1 s) x _ Hx)).
      rewrite <- Z.add_assoc in Hst. eapply wp_mono.
      { apply (IH _ (set_p_nread (u32 (p_nread x + 1)) x) (i + 1) m'); [split; [apply lookup_insert_eq|done]|].
        rewrite Hq'. exact Hst. }
      intros r s' (Hr & x' & Hx' & Hqx & Hro & Hwo & Hm & Hw & Hop). rewrite Hq' in Hr. split; [cbn [take length]; lia|].
      exists x'. rewrite Hq' in Hqx. repeat (split; [done|]). etrans; [|exact Hop].
      exists m1, (<[p := set_p_nread (u32 (p_nread x + 1)) x]> (pipes s)), (woken s). split; [by destruct s|].
      intros a Ha. by rewrite lookup_insert_ne.
Qed.
End spec.
