(* ===== verification/File.v ===== *)
(** * [kernel/file.c] and [pipealloc]: the file table

    A [struct file *] is an index into [ftable.file], NULL is [None].
    [ftable.lock] makes its critical sections atomic.  Reads and writes
    return [Asleep] where a pipe puts the caller to sleep. *)

From stdpp Require Import base numbers list gmap strings.
From S2P Require Import Prelude Bytes Machine CString Kalloc Locks Bio Log FsState Fs Pipe.
Open Scope Z_scope.

Section file.
Context {LK : Linker} {DS : Devsw}.

(** [fileinit] only initialises the table's lock. *)
Definition filealloc : M fs (option nat) :=
  l ← gets ftable;
  match list_find (fun f => f_ref f = 0) l with
  | Some (i, _) => _ ← setf i (set_f_ref 1); mret (Some i)
  | None => mret None
  end.

Definition filedup (i : nat) : M fs nat :=
  f ← getf i;
  if f_ref f <? 1 then panic "filedup"
  else _ ← setf i (fun f => set_f_ref (f_ref f + 1) f); mret i.

Definition fileclose (i : nat) : M fs () :=
  f ← getf i;
  if f_ref f <? 1 then panic "fileclose"
  else
    _ ← setf i (fun f => set_f_ref (f_ref f - 1) f);
    f ← getf i;
    if 0 <? f_ref f then mret ()
    else
      ff ← getf i;
      _ ← setf i (set_f_ref 0); _ ← setf i (set_f_type FD_NONE);
      match f_type ff with
      | FD_PIPE => pipeclose (f_pipe ff) (f_writable ff)
      | FD_INODE =>
          _ ← onj begin_op;
          _ ← (match f_ip ff with Some ip => iput ip | None => fault 0 end);
          onj end_op
      | FD_NONE => mret ()
      end.

(** The fields of a file on end [w] of pipe [p]. *)
Definition pipe_end (p : Z) (w : bool) (f : file) : file :=
  set_f_pipe p (set_f_writable w (set_f_readable (negb w) (set_f_type FD_PIPE f))).

Definition pipealloc_bad (p : Z) (f0 f1 : option nat) : M fs (option (nat * nat)) :=
  _ ← (if negb (p =? 0) then onmach (kfree p) else mret ());
  _ ← (match f0 with Some f => fileclose f | None => mret () end);
  _ ← (match f1 with Some f => fileclose f | None => mret () end);
  mret None.

(** [*f0] and [*f1], or [None] for -1. *)
Definition pipealloc : M fs (option (nat * nat)) :=
  o0 ← filealloc;
  match o0 with
  | None => pipealloc_bad 0 None None
  | Some f0 =>
      o1 ← filealloc;
      match o1 with
      | None => pipealloc_bad 0 (Some f0) None
      | Some f1 =>
          p ← onmach kalloc;
          if p =? 0 then pipealloc_bad 0 (Some f0) (Some f1)
          else
            _ ← modify (fun s => set_pipes (<[p := Pipe (replicate (Z.to_nat PIPESIZE) 0) 0 0 true true]> (pipes s)) s);
            _ ← setf f0 (pipe_end p false);
            _ ← setf f1 (pipe_end p true);
            mret (Some (f0, f1))
      end
  end.

(** [*st], or [None] for -1. *)
Definition filestat (i : nat) : M fs (option stat) :=
  f ← getf i;
  match f_type f, f_ip f with
  | FD_INODE, Some ip =>
      _ ← ilock (Some ip); st ← stati ip; _ ← iunlock (Some ip); mret (Some st)
  | FD_INODE, None => panic "ilock"
  | _, _ => mret None
  end.

Definition fileread (i : nat) (addr n : Z) : M fs progress :=
  f ← getf i;
  if negb (f_readable f) then mret (Done (-1))
  else match f_type f, f_ip f with
       | FD_PIPE, _ => piperead (f_pipe f) addr n
       | FD_INODE, Some ip =>
           _ ← ilock (Some ip);
           '(r, _) ← readi ip (ToMem addr) (f_off f) (u32 n);
           _ ← (if 0 <? r then setf i (fun f => set_f_off (u32 (f_off f + r)) f) else mret ());
           _ ← iunlock (Some ip);
           mret (Done r)
       | FD_INODE, None => panic "ilock"
       | FD_NONE, _ => panic "fileread"
       end.

(** [while(i < n)]: one transaction writes at most [max] bytes. *)
Definition WMAX : Z := (MAXOPBLOCKS - 1 - 1 - 2) / 2 * 512.

Fixpoint filewrite_loop (fuel : nat) (i : nat) (ip : nat) (addr n done_ : Z) : M fs Z :=
  match fuel with
  | O => nofuel
  | S k =>
      if done_ <? n then
        let n1 := if WMAX <? n - done_ then WMAX else n - done_ in
        _ ← onj begin_op;
        _ ← ilock (Some ip);
        f ← getf i;
        r ← writei ip (FromMem (addr + done_)) (f_off f) (u32 n1);
        _ ← (if 0 <? r then setf i (fun f => set_f_off (u32 (f_off f + r)) f) else mret ());
        _ ← iunlock (Some ip);
        _ ← onj end_op;
        if r <? 0 then mret done_
        else if negb (r =? n1) then panic "short filewrite"
        else filewrite_loop k i ip addr n (done_ + r)
      else mret done_
  end.

Definition filewrite (i : nat) (addr n : Z) : M fs progress :=
  f ← getf i;
  if negb (f_writable f) then mret (Done (-1))
  else match f_type f, f_ip f with
       | FD_PIPE, _ => pipewrite (f_pipe f) addr n
       | FD_INODE, Some ip =>
           r ← filewrite_loop (S (S (Z.to_nat (n / WMAX)))) i ip addr n 0;
           mret (Done (if r =? n then n else -1))
       | FD_INODE, None => if 0 <? n then panic "ilock" else mret (Done (if 0 =? n then n else -1))
       | FD_NONE, _ => panic "filewrite"
       end.
End file.
