(* ===== verification/FsTx.v ===== *)
(** * Files and transactions

    [filedup], [idup] and [fileclose] between two transactions, and the
    transaction in which [fileclose] and [exit] drop a reference to an
    inode.  A crash at any point of it leaves a disk that is consistent
    once the log has been replayed. *)

From stdpp Require Import base numbers list gmap strings.
From S2P Require Import Prelude Bytes Machine CString Kalloc Locks Bio BioSpec Log BioAbs.
From S2P Require Import LogSpec LogCrash LogTx FsState Fs TxSpec FsDisk FsSpec FsInv Pipe File.
Open Scope Z_scope.

(** Between two transactions. *)
Record fs_inv (st sz : Z) (fr ir : list nat) (s : fs) : Prop := {
  fi_idle : idle st sz (jrn s);
  fi_geo : geometry (sb s) st sz (Z.of_nat (length (memdisk (bio (jrn s)))));
  fi_ok : fs_ok (sb s) (blocks s) fr ir s }.

(** Inside one that began in [s0] and has logged blocks of [K] only. *)
Record fs_tx (st sz : Z) (s0 : jst) (K : gset Z) (fr ir : list nat) (s : fs) : Prop := {
  ft_idle : idle st sz s0;
  ft_geo : geometry (sb s) st sz (Z.of_nat (length (memdisk (bio s0))));
  ft_point : at_point (sb s) st sz s0 K ∅ s;
  ft_old : consistent (sb s) (view (bio s0));
  ft_ok : fs_ok (sb s) (blocks s) fr ir s }.

(** ** Taking references *)

Section dup.
Context (x : superblock) (V : Z -> list Z) (fr ir : list nat) (s : fs) (Hs : fs_ok x V fr ir s).

Lemma getf_run k f : ftable s !! k = Some f -> getf k s = Ret (f, s).
Proof. intros H. unfold getf. by rewrite H. Qed.
Lemma setf_run k f g : ftable s !! k = Some f -> setf k g s = Ret ((), set_ftable (<[k := g f]> (ftable s)) s).
Proof. intros H. unfold setf. by rewrite H. Qed.

(** Changing [ref] of file [k]. *)
Lemma ok_f_ref fr' k f r : ftable s !! k = Some f -> 0 < f_ref f -> 0 < r -> r = Z.of_nat (refs k fr') ->
  (forall j, j <> k -> refs j fr' = refs j fr) -> (forall j, j ∈ fr' -> (j < length (ftable s))%nat) ->
  fs_ok x V fr' ir (set_ftable (<[k := set_f_ref r f]> (ftable s)) s).
Proof.
  intros Hk H1 H2 Hr Ho Hin. destruct (file_ref_same f r H1 H2) as [E1 E2]. destruct Hs as [A1 A2 A3 A4 A5].
  split; cbn [sb icache ftable pipes set_ftable]; [done|done|by eapply inodes_same|by eapply files_put|by eapply ends_same].
Qed.

Lemma filedup_run k : k ∈ fr -> exists s', filedup k s = Ret (k, s') /\ fs_ok x V (k :: fr) ir s' /\ s' = set_ftable (ftable s') s.
Proof.
  intros Hk. destruct (files_ref x V fr ir s k Hs Hk) as (f & Hf & Hr). eexists (set_ftable _ s). split; [|split; [|reflexivity]].
  - unfold filedup. rewrite (run_bind _ _ _ _ _ (getf_run k f Hf)). rewrite (proj2 (Z.ltb_ge _ _)) by lia.
    by rewrite (run_bind _ _ _ _ _ (setf_run k f _ Hf)).
  - destruct (fo_file _ _ _ (fs_files _ _ _ _ _ Hs) k f Hf) as [E _].
    apply ok_f_ref; [done|lia|lia|rewrite refs_cons, one_self; lia| |].
    + intros j Hj. by rewrite refs_cons, one_other.
    + intros j Hj. apply (fo_refs _ _ _ (fs_files _ _ _ _ _ Hs)). apply elem_of_cons in Hj as [->|]; done.
Qed.

Lemma idup_run i : i ∈ ir -> exists s', idup i s = Ret (i, s') /\ fs_ok x V fr (i :: ir) s' /\ s' = set_icache (icache s') s.
Proof.
  intros Hi. destruct Hs as [A1 A2 A3 A4 A5]. destruct (inodes_ref x _ _ _ _ i A3 Hi) as (ip & Hp & Hr & _).
  eexists (set_icache _ s). split; [unfold idup; by rewrite (run_bind _ _ _ _ _ (seti_run i _ s ip Hp))|]. split; [|reflexivity].
  split; cbn [sb icache ftable pipes set_icache]; [done|done|by apply inodes_dup|by rewrite length_insert|done].
Qed.
End dup.

(** ** Closing a pipe *)

Lemma ends_close P P' ft k f g e : ends_ok P ft -> ft !! k = Some f -> file_end f = Some e -> file_end g = None ->
  (forall e', open_end P' e' = true <-> e' <> e /\ open_end P e' = true) ->
  (forall p q, P' !! p = Some q -> p_readopen q || p_writeopen q = true) -> ends_ok P' (<[k := g]> ft).
Proof.
  intros [E1 E2 E3] Hk Hf Hg Ho Hl.
  assert (forall j h e', <[k := g]> ft !! j = Some h -> file_end h = Some e' -> j <> k /\ ft !! j = Some h) as Hback.
  { intros j h e' Hj Hh. apply list_lookup_insert_Some in Hj as [(<- & <- & _)|[Hne Hj]]; [congruence|done]. }
  split; [|intros i j a b e' Hi Hj Ha Hb|done].
  - intros e'. rewrite Ho, E1. split.
    + intros [Hne (j & h & Hj & Hh)]. exists j, h. rewrite list_lookup_insert_ne; [done|]. intros <-. congruence.
    + intros (j & h & Hj & Hh). destruct (Hback j h e' Hj Hh) as [Hne Hj']. split; [|eauto]. intros ->. apply Hne. symmetry. by apply (E2 k j f h e).
  - destruct (Hback i a e' Hi Ha) as [_ Hi']. destruct (Hback j b e' Hj Hb) as [_ Hj']. by apply (E2 i j a b e').
Qed.

Section close.
Context {LK : Linker}.

(** The pages of the pipes. *)
Definition pipe_pages (s : fs) : list Z := (map_to_list (pipes s)).*1.

(** Memory: [l] are the free pages. *)
Record pages_ok (l : list Z) (s : fs) : Prop := {
  po_free : kmem_inv (fm s) l;
  po_nodup : NoDup (pipe_pages s ++ l);
  po_valid : Forall valid_page (pipe_pages s) }.

(** What a closed pipe does to memory. *)
Definition gave_back (l l' : list Z) (s s' : fs) : Prop :=
  kmem_inv (fm s') l' /\ pipe_pages s' ++ l' ≡ₚ pipe_pages s ++ l /\
  frame (list_to_set (pipe_pages s)) (mem (fm s)) (mem (fm s')) /\ cr3 (fm s') = cr3 (fm s).

Lemma gave_none l s s' : pages_ok l s -> fm s' = fm s -> pipes s' = pipes s -> gave_back l l s s'.
Proof. intros [H1 _ _] E1 E2. unfold gave_back, pipe_pages. rewrite E1, E2. done. Qed.

Lemma elem_pipe_pages s p q : pipes s !! p = Some q -> p ∈ pipe_pages s.
Proof. intros H. apply list_elem_of_fmap. exists (p, q). split; [done|]. by apply elem_of_map_to_list. Qed.

Lemma keys_insert (P : gmap Z pipe) p q q' : P !! p = Some q -> (map_to_list (<[p := q']> P)).*1 ≡ₚ (map_to_list P).*1.
Proof.
  intros Hp. rewrite <- insert_delete_eq, map_to_list_insert by apply lookup_delete_eq.
  by rewrite <- (map_to_list_delete P p q Hp).
Qed.

(** An end of a pipe after the other is closed. *)
Definition shut (w : bool) (q : pipe) : pipe := if w then set_p_writeopen false q else set_p_readopen false q.

Lemma open_shut P p w q e : P !! p = Some q ->
  open_end (<[p := shut w q]> P) e = true <-> e <> (p, w) /\ open_end P e = true.
Proof.
  intros Hp. destruct e as [a v]. unfold open_end. cbn [fst snd]. destruct (decide (a = p)) as [->|Hne].
  - rewrite lookup_insert_eq, Hp. destruct v, w; cbn; split; try done; intros []; congruence.
  - rewrite lookup_insert_ne by done. split; [intros H; split; [congruence|done]|by intros []].
Qed.

Lemma open_gone P p w q e : P !! p = Some q -> p_readopen (shut w q) = false -> p_writeopen (shut w q) = false ->
  open_end (delete p P) e = true <-> e <> (p, w) /\ open_end P e = true.
Proof.
  intros Hp Hr Hw. rewrite <- (open_shut P p w q e Hp). destruct e as [a v]. unfold open_end. cbn [fst snd].
  destruct (decide (a = p)) as [->|Hne].
  - rewrite lookup_delete_eq, lookup_insert_eq. rewrite Hr, Hw. by destruct v.
  - by rewrite lookup_delete_ne, lookup_insert_ne.
Qed.

Lemma pipeclose_run l s p w ft k f g : pages_ok l s -> ends_ok (pipes s) ft -> ft !! k = Some f ->
  file_end f = Some (p, w) -> file_end g = None ->
  exists s' l', pipeclose p w s = Ret ((), s') /\ ends_ok (pipes s') (<[k := g]> ft) /\ gave_back l l' s s' /\
    exists M P W, s' = set_woken W (set_pipes P (set_fm M s)).
Proof.
  intros [Hk Hnd Hv] He Hf Hfe Hg.
  assert (open_end (pipes s) (p, w) = true) as Ho by (apply (eo_open _ _ He); eauto).
  unfold open_end in Ho. cbn [fst snd] in Ho. destruct (pipes s !! p) as [q|] eqn:Hp; [|done].
  set (s1 := set_woken (woken s ++ [if w then nread_of p else nwrite_of p]) (set_pipes (<[p := shut w q]> (pipes s)) s)).
  assert (forall (T : Type) (c : M fs T), (_ ← (if w then _ ← setpipe p (set_p_writeopen false); wakeup (nread_of p)
    else _ ← setpipe p (set_p_readopen false); wakeup (nwrite_of p)); c) s = c s1) as E1.
  { intros T c. destruct w; (rewrite (run_bind _ _ s () s1); [done|]); unfold setpipe, mbind, M_bind; by rewrite Hp. }
  assert (getpipe p s1 = Ret (shut w q, s1)) as E2 by (unfold getpipe, s1; cbn [pipes set_woken set_pipes]; by rewrite lookup_insert_eq).
  unfold pipeclose. rewrite E1, (run_bind _ _ _ _ _ E2).
  destruct (negb (p_readopen (shut w q)) && negb (p_writeopen (shut w q))) eqn:Ec.
  - apply andb_true_iff in Ec as [Hr%negb_true_iff Hw%negb_true_iff]. pose proof (elem_pipe_pages s p q Hp) as Hin.
    assert (valid_page p /\ p ∉ l) as [Hvp Hpl].
    { split; [by eapply Forall_forall|]. apply NoDup_app in Hnd as (_ & Hd & _). by apply Hd. }
    destruct (proj1 (wp_exists _ _ _) (kfree_wp (fm s) l p Hk Hvp Hpl)) as ([] & m & Em & Hk' & Hfr & Hcr & _).
    exists (set_woken (woken s1) (set_pipes (delete p (pipes s)) (set_fm m s))), (p :: l). split; [|split; [|split]].
    + unfold modify. rewrite (run_bind _ _ s1 () (set_pipes (delete p (pipes s1)) s1) eq_refl). unfold onmach, zoom. cbn [fm set_pipes set_woken s1].
      rewrite Em. do 2 f_equal. unfold s1, set_woken, set_pipes, set_fm. cbn. by rewrite delete_insert_eq.
    + cbn [pipes set_pipes set_woken]. eapply (ends_close (pipes s)); [done..| |].
      * intros e. by apply (open_gone _ _ _ q).
      * intros p' q' Hq. apply lookup_delete_Some in Hq as [_ Hq]. by apply (eo_live _ _ He p').
    + split; [done|]. split; [|split; [|done]].
      * unfold pipe_pages. cbn [pipes set_pipes set_woken]. rewrite <- (map_to_list_delete (pipes s) p q Hp). cbn [fmap list_fmap fst].
        symmetry. apply (Permutation_middle _ _ p).
      * eapply frame_mono; [exact Hfr|]. apply singleton_subseteq_l, elem_of_list_to_set. done.
    + eauto.
  - exists s1, l. split; [done|]. split; [|split].
    + cbn [s1 pipes set_pipes set_woken]. eapply (ends_close (pipes s)); [done..| |].
      * intros e. by apply open_shut.
      * intros p' q' Hq. apply lookup_insert_Some in Hq as [[_ <-]|[_ Hq]]; [|by apply (eo_live _ _ He p')].
        destruct (p_readopen (shut w q)), (p_writeopen (shut w q)); done.
    + split; [done|]. split; [|done]. unfold pipe_pages. cbn [s1 pipes set_pipes set_woken].
      f_equiv. by apply (keys_insert _ p q).
    + by exists (fm s), (<[p := shut w q]> (pipes s)), (woken s ++ [if w then nread_of p else nwrite_of p]); destruct s.
Qed.
End close.

(** ** Transactions *)

(** The blocks [iput] may log: the inode's and the bitmap. *)
Definition drop_blocks (x : superblock) (n : Z) : gset Z :=
  list_to_set (IBLOCK n x :: seqZ (sb_bmapstart x) (sb_size x / BPB + 1)).

Lemma size_list_le (l : list Z) : (size (list_to_set l : gset Z) <= length l)%nat.
Proof.
  induction l as [|a l IH]; [rewrite list_to_set_nil, size_empty; done|]. cbn [list_to_set length].
  rewrite size_union_alt. rewrite size_singleton. pose proof (subseteq_size (list_to_set l ∖ {[a]} : gset Z) (list_to_set l)) as H.
  assert (list_to_set l ∖ {[a]} ⊆ (list_to_set l : gset Z)) as Hs by set_solver. specialize (H Hs). lia.
Qed.

Section budget.
Context (x : superblock) (st sz len : Z) (G : geometry x st sz len) (n : Z) (Hn : 0 <= n < sb_ninodes x).

Lemma drop_size : (size (drop_blocks x n) <= Z.to_nat MAXOPBLOCKS)%nat.
Proof.
  unfold drop_blocks. etrans; [apply size_list_le|]. cbn [length]. rewrite length_seqZ. pose proof (g_few _ _ _ _ G). unfold MAXOPBLOCKS in *. lia.
Qed.
Lemma drop_bmap m : is_bmap x m -> m ∈ drop_blocks x n.
Proof.
  intros H. unfold is_bmap, data_start in H. unfold drop_blocks. apply elem_of_list_to_set. right. apply elem_of_seqZ. lia.
Qed.
Lemma drop_inode : IBLOCK n x ∈ drop_blocks x n.
Proof. apply elem_of_list_to_set, list_elem_of_here. Qed.
Lemma drop_super : 1 ∉ drop_blocks x n.
Proof.
  unfold drop_blocks. rewrite elem_of_list_to_set, elem_of_cons, elem_of_seqZ.
  pose proof (IBLOCK_inode x st sz len G n Hn) as [_ Hi]. pose proof (regions x st sz len G _ (or_intror (or_intror Hi))) as (_ & H1 & _).
  destruct G. unfold is_inode in Hi. lia.
Qed.
End budget.

Lemma at_point_mono x st sz s0 K K' H s : at_point x st sz s0 K H s -> K ⊆ K' -> at_point x st sz s0 K' H s.
Proof. intros [A1 (L & A2 & A3) A4 A5] HK. split; [done| |done..]. exists L. split; [done|]. by etrans. Qed.

(** The blocks outside the log are what counts. *)
Lemma fs_ok_ext x st sz len V V' fr ir s : geometry x st sz len ->
  (forall n, is_bmap x n \/ is_data x n \/ is_inode x n -> V' n = V n) -> fs_ok x V fr ir s -> fs_ok x V' fr ir s.
Proof.
  intros G E [A1 A2 [O1 O2 O3] A4 A5]. split; [done|by apply (consistent_ext x st sz len G V)| |done..].
  split; [|done..]. intros i ip Hi. destruct (O1 i ip Hi) as (B1 & B2 & B3). split; [done|]. split; [done|]. intros Hr.
  destruct (B3 Hr) as (C1 & C2 & C3). split; [done|]. split; [done|]. intros Hv.
  rewrite (dnode_same x V V'); [by apply C3|done|]. apply E. right; right. by apply (IBLOCK_inode x st sz len G).
Qed.

Section begin.
Context (st sz : Z) (fr ir : list nat) (s : fs) (Hs : fs_inv st sz fr ir s).

Lemma begin_run : exists s', onj begin_op s = Ret ((), s') /\ fs_tx st sz (jrn s) ∅ fr ir s' /\ s' = set_jrn (jrn s') s.
Proof.
  destruct Hs as [H1 H2 H3]. pose proof (id_started _ _ _ H1) as Hst.
  eexists (set_jrn _ s). split; [unfold onj, zoom; by rewrite (begin_op_run st sz _ Hst)|]. split; [|done].
  destruct (sd_quiet _ _ _ Hst) as [l Hq].
  split; cbn [jrn sb set_jrn]; [done|done| |apply H3|].
  - split; [done| |by intros i n c; rewrite lookup_empty|rewrite map_size_empty; lia]. cbn [jrn set_jrn].
    eexists. split; [apply in_tx_tx, started_in_tx, Hst|]. unfold log_blocks. cbn [jlog set_jlog lh_n set_l_outstanding].
    rewrite (sd_n _ _ _ Hst). done.
  - destruct H3 as [A1 A2 A3 A4 A5]. by split.
Qed.
End begin.

Section drop.
Context (st sz : Z) (s0 : jst) (fr ir : list nat) (s : fs).

Lemma iput_tx i : fs_tx st sz s0 ∅ fr (i :: ir) s ->
  exists s' n, iput i s = Ret ((), s') /\ 0 <= n < sb_ninodes (sb s) /\ fs_tx st sz s0 (drop_blocks (sb s) n) fr ir s' /\
    s' = set_icache (icache s') (set_jrn (jrn s') s).
Proof.
  intros [H1 H2 H3 H4 [A1 A2 A3 A4 A5]]. destruct (inodes_ref _ _ _ _ _ i A3) as (ip & Hi & Hr & (_ & Hn & _) & Hl); [set_solver|].
  set (K := drop_blocks (sb s) (i_inum ip)).
  destruct (iput_ok (sb s) st sz s0 H2 K) with i s ip ir (ftable s) as (s' & ip' & E & Hp & Ho & Hc & Hino);
    [by eapply drop_size|intros m Hm; by apply (drop_bmap (sb s) _ Hn)|eapply at_point_mono; [exact H3|set_solver]|done..|apply drop_inode|].
  assert (sb s' = sb s /\ ftable s' = ftable s /\ pipes s' = pipes s /\ length (icache s') = length (icache s)) as (E1 & E2 & E3 & E4).
  { rewrite Ho. cbn. by rewrite length_insert. }
  exists s', (i_inum ip). split; [done|]. split; [done|]. split.
  - split; rewrite ?E1; try done. split; rewrite ?E1, ?E2, ?E3, ?E4; done.
  - rewrite Ho. cbn. by destruct s.
Qed.
End drop.

(** ** [end_op] *)

(** A transaction that has logged nothing. *)
Lemma end_op_none st sz s0 s : idle st sz s0 -> tx st sz s0 ∅ ∅ s ->
  exists s', end_op s = Ret ((), s') /\ idle st sz s' /\ bio s' = bio s.
Proof.
  intros [_ H2 H3] [[l A1] A2 A3 [A4 A5] [A6 A7] A8]. destruct s as [b g]. cbn [bio jlog] in *.
  assert (lh_n g = 0) as Hn.
  { apply (f_equal size) in A2. rewrite size_empty, size_list_to_set, (log_blocks_length _ _ A3) in A2 by apply A3.
    pose proof (lo_n _ _ A3). lia. }
  exists (Jst b (set_l_committing false (set_l_committing true (set_l_outstanding 0 g)))). split; [|split; [|done]].
  - unfold end_op, commit, getlog, setlog. apply wp_unit. wp_steps.
    cbn [jlog set_jlog bio l_committing l_outstanding set_l_outstanding]. rewrite A5, A4. wp_steps.
    change (1 - 1) with 0. rewrite Z.eqb_refl. wp_steps. cbn [jlog set_jlog bio lh_n set_l_committing set_l_outstanding]. rewrite Hn. cbn [Z.ltb Z.compare].
    by wp_steps.
  - destruct A3. split; cbn [bio jlog]; [|by rewrite (proj1 A8)..]. split; cbn [bio jlog]; [by exists l|by split|done|done|done].
Qed.

(** What [end_op] does to the disk, and what a crash leaves of it. *)
Lemma end_tx_run pid st sz s0 L s : idle st sz s0 -> tx st sz s0 ∅ L s -> (size L <= Z.to_nat MAXOPBLOCKS)%nat -> 1 ∉ L ->
  exists s' w, end_op s = Ret ((), s') /\ idle st sz s' /\ writes (bio s') = writes (bio s0) ++ w /\
    length (memdisk (bio s')) = length (memdisk (bio s0)) /\
    (forall m, outside st sz (memdisk (bio s0)) m -> memdisk (bio s') !! Z.to_nat m = Some (view (bio s) m)) /\
    forall D, crashed pid (memdisk (bio s0)) w D -> exists r, reboot D pid = Ret ((), r) /\ idle st sz r /\
      ((forall m, outside st sz (memdisk (bio s0)) m -> memdisk (bio r) !! Z.to_nat m = memdisk (bio s0) !! Z.to_nat m) \/
       (forall m, outside st sz (memdisk (bio s0)) m -> memdisk (bio r) !! Z.to_nat m = Some (view (bio s) m))).
Proof.
  intros H0 Ht HL H1. pose proof (tx_count st sz s0 _ _ _ Ht) as Hcnt. destruct (decide (L = ∅)) as [->|Hne].
  - destruct (end_op_none st sz s0 s H0 Ht) as (s' & E & Hid & Hb). exists s', []. destruct Ht as [[l A1] _ _ _ _ (D1 & D2 & _)].
    rewrite Hb, app_nil_r, D1. split; [done|]. split; [done|]. split; [done|]. split; [done|].
    assert (forall m, outside st sz (memdisk (bio s0)) m -> memdisk (bio s0) !! Z.to_nat m = Some (view (bio s) m)) as Hsame.
    { intros m [Hm _]. rewrite <- D1. apply (opened_sync (bio s) l ∅ ∅ A1 m); [unfold in_range; by rewrite D1|by intros i c; rewrite lookup_empty|set_solver]. }
    split; [done|]. intros D HD.
    assert (Z.of_nat (length (@nil Z)) <= LOGSIZE /\ Z.of_nat (length (@nil Z)) < sz) as H00.
    { pose proof (ly_region _ _ _ (id_layout _ _ _ H0)). cbn. unfold LOGSIZE, MAXOPBLOCKS. lia. }
    assert (forall P : Z -> Prop, forall n, n ∈ [] -> P n) as Hnil by (intros P n Hn; by apply elem_of_nil in Hn).
    assert (kinds st sz (memdisk (bio s0)) (view (bio s)) [] D) as Hk.
    { induction HD as [k|D r k HD IH Hr].
      - rewrite take_nil. left. split; [split; [apply H0|done]|]. split; [apply H0|done].
      - apply (kinds_recovery pid st sz (memdisk (bio s0)) (view (bio s)) []);
          [exact (id_layout _ _ _ H0)|exact (id_header _ _ _ H0)|constructor|exact H00|apply Hnil|apply Hnil|intros m Hm _; by apply Hsame|exact IH|exact Hr]. }
    destruct (recover_kinds pid st sz (memdisk (bio s0)) (view (bio s)) []) with D as (r & Er & Hr & _ & Hor);
      [exact (id_layout _ _ _ H0)|exact (id_header _ _ _ H0)|constructor|exact H00|apply Hnil|apply Hnil|intros m Hm _; by apply Hsame|exact Hk|].
    exists r. exact (conj Er (conj Hr Hor)).
  - destruct (finish_run pid st sz s0 s H0) as (s' & w & E & Hid & Hw & Hlen & Hout & Hcr).
    + by eapply tx_in_tx.
    + assert (size L <> 0)%nat by (intros Hz; by apply size_empty_inv, leibniz_equiv in Hz). unfold MAXOPBLOCKS in *. lia.
    + rewrite <- (tx_blocks _ _ _ _ _ _ Ht) in H1. by rewrite elem_of_list_to_set in H1.
    + exists s', w. split; [done|]. split; [done|]. split; [done|]. split; [done|]. split; [done|]. exact Hcr.
Qed.

Section finish.
Context (pid st sz : Z) (s0 : jst) (K : gset Z) (fr ir : list nat) (s : fs).
Context (HK : (size K <= Z.to_nat MAXOPBLOCKS)%nat) (H1 : 1 ∉ K) (Hs : fs_tx st sz s0 K fr ir s).

(** A crash at any point leaves a disk that is consistent after recovery. *)
Definition crash_safe (x : superblock) (D0 : list (list Z)) (w : list (Z * list Z)) : Prop :=
  forall D, crashed pid D0 w D -> exists r, reboot D pid = Ret ((), r) /\ idle st sz r /\ consistent x (view (bio r)).

Lemma idle_view r n : idle st sz r -> view (bio r) n = nth (Z.to_nat n) (memdisk (bio r)) [].
Proof. intros [Hr _ _]. destruct (sd_quiet _ _ _ Hr) as [l Hq]. by apply (quiet_view _ l). Qed.

Lemma region_outside n : is_bmap (sb s) n \/ is_data (sb s) n \/ is_inode (sb s) n -> outside st sz (memdisk (bio s0)) n.
Proof. intros Hn. destruct (regions _ _ _ _ (ft_geo _ _ _ _ _ _ _ Hs) n Hn) as (A & _ & B). by split. Qed.

Lemma end_run : exists s' w, onj end_op s = Ret ((), s') /\ fs_inv st sz fr ir s' /\ s' = set_jrn (jrn s') s /\
  (forall n, is_bmap (sb s) n \/ is_data (sb s) n \/ is_inode (sb s) n -> blocks s' n = blocks s n) /\
  writes (bio (jrn s')) = writes (bio s0) ++ w /\ crash_safe (sb s) (memdisk (bio s0)) w.
Proof.
  destruct (ft_point _ _ _ _ _ _ _ Hs) as [_ (L & Ht & HL) _ _].
  destruct (end_tx_run pid st sz s0 L (jrn s)) as (j & w & E & Hid & Hw & Hlen & Hout & Hcr);
    [apply Hs|done|apply subseteq_size in HL; lia|set_solver|].
  assert (forall n, is_bmap (sb s) n \/ is_data (sb s) n \/ is_inode (sb s) n -> blocks (set_jrn j s) n = blocks s n) as Hv.
  { intros n Hn. unfold blocks. cbn [jrn set_jrn]. rewrite (idle_view j n Hid). apply nth_lookup_Some, Hout. by apply region_outside. }
  exists (set_jrn j s), w. split; [unfold onj, zoom; by rewrite E|]. split; [|split; [done|split; [done|split; [done|]]]].
  - destruct Hs as [_ B2 _ _ B5]. split; cbn [jrn sb set_jrn]; [done|by rewrite Hlen|].
    apply (fs_ok_ext (sb s) st sz _ (blocks s) _ fr ir _ B2); [done|]. destruct B5 as [A1 A2 A3 A4 A5]. by split.
  - intros D HD. destruct (Hcr D HD) as (r & Er & Hr & Hor). exists r. split; [exact Er|]. split; [exact Hr|].
    pose proof (ft_geo _ _ _ _ _ _ _ Hs) as G. destruct Hor as [Hor|Hor].
    + apply (consistent_ext _ st sz _ G (view (bio s0))); [|apply Hs]. intros n Hn.
      rewrite (idle_view r n Hr), (idle_view s0 n (ft_idle _ _ _ _ _ _ _ Hs)). rewrite !nth_lookup. f_equal. apply Hor. by apply region_outside.
    + apply (consistent_ext _ st sz _ G (blocks s)); [|apply (ft_ok _ _ _ _ _ _ _ Hs)]. intros n Hn.
      rewrite (idle_view r n Hr). apply nth_lookup_Some, Hor. by apply region_outside.
Qed.
End finish.

(** [begin_op(); iput(ip); end_op();] *)
Definition drop_inode_ref (i : nat) : M fs () := _ ← onj begin_op; _ ← iput i; onj end_op.

Lemma drop_ref_run pid st sz fr ir i s : fs_inv st sz fr (i :: ir) s ->
  exists s' w, drop_inode_ref i s = Ret ((), s') /\ fs_inv st sz fr ir s' /\ s' = set_icache (icache s') (set_jrn (jrn s') s) /\
    writes (bio (jrn s')) = writes (bio (jrn s)) ++ w /\ crash_safe pid st sz (sb s) (memdisk (bio (jrn s))) w.
Proof.
  intros Hs. destruct (begin_run st sz fr (i :: ir) s Hs) as (s1 & E1 & H1 & O1).
  destruct (iput_tx st sz (jrn s) fr ir s1 i H1) as (s2 & n & E2 & Hn & H2 & O2).
  assert (sb s1 = sb s /\ sb s2 = sb s) as [S1 S2] by (rewrite O2, O1; done). rewrite S1 in *.
  pose proof (ft_geo _ _ _ _ _ _ _ H2) as G. rewrite S2 in G.
  destruct (end_run pid st sz (jrn s) (drop_blocks (sb s) n) fr ir s2) as (s3 & w & E3 & H3 & O3 & _ & Hw & Hcr);
    [by eapply drop_size|by eapply drop_super|done|].
  exists s3, w. split; [|split; [done|split; [|split; [done|by rewrite S2 in Hcr]]]].
  - unfold drop_inode_ref. by rewrite (run_bind _ _ _ _ _ E1), (run_bind _ _ _ _ _ E2).
  - rewrite O3, O2, O1. by destruct s.
Qed.

(** ** [fileclose] *)

(** The last reference to file [k] goes, the one it has to an inode stays
    with the caller. *)
Definition inherits (f : file) (ir : list nat) : list nat := from_option (fun i => i :: ir) ir (file_inode f).

Lemma inodes_close x V ir ft l k f g : inodes_ok x V ir ft l -> ft !! k = Some f -> file_inode g = None ->
  (forall i, file_inode f = Some i -> (i < length l)%nat) -> inodes_ok x V (inherits f ir) (<[k := g]> ft) l.
Proof.
  intros [O1 O2 O3] Hk Hg Hlt. split; [|intros i Hi; unfold inherits in Hi; destruct (file_inode f); cbn in Hi; [|by apply O2]|done].
  - intros i ip Hi. destruct (O1 i ip Hi) as (A1 & A2 & A3). split; [done|]. split; [|done]. rewrite A2. unfold holders, inherits.
    pose proof (refs_insert file_inode i ft k f g Hk) as E. rewrite Hg, one_none in E.
    destruct (file_inode f) as [j|]; cbn [from_option]; rewrite ?refs_cons; [|rewrite one_none in E]; lia.
  - apply elem_of_cons in Hi as [->|Hi]; [by apply Hlt|by apply O2].
Qed.

Lemma files_close fr n ft k f g : files_ok (k :: fr) n ft -> ft !! k = Some f -> f_ref f = 1 -> f_ref g = 0 -> files_ok fr n (<[k := g]> ft).
Proof.
  intros F Hk H1 H0. destruct (fo_file _ _ _ F k f Hk) as [E _]. rewrite refs_cons, one_self in E.
  apply (files_put (k :: fr) _ n ft k f); [done..|lia|lia| |].
  - intros j Hj. by rewrite refs_cons, one_other.
  - intros j Hj. apply (fo_refs _ _ _ F). set_solver.
Qed.

Section fileclose.
Context (st sz : Z) (fr ir : list nat) (s : fs) (k : nat) (Hs : fs_inv st sz (k :: fr) ir s).

Lemma closing_file : exists f, ftable s !! k = Some f /\ 1 <= f_ref f /\ f_ref f = Z.of_nat (S (refs k fr)) /\
  (f_type f = FD_INODE -> exists i, f_ip f = Some i /\ (i < length (icache s))%nat).
Proof.
  destruct (files_ref _ _ _ _ _ k (fi_ok _ _ _ _ _ Hs)) as (f & Hf & Hr); [set_solver|]. exists f. split; [done|]. split; [done|].
  destruct (fo_file _ _ _ (fs_files _ _ _ _ _ (fi_ok _ _ _ _ _ Hs)) k f Hf) as [E F]. rewrite refs_cons, one_self in E.
  split; [done|]. intros Ht. apply F; [lia|done].
Qed.

(** What is left of the entry. *)
Definition emptied (f : file) : file := set_f_type FD_NONE (set_f_ref 0 (set_f_ref (f_ref f - 1) f)).

Lemma fileclose_last {LK : Linker} f : ftable s !! k = Some f -> f_ref f = 1 ->
  fileclose k s = (match f_type f with
      | FD_PIPE => pipeclose (f_pipe f) (f_writable f)
      | FD_INODE => match f_ip f with Some ip => drop_inode_ref ip | None => _ ← onj begin_op; _ ← fault 0 : M fs (); onj end_op end
      | FD_NONE => mret ()
      end) (set_ftable (<[k := emptied f]> (ftable s)) s).
Proof.
  intros Hf Hr. unfold fileclose. rewrite (run_bind _ _ _ _ _ (getf_run s k f Hf)), Hr. cbn [Z.ltb Z.compare Pos.compare Pos.compare_cont].
  rewrite (run_bind _ _ _ _ _ (setf_run s k f _ Hf)). set (s1 := set_ftable _ s).
  assert (ftable s1 !! k = Some (set_f_ref (f_ref f - 1) f)) as H1 by (apply list_lookup_insert_eq; by eapply lookup_lt_Some).
  rewrite (run_bind _ _ _ _ _ (getf_run s1 k _ H1)). cbn [f_ref set_f_ref]. rewrite Hr. change (0 <? 1 - 1) with false. cbn iota.
  rewrite (run_bind _ _ _ _ _ (getf_run s1 k _ H1)), (run_bind _ _ _ _ _ (setf_run s1 k _ _ H1)). set (s2 := set_ftable _ s1).
  assert (ftable s2 !! k = Some (set_f_ref 0 (set_f_ref (f_ref f - 1) f))) as H2 by (apply list_lookup_insert_eq; by eapply lookup_lt_Some).
  rewrite (run_bind _ _ _ _ _ (setf_run s2 k _ _ H2)). cbn [f_type f_pipe f_writable f_ip set_f_ref].
  unfold s2, s1, emptied. cbn [ftable set_ftable]. rewrite !list_insert_insert_eq.
  destruct (f_type f); [done|done|]. by destruct (f_ip f).
Qed.

(** The tables once entry [k] is empty; what [f] refers to is not yet
    dropped. *)
Lemma emptied_tables f : ftable s !! k = Some f -> f_ref f = 1 ->
  files_ok fr (length (icache s)) (<[k := emptied f]> (ftable s)) /\
  inodes_ok (sb s) (blocks s) (inherits f ir) (<[k := emptied f]> (ftable s)) (icache s).
Proof.
  intros Hf H1. destruct closing_file as (f' & Hf' & _ & _ & Hip). rewrite Hf in Hf'. injection Hf' as <-.
  destruct Hs as [_ _ [_ _ A3 A4 _]]. split; [by apply (files_close _ _ _ k f)|]. apply inodes_close; [done..|].
  intros i. unfold file_inode. destruct (0 <? f_ref f); [|done]. destruct (f_type f); [done..|].
  intros Hi. destruct (Hip eq_refl) as (j & Hj & Hlt). congruence.
Qed.

Lemma emptied_inode f i : ftable s !! k = Some f -> f_ref f = 1 -> f_type f = FD_INODE -> f_ip f = Some i ->
  fs_inv st sz fr (i :: ir) (set_ftable (<[k := emptied f]> (ftable s)) s).
Proof.
  intros Hf H1 Ht Hi. destruct (emptied_tables f Hf H1) as [F I]. destruct Hs as [B1 B2 [A1 A2 A3 A4 A5]].
  assert ((0 <? f_ref f) = true) as Hlive by lia. unfold inherits, file_inode in I. rewrite Hlive, Ht, Hi in I.
  split; [done..|]. split; [done|done|exact I|exact F|]. apply (ends_same _ _ k f); [done|done|].
  unfold file_end. cbn. by rewrite Hlive, Ht.
Qed.

Lemma fileclose_run {LK : Linker} (l : list Z) (Hl : pages_ok l s) : exists s' l', fileclose k s = Ret ((), s') /\ fs_inv st sz fr ir s' /\ gave_back l l' s s'.
Proof.
  destruct closing_file as (f & Hf & Hr & Er & Hip). destruct (Hs) as [B1 B2 [A1 A2 A3 A4 A5]].
  destruct (decide (f_ref f = 1)) as [H1|Hne].
  2: { set (s1 := set_ftable (<[k := set_f_ref (f_ref f - 1) f]> (ftable s)) s). exists s1, l. split; [|split; [|by apply gave_none]].
    - unfold fileclose. rewrite (run_bind _ _ _ _ _ (getf_run s k f Hf)), (proj2 (Z.ltb_ge _ _)) by lia.
      rewrite (run_bind _ _ _ _ _ (setf_run s k f _ Hf)). fold s1.
      rewrite (run_bind (getf k) _ s1 (set_f_ref (f_ref f - 1) f) s1); [cbn [f_ref set_f_ref]; by rewrite (proj2 (Z.ltb_lt _ _)) by lia|].
      apply getf_run, list_lookup_insert_eq. by eapply lookup_lt_Some.
    - split; [done|done|]. change (blocks s1) with (blocks s). apply (ok_f_ref _ _ (k :: fr)); [apply Hs|done|lia|lia|lia| |].
      + intros j Hj. by rewrite refs_cons, one_other.
      + intros j Hj. apply (fo_refs _ _ _ A4). set_solver. }
  rewrite (fileclose_last f Hf H1). set (g := emptied f). set (s1 := set_ftable (<[k := g]> (ftable s)) s).
  assert ((0 <? f_ref f) = true) as Hlive by lia.
  destruct (emptied_tables f Hf H1) as [F I]. fold g in F, I.
  unfold inherits, file_inode in I. rewrite Hlive in I. destruct (f_type f) eqn:Ht.
  - exists s1, l. split; [done|]. split; [|by apply gave_none]. split; [done..|]. split; [done|done|exact I|exact F|].
    apply (ends_same _ _ k f); [done|done|]. unfold file_end. cbn. rewrite Hlive, Ht. done.
  - assert (file_end f = Some (f_pipe f, f_writable f)) as He by (unfold file_end; by rewrite Hlive, Ht).
    destruct (pipeclose_run l s1 (f_pipe f) (f_writable f) (ftable s) k f g) as (s' & l' & E & He' & Hg & M & P & W & Es'); [|done..|].
    { destruct Hl. by split. }
    exists s', l'. split; [done|]. rewrite Es' in *. split; [|exact Hg]. split; [done..|]. by split.
  - destruct (Hip eq_refl) as (i & Hi & Hlt). rewrite Hi. pose proof (emptied_inode f i Hf H1 Ht Hi) as Hs1.
    destruct (drop_ref_run 0 st sz fr ir i s1 Hs1) as (s' & w & E & Hs' & O & _). exists s', l.
    split; [done|]. split; [done|]. rewrite O. apply gave_none; done.
Qed.
End fileclose.
