(* ===== verification/Console.v ===== *)
(** * [kernel/console.c]: console input

    The line discipline of [consoleintr] and the calls [devsw] has for the
    console.  [cons.lock] makes the critical sections atomic.  A reader
    that has to wait for a line goes to sleep in the middle of its call:
    [consoleread_from] returns [CSleep] with the bytes read so far and is
    entered again from there. *)

From stdpp Require Import base numbers list gmap strings.
From S2P Require Import Prelude Bytes Machine Locks Bio Log FsState Screen Fs.
Open Scope Z_scope.

Definition INPUT_BUF : Z := 128.

(** [C(x)]: control-x *)
Definition ctrl (x : Z) : Z := x - 64.
Definition ctrl_D : Z := ctrl 68.
Definition ctrl_H : Z := ctrl 72.
Definition ctrl_P : Z := ctrl 80.
Definition ctrl_U : Z := ctrl 85.

(** ** Input *)

Definition in_ld (x : input) (i : Z) : Z := nth (Z.to_nat (i mod INPUT_BUF)) (in_buf x) 0.
Definition in_st (i c : Z) (x : input) : input :=
  set_in_buf (<[Z.to_nat (i mod INPUT_BUF) := u8 c]> (in_buf x)) x.

Definition getin : M fs input := gets cons_in.
Definition setin (f : input -> input) : M fs () := modify (fun s => set_cons_in (f (cons_in s)) s).

(** [&input.r], the channel a reader sleeps on, is a symbol of the kernel. *)
Section console.
Context (input_r : Z).

(** [while(input.e != input.w && ...)]: at most the buffer's size. *)
Fixpoint kill_line (fuel : nat) : M fs () :=
  match fuel with
  | O => nofuel
  | S k =>
      x ← getin;
      if negb (in_e x =? in_w x) && negb (in_ld x (u32 (in_e x - 1)) =? NEWLINE) then
        _ ← setin (set_in_e (u32 (in_e x - 1)));
        _ ← onscr (consputc BACKSPACE);
        kill_line k
      else mret ()
  end.

(** One round of [consoleintr]'s loop, for a [c >= 0]; whether control-P
    was typed. *)
Definition console_key (c : Z) : M fs bool :=
  if c =? ctrl_P then mret true
  else if c =? ctrl_U then _ ← kill_line (S (Z.to_nat INPUT_BUF)); mret false
  else if (c =? ctrl_H) || (c =? 0x7f) then
    x ← getin;
    _ ← (if negb (in_e x =? in_w x) then
           _ ← setin (set_in_e (u32 (in_e x - 1))); onscr (consputc BACKSPACE)
         else mret ());
    mret false
  else
    x ← getin;
    _ ← (if negb (c =? 0) && (u32 (in_e x - in_r x) <? INPUT_BUF) then
           let c := if c =? 13 then NEWLINE else c in
           _ ← setin (fun x => set_in_e (u32 (in_e x + 1)) (in_st (in_e x) c x));
           _ ← onscr (consputc c);
           x ← getin;
           if (c =? NEWLINE) || (c =? ctrl_D) || (in_e x =? u32 (in_r x + INPUT_BUF)) then
             _ ← setin (set_in_w (in_e x)); wakeup input_r
           else mret ()
         else mret ());
    mret false.

(** [while((c = getc()) >= 0)] over the values of [getc]; whether
    [procdump] is to be called. *)
Fixpoint consoleintr (keys : list Z) : M fs bool :=
  match keys with
  | [] => mret false
  | c :: keys =>
      if c <? 0 then mret false
      else d ← console_key c; d' ← consoleintr keys; mret (d || d')
  end.

(** A finished read with its result, or a reader asleep with [n] bytes to
    go. *)
Inductive cread := CDone (r : Z) | CSleep (n : Z).

(** [while(n > 0)]: the bytes stored at [dst]; [target] is the [n] of the
    call.  [input.r == input.w] on entry means going to sleep. *)
Fixpoint consoleread_loop (fuel : nat) (target n : Z) : M fs (cread * list Z) :=
  match fuel with
  | O => nofuel
  | S k =>
      if 0 <? n then
        x ← getin;
        if in_r x =? in_w x then
          killed ← gets mykilled;
          if killed : bool then mret (CDone (-1), []) else mret (CSleep n, [])
        else
          let c := in_ld x (in_r x) in
          _ ← setin (set_in_r (u32 (in_r x + 1)));
          if c =? ctrl_D then
            _ ← (if n <? target then setin (fun x => set_in_r (u32 (in_r x - 1)) x) else mret ());
            mret (CDone (target - n), [])
          else if c =? NEWLINE then mret (CDone (target - (n - 1)), [c])
          else '(r, l) ← consoleread_loop k target (n - 1); mret (r, c :: l)
      else mret (CDone (target - n), [])
  end.

Definition consoleread_from (target n : Z) : M fs (cread * list Z) :=
  consoleread_loop (S (Z.to_nat n)) target n.

(** The whole call, as [devsw] has it: a read that has to wait is
    [Blocked]. *)
Definition consoleread (ip : nat) (n : Z) : M fs (Z * list Z) :=
  _ ← iunlock (Some ip);
  '(r, l) ← consoleread_from n n;
  match r with
  | CSleep _ => blocked
  | CDone r => _ ← ilock (Some ip); mret (r, l)
  end.

(** [for(i = 0; i < n; i++) consputc(buf[i] & 0xff)] *)
Fixpoint consolewrite_loop (k : nat) (src : source) (i : Z) : M fs () :=
  match k with
  | O => mret ()
  | S k =>
      l ← get_bytes src i 1;
      _ ← onscr (consputs (u8 <$> l));
      consolewrite_loop k src (i + 1)
  end.

Definition consolewrite (ip : nat) (src : source) (n : Z) : M fs Z :=
  _ ← iunlock (Some ip);
  _ ← consolewrite_loop (Z.to_nat n) src 0;
  _ ← ilock (Some ip);
  mret n.

Definition CONSOLE : Z := 1.

(** [devsw] after [consoleinit] *)
Definition xv6_devsw : Devsw := {|
  dev_read := fun major => if major =? CONSOLE then Some consoleread else None;
  dev_write := fun major => if major =? CONSOLE then Some consolewrite else None |}.
End console.
