(* ===== verification/ConsoleSpec.v ===== *)
(** * The console as a terminal and a line editor

    The screen behaves as a terminal of 24 lines of 80 columns, whatever is
    printed; the input buffer behaves as a list of finished lines and a
    line being edited. *)

From stdpp Require Import base numbers list gmap strings.
From S2P Require Import Prelude Bytes Machine Locks Bio Log FsState Screen Fs Console.
Open Scope Z_scope.

(** ** The screen *)

Definition COLS : nat := 80.
Definition CELLS : nat := 24 * 80.

(** The cells of the 24 lines and the cursor. *)
Record terminal := Terminal { cells : list Z; cursor : nat }.
Definition terminal_of (x : screen) : terminal := Terminal (take CELLS (crt x)) (Z.to_nat (crtpos x)).

(** A cell with its attribute. *)
Definition cell (c : Z) : Z := Z.lor (Z.land c 0xff) 0x0700.

(** A line is dropped at the top and an empty one appears at the bottom. *)
Definition scroll (t : terminal) : terminal :=
  if (CELLS <=? cursor t)%nat
  then Terminal (drop COLS (cells t) ++ replicate COLS 0) (cursor t - COLS) else t.

Definition type_char (c : Z) (t : terminal) : terminal :=
  let t :=
    if c =? NEWLINE then Terminal (cells t) (cursor t + (COLS - cursor t mod COLS))
    else if c =? BACKSPACE then Terminal (cells t) (cursor t - 1)
    else Terminal (<[cursor t := cell c]> (cells t)) (cursor t + 1) in
  let t := scroll t in
  Terminal (<[cursor t := cell 32]> (cells t)) (cursor t).

Record screen_ok (x : screen) : Prop := {
  sc_crt : length (crt x) = (25 * 80)%nat;
  sc_pos : 0 <= crtpos x < Z.of_nat CELLS;
  sc_run : panicked x = false }.

Lemma crt_store_run pos v x : (0 <= pos < Z.of_nat (length (crt x))) ->
  crt_store pos v x = Ret ((), set_crt (<[Z.to_nat pos := v]> (crt x)) x).
Proof. intros H. unfold crt_store. by replace ((0 <=? pos) && (pos <? Z.of_nat (length (crt x)))) with true by lia. Qed.

(** The cells after [memmove] and [memset]. *)
Lemma scrolled d : length d = (25 * 80)%nat ->
  take CELLS (wr (wr d 0 (sub d 80 (23 * 80))) (23 * 80) (replicate 80 0)) = drop COLS (take CELLS d) ++ replicate COLS 0.
Proof.
  intros Hd. assert (length (sub d 80 (23 * 80)) = (23 * 80)%nat) as Hs by (apply length_sub; rewrite Hd; lia).
  assert (length (replicate 80 0) = 80%nat) as Hr by apply length_replicate.
  rewrite wr_split by (rewrite length_wr, Hd, Hr; lia). rewrite wr_split by (rewrite Hd, Hs; lia). rewrite Hs, Hr.
  change (take 0 d) with (@nil Z). rewrite !app_nil_l.
  rewrite (take_app_length' (sub d 80 (23 * 80)) _ (23 * 80)) by lia.
  unfold CELLS, COLS. rewrite (app_assoc (sub d 80 (23 * 80))), take_app_length' by (rewrite length_app, Hs, Hr; lia).
  f_equal. unfold sub. by rewrite skipn_firstn_comm.
Qed.

(** The end of [cgaputc]: scrolling and the cursor. *)
Lemma place_cursor_run pos x : length (crt x) = (25 * 80)%nat -> 0 <= pos <= Z.of_nat CELLS -> panicked x = false ->
  exists x', (pos ← (if 24 <=? pos / 80 then
             _ ← crt_scroll;
             let pos := pos - 80 in
             _ ← crt_clear pos; mret pos
           else mret pos);
    _ ← modify (set_crtpos (u16 pos));
    crt_store pos (Z.lor 32 0x0700)) x = Ret ((), x') /\ screen_ok x' /\
    terminal_of x' = (let t := scroll (Terminal (take CELLS (crt x)) (Z.to_nat pos)) in
                      Terminal (<[cursor t := cell 32]> (cells t)) (cursor t)) /\
    serial x' = serial x /\ uart x' = uart x.
Proof.
  intros Hl Hp Hr. unfold scroll. cbn [cursor cells]. change (Z.lor 32 0x0700) with (cell 32).
  destruct (decide (pos = Z.of_nat CELLS)) as [-> |Hne].
  - change (Z.of_nat CELLS / 80) with 24. rewrite Nat2Z.id. change (CELLS <=? CELLS)%nat with true. cbn iota.
    pose (d := wr (wr (crt x) 0 (sub (crt x) 80 (23 * 80))) (23 * 80) (replicate 80 0)).
    assert (length d = (25 * 80)%nat) as Hd by (subst d; by rewrite !length_wr).
    exists (set_crt (<[(23 * 80)%nat := cell 32]> d) (set_crtpos (23 * 80) (set_crt d x))).
    split; [|split; [|split; [|done]]].
    + change (Z.of_nat CELLS - 80) with (23 * 80). cbv [mbind M_bind crt_scroll crt_clear modify mret M_ret]. cbn iota.
      unfold crt_store. cbn [crt set_crt set_crtpos crtpos uart serial panicked].
      change (Z.to_nat (23 * 80)) with (23 * 80)%nat. change (Z.to_nat (24 * 80 - 23 * 80)) with 80%nat. change (24 <=? 24) with true. cbn iota beta.
      cbn [crt set_crt set_crtpos crtpos uart serial panicked]. fold d. by rewrite Hd.
    + split; cbn [crt crtpos panicked set_crt set_crtpos]; [by rewrite length_insert|by vm_compute|done].
    + unfold terminal_of. cbn [crt crtpos set_crt set_crtpos]. rewrite take_insert_lt by (unfold CELLS; lia).
      subst d. by rewrite scrolled.
  - assert (pos < 24 * 80) by (unfold CELLS in *; lia). replace (24 <=? pos / 80) with false by lia.
    replace (CELLS <=? Z.to_nat pos)%nat with false by (unfold CELLS in *; lia). cbn [cursor cells].
    exists (set_crt (<[Z.to_nat pos := cell 32]> (crt x)) (set_crtpos pos x)). split; [|split; [|split; [|done]]].
    + cbv [mbind M_bind modify mret M_ret]. replace (u16 pos) with pos by lia. rewrite crt_store_run; [done|]. cbn. rewrite Hl. lia.
    + split; cbn [crt crtpos panicked set_crt set_crtpos]; [by rewrite length_insert|unfold CELLS in *; lia|done].
    + unfold terminal_of. cbn [crt crtpos set_crt set_crtpos]. by rewrite take_insert_lt by (unfold CELLS in *; lia).
Qed.

(** Every character is shown as on the terminal, and none runs past the
    text buffer or into the panic of [cgaputc]. *)
Lemma cgaputc_run c x : screen_ok x ->
  exists x', cgaputc c x = Ret ((), x') /\ screen_ok x' /\ terminal_of x' = type_char c (terminal_of x) /\
    serial x' = serial x /\ uart x' = uart x.
Proof.
  intros [Hc Hp Hr]. unfold cgaputc. rewrite (run_bind (gets crtpos) _ x (crtpos x) x eq_refl).
  unfold type_char. change (cursor (terminal_of x)) with (Z.to_nat (crtpos x)).
  change (cells (terminal_of x)) with (take CELLS (crt x)).
  assert (forall pos pos', pos = Z.to_nat pos' -> Terminal (take CELLS (crt x)) pos = Terminal (take CELLS (crt x)) (Z.to_nat pos')) as E
    by (by intros ? ? ->).
  destruct (c =? NEWLINE); [|destruct (c =? BACKSPACE)].
  - pose proof (Z.mod_pos_bound (crtpos x) 80 ltac:(lia)). pose proof (Z.div_mod (crtpos x) 80 ltac:(lia)).
    assert (0 <= crtpos x + (80 - crtpos x mod 80) <= Z.of_nat CELLS) as B by (unfold CELLS in *; lia).
    rewrite (run_bind (mret _) _ x _ x eq_refl).
    replace (_ || _) with false by (unfold CELLS in *; lia).
    rewrite (E _ (crtpos x + (80 - crtpos x mod 80))) by (unfold COLS; change 80%nat with (Z.to_nat 80); rewrite <- Z2Nat.inj_mod by lia; lia). by apply place_cursor_run.
  - rewrite (run_bind (mret _) _ x _ x eq_refl). replace (if 0 <? crtpos x then crtpos x - 1 else crtpos x)
      with (Z.max 0 (crtpos x - 1)) by (destruct (0 <? crtpos x) eqn:?; lia).
    replace (_ || _) with false by (unfold CELLS in *; lia).
    rewrite (E _ (Z.max 0 (crtpos x - 1))) by lia. apply place_cursor_run; [done| |done]. lia.
  - assert (0 <= crtpos x < Z.of_nat (length (crt x))) as B by (rewrite Hc; unfold CELLS in *; lia).
    set (y := set_crt (<[Z.to_nat (crtpos x) := cell c]> (crt x)) x).
    rewrite (run_bind _ _ x (crtpos x + 1) y); [|rewrite (run_bind _ _ _ _ _ (crt_store_run _ _ x B)); done].
    replace (_ || _) with false by (unfold CELLS in *; lia).
    replace (Terminal (<[Z.to_nat (crtpos x) := cell c]> (take CELLS (crt x))) (Z.to_nat (crtpos x) + 1))
      with (Terminal (take CELLS (crt y)) (Z.to_nat (crtpos x + 1)))
      by (cbn [y crt set_crt]; rewrite take_insert_lt by lia; f_equal; lia).
    apply (place_cursor_run (crtpos x + 1) y); [subst y; cbn; by rewrite length_insert|lia|done].
Qed.

(** [consputc] sends to the serial line, then shows; a backspace is sent
    as backspace, space, backspace. *)
Definition on_wire (c : Z) : list Z := if c =? BACKSPACE then [8; 32; 8] else [u8 c].
Definition sent (l : list Z) (x : screen) : list Z := if uart x then l ≫= on_wire else [].

Record shown (l : list Z) (x x' : screen) : Prop := {
  sh_ok : screen_ok x';
  sh_terminal : terminal_of x' = foldl (fun t c => type_char c t) (terminal_of x) l;
  sh_uart : uart x' = uart x;
  sh_serial : serial x' = serial x ++ sent l x }.

Lemma shown_nil x : screen_ok x -> shown [] x x.
Proof. intros H. split; [done..|]. unfold sent. destruct (uart x); by rewrite app_nil_r. Qed.

Lemma shown_app l k x y z : shown l x y -> shown k y z -> shown (l ++ k) x z.
Proof.
  intros [A1 A2 A3 A4] [B1 B2 B3 B4]. split; [done|by rewrite foldl_app, B2, A2|congruence|].
  rewrite B4, A4. unfold sent. rewrite A3. destruct (uart x); [|by rewrite !app_nil_r]. by rewrite bind_app, app_assoc.
Qed.

Lemma consputc_run c x : screen_ok x -> exists x', consputc c x = Ret ((), x') /\ shown [c] x x'.
Proof.
  intros Hx. unfold consputc. rewrite (run_bind (gets panicked) _ x (panicked x) x eq_refl), (sc_run x Hx).
  rewrite (run_bind _ _ x () (set_serial (serial x ++ sent [c] x) x)).
  - destruct (cgaputc_run c (set_serial (serial x ++ sent [c] x) x)) as (x' & -> & H1 & H2 & H3 & H4); [by destruct Hx|].
    exists x'. split; [done|]. by split.
  - unfold sent. cbn [mbind list_bind]. unfold on_wire. destruct (c =? BACKSPACE);
      cbv [mbind M_bind uartputc modify]; destruct x as [d p [] l q]; cbn; by rewrite <- ?app_assoc, ?app_nil_r.
Qed.

Lemma consputs_run l x : screen_ok x -> exists x', consputs l x = Ret ((), x') /\ shown l x x'.
Proof.
  revert x. induction l as [|c l IH]; intros x Hx; [exists x; split; [done|by apply shown_nil]|].
  destruct (consputc_run c x Hx) as (y & Hy & Sy). destruct (IH y (sh_ok _ _ _ Sy)) as (z & Hz & Sz).
  exists z. split; [cbn [consputs]; by rewrite (run_bind _ _ _ _ _ Hy)|]. by apply (shown_app [c] l x y z).
Qed.

(** ** Formatted output *)

(** The numeral of [n] in base [b], most significant digit first: the
    shortest one of at least one digit. *)
Definition HEX_DIGITS : list Z := chars "0123456789abcdef".
Definition width (b n : Z) : nat :=
  match list_find (fun w => n < b ^ Z.of_nat w) (seq 1 16) with Some (_, w) => w | None => 16 end.
Definition numeral (b n : Z) : list Z := (fun k => nth (Z.to_nat (n / b ^ Z.of_nat k mod b)) HEX_DIGITS 0) <$> rev (seq 0 (width b n)).

(** [%d] shows the word as a signed number, [%x] and [%p] as an unsigned
    one. *)
Definition shown_int (x : Z) : list Z := if s32 x <? 0 then 45 :: numeral 10 (- s32 x) else numeral 10 (s32 x).
Definition shown_hex (x : Z) : list Z := numeral 16 (u32 x).

Lemma digit_table d : 0 <= d < 16 -> digit d = nth (Z.to_nat d) HEX_DIGITS 0.
Proof.
  intros Hd. assert (forallb (fun k => digit (Z.of_nat k) =? nth k HEX_DIGITS 0) (seq 0 16) = true) as H by (vm_compute; reflexivity).
  rewrite forallb_forall in H. specialize (H (Z.to_nat d)). rewrite Z2Nat.id in H by lia. apply Z.eqb_eq, H, in_seq. lia.
Qed.

(** The digits the loop finds, last first. *)
Lemma digits_loop_run b room : 2 <= b <= 16 -> (0 < room)%nat -> forall x, 0 <= x < b ^ Z.of_nat room ->
  exists w, digits_loop room x b = Some ((fun k => nth (Z.to_nat (x / b ^ Z.of_nat k mod b)) HEX_DIGITS 0) <$> seq 0 w) /\
    (0 < w <= room)%nat /\ x < b ^ Z.of_nat w /\ forall v, (0 < v < w)%nat -> b ^ Z.of_nat v <= x.
Proof.
  intros Hb. induction room as [|room IH]; intros Hr x Hx; [lia|]. cbn [digits_loop].
  assert (0 <= x mod b < b) as Hm by (apply Z.mod_pos_bound; lia). rewrite digit_table by lia.
  assert (nth (Z.to_nat (x mod b)) HEX_DIGITS 0 = nth (Z.to_nat (x / b ^ Z.of_nat 0 mod b)) HEX_DIGITS 0) as ->.
  { change (b ^ Z.of_nat 0) with 1. by rewrite Z.div_1_r. }
  destruct (Z.eqb_spec (x / b) 0) as [E|E].
  - exists 1%nat. split; [done|]. split; [lia|]. change (b ^ Z.of_nat 1) with (b ^ 1). rewrite Z.pow_1_r. split; [|lia].
    apply Z.div_small_iff in E; lia.
  - assert (b <= x) as Hbx. { destruct (Z.le_gt_cases b x); [done|]. by rewrite Z.div_small in E by lia. }
    assert (forall k, b ^ Z.of_nat (S k) = b * b ^ Z.of_nat k) as Hpow by (intros k; rewrite Nat2Z.inj_succ; apply Z.pow_succ_r; lia).
    destruct room as [|room]; [rewrite Hpow in Hx; change (b ^ Z.of_nat 0) with 1 in Hx; lia|].
    destruct (IH ltac:(lia) (x / b)) as (w & -> & Hw & Hlt & Hge).
    { split; [apply Z.div_pos; lia|]. apply Z.div_lt_upper_bound; [lia|]. rewrite <- Hpow. apply Hx. }
    exists (S w). split; [|split; [lia|split]].
    + f_equal. cbn [seq fmap list_fmap]. f_equal. rewrite <- fmap_S_seq, <- list_fmap_compose. apply list_fmap_ext. intros i k _. unfold compose.
      by rewrite Hpow, <- Z.div_div by lia.
    + rewrite Hpow. pose proof (Z.div_mod x b ltac:(lia)). nia.
    + intros [|[|v]] Hv; [lia|by change (b ^ Z.of_nat 1) with (b ^ 1); rewrite Z.pow_1_r|]. rewrite Hpow.
      specialize (Hge (S v) ltac:(lia)). pose proof (Z.mul_div_le x b ltac:(lia)). nia.
Qed.

Lemma width_unique b n w : (0 < w <= 16)%nat -> n < b ^ Z.of_nat w -> (forall v, (0 < v < w)%nat -> b ^ Z.of_nat v <= n) -> width b n = w.
Proof.
  intros Hw Hlt Hge. unfold width. assert (list_find (fun w => n < b ^ Z.of_nat w) (seq 1 16) = Some ((w - 1)%nat, w)) as E.
  { apply list_find_Some. split; [apply lookup_seq; lia|]. split; [done|]. intros j y Hj Hlj. apply lookup_seq in Hj as [-> _].
    specialize (Hge (1 + j)%nat ltac:(lia)). lia. }
  by rewrite E.
Qed.

(** The sixteen bytes of [buf] hold every number with its sign. *)
Lemma digits_loop_numeral b x : 10 <= b <= 16 -> 0 <= x < 2 ^ 32 ->
  exists l, digits_loop 16 x b = Some l /\ rev l = numeral b x /\ (length l < 16)%nat.
Proof.
  intros Hb Hx. assert (10 ^ 10 <= b ^ 10) as Hp by (apply Z.pow_le_mono_l; lia).
  assert (b ^ 10 <= b ^ 16) as Hp' by (apply Z.pow_le_mono_r; lia).
  destruct (digits_loop_run b 16 ltac:(lia) ltac:(lia) x) as (w & E & Hw & Hlt & Hge); [change (Z.of_nat 16) with 16; lia|].
  eexists. split; [exact E|]. split.
  - unfold numeral. rewrite (width_unique b x w Hw Hlt Hge). symmetry. apply List.map_rev.
  - rewrite length_fmap, length_seq. destruct (decide (w < 16)%nat); [done|]. assert (w = 16)%nat as -> by lia.
    specialize (Hge 10%nat ltac:(lia)). change (Z.of_nat 10) with 10 in Hge. lia.
Qed.

Lemma printint_buf_dec x : (fun l => rev l) <$> printint_buf x 10 true = Some (shown_int x).
Proof.
  unfold printint_buf, shown_int. cbn [andb]. set (y := s32 x). assert (- 2 ^ 31 <= y < 2 ^ 31) as Hy by (subst y; lia).
  destruct (Z.ltb_spec y 0) as [Hn|Hn].
  - rewrite u32_id by lia. destruct (digits_loop_numeral 10 (- y)) as (l & -> & <- & Hl); [lia..|].
    rewrite (proj2 (Nat.ltb_lt _ _) Hl). cbn. by rewrite rev_app_distr.
  - rewrite u32_id by lia. destruct (digits_loop_numeral 10 y) as (l & -> & <- & _); [lia..|]. done.
Qed.

Lemma printint_buf_hex x : (fun l => rev l) <$> printint_buf x 16 false = Some (shown_hex x).
Proof.
  unfold printint_buf, shown_hex. cbn [andb]. replace (u32 (s32 x)) with (u32 x) by lia.
  destruct (digits_loop_numeral 16 (u32 x)) as (l & -> & <- & _); [lia..|]. done.
Qed.

(** What a format and its arguments stand for; [None] when an argument is
    missing or of the other kind. *)
Fixpoint expand (fmt : list Z) (args : list vararg) : option (list Z) :=
  match fmt with
  | [] => Some []
  | c :: fmt =>
      if negb (c =? PERCENT) then (fun o => c :: o) <$> expand fmt args
      else match fmt with
        | [] => Some []
        | c :: fmt =>
            if c =? 100 then
              match args with VInt x :: args => (fun o => shown_int x ++ o) <$> expand fmt args | _ => None end
            else if (c =? 120) || (c =? 112) then
              match args with VInt x :: args => (fun o => shown_hex x ++ o) <$> expand fmt args | _ => None end
            else if c =? 115 then
              match args with VStr s :: args => (fun o => default NULL_STR s ++ o) <$> expand fmt args | _ => None end
            else if c =? PERCENT then (fun o => PERCENT :: o) <$> expand fmt args
            else (fun o => PERCENT :: c :: o) <$> expand fmt args
        end
  end.

Lemma printint_run xx base sign l x : (fun l => rev l) <$> printint_buf xx base sign = Some l -> screen_ok x ->
  exists x', printint xx base sign x = Ret ((), x') /\ shown l x x'.
Proof.
  intros Hb Hx. unfold printint. apply fmap_Some in Hb as (m & -> & ->). by apply consputs_run.
Qed.

(** A program whose whole effect is to print [l]. *)
Definition prints (m : M screen ()) (l : list Z) : Prop :=
  forall x, screen_ok x -> exists x', m x = Ret ((), x') /\ shown l x x'.

Lemma prints_nil : prints (mret ()) [].
Proof. intros x Hx. exists x. split; [done|by apply shown_nil]. Qed.

Lemma prints_bind m k l o : prints m l -> prints k o -> prints (_ ← m; k) (l ++ o).
Proof.
  intros Hm Hk x Hx. destruct (Hm x Hx) as (y & Hy & S1). destruct (Hk y (sh_ok _ _ _ S1)) as (z & Hz & S2).
  exists z. rewrite (run_bind _ _ _ _ _ Hy). split; [done|]. by apply (shown_app l o x y z).
Qed.

Lemma prints_char c k o : prints k o -> prints (_ ← consputc c; k) (c :: o).
Proof. intros Hk. apply (prints_bind _ _ [c]); [|done]. intros x. apply consputc_run. Qed.

(** [cprintf] prints what its format stands for. *)
Lemma cprintf_run n : forall fmt args out, (length fmt <= n)%nat -> expand fmt args = Some out -> prints (cprintf fmt args) out.
Proof.
  induction n as [|n IH]; intros [|c fmt] args out Hn He; try (injection He as <-; apply prints_nil); [cbn in Hn; lia|].
  cbn [cprintf expand length] in *. destruct (c =? PERCENT); cbn [negb] in *.
  2: { apply fmap_Some in He as (o & He & ->). apply prints_char, IH; [lia|done]. }
  destruct fmt as [|d fmt]; [injection He as <-; apply prints_nil|]. cbn [length] in Hn.
  destruct (d =? 100); [|destruct ((d =? 120) || (d =? 112)); [|destruct (d =? 115); [|destruct (d =? PERCENT)]]].
  - destruct args as [|[v|] args]; [done| |done]. apply fmap_Some in He as (o & He & ->).
    apply prints_bind; [intros x; apply printint_run, printint_buf_dec|apply IH; [lia|done]].
  - destruct args as [|[v|] args]; [done| |done]. apply fmap_Some in He as (o & He & ->).
    apply prints_bind; [intros x; apply printint_run, printint_buf_hex|apply IH; [lia|done]].
  - destruct args as [|[|v] args]; [done..|]. apply fmap_Some in He as (o & He & ->).
    apply prints_bind; [intros x; by apply consputs_run|apply IH; [lia|done]].
  - apply fmap_Some in He as (o & He & ->). apply prints_char, IH; [lia|done].
  - apply fmap_Some in He as (o & He & ->). do 2 apply prints_char. apply IH; [lia|done].
Qed.
