(* ===== verification/LineSpec.v ===== *)
(** * The line discipline of the console

    [input] is a ring with three running counters.  Seen from outside it
    is the bytes ready to be read and the line being edited; the keys and
    [consoleread] act on these as on two lists. *)

From stdpp Require Import base numbers list gmap strings.
From S2P Require Import Prelude Bytes Machine Locks Bio Log FsState Screen Fs Console.
From S2P Require Import ConsoleSpec.
Open Scope Z_scope.

(** The [n] bytes of the ring from the counter [a]. *)
Definition slice (buf : list Z) (a : Z) (n : nat) : list Z :=
  (fun j => nth (Z.to_nat ((a + Z.of_nat j) mod INPUT_BUF)) buf 0) <$> seq 0 n.

Record lines := Lines { ready : list Z; editing : list Z }.
Definition lines_of (x : input) : lines :=
  Lines (slice (in_buf x) (in_r x) (Z.to_nat (u32 (in_w x - in_r x))))
        (slice (in_buf x) (in_w x) (Z.to_nat (u32 (in_e x - in_w x)))).

Record input_ok (x : input) : Prop := {
  ip_buf : length (in_buf x) = Z.to_nat INPUT_BUF;
  ip_r : 0 <= in_r x < 2 ^ 32;
  ip_w : 0 <= in_w x < 2 ^ 32;
  ip_e : 0 <= in_e x < 2 ^ 32;
  ip_used : u32 (in_w x - in_r x) + u32 (in_e x - in_w x) <= INPUT_BUF;
  ip_line : NEWLINE ∉ editing (lines_of x) }.

(** What a key does to the lines. *)
Definition held (l : lines) : Z := Z.of_nat (length (ready l) + length (editing l)).
Definition typed (c : Z) : Z := if c =? 13 then NEWLINE else c.
Definition accepted (c : Z) (l : lines) : bool := negb (c =? 0) && (held l <? INPUT_BUF).
Definition ends_line (c : Z) (l : lines) : bool :=
  (typed c =? NEWLINE) || (typed c =? ctrl_D) || (held l + 1 =? INPUT_BUF).

Definition is_erase (c : Z) : bool := (c =? ctrl_H) || (c =? 0x7f).
Definition key_spec (c : Z) (l : lines) : lines :=
  if c =? ctrl_P then l
  else if c =? ctrl_U then Lines (ready l) []
  else if is_erase c then Lines (ready l) (removelast (editing l))
  else if accepted c l then
    if ends_line c l then Lines (ready l ++ editing l ++ [typed c]) []
    else Lines (ready l) (editing l ++ [typed c])
  else l.

(** What it shows on the screen. *)
Definition echo (c : Z) (l : lines) : list Z :=
  if c =? ctrl_P then []
  else if c =? ctrl_U then replicate (length (editing l)) BACKSPACE
  else if is_erase c then (if bool_decide (editing l = []) then [] else [BACKSPACE])
  else if accepted c l then [typed c] else [].

(** Whether it wakes a reader. *)
Definition wakes (c : Z) (l : lines) : bool :=
  negb (c =? ctrl_P) && negb (c =? ctrl_U) && negb (is_erase c) && accepted c l && ends_line c l.

(** ** Slices of the ring *)

Lemma slice_length buf a n : length (slice buf a n) = n.
Proof. unfold slice. by rewrite length_fmap, length_seq. Qed.

Lemma slice_lookup buf a n j : (j < n)%nat ->
  slice buf a n !! j = Some (nth (Z.to_nat ((a + Z.of_nat j) mod INPUT_BUF)) buf 0).
Proof. intros H. unfold slice. by rewrite list_lookup_fmap, lookup_seq_lt. Qed.

Lemma slice_snoc buf a n : slice buf a (S n) = slice buf a n ++ [nth (Z.to_nat ((a + Z.of_nat n) mod INPUT_BUF)) buf 0].
Proof. unfold slice. by rewrite seq_S, fmap_app. Qed.

Lemma slice_ext buf buf' a a' n :
  (forall j, (j < n)%nat -> nth (Z.to_nat ((a + Z.of_nat j) mod INPUT_BUF)) buf 0 = nth (Z.to_nat ((a' + Z.of_nat j) mod INPUT_BUF)) buf' 0) ->
  slice buf a n = slice buf' a' n.
Proof. intros H. apply list_fmap_ext. intros j k Hk. apply lookup_seq in Hk as [-> Hj]. by apply H. Qed.

Lemma slice_app buf a n m : slice buf a (n + m) = slice buf a n ++ slice buf (a + Z.of_nat n) m.
Proof.
  induction m as [|m IH]; [by rewrite Nat.add_0_r, app_nil_r|].
  rewrite Nat.add_succ_r, !slice_snoc, IH, <- app_assoc. do 4 f_equal. unfold INPUT_BUF. lia.
Qed.

Lemma slice_u32 buf a n : slice buf (u32 a) n = slice buf a n.
Proof. apply slice_ext. intros j Hj. unfold INPUT_BUF. do 2 f_equal. lia. Qed.

(** A store outside a slice leaves it alone. *)
Lemma slice_store buf a n i c : Z.of_nat n <= i < INPUT_BUF ->
  slice (<[Z.to_nat ((a + i) mod INPUT_BUF) := c]> buf) a n = slice buf a n.
Proof.
  intros Hi. apply slice_ext. intros j Hj. unfold INPUT_BUF in *. rewrite !nth_lookup, list_lookup_insert_ne; [done|].
  assert ((a + i) mod 128 <> (a + Z.of_nat j) mod 128); lia.
Qed.

(** ** The four moves on the input buffer *)

Lemma held_used x : held (lines_of x) = u32 (in_w x - in_r x) + u32 (in_e x - in_w x).
Proof. unfold held, lines_of. cbn [ready editing]. rewrite !slice_length. lia. Qed.

Lemma editing_nil x : input_ok x -> editing (lines_of x) = [] <-> in_e x = in_w x.
Proof.
  intros [H1 H2 H3 H4 H5 _]. unfold lines_of. cbn [editing]. rewrite <- length_zero_iff_nil, slice_length. lia.
Qed.

Lemma ready_nil x : input_ok x -> ready (lines_of x) = [] <-> in_r x = in_w x.
Proof.
  intros [H1 H2 H3 H4 H5 _]. unfold lines_of. cbn [ready]. rewrite <- length_zero_iff_nil, slice_length. lia.
Qed.

(** [input.buf[input.e++ % INPUT_BUF] = c] *)
Definition in_put (c : Z) (x : input) : input := set_in_e (u32 (in_e x + 1)) (in_st (in_e x) c x).

Lemma in_put_lines c x : input_ok x -> held (lines_of x) < INPUT_BUF -> 0 <= c < 256 ->
  lines_of (in_put c x) = Lines (ready (lines_of x)) (editing (lines_of x) ++ [c]) /\
  (c <> NEWLINE -> input_ok (in_put c x)).
Proof.
  intros [H1 H2 H3 H4 H5 H6] Hh Hc. rewrite held_used in Hh. unfold INPUT_BUF in *.
  assert (lines_of (in_put c x) = Lines (ready (lines_of x)) (editing (lines_of x) ++ [c])) as E.
  { unfold lines_of, in_put. cbn [in_buf in_r in_w in_e set_in_e in_st set_in_buf ready editing]. f_equal.
    - replace (in_e x mod INPUT_BUF) with ((in_r x + (u32 (in_w x - in_r x) + u32 (in_e x - in_w x))) mod INPUT_BUF)
        by (unfold INPUT_BUF; lia). apply slice_store. unfold INPUT_BUF. lia.
    - replace (Z.to_nat (u32 (u32 (in_e x + 1) - in_w x))) with (S (Z.to_nat (u32 (in_e x - in_w x)))) by lia.
      rewrite slice_snoc. replace (in_e x mod INPUT_BUF) with ((in_w x + u32 (in_e x - in_w x)) mod INPUT_BUF) by (unfold INPUT_BUF; lia).
      f_equal; [apply slice_store; unfold INPUT_BUF; lia|]. rewrite Z2Nat.id by lia.
      rewrite nth_lookup, list_lookup_insert_eq by (unfold INPUT_BUF; lia). cbn. f_equal. lia. }
  split; [done|]. intros Hn. split; try rewrite E; cbn [in_buf in_r in_w in_e set_in_e in_st set_in_buf in_put editing]; [..|set_solver];
    unfold INPUT_BUF; rewrite ?length_insert; lia.
Qed.

(** [input.w = input.e] *)
Lemma commit_lines x : 0 <= in_e x < 2 ^ 32 -> length (in_buf x) = Z.to_nat INPUT_BUF -> 0 <= in_r x < 2 ^ 32 ->
  u32 (in_w x - in_r x) + u32 (in_e x - in_w x) <= INPUT_BUF ->
  lines_of (set_in_w (in_e x) x) = Lines (ready (lines_of x) ++ editing (lines_of x)) [] /\ input_ok (set_in_w (in_e x) x).
Proof.
  intros H1 H2 H3 H4. unfold INPUT_BUF in *.
  assert (lines_of (set_in_w (in_e x) x) = Lines (ready (lines_of x) ++ editing (lines_of x)) []) as E.
  { unfold lines_of. cbn [in_buf in_r in_w in_e set_in_w ready editing]. rewrite Z.sub_diag. f_equal.
    replace (Z.to_nat (u32 (in_e x - in_r x))) with (Z.to_nat (u32 (in_w x - in_r x)) + Z.to_nat (u32 (in_e x - in_w x)))%nat by lia.
    rewrite slice_app. f_equal. rewrite <- (slice_u32 _ (in_w x)), <- slice_u32. f_equal. lia. }
  split; [done|]. split; try rewrite E; cbn [in_buf in_r in_w in_e set_in_w editing]; unfold INPUT_BUF; try lia; set_solver.
Qed.

(** [input.e--] *)
Lemma erase_lines x : input_ok x -> in_e x <> in_w x ->
  let y := set_in_e (u32 (in_e x - 1)) x in
  lines_of y = Lines (ready (lines_of x)) (removelast (editing (lines_of x))) /\ input_ok y /\
  in_ld x (u32 (in_e x - 1)) <> NEWLINE.
Proof.
  intros [H1 H2 H3 H4 H5 H6] Hne y. unfold INPUT_BUF in *.
  assert (editing (lines_of x) = editing (lines_of y) ++ [in_ld x (u32 (in_e x - 1))]) as E.
  { subst y. unfold lines_of. cbn [in_buf in_r in_w in_e set_in_e editing].
    replace (Z.to_nat (u32 (in_e x - in_w x))) with (S (Z.to_nat (u32 (u32 (in_e x - 1) - in_w x)))) by lia.
    rewrite slice_snoc. unfold in_ld, INPUT_BUF. do 4 f_equal. lia. }
  rewrite E in H6. rewrite E, removelast_last. split; [done|]. split; [|intros Hq; rewrite Hq in H6; set_solver].
  split; try (subst y; cbn [in_buf in_r in_w in_e set_in_e]; unfold INPUT_BUF; lia). set_solver.
Qed.

(** [c = input.buf[input.r++ % INPUT_BUF]] *)
Lemma take_lines x c rd : input_ok x -> ready (lines_of x) = c :: rd ->
  let y := set_in_r (u32 (in_r x + 1)) x in
  in_ld x (in_r x) = c /\ lines_of y = Lines rd (editing (lines_of x)) /\ input_ok y /\ in_r x <> in_w x /\
  set_in_r (u32 (in_r y - 1)) y = x.
Proof.
  intros Hx E y. destruct Hx as [H1 H2 H3 H4 H5 H6]. unfold INPUT_BUF in *.
  assert (0 < u32 (in_w x - in_r x)) as Hp. { apply (f_equal length) in E. unfold lines_of in E. cbn [ready] in E. rewrite slice_length in E. cbn in E. lia. }
  assert (ready (lines_of x) = in_ld x (in_r x) :: ready (lines_of y)) as E'.
  { subst y. unfold lines_of. cbn [in_buf in_r in_w in_e set_in_r ready].
    replace (Z.to_nat (u32 (in_w x - in_r x))) with (1 + Z.to_nat (u32 (in_w x - u32 (in_r x + 1))))%nat by lia.
    rewrite slice_app, slice_u32. cbn [slice fmap list_fmap seq app]. unfold in_ld. by rewrite Z.add_0_r. }
  rewrite E in E'. injection E' as -> E'. split; [done|]. split; [by rewrite E'|]. split; [|split; [lia|]].
  - split; try (subst y; cbn [in_buf in_r in_w in_e set_in_r]; unfold INPUT_BUF; lia). done.
  - subst y. destruct x as [b r w e]. unfold set_in_r. cbn [in_buf in_r in_w in_e] in *. f_equal. lia.
Qed.

(** ** The keys *)

(** What a handler has done to the console: the buffer, the screen and the
    sleepers; nothing else changes. *)
Record handled (l' : lines) (out woke : list Z) (s s' : fs) : Prop := {
  hd_input : input_ok (cons_in s');
  hd_lines : lines_of (cons_in s') = l';
  hd_screen : shown out (scr s) (scr s');
  hd_woken : woken s' = woken s ++ woke;
  hd_rest : s' = set_woken (woken s') (set_scr (scr s') (set_cons_in (cons_in s') s)) }.

Lemma handled_nil s : input_ok (cons_in s) -> screen_ok (scr s) -> handled (lines_of (cons_in s)) [] [] s s.
Proof. intros Hi Hs. split; [done|done|by apply shown_nil|by rewrite app_nil_r|by destruct s]. Qed.

Lemma handled_trans l1 l2 o1 o2 w1 w2 s1 s2 s3 :
  handled l1 o1 w1 s1 s2 -> handled l2 o2 w2 s2 s3 -> handled l2 (o1 ++ o2) (w1 ++ w2) s1 s3.
Proof.
  intros [A1 A2 A3 A4 A5] [B1 B2 B3 B4 B5]. split; [done|done|by apply (shown_app _ _ _ (scr s2))|by rewrite B4, A4, app_assoc|].
  rewrite B5, A5. by destruct s1.
Qed.

(** A change of the buffer, echoed. *)
Lemma edit_run f c s : input_ok (f (cons_in s)) -> screen_ok (scr s) ->
  exists s', (_ ← setin f; onscr (consputc c)) s = Ret ((), s') /\
    handled (lines_of (f (cons_in s))) [c] [] s s' /\ cons_in s' = f (cons_in s).
Proof.
  intros Hi Hs. destruct (consputc_run c (scr s) Hs) as (x & Hx & S1).
  exists (set_scr x (set_cons_in (f (cons_in s)) s)). split; [|split; [split|done]]; [|done..|by rewrite app_nil_r|by destruct s].
  unfold setin, onscr, zoom. rewrite (run_bind (modify _) _ s () _ eq_refl). cbn [scr set_cons_in]. by rewrite Hx.
Qed.

Section keys.
Context (input_r : Z).

Lemma kill_line_run n : forall s, input_ok (cons_in s) -> screen_ok (scr s) ->
  length (editing (lines_of (cons_in s))) = n -> forall fuel, (n < fuel)%nat ->
  exists s', kill_line fuel s = Ret ((), s') /\
    handled (Lines (ready (lines_of (cons_in s))) []) (replicate n BACKSPACE) [] s s'.
Proof.
  induction n as [|n IH]; intros s Hi Hs Hn [|fuel] Hf; [lia| |lia|]; cbn [kill_line];
    rewrite (run_bind getin _ s (cons_in s) s eq_refl).
  - apply nil_length_inv in Hn as Hnil. apply editing_nil in Hnil as Hnil'; [|done]. rewrite Hnil', Z.eqb_refl. cbn [negb andb].
    exists s. split; [done|]. replace (Lines _ []) with (lines_of (cons_in s)); [by apply handled_nil|].
    rewrite <- Hnil. by destruct (lines_of (cons_in s)).
  - assert (in_e (cons_in s) <> in_w (cons_in s)) as Hne by (intros E; apply editing_nil in E; [by rewrite E in Hn|done]).
    destruct (erase_lines _ Hi Hne) as (E & Hok & Hnl). rewrite (proj2 (Z.eqb_neq _ _) Hne), (proj2 (Z.eqb_neq _ _) Hnl). cbn [negb andb].
    destruct (edit_run (set_in_e (u32 (in_e (cons_in s) - 1))) BACKSPACE s Hok Hs) as (t & Ht & Ah & Ac).
    rewrite E in Ah.
    assert (length (editing (lines_of (cons_in t))) = n) as Hl.
    { rewrite (hd_lines _ _ _ _ _ Ah). cbn [editing]. destruct (editing (lines_of (cons_in s))) using rev_ind; [done|].
      rewrite removelast_last. rewrite length_app in Hn. cbn in Hn. lia. }
    destruct (IH t (hd_input _ _ _ _ _ Ah) (sh_ok _ _ _ (hd_screen _ _ _ _ _ Ah)) Hl fuel) as (t' & Ht' & Bh); [lia|].
    rewrite (hd_lines _ _ _ _ _ Ah) in Bh. cbn [ready] in Bh.
    exists t'. split; [|by apply (handled_trans _ _ [BACKSPACE] (replicate n BACKSPACE) [] [] s t t' Ah Bh)].
    rewrite <- Ht'. unfold mbind, M_bind in Ht |- *. cbn beta iota in Ht |- *. destruct (setin _ s) as [[[] u]| | | |] eqn:Eu; try done.
    by rewrite Ht.
Qed.

(** A character is put into the line and echoed, and maybe ends it. *)
Lemma insert_key_run c s : 0 <= c < 256 -> input_ok (cons_in s) -> screen_ok (scr s) ->
  let l := lines_of (cons_in s) in held l < INPUT_BUF ->
  exists s', (_ ← setin (fun x => set_in_e (u32 (in_e x + 1)) (in_st (in_e x) (typed c) x));
           _ ← onscr (consputc (typed c));
           x ← getin;
           if (typed c =? NEWLINE) || (typed c =? ctrl_D) || (in_e x =? u32 (in_r x + INPUT_BUF)) then
             _ ← setin (set_in_w (in_e x)); wakeup input_r
           else mret ()) s = Ret ((), s') /\
    handled (if ends_line c l then Lines (ready l ++ editing l ++ [typed c]) [] else Lines (ready l) (editing l ++ [typed c]))
      [typed c] (if ends_line c l then [input_r] else []) s s'.
Proof.
  intros Hc Hi Hs l Hh. assert (0 <= typed c < 256) as Ht by (unfold typed, NEWLINE; case_match; lia).
  destruct (in_put_lines (typed c) _ Hi Hh Ht) as [El Hok]. fold l in El.
  destruct (consputc_run (typed c) (scr s) Hs) as (x & Hx & S1).
  set (t := set_scr x (set_cons_in (in_put (typed c) (cons_in s)) s)).
  rewrite (run_bind (setin _) _ s () (set_cons_in (in_put (typed c) (cons_in s)) s) eq_refl).
  rewrite (run_bind (onscr _) _ _ () t) by (unfold onscr, zoom; cbn [scr set_cons_in]; by rewrite Hx).
  rewrite (run_bind getin _ t (cons_in t) t eq_refl).
  assert ((in_e (cons_in t) =? u32 (in_r (cons_in t) + INPUT_BUF)) = (held l + 1 =? INPUT_BUF)) as Hfull.
  { subst t l. rewrite held_used in *. cbn [cons_in set_scr set_cons_in in_put in_e in_r in_st set_in_e set_in_buf].
    destruct Hi. unfold INPUT_BUF in *. lia. }
  rewrite Hfull. change (_ || _ || _) with (ends_line c l). destruct (ends_line c l) eqn:Ee.
  - destruct (commit_lines (cons_in t)) as [Ec Hok'].
    1-4: subst t l; rewrite held_used in Hh; destruct Hi; cbn; rewrite ?length_insert; unfold INPUT_BUF in *; (done || lia).
    change (cons_in t) with (in_put (typed c) (cons_in s)) in Ec. rewrite El in Ec. cbn [ready editing] in Ec.
    exists (set_woken (woken t ++ [input_r]) (set_cons_in (set_in_w (in_e (cons_in t)) (cons_in t)) t)). split; [done|].
    split; [done|done|done|done|by destruct s].
  - assert (typed c <> NEWLINE) as Hn by (intros E; unfold ends_line in Ee; by rewrite E in Ee).
    exists t. split; [done|]. split; [by apply Hok|done|done|by rewrite app_nil_r|by destruct s].
Qed.

(** The key has its effect on the lines, on the screen and on the readers. *)
Lemma console_key_run c s : 0 <= c < 256 -> input_ok (cons_in s) -> screen_ok (scr s) ->
  let l := lines_of (cons_in s) in
  exists s', console_key input_r c s = Ret (c =? ctrl_P, s') /\
    handled (key_spec c l) (echo c l) (if wakes c l then [input_r] else []) s s'.
Proof.
  intros Hc Hi Hs l. unfold console_key, key_spec, echo, wakes. destruct (c =? ctrl_P).
  { exists s. split; [done|]. by apply handled_nil. }
  destruct (c =? ctrl_U).
  { cbn [negb andb]. destruct (kill_line_run _ s Hi Hs eq_refl (S (Z.to_nat INPUT_BUF))) as (s' & Hs' & H).
    { pose proof (ip_used _ Hi) as Hu. rewrite <- held_used in Hu. unfold held in Hu. lia. }
    exists s'. by rewrite (run_bind _ _ _ _ _ Hs'). }
  change ((c =? ctrl_H) || (c =? 0x7f)) with (is_erase c). destruct (is_erase c).
  { cbn [negb andb]. rewrite (run_bind getin _ s (cons_in s) s eq_refl).
    destruct (Z.eqb_spec (in_e (cons_in s)) (in_w (cons_in s))) as [E|E]; cbn [negb].
    - apply editing_nil in E as E'; [|done]. fold l in E'. exists s. split; [done|].
      rewrite bool_decide_eq_true_2 by done. replace (Lines _ _) with l by (destruct l; cbn in *; by subst). by apply handled_nil.
    - destruct (erase_lines _ Hi E) as (El & Hok & _). fold l in El.
      destruct (edit_run (set_in_e (u32 (in_e (cons_in s) - 1))) BACKSPACE s Hok Hs) as (t & Ht & Ah & _).
      exists t. rewrite (run_bind _ _ _ _ _ Ht). split; [done|]. rewrite El in Ah.
      rewrite bool_decide_eq_false_2; [done|]. intros E'. by apply editing_nil in E'. }
  cbn [negb andb]. rewrite (run_bind getin _ s (cons_in s) s eq_refl).
  change (if c =? 13 then NEWLINE else c) with (typed c).
  assert ((negb (c =? 0) && (u32 (in_e (cons_in s) - in_r (cons_in s)) <? INPUT_BUF)) = accepted c l) as Ha.
  { unfold accepted. f_equal. subst l. rewrite held_used. destruct Hi. unfold INPUT_BUF in *. lia. }
  rewrite Ha. destruct (accepted c l) eqn:Eacc; cbn [andb].
  - destruct (insert_key_run c s Hc Hi Hs) as (s' & Hs' & H); [unfold accepted in Eacc; fold l; lia|].
    exists s'. by rewrite (run_bind _ _ _ _ _ Hs').
  - exists s. split; [done|]. by apply handled_nil.
Qed.

(** A sequence of keys. *)
Fixpoint wake_count (keys : list Z) (l : lines) : list Z :=
  match keys with
  | [] => []
  | c :: keys => (if wakes c l then [input_r] else []) ++ wake_count keys (key_spec c l)
  end.
Fixpoint echoes (keys : list Z) (l : lines) : list Z :=
  match keys with
  | [] => []
  | c :: keys => echo c l ++ echoes keys (key_spec c l)
  end.

Lemma consoleintr_run keys : Forall (fun c => 0 <= c < 256) keys -> forall s, input_ok (cons_in s) -> screen_ok (scr s) ->
  let l := lines_of (cons_in s) in
  exists s', consoleintr input_r keys s = Ret (existsb (fun c => c =? ctrl_P) keys, s') /\
    handled (foldl (fun l c => key_spec c l) l keys) (echoes keys l) (wake_count keys l) s s'.
Proof.
  induction 1 as [|c keys Hc Hk IH]; intros s Hi Hs l; [exists s; split; [done|by apply handled_nil]|].
  cbn [consoleintr foldl echoes wake_count existsb]. replace (c <? 0) with false by lia.
  destruct (console_key_run c s Hc Hi Hs) as (t & Ht & A). fold l in A.
  destruct (IH t (hd_input _ _ _ _ _ A) (sh_ok _ _ _ (hd_screen _ _ _ _ _ A))) as (t' & Ht' & B).
  rewrite (hd_lines _ _ _ _ _ A) in B.
  exists t'. rewrite (run_bind _ _ _ _ _ Ht), (run_bind _ _ _ _ _ Ht'). split; [done|]. by apply (handled_trans _ _ _ _ _ _ s t t' A B).
Qed.
End keys.

(** ** Reading *)

(** [consoleread] on the bytes that are ready: the call's fate, what it
    stores and what remains. *)
Fixpoint read_spec (rd : list Z) (killed : bool) (target n : Z) : cread * list Z * list Z :=
  if 0 <? n then
    match rd with
    | [] => (if killed then CDone (-1) else CSleep n, [], [])
    | c :: rd' =>
        if c =? ctrl_D then (CDone (target - n), [], if n <? target then rd else rd')
        else if c =? NEWLINE then (CDone (target - (n - 1)), [c], rd')
        else let '(r, l, rest) := read_spec rd' killed target (n - 1) in (r, c :: l, rest)
    end
  else (CDone (target - n), [], rd).

Definition read_from (rd ed : list Z) (s s' : fs) : Prop :=
  input_ok (cons_in s') /\ lines_of (cons_in s') = Lines rd ed /\ s' = set_cons_in (cons_in s') s.

Lemma lines_eta l : l = Lines (ready l) (editing l).
Proof. by destruct l. Qed.

Lemma consoleread_loop_run target fuel : forall n s, input_ok (cons_in s) -> (Z.to_nat n < fuel)%nat ->
  let l := lines_of (cons_in s) in
  let '(r, bytes, rest) := read_spec (ready l) (mykilled s) target n in
  exists s', consoleread_loop fuel target n s = Ret ((r, bytes), s') /\ read_from rest (editing l) s s'.
Proof.
  induction fuel as [|fuel IH]; intros n s Hi Hf l; [lia|]. cbn [consoleread_loop].
  destruct (0 <? n) eqn:En.
  2: { assert (read_spec (ready l) (mykilled s) target n = (CDone (target - n), [], ready l)) as ->.
       { destruct (ready l); cbn [read_spec]; by rewrite En. }
       exists s. split; [done|]. split; [done|]. split; [apply lines_eta|by destruct s]. }
  rewrite (run_bind getin _ s (cons_in s) s eq_refl). destruct (ready l) as [|c rd] eqn:El; cbn [read_spec]; rewrite En.
  { rewrite (proj1 (ready_nil _ Hi) El), Z.eqb_refl. rewrite (run_bind (gets mykilled) _ s (mykilled s) s eq_refl).
    exists s. split; [by destruct (mykilled s)|]. split; [done|]. split; [rewrite <- El; apply lines_eta|by destruct s]. }
  destruct (take_lines _ _ _ Hi El) as (Ec & Ey & Hy & Hne & Eback). rewrite (proj2 (Z.eqb_neq _ _) Hne), Ec.
  set (y := set_in_r (u32 (in_r (cons_in s) + 1)) (cons_in s)) in *.
  rewrite (run_bind (setin _) _ s () (set_cons_in y s) eq_refl).
  destruct (c =? ctrl_D); [|destruct (c =? NEWLINE)].
  - destruct (n <? target).
    + exists s. split; [|split; [done|]; split; [rewrite <- El; apply lines_eta|by destruct s]].
      rewrite (run_bind (setin _) _ _ () s); [done|]. unfold setin, modify. cbn [cons_in set_cons_in]. rewrite Eback. by destruct s.
    + exists (set_cons_in y s). by split.
  - exists (set_cons_in y s). by split.
  - specialize (IH (n - 1) (set_cons_in y s) Hy ltac:(lia)). cbn zeta in IH. cbn [cons_in set_cons_in mykilled] in IH.
    rewrite Ey in IH. cbn [ready editing] in IH. destruct (read_spec rd (mykilled s) target (n - 1)) as [[r bytes] rest].
    destruct IH as (s' & Hs' & H1 & H2 & H3). exists s'. rewrite (run_bind _ _ _ _ _ Hs'). split; [done|].
    split; [done|]. split; [done|]. rewrite H3. by destruct s.
Qed.

(** A whole line that is ready is what the read returns. *)
Lemma read_spec_line line rest killed target : forall n, Forall (fun c => c <> NEWLINE /\ c <> ctrl_D) line ->
  Z.of_nat (length line) < n ->
  read_spec (line ++ NEWLINE :: rest) killed target n =
    (CDone (target - n + Z.of_nat (length line) + 1), line ++ [NEWLINE], rest).
Proof.
  intros n Hl. revert n. induction Hl as [|c line [H1 H2] Hl IH]; intros n Hn; cbn [app read_spec length] in *.
  - replace (0 <? n) with true by lia. change (NEWLINE =? ctrl_D) with false. rewrite Z.eqb_refl. do 3 f_equal. lia.
  - replace (0 <? n) with true by lia. rewrite (proj2 (Z.eqb_neq _ _) H2), (proj2 (Z.eqb_neq _ _) H1), IH by lia. do 3 f_equal. lia.
Qed.

(** Printable keys build up the line; Enter finishes it. *)
Lemma key_spec_text c l : c <> ctrl_P -> c <> ctrl_U -> c <> ctrl_H -> c <> 0x7f -> c <> 13 -> c <> 0 -> c <> NEWLINE -> c <> ctrl_D ->
  held l + 1 < INPUT_BUF -> key_spec c l = Lines (ready l) (editing l ++ [c]).
Proof.
  intros. unfold key_spec, is_erase, accepted, ends_line, typed.
  do 5 (rewrite (proj2 (Z.eqb_neq _ _)) by done). cbn [orb negb andb]. rewrite (proj2 (Z.eqb_neq c 13)) by done.
  replace (held l <? INPUT_BUF) with true by lia. do 2 (rewrite (proj2 (Z.eqb_neq _ _)) by done). cbn [orb].
  by replace (held l + 1 =? INPUT_BUF) with false by lia.
Qed.

Definition printable (c : Z) : Prop := 32 <= c < 127.

Lemma key_spec_printable c l : printable c -> held l + 1 < INPUT_BUF -> key_spec c l = Lines (ready l) (editing l ++ [c]).
Proof. intros [H1 H2] Hh. apply key_spec_text; [..|done]; intros ->; by vm_compute in H1, H2. Qed.

Lemma type_line line : Forall printable line -> forall l, held l + Z.of_nat (length line) < INPUT_BUF ->
  foldl (fun l c => key_spec c l) l (line ++ [13]) = Lines (ready l ++ editing l ++ line ++ [NEWLINE]) [].
Proof.
  induction 1 as [|c line Hc _ IH]; intros l Hh; cbn [app foldl length] in *.
  - unfold key_spec, accepted, ends_line. change (typed 13) with NEWLINE. cbn [negb Z.eqb andb orb].
    replace (held l <? INPUT_BUF) with true by lia. done.
  - rewrite key_spec_printable, IH; [|unfold held in *; cbn [ready editing]; rewrite length_app; cbn [length]; lia|done|lia].
    cbn [ready editing]. by rewrite <- app_assoc.
Qed.
