(* ===== verification/Kbd.v ===== *)
(** * [kernel/kbd.c] and [kernel/kbd.h]: the keyboard

    Scan codes to characters.  The state is [kbdgetc]'s static variable
    [shift] and the bytes waiting at the keyboard's data port; the status
    port says whether there is one. *)

From stdpp Require Import base numbers list.
From S2P Require Import Prelude.
Open Scope Z_scope.

Definition NO : Z := 0.
Definition SHIFT : Z := Z.shiftl 1 0.
Definition CTL : Z := Z.shiftl 1 1.
Definition ALT : Z := Z.shiftl 1 2.
Definition CAPSLOCK : Z := Z.shiftl 1 3.
Definition NUMLOCK : Z := Z.shiftl 1 4.
Definition SCROLLLOCK : Z := Z.shiftl 1 5.
Definition E0ESC : Z := Z.shiftl 1 6.

Definition KEY_HOME : Z := 0xE0.
Definition KEY_END : Z := 0xE1.
Definition KEY_UP : Z := 0xE2.
Definition KEY_DN : Z := 0xE3.
Definition KEY_LF : Z := 0xE4.
Definition KEY_RT : Z := 0xE5.
Definition KEY_PGUP : Z := 0xE6.
Definition KEY_PGDN : Z := 0xE7.
Definition KEY_INS : Z := 0xE8.
Definition KEY_DEL : Z := 0xE9.

(** An array of 256 with the leading elements [l] and the designated
    elements [d]; the others are 0. *)
Definition table (l : list Z) (d : list (Z * Z)) : list Z :=
  foldr (fun p t => <[Z.to_nat p.1 := p.2]> t) (l ++ replicate (256 - length l) 0) d.


Definition normalmap : list Z := table [NO; 27; 49; 50; 51; 52; 53; 54;
   55; 56; 57; 48; 45; 61; 8; 9;
   113; 119; 101; 114; 116; 121; 117; 105;
   111; 112; 91; 93; 10; NO; 97; 115;
   100; 102; 103; 104; 106; 107; 108; 59;
   39; 96; NO; 92; 122; 120; 99; 118;
   98; 110; 109; 44; 46; 47; NO; 42;
   NO; 32; NO; NO; NO; NO; NO; NO;
   NO; NO; NO; NO; NO; NO; NO; 55;
   56; 57; 45; 52; 53; 54; 43; 49;
   50; 51; 48; 46; NO; NO; NO; NO]
  [(0x9C, 10); (0xB5, 47); (0xC8, KEY_UP); (0xD0, KEY_DN);
   (0xC9, KEY_PGUP); (0xD1, KEY_PGDN); (0xCB, KEY_LF); (0xCD, KEY_RT);
   (0x97, KEY_HOME); (0xCF, KEY_END); (0xD2, KEY_INS); (0xD3, KEY_DEL)].

Definition shiftmap : list Z := table [NO; 27; 33; 64; 35; 36; 37; 94;
   38; 42; 40; 41; 95; 43; 8; 9;
   81; 87; 69; 82; 84; 89; 85; 73;
   79; 80; 123; 125; 10; NO; 65; 83;
   68; 70; 71; 72; 74; 75; 76; 58;
   34; 126; NO; 124; 90; 88; 67; 86;
   66; 78; 77; 60; 62; 63; NO; 42;
   NO; 32; NO; NO; NO; NO; NO; NO;
   NO; NO; NO; NO; NO; NO; NO; 55;
   56; 57; 45; 52; 53; 54; 43; 49;
   50; 51; 48; 46; NO; NO; NO; NO]
  [(0x9C, 10); (0xB5, 47); (0xC8, KEY_UP); (0xD0, KEY_DN);
   (0xC9, KEY_PGUP); (0xD1, KEY_PGDN); (0xCB, KEY_LF); (0xCD, KEY_RT);
   (0x97, KEY_HOME); (0xCF, KEY_END); (0xD2, KEY_INS); (0xD3, KEY_DEL)].

Definition ctlmap : list Z := table [NO; NO; NO; NO; NO; NO; NO; NO;
   NO; NO; NO; NO; NO; NO; NO; NO;
   17; 23; 5; 18; 20; 25; 21; 9;
   15; 16; NO; NO; 13; NO; 1; 19;
   4; 6; 7; 8; 10; 11; 12; NO;
   NO; NO; NO; 28; 26; 24; 3; 22;
   2; 14; 13; NO; NO; 239; NO; NO]
  [(0x9C, 13); (0xB5, 239); (0xC8, KEY_UP); (0xD0, KEY_DN);
   (0xC9, KEY_PGUP); (0xD1, KEY_PGDN); (0xCB, KEY_LF); (0xCD, KEY_RT);
   (0x97, KEY_HOME); (0xCF, KEY_END); (0xD2, KEY_INS); (0xD3, KEY_DEL)].

Definition shiftcode : list Z := table []
  [(0x1D, CTL); (0x2A, SHIFT); (0x36, SHIFT); (0x38, ALT); (0x9D, CTL); (0xB8, ALT)].

Definition togglecode : list Z := table []
  [(0x3A, CAPSLOCK); (0x45, NUMLOCK); (0x46, SCROLLLOCK)].

(** [charcode] *)
Definition charcode (i : Z) : list Z :=
  if i =? 0 then normalmap else if i =? 1 then shiftmap else ctlmap.
Definition tab (t : list Z) (i : Z) : Z := nth (Z.to_nat i) t 0.

Record kbd := Kbd { kb_shift : Z; kb_port : list Z }.

Definition kbdgetc : M kbd Z :=
  port ← gets kb_port; shift ← gets kb_shift;
  match port with
  | [] => mret (-1)
  | data :: rest =>
      let ret shift c : M kbd Z := _ ← modify (fun _ => Kbd shift rest); mret c in
      if data =? 0xE0 then ret (Z.lor shift E0ESC) 0
      else if negb (Z.land data 0x80 =? 0) then
        let data := if negb (Z.land shift E0ESC =? 0) then data else Z.land data 0x7F in
        ret (Z.land shift (Z.lnot (Z.lor (tab shiftcode data) E0ESC))) 0
      else
        let '(data, shift) :=
          if negb (Z.land shift E0ESC =? 0)
          then (Z.lor data 0x80, Z.land shift (Z.lnot E0ESC)) else (data, shift) in
        let shift := Z.lor shift (tab shiftcode data) in
        let shift := Z.lxor shift (tab togglecode data) in
        let c := tab (charcode (Z.land shift (Z.lor CTL SHIFT))) data in
        let c :=
          if negb (Z.land shift CAPSLOCK =? 0) then
            if (97 <=? c) && (c <=? 122) then c + (65 - 97)
            else if (65 <=? c) && (c <=? 90) then c + (97 - 65)
            else c
          else c in
        ret shift c
  end.

(** The values [consoleintr(kbdgetc)] sees: up to the first negative one. *)
Fixpoint kbd_keys (fuel : nat) : M kbd (list Z) :=
  match fuel with
  | O => nofuel
  | S k =>
      c ← kbdgetc;
      if c <? 0 then mret [] else l ← kbd_keys k; mret (c :: l)
  end.
