(* ===== verification/FileSys.v ===== *)
(** * What the process code asks of the file system

    [fork], [exit] and [userinit] call into [file.c], [pipe.c], [fs.c] and
    [log.c].  The class [FileSys] lists these calls; a file or inode
    pointer is a [Z], 0 is NULL.  They run on the machine's memory and on
    the file system's own state, which may hold allocated pages: the pipes.
    [fs_enter] tells them [pid], [killed] and [cwd] of the caller, which
    they read through [myproc()].  [FileSysOk] is what the process code
    relies on. *)

From stdpp Require Import base numbers list gmap strings sorting.
From S2P Require Import Prelude Machine CString Kalloc.
Open Scope Z_scope.

Class FileSys := {
  fs_state : Type;
  fs_pages : fs_state -> list Z;
  fs_enter : Z -> Z -> Z -> fs_state -> fs_state;
  filedup : Z -> M (machine * fs_state) Z;
  fileclose : Z -> M (machine * fs_state) ();
  idup : Z -> M (machine * fs_state) Z;
  iput : Z -> M (machine * fs_state) ();
  begin_op : M (machine * fs_state) ();
  end_op : M (machine * fs_state) ();
  namei : list Z -> M (machine * fs_state) Z }.

(** The states of the file system while processes hold the references
    [Fr] to files and [Ir] to inodes: between two transactions, at the
    start of one, and where one may end. *)
Class FileSpec (F : FileSys) := {
  fs_ready : list Z -> list Z -> fs_state -> Prop;
  fs_begun : list Z -> list Z -> fs_state -> Prop;
  fs_ending : list Z -> list Z -> fs_state -> Prop }.

(** A call that leaves memory and the pages held alone and takes the file
    system from [A] to [B]. *)
Definition silent_call {F : FileSys} {T} (op : M (machine * fs_state) T) (A : fs_state -> Prop) (r : T) (B : fs_state -> Prop) : Prop :=
  forall s f, A f -> exists f', op (s, f) = Ret (r, (s, f')) /\ fs_pages f' = fs_pages f /\ B f'.

(** A call that may give pages it holds back to the free list, writing no
    other memory. *)
Definition closing_call {LK : Linker} {F : FileSys} (op : M (machine * fs_state) ()) (A B : fs_state -> Prop) : Prop :=
  forall s f l, A f -> kmem_inv s l -> NoDup (fs_pages f ++ l) -> Forall valid_page (fs_pages f) ->
    exists s' f' l', op (s, f) = Ret ((), (s', f')) /\ kmem_inv s' l' /\
      fs_pages f' ++ l' ≡ₚ fs_pages f ++ l /\
      frame (list_to_set (fs_pages f)) (mem s) (mem s') /\ cr3 s' = cr3 s /\ B f'.

(** A reference that is held can be duplicated and dropped. *)
Class FileSysOk (LK : Linker) (F : FileSys) (S : FileSpec F) := {
  fs_enter_pages : forall pid killed cwd f, fs_pages (fs_enter pid killed cwd f) = fs_pages f;
  fs_enter_ready : forall pid killed cwd Fr Ir f, fs_ready Fr Ir f -> fs_ready Fr Ir (fs_enter pid killed cwd f);
  fs_enter_begun : forall pid killed cwd Fr Ir f, fs_begun Fr Ir f -> fs_begun Fr Ir (fs_enter pid killed cwd f);
  fs_enter_ending : forall pid killed cwd Fr Ir f, fs_ending Fr Ir f -> fs_ending Fr Ir (fs_enter pid killed cwd f);
  fs_ready_perm : forall Fr Fr' Ir Ir' f, Fr ≡ₚ Fr' -> Ir ≡ₚ Ir' -> fs_ready Fr Ir f -> fs_ready Fr' Ir' f;
  filedup_ok : forall x Fr Ir, x ∈ Fr -> silent_call (filedup x) (fs_ready Fr Ir) x (fs_ready (x :: Fr) Ir);
  idup_ok : forall x Fr Ir, x ∈ Ir -> silent_call (idup x) (fs_ready Fr Ir) x (fs_ready Fr (x :: Ir));
  fileclose_ok : forall x Fr Ir, closing_call (fileclose x) (fs_ready (x :: Fr) Ir) (fs_ready Fr Ir);
  begin_op_ok : forall Fr Ir, silent_call begin_op (fs_ready Fr Ir) () (fs_begun Fr Ir);
  iput_ok : forall x Fr Ir, silent_call (iput x) (fs_begun Fr (x :: Ir)) () (fs_ending Fr Ir);
  end_op_ok : forall Fr Ir, silent_call end_op (fs_ending Fr Ir) () (fs_ready Fr Ir) }.

#[export] Instance fs_ready_proper {LK F S} {HF : FileSysOk LK F S} : Proper ((≡ₚ) ==> (≡ₚ) ==> (=) ==> iff) fs_ready.
Proof.
  intros Fr Fr' E1 Ir Ir' E2 f f' <-. split; apply fs_ready_perm; done || by symmetry.
Qed.
