(* ===== verification/Proc.v ===== *)
(** * [kernel/proc.c]: processes

    The process table, the operations on it and the parts of the CPU
    state they use.  A pointer to an entry of [ptable.proc] is its index,
    NULL is [None]; the saved registers live in the kernel stack pages,
    at the addresses [tf] and [context].  [ptable.lock] makes every
    critical section atomic.  A handler that calls [sched] stops there:
    [sleep], [yield] and [exit] leave the table as the scheduler finds
    it. *)

From stdpp Require Import base numbers list gmap strings.
From S2P Require Import Prelude Machine CString Kalloc Vm Shared FileSys.
Open Scope Z_scope.

Inductive procstate := UNUSED | EMBRYO | SLEEPING | RUNNABLE | RUNNING | ZOMBIE.
#[global] Instance procstate_eq_dec : EqDecision procstate.
Proof. solve_decision. Defined.

Record proc := Proc {
  sz : Z;
  pgdir : Z;
  parent_pgdir : Z;
  kstack : Z;
  state : procstate;
  pid : Z;
  parent : option nat;
  tf : Z;
  context : Z;
  chan : Z;
  killed : Z;
  ofile : list Z;
  cwd : Z;
  p_name : list Z;
  p_shared : list shared }.

Definition set_sz v p := Proc v (pgdir p) (parent_pgdir p) (kstack p) (state p) (pid p) (parent p)
  (tf p) (context p) (chan p) (killed p) (ofile p) (cwd p) (p_name p) (p_shared p).
Definition set_pgdir v p := Proc (sz p) v (parent_pgdir p) (kstack p) (state p) (pid p) (parent p)
  (tf p) (context p) (chan p) (killed p) (ofile p) (cwd p) (p_name p) (p_shared p).
Definition set_parent_pgdir v p := Proc (sz p) (pgdir p) v (kstack p) (state p) (pid p) (parent p)
  (tf p) (context p) (chan p) (killed p) (ofile p) (cwd p) (p_name p) (p_shared p).
Definition set_kstack v p := Proc (sz p) (pgdir p) (parent_pgdir p) v (state p) (pid p) (parent p)
  (tf p) (context p) (chan p) (killed p) (ofile p) (cwd p) (p_name p) (p_shared p).
Definition set_state v p := Proc (sz p) (pgdir p) (parent_pgdir p) (kstack p) v (pid p) (parent p)
  (tf p) (context p) (chan p) (killed p) (ofile p) (cwd p) (p_name p) (p_shared p).
Definition set_pid v p := Proc (sz p) (pgdir p) (parent_pgdir p) (kstack p) (state p) v (parent p)
  (tf p) (context p) (chan p) (killed p) (ofile p) (cwd p) (p_name p) (p_shared p).
Definition set_parent v p := Proc (sz p) (pgdir p) (parent_pgdir p) (kstack p) (state p) (pid p) v
  (tf p) (context p) (chan p) (killed p) (ofile p) (cwd p) (p_name p) (p_shared p).
Definition set_tf v p := Proc (sz p) (pgdir p) (parent_pgdir p) (kstack p) (state p) (pid p) (parent p)
  v (context p) (chan p) (killed p) (ofile p) (cwd p) (p_name p) (p_shared p).
Definition set_context v p := Proc (sz p) (pgdir p) (parent_pgdir p) (kstack p) (state p) (pid p) (parent p)
  (tf p) v (chan p) (killed p) (ofile p) (cwd p) (p_name p) (p_shared p).
Definition set_chan v p := Proc (sz p) (pgdir p) (parent_pgdir p) (kstack p) (state p) (pid p) (parent p)
  (tf p) (context p) v (killed p) (ofile p) (cwd p) (p_name p) (p_shared p).
Definition set_killed v p := Proc (sz p) (pgdir p) (parent_pgdir p) (kstack p) (state p) (pid p) (parent p)
  (tf p) (context p) (chan p) v (ofile p) (cwd p) (p_name p) (p_shared p).
Definition set_ofile v p := Proc (sz p) (pgdir p) (parent_pgdir p) (kstack p) (state p) (pid p) (parent p)
  (tf p) (context p) (chan p) (killed p) v (cwd p) (p_name p) (p_shared p).
Definition set_cwd v p := Proc (sz p) (pgdir p) (parent_pgdir p) (kstack p) (state p) (pid p) (parent p)
  (tf p) (context p) (chan p) (killed p) (ofile p) v (p_name p) (p_shared p).
Definition set_p_name v p := Proc (sz p) (pgdir p) (parent_pgdir p) (kstack p) (state p) (pid p) (parent p)
  (tf p) (context p) (chan p) (killed p) (ofile p) (cwd p) v (p_shared p).
Definition set_p_shared v p := Proc (sz p) (pgdir p) (parent_pgdir p) (kstack p) (state p) (pid p) (parent p)
  (tf p) (context p) (chan p) (killed p) (ofile p) (cwd p) (p_name p) v.

Section proc.
Context {LK : Linker} {FS : FileSys}.

(** The kernel as one CPU sees it: [curproc] is [mycpu()->proc] and [esp0]
    is [mycpu()->ts.esp0]. *)
Record kst := Kst {
  mach : machine;
  fsys : fs_state;
  ptable : list proc;
  nextpid : Z;
  initproc : option nat;
  curproc : option nat;
  kpgdir : Z;
  esp0 : Z }.

Definition set_mach v k := Kst v (fsys k) (ptable k) (nextpid k) (initproc k) (curproc k) (kpgdir k) (esp0 k).
Definition set_fsys v k := Kst (mach k) v (ptable k) (nextpid k) (initproc k) (curproc k) (kpgdir k) (esp0 k).
Definition set_ptable v k := Kst (mach k) (fsys k) v (nextpid k) (initproc k) (curproc k) (kpgdir k) (esp0 k).
Definition set_nextpid v k := Kst (mach k) (fsys k) (ptable k) v (initproc k) (curproc k) (kpgdir k) (esp0 k).
Definition set_initproc v k := Kst (mach k) (fsys k) (ptable k) (nextpid k) v (curproc k) (kpgdir k) (esp0 k).
Definition set_curproc v k := Kst (mach k) (fsys k) (ptable k) (nextpid k) (initproc k) v (kpgdir k) (esp0 k).
Definition set_esp0 v k := Kst (mach k) (fsys k) (ptable k) (nextpid k) (initproc k) (curproc k) (kpgdir k) v.

(** Memory operations and file-system calls inside the kernel. *)
Definition onm {A} (m : M machine A) : M kst A := zoom mach set_mach m.
Definition entered (k : kst) : fs_state :=
  match curproc k ≫= fun i => ptable k !! i with
  | Some p => fs_enter (pid p) (killed p) (cwd p) (fsys k)
  | None => fsys k
  end.
Definition onfs {A} (m : M (machine * fs_state) A) : M kst A :=
  zoom (fun k => (mach k, entered k)) (fun p k => set_mach p.1 (set_fsys p.2 k)) m.

(** Reading and writing through a [struct proc *]. *)
Definition getp (i : nat) : M kst proc := fun k =>
  match ptable k !! i with Some p => Ret (p, k) | None => Fault 0 end.
Definition setp (i : nat) (f : proc -> proc) : M kst () := fun k =>
  match ptable k !! i with
  | Some p => Ret ((), set_ptable (<[i := f p]> (ptable k)) k)
  | None => Fault 0
  end.

(** [myproc()], where it is dereferenced. *)
Definition myproc : M kst nat := fun k =>
  match curproc k with Some i => Ret (i, k) | None => Fault 0 end.

(** The address of an entry, used as a sleep channel. *)
Definition proc_addr (p : option nat) : Z :=
  match p with Some i => ld_ptable + SIZEOF_PROC * Z.of_nat i | None => 0 end.

(** Layout of [struct trapframe] and [struct context]. *)
Definition SIZEOF_TF : Z := 76.
Definition TF_EAX : Z := 28.
Definition TF_EIP : Z := 56.
Definition TF_ESP : Z := 68.
Definition TF_ES : Z := 40.
Definition TF_DS : Z := 44.
Definition TF_CS : Z := 60.
Definition TF_EFLAGS : Z := 64.
Definition TF_SS : Z := 72.
Definition SEG_UCODE : Z := 3.
Definition SEG_UDATA : Z := 4.
Definition DPL_USER : Z := 3.
Definition FL_IF : Z := 0x200.
Definition SIZEOF_CONTEXT : Z := 20.
Definition CTX_EIP : Z := 16.

Definition allocproc : M kst (option nat) :=
  ps ← gets ptable;
  match list_find (fun p => state p = UNUSED) ps with
  | None => mret None
  | Some (i, _) =>
      _ ← setp i (set_state EMBRYO);
      n ← gets nextpid;
      _ ← setp i (set_pid n);
      _ ← modify (set_nextpid (s32 (n + 1)));
      ks ← onm kalloc;
      _ ← setp i (set_kstack ks);
      if ks =? 0 then _ ← setp i (set_state UNUSED); mret None
      else
        let sp := ks + KSTACKSIZE in
        let sp := sp - SIZEOF_TF in
        _ ← setp i (set_tf sp);
        let sp := sp - 4 in
        _ ← onm (store32 sp ld_trapret);
        let sp := sp - SIZEOF_CONTEXT in
        _ ← setp i (set_context sp);
        _ ← onm (memset sp 0 SIZEOF_CONTEXT);
        _ ← onm (store32 (sp + CTX_EIP) ld_forkret);
        mret (Some i)
  end.

Definition switchuvm (i : nat) : M kst () :=
  p ← getp i;
  if kstack p =? 0 then panic "switchuvm: no kstack"
  else if pgdir p =? 0 then panic "switchuvm: no pgdir"
  else
    _ ← modify (set_esp0 (u32 (kstack p + KSTACKSIZE)));
    onm (lcr3 (V2P (pgdir p))).

Definition growproc (n : Z) : M kst Z :=
  i ← myproc;
  p ← getp i;
  r ← (if 0 <? n then onm (allocuvm (pgdir p) (sz p) (u32 (sz p + n)))
       else if n <? 0 then onm (deallocuvm (pgdir p) (sz p) (u32 (sz p + n)))
       else mret (sz p));
  if negb (n =? 0) && (r =? 0) then mret (-1)
  else
    _ ← setp i (set_sz r);
    _ ← switchuvm i;
    mret 0.

(** [for(i = 0; i < NOFILE; i++) if(curproc->ofile[i]) np->ofile[i] = filedup(...)] *)
Fixpoint dup_files (np : nat) (i : nat) (files : list Z) : M kst () :=
  match files with
  | [] => mret ()
  | f :: files =>
      _ ← (if f =? 0 then mret ()
           else g ← onfs (filedup f); setp np (fun p => set_ofile (<[i := g]> (ofile p)) p));
      dup_files np (S i) files
  end.

(** The entries of [old] that are replaced, and how many. *)
Fixpoint copy_shared (cur old : list shared) : list shared * nat :=
  match cur, old with
  | e :: cur, x :: old =>
      if size e =? 0 then (x :: old, O)
      else let '(r, n) := copy_shared cur old in (e :: r, S n)
  | _, _ => (old, O)
  end.

Definition fork : M kst Z :=
  c ← myproc;
  o ← allocproc;
  match o with
  | None => mret (-1)
  | Some np =>
      cp ← getp c;
      d ← onm (copyuvm (pgdir cp) (sz cp));
      _ ← setp np (set_pgdir d);
      if d =? 0 then
        p ← getp np;
        _ ← onm (kfree (kstack p));
        _ ← setp np (set_kstack 0);
        _ ← setp np (set_state UNUSED);
        mret (-1)
      else
        _ ← setp np (set_sz (sz cp));
        _ ← setp np (set_parent (Some c));
        p ← getp np;
        _ ← onm (memmove (tf p) (tf cp) SIZEOF_TF);
        _ ← setp np (set_parent_pgdir (pgdir cp));
        _ ← onm (store32 (tf p + TF_EAX) 0);
        _ ← dup_files np 0 (ofile cp);
        w ← onfs (idup (cwd cp));
        _ ← setp np (set_cwd w);
        p ← getp np;
        let '(sh, i) := copy_shared (p_shared cp) (p_shared p) in
        _ ← setp np (set_p_shared sh);
        if (10 <? i)%nat then
          _ ← onm (kfree (kstack p));
          _ ← setp np (set_kstack 0);
          _ ← setp np (set_state UNUSED);
          mret (-1)
        else
          nm ← safestrcpy (p_name p) (arr (p_name cp)) 16;
          _ ← setp np (set_p_name nm);
          _ ← setp np (set_state RUNNABLE);
          mret (pid p)
  end.

(** ** Sleeping, waking, scheduling *)

(** [sched()]: the checks before the switch to the scheduler. *)
Definition sched : M kst () :=
  i ← myproc;
  p ← getp i;
  if decide (state p = RUNNING) then panic "sched running" else mret ().

Definition yield : M kst () :=
  i ← myproc; _ ← setp i (set_state RUNNABLE); sched.

(** [sleep] up to the switch, and what it does when it is resumed. *)
Definition sleep (ch : Z) : M kst () :=
  k ← gets curproc;
  match k with
  | None => panic "sleep"
  | Some i => _ ← setp i (set_chan ch); _ ← setp i (set_state SLEEPING); sched
  end.
Definition sleep_resumed : M kst () := i ← myproc; setp i (set_chan 0).

Definition wakeup1 (ch : Z) : M kst () :=
  modify (fun k => set_ptable
    ((fun p => if decide (state p = SLEEPING /\ chan p = ch) then set_state RUNNABLE p else p)
       <$> ptable k) k).
Definition wakeup (ch : Z) : M kst () := wakeup1 ch.

Definition kill (n : Z) : M kst Z :=
  ps ← gets ptable;
  match list_find (fun p => pid p = n) ps with
  | None => mret (-1)
  | Some (i, _) =>
      _ ← setp i (set_killed 1);
      p ← getp i;
      _ ← (if decide (state p = SLEEPING) then setp i (set_state RUNNABLE) else mret ());
      mret 0
  end.

(** One choice of the scheduler: the entry [i] is run if it is runnable. *)
Definition scheduler_pick (i : nat) : M kst bool :=
  p ← getp i;
  if decide (state p = RUNNABLE) then
    _ ← modify (set_curproc (Some i));
    _ ← switchuvm i;
    _ ← setp i (set_state RUNNING);
    mret true
  else mret false.

(** Back in the scheduler after [swtch]. *)
Definition scheduler_back : M kst () :=
  d ← gets kpgdir; _ ← onm (switchkvm d); modify (set_curproc None).

(** ** [exit] and [wait] *)

Fixpoint close_files (c : nat) (fd : nat) (files : list Z) : M kst () :=
  match files with
  | [] => mret ()
  | f :: files =>
      _ ← (if f =? 0 then mret ()
           else _ ← onfs (fileclose f); setp c (fun p => set_ofile (<[fd := 0]> (ofile p)) p));
      close_files c (S fd) files
  end.

(** The loop over [curproc->shared] in [exit]. *)
Fixpoint exit_shared (orphan : bool) (sh : list shared) : M kst (list shared) :=
  match sh with
  | [] => mret []
  | e :: sh =>
      _ ← (if orphan then onm (kfree (memstart e)) else mret ());
      r ← exit_shared orphan sh;
      mret ((if SHAREDBASE <? memstart e then Shared (name e) 0 0 else e) :: r)
  end.

(** Children of [c] among the entries [ids] are given to [initproc]. *)
Fixpoint reparent (c : nat) (ini : option nat) (ids : list nat) : M kst () :=
  match ids with
  | [] => mret ()
  | i :: ids =>
      p ← getp i;
      _ ← (if decide (parent p = Some c) then
             _ ← setp i (set_parent ini);
             if decide (state p = ZOMBIE) then wakeup1 (proc_addr ini) else mret ()
           else mret ());
      reparent c ini ids
  end.

Definition exit : M kst () :=
  c ← myproc;
  ini ← gets initproc;
  if decide (Some c = ini) then panic "init exiting"
  else
    cp ← getp c;
    _ ← close_files c 0 (ofile cp);
    sh ← exit_shared (bool_decide (parent cp = None)) (p_shared cp);
    _ ← setp c (set_p_shared sh);
    _ ← onfs begin_op;
    _ ← onfs (iput (cwd cp));
    _ ← onfs end_op;
    _ ← setp c (set_cwd 0);
    cp ← getp c;
    _ ← wakeup1 (proc_addr (parent cp));
    n ← gets (fun k => length (ptable k));
    _ ← reparent c ini (seq 0 n);
    _ ← setp c (set_state ZOMBIE);
    sched.

(** Collecting the zombie [p] in entry [i]. *)
Definition reap (i : nat) (p : proc) : M kst Z :=
  _ ← onm (kfree (kstack p));
  _ ← setp i (set_kstack 0);
  _ ← onm (freevm (pgdir p));
  _ ← setp i (set_pid 0);
  _ ← setp i (set_parent None);
  _ ← setp i (fun p => set_p_name (<[0%nat := 0]> (p_name p)) p);
  _ ← setp i (set_killed 0);
  _ ← setp i (set_state UNUSED);
  mret (pid p).

(** One pass of [wait] over the table: [inl pid] when a zombie child was
    collected, otherwise whether there are children. *)
Fixpoint wait_scan (c : nat) (havekids : bool) (ids : list nat) : M kst (Z + bool) :=
  match ids with
  | [] => mret (inr havekids)
  | i :: ids =>
      p ← getp i;
      if negb (bool_decide (parent p = Some c)) then wait_scan c havekids ids
      else if decide (state p = ZOMBIE) then pid ← reap i p; mret (inl pid)
      else wait_scan c true ids
  end.

(** [wait] up to its return ([Some]) or to the switch inside [sleep]
    ([None]); it starts over when it is resumed. *)
Definition wait : M kst (option Z) :=
  c ← myproc;
  n ← gets (fun k => length (ptable k));
  r ← wait_scan c false (seq 0 n);
  match r with
  | inl p => mret (Some p)
  | inr havekids =>
      cp ← getp c;
      if negb havekids || negb (killed cp =? 0) then mret (Some (-1))
      else _ ← sleep (proc_addr (Some c)); mret None
  end.
Definition wait_resumed : M kst (option Z) := _ ← sleep_resumed; wait.

(** [userinit]; the two addresses are the linker's symbols of the embedded
    [initcode]. *)
Definition userinit (init_start init_size : Z) : M kst () :=
  o ← allocproc;
  _ ← modify (set_initproc o);
  match o with
  | None => fault 0
  | Some i =>
      d ← onm setupkvm;
      _ ← setp i (set_pgdir d);
      if d =? 0 then panic "userinit: out of memory?"
      else
        _ ← onm (inituvm d init_start init_size);
        _ ← setp i (set_sz PGSIZE);
        p ← getp i;
        _ ← onm (memset (tf p) 0 SIZEOF_TF);
        let ds := Z.lor (Z.shiftl SEG_UDATA 3) DPL_USER in
        _ ← onm (store16 (tf p + TF_CS) (Z.lor (Z.shiftl SEG_UCODE 3) DPL_USER));
        _ ← onm (store16 (tf p + TF_DS) ds);
        _ ← onm (store16 (tf p + TF_ES) ds);
        _ ← onm (store16 (tf p + TF_SS) ds);
        _ ← onm (store32 (tf p + TF_EFLAGS) FL_IF);
        _ ← onm (store32 (tf p + TF_ESP) PGSIZE);
        _ ← onm (store32 (tf p + TF_EIP) 0);
        nm ← safestrcpy (p_name p) (arr [105; 110; 105; 116; 99; 111; 100; 101; 0]) 16;
        _ ← setp i (set_p_name nm);
        w ← onfs (namei [47]);
        _ ← setp i (set_cwd w);
        setp i (set_state RUNNABLE)
  end.
End proc.
