(* ===== verification/Refs.v ===== *)
(** * The references processes hold

    The open files and the current directories in the process table, and
    the invariant that joins the table with the file system: the file
    system counts exactly these references, a process in use has a
    directory, and an unused entry or a zombie holds nothing. *)

From stdpp Require Import base numbers list gmap strings sorting.
From S2P Require Import Prelude Machine CString Kalloc Vm Shared FileSys Proc.
Open Scope Z_scope.

Section refs.
Context {LK : Linker} {FS : FileSys} {SP : FileSpec FS}.

Definition live (p : proc) : Prop := state p <> UNUSED /\ state p <> ZOMBIE.
#[global] Instance live_dec p : Decision (live p).
Proof. unfold live. apply _. Defined.

Definition files (ps : list proc) : list Z := concat ((fun p => nonzero (ofile p)) <$> ps).
Definition dirs (ps : list proc) : list Z := nonzero (cwd <$> ps).

Record slot_ok (p : proc) : Prop := {
  so_len : length (ofile p) = Z.to_nat NOFILE;
  so_live : live p -> cwd p <> 0;
  so_dead : ~ live p -> ofile p = replicate (Z.to_nat NOFILE) 0 /\ cwd p = 0 }.

Record ref_inv (k : kst) : Prop := {
  ri_ready : fs_ready (files (ptable k)) (dirs (ptable k)) (fsys k);
  ri_slots : forall i p, ptable k !! i = Some p -> slot_ok p }.

(** ** One entry and the others *)

Lemma files_lookup ps i p : ps !! i = Some p -> files ps ≡ₚ nonzero (ofile p) ++ files (delete i ps).
Proof. intros Hi. unfold files. by rewrite (delete_Permutation ps i p Hi) at 1. Qed.
Lemma dirs_lookup ps i p : ps !! i = Some p -> dirs ps ≡ₚ nonzero [cwd p] ++ dirs (delete i ps).
Proof.
  intros Hi. unfold dirs. rewrite (delete_Permutation ps i p Hi) at 1. rewrite fmap_cons, !nonzero_cons. by destruct (cwd p =? 0).
Qed.

Lemma delete_set {A} (ps : list A) : forall i q, delete i (<[i := q]> ps) = delete i ps.
Proof. induction ps as [|p ps IH]; intros [|i] q; simpl; [done..|]. unfold delete in *. simpl. by rewrite IH. Qed.

Lemma refs_insert_entry ps i p q : ps !! i = Some p ->
  files (<[i := q]> ps) ≡ₚ nonzero (ofile q) ++ files (delete i ps) /\
  dirs (<[i := q]> ps) ≡ₚ nonzero [cwd q] ++ dirs (delete i ps).
Proof.
  intros Hi. assert (<[i := q]> ps !! i = Some q) as Hq by (apply list_lookup_insert_eq; by eapply lookup_lt_Some).
  rewrite (files_lookup _ _ _ Hq), (dirs_lookup _ _ _ Hq). by rewrite delete_set.
Qed.

(** An entry that changes but holds the same. *)
Definition same_refs (p q : proc) : Prop := ofile q = ofile p /\ cwd q = cwd p.

#[export] Instance same_refs_preorder : PreOrder same_refs.
Proof. split; [done|]. intros p q r [H1 H2] [G1 G2]. split; congruence. Qed.

Lemma refs_same ps qs : Forall2 same_refs ps qs -> files qs = files ps /\ dirs qs = dirs ps.
Proof.
  induction 1 as [|p q ps qs [H1 H2] _ [IH1 IH2]]; [done|]. unfold files, dirs in *. rewrite !fmap_cons, !nonzero_cons. cbn [concat].
  by rewrite H1, H2, IH1, IH2.
Qed.

Lemma ref_same k k' : ref_inv k -> Forall2 same_refs (ptable k) (ptable k') -> fsys k' = fsys k ->
  (forall i p p', ptable k !! i = Some p -> ptable k' !! i = Some p' -> live p' <-> live p) -> ref_inv k'.
Proof.
  intros [R1 R2] Hall Hf Hl. destruct (refs_same _ _ Hall) as [E1 E2]. split; [by rewrite E1, E2, Hf|].
  intros i p' Hp'. destruct (Forall2_lookup_r _ _ _ _ _ Hall Hp') as (p & Hp & E3 & E4). specialize (Hl i p p' Hp Hp').
  destruct (R2 i p Hp) as [S1 S2 S3]. split; rewrite ?E3, ?E4; [done|by rewrite Hl|by rewrite Hl].
Qed.

(** What the files of a process are. *)
Lemma files_in ps i p x : ps !! i = Some p -> x ∈ nonzero (ofile p) -> x ∈ files ps.
Proof. intros Hi Hx. rewrite (files_lookup _ _ _ Hi). apply elem_of_app. by left. Qed.
Lemma dirs_in ps i p : ps !! i = Some p -> cwd p <> 0 -> cwd p ∈ dirs ps.
Proof. intros Hi Hx. rewrite (dirs_lookup _ _ _ Hi), nonzero_cons, (proj2 (Z.eqb_neq _ _) Hx). apply list_elem_of_here. Qed.

Lemma nonzero_one x : x <> 0 -> nonzero [x] = [x].
Proof. intros Hx. by rewrite nonzero_cons, (proj2 (Z.eqb_neq _ _) Hx). Qed.

Lemma nonzero_clear l : forall i x, l !! i = Some x -> x <> 0 -> nonzero l ≡ₚ x :: nonzero (<[i := 0]> l).
Proof.
  intros i x Hi Hx. rewrite <- (take_drop_middle l i x Hi) at 1. rewrite insert_take_drop by (by eapply lookup_lt_Some).
  rewrite !nonzero_app, !nonzero_cons, (proj2 (Z.eqb_neq _ _) Hx). cbn [Z.eqb]. symmetry. apply Permutation_middle.
Qed.

(** An entry that held nothing is filled. *)
Lemma ref_fill {HF : FileSysOk LK FS SP} k k' i p q : ref_inv k -> ptable k !! i = Some p -> ~ live p ->
  ptable k' = <[i := q]> (ptable k) -> slot_ok q ->
  fs_ready (nonzero (ofile q) ++ files (ptable k)) (nonzero [cwd q] ++ dirs (ptable k)) (fsys k') -> ref_inv k'.
Proof.
  intros [R1 R2] Hp Hd Hk' Hq Hr. destruct (refs_insert_entry _ i p q Hp) as [E1 E2].
  destruct (so_dead _ (R2 i p Hp) Hd) as [D1 D2].
  rewrite (files_lookup _ i p Hp), (dirs_lookup _ i p Hp), D1, D2, nonzero_zeros in Hr. change (nonzero [0]) with (@nil Z) in Hr.
  split; [by rewrite Hk', E1, E2|]. rewrite Hk'. intros j r Hj.
  apply list_lookup_insert_Some in Hj as [(<- & <- & _)|[_ Hj]]; [done|by eapply R2].
Qed.
End refs.
