(* ===== verification/Syscall.v ===== *)
(** * System-call arguments and the calls of [sysproc.c] and the shared
    memory calls of [sysfile.c]

    The out-parameters of [fetchint], [fetchstr] and the [arg*] functions
    are results: [None] is the return value -1, with nothing stored. *)

From stdpp Require Import base numbers list gmap strings.
From S2P Require Import Prelude Machine CString Kalloc Vm Shared FileSys Proc.
Open Scope Z_scope.

Section syscall.
Context {LK : Linker} {FS : FileSys}.

Definition fetchint (addr : Z) : M kst (option Z) :=
  c ← myproc; p ← getp c;
  if (sz p <=? addr) || (sz p <? u32 (addr + 4)) then mret None
  else v ← onm (load32 addr); mret (Some (s32 v)).

(** The loop of [fetchstr]: [n] bytes are left before [curproc->sz]. *)
Fixpoint fetchstr_loop (n : nat) (pp s : Z) : M kst (option (Z * Z)) :=
  match n with
  | O => mret None
  | S k =>
      c ← onm (load8 s);
      if c =? 0 then mret (Some (pp, s - pp)) else fetchstr_loop k pp (s + 1)
  end.

(** The pointer and the length of the string. *)
Definition fetchstr (addr : Z) : M kst (option (Z * Z)) :=
  c ← myproc; p ← getp c;
  if sz p <=? addr then mret None
  else fetchstr_loop (Z.to_nat (sz p - addr)) addr addr.

Definition argint (n : Z) : M kst (option Z) :=
  c ← myproc; p ← getp c;
  esp ← onm (load32 (tf p + TF_ESP));
  fetchint (u32 (esp + 4 + 4 * n)).

Definition argptr (n size : Z) : M kst (option Z) :=
  c ← myproc; p ← getp c;
  o ← argint n;
  match o with
  | None => mret None
  | Some i =>
      if (size <? 0) || (sz p <=? u32 i) || (sz p <? u32 (u32 i + size)) then mret None
      else mret (Some (u32 i))
  end.

Definition argstr (n : Z) : M kst (option (Z * Z)) :=
  o ← argint n;
  match o with
  | None => mret None
  | Some addr => fetchstr (u32 addr)
  end.

(** ** [sysproc.c] *)

Definition sys_fork : M kst Z := fork.

Definition sys_kill : M kst Z :=
  o ← argint 0;
  match o with None => mret (-1) | Some n => kill n end.

Definition sys_getpid : M kst Z := c ← myproc; p ← getp c; mret (pid p).

Definition sys_sbrk : M kst Z :=
  o ← argint 0;
  match o with
  | None => mret (-1)
  | Some n =>
      c ← myproc; p ← getp c;
      let addr := sz p in
      r ← growproc n;
      if r <? 0 then mret (-1) else mret addr
  end.

(** ** Shared structures *)

(** The characters of a user string. *)
Definition user_str (a : Z) : Z -> M kst Z := fun i => onm (load8 (a + i)).

Fixpoint share_scan (c : nat) (nm vm_start sz : Z) (i : nat) (sh : list shared) : M kst Z :=
  match sh with
  | [] => mret (-3)
  | e :: sh =>
      if size e =? 0 then
        b ← strncpy (user_str nm) SHAREDNAME;
        _ ← setp c (fun p => set_p_shared (<[i := Shared b vm_start sz]> (p_shared p)) p);
        mret (Z.of_nat i)
      else
        r ← strncmp (user_str nm) (arr (name e)) SHAREDNAME;
        if r =? 0 then mret (-2) else share_scan c nm vm_start sz (S i) sh
  end.

Definition sys_share_data : M kst Z :=
  c ← myproc;
  a0 ← argstr 0;
  match a0 with
  | None => mret (-1)
  | Some (nm, _) =>
      a1 ← argptr 1 4;
      match a1 with
      | None => mret (-1)
      | Some vm_start =>
          a2 ← argint 2;
          match a2 with
          | None => mret (-1)
          | Some sz => p ← getp c; share_scan c nm vm_start sz 0 (p_shared p)
          end
      end
  end.

Fixpoint get_scan (nm addr : Z) (sh : list shared) : M kst Z :=
  match sh with
  | [] => mret (-2)
  | e :: sh =>
      r ← strncmp (user_str nm) (arr (name e)) SHAREDNAME;
      if r =? 0 then _ ← onm (store32 addr (memstart e)); mret 0
      else get_scan nm addr sh
  end.

Definition sys_get_data : M kst Z :=
  c ← myproc;
  a0 ← argstr 0;
  match a0 with
  | None => mret (-1)
  | Some (nm, _) =>
      a1 ← argptr 1 4;
      match a1 with
      | None => mret (-1)
      | Some addr => p ← getp c; get_scan nm addr (p_shared p)
      end
  end.

(** [access_shared_memory] on the table of the current process. *)
Definition access_shared_memory (pgdir : Z) : M kst Z :=
  c ← myproc; p ← getp c;
  '(sh, r) ← onm (access_shared (parent_pgdir p) pgdir (p_shared p));
  _ ← setp c (set_p_shared sh);
  mret r.
End syscall.
