(* ===== verification/Sysfile.v ===== *)
(** * [kernel/sysfile.c]: the file system calls

    The kernel state with the file system of [Fs.v] and [File.v] in it.  A
    [struct file *] or [struct inode *] stored in a process is the table
    index plus one, 0 is NULL.  A call that goes to sleep returns [Sleeps]
    with the point where it continues. *)

From stdpp Require Import base numbers list gmap strings.
From S2P Require Import Prelude Bytes Machine CString Kalloc Vm Shared FileSys Proc Syscall.
From S2P Require Import Locks Bio Log FsState Fs Pipe File.
Open Scope Z_scope.

(** ** The file system inside the kernel *)

Definition ptr_of (i : nat) : Z := Z.of_nat i + 1.
Definition deref {S} (p : Z) : M S nat := if p <=? 0 then fault p else mret (Z.to_nat (p - 1)).

Definition lift {A} (m : M fs A) : M (machine * fs) A :=
  zoom (fun p => set_fm p.1 p.2) (fun f _ => (fm f, f)) m.

(** [myproc()] as the code of the file system sees it. *)
Definition enter (pid killed cwd : Z) (f : fs) : fs :=
  let b := bio (jrn f) in
  let b := Bst (bufs b) (head_prev b) (head_next b) (memdisk b) (writes b) pid in
  Fs (fm f) (set_bio b (jrn f)) (sb f) (icache f) (ftable f) (pipes f) (cons_in f) (scr f) (woken f)
     (negb (killed =? 0)) (if cwd <=? 0 then None else Some (Z.to_nat (cwd - 1))).

Section sysfile.
Context {LK : Linker} {DS : Devsw}.

#[export] Instance xv6_files : FileSys := {|
  fs_state := fs;
  fs_pages := fun f => (map_to_list (pipes f)).*1;
  fs_enter := enter;
  FileSys.filedup := fun p => lift (i ← deref p; i ← filedup i; mret (ptr_of i));
  FileSys.fileclose := fun p => lift (i ← deref p; fileclose i);
  FileSys.idup := fun p => lift (i ← deref p; i ← idup i; mret (ptr_of i));
  FileSys.iput := fun p => lift (i ← deref p; iput i);
  FileSys.begin_op := lift (onj begin_op);
  FileSys.end_op := lift (onj end_op);
  FileSys.namei := fun path => lift (o ← namei path; mret (match o with Some i => ptr_of i | None => 0 end)) |}.

(** A computation of the file system run by the current process. *)
Definition onf {A} (m : M fs A) : M kst A := onfs (lift m).

(** The characters of a string argument. *)
Definition path_arg (n : Z) : M kst (option (list Z)) :=
  o ← argstr n;
  match o with
  | None => mret None
  | Some (a, len) => l ← onm (load_bytes a (Z.to_nat len)); mret (Some l)
  end.

(** What a system call comes to: a value, a process that does not return,
    or one asleep that continues, when it is woken, at a point of the
    kernel's code: the loop of [piperead] or [pipewrite], of [wait], of
    [sys_sleep]. *)
Inductive point :=
  | InRead (p addr n : Z)
  | InWrite (p addr n i : Z)
  | InWait
  | InSleep (ticks0 n : Z).
Inductive sysret := Value (r : Z) | Exits | Sleeps (pt : point).

(** [sleep(&p->nread, ..)] and [sleep(&p->nwrite, ..)] *)
Definition read_result (addr n : Z) (r : progress) : M kst sysret :=
  match r with
  | Done r => mret (Value r)
  | Asleep p _ => _ ← sleep (nread_of p); mret (Sleeps (InRead p addr n))
  end.
Definition write_result (addr n : Z) (r : progress) : M kst sysret :=
  match r with
  | Done r => mret (Value r)
  | Asleep p i => _ ← sleep (nwrite_of p); mret (Sleeps (InWrite p addr n i))
  end.

(** ** Descriptors *)

(** The descriptor and the file. *)
Definition argfd (n : Z) : M kst (option (Z * Z)) :=
  o ← argint n;
  match o with
  | None => mret None
  | Some fd =>
      if (fd <? 0) || (NOFILE <=? fd) then mret None
      else
        c ← myproc; p ← getp c;
        let f := nth (Z.to_nat fd) (ofile p) 0 in
        if f =? 0 then mret None else mret (Some (fd, f))
  end.

(** [for(fd = 0; fd < NOFILE; fd++) if(curproc->ofile[fd] == 0)] *)
Definition fdalloc (f : Z) : M kst Z :=
  c ← myproc; p ← getp c;
  match list_find (fun x => x = 0) (take (Z.to_nat NOFILE) (ofile p)) with
  | Some (fd, _) =>
      _ ← setp c (fun p => set_ofile (<[fd := f]> (ofile p)) p); mret (Z.of_nat fd)
  | None => mret (-1)
  end.

Definition sys_dup : M kst Z :=
  o ← argfd 0;
  match o with
  | None => mret (-1)
  | Some (_, f) =>
      fd ← fdalloc f;
      if fd <? 0 then mret (-1)
      else _ ← onf (i ← deref f; filedup i); mret fd
  end.

(** The arguments [f], [n] and [p] of [read] and [write]. *)
Definition rw_args : M kst (option (Z * Z * Z)) :=
  o ← argfd 0;
  match o with
  | None => mret None
  | Some (_, f) =>
      o ← argint 2;
      match o with
      | None => mret None
      | Some n =>
          o ← argptr 1 n;
          match o with None => mret None | Some p => mret (Some (f, n, p)) end
      end
  end.

Definition sys_read : M kst sysret :=
  o ← rw_args;
  match o with
  | None => mret (Value (-1))
  | Some (f, n, p) => r ← onf (i ← deref f; fileread i p n); read_result p n r
  end.

Definition sys_write : M kst sysret :=
  o ← rw_args;
  match o with
  | None => mret (Value (-1))
  | Some (f, n, p) => r ← onf (i ← deref f; filewrite i p n); write_result p n r
  end.

Definition sys_close : M kst Z :=
  o ← argfd 0;
  match o with
  | None => mret (-1)
  | Some (fd, f) =>
      c ← myproc;
      _ ← setp c (fun p => set_ofile (<[Z.to_nat fd := 0]> (ofile p)) p);
      _ ← onf (i ← deref f; fileclose i);
      mret 0
  end.

(** [sizeof(struct stat)], and storing one. *)
Definition SIZEOF_STAT : Z := 20.
Definition store_stat (a : Z) (st : stat) : M kst () :=
  _ ← onm (store32 (a + 4) (st_dev st));
  _ ← onm (store32 (a + 8) (st_ino st));
  _ ← onm (store16 a (st_type st));
  _ ← onm (store16 (a + 12) (st_nlink st));
  onm (store32 (a + 16) (st_size st)).

Definition sys_fstat : M kst Z :=
  o ← argfd 0;
  match o with
  | None => mret (-1)
  | Some (_, f) =>
      o ← argptr 1 SIZEOF_STAT;
      match o with
      | None => mret (-1)
      | Some a =>
          o ← onf (i ← deref f; filestat i);
          match o with
          | None => mret (-1)
          | Some st => _ ← store_stat a st; mret 0
          end
      end
  end.

(** ** Links *)

(** The label [bad] of [sys_link]. *)
Definition link_bad (ip : nat) : M fs Z :=
  _ ← ilock (Some ip);
  _ ← seti ip (fun p => set_i_nlink (s16 (i_nlink p - 1)) p);
  _ ← iupdate ip;
  _ ← iunlockput (Some ip);
  _ ← onj end_op;
  mret (-1).

Definition link (old new : list Z) : M fs Z :=
  _ ← onj begin_op;
  o ← namei old;
  match o with
  | None => _ ← onj end_op; mret (-1)
  | Some ip =>
      _ ← ilock (Some ip);
      x ← geti ip;
      if i_type x =? T_DIR then _ ← iunlockput (Some ip); _ ← onj end_op; mret (-1)
      else
        _ ← seti ip (fun p => set_i_nlink (s16 (i_nlink p + 1)) p);
        _ ← iupdate ip;
        _ ← iunlock (Some ip);
        '(o, name) ← nameiparent new (replicate DIRSIZ 0);
        match o with
        | None => link_bad ip
        | Some dp =>
            _ ← ilock (Some dp);
            d ← geti dp; x ← geti ip;
            r ← (if negb (i_dev d =? i_dev x) then mret (-1) else dirlink dp name (i_inum x));
            if r <? 0 then _ ← iunlockput (Some dp); link_bad ip
            else
              _ ← iunlockput (Some dp);
              _ ← iput ip;
              _ ← onj end_op;
              mret 0
        end
  end.

Definition sys_link : M kst Z :=
  o ← path_arg 0;
  match o with
  | None => mret (-1)
  | Some old =>
      o ← path_arg 1;
      match o with None => mret (-1) | Some new => onf (link old new) end
  end.

(** [for(off=2*sizeof(de); off<dp->size; off+=sizeof(de))] *)
Fixpoint isdirempty_loop (fuel : nat) (dp : nat) (off : Z) : M fs bool :=
  match fuel with
  | O => nofuel
  | S k =>
      p ← geti dp;
      if off <? i_size p then
        '(r, de) ← readi dp ToLocal off SIZEOF_DIRENT;
        if negb (r =? SIZEOF_DIRENT) then panic "isdirempty: readi"
        else if negb (de_inum de =? 0) then mret false
        else isdirempty_loop k dp (off + SIZEOF_DIRENT)
      else mret true
  end.
Definition isdirempty (dp : nat) : M fs bool :=
  p ← geti dp; isdirempty_loop (S (Z.to_nat (i_size p / SIZEOF_DIRENT + 1))) dp (2 * SIZEOF_DIRENT).

Definition DOT : list Z := [46; 0].
Definition DOTDOT : list Z := [46; 46; 0].

(** The label [bad] of [sys_unlink]. *)
Definition unlink_bad (dp : nat) : M fs Z :=
  _ ← iunlockput (Some dp); _ ← onj end_op; mret (-1).

Definition unlink (path : list Z) : M fs Z :=
  _ ← onj begin_op;
  '(o, name) ← nameiparent path (replicate DIRSIZ 0);
  match o with
  | None => _ ← onj end_op; mret (-1)
  | Some dp =>
      _ ← ilock (Some dp);
      c1 ← namecmp name DOT; c2 ← namecmp name DOTDOT;
      if (c1 =? 0) || (c2 =? 0) then unlink_bad dp
      else
        o ← dirlookup dp name;
        match o with
        | None => unlink_bad dp
        | Some (ip, off) =>
            _ ← ilock (Some ip);
            x ← geti ip;
            if i_nlink x <? 1 then panic "unlink: nlink < 1"
            else
              full ← (if i_type x =? T_DIR then e ← isdirempty ip; mret (negb e) else mret false);
              if full : bool then _ ← iunlockput (Some ip); unlink_bad dp
              else
                r ← writei dp (FromLocal (replicate (Z.to_nat SIZEOF_DIRENT) 0)) off SIZEOF_DIRENT;
                if negb (r =? SIZEOF_DIRENT) then panic "unlink: writei"
                else
                  x ← geti ip;
                  _ ← (if i_type x =? T_DIR then
                         _ ← seti dp (fun p => set_i_nlink (s16 (i_nlink p - 1)) p); iupdate dp
                       else mret ());
                  _ ← iunlockput (Some dp);
                  _ ← seti ip (fun p => set_i_nlink (s16 (i_nlink p - 1)) p);
                  _ ← iupdate ip;
                  _ ← iunlockput (Some ip);
                  _ ← onj end_op;
                  mret 0
        end
  end.

Definition sys_unlink : M kst Z :=
  o ← path_arg 0;
  match o with None => mret (-1) | Some path => onf (unlink path) end.

(** ** Creating and opening *)

Definition create (path : list Z) (type major minor : Z) : M fs (option nat) :=
  '(o, name) ← nameiparent path (replicate DIRSIZ 0);
  match o with
  | None => mret None
  | Some dp =>
      _ ← ilock (Some dp);
      o ← dirlookup dp name;
      match o with
      | Some (ip, _) =>
          _ ← iunlockput (Some dp);
          _ ← ilock (Some ip);
          x ← geti ip;
          if ((type =? T_FILE) && (i_type x =? T_FILE)) || (i_type x =? T_DEV) then mret (Some ip)
          else _ ← iunlockput (Some ip); mret None
      | None =>
          d ← geti dp;
          ip ← ialloc (i_dev d) type;
          _ ← ilock (Some ip);
          _ ← seti ip (set_i_major major); _ ← seti ip (set_i_minor minor); _ ← seti ip (set_i_nlink 1);
          _ ← iupdate ip;
          _ ← (if type =? T_DIR then
                 _ ← seti dp (fun p => set_i_nlink (s16 (i_nlink p + 1)) p);
                 _ ← iupdate dp;
                 x ← geti ip; d ← geti dp;
                 r1 ← dirlink ip DOT (i_inum x);
                 r ← (if r1 <? 0 then mret r1 else dirlink ip DOTDOT (i_inum d));
                 if r <? 0 then panic "create dots" else mret ()
               else mret ());
          x ← geti ip;
          r ← dirlink dp name (i_inum x);
          if r <? 0 then panic "create: dirlink"
          else _ ← iunlockput (Some dp); mret (Some ip)
      end
  end.

Definition O_RDONLY : Z := 0x000.
Definition O_WRONLY : Z := 0x001.
Definition O_RDWR : Z := 0x002.
Definition O_CREATE : Z := 0x200.

(** The inode of [sys_open], locked, or [None] with the transaction ended. *)
Definition open_inode (path : list Z) (omode : Z) : M fs (option nat) :=
  _ ← onj begin_op;
  if flag_set omode O_CREATE then
    o ← create path T_FILE 0 0;
    match o with
    | None => _ ← onj end_op; mret None
    | Some ip => mret (Some ip)
    end
  else
    o ← namei path;
    match o with
    | None => _ ← onj end_op; mret None
    | Some ip =>
        _ ← ilock (Some ip);
        x ← geti ip;
        if (i_type x =? T_DIR) && negb (omode =? O_RDONLY) then
          _ ← iunlockput (Some ip); _ ← onj end_op; mret None
        else mret (Some ip)
    end.

Definition sys_open : M kst Z :=
  o ← path_arg 0;
  match o with
  | None => mret (-1)
  | Some path =>
      o ← argint 1;
      match o with
      | None => mret (-1)
      | Some omode =>
          o ← onf (open_inode path omode);
          match o with
          | None => mret (-1)
          | Some ip =>
              f ← onf filealloc;
              fd ← (match f with Some f => fdalloc (ptr_of f) | None => mret (-1) end);
              if fd <? 0 then
                _ ← onf (match f with Some f => fileclose f | None => mret () end);
                _ ← onf (iunlockput (Some ip));
                _ ← onf (onj end_op);
                mret (-1)
              else
                _ ← onf (iunlock (Some ip));
                _ ← onf (onj end_op);
                _ ← onf (match f with
                         | Some f => setf f (fun x => File FD_INODE (f_ref x)
                             (negb (flag_set omode O_WRONLY)) (flag_set omode O_WRONLY || flag_set omode O_RDWR)
                             (f_pipe x) (Some ip) 0)
                         | None => mret ()
                         end);
                mret fd
          end
      end
  end.

Definition sys_mkdir : M kst Z :=
  _ ← onf (onj begin_op);
  o ← path_arg 0;
  o ← (match o with None => mret None | Some path => onf (create path T_DIR 0 0) end);
  match o with
  | None => _ ← onf (onj end_op); mret (-1)
  | Some ip => _ ← onf (iunlockput (Some ip)); _ ← onf (onj end_op); mret 0
  end.

Definition sys_mknod : M kst Z :=
  _ ← onf (onj begin_op);
  o ← path_arg 0;
  o ← (match o with
       | None => mret None
       | Some path =>
           a ← argint 1;
           match a with
           | None => mret None
           | Some major =>
               b ← argint 2;
               match b with
               | None => mret None
               | Some minor => onf (create path T_DEV (s16 major) (s16 minor))
               end
           end
       end);
  match o with
  | None => _ ← onf (onj end_op); mret (-1)
  | Some ip => _ ← onf (iunlockput (Some ip)); _ ← onf (onj end_op); mret 0
  end.

Definition sys_chdir : M kst Z :=
  c ← myproc;
  _ ← onf (onj begin_op);
  o ← path_arg 0;
  o ← (match o with None => mret None | Some path => onf (namei path) end);
  match o with
  | None => _ ← onf (onj end_op); mret (-1)
  | Some ip =>
      _ ← onf (ilock (Some ip));
      x ← onf (geti ip);
      if negb (i_type x =? T_DIR) then
        _ ← onf (iunlockput (Some ip)); _ ← onf (onj end_op); mret (-1)
      else
        _ ← onf (iunlock (Some ip));
        p ← getp c;
        _ ← onf (i ← deref (cwd p); iput i);
        _ ← onf (onj end_op);
        _ ← setp c (set_cwd (ptr_of ip));
        mret 0
  end.

(** ** Pipes *)

Definition sys_pipe : M kst Z :=
  o ← argptr 0 8;
  match o with
  | None => mret (-1)
  | Some fd =>
      o ← onf pipealloc;
      match o with
      | None => mret (-1)
      | Some (rf, wf) =>
          c ← myproc;
          fd0 ← fdalloc (ptr_of rf);
          fd1 ← (if fd0 <? 0 then mret (-1) else fdalloc (ptr_of wf));
          if (fd0 <? 0) || (fd1 <? 0) then
            _ ← (if 0 <=? fd0 then setp c (fun p => set_ofile (<[Z.to_nat fd0 := 0]> (ofile p)) p) else mret ());
            _ ← onf (fileclose rf);
            _ ← onf (fileclose wf);
            mret (-1)
          else
            _ ← onm (store32 fd fd0);
            _ ← onm (store32 (fd + 4) fd1);
            mret 0
      end
  end.
End sysfile.
