(* ===== verification/FilesOk.v ===== *)
(** * xv6's file system keeps its promise to the process code

    [file.c], [pipe.c], [fs.c] and [log.c] as modelled in [File.v],
    [Pipe.v], [Fs.v] and [Log.v] satisfy [FileSysOk]: a pointer held by a
    process is an entry of [ftable] or [icache] that is in use, and the
    calls return and keep the counts, the pipes and the disk right. *)

From stdpp Require Import base numbers list gmap strings.
From S2P Require Import Prelude Bytes Machine CString Kalloc FileSys Proc Syscall Locks Bio.
From S2P Require Import BioSpec Log BioAbs LogSpec.
From S2P Require Import LogCrash LogTx FsState Fs TxSpec FsDisk FsSpec FsInv Pipe File FsTx.
From S2P Require Import Sysfile.
Open Scope Z_scope.

(** ** Another process looks at the same state *)

Definition as_pid (pid : Z) (s : jst) : jst :=
  let b := bio s in set_bio (Bst (bufs b) (head_prev b) (head_next b) (memdisk b) (writes b) pid) s.

Section as_pid.
Context (pid : Z).

Lemma holds_pid b l D : holds b l ∅ D -> holds (Bst (bufs b) (head_prev b) (head_next b) (memdisk b) (writes b) pid) l ∅ D.
Proof.
  intros [[C1 C2 C3 C4 C5 C6] H2 H3 _ H5 H6]. split; [|done|done| |done|done].
  - by split.
  - intros i c n e _ Hi. by rewrite lookup_empty in Hi.
Qed.

Lemma log_ok_pid s : log_ok (bio s) (jlog s) -> log_ok (bio (as_pid pid s)) (jlog (as_pid pid s)).
Proof. intros [A1 A2 A3 A4 A5 A6 A7 A8]. by split. Qed.

Lemma idle_pid st sz s : idle st sz s -> idle st sz (as_pid pid s).
Proof.
  intros [[[l A1] A2 A3 A4 A5] B C]. split; [|done|done]. split; [|by apply log_ok_pid|done|done|done].
  exists l. by apply holds_pid.
Qed.

Lemma tx_pid st sz s0 L s : tx st sz s0 ∅ L s -> tx st sz (as_pid pid s0) ∅ L (as_pid pid s).
Proof.
  intros [[l A1] A2 A3 A4 A5 (A6 & A7 & A8)]. split; [|done|by apply log_ok_pid|done|done|done].
  exists l. by apply holds_pid.
Qed.
End as_pid.

Lemma fs_ok_enter x V fr ir pid killed cwd f : fs_ok x V fr ir f -> fs_ok x V fr ir (enter pid killed cwd f).
Proof. intros [A1 A2 A3 A4 A5]. by split. Qed.

Lemma fs_inv_enter st sz fr ir pid killed cwd f : fs_inv st sz fr ir f -> fs_inv st sz fr ir (enter pid killed cwd f).
Proof. intros [A1 A2 A3]. split; [by apply (idle_pid pid)|done|by apply fs_ok_enter]. Qed.

Lemma fs_tx_enter st sz s0 K fr ir pid killed cwd f : fs_tx st sz s0 K fr ir f ->
  fs_tx st sz (as_pid pid s0) K fr ir (enter pid killed cwd f).
Proof.
  intros [A1 A2 [B1 (L & B2 & B3) B4 B5] A4 A5]. split; [by apply idle_pid|done| |done|by apply fs_ok_enter].
  split; [done| |done|done]. exists L. split; [by apply tx_pid|done].
Qed.

(** The machine's memory is passed along. *)
Lemma fs_inv_fm st sz fr ir s f : fs_inv st sz fr ir f -> fs_inv st sz fr ir (set_fm s f).
Proof. intros [A1 A2 [B1 B2 B3 B4 B5]]. by split; [..|split]. Qed.
Lemma fs_tx_fm st sz s0 K fr ir s f : fs_tx st sz s0 K fr ir f -> fs_tx st sz s0 K fr ir (set_fm s f).
Proof. intros [A1 A2 [C1 C2 C3 C4] A4 [B1 B2 B3 B4 B5]]. by split; [| |split| |split]. Qed.

(** ** The order of the references does not matter *)

Lemma fs_ok_perm x V fr fr' ir ir' f : fr ≡ₚ fr' -> ir ≡ₚ ir' -> fs_ok x V fr ir f -> fs_ok x V fr' ir' f.
Proof.
  intros E1 E2 [A1 A2 [O1 O2 O3] [F1 F2] A5]. split; [done|done| | |done].
  - split; [|intros i; rewrite <- E2; apply O2|done]. intros i ip Hi. rewrite <- E2. by apply O1.
  - split; [|intros i; rewrite <- E1; apply F2]. intros i f' Hi. rewrite <- E1. by apply F1.
Qed.

(** ** The interface *)

Definition idx (p : Z) : nat := Z.to_nat (p - 1).
Definition pointers (l : list Z) : Prop := Forall (fun p => 0 < p) l.

Section files_ok.
Context {LK : Linker} {DS : Devsw}.

#[export] Instance xv6_spec : FileSpec xv6_files := {|
  fs_ready := fun Fr Ir f => pointers Fr /\ pointers Ir /\ exists st sz, fs_inv st sz (idx <$> Fr) (idx <$> Ir) f;
  fs_begun := fun Fr Ir f => pointers Fr /\ pointers Ir /\ exists st sz s0, fs_tx st sz s0 ∅ (idx <$> Fr) (idx <$> Ir) f;
  fs_ending := fun Fr Ir f => pointers Fr /\ pointers Ir /\ exists st sz s0 K,
    (size K <= Z.to_nat MAXOPBLOCKS)%nat /\ (1 ∉ K) /\ fs_tx st sz s0 K (idx <$> Fr) (idx <$> Ir) f |}.

Lemma deref_idx p (s : fs) : 0 < p -> deref p s = Ret (idx p, s).
Proof. intros Hp. unfold deref. by rewrite (proj2 (Z.leb_gt _ _)) by lia. Qed.
Lemma ptr_idx p : 0 < p -> ptr_of (idx p) = p.
Proof. unfold ptr_of, idx. lia. Qed.

(** Running a call on memory and state. *)
Lemma lift_run {A} (m : M fs A) s f a f' : m (set_fm s f) = Ret (a, f') -> lift m (s, f) = Ret (a, (fm f', f')).
Proof. intros H. unfold lift, zoom. cbn [fst snd]. by rewrite H. Qed.

Lemma lift_silent {A} (m : M fs A) s f a f' : m (set_fm s f) = Ret (a, f') -> fm f' = s -> lift m (s, f) = Ret (a, (s, f')).
Proof. intros H E. rewrite (lift_run m s f a f' H). by rewrite E. Qed.

Lemma in_pointers p l : pointers l -> p ∈ l -> 0 < p /\ idx p ∈ idx <$> l.
Proof. intros Hl Hp. split; [by apply (proj1 (Forall_forall _ _) Hl)|by apply list_elem_of_fmap_2]. Qed.

#[export] Instance xv6_files_ok : FileSysOk LK xv6_files xv6_spec.
Proof.
  split.
  - done.
  - intros pid killed cwd Fr Ir f (H1 & H2 & st & sz & H3). do 2 (split; [done|]). exists st, sz. by apply fs_inv_enter.
  - intros pid killed cwd Fr Ir f (H1 & H2 & st & sz & s0 & H3). do 2 (split; [done|]). eexists st, sz, _. by apply fs_tx_enter.
  - intros pid killed cwd Fr Ir f (H1 & H2 & st & sz & s0 & K & HK & H1' & H3). do 2 (split; [done|]). eexists st, sz, _, K.
    do 2 (split; [done|]). by apply fs_tx_enter.
  - intros Fr Fr' Ir Ir' f E1 E2 (H1 & H2 & st & sz & [A1 A2 A3]). unfold pointers in *. rewrite E1 in H1. rewrite E2 in H2. do 2 (split; [done|]).
    exists st, sz. split; [done|done|]. eapply fs_ok_perm; [| |exact A3]; by f_equiv.
  - intros x Fr Ir Hx s f (H1 & H2 & st & sz & Hi). destruct (in_pointers x Fr H1 Hx) as [Hp Hin].
    apply (fs_inv_fm _ _ _ _ s) in Hi as [A1 A2 A3].
    destruct (filedup_run _ _ _ _ _ A3 (idx x) Hin) as (f' & E & A3' & O). exists f'. split; [|split].
    + refine (lift_silent _ s f x f' _ _); [|by rewrite O]. rewrite (run_bind _ _ _ _ _ (deref_idx x _ Hp)), (run_bind _ _ _ _ _ E). by rewrite ptr_idx.
    + cbn [fs_pages xv6_files]. by rewrite O.
    + split; [by constructor|]. split; [done|]. exists st, sz. rewrite O in A3' |- *. by split.
  - intros x Fr Ir Hx s f (H1 & H2 & st & sz & Hi). destruct (in_pointers x Ir H2 Hx) as [Hp Hin].
    apply (fs_inv_fm _ _ _ _ s) in Hi as [A1 A2 A3].
    destruct (idup_run _ _ _ _ _ A3 (idx x) Hin) as (f' & E & A3' & O). exists f'. split; [|split].
    + refine (lift_silent _ s f x f' _ _); [|by rewrite O]. rewrite (run_bind _ _ _ _ _ (deref_idx x _ Hp)), (run_bind _ _ _ _ _ E). by rewrite ptr_idx.
    + cbn [fs_pages xv6_files]. by rewrite O.
    + split; [done|]. split; [by constructor|]. exists st, sz. rewrite O in A3' |- *. by split.
  - intros x Fr Ir s f l (H1 & H2 & st & sz & Hi) Hk Hnd Hv. apply Forall_cons in H1 as [Hp H1].
    apply (fs_inv_fm _ _ _ _ s) in Hi.
    destruct (fileclose_run st sz _ _ (set_fm s f) (idx x) Hi l) as (f' & l' & E & Hi' & G1 & G2 & G3 & G4); [by split|].
    exists (fm f'), f', l'. split; [|split; [done|split; [done|split; [done|split; [done|]]]]].
    + refine (lift_run _ s f () f' _). by rewrite (run_bind _ _ _ _ _ (deref_idx x _ Hp)).
    + do 2 (split; [done|]). by exists st, sz.
  - intros Fr Ir s f (H1 & H2 & st & sz & Hi). apply (fs_inv_fm _ _ _ _ s) in Hi.
    destruct (begin_run st sz _ _ _ Hi) as (f' & E & Ht & O). exists f'. split; [|split].
    + refine (lift_silent _ s f () f' E _). by rewrite O.
    + cbn [fs_pages xv6_files]. by rewrite O.
    + do 2 (split; [done|]). by eexists st, sz, _.
  - intros x Fr Ir s f (H1 & H2 & st & sz & s0 & Ht). apply Forall_cons in H2 as [Hp H2]. apply (fs_tx_fm _ _ _ _ _ _ s) in Ht.
    destruct (iput_tx st sz s0 _ _ _ (idx x) Ht) as (f' & n & E & Hn & Ht' & O). exists f'. split; [|split].
    + refine (lift_silent _ s f () f' _ _); [|by rewrite O]. by rewrite (run_bind _ _ _ _ _ (deref_idx x _ Hp)).
    + cbn [fs_pages xv6_files]. by rewrite O.
    + do 2 (split; [done|]). pose proof (ft_geo _ _ _ _ _ _ _ Ht) as G. eexists st, sz, s0, _.
      split; [|split; [|exact Ht']]; [by eapply drop_size|by eapply drop_super].
  - intros Fr Ir s f (H1 & H2 & st & sz & s0 & K & HK & HK1 & Ht). apply (fs_tx_fm _ _ _ _ _ _ s) in Ht.
    destruct (end_run 0 st sz s0 K _ _ _ HK HK1 Ht) as (f' & w & E & Hi & O & _). exists f'. split; [|split].
    + refine (lift_silent _ s f () f' E _). by rewrite O.
    + cbn [fs_pages xv6_files]. by rewrite O.
    + do 2 (split; [done|]). by exists st, sz.
Qed.
End files_ok.
