(* ===== verification/Exec.v ===== *)
(** * [kernel/exec.c], [loaduvm] and [sys_exec]

    The program file is read through [readi]; the argument strings stay in
    the old image, [argv] is the list of their addresses. *)

From stdpp Require Import base numbers list gmap strings.
From S2P Require Import Prelude Bytes Machine CString Kalloc Vm Shared FileSys Proc Syscall.
From S2P Require Import Locks Bio Log FsState Screen Fs Pipe File Sysfile.
Open Scope Z_scope.

Definition MAXARG : Z := 32.
Definition ELF_MAGIC : Z := 0x464C457F.
Definition ELF_PROG_LOAD : Z := 1.
Definition SIZEOF_ELFHDR : Z := 52.
Definition SIZEOF_PROGHDR : Z := 32.

(** The fields of [struct elfhdr] and [struct proghdr] the code uses. *)
Record elfhdr := Elfhdr { e_magic : Z; e_entry : Z; e_phoff : Z; e_phnum : Z }.
Definition read_elfhdr (d : list Z) : elfhdr := Elfhdr (rd32 d 0) (rd32 d 24) (rd32 d 28) (rd16 d 44).
Record proghdr := Proghdr { ph_type : Z; ph_off : Z; ph_vaddr : Z; ph_filesz : Z; ph_memsz : Z }.
Definition read_proghdr (d : list Z) : proghdr :=
  Proghdr (rd32 d 0) (rd32 d 4) (rd32 d 8) (rd32 d 16) (rd32 d 20).

Section exec.
Context {LK : Linker} {DS : Devsw}.

(** [for(i = 0; i < sz; i += PGSIZE)] *)
Fixpoint loaduvm_loop (fuel : nat) (pgdir addr : Z) (ip : nat) (offset sz i : Z) : M kst Z :=
  match fuel with
  | O => nofuel
  | S k =>
      if i <? sz then
        pte ← onm (walkpgdir pgdir (u32 (addr + i)) false);
        if pte =? 0 then panic "loaduvm: address should exist"
        else
          e ← onm (load32 pte);
          let pa := PTE_ADDR e in
          let n := if sz - i <? PGSIZE then sz - i else PGSIZE in
          '(r, _) ← onf (readi ip (ToMem (P2V pa)) (u32 (offset + i)) n);
          if negb (u32 r =? n) then mret (-1)
          else loaduvm_loop k pgdir addr ip offset sz (u32 (i + PGSIZE))
      else mret 0
  end.

Definition loaduvm (pgdir addr : Z) (ip : nat) (offset sz : Z) : M kst Z :=
  if negb (addr mod PGSIZE =? 0) then panic "loaduvm: addr must be page aligned"
  else loaduvm_loop (S (Z.to_nat (sz / PGSIZE + 1))) pgdir addr ip offset sz 0.

(** [copyout(pgdir, va, p, len)] where [p] is a local array. *)
Fixpoint copyout_local (fuel : nat) (pgdir va : Z) (buf : list Z) : M machine Z :=
  match fuel with
  | O => nofuel
  | S k =>
      match buf with
      | [] => mret 0
      | _ =>
          let va0 := PGROUNDDOWN va in
          pa0 ← uva2ka pgdir va0;
          if pa0 =? 0 then mret (-1)
          else
            let n := Z.to_nat (PGSIZE - (va - va0)) in
            _ ← store_bytes (pa0 + (va - va0)) (take n buf);
            copyout_local k pgdir (u32 (va0 + PGSIZE)) (drop n buf)
      end
  end.

(** The loop over the program headers: the new size, or [None] for
    [goto bad]. *)
Fixpoint load_segments (n : nat) (ip : nat) (pgdir off sz : Z) : M kst (option Z) :=
  match n with
  | O => mret (Some sz)
  | S k =>
      '(r, d) ← onf (readi ip ToLocal (u32 off) SIZEOF_PROGHDR);
      if negb (r =? SIZEOF_PROGHDR) then mret None
      else
        let ph := read_proghdr d in
        if negb (ph_type ph =? ELF_PROG_LOAD) then load_segments k ip pgdir (s32 (off + SIZEOF_PROGHDR)) sz
        else if ph_memsz ph <? ph_filesz ph then mret None
        else if u32 (ph_vaddr ph + ph_memsz ph) <? ph_vaddr ph then mret None
        else
          sz ← onm (allocuvm pgdir sz (u32 (ph_vaddr ph + ph_memsz ph)));
          if sz =? 0 then mret None
          else if negb (ph_vaddr ph mod PGSIZE =? 0) then mret None
          else
            r ← loaduvm pgdir (ph_vaddr ph) ip (ph_off ph) (ph_filesz ph);
            if r <? 0 then mret None
            else load_segments k ip pgdir (s32 (off + SIZEOF_PROGHDR)) sz
  end.

(** [for(argc = 0; argv[argc]; argc++)]: the stack pointer and the pointers
    to the copied strings, or [None] for [goto bad]. *)
Fixpoint push_args (fuel : nat) (pgdir sp argc : Z) (argv ustack : list Z) : M kst (option (Z * list Z)) :=
  match argv with
  | [] => mret (Some (sp, ustack))
  | a :: argv =>
      if MAXARG <=? argc then mret None
      else
        len ← onm (strlen fuel (at_addr a));
        let sp := Z.land (u32 (sp - (len + 1))) (Z.lnot 3) in
        r ← onm (copyout pgdir sp a (len + 1));
        if r <? 0 then mret None
        else push_args fuel pgdir sp (argc + 1) argv (ustack ++ [sp])
  end.

(** The characters after the last slash of [path]. *)
Fixpoint last_elem (last path : list Z) : list Z :=
  match path with
  | [] => last
  | c :: r => last_elem (if c =? SLASH then r else last) r
  end.

(** The label [bad], with the inode still locked or already put. *)
Definition exec_bad (pgdir : Z) (ip : option nat) : M kst Z :=
  _ ← (if negb (pgdir =? 0) then onm (freevm pgdir) else mret ());
  _ ← (match ip with
       | Some i => _ ← onf (iunlockput (Some i)); onf (onj end_op)
       | None => mret ()
       end);
  mret (-1).

(** From the new image to its stack: everything after the segments. *)
Definition exec_commit (path : list Z) (argv : list Z) (pgdir sz entry : Z) : M kst Z :=
  c ← myproc;
  let argv0 := nth 0 argv 0 in
  r1 ← strncmp (arr (chars "comma" ++ [0])) (user_str argv0) SHAREDNAME;
  r2 ← (if r1 =? 0 then mret 0 else strncmp (arr (chars "lisa" ++ [0])) (user_str argv0) SHAREDNAME);
  _ ← (if (r1 =? 0) || (r2 =? 0) then _ ← access_shared_memory pgdir; mret () else mret ());
  let sz := PGROUNDUP sz in
  sz ← onm (allocuvm pgdir sz (u32 (sz + 2 * PGSIZE)));
  if sz =? 0 then exec_bad pgdir None
  else
    _ ← onm (clearpteu pgdir (sz - 2 * PGSIZE));
    cp ← getp c;
    o ← push_args (S (Z.to_nat (Proc.sz cp))) pgdir sz 0 argv [];
    match o with
    | None => exec_bad pgdir None
    | Some (sp, ptrs) =>
        let argc := Z.of_nat (length argv) in
        let ustack := [0xffffffff; argc; u32 (sp - (argc + 1) * 4)] ++ ptrs ++ [0] in
        let sp := u32 (sp - (3 + argc + 1) * 4) in
        r ← onm (copyout_local 4 pgdir sp (concat (le32 <$> ustack)));
        if r <? 0 then exec_bad pgdir None
        else
          nm ← safestrcpy (p_name cp) (arr (last_elem path path ++ [0])) 16;
          _ ← setp c (set_p_name nm);
          let oldpgdir := Proc.pgdir cp in
          _ ← setp c (set_pgdir pgdir);
          _ ← setp c (set_sz sz);
          _ ← onm (store32 (tf cp + TF_EIP) entry);
          _ ← onm (store32 (tf cp + TF_ESP) sp);
          _ ← switchuvm c;
          _ ← onm (freevm oldpgdir);
          mret 0
    end.

Definition exec (path : list Z) (argv : list Z) : M kst Z :=
  _ ← onf (onj begin_op);
  o ← onf (namei path);
  match o with
  | None =>
      _ ← onf (onj end_op);
      _ ← onf (onscr (cprintf (chars "exec: fail" ++ [NEWLINE]) []));
      mret (-1)
  | Some ip =>
      _ ← onf (ilock (Some ip));
      '(r, d) ← onf (readi ip ToLocal 0 SIZEOF_ELFHDR);
      let elf := read_elfhdr d in
      if negb (r =? SIZEOF_ELFHDR) then exec_bad 0 (Some ip)
      else if negb (e_magic elf =? ELF_MAGIC) then exec_bad 0 (Some ip)
      else
        pgdir ← onm setupkvm;
        if pgdir =? 0 then exec_bad 0 (Some ip)
        else
          o ← load_segments (Z.to_nat (e_phnum elf)) ip pgdir (s32 (e_phoff elf)) 0;
          match o with
          | None => exec_bad pgdir (Some ip)
          | Some sz =>
              _ ← onf (iunlockput (Some ip));
              _ ← onf (onj end_op);
              exec_commit path argv pgdir sz (e_entry elf)
          end
  end.

(** [for(i=0;; i++)] of [sys_exec]: the argument pointers. *)
Fixpoint exec_args (n : nat) (uargv i : Z) : M kst (option (list Z)) :=
  match n with
  | O => mret None
  | S k =>
      o ← fetchint (u32 (uargv + 4 * i));
      match o with
      | None => mret None
      | Some uarg =>
          let uarg := u32 uarg in
          if uarg =? 0 then mret (Some [])
          else
            o ← fetchstr uarg;
            match o with
            | None => mret None
            | Some (a, _) =>
                o ← exec_args k uargv (i + 1);
                match o with None => mret None | Some l => mret (Some (a :: l)) end
            end
      end
  end.

Definition sys_exec : M kst Z :=
  o ← path_arg 0;
  match o with
  | None => mret (-1)
  | Some path =>
      o ← argint 1;
      match o with
      | None => mret (-1)
      | Some uargv =>
          o ← exec_args (Z.to_nat MAXARG) (u32 uargv) 0;
          match o with None => mret (-1) | Some argv => exec path argv end
      end
  end.
End exec.
