(* ===== verification/Trap.v ===== *)
(** * [kernel/trap.c], [syscall] and the rest of [sysproc.c]

    The whole kernel behind the interrupt vectors: system calls,
    interrupts, faults.  The state adds to the kernel's the clock, the
    keyboard, the bytes waiting at the serial port and [forkret]'s static
    variable.  A handler stops where the process leaves the CPU and is
    entered again with [trap_resume] or [trap_yielded].  Acknowledging the
    interrupt controller has no effect on this state. *)

From stdpp Require Import base numbers list gmap strings.
From S2P Require Import Prelude Bytes Machine CString Kalloc Vm Shared FileSys Locks Bio Log.
From S2P Require Import FsState.
From S2P Require Import Screen Fs Pipe File Console Kbd Proc Syscall Sysfile Exec.
Open Scope Z_scope.

Definition T_IRQ0 : Z := 32.
Definition T_SYSCALL : Z := 64.
Definition IRQ_TIMER : Z := 0.
Definition IRQ_KBD : Z := 1.
Definition IRQ_COM1 : Z := 4.
Definition IRQ_IDE : Z := 14.
Definition IRQ_SPURIOUS : Z := 31.

Definition TF_TRAPNO : Z := 48.
Definition TF_ERR : Z := 52.

Definition SYS_fork : Z := 1.
Definition SYS_exit : Z := 2.
Definition SYS_wait : Z := 3.
Definition SYS_pipe : Z := 4.
Definition SYS_read : Z := 5.
Definition SYS_kill : Z := 6.
Definition SYS_exec : Z := 7.
Definition SYS_fstat : Z := 8.
Definition SYS_chdir : Z := 9.
Definition SYS_dup : Z := 10.
Definition SYS_getpid : Z := 11.
Definition SYS_sbrk : Z := 12.
Definition SYS_sleep : Z := 13.
Definition SYS_uptime : Z := 14.
Definition SYS_open : Z := 15.
Definition SYS_write : Z := 16.
Definition SYS_mknod : Z := 17.
Definition SYS_unlink : Z := 18.
Definition SYS_link : Z := 19.
Definition SYS_mkdir : Z := 20.
Definition SYS_close : Z := 21.
Definition SYS_share_data : Z := 22.
Definition SYS_get_data : Z := 23.

(** The characters of an array up to the NUL. *)
Fixpoint cstr (l : list Z) : list Z :=
  match l with
  | [] => []
  | c :: l => if c =? 0 then [] else c :: cstr l
  end.

Section trap.
(** [input_r] is the address of [input.r], the channel of console readers. *)
Context {LK : Linker} (input_r : Z).
#[local] Existing Instance xv6_devsw.

Record tst := Tst {
  kern : kst;
  ticks : Z;
  keyboard : kbd;
  com1 : list Z;
  first : bool }.

Definition set_kern v t := Tst v (ticks t) (keyboard t) (com1 t) (first t).
Definition set_ticks v t := Tst (kern t) v (keyboard t) (com1 t) (first t).
Definition set_keyboard v t := Tst (kern t) (ticks t) v (com1 t) (first t).
Definition set_com1 v t := Tst (kern t) (ticks t) (keyboard t) v (first t).
Definition set_first v t := Tst (kern t) (ticks t) (keyboard t) (com1 t) v.

Definition onk {A} (m : M kst A) : M tst A := zoom kern set_kern m.
Definition print (fmt : list Z) (args : list vararg) : M tst () := onk (onf (onscr (cprintf fmt args))).

(** The wakeups of [pipe.c] and [console.c], which a call has recorded,
    reach the process table before another process runs. *)
Fixpoint wakeups (chs : list Z) : M kst () :=
  match chs with
  | [] => mret ()
  | ch :: chs => _ ← Proc.wakeup ch; wakeups chs
  end.
Definition deliver : M kst () :=
  chs ← gets (fun k => woken (fsys k));
  _ ← wakeups chs;
  modify (fun k => set_fsys (set_woken [] (fsys k)) k).

(** ** [sysproc.c] *)

Definition sys_exit : M kst sysret := _ ← exit; mret Exits.

Definition wait_result (r : option Z) : sysret :=
  match r with Some v => Value v | None => Sleeps InWait end.
Definition sys_wait : M kst sysret := r ← wait; mret (wait_result r).

(** [while(ticks - ticks0 < n)], where [n] is converted to [uint]. *)
Definition sleep_loop (ticks0 n : Z) : M tst sysret :=
  t ← gets ticks;
  if u32 (t - ticks0) <? u32 n then
    c ← onk myproc; p ← onk (getp c);
    if negb (killed p =? 0) then mret (Value (-1))
    else _ ← onk (sleep ld_ticks); mret (Sleeps (InSleep ticks0 n))
  else mret (Value 0).

Definition sys_sleep : M tst sysret :=
  o ← onk (argint 0);
  match o with
  | None => mret (Value (-1))
  | Some n => ticks0 ← gets ticks; sleep_loop ticks0 n
  end.

Definition sys_uptime : M tst sysret := t ← gets ticks; mret (Value (s32 t)).

(** ** [syscall.c] *)

Definition plain (m : M kst Z) : M tst sysret := r ← onk m; mret (Value r).

Definition syscalls (num : Z) : option (M tst sysret) :=
  if num =? SYS_fork then Some (plain sys_fork)
  else if num =? SYS_exit then Some (onk sys_exit)
  else if num =? SYS_wait then Some (onk sys_wait)
  else if num =? SYS_pipe then Some (plain sys_pipe)
  else if num =? SYS_read then Some (onk sys_read)
  else if num =? SYS_kill then Some (plain sys_kill)
  else if num =? SYS_exec then Some (plain sys_exec)
  else if num =? SYS_fstat then Some (plain sys_fstat)
  else if num =? SYS_chdir then Some (plain sys_chdir)
  else if num =? SYS_dup then Some (plain sys_dup)
  else if num =? SYS_getpid then Some (plain sys_getpid)
  else if num =? SYS_sbrk then Some (plain sys_sbrk)
  else if num =? SYS_sleep then Some sys_sleep
  else if num =? SYS_uptime then Some sys_uptime
  else if num =? SYS_open then Some (plain sys_open)
  else if num =? SYS_write then Some (onk sys_write)
  else if num =? SYS_mknod then Some (plain sys_mknod)
  else if num =? SYS_unlink then Some (plain sys_unlink)
  else if num =? SYS_link then Some (plain sys_link)
  else if num =? SYS_mkdir then Some (plain sys_mkdir)
  else if num =? SYS_close then Some (plain sys_close)
  else if num =? SYS_share_data then Some (plain sys_share_data)
  else if num =? SYS_get_data then Some (plain sys_get_data)
  else None.

(** [curproc->tf->eax = r] *)
Definition set_eax (r : Z) : M tst () :=
  c ← onk myproc; p ← onk (getp c); onk (onm (store32 (tf p + TF_EAX) r)).
Definition return_value (r : sysret) : M tst sysret :=
  match r with Value v => _ ← set_eax v; mret r | _ => mret r end.

Definition syscall : M tst sysret :=
  c ← onk myproc; p ← onk (getp c);
  eax ← onk (onm (load32 (tf p + TF_EAX)));
  let num := s32 eax in
  match syscalls num with
  | Some h => r ← h; return_value r
  | None =>
      _ ← print (chars "%d %s: unknown sys call %d" ++ [NEWLINE])
            [VInt (pid p); VStr (Some (cstr (p_name p))); VInt num];
      return_value (Value (-1))
  end.

(** A call continues where it went to sleep. *)
Definition resume (pt : point) : M tst sysret :=
  _ ← onk sleep_resumed;
  r ← match pt with
      | InRead p addr n => r ← onk (onf (piperead p addr n)); onk (read_result addr n r)
      | InWrite p addr n i => r ← onk (onf (pipewrite_from p addr n i)); onk (write_result addr n r)
      | InWait => onk sys_wait
      | InSleep ticks0 n => sleep_loop ticks0 n
      end;
  return_value r.

(** ** [trap.c] *)

(** How [trap] leaves the CPU: back to the interrupted code, by [exit], by
    [yield], or asleep inside a system call. *)
Inductive leave := Returns | Exited | Yielded | Asleep_at (pt : point).

Definition mykilled_flag : M tst bool :=
  o ← gets (fun t => curproc (kern t));
  match o with
  | None => mret false
  | Some c => p ← onk (getp c); mret (negb (killed p =? 0))
  end.

Definition die : M tst leave := _ ← onk exit; _ ← onk deliver; mret Exited.

(** After [syscall()] has returned, or the process has left inside it. *)
Definition after_syscall (r : sysret) : M tst leave :=
  _ ← onk deliver;
  match r with
  | Exits => mret Exited
  | Sleeps pt => mret (Asleep_at pt)
  | Value _ => k ← mykilled_flag; if k : bool then die else mret Returns
  end.

Definition kbdintr : M tst () :=
  keys ← zoom keyboard set_keyboard (n ← gets (fun k => length (kb_port k)); kbd_keys (S n));
  _ ← onk (onf (consoleintr input_r keys)); onk deliver.

(** [consoleintr(uartgetc)] *)
Definition uartintr : M tst () :=
  u ← gets (fun t => uart (scr (fsys (kern t))));
  keys ← gets (fun t => if u : bool then com1 t else []);
  _ ← modify (fun t => if u : bool then set_com1 [] t else t);
  _ ← onk (onf (consoleintr input_r keys)); onk deliver.

(** [(tf->cs&3) == DPL_USER] *)
Definition user_mode (cs : Z) : bool := Z.land cs 3 =? DPL_USER.

(** The [switch] of [trap]; [cpu] is [cpuid()] and [cr2] the faulting
    address. *)
Definition trap_switch (cpu cr2 tf trapno cs : Z) : M tst () :=
  eip ← onk (onm (load32 (tf + TF_EIP)));
  if trapno =? T_IRQ0 + IRQ_TIMER then
    if cpu =? 0 then
      _ ← modify (fun t => set_ticks (u32 (ticks t + 1)) t); onk (Proc.wakeup ld_ticks)
    else mret ()
  else if (trapno =? T_IRQ0 + IRQ_IDE) || (trapno =? T_IRQ0 + IRQ_IDE + 1) then mret ()
  else if trapno =? T_IRQ0 + IRQ_KBD then kbdintr
  else if trapno =? T_IRQ0 + IRQ_COM1 then uartintr
  else if (trapno =? T_IRQ0 + 7) || (trapno =? T_IRQ0 + IRQ_SPURIOUS) then
    print (chars "cpu%d: spurious interrupt at %x:%x" ++ [NEWLINE]) [VInt cpu; VInt cs; VInt eip]
  else
    o ← gets (fun t => curproc (kern t));
    match o with
    | Some c =>
        if Z.land cs 3 =? 0 then panic "trap"
        else
          p ← onk (getp c); err ← onk (onm (load32 (tf + TF_ERR)));
          _ ← print (chars "pid %d %s: trap %d err %d on cpu %d eip 0x%x addr 0x%x--kill proc" ++ [NEWLINE])
                [VInt (pid p); VStr (Some (cstr (p_name p))); VInt trapno; VInt err; VInt cpu; VInt eip; VInt cr2];
          onk (setp c (set_killed 1))
    | None => panic "trap"
    end.

(** The last check of [trap], also reached after [yield] has returned. *)
Definition trap_yielded (cs : Z) : M tst leave :=
  k ← mykilled_flag;
  if k && user_mode cs then die else mret Returns.

Definition trap (cpu cr2 tf : Z) : M tst leave :=
  trapno ← onk (onm (load32 (tf + TF_TRAPNO)));
  if trapno =? T_SYSCALL then
    c ← onk myproc; p ← onk (getp c);
    if negb (killed p =? 0) then die
    else
      _ ← onk (setp c (set_tf tf));
      r ← syscall;
      after_syscall r
  else
    cs0 ← onk (onm (load8 (tf + TF_CS))); cs1 ← onk (onm (load8 (tf + TF_CS + 1)));
    let cs := cs0 + 2 ^ 8 * cs1 in
    _ ← trap_switch cpu cr2 tf trapno cs;
    k ← mykilled_flag;
    if k && user_mode cs then die
    else
      o ← gets (fun t => curproc (kern t));
      match o with
      | None => trap_yielded cs
      | Some c =>
          p ← onk (getp c);
          if decide (state p = RUNNING) then
            if trapno =? T_IRQ0 + IRQ_TIMER then _ ← onk yield; mret Yielded
            else trap_yielded cs
          else trap_yielded cs
      end.

(** A process asleep in a system call is running again. *)
Definition trap_resume (pt : point) : M tst leave := r ← resume pt; after_syscall r.

(** [forkret], the first code a new process runs. *)
Definition forkret : M tst () :=
  f ← gets first;
  if f : bool then
    _ ← modify (set_first false);
    _ ← onk (onf (iinit ROOTDEV));
    onk (onf (onj (initlog ROOTDEV)))
  else mret ().
End trap.
