(* ===== verification/SyscallSpec.v ===== *)
(** * Behaviour of the argument functions and of the shared-memory calls

    For a running process whose memory below [sz] is mapped, the argument
    functions are total and determined by the user's memory, and
    [share_data] / [get_data] act on the process's table of structures as
    on a map from names (their first ten characters) to addresses. *)

From stdpp Require Import base numbers list gmap strings.
From S2P Require Import Prelude Machine CString CStringSpec Kalloc Vm PageTable VmUser VmAccess.
From S2P Require Import Shared FileSys Proc Syscall.
Open Scope Z_scope.

Section syscallspec.
Context {LK : Linker} {FS : FileSys}.

(** Byte and word at a user address. *)
Definition ubyte (m : gmap Z Z) (d a : Z) : Z := ld8 m (uaddr m d a).
Definition uword (m : gmap Z Z) (d a : Z) : Z :=
  ubyte m d a + 2 ^ 8 * ubyte m d (a + 1) + 2 ^ 16 * ubyte m d (a + 2) + 2 ^ 24 * ubyte m d (a + 3).

(** The current address space: directory [d] maps the addresses below
    [size], writable for the kernel. *)
Record user_space (s : machine) (d size : Z) : Prop := {
  us_cr3 : cr3 s = V2P d;
  us_wf : wf_pgdir (mem s) d;
  us_size : 0 <= size <= SHAREDBASE;
  us_mapped : forall a, 0 <= a < size -> mapped_page (mem s) d a = true /\
    flag_set (pte (mem s) d a) PTE_W = true /\ valid_page (uframe (mem s) d a) /\
    uframe (mem s) d a ∉ pgdir_pages (mem s) d;
  us_inj : forall a b, 0 <= a < size -> 0 <= b < size ->
    uframe (mem s) d a = uframe (mem s) d b -> page_of a = page_of b }.

(** [p] runs on this CPU. *)
Record running (k : kst) (c : nat) (p : proc) : Prop := {
  run_cur : curproc k = Some c;
  run_proc : ptable k !! c = Some p;
  run_space : user_space (mach k) (pgdir p) (sz p);
  run_tf : KERNBASE <= tf p /\ tf p + SIZEOF_TF <= KERNBASE + PHYSTOP }.

Lemma load8_user s d size a : user_space s d size -> 0 <= a < size ->
  load8 a s = Ret (ubyte (mem s) d a, s).
Proof.
  intros [Hc Hwf Hsz Hm _] Ha. destruct (Hm a Ha) as (Hp & Hw & Hv & _).
  unfold load8. by rewrite (kaddr_user s d a false) by (done || lia).
Qed.

Lemma load32_user s d size a : user_space s d size -> 0 <= a -> a + 4 <= size ->
  load32 a s = Ret (uword (mem s) d a, s).
Proof.
  intros Hus Ha Ha4. unfold load32, mbind, M_bind.
  by rewrite !(load8_user s d size) by (done || lia).
Qed.

(** Bytes at different user addresses are different. *)
Lemma uaddr_inj s d size a b : user_space s d size -> 0 <= a < size -> 0 <= b < size ->
  uaddr (mem s) d a = uaddr (mem s) d b -> a = b.
Proof.
  intros [_ _ _ Hm Hinj] Ha Hb Heq. unfold uaddr in Heq.
  destruct (Hm a Ha) as (_ & _ & [Hal _] & _). destruct (Hm b Hb) as (_ & _ & [Hbl _] & _).
  specialize (Hinj a b Ha Hb). lia.
Qed.

Lemma store8_user s d size a v : user_space s d size -> 0 <= a < size ->
  let s' := set_mem (st8 (mem s) (uaddr (mem s) d a) v) s in
  store8 a v s = Ret ((), s') /\ user_space s' d size /\
  (forall b, pte (mem s') d b = pte (mem s) d b) /\
  (forall b, 0 <= b < size -> ubyte (mem s') d b = if b =? a then u8 v else ubyte (mem s) d b).
Proof.
  intros Hus Ha s'. pose proof Hus as [Hc Hwf Hsz Hm Hinj].
  destruct (Hm a Ha) as (Hp & Hw & Hv & Hnp).
  assert (frame {[uframe (mem s) d a]} (mem s) (mem s')) as Hf.
  { intros b Hb. apply ld8_st8_ne. intros <-. apply Hb, elem_of_singleton.
    destruct Hv as [Hal _]. unfold uaddr. lia. }
  destruct (pt_frame _ _ _ d Hwf Hf ltac:(set_solver)) as (Hwf' & Ht & _ & Hpte).
  split; [unfold store8; by rewrite (kaddr_user s d a true) by (done || lia)|].
  split; [|split; [done|]].
  - split; [done|done|done| |]; unfold mapped_page, uframe, pgdir_pages; intros b;
      rewrite ?Ht, ?Hpte; [apply Hm|]. intros x. rewrite Hpte. apply Hinj.
  - intros b Hb. unfold ubyte. assert (uaddr (mem s') d b = uaddr (mem s) d b) as ->
      by (unfold uaddr, uframe; by rewrite Hpte).
    destruct (Z.eqb_spec b a) as [->|Hne]; cbn [s' mem set_mem]; [apply ld8_st8_eq|].
    apply ld8_st8_ne. intros Heq. apply Hne. symmetry. by eapply uaddr_inj.
Qed.

(** A word stored at a user address. *)
Definition ustored (s : machine) (d size a v : Z) (s' : machine) : Prop :=
  only_mem s s' /\ user_space s' d size /\ (forall b, pte (mem s') d b = pte (mem s) d b) /\
  (forall b, 0 <= b < size -> ubyte (mem s') d b =
     if (a <=? b) && (b <? a + 4) then u8 (Z.shiftr v (8 * (b - a))) else ubyte (mem s) d b) /\
  (forall x, (forall b, a <= b < a + 4 -> x <> uaddr (mem s) d b) -> ld8 (mem s') x = ld8 (mem s) x).

Lemma store32_user s d size a v : user_space s d size -> 0 <= a -> a + 4 <= size ->
  wp (store32 a v) s (fun _ s' => ustored s d size a v s').
Proof.
  intros H0 Ha Ha4. unfold store32.
  destruct (store8_user s d size a v H0 ltac:(lia)) as (E0 & H1 & P1 & B1).
  rewrite wp_bind, (wp_run _ _ _ _ _ E0). set (s1 := set_mem _ s) in *.
  destruct (store8_user s1 d size (a + 1) (Z.shiftr v 8) H1 ltac:(lia)) as (E1 & H2 & P2 & B2).
  rewrite wp_bind, (wp_run _ _ _ _ _ E1). set (s2 := set_mem _ s1) in *.
  destruct (store8_user s2 d size (a + 2) (Z.shiftr v 16) H2 ltac:(lia)) as (E2 & H3 & P3 & B3).
  rewrite wp_bind, (wp_run _ _ _ _ _ E2). set (s3 := set_mem _ s2) in *.
  destruct (store8_user s3 d size (a + 3) (Z.shiftr v 24) H3 ltac:(lia)) as (E3 & H4 & P4 & B4).
  rewrite (wp_run _ _ _ _ _ E3). set (s4 := set_mem _ s3) in *.
  split; [done|]. split; [done|]. split; [intros b; by rewrite P4, P3, P2, P1|]. split.
  - intros b Hb. rewrite B4, B3, B2, B1 by done.
    assert (b = a \/ b = a + 1 \/ b = a + 2 \/ b = a + 3 \/ ~ a <= b < a + 4)
      as [-> | [-> | [-> | [-> | Hn]]]] by lia.
    all: repeat match goal with |- context [(?x =? ?y)] => destruct (Z.eqb_spec x y); try lia end.
    all: try (rewrite (proj2 (andb_true_iff _ _)) by lia; do 2 f_equal; lia).
    + rewrite (proj2 (andb_true_iff _ _)) by lia. by rewrite Z.sub_diag.
    + by rewrite (proj2 (andb_false_iff _ _)) by lia.
  - intros x Hx. assert (forall b, uaddr (mem s1) d b = uaddr (mem s) d b) as U1
      by (intros b; unfold uaddr, uframe; by rewrite P1).
    assert (forall b, uaddr (mem s2) d b = uaddr (mem s) d b) as U2
      by (intros b; unfold uaddr, uframe; by rewrite P2, P1).
    assert (forall b, uaddr (mem s3) d b = uaddr (mem s) d b) as U3
      by (intros b; unfold uaddr, uframe; by rewrite P3, P2, P1).
    unfold s4. rewrite U3. cbn [mem set_mem]. rewrite ld8_st8_ne by (apply not_eq_sym, Hx; lia).
    unfold s3. rewrite U2. cbn [mem set_mem]. rewrite ld8_st8_ne by (apply not_eq_sym, Hx; lia).
    unfold s2. rewrite U1. cbn [mem set_mem]. rewrite ld8_st8_ne by (apply not_eq_sym, Hx; lia).
    unfold s1. cbn [mem set_mem]. by rewrite ld8_st8_ne by (apply not_eq_sym, Hx; lia).
Qed.

(** The stored word is read back. *)
Lemma ustored_uword s d size a v s' : ustored s d size a v s' -> 0 <= a -> a + 4 <= size ->
  uword (mem s') d a = u32 v.
Proof.
  intros (_ & _ & _ & Hb & _) Ha Ha4. unfold uword. rewrite !Hb by lia.
  rewrite !(proj2 (andb_true_iff _ _)) by lia.
  replace (8 * (a - a)) with 0 by lia. replace (8 * (a + 1 - a)) with 8 by lia.
  replace (8 * (a + 2 - a)) with 16 by lia. replace (8 * (a + 3 - a)) with 24 by lia.
  rewrite Z.shiftr_0_r, !Z.shiftr_div_pow2 by lia. lia.
Qed.

(** ** Arguments *)

Lemma onm_read {A} k (r : M machine A) (v : A) :
  r (mach k) = Ret (v, mach k) -> onm r k = Ret (v, k).
Proof. intros H. unfold onm, zoom. rewrite H. by destruct k. Qed.

Section args.
Context (k : kst) (c : nat) (p : proc).
Let m : gmap Z Z := mem (mach k).
Let d : Z := pgdir p.

Definition int_at (addr : Z) : option Z :=
  if (sz p <=? addr) || (sz p <? u32 (addr + 4)) then None
  else Some (s32 (uword (mem (mach k)) (pgdir p) addr)).

(** Position of the first NUL among the first [n] characters. *)
Fixpoint find_nul (n : nat) (f : Z -> Z) : option Z :=
  match n with
  | O => None
  | S n => if f 0 =? 0 then Some 0 else (fun i => i + 1) <$> find_nul n (fun i => f (i + 1))
  end.

Definition str_at (addr : Z) : option (Z * Z) :=
  if sz p <=? addr then None
  else (fun len => (addr, len)) <$>
       find_nul (Z.to_nat (sz p - addr)) (fun i => ubyte (mem (mach k)) (pgdir p) (addr + i)).

(** The [n]-th argument word, as an integer, a pointer and a string. *)
Definition int_arg (n : Z) : option Z :=
  int_at (u32 (ld32 (mem (mach k)) (tf p + TF_ESP) + 4 + 4 * n)).
Definition ptr_arg (n size : Z) : option Z :=
  i ← int_arg n;
  if (size <? 0) || (sz p <=? u32 i) || (sz p <? u32 (u32 i + size)) then None else Some (u32 i).
Definition str_arg (n : Z) : option (Z * Z) := i ← int_arg n; str_at (u32 i).

Hypothesis Hrun : running k c p.

Lemma myproc_run : myproc k = Ret (c, k).
Proof. unfold myproc. by rewrite (run_cur _ _ _ Hrun). Qed.

Lemma getp_run : getp c k = Ret (p, k).
Proof. unfold getp. by rewrite (run_proc _ _ _ Hrun). Qed.

Lemma fetchint_run addr : 0 <= addr < 2 ^ 32 -> fetchint addr k = Ret (int_at addr, k).
Proof.
  intros Ha. unfold fetchint, int_at, mbind, M_bind. rewrite myproc_run, getp_run.
  destruct ((sz p <=? addr) || (sz p <? u32 (addr + 4))) eqn:E; [done|].
  pose proof (run_space _ _ _ Hrun) as Hus. pose proof (us_size _ _ _ Hus).
  by rewrite (onm_read _ _ _ (load32_user _ _ _ addr Hus ltac:(lia) ltac:(lia))).
Qed.

Lemma fetchstr_loop_run n : forall pp s, pp <= s -> 0 <= s -> s + Z.of_nat n <= sz p ->
  fetchstr_loop n pp s k =
  Ret ((fun len => (pp, s - pp + len)) <$> find_nul n (fun i => ubyte m d (s + i)), k).
Proof.
  pose proof (run_space _ _ _ Hrun) as Hus.
  induction n as [|n IH]; intros pp s Hpp Hs Hn; [done|]. cbn [fetchstr_loop find_nul].
  unfold mbind, M_bind. rewrite (onm_read _ _ _ (load8_user _ _ _ s Hus ltac:(lia))), Z.add_0_r.
  fold m. fold d. destruct (ubyte m d s =? 0); [simpl; by rewrite Z.add_0_r|].
  rewrite IH by lia. f_equal. f_equal.
  assert (forall f g, (forall i, f i = g i) -> find_nul n f = find_nul n g) as Hext.
  { clear. induction n as [|n IH]; intros f g H; simpl; [done|]. by rewrite H, (IH _ (fun i => g (i + 1))). }
  rewrite (Hext _ (fun i => ubyte m d (s + (i + 1)))) by (intros; f_equal; lia).
  destruct (find_nul n _); simpl; [|done]. do 2 f_equal. lia.
Qed.

Lemma fetchstr_run addr : 0 <= addr -> fetchstr addr k = Ret (str_at addr, k).
Proof.
  intros Ha. unfold fetchstr, str_at, mbind, M_bind. rewrite myproc_run, getp_run.
  destruct (Z.leb_spec (sz p) addr); [done|]. rewrite fetchstr_loop_run by lia.
  fold m. fold d. f_equal. f_equal. rewrite Z.sub_diag. done.
Qed.

Lemma argint_run n : argint n k = Ret (int_arg n, k).
Proof.
  unfold argint, mbind, M_bind. rewrite myproc_run, getp_run.
  pose proof (run_tf _ _ _ Hrun). unfold SIZEOF_TF, TF_ESP in *.
  rewrite (onm_read _ _ _ (load32_ram (mach k) (tf p + 68) ltac:(lia) ltac:(lia))).
  apply fetchint_run. lia.
Qed.

Lemma argptr_run n size : argptr n size k = Ret (ptr_arg n size, k).
Proof.
  unfold argptr, ptr_arg. unfold mbind at 1 2 3, M_bind. rewrite myproc_run, getp_run, argint_run.
  destruct (int_arg n) as [i|]; [|done]. simpl. by destruct (_ || _).
Qed.

Lemma argstr_run n : argstr n k = Ret (str_arg n, k).
Proof.
  unfold argstr, str_arg. unfold mbind at 1, M_bind. rewrite argint_run.
  destruct (int_arg n) as [i|]; [|done]. simpl. apply fetchstr_run. lia.
Qed.
End args.

Lemma find_nul_Some n : forall f i, find_nul n f = Some i ->
  0 <= i < Z.of_nat n /\ f i = 0 /\ forall j, 0 <= j < i -> f j <> 0.
Proof.
  induction n as [|n IH]; intros f i; simpl; [done|].
  destruct (Z.eqb_spec (f 0) 0) as [H0|H0].
  - intros [= <-]. split; [lia|]. split; [done|lia].
  - destruct (find_nul n _) as [j|] eqn:E; intros [= <-].
    destruct (IH _ _ E) as (Hj & Hz & Hnz). split; [lia|]. split; [done|]. intros x Hx.
    destruct (decide (x = 0)) as [->|]; [done|].
    specialize (Hnz (x - 1)). replace (x - 1 + 1) with x in Hnz by lia. apply Hnz. lia.
Qed.

(** ** The table of shared structures *)

(** Names are compared by their first ten characters. *)
Definition sname (e : shared) : list Z := cprefix SHAREDNAME (chars (name e)).
Definition uname (k : kst) (p : proc) (nm : Z) : list Z :=
  cprefix SHAREDNAME (fun i => ubyte (mem (mach k)) (pgdir p) (nm + i)).

(** The name as it is stored: padded with NULs. *)
Definition stored_name (n : list Z) : list Z := n ++ replicate (SHAREDNAME - length n) 0.

(** What [share_data] decides: a result code, or the entry to fill. *)
Fixpoint share_find (n : list Z) (i : nat) (sh : list shared) : Z + nat :=
  match sh with
  | [] => inl (-3)
  | e :: sh =>
      if size e =? 0 then inr i
      else if decide (sname e = n) then inl (-2) else share_find n (S i) sh
  end.

(** The table of process [c] with entry [i] replaced. *)
Definition share_set (k : kst) (c : nat) (p : proc) (i : nat) (e : shared) : kst :=
  set_ptable (<[c := set_p_shared (<[i := e]> (p_shared p)) p]> (ptable k)) k.

Lemma share_set_running k c p i e : running k c p ->
  running (share_set k c p i e) c (set_p_shared (<[i := e]> (p_shared p)) p).
Proof.
  intros [Hc Hp Hs Ht]. split; [exact Hc| |exact Hs|exact Ht].
  apply list_lookup_insert_eq. by eapply lookup_lt_Some.
Qed.

Section calls.
Context (k : kst) (c : nat) (p : proc).
Hypothesis Hrun : running k c p.

Lemma str_arg_reads n nm len : str_arg k p n = Some (nm, len) ->
  forall j, reads (user_str nm) (fun i => ubyte (mem (mach k)) (pgdir p) (nm + i)) j k.
Proof.
  unfold str_arg. destruct (int_arg k p n) as [a|]; [|done]. simpl. unfold str_at.
  destruct (Z.leb_spec (sz p) (u32 a)) as [|Hlt]; [done|].
  destruct (find_nul _ _) as [l|] eqn:E; [|done]. intros [= <- <-].
  destruct (find_nul_Some _ _ _ E) as (Hl & Hz & Hnz). intros j i Hi Hpre.
  unfold user_str. apply onm_read. eapply load8_user; [apply (run_space _ _ _ Hrun)|].
  destruct (decide (i <= l)); [lia|]. exfalso. by apply (Hpre l ltac:(lia)).
Qed.

Lemma share_scan_run n nm len vm_start sz : str_arg k p n = Some (nm, len) ->
  forall sh i, share_scan c nm vm_start sz i sh k =
    match share_find (uname k p nm) i sh with
    | inl r => Ret (r, k)
    | inr j => Ret (Z.of_nat j,
                    share_set k c p j (Shared (stored_name (uname k p nm)) vm_start sz))
    end.
Proof.
  intros Harg. pose proof (str_arg_reads n nm len Harg SHAREDNAME) as Hreads.
  induction sh as [|e sh IH]; intros i; [done|]. cbn [share_scan share_find].
  destruct (size e =? 0).
  - unfold mbind, M_bind. rewrite (strncpy_reads _ _ _ _ Hreads).
    unfold setp. by rewrite (run_proc _ _ _ Hrun).
  - destruct (strncmp_reads SHAREDNAME (user_str nm) (arr (name e)) _ (chars (name e)) k Hreads)
      as (r & Hr & Hiff); [apply reads_arr|].
    unfold mbind at 1, M_bind. rewrite Hr. fold (sname e) (uname k p nm) in Hiff.
    destruct (Z.eqb_spec r 0) as [H0|H0]; destruct (decide (sname e = uname k p nm)) as [Heq|Hne].
    + done.
    + exfalso. apply Hne. symmetry. by apply Hiff.
    + exfalso. apply H0. by apply Hiff.
    + apply IH.
Qed.

(** The whole call, on every branch. *)
Lemma sys_share_data_run :
  sys_share_data k =
  match str_arg k p 0, ptr_arg k p 1 4, int_arg k p 2 with
  | Some (nm, _), Some vm_start, Some sz =>
      match share_find (uname k p nm) 0 (p_shared p) with
      | inl r => Ret (r, k)
      | inr j => Ret (Z.of_nat j,
                      share_set k c p j (Shared (stored_name (uname k p nm)) vm_start sz))
      end
  | _, _, _ => Ret (-1, k)
  end.
Proof.
  unfold sys_share_data. unfold mbind at 1 2, M_bind.
  rewrite (myproc_run k c p Hrun), (argstr_run k c p Hrun).
  destruct (str_arg k p 0) as [[nm len]|] eqn:E0; [|done].
  unfold mbind at 1, M_bind. rewrite (argptr_run k c p Hrun).
  destruct (ptr_arg k p 1 4) as [vm_start|]; [|done].
  unfold mbind at 1, M_bind. rewrite (argint_run k c p Hrun).
  destruct (int_arg k p 2) as [sz|]; [|done].
  unfold mbind at 1, M_bind. rewrite (getp_run k c p Hrun). by eapply share_scan_run.
Qed.

(** The entry [get_data] finds: the first with that name. *)
Definition get_find (n : list Z) (sh : list shared) : option (nat * shared) :=
  list_find (fun e => sname e = n) sh.

Lemma get_scan_run n nm len addr : str_arg k p n = Some (nm, len) ->
  forall sh, get_scan nm addr sh k =
    match get_find (uname k p nm) sh with
    | Some (_, e) => (_ ← onm (store32 addr (memstart e)); mret 0) k
    | None => Ret (-2, k)
    end.
Proof.
  intros Harg. pose proof (str_arg_reads n nm len Harg SHAREDNAME) as Hreads.
  induction sh as [|e sh IH]; [done|]. cbn [get_scan].
  destruct (strncmp_reads SHAREDNAME (user_str nm) (arr (name e)) _ (chars (name e)) k Hreads)
    as (r & Hr & Hiff); [apply reads_arr|].
  unfold mbind at 1, M_bind. rewrite Hr. fold (sname e) (uname k p nm) in Hiff.
  unfold get_find in *. simpl. destruct (Z.eqb_spec r 0) as [H0|H0].
  - by rewrite decide_True by (symmetry; by apply Hiff).
  - rewrite decide_False by (intros Heq; apply H0, Hiff; by symmetry). rewrite IH.
    by destruct (list_find _ sh) as [[]|].
Qed.

Lemma sys_get_data_run :
  sys_get_data k =
  match str_arg k p 0, ptr_arg k p 1 4 with
  | Some (nm, _), Some addr =>
      match get_find (uname k p nm) (p_shared p) with
      | Some (_, e) => (_ ← onm (store32 addr (memstart e)); mret 0) k
      | None => Ret (-2, k)
      end
  | _, _ => Ret (-1, k)
  end.
Proof.
  unfold sys_get_data. unfold mbind at 1 2, M_bind.
  rewrite (myproc_run k c p Hrun), (argstr_run k c p Hrun).
  destruct (str_arg k p 0) as [[nm len]|] eqn:E0; [|done].
  unfold mbind at 1, M_bind. rewrite (argptr_run k c p Hrun).
  destruct (ptr_arg k p 1 4) as [addr|]; [|done].
  unfold mbind at 1, M_bind. rewrite (getp_run k c p Hrun). by eapply get_scan_run.
Qed.

Lemma ptr_arg_range n size a : 0 <= size -> ptr_arg k p n size = Some a ->
  0 <= a < sz p /\ (a + size < 2 ^ 32 -> a + size <= sz p).
Proof.
  intros Hs. unfold ptr_arg. destruct (int_arg k p n) as [i|]; [|done]. simpl.
  destruct (_ || _) eqn:E; [done|]. intros [= <-]. lia.
Qed.

(** A successful [get_data] stores the address of the first structure of
    that name at the user's pointer and nothing else. *)
Lemma sys_get_data_ok nm len addr i e : str_arg k p 0 = Some (nm, len) ->
  ptr_arg k p 1 4 = Some addr -> get_find (uname k p nm) (p_shared p) = Some (i, e) ->
  wp sys_get_data k (fun r k' => r = 0 /\
    k' = set_mach (mach k') k /\
    ustored (mach k) (pgdir p) (sz p) addr (memstart e) (mach k') /\
    uword (mem (mach k')) (pgdir p) addr = u32 (memstart e)).
Proof.
  intros H0 H1 Hf. unfold wp. rewrite sys_get_data_run, H0, H1, Hf.
  pose proof (run_space _ _ _ Hrun) as Hus. pose proof (us_size _ _ _ Hus).
  destruct (ptr_arg_range 1 4 addr ltac:(lia) H1) as [Ha Ha4].
  enough (wp (_ ← onm (store32 addr (memstart e)); mret 0) k (fun r k' => r = 0 /\
    k' = set_mach (mach k') k /\
    ustored (mach k) (pgdir p) (sz p) addr (memstart e) (mach k') /\
    uword (mem (mach k')) (pgdir p) addr = u32 (memstart e))) as Hw by exact Hw.
  rewrite wp_bind. unfold onm. rewrite wp_zoom.
  eapply wp_mono; [apply (store32_user (mach k) (pgdir p) (sz p)); [done|lia|lia]|].
  intros [] s' Hst. apply wp_ret. split; [done|]. split; [done|]. split; [done|].
  eapply ustored_uword; [done|lia|lia].
Qed.
End calls.

(** ** [share_data] then [get_data] *)

Lemma share_find_inr n sh : forall i j, share_find n i sh = inr j ->
  exists t, j = (i + t)%nat /\ (t < length sh)%nat /\
    (forall x, (x < t)%nat -> forall e, sh !! x = Some e -> size e <> 0 /\ sname e <> n) /\
    exists e, sh !! t = Some e /\ size e = 0.
Proof.
  induction sh as [|e sh IH]; intros i j; simpl; [done|].
  destruct (Z.eqb_spec (size e) 0) as [Hz|Hz].
  - intros [= <-]. exists O. split; [lia|]. split; [lia|]. split; [lia|]. by exists e.
  - destruct (decide (sname e = n)) as [|Hne]; [done|]. intros (t & -> & Ht & Hlt & e' & He')%IH.
    exists (S t). split; [lia|]. split; [lia|]. split; [|by exists e'].
    intros [|x] Hx y; simpl; [by intros [= <-]|]. apply Hlt. lia.
Qed.

Lemma share_find_inl n sh : forall i r, share_find n i sh = inl r ->
  (r = -2 /\ exists t e, sh !! t = Some e /\ sname e = n /\
     forall x, (x <= t)%nat -> forall e, sh !! x = Some e -> size e <> 0) \/
  (r = -3 /\ forall e, e ∈ sh -> size e <> 0 /\ sname e <> n).
Proof.
  induction sh as [|e sh IH]; intros i r; simpl; [intros [= <-]; right; set_solver|].
  destruct (Z.eqb_spec (size e) 0) as [|Hz]; [done|]. destruct (decide (sname e = n)) as [Heq|Hne].
  - intros [= <-]. left. split; [done|]. exists O, e. split; [done|]. split; [done|].
    intros [|x] Hx; [|lia]. by intros ? [= <-].
  - intros [(-> & t & x & Hx & Hn & Hlt)|(-> & Hall)]%IH.
    + left. split; [done|]. exists (S t), x. do 2 (split; [done|]).
      intros [|y] Hy z; simpl; [by intros [= <-]|]. apply Hlt. lia.
    + right. split; [done|]. intros x [->|Hx]%elem_of_cons; [done|]. by apply Hall.
Qed.

Lemma sname_stored f vm_start sz :
  sname (Shared (stored_name (cprefix SHAREDNAME f)) vm_start sz) = cprefix SHAREDNAME f.
Proof. apply cprefix_copy. Qed.

(** The entry stored by a successful [share_data] is the one [get_data]
    finds under the same name. *)
Lemma share_get_find n j sh e : share_find n 0 sh = inr j -> sname e = n ->
  get_find n (<[j := e]> sh) = Some (j, e).
Proof.
  intros (t & -> & Ht & Hlt & _)%share_find_inr He. simpl. unfold get_find.
  apply list_find_Some. rewrite list_lookup_insert_eq by done. do 2 (split; [done|]).
  intros x y Hx Hxt. rewrite list_lookup_insert_ne in Hx by lia.
  destruct (Hlt x Hxt y Hx). done.
Qed.

(** An entry written over does not change the first entry of another name,
    unless it was that entry. *)
Lemma get_insert_other n j sh e : sname e <> n -> (forall x, get_find n sh <> Some (j, x)) ->
  get_find n (<[j := e]> sh) = get_find n sh.
Proof.
  intros Hne Hj. unfold get_find in *.
  destruct (list_find (fun e => sname e = n) sh) as [[i y]|] eqn:E.
  - apply list_find_Some in E as (Hy & Hn & Hlt). apply list_find_Some.
    assert (i <> j) as Hij by (intros ->; by apply (Hj y)).
    rewrite list_lookup_insert_ne by done. do 2 (split; [done|]). intros a b Hab Hlt'.
    destruct (decide (a = j)) as [->|Haj]; [|rewrite list_lookup_insert_ne in Hab by done; by eapply Hlt].
    rewrite list_lookup_insert_eq in Hab by (apply lookup_lt_Some in Hy; lia). by injection Hab as <-.
  - rewrite list_find_None in E. apply list_find_None. by apply Forall_insert.
Qed.
End syscallspec.
