(* ===== verification/ProcSpec.v ===== *)
(** * Behaviour of the process-table operations *)

From stdpp Require Import base numbers list gmap strings sorting.
From S2P Require Import Prelude Machine CString CStringSpec Kalloc Vm PageTable VmMap VmUser.
From S2P Require Import VmAlloc VmFree VmKernel VmCopy VmAccess Shared FileSys Proc Refs.
Open Scope Z_scope.

Section procspec.
Context {LK : Linker} {FS : FileSys} {SP : FileSpec FS}.

(** ** Rules for accesses to the table *)

Definition upd (k : kst) (i : nat) (p : proc) : kst := set_ptable (<[i := p]> (ptable k)) k.

Lemma wp_getp k i p Q : ptable k !! i = Some p -> wp (getp i) k Q <-> Q p k.
Proof. intros H. unfold wp, getp. by rewrite H. Qed.

Lemma wp_setp k i p f Q : ptable k !! i = Some p -> wp (setp i f) k Q <-> Q () (upd k i (f p)).
Proof. intros H. unfold wp, setp. by rewrite H. Qed.

Lemma wp_myproc k c Q : curproc k = Some c -> wp myproc k Q <-> Q c k.
Proof. intros H. unfold wp, myproc. by rewrite H. Qed.

Lemma wp_onm {A} (m : M machine A) k Q :
  wp (onm m) k Q <-> wp m (mach k) (fun a s => Q a (set_mach s k)).
Proof. apply wp_zoom. Qed.

(** Calls into the file system. *)
Lemma entered_pages {HF : FileSysOk LK FS SP} k : fs_pages (entered k) = fs_pages (fsys k).
Proof. unfold entered. destruct (curproc k ≫= _); [apply fs_enter_pages|done]. Qed.
Lemma entered_ready {HF : FileSysOk LK FS SP} k Fr Ir : fs_ready Fr Ir (fsys k) -> fs_ready Fr Ir (entered k).
Proof. unfold entered. destruct (curproc k ≫= _); [apply fs_enter_ready|done]. Qed.
Lemma entered_begun {HF : FileSysOk LK FS SP} k Fr Ir : fs_begun Fr Ir (fsys k) -> fs_begun Fr Ir (entered k).
Proof. unfold entered. destruct (curproc k ≫= _); [apply fs_enter_begun|done]. Qed.
Lemma entered_ending {HF : FileSysOk LK FS SP} k Fr Ir : fs_ending Fr Ir (fsys k) -> fs_ending Fr Ir (entered k).
Proof. unfold entered. destruct (curproc k ≫= _); [apply fs_enter_ending|done]. Qed.

Lemma wp_silent {HF : FileSysOk LK FS SP} {T} (op : M (machine * fs_state) T) A r B k Q : silent_call op A r B -> A (entered k) ->
  (forall f, fs_pages f = fs_pages (fsys k) -> B f -> Q r (set_fsys f k)) -> wp (onfs op) k Q.
Proof.
  intros Hop HA HQ. unfold onfs. rewrite wp_zoom. unfold wp.
  destruct (Hop (mach k) (entered k) HA) as (f & -> & Hf & HB). simpl. rewrite entered_pages in Hf.
  replace (set_mach _ _) with (set_fsys f k) by by destruct k. by apply HQ.
Qed.

Lemma upd_upd k i p q : upd (upd k i p) i q = upd k i q.
Proof. unfold upd. cbn. by rewrite list_insert_insert_eq. Qed.

Lemma upd_lookup k i p q : ptable k !! i = Some q -> ptable (upd k i p) !! i = Some p.
Proof. intros H%lookup_lt_Some. by apply list_lookup_insert_eq. Qed.

Lemma upd_lookup_ne k i j p : i <> j -> ptable (upd k i p) !! j = ptable k !! j.
Proof. intros H. by apply list_lookup_insert_ne. Qed.

Lemma upd_same k i p : ptable k !! i = Some p -> upd k i p = k.
Proof. intros H. unfold upd. rewrite list_insert_id by done. by destruct k. Qed.

(** ** [allocproc] *)

(** Layout of a new kernel stack: trap frame, return address, context. *)
Definition new_tf (ks : Z) : Z := ks + KSTACKSIZE - SIZEOF_TF.
Definition new_context (ks : Z) : Z := new_tf ks - 4 - SIZEOF_CONTEXT.

Definition embryo (p : proc) (n ks : Z) : proc :=
  set_context (new_context ks) (set_tf (new_tf ks)
    (set_kstack ks (set_pid n (set_state EMBRYO p)))).

(** [s'] after page [ks] was taken for a stack that starts in [forkret]
    and then returns to [trapret]. *)
Definition new_kstack (s : machine) (ks : Z) (l : list Z) (s' : machine) : Prop :=
  page_taken s ks l s' /\
  ld32 (mem s') (new_context ks + CTX_EIP) = u32 ld_forkret /\
  ld32 (mem s') (new_tf ks - 4) = u32 ld_trapret.

Lemma kstack_init_wp s ks l Q : kmem_inv s l -> valid_page ks -> ks ∉ l ->
  (forall s', new_kstack s ks l s' -> Q () s') ->
  wp (_ ← store32 (new_tf ks - 4) ld_trapret;
      _ ← memset (new_context ks) 0 SIZEOF_CONTEXT;
      store32 (new_context ks + CTX_EIP) ld_forkret) s Q.
Proof.
  intros Hk Hv Hnin HQ. pose proof (valid_page_ram ks Hv) as Hr. destruct Hv as [Hal Hv].
  unfold new_context, new_tf, SIZEOF_TF, SIZEOF_CONTEXT, CTX_EIP, KSTACKSIZE in *.
  rewrite wp_bind, wp_store32 by lia. rewrite wp_bind.
  eapply wp_mono; [apply memset_ram; unfold ram_range; lia|].
  intros _ s1 [(Hfl & Hc & Hu)%only_mem_fields Hw]. rewrite wp_store32 by lia. apply HQ.
  cbn [mem set_mem freelist cr3 use_lock] in *.
  assert (frame {[ks]} (mem s) (st32 (mem s) (ks + 4096 - 76 - 4) ld_trapret)) as Hf0
    by (apply frame_st32; [lia|apply elem_of_singleton; lia]).
  assert (frame {[ks]} (mem s) (st32 (mem s1) (ks + 4096 - 76 - 4 - 20 + 16) ld_forkret)) as Hf.
  { eapply frame_trans; [exact Hf0|]. eapply frame_trans.
    - eapply wrote_frame; [exact Hw|lia|]. intros b Hb. apply elem_of_singleton. lia.
    - apply frame_st32; [lia|apply elem_of_singleton; lia]. }
  split; [|split].
  - split; [eapply kmem_inv_frame; [exact Hk|exact Hfl|exact Hf|set_solver]|].
    split; [done|]. split; [done|]. split; [exact Hf|]. done.
  - apply ld32_st32_eq.
  - unfold new_tf, SIZEOF_TF, KSTACKSIZE. cbn [mem set_mem]. rewrite ld32_st32_ne by lia.
    rewrite (ld32_ext (st32 (mem s) (ks + 4096 - 76 - 4) ld_trapret)); [apply ld32_st32_eq|].
    intros i Hi. rewrite (Hw _). wrote_case.
Qed.

(** First unused entry. *)
Definition first_unused (k : kst) (i : nat) (p : proc) : Prop :=
  list_find (fun p => state p = UNUSED) (ptable k) = Some (i, p).

Lemma first_unused_lookup k i p : first_unused k i p -> ptable k !! i = Some p /\ state p = UNUSED.
Proof. intros (H1 & H2 & _)%list_find_Some. done. Qed.

Lemma allocproc_wp k l Q : kmem_inv (mach k) l ->
  (list_find (fun p => state p = UNUSED) (ptable k) = None -> Q None k) ->
  (forall i p, first_unused k i p -> l = [] ->
     Q None (set_nextpid (s32 (nextpid k + 1)) (upd k i (set_kstack 0 (set_pid (nextpid k) p))))) ->
  (forall i p ks l' s', first_unused k i p -> l = ks :: l' -> new_kstack (mach k) ks l' s' ->
     Q (Some i) (set_nextpid (s32 (nextpid k + 1))
                   (upd (set_mach s' k) i (embryo p (nextpid k) ks)))) ->
  wp allocproc k Q.
Proof.
  intros Hk HN H0 HS. unfold allocproc. wp_steps.
  destruct (list_find _ (ptable k)) as [[i p]|] eqn:E; [|by apply wp_ret, HN].
  pose proof (first_unused_lookup k i p E) as [Hp Hst].
  rewrite wp_bind, (wp_setp k i p) by done. rewrite wp_bind, wp_gets.
  rewrite wp_bind, (wp_setp _ i _) by (by eapply upd_lookup). rewrite upd_upd.
  rewrite wp_bind, wp_modify, wp_bind, wp_onm.
  eapply wp_mono; [by apply (kalloc_wp _ l)|]. cbv beta. intros ks s Hks.
  set (p1 := set_pid _ _). assert (p1 = set_pid (nextpid k) (set_state EMBRYO p)) as Hp1 by done.
  change (set_mach s (set_nextpid _ (upd k i p1))) with
    (set_nextpid (s32 (nextpid k + 1)) (upd (set_mach s k) i p1)).
  set (k1 := set_nextpid _ _). assert (ptable k1 !! i = Some p1) as Hk1 by (by eapply upd_lookup).
  rewrite wp_bind, (wp_setp k1 i p1) by done.
  destruct l as [|q l].
  - destruct Hks as [-> ->]. change (0 =? 0) with true. cbv iota.
    rewrite wp_bind, (wp_setp _ i _) by (by eapply upd_lookup). rewrite upd_upd. apply wp_ret.
    replace (upd k1 i _) with
      (set_nextpid (s32 (nextpid k + 1)) (upd k i (set_kstack 0 (set_pid (nextpid k) p)))).
    { by apply H0. }
    unfold k1, upd. destruct k, p. simpl in Hst. subst. cbn. by rewrite list_insert_insert_eq.
  - destruct Hks as (-> & Hv & Hnin & Hkk & Hm & Hc & Hu). pose proof (valid_page_ram q Hv).
    rewrite (proj2 (Z.eqb_neq _ _)) by lia. cbv zeta. fold (new_tf q). fold (new_context q).
    rewrite wp_bind, (wp_setp _ i _) by (by eapply upd_lookup). rewrite upd_upd.
    pose proof (kstack_init_wp s q l (fun _ s' => new_kstack s q l s') Hkk Hv Hnin ltac:(done)) as Hi.
    rewrite !wp_bind in Hi. rewrite wp_bind, wp_onm. eapply wp_mono; [exact Hi|].
    clear Hi. intros [] s1 Hi. rewrite wp_bind in Hi.
    rewrite wp_bind, (wp_setp _ i (set_tf (new_tf q) (set_kstack q p1))) by (by eapply upd_lookup).
    rewrite wp_bind, wp_onm. eapply wp_mono; [exact Hi|]. clear Hi. intros [] s2 Hi.
    rewrite wp_bind, wp_onm. eapply wp_mono; [exact Hi|]. clear Hi. intros [] s3 [Htk He].
    apply wp_ret. pose proof (HS i p q l s3 E eq_refl) as HS'. unfold upd in *. cbn in HS' |- *.
    rewrite list_insert_insert_eq. rewrite !list_insert_insert_eq. apply HS'.
    cbn in Hm, Hc, Hu. unfold new_kstack, page_taken in *. by rewrite <- Hm, <- Hc, <- Hu.
Qed.

(** ** Rules for a state in which one entry was changed *)

Section entry.
Context (k : kst) (i : nat) (q : proc).
Hypothesis Hq : ptable k !! i = Some q.

Lemma wp_getp_upd p Q : wp (getp i) (upd k i p) Q <-> Q p (upd k i p).
Proof. apply wp_getp. by eapply upd_lookup. Qed.

Lemma wp_setp_upd p f Q : wp (setp i f) (upd k i p) Q <-> Q () (upd k i (f p)).
Proof. rewrite (wp_setp _ i p) by (by eapply upd_lookup). by rewrite upd_upd. Qed.
End entry.

Lemma wp_getp_other k i p j q Q : ptable k !! j = Some q -> i <> j ->
  wp (getp j) (upd k i p) Q <-> Q q (upd k i p).
Proof. intros Hj Hij. apply wp_getp. by rewrite upd_lookup_ne. Qed.

Lemma wp_onm_upd {A} (m : M machine A) k i p Q :
  wp (onm m) (upd k i p) Q <-> wp m (mach k) (fun a s => Q a (upd (set_mach s k) i p)).
Proof. exact (wp_onm m (upd k i p) Q). Qed.

Lemma wp_silent_upd {HF : FileSysOk LK FS SP} {T} (op : M (machine * fs_state) T) A r B k i p Q : silent_call op A r B ->
  A (entered (upd k i p)) -> (forall f, fs_pages f = fs_pages (fsys k) -> B f -> Q r (upd (set_fsys f k) i p)) ->
  wp (onfs op) (upd k i p) Q.
Proof. intros Hop HA HQ. by eapply wp_silent. Qed.

(** Open files of the child: duplicates of the parent's. *)
Fixpoint dup_list (i : nat) (files old : list Z) : list Z :=
  match files with
  | [] => old
  | f :: files => dup_list (S i) files (if f =? 0 then old else <[i := f]> old)
  end.

Lemma dup_files_wp {HF : FileSysOk LK FS SP} np files Ir : forall i k p q Fr Q, ptable k !! np = Some q ->
  fs_ready Fr Ir (fsys k) -> (forall x, x ∈ nonzero files -> x ∈ Fr) ->
  (forall f, fs_pages f = fs_pages (fsys k) -> fs_ready (nonzero files ++ Fr) Ir f ->
     Q () (upd (set_fsys f k) np (set_ofile (dup_list i files (ofile p)) p))) ->
  wp (dup_files np i files) (upd k np p) Q.
Proof.
  induction files as [|x files IH]; intros i k p q Fr Q Hq Hr Hin HQ; cbn [dup_files dup_list] in *.
  - apply wp_ret. specialize (HQ (fsys k) eq_refl Hr). destruct k, p. exact HQ.
  - rewrite wp_bind. rewrite nonzero_cons in Hin, HQ. destruct (x =? 0).
    + apply wp_ret. by eapply IH.
    + rewrite wp_bind. eapply wp_silent_upd; [apply (filedup_ok x Fr Ir), Hin, list_elem_of_here|by apply entered_ready|].
      intros f1 Hf1 Hr1. rewrite (wp_setp_upd _ np q) by done. eapply (IH (S i) (set_fsys f1 k) _ q (x :: Fr)); [done|done|set_solver|].
      intros f2 Hf2 Hr2. apply HQ; [by rewrite Hf2|]. by rewrite <- app_comm_cons, Permutation_middle.
Qed.

(** Into an entry without open files. *)
Lemma dup_list_zeros files : forall pre n, length files = n ->
  dup_list (length pre) files (pre ++ replicate n 0) = pre ++ files.
Proof.
  induction files as [|x files IH]; intros pre n Hn; destruct n as [|n]; try done. cbn [dup_list]. injection Hn as Hn.
  assert ((if x =? 0 then pre ++ replicate (S n) 0 else <[length pre := x]> (pre ++ replicate (S n) 0)) = (pre ++ [x]) ++ replicate n 0) as ->.
  { cbn [replicate]. rewrite <- app_assoc. destruct (Z.eqb_spec x 0) as [->|]; [done|].
    by rewrite insert_app_r_alt, Nat.sub_diag by done. }
  replace (S (length pre)) with (length (pre ++ [x])) by (rewrite length_app; cbn; lia). rewrite IH by done. by rewrite <- app_assoc.
Qed.

(** ** [fork] *)

(** The child's trap frame: the parent's with [eax] cleared. *)
Definition tf_copied (m : gmap Z Z) (src : Z) (m' : gmap Z Z) (dst : Z) : Prop :=
  forall j, 0 <= j < SIZEOF_TF ->
    ld8 m' (dst + j) = if (TF_EAX <=? j) && (j <? TF_EAX + 4) then 0 else ld8 m (src + j).

Lemma tf_copy_wp s ks src : valid_page ks -> ram_range src SIZEOF_TF ->
  wp (_ ← memmove (new_tf ks) src SIZEOF_TF; store32 (new_tf ks + TF_EAX) 0) s (fun _ s' =>
    only_mem s s' /\ frame {[ks]} (mem s) (mem s') /\ tf_copied (mem s) src (mem s') (new_tf ks)).
Proof.
  intros Hv Hsrc. pose proof (valid_page_ram ks Hv) as Hr. destruct Hv as [Hal _].
  unfold tf_copied, new_tf, TF_EAX, SIZEOF_TF, KSTACKSIZE in *. rewrite wp_bind.
  eapply wp_mono; [apply memmove_ram; [unfold ram_range; lia|done]|]. intros [] s1 [Hom Hw].
  rewrite wp_store32 by lia. cbn [mem set_mem]. split; [etrans; [exact Hom|done]|]. split.
  - eapply frame_trans; [eapply wrote_frame; [exact Hw|lia|]|].
    + intros b Hb. apply elem_of_singleton. lia.
    + apply frame_st32; [lia|apply elem_of_singleton; lia].
  - intros j Hj. change (28 + 4) with 32. destruct ((28 <=? j) && (j <? 32)) eqn:E.
    + rewrite (ld8_st32_rep _ _ _ 0) by (intros i Hi; by rewrite Z.shiftr_0_l).
      rewrite (proj2 (andb_true_iff _ _)) by lia. done.
    + rewrite ld8_st32_ne by lia. rewrite (Hw _). wrote_case. f_equal. lia.
Qed.

(** Memory after a successful [fork]: kernel stack [ks] and address space
    [d] of the child were taken from the free list [l]. *)
Record forked (s : machine) (l : list Z) (pg : Z) (n np : nat) (ks d : Z)
    (s' : machine) (l' : list Z) : Prop := {
  fk_kmem : kmem_inv s' l';
  fk_wf : wf_pgdir (mem s') d;
  fk_pages : exists new, l ≡ₚ ks :: d :: user_frames (mem s') d 0 n ++ new ++ l' /\
    tables (mem s') d = list_to_set new;
  fk_copied : copied (mem s) pg np (mem s') d;
  fk_frame : frame (list_to_set l) (mem s) (mem s');
  fk_cr3 : cr3 s' = cr3 s;
  fk_lock : use_lock s' = use_lock s }.

(** Writing the child's kernel stack does not disturb its new space. *)
Lemma forked_intro s ks l1 s1 pg n np d s2 l2 s3 :
  Z.of_nat n * PGSIZE = SHAREDBASE -> (np <= n)%nat -> ks ∉ l1 -> page_taken s ks l1 s1 ->
  user_sep s (ks :: l1) pg 0 np ->
  (forall va, 0 <= va < Z.of_nat np * PGSIZE -> mapped_page (mem s) pg va = true) ->
  new_space s1 l1 d n s2 l2 -> copied (mem s1) pg np (mem s2) d ->
  only_mem s2 s3 -> frame {[ks]} (mem s2) (mem s3) ->
  forked s (ks :: l1) pg n np ks d s3 l2.
Proof.
  intros Hn Hnp Hnin (Hk1 & Hv & _ & Hf1 & Hc1 & Hu1) Hsep Hmap Hnew [Hhi Hlo]
    (Hfl3 & Hc3 & Hu3)%only_mem_fields Hf3.
  destruct Hnew as (Hk2 & Hwf2 & (new & Hperm & Ht) & Hf2 & Hc2 & Hu2).
  assert (forall p, p ∈ d :: user_frames (mem s2) d 0 n ++ new ++ l2 -> p <> ks) as Hne.
  { intros p Hp ->. apply Hnin. by rewrite Hperm. }
  assert (pgdir_pages (mem s2) d ## {[ks]}) as Hdis.
  { apply disjoint_singleton_r. intros Hp. eapply Hne; [|reflexivity]. unfold pgdir_pages in Hp.
    rewrite Ht in Hp. set_solver. }
  destruct (pt_frame _ _ _ d Hwf2 Hf3 Hdis) as (Hwf3 & Ht3 & _ & Hpte3).
  assert (user_frames (mem s3) d 0 n = user_frames (mem s2) d 0 n) as Huf
    by (apply user_frames_ext; intros; apply Hpte3).
  destruct (parent_intact s (ks :: l1) pg (Z.of_nat np * PGSIZE) n np Hn ltac:(lia)
    ltac:(unfold covers; lia) Hsep Hmap s1) as (_ & Hptep & Hinp).
  { eapply frame_mono; [exact Hf1|set_solver]. }
  split; [|done| | | |congruence|congruence].
  - eapply kmem_inv_frame; [exact Hk2|done|exact Hf3|]. intros p Hp. apply not_elem_of_singleton.
    apply Hne. set_solver.
  - exists new. rewrite Huf, Ht3. split; [by rewrite Hperm|done].
  - split; intros va Hva.
    + rewrite Hpte3. by apply Hhi.
    + destruct (Hlo va Hva) as (Hm & Hfl & Hb). destruct (Hinp va Hva) as [_ Hin].
      pose proof (elem_of_user_frames (mem s2) d 0 n va eq_refl ltac:(lia) Hm) as Huin.
      unfold mapped_page. rewrite Hpte3. split; [done|]. rewrite <- Hptep. split; [done|].
      rewrite <- Hin. unfold uframe in *. rewrite Hpte3, <- Hptep. rewrite Hf3; [done|].
      replace (page_of _) with (P2V (PTE_ADDR (pte (mem s2) d va))) by lia.
      apply not_elem_of_singleton. apply Hne. set_solver.
  - assert (forall q : Z, q ∈ l1 -> q ∈ (list_to_set (ks :: l1) : gset Z)) as Hsub by set_solver.
    eapply frame_trans; [eapply frame_mono; [exact Hf1|set_solver]|].
    eapply frame_trans; eapply frame_mono; [exact Hf2| |exact Hf3|set_solver].
    intros q. rewrite elem_of_list_to_set. apply Hsub.
Qed.

(** [safestrcpy] between kernel arrays has no other effect. *)
Lemma safestrcpy_arr {St} (dst src : list Z) n :
  exists nm, forall s : St, safestrcpy dst (arr src) n s = Ret (nm, s).
Proof.
  unfold safestrcpy. destruct (n <=? 0); [by exists dst|].
  assert (forall (t : Z -> M St Z) f, (forall i s, t i s = Ret (f i, s)) -> forall k d i,
    exists nm, forall s, safestrcpy_loop d i t k s = Ret (nm, s)) as Hl.
  { intros t f Ht k. revert t f Ht. induction k as [|k IH]; intros t f Ht d i; [by eexists|].
    cbn [safestrcpy_loop]. unfold mbind, M_bind.
    destruct (f 0 =? 0) eqn:E.
    - eexists. intros s. rewrite Ht, E. done.
    - destruct (IH (next t) (fun i => f (i + 1)) ltac:(intros; apply Ht) (<[i := f 0]> d) (i + 1)%nat)
        as [nm Hnm]. exists nm. intros s. rewrite Ht, E. apply Hnm. }
  by apply (Hl _ (chars src)).
Qed.

Lemma copy_shared_count cur : forall old, ((copy_shared cur old).2 <= length cur)%nat.
Proof.
  induction cur as [|e cur IH]; intros old; simpl; [lia|]. destruct old as [|x old]; simpl; [lia|].
  destruct (size e =? 0); simpl; [lia|]. specialize (IH old). destruct (copy_shared cur old). simpl in *. lia.
Qed.

(** The child's entry of the table. *)
Definition child (p cp : proc) (c : nat) (n ks d : Z) (nm : list Z) : proc :=
  set_state RUNNABLE (set_p_name nm
    (set_p_shared (copy_shared (p_shared cp) (p_shared p)).1
      (set_cwd (cwd cp) (set_ofile (dup_list 0 (ofile cp) (ofile p))
        (set_parent_pgdir (pgdir cp) (set_parent (Some c) (set_sz (sz cp)
          (set_pgdir d (embryo p n ks))))))))).

(** The running process [c] may fork: its space is apart from the free
    list [l], and so is its trap frame. *)
Record can_fork (k : kst) (c : nat) (cp : proc) (l : list Z) (n np : nat) : Prop := {
  cf_cur : curproc k = Some c;
  cf_proc : ptable k !! c = Some cp;
  cf_state : live cp;
  cf_n : Z.of_nat n * PGSIZE = SHAREDBASE;
  cf_sz : 0 <= sz cp <= SHAREDBASE /\ covers 0 np (sz cp);
  cf_sep : user_sep (mach k) l (pgdir cp) 0 np;
  cf_mapped : forall va, 0 <= va < Z.of_nat np * PGSIZE ->
    mapped_page (mem (mach k)) (pgdir cp) va = true;
  cf_tf : ram_range (tf cp) SIZEOF_TF /\
    forall j, 0 <= j < SIZEOF_TF -> page_of (tf cp + j) ∉ l;
  cf_shared : length (p_shared cp) = SHAREDCOUNT }.

(** Nothing is lost when [fork] fails. *)
Definition fork_failed (k : kst) (l : list Z) (k' : kst) : Prop :=
  (list_find (fun p => state p = UNUSED) (ptable k) = None /\ k' = k) \/
  (exists i p p' s', first_unused k i p /\
     k' = set_nextpid (s32 (nextpid k + 1)) (upd (set_mach s' k) i p') /\
     state p' = UNUSED /\ kstack p' = 0 /\ p_shared p' = p_shared p /\ same_refs p p' /\ returned (mach k) l s').

Lemma returned_kfree s ks l1 s1 s2 : page_taken s ks l1 s1 -> returned s1 l1 s2 ->
  wp (kfree ks) s2 (fun _ s3 => returned s (ks :: l1) s3).
Proof.
  intros (_ & Hv & Hnin & Hf1 & Hc1 & Hu1) (l2 & Hk2 & Hperm & Hf2 & Hc2 & Hu2).
  eapply wp_mono; [apply (kfree_wp s2 l2 ks Hk2 Hv)|]; [by rewrite Hperm|].
  intros [] s3 (Hk3 & Hf3 & Hc3 & Hu3). exists (ks :: l2). split; [done|].
  split; [by rewrite Hperm|]. split; [|split; congruence]. simpl.
  eapply frame_trans; [eapply frame_mono; [exact Hf1|]|eapply frame_trans; eapply frame_mono;
    [exact Hf2| |exact Hf3|]]; clear; set_solver.
Qed.

Lemma user_sep_taken s ks l1 s1 d np : page_taken s ks l1 s1 -> user_sep s (ks :: l1) d 0 np ->
  user_sep s1 l1 d 0 np /\ (forall va, pte (mem s1) d va = pte (mem s) d va).
Proof.
  intros (Hk1 & Hv & Hnin & Hf1 & _) ((Hk & Hwf & Hl) & Hnd & Hval & Hdis).
  assert (ks ∉ pgdir_pages (mem s) d) as Hks by (apply Hl; set_solver).
  destruct (pt_frame _ _ _ d Hwf Hf1 ltac:(set_solver)) as (Hwf1 & Ht & _ & Hpte).
  split; [|done]. assert (user_frames (mem s1) d 0 np = user_frames (mem s) d 0 np) as Huf
    by (apply user_frames_ext; intros; apply Hpte).
  unfold user_sep, pt_sep, pgdir_pages in *. rewrite Huf, Ht.
  split; [|split; [|done]].
  - do 2 (split; [done|]). intros p Hp. apply Hl. set_solver.
  - rewrite <- Permutation_middle in Hnd. by apply NoDup_cons in Hnd as [_ ?].
Qed.

(** [fork] after the address space was copied. *)
Lemma fork_fill_wp {HF : FileSysOk LK FS SP} K i p c cp n ks d Fr Ir Q : ptable K !! i = Some p -> i <> c ->
  ptable K !! c = Some cp -> valid_page ks -> ram_range (tf cp) SIZEOF_TF ->
  length (p_shared cp) = SHAREDCOUNT -> fs_ready Fr Ir (fsys K) ->
  (forall x, x ∈ nonzero (ofile cp) -> x ∈ Fr) -> cwd cp ∈ Ir ->
  (forall s' f nm, fs_pages f = fs_pages (fsys K) -> fs_ready (nonzero (ofile cp) ++ Fr) (cwd cp :: Ir) f -> only_mem (mach K) s' -> frame {[ks]} (mem (mach K)) (mem s') ->
     tf_copied (mem (mach K)) (tf cp) (mem s') (new_tf ks) ->
     Q n (upd (set_fsys f (set_mach s' K)) i (child p cp c n ks d nm))) ->
  wp (_ ← setp i (set_sz (sz cp));
      _ ← setp i (set_parent (Some c));
      p ← getp i;
      _ ← onm (memmove (tf p) (tf cp) SIZEOF_TF);
      _ ← setp i (set_parent_pgdir (pgdir cp));
      _ ← onm (store32 (tf p + TF_EAX) 0);
      _ ← dup_files i 0 (ofile cp);
      w ← onfs (idup (cwd cp));
      _ ← setp i (set_cwd w);
      p ← getp i;
      let '(sh, i') := copy_shared (p_shared cp) (p_shared p) in
      _ ← setp i (set_p_shared sh);
      if (10 <? i')%nat then
        _ ← onm (kfree (kstack p)); _ ← setp i (set_kstack 0); _ ← setp i (set_state UNUSED);
        mret (-1)
      else
        nm ← safestrcpy (p_name p) (arr (p_name cp)) 16;
        _ ← setp i (set_p_name nm); _ ← setp i (set_state RUNNABLE); mret (pid p))
     (upd K i (set_pgdir d (embryo p n ks))) Q.
Proof.
  intros Hp Hic Hcp Hv Htf Hlen Hrd HFr HIr HQ.
  rewrite wp_bind, (wp_setp_upd K i p Hp), wp_bind, (wp_setp_upd K i p Hp).
  rewrite wp_bind, (wp_getp_upd K i p Hp). cbn [tf embryo set_tf set_context set_pgdir set_sz set_parent].
  pose proof (tf_copy_wp (mach K) ks (tf cp) Hv Htf) as Ht. rewrite wp_bind in Ht.
  rewrite wp_bind, wp_onm_upd. eapply wp_mono; [exact Ht|]. clear Ht. intros [] s1 Ht.
  rewrite wp_bind, (wp_setp_upd (set_mach s1 K) i p Hp).
  rewrite wp_bind, wp_onm_upd. eapply wp_mono; [exact Ht|]. clear Ht.
  intros [] s2 (Hom & Hf & Htc). change (set_mach s2 (set_mach s1 K)) with (set_mach s2 K).
  rewrite wp_bind. eapply (dup_files_wp i (ofile cp) Ir 0 (set_mach s2 K)); [exact Hp|exact Hrd|exact HFr|]. intros f1 Hf1 Hr1.
  rewrite wp_bind. eapply wp_silent_upd; [by apply idup_ok|by apply entered_ready|]. intros f2 Hf2 Hr2.
  set (K2 := set_fsys f2 (set_fsys f1 (set_mach s2 K))).
  rewrite wp_bind, (wp_setp_upd K2 i p Hp), wp_bind, (wp_getp_upd K2 i p Hp).
  cbn [p_shared ofile embryo set_tf set_context set_pgdir set_sz set_parent set_kstack set_pid
       set_state set_ofile set_cwd set_parent_pgdir].
  pose proof (copy_shared_count (p_shared cp) (p_shared p)) as Hcount. rewrite Hlen in Hcount.
  destruct (copy_shared (p_shared cp) (p_shared p)) as [sh i'] eqn:Esh. simpl in Hcount.
  rewrite wp_bind, (wp_setp_upd K2 i p Hp). unfold SHAREDCOUNT in Hcount.
  rewrite (proj2 (Nat.ltb_ge 10 i')) by lia.
  destruct (safestrcpy_arr (St := kst) (p_name p) (p_name cp) 16) as [nm Hnm].
  rewrite wp_bind, (wp_run _ _ _ _ _ (Hnm _)).
  rewrite wp_bind, (wp_setp_upd K2 i p Hp), wp_bind, (wp_setp_upd K2 i p Hp). apply wp_ret.
  specialize (HQ s2 f2 nm (eq_trans Hf2 Hf1) Hr2 Hom Hf Htc). unfold child in HQ. rewrite Esh in HQ. exact HQ.
Qed.

Definition fork_result (k : kst) (l : list Z) (c : nat) (cp : proc) (n np : nat) (r : Z) (k' : kst) : Prop :=
  (r = -1 /\ fork_failed k l k') \/
  (r = nextpid k /\ exists i p ks d s' l' f nm, first_unused k i p /\
     fs_pages f = fs_pages (fsys k) /\
     fs_ready (nonzero (ofile cp) ++ files (ptable k)) (cwd cp :: dirs (ptable k)) f /\
     k' = set_nextpid (s32 (nextpid k + 1))
            (upd (set_fsys f (set_mach s' k)) i (child p cp c (nextpid k) ks d nm)) /\
     forked (mach k) l (pgdir cp) n np ks d s' l' /\
     tf_copied (mem (mach k)) (tf cp) (mem s') (new_tf ks)).

Lemma fork_wp {HF : FileSysOk LK FS SP} k c cp l n np : can_fork k c cp l n np -> ref_inv k ->
  wp fork k (fork_result k l c cp n np).
Proof.
  intros [Hcur Hcp [Hst Hzo] Hn [Hsz Hcov] Hsep Hmap [Htf Htfl] Hlen] [Hrd Hslot]. unfold fork.
  rewrite wp_bind, (wp_myproc k c) by done. rewrite wp_bind.
  eapply (allocproc_wp k l); [apply Hsep| | |].
  - intros HN. apply wp_ret. left. split; [done|]. by left.
  - intros i p Hfi ->. apply wp_ret. left. split; [done|]. right.
    exists i, p, (set_kstack 0 (set_pid (nextpid k) p)), (mach k).
    split; [done|]. destruct (first_unused_lookup _ _ _ Hfi) as [_ Hu].
    replace (set_mach (mach k) k) with k by by destruct k. split; [done|]. split; [done|].
    do 3 (split; [done|]). exists []. split; [apply Hsep|]. done.
  - intros i p ks l1 s1 Hfi -> (Htk & _ & _).
    destruct (first_unused_lookup _ _ _ Hfi) as [Hp Hu].
    assert (i <> c) as Hic by (intros ->; congruence).
    set (K := set_nextpid (s32 (nextpid k + 1)) (set_mach s1 k)).
    change (set_nextpid _ (upd _ i _)) with (upd K i (embryo p (nextpid k) ks)).
    rewrite wp_bind, (wp_getp_other K i _ c cp) by done.
    destruct (user_sep_taken _ _ _ _ _ _ Htk Hsep) as [Hsep1 Hpte1].
    rewrite wp_bind, wp_onm_upd.
    eapply wp_mono; [apply (copyuvm_wp s1 l1 (pgdir cp) (sz cp) n np Hn Hsz Hcov Hsep1)|].
    { intros va Hva. unfold mapped_page. rewrite Hpte1. by apply Hmap. }
    cbv beta. intros d s2 Hd. rewrite wp_bind, (wp_setp_upd (set_mach s2 K) i p Hp).
    destruct Hd as [(Hd0 & l2 & Hnew & Hcop)|[-> Hret]].
    + rewrite (proj2 (Z.eqb_neq _ _) Hd0).
      apply (fork_fill_wp (set_mach s2 K) i p c cp (nextpid k) ks d (files (ptable k)) (dirs (ptable k))); try done.
      { apply Htk. }
      { intros x Hx. by apply (files_in _ c cp). }
      { apply (dirs_in _ c cp); [done|]. by apply (Hslot c cp Hcp). }
      intros s3 f nm Hfs Hrf Hom Hf Htc. right. split; [done|].
      exists i, p, ks, d, s3, l2, f, nm. do 4 (split; [done|]).
      split.
      { eapply forked_intro; try done; [unfold covers in Hcov; lia|apply Htk]. }
      intros j Hj. rewrite (Htc j Hj). cbn [mach set_mach].
      destruct (_ && _); [done|]. destruct Htk as (_ & _ & _ & Hf1 & _).
      destruct Hnew as (_ & _ & _ & Hf2 & _). rewrite Hf2, Hf1; [done| |].
      * specialize (Htfl j Hj). set_solver.
      * specialize (Htfl j Hj). set_solver.
    + change (0 =? 0) with true. cbv iota. rewrite wp_bind, (wp_getp_upd (set_mach s2 K) i p Hp).
      rewrite wp_bind, wp_onm_upd. eapply wp_mono; [by apply (returned_kfree (mach k) ks l1 s1 s2)|].
      intros [] s3 Hret3.
      rewrite wp_bind, (wp_setp_upd (set_mach s3 K) i p Hp), wp_bind, (wp_setp_upd (set_mach s3 K) i p Hp).
      apply wp_ret. left. split; [done|]. right. eexists i, p, _, s3. split; [done|]. by split.
Qed.
End procspec.
