(* ===== verification/Ownership.v ===== *)
(** * Ownership of pages

    Every allocatable page belongs to exactly one owner: the free list, or
    one process, as its kernel stack, page directory, page table or user
    frame.  Each operation on processes moves pages between owners and
    neither loses nor duplicates one. *)

From stdpp Require Import base numbers list gmap strings sorting.
From S2P Require Import Prelude Machine CString CStringSpec Kalloc Vm PageTable VmMap VmUser.
From S2P Require Import VmAlloc VmFree VmKernel VmCopy VmAccess Shared FileSys Proc Refs.
From S2P Require Import ProcSpec.
Open Scope Z_scope.

Section ownership.
Context {LK : Linker} {FS : FileSys} {SP : FileSpec FS}.
(** [n] pages of user memory lie below SHAREDBASE. *)
Context (n : nat) (Hn : Z.of_nat n * PGSIZE = SHAREDBASE).

Definition proc_pages (m : gmap Z Z) (p : proc) : list Z :=
  if decide (state p = UNUSED) then [] else kstack p :: space m (pgdir p) n.

Definition owned (m : gmap Z Z) (ps : list proc) : list Z := concat (proc_pages m <$> ps).

(** A process in use: its memory is mapped exactly below [sz], writable,
    and its trap frame lies in its kernel stack. *)
Record proc_ok (m : gmap Z Z) (p : proc) : Prop := {
  po_wf : wf_pgdir m (pgdir p);
  po_sz : 0 <= sz p < SHAREDBASE;
  po_low : forall va, 0 <= va < PGROUNDUP (sz p) -> mapped_page m (pgdir p) va = true;
  po_high : forall va, PGROUNDUP (sz p) <= va < SHAREDBASE -> mapped_page m (pgdir p) va = false;
  po_write : forall va, 0 <= va < PGROUNDUP (sz p) -> flag_set (pte m (pgdir p) va) PTE_W = true;
  po_tf : ram_range (tf p) SIZEOF_TF /\
    forall j, 0 <= j < SIZEOF_TF -> page_of (tf p + j) = kstack p }.

(** [P] are the pages that circulate: owned by a process, by the file
    system, or free ([l]). *)
Record own_inv (k : kst) (P l : list Z) : Prop := {
  oi_kmem : kmem_inv (mach k) l;
  oi_pages : owned (mem (mach k)) (ptable k) ++ fs_pages (fsys k) ++ l ≡ₚ P;
  oi_nodup : NoDup P;
  oi_valid : Forall valid_page P;
  oi_procs : forall i p, ptable k !! i = Some p -> state p <> UNUSED -> proc_ok (mem (mach k)) p;
  oi_shared : forall i p, ptable k !! i = Some p -> length (p_shared p) = SHAREDCOUNT }.

(** ** Lists of pages *)

Lemma owned_lookup m ps i p : ps !! i = Some p ->
  owned m ps ≡ₚ proc_pages m p ++ owned m (delete i ps).
Proof.
  intros Hi. unfold owned. rewrite (delete_Permutation ps i p Hi) at 1. done.
Qed.

Lemma owned_insert m ps i p q : ps !! i = Some p ->
  owned m (<[i := q]> ps) ≡ₚ proc_pages m q ++ owned m (delete i ps).
Proof.
  intros Hi. rewrite (owned_lookup m (<[i := q]> ps) i q).
  - by rewrite delete_set.
  - apply list_lookup_insert_eq. by eapply lookup_lt_Some.
Qed.

Lemma owned_ext m m' ps : (forall p, p ∈ ps -> proc_pages m' p = proc_pages m p) ->
  owned m' ps = owned m ps.
Proof.
  intros H. unfold owned. f_equal. apply list_fmap_ext. intros i p Hp. apply H.
  by eapply list_elem_of_lookup_2.
Qed.

Lemma elem_of_owned m ps p q : p ∈ ps -> q ∈ proc_pages m p -> q ∈ owned m ps.
Proof.
  intros Hp Hq. unfold owned. rewrite list_elem_of_In, in_concat. exists (proc_pages m p).
  rewrite <- !list_elem_of_In. split; [by apply list_elem_of_fmap_2|done].
Qed.

(** ** Processes that are not touched *)

Lemma pgdir_pages_space m d p : p ∈ pgdir_pages m d -> p ∈ space m d n.
Proof. unfold pgdir_pages, space. rewrite <- list_to_set_tabs. set_solver. Qed.

Lemma space_frame X m m' d : wf_pgdir m d -> frame X m m' -> (forall p, p ∈ space m d n -> p ∉ X) ->
  wf_pgdir m' d /\ space m' d n = space m d n /\ forall va, pte m' d va = pte m d va.
Proof.
  intros Hwf Hf HX. destruct (pt_frame _ _ _ d Hwf Hf) as (Hwf' & _ & Hpde & Hpte).
  { apply elem_of_disjoint. intros p Hp. by apply HX, pgdir_pages_space. }
  split; [done|]. split; [|done]. unfold space. rewrite (tabs_ext _ _ d 0 1024) by (done || lia).
  do 2 f_equal. apply user_frames_ext. intros; apply Hpte.
Qed.

Lemma proc_frame X m m' p : proc_ok m p -> state p <> UNUSED -> frame X m m' ->
  (forall q, q ∈ proc_pages m p -> q ∉ X) ->
  proc_ok m' p /\ proc_pages m' p = proc_pages m p.
Proof.
  intros [Hwf Hsz Hlow Hhigh Hwr Htf] Hu Hf HX. unfold proc_pages in *. rewrite !decide_False by done. rewrite decide_False in HX by done.
  destruct (space_frame X m m' (pgdir p) Hwf Hf) as (Hwf' & Hsp & Hpte).
  { intros q Hq. apply HX. set_solver. }
  split; [|by rewrite Hsp].
  split; [done|done| | | |done]; intros va Hva; unfold mapped_page; rewrite Hpte;
    [by apply Hlow|by apply Hhigh|by apply Hwr].
Qed.

(** One process changes, between states whose memory differs in its own
    pages and in free pages only. *)
Lemma own_update k P l i p p' k' l' X : own_inv k P l -> ptable k !! i = Some p ->
  ptable k' = <[i := p']> (ptable k) -> frame X (mem (mach k)) (mem (mach k')) ->
  (forall q, q ∈ X -> q ∈ proc_pages (mem (mach k)) p ++ l) -> kmem_inv (mach k') l' ->
  proc_pages (mem (mach k')) p' ++ l' ≡ₚ proc_pages (mem (mach k)) p ++ l ->
  (state p' <> UNUSED -> proc_ok (mem (mach k')) p') -> length (p_shared p') = SHAREDCOUNT ->
  fs_pages (fsys k') = fs_pages (fsys k) -> own_inv k' P l'.
Proof.
  intros [Hk Hpg Hnd Hval Hok Hsh] Hi Hpt Hf HX Hk' Hperm Hok' Hsh' Hfs.
  assert (NoDup ((proc_pages (mem (mach k)) p ++ l) ++ owned (mem (mach k)) (delete i (ptable k)))) as Hnd'.
  { rewrite <- Hpg, (owned_lookup _ _ i p Hi), (Permutation_app_comm (fs_pages _)) in Hnd.
    rewrite !app_assoc in Hnd. apply NoDup_app in Hnd as (Hnd & _ & _).
    rewrite <- app_assoc in Hnd |- *. by rewrite (Permutation_app_comm l). }
  apply NoDup_app in Hnd' as (_ & Hdis & _).
  assert (forall j q, j <> i -> ptable k !! j = Some q ->
    proc_pages (mem (mach k')) q = proc_pages (mem (mach k)) q /\
    (state q <> UNUSED -> proc_ok (mem (mach k')) q)) as Hother.
  { intros j q Hj Hq. destruct (decide (state q = UNUSED)) as [Hu|Hu].
    { unfold proc_pages. by rewrite !decide_True. }
    destruct (proc_frame X _ _ q (Hok j q Hq Hu) Hu Hf) as [H1 H2]; [|done].
    intros x Hx HxX. apply (Hdis x (HX x HxX)). eapply elem_of_owned; [|exact Hx].
    apply list_elem_of_lookup. destruct (decide (j < i)%nat).
    - exists j. by rewrite list_lookup_delete_lt.
    - exists (pred j). rewrite list_lookup_delete_ge by lia. by replace (S (pred j)) with j by lia. }
  assert (owned (mem (mach k')) (delete i (ptable k)) = owned (mem (mach k)) (delete i (ptable k))) as Hrest.
  { apply owned_ext. intros q [j Hj]%list_elem_of_lookup. destruct (decide (j < i)%nat).
    - rewrite list_lookup_delete_lt in Hj by done. by apply (Hother j); [lia|].
    - rewrite list_lookup_delete_ge in Hj by lia. by apply (Hother (S j)); [lia|]. }
  split; [done| |done|done| |].
  - rewrite Hpt, (owned_insert _ _ i p p' Hi), Hrest, Hfs, <- Hpg, (owned_lookup _ _ i p Hi).
    rewrite (Permutation_app_comm (fs_pages _) l'), (Permutation_app_comm (fs_pages _) l).
    rewrite !app_assoc. f_equiv. rewrite <- !app_assoc.
    rewrite (Permutation_app_comm (owned _ _) l'), (Permutation_app_comm (owned _ _) l).
    by rewrite !app_assoc, Hperm.
  - rewrite Hpt. intros j q. destruct (decide (j = i)) as [->|Hj].
    + rewrite list_lookup_insert_eq by (by eapply lookup_lt_Some). by intros [= <-].
    + rewrite list_lookup_insert_ne by done. intros Hq. by apply (Hother j).
  - rewrite Hpt. intros j q. destruct (decide (j = i)) as [->|Hj].
    + rewrite list_lookup_insert_eq by (by eapply lookup_lt_Some). by intros [= <-].
    + rewrite list_lookup_insert_ne by done. apply Hsh.
Qed.

(** What the invariant says of a process in use. *)
Lemma own_user_sep k P l i p : own_inv k P l -> ptable k !! i = Some p -> state p <> UNUSED ->
  user_sep (mach k) l (pgdir p) 0 n /\ valid_page (kstack p) /\ (kstack p ∉ l) /\
  kstack p ∉ space (mem (mach k)) (pgdir p) n.
Proof.
  intros [Hk Hpg Hnd Hval Hok _] Hi Hu. destruct (Hok i p Hi Hu) as [Hwf _ _ _ _ _].
  rewrite <- Hpg, (owned_lookup _ _ i p Hi), (Permutation_app_comm (fs_pages _)) in Hnd, Hval.
  unfold proc_pages in Hnd, Hval. rewrite decide_False in Hnd, Hval by done.
  rewrite !app_assoc in Hnd. apply NoDup_app in Hnd as (Hnd & _ & _).
  rewrite <- app_assoc, (Permutation_app_comm (owned _ _)), app_assoc in Hnd.
  apply NoDup_app in Hnd as (Hnd & _ & _).
  rewrite <- app_comm_cons in Hnd. apply NoDup_cons in Hnd as [Hks Hnd].
  rewrite elem_of_app in Hks.
  apply Forall_app in Hval as [Hval _]. apply Forall_app in Hval as [Hval _].
  apply Forall_cons in Hval as [Hvk Hval]. unfold space in *.
  apply Forall_cons in Hval as [_ Hval]. apply Forall_app in Hval as [_ Hval].
  split; [|tauto]. rewrite <- app_comm_cons in Hnd. apply NoDup_cons in Hnd as [Hd Hnd].
  rewrite <- app_assoc in Hnd. apply NoDup_app in Hnd as (_ & Hdt & Hnd).
  assert (forall q, q ∈ user_frames (mem (mach k)) (pgdir p) 0 n ++ l ->
    q ∉ pgdir_pages (mem (mach k)) (pgdir p)) as Hpgd.
  { intros q Hq. unfold pgdir_pages. rewrite <- list_to_set_tabs, elem_of_union, elem_of_singleton,
      elem_of_list_to_set. intros [->|Ht]; [apply Hd|by apply (Hdt q Ht)].
    rewrite elem_of_app in Hq |- *. rewrite elem_of_app. tauto. }
  split; [do 2 (split; [done|])|do 2 (split; [done|])]; intros q Hq; apply Hpgd;
    rewrite elem_of_app; tauto.
Qed.

(** ** [fork] *)

Definition npg (p : proc) : nat := Z.to_nat (PGROUNDUP (sz p) / PGSIZE).

Lemma npg_pages p : 0 <= sz p < SHAREDBASE ->
  Z.of_nat (npg p) * PGSIZE = PGROUNDUP (sz p) /\ (npg p <= n)%nat /\ covers 0 (npg p) (sz p).
Proof. intros. unfold npg, covers. lia. Qed.

Lemma user_frames_low m d np : (np <= n)%nat ->
  (forall va, Z.of_nat np * PGSIZE <= va < SHAREDBASE -> mapped_page m d va = false) ->
  user_frames m d 0 n = user_frames m d 0 np.
Proof.
  intros Hnp Hhigh. replace n with (np + (n - np))%nat by lia. rewrite user_frames_app.
  rewrite (user_frames_unmapped _ _ _ (n - np)), app_nil_r; [done|].
  intros va Hva. rewrite elem_of_pages in Hva by lia. apply Hhigh. lia.
Qed.

Lemma own_can_fork k P l c cp : own_inv k P l -> curproc k = Some c -> ptable k !! c = Some cp ->
  live cp -> can_fork k c cp l n (npg cp).
Proof.
  intros Hinv Hcur Hcp Hlc. assert (state cp <> UNUSED) as Hu by apply Hlc. destruct (own_user_sep k P l c cp Hinv Hcp Hu) as (Hsep & Hvk & Hkl & _).
  destruct Hinv as [Hk _ _ _ Hok Hsh]. destruct (Hok c cp Hcp Hu) as [Hwf Hsz Hlow Hhigh _ [Htf Htfp]].
  destruct (npg_pages cp Hsz) as (Hnp & Hnpn & Hcov).
  split; [done|done|done|done| | | | |by eapply Hsh].
  - split; [lia|done].
  - unfold user_sep in *. rewrite <- (user_frames_low _ _ (npg cp)); [done|done|].
    rewrite Hnp. apply Hhigh.
  - rewrite Hnp. apply Hlow.
  - split; [done|]. intros j Hj. by rewrite Htfp.
Qed.

Lemma tabs_permutation m d new : wf_pgdir m d -> NoDup new -> tables m d = list_to_set new ->
  tabs m d 0 1024 ≡ₚ new.
Proof.
  intros Hwf Hnd Ht. apply NoDup_Permutation; [by apply NoDup_tabs|done|].
  intros p. by rewrite <- !(elem_of_list_to_set (C := gset Z)), <- Ht, list_to_set_tabs.
Qed.

Lemma forked_pages s l pg np ks d s' l' : NoDup l -> forked s l pg n np ks d s' l' ->
  ks :: space (mem s') d n ++ l' ≡ₚ l.
Proof.
  intros Hnd [_ Hwf (new & Hperm & Ht) _ _ _ _]. rewrite Hperm in Hnd |- *.
  apply NoDup_cons in Hnd as [_ Hnd]. apply NoDup_cons in Hnd as [_ Hnd].
  apply NoDup_app in Hnd as (_ & _ & Hnd). apply NoDup_app in Hnd as (Hnew & _ & _).
  unfold space. rewrite (tabs_permutation _ _ _ Hwf Hnew Ht). simpl. do 2 f_equiv.
  rewrite <- app_assoc, !app_assoc. f_equiv. apply Permutation_app_comm.
Qed.

Lemma copy_shared_length cur : forall old, length (copy_shared cur old).1 = length old.
Proof.
  induction cur as [|e cur IH]; intros [|x old]; simpl; try done.
  destruct (size e =? 0); [done|]. specialize (IH old). destruct (copy_shared cur old). simpl in *. lia.
Qed.

(** The child is a process in order. *)
Lemma child_ok s l p cp c m ks d nm s' l' : valid_page ks -> proc_ok (mem s) cp ->
  forked s l (pgdir cp) n (npg cp) ks d s' l' -> proc_ok (mem s') (child p cp c m ks d nm).
Proof.
  intros Hv [_ Hsz _ _ Hwr _] [_ Hwf _ [Hhi Hlo] _ _ _]. destruct (npg_pages cp Hsz) as (Hnp & _ & _).
  pose proof (valid_page_ram ks Hv) as Hr. destruct Hv as [Hal _].
  split; cbn; try done; unfold new_tf, SIZEOF_TF, KSTACKSIZE.
  - intros va Hva. apply Hlo. lia.
  - intros va Hva. unfold mapped_page. rewrite Hhi by lia. by rewrite kmap_low by lia.
  - intros va Hva. rewrite <- (Hwr va Hva). apply flag_set_flags; [done|]. apply Hlo. lia.
  - unfold ram_range. split; [lia|]. intros j Hj. lia.
Qed.

(** [fork] keeps every page with exactly one owner. *)
Lemma fork_own {HF : FileSysOk LK FS SP} k P l c cp : own_inv k P l -> ref_inv k -> curproc k = Some c ->
  ptable k !! c = Some cp -> live cp ->
  wp fork k (fun _ k' => exists l', own_inv k' P l').
Proof.
  intros Hinv Href Hcur Hcp Hlc. assert (state cp <> UNUSED) as Hu by apply Hlc.
  pose proof (own_can_fork k P l c cp Hinv Hcur Hcp Hlc) as Hcf.
  eapply wp_mono; [exact (fork_wp k c cp l n (npg cp) Hcf Href)|]. cbv beta.
  intros r k' [(-> & [[_ ->]|(i & p & p' & s' & Hfi & -> & Hu' & _ & Hsh & _ & l' & Hk' & Hperm & Hf & _)])
              |(-> & i & p & ks & d & s' & l' & f & nm & Hfi & Hfs & _ & -> & Hfk & _)].
  - by exists l.
  - destruct (first_unused_lookup _ _ _ Hfi) as [Hp Hpu]. exists l'.
    eapply (own_update k P l i p p' _ l' (list_to_set l)); [done|done|done|exact Hf| |exact Hk'| | | |done].
    + intros q Hq%elem_of_list_to_set. apply elem_of_app. by right.
    + unfold proc_pages. rewrite !decide_True by done. done.
    + done.
    + rewrite Hsh. by eapply (oi_shared _ _ _ Hinv).
  - destruct (first_unused_lookup _ _ _ Hfi) as [Hp Hpu]. exists l'.
    pose proof (oi_kmem _ _ _ Hinv) as [_ Hnd].
    pose proof (oi_procs _ _ _ Hinv c cp Hcp Hu) as Hsz.
    assert (ks ∈ l) as Hks by (rewrite <- (forked_pages _ _ _ _ _ _ _ _ Hnd Hfk); set_solver).
    eapply (own_update k P l i p _ _ l' (list_to_set l)); [done|done|reflexivity|apply Hfk| |apply Hfk| | | |exact Hfs].
    + intros q Hq%elem_of_list_to_set. apply elem_of_app. by right.
    + unfold proc_pages. rewrite (decide_True (P := state p = UNUSED)) by done.
      rewrite decide_False by done. apply (forked_pages _ _ _ _ _ _ _ _ Hnd Hfk).
    + intros _. eapply child_ok; [|done|exact Hfk].
      eapply kmem_inv_valid; [apply (oi_kmem _ _ _ Hinv)|done].
    + cbn. rewrite copy_shared_length. by eapply (oi_shared _ _ _ Hinv).
Qed.

(** The child holds the parent's files and directory once more. *)
Lemma fork_refs {HF : FileSysOk LK FS SP} k l c cp m np r k' : ref_inv k -> ptable k !! c = Some cp -> live cp ->
  fork_result k l c cp m np r k' -> ref_inv k'.
Proof.
  intros Href Hcp Hlc [(_ & [[_ ->]|(i & p & p' & s' & Hfi & -> & Hu & _ & _ & [H1 H2] & _)])
    |(_ & i & p & ks & d & s' & l' & f & nm & Hfi & _ & Hrd & -> & _)]; [done| |];
    destruct (first_unused_lookup _ _ _ Hfi) as [Hp Hpu];
    assert (~ live p) as Hdead by (by intros [? _]); destruct (ri_slots _ Href i p Hp) as [S1 S2 S3]; destruct (S3 Hdead) as [E1 E2].
  - apply (ref_fill k _ i p p' Href Hp Hdead); [done| |].
    + split; [by rewrite H1|by intros [? _]|]. intros _. by rewrite H1, H2.
    + rewrite H1, H2, E1, E2, nonzero_zeros. apply Href.
  - pose proof (ri_slots _ Href c cp Hcp) as [T1 T2 _].
    assert (ofile (child p cp c (nextpid k) ks d nm) = ofile cp) as Ho.
    { cbn. rewrite E1. by apply (dup_list_zeros (ofile cp) []). }
    apply (ref_fill k _ i p (child p cp c (nextpid k) ks d nm) Href Hp Hdead); [done| |].
    + split; [by rewrite Ho|intros _; by apply T2|intros []; by split].
    + rewrite Ho. change (cwd (child p cp c (nextpid k) ks d nm)) with (cwd cp). rewrite nonzero_one by (by apply T2). exact Hrd.
Qed.

(** ** [wait] *)

(** Freeing the kernel stack and then the address space of a process. *)
Lemma free_proc_wp s l ks d : user_sep s l d 0 n -> valid_page ks -> ks ∉ l ->
  ks ∉ space (mem s) d n ->
  wp (_ ← kfree ks; freevm d) s (fun _ s' => exists l', kmem_inv s' l' /\
    l' ≡ₚ ks :: space (mem s) d n ++ l /\
    frame (list_to_set (ks :: space (mem s) d n)) (mem s) (mem s') /\ cr3 s' = cr3 s).
Proof.
  intros ((Hk & Hwf & Hl) & Hnd & Hval & Hdis) Hv Hkl Hks. rewrite wp_bind.
  eapply wp_mono; [apply (kfree_wp s l ks Hk Hv Hkl)|]. intros [] s1 (Hk1 & Hf1 & Hc1 & _).
  destruct (space_frame _ _ _ d Hwf Hf1) as (Hwf1 & Hsp & Hpte).
  { intros p Hp. apply not_elem_of_singleton. by intros ->. }
  assert (tabs (mem s1) d 0 1024 = tabs (mem s) d 0 1024 /\
          user_frames (mem s1) d 0 n = user_frames (mem s) d 0 n) as [Htabs Huf].
  { split; [|apply user_frames_ext; intros; apply Hpte].
    apply tabs_ext; [lia|lia|]. intros j Hj. eapply pde_frame; [done|exact Hf1| |done].
    apply not_elem_of_singleton. intros ->. apply Hks. unfold space. set_solver. }
  assert (pgdir_pages (mem s1) d = pgdir_pages (mem s) d) as Hpg
    by (unfold pgdir_pages; by rewrite <- !list_to_set_tabs, Htabs).
  eapply wp_mono; [apply (freevm_wp s1 (ks :: l) d n Hn)|].
  - unfold user_sep, pt_sep. rewrite Huf, Hpg. split; [|split; [|done]].
    + do 2 (split; [done|]). intros p [->|Hp]%elem_of_cons; [|by apply Hl].
      intros Hp. by apply Hks, pgdir_pages_space.
    + rewrite <- Permutation_middle. apply NoDup_cons. split; [|done].
      rewrite elem_of_app. intros [Hu|Hu]; [|done]. apply Hks. unfold space. set_solver.
  - intros [] s2 (l2 & Hk2 & Hperm & Hf2 & Hc2 & _). rewrite Hsp in *.
    exists l2. split; [done|]. split; [|split; [|congruence]].
    + by rewrite Hperm, <- Permutation_middle.
    + eapply frame_trans; [eapply frame_mono; [exact Hf1|]|eapply frame_mono; [exact Hf2|]];
        clear; set_solver.
Qed.

(** The entry [wait] collects: the first zombie child. *)
Fixpoint wait_find (c : nat) (ps : list proc) (havekids : bool) (ids : list nat) : nat + bool :=
  match ids with
  | [] => inr havekids
  | i :: ids =>
      match ps !! i with
      | Some p =>
          if negb (bool_decide (parent p = Some c)) then wait_find c ps havekids ids
          else if decide (state p = ZOMBIE) then inl i else wait_find c ps true ids
      | None => inr havekids
      end
  end.

Lemma wait_find_inl c ps ids : forall hk i, wait_find c ps hk ids = inl i ->
  exists p, ps !! i = Some p /\ parent p = Some c /\ state p = ZOMBIE.
Proof.
  induction ids as [|j ids IH]; intros hk i; simpl; [done|].
  destruct (ps !! j) as [p|] eqn:E; [|done].
  destruct (bool_decide (parent p = Some c)) eqn:Hp; simpl; [|apply IH].
  apply bool_decide_eq_true in Hp. destruct (decide (state p = ZOMBIE)); [|apply IH].
  intros [= <-]. eauto.
Qed.

Lemma wait_find_inr c ps ids : forall hk b, (forall i, i ∈ ids -> is_Some (ps !! i)) ->
  wait_find c ps hk ids = inr b ->
  (forall i p, i ∈ ids -> ps !! i = Some p -> parent p = Some c -> state p <> ZOMBIE) /\
  (b = true <-> hk = true \/ exists i p, i ∈ ids /\ ps !! i = Some p /\ parent p = Some c).
Proof.
  induction ids as [|j ids IH]; intros hk b Hall; simpl.
  { intros [= <-]. split; [set_solver|]. split; [by left|intros [?|(? & ? & ? & _)]; [done|set_solver]]. }
  destruct (Hall j ltac:(set_solver)) as [p Hj]. rewrite Hj.
  destruct (bool_decide (parent p = Some c)) eqn:Hp; simpl.
  - apply bool_decide_eq_true in Hp. destruct (decide (state p = ZOMBIE)); [done|].
    intros H. destruct (IH true b ltac:(set_solver) H) as [H1 H2]. split.
    + intros i q [->|Hi]%elem_of_cons Hq; [congruence|by eapply H1].
    + rewrite H2. split; intros _; [right|by left]. exists j, p. split; [set_solver|done].
  - apply bool_decide_eq_false in Hp. intros H.
    destruct (IH hk b ltac:(set_solver) H) as [H1 H2]. split.
    + intros i q [->|Hi]%elem_of_cons Hq; [congruence|by eapply H1].
    + rewrite H2. split; (intros [?|(i & q & Hi & Hq & Hc)]; [by left|right]).
      * exists i, q. split; [set_solver|done].
      * apply elem_of_cons in Hi as [->|Hi]; [congruence|]. eauto.
Qed.

Lemma wait_scan_wp k c ids : forall hk Q, (forall i, i ∈ ids -> is_Some (ptable k !! i)) ->
  (forall i p, wait_find c (ptable k) hk ids = inl i -> ptable k !! i = Some p ->
     wp (reap i p) k (fun r k' => Q (inl r) k')) ->
  (forall b, wait_find c (ptable k) hk ids = inr b -> Q (inr b) k) ->
  wp (wait_scan c hk ids) k Q.
Proof.
  induction ids as [|i ids IH]; intros hk Q Hall Hl Hr; cbn [wait_scan wait_find] in *.
  { apply wp_ret. by apply Hr. }
  destruct (Hall i ltac:(set_solver)) as [p Hp]. rewrite wp_bind, (wp_getp k i p) by done.
  rewrite Hp in Hl, Hr. destruct (negb (bool_decide (parent p = Some c))).
  { apply IH; [set_solver|done|done]. }
  destruct (decide (state p = ZOMBIE)).
  - rewrite wp_bind. eapply wp_mono; [by apply (Hl i p)|]. intros r k' HQ. by apply wp_ret.
  - apply IH; [set_solver|done|done].
Qed.

(** The entry after it was collected. *)
Definition reaped (p : proc) : proc :=
  set_state UNUSED (set_killed 0 (set_p_name (<[0%nat := 0]> (p_name p))
    (set_parent None (set_pid 0 (set_kstack 0 p))))).

Lemma reap_wp k P l i p : own_inv k P l -> ptable k !! i = Some p -> state p = ZOMBIE ->
  wp (reap i p) k (fun r k' => r = pid p /\ exists s' l', k' = upd (set_mach s' k) i (reaped p) /\
    own_inv k' P l' /\ cr3 s' = cr3 (mach k) /\ l' ≡ₚ kstack p :: space (mem (mach k)) (pgdir p) n ++ l).
Proof.
  intros Hinv Hp Hz. assert (state p <> UNUSED) as Hu by congruence.
  destruct (own_user_sep k P l i p Hinv Hp Hu) as (Hsep & Hvk & Hkl & Hks).
  pose proof (free_proc_wp (mach k) l (kstack p) (pgdir p) Hsep Hvk Hkl Hks) as Hfree.
  rewrite wp_bind in Hfree. unfold reap. rewrite wp_bind, wp_onm.
  eapply wp_mono; [exact Hfree|]. clear Hfree. intros [] s1 Hfree.
  rewrite wp_bind, (wp_setp (set_mach s1 k) i p) by done.
  rewrite wp_bind, wp_onm_upd. eapply wp_mono; [exact Hfree|]. clear Hfree.
  intros [] s2 (l2 & Hk2 & Hperm & Hf & Hc). change (set_mach s2 (set_mach s1 k)) with (set_mach s2 k).
  do 5 (rewrite wp_bind, (wp_setp_upd (set_mach s2 k) i p Hp)).
  apply wp_ret. split; [done|]. exists s2, l2. split; [done|]. split; [|done].
  eapply (own_update k P l i p _ _ l2); [done|done|reflexivity|exact Hf| |exact Hk2| |done| |done].
  - intros q Hq%elem_of_list_to_set. unfold proc_pages. rewrite decide_False by done.
    apply elem_of_app. by left.
  - unfold proc_pages. rewrite (decide_False (P := state p = UNUSED)) by done.
    rewrite decide_True by done. by rewrite Hperm.
  - cbn. by eapply (oi_shared _ _ _ Hinv).
Qed.

(** ** Operations on the table alone *)

(** Same claim on pages. *)
Definition same_pages (p p' : proc) : Prop :=
  (state p' = UNUSED <-> state p = UNUSED) /\ kstack p' = kstack p /\ pgdir p' = pgdir p /\
  sz p' = sz p /\ tf p' = tf p /\ length (p_shared p') = length (p_shared p).

#[export] Instance same_pages_preorder : PreOrder same_pages.
Proof.
  split; [done|]. intros p q r (H1 & H2 & H3 & H4 & H5 & H6) (G1 & G2 & G3 & G4 & G5 & G6).
  split; [by rewrite G1|]. split_and!; congruence.
Qed.

(** The table changed in entries that claim the same pages. *)
Definition same_table (k k' : kst) : Prop :=
  mem (mach k') = mem (mach k) /\ freelist (mach k') = freelist (mach k) /\
  fs_pages (fsys k') = fs_pages (fsys k) /\ Forall2 same_pages (ptable k) (ptable k').

#[export] Instance same_table_preorder : PreOrder same_table.
Proof.
  split; [done|]. intros k1 k2 k3 (H1 & H2 & H3 & H4) (G1 & G2 & G3 & G4).
  split; [congruence|]. split; [congruence|]. split; [congruence|]. by etrans.
Qed.

Lemma same_pages_pages m p p' : same_pages p p' -> proc_pages m p' = proc_pages m p.
Proof.
  intros (Hu & Hk & Hd & _). unfold proc_pages. rewrite Hk, Hd.
  destruct (decide (state p = UNUSED)) as [H|H]; [by rewrite decide_True by by apply Hu|].
  by rewrite decide_False by (intros H'; by apply H, Hu).
Qed.

Lemma own_same_table k k' P l : own_inv k P l -> same_table k k' -> own_inv k' P l.
Proof.
  intros [Hk Hpg Hnd Hval Hok Hsh] (Hm & Hfl & Hfs & Hall).
  assert (forall i p', ptable k' !! i = Some p' -> exists p, ptable k !! i = Some p /\ same_pages p p') as Hl.
  { intros i p' Hi. eapply Forall2_lookup_r in Hall as (p & ? & ?); eauto. }
  split; [|rewrite Hfs|done|done| |].
  - destruct Hk as [H1 H2]. split; [|done]. by rewrite Hm, Hfl.
  - rewrite <- Hpg, Hm. f_equiv. unfold owned. f_equiv.
    clear -Hall. induction Hall as [|p p' ps ps' Hp Hps IH]; [done|].
    rewrite !fmap_cons, IH. by rewrite (same_pages_pages _ p p').
  - intros i p' Hi Hu. destruct (Hl i p' Hi) as (p & Hp & Hu' & Hks & Hd & Hs & Ht & _).
    destruct (Hok i p Hp ltac:(intros H; by apply Hu, Hu')) as [Hwf Hsz Hlow Hhigh Hwr Htf].
    rewrite Hm. split; rewrite ?Hd, ?Hs, ?Ht, ?Hks; done.
  - intros i p' Hi. destruct (Hl i p' Hi) as (p & Hp & _ & _ & _ & _ & _ & Hlen).
    rewrite Hlen. by eapply Hsh.
Qed.

Lemma same_table_upd k i p p' : ptable k !! i = Some p -> same_pages p p' -> same_table k (upd k i p').
Proof.
  intros Hp Hs. do 3 (split; [done|]). unfold upd. cbn.
  rewrite <- (list_insert_id _ _ _ Hp) at 1. by apply Forall2_insert.
Qed.

Lemma same_table_fsys k f : fs_pages f = fs_pages (fsys k) -> same_table k (set_fsys f k).
Proof. intros Hf. do 2 (split; [done|]). split; [exact Hf|]. by cbn. Qed.

Lemma wakeup1_same ch k : wp (wakeup1 ch) k (fun _ k' => same_table k k' /\
  curproc k' = curproc k /\ initproc k' = initproc k /\
  ptable k' = (fun p => if decide (state p = SLEEPING /\ chan p = ch) then set_state RUNNABLE p else p)
                <$> ptable k).
Proof.
  split; [|done]. do 3 (split; [done|]). cbn [ptable set_ptable]. apply Forall2_fmap_r, Forall_Forall2_diag, Forall_forall.
  intros p _. unfold compose. case_decide as Hc; [|done]. destruct Hc as [Hs _].
  split; [|done]. cbn. by rewrite Hs.
Qed.

Lemma kill_same m k : wp (kill m) k (fun _ k' => same_table k k' /\ mach k' = mach k).
Proof.
  unfold kill. wp_steps. destruct (list_find _ (ptable k)) as [[i p]|] eqn:E; [|by apply wp_ret].
  apply list_find_Some in E as (Hp & _ & _).
  rewrite wp_bind, (wp_setp k i p) by done. rewrite wp_bind, (wp_getp_upd k i p Hp), wp_bind.
  destruct (decide (state (set_killed 1 p) = SLEEPING)) as [Hs|Hs].
  - rewrite (wp_setp_upd k i p Hp). apply wp_ret. split; [|done]. eapply same_table_upd; [done|].
    split; [|done]. cbn in *. by rewrite Hs.
  - apply wp_ret, wp_ret. split; [|done]. by eapply same_table_upd.
Qed.

(** A process gives up the CPU: its state changes to [st]. *)
Lemma sched_wp k c p q : curproc k = Some c -> ptable k !! c = Some p -> state q <> RUNNING ->
  wp sched (upd k c q) (fun _ k' => k' = upd k c q).
Proof.
  intros Hc Hp Hq. unfold sched. rewrite wp_bind, (wp_myproc _ c) by done.
  rewrite wp_bind, (wp_getp_upd k c p Hp). by rewrite decide_False.
Qed.

Lemma sleep_wp k c p ch : curproc k = Some c -> ptable k !! c = Some p ->
  wp (sleep ch) k (fun _ k' => k' = upd k c (set_state SLEEPING (set_chan ch p))).
Proof.
  intros Hc Hp. unfold sleep. rewrite wp_bind, wp_gets, Hc.
  rewrite wp_bind, (wp_setp k c p) by done. rewrite wp_bind, (wp_setp_upd k c p Hp).
  by eapply sched_wp.
Qed.

Lemma yield_wp k c p : curproc k = Some c -> ptable k !! c = Some p ->
  wp yield k (fun _ k' => k' = upd k c (set_state RUNNABLE p)).
Proof.
  intros Hc Hp. unfold yield. rewrite wp_bind, (wp_myproc _ c) by done.
  rewrite wp_bind, (wp_setp k c p) by done. by eapply sched_wp.
Qed.

Lemma same_pages_state p st : state p <> UNUSED -> st <> UNUSED -> same_pages p (set_state st p).
Proof. intros Hp Hst. split; [|done]. cbn. tauto. Qed.

(** [wait]: a zombie child is collected, or there is nothing to wait for,
    or the caller sleeps on its own address. *)
Definition wait_result (k : kst) (P l : list Z) (c : nat) (cp : proc) (r : option Z) (k' : kst) : Prop :=
  (exists i p s' l', ptable k !! i = Some p /\ parent p = Some c /\ state p = ZOMBIE /\
     r = Some (pid p) /\ k' = upd (set_mach s' k) i (reaped p) /\ own_inv k' P l' /\
     cr3 s' = cr3 (mach k) /\ l' ≡ₚ kstack p :: space (mem (mach k)) (pgdir p) n ++ l) \/
  (r = Some (-1) /\ k' = k /\
     ((forall i p, ptable k !! i = Some p -> parent p <> Some c) \/ killed cp <> 0)) \/
  (r = None /\ k' = upd k c (set_state SLEEPING (set_chan (proc_addr (Some c)) cp)) /\
     killed cp = 0 /\ (exists i p, ptable k !! i = Some p /\ parent p = Some c) /\
     forall i p, ptable k !! i = Some p -> parent p = Some c -> state p <> ZOMBIE).

Lemma wait_wp k P l c cp : own_inv k P l -> curproc k = Some c -> ptable k !! c = Some cp ->
  wp wait k (wait_result k P l c cp).
Proof.
  intros Hinv Hc Hcp. unfold wait. rewrite wp_bind, (wp_myproc _ c) by done.
  rewrite wp_bind, wp_gets, wp_bind.
  assert (forall i, i ∈ seq 0 (length (ptable k)) <-> is_Some (ptable k !! i)) as Hseq.
  { intros i. rewrite elem_of_seq, lookup_lt_is_Some. lia. }
  apply wait_scan_wp.
  - intros i Hi. by apply Hseq.
  - intros i p Hi Hp. destruct (wait_find_inl _ _ _ _ _ Hi) as (p' & Hp' & Hpar & Hz).
    rewrite Hp in Hp'. injection Hp' as <-.
    eapply wp_mono; [by apply (reap_wp k P l i p)|]. intros r k' (-> & s' & l' & -> & Hi' & Hcr & Hl').
    apply wp_ret. left. exists i, p, s', l'. done.
  - intros b Hb. apply wait_find_inr in Hb as [Hnz Hkids]; [|intros i; apply Hseq].
    rewrite wp_bind, (wp_getp k c cp) by done.
    assert (forall i p, ptable k !! i = Some p -> i ∈ seq 0 (length (ptable k))) as Hin.
    { intros i p Hp. apply Hseq. by eexists. }
    destruct b; cbn [negb orb].
    + destruct (Z.eqb_spec (killed cp) 0) as [Hk0|Hk0]; cbn [negb].
      * rewrite wp_bind. eapply wp_mono; [by apply (sleep_wp k c cp)|]. intros [] k' ->.
        apply wp_ret. right. right. do 3 (split; [done|]). split.
        { destruct (proj1 Hkids eq_refl) as [?|(i & p & _ & Hp & Hpar)]; [done|]. eauto. }
        intros i p Hp. by apply (Hnz i p); eauto.
      * apply wp_ret. right. left. do 2 (split; [done|]). by right.
    + apply wp_ret. right. left. do 2 (split; [done|]). left. intros i p Hp Hpar.
      enough (false = true) by done. apply Hkids. right. exists i, p. eauto.
Qed.

Lemma wait_own k P l c cp r k' : own_inv k P l -> ptable k !! c = Some cp -> state cp <> UNUSED ->
  wait_result k P l c cp r k' -> exists l', own_inv k' P l'.
Proof.
  intros Hinv Hcp Hu [(i & p & s' & l' & _ & _ & _ & _ & -> & Hi & _)|[(_ & -> & _)|(_ & -> & _)]].
  - by exists l'.
  - by exists l.
  - exists l. eapply own_same_table; [done|]. eapply same_table_upd; [done|].
    transitivity (set_chan (proc_addr (Some c)) cp); [done|]. by apply same_pages_state.
Qed.
End ownership.
