(* ===== verification/Growth.v ===== *)
(** * [growproc] keeps the ownership of pages *)

From stdpp Require Import base numbers list gmap strings sorting.
From S2P Require Import Prelude Machine CString CStringSpec Kalloc Vm PageTable VmMap VmUser.
From S2P Require Import VmAlloc VmFree VmKernel VmCopy VmAccess Shared FileSys Proc ProcSpec.
From S2P Require Import Ownership.
Open Scope Z_scope.

Section growth.
Context {LK : Linker} {FS : FileSys} (n : nat) (Hn : Z.of_nat n * PGSIZE = SHAREDBASE).

Lemma user_frames_split m d np k : (np + k <= n)%nat ->
  (forall va, Z.of_nat (np + k) * PGSIZE <= va < SHAREDBASE -> mapped_page m d va = false) ->
  user_frames m d 0 n = user_frames m d 0 np ++ user_frames m d (Z.of_nat np * PGSIZE) k.
Proof.
  intros Hk Hhigh. rewrite (user_frames_low n Hn m d (np + k)) by done.
  rewrite user_frames_app. do 2 f_equal. lia.
Qed.

(** Page tables added from the free list. *)
Lemma tabs_grow m m' d (new l : list Z) : wf_pgdir m d -> wf_pgdir m' d ->
  tables m' d = tables m d ∪ list_to_set new -> (forall p, p ∈ new -> p ∈ l) -> NoDup new ->
  (forall p, p ∈ l -> p ∉ pgdir_pages m d) ->
  tabs m' d 0 1024 ≡ₚ tabs m d 0 1024 ++ new.
Proof.
  intros Hwf Hwf' Ht Hin Hnd Hl. apply NoDup_Permutation; [by apply NoDup_tabs| |].
  - apply NoDup_app. split; [by apply NoDup_tabs|]. split; [|done].
    intros p Hp Hnew. apply (Hl p (Hin p Hnew)). unfold pgdir_pages. rewrite <- list_to_set_tabs. set_solver.
  - intros p. rewrite elem_of_app, <- !(elem_of_list_to_set (C := gset Z)), !list_to_set_tabs, Ht.
    set_solver.
Qed.

(** Mapped pages with the same entries hold the same frames. *)
Lemma user_frames_same m m' d a k :
  (forall va, va ∈ pages a k -> mapped_page m' d va = mapped_page m d va /\
     (mapped_page m d va = true -> pte m' d va = pte m d va)) ->
  user_frames m' d a k = user_frames m d a k.
Proof.
  revert a. induction k as [|k IH]; intros a H; [done|].
  rewrite !user_frames_cons, (IH (a + PGSIZE)) by (intros; apply H; set_solver).
  destruct (H a ltac:(set_solver)) as [-> Hp]. destruct (mapped_page m d a); [|done].
  unfold uframe. by rewrite Hp.
Qed.

(** ** User memory that stays *)

Definition kept (m m' : gmap Z Z) (d b : Z) : Prop :=
  forall va, 0 <= va < b -> pte m' d va = pte m d va /\
    ld8 m' (uaddr m' d va) = ld8 m (uaddr m d va).

(** A frame of the process is neither free nor part of its page tables. *)
Lemma user_frame_sep s l d va : user_sep s l d 0 n -> 0 <= va < SHAREDBASE ->
  mapped_page (mem s) d va = true ->
  valid_page (uframe (mem s) d va) /\ (uframe (mem s) d va ∉ l) /\
  uframe (mem s) d va ∉ pgdir_pages (mem s) d.
Proof.
  intros (_ & Hnd & Hval & Hdis) Hva Hm.
  assert (uframe (mem s) d va ∈ user_frames (mem s) d 0 n) as Hin
    by (apply elem_of_user_frames; [done|lia|done]).
  rewrite Forall_forall in Hval. apply NoDup_app in Hnd as (_ & Hnd & _). auto.
Qed.

Lemma kept_frame s l d m' X b : user_sep s l d 0 n -> b <= SHAREDBASE ->
  (forall va, 0 <= va < b -> mapped_page (mem s) d va = true /\ pte m' d va = pte (mem s) d va /\
     uframe (mem s) d va ∉ X) ->
  frame X (mem s) m' -> kept (mem s) m' d b.
Proof.
  intros Hsep Hb Hva Hf va Hr. destruct (Hva va Hr) as (Hm & Hp & HX). split; [done|].
  destruct (user_frame_sep s l d va Hsep ltac:(lia) Hm) as ([Hal _] & _).
  unfold uaddr, uframe in *. rewrite Hp. apply Hf.
  replace (page_of _) with (P2V (PTE_ADDR (pte (mem s) d va))) by lia. done.
Qed.

(** ** The three ways the address space of a process changes *)

(** [allocuvm] succeeded. *)
Lemma grown_pages s l p newsz s' l' : user_sep s l (pgdir p) 0 n -> proc_ok (mem s) p ->
  sz p <= newsz < SHAREDBASE ->
  alloc_post s l (pgdir p) (PGROUNDUP (sz p)) (alloc_pages (sz p) newsz) s' l' ->
  proc_ok (mem s') (set_sz newsz p) /\
  space (mem s') (pgdir p) n ++ l' ≡ₚ space (mem s) (pgdir p) n ++ l /\
  frame (list_to_set (space (mem s) (pgdir p) n ++ l)) (mem s) (mem s') /\
  kept (mem s) (mem s') (pgdir p) (PGROUNDUP (sz p)).
Proof.
  intros Hsep [_ Hsz Hlow Hhigh Hwr Htf] Hnew. pose proof Hsep as ((Hk & Hwf & Hl) & Hnd & _).
  intros ((Hk' & Hwf' & new & Hperm & Ht) & _ & Hpte & Hmap & Hf & _).
  destruct (npg_pages n Hn p Hsz) as (Hnp & Hnpn & _).
  assert (PGROUNDUP (sz p) + Z.of_nat (alloc_pages (sz p) newsz) * PGSIZE = PGROUNDUP newsz) as Hend
    by (unfold alloc_pages; lia).
  assert (forall va, PGROUNDUP newsz <= va < SHAREDBASE -> mapped_page (mem s') (pgdir p) va = false) as Hh.
  { intros va Hva. unfold mapped_page. rewrite Hpte by lia. apply Hhigh. lia. }
  assert (space (mem s') (pgdir p) n ≡ₚ
    (space (mem s) (pgdir p) n ++ new) ++ user_frames (mem s') (pgdir p) (PGROUNDUP (sz p)) (alloc_pages (sz p) newsz)) as Hsp.
  { unfold space. rewrite (tabs_grow (mem s) _ _ new l);
      [|done|done|done|intros q Hq; rewrite Hperm, !elem_of_app; tauto| |done].
    2:{ destruct Hk as [_ Hndl]. rewrite Hperm in Hndl. apply NoDup_app in Hndl as (_ & _ & Hndl).
        by apply NoDup_app in Hndl as (? & _). }
    rewrite (user_frames_split _ _ (npg p) (alloc_pages (sz p) newsz)); [|lia|intros va Hva; apply Hh; lia].
    rewrite Hnp, (user_frames_low n Hn (mem s) _ (npg p)); [|done|intros va Hva; apply Hhigh; lia].
    rewrite (user_frames_ext (mem s) (mem s') _ 0).
    2:{ intros va Hva. rewrite elem_of_pages in Hva by lia. apply Hpte; lia. }
    rewrite <- !app_comm_cons. f_equiv. rewrite <- !app_assoc. f_equiv.
    rewrite !app_assoc. f_equiv. apply Permutation_app_comm. }
  split; [|split; [|split]].
  - split; cbn; [done|lia| |exact Hh| |done]; intros va Hva;
      destruct (decide (va < PGROUNDUP (sz p))) as [Hlt|Hge].
    + unfold mapped_page. rewrite Hpte by lia. apply Hlow. lia.
    + apply Hmap. lia.
    + rewrite Hpte by lia. apply Hwr. lia.
    + destruct (Hmap va ltac:(lia)) as (_ & Hfl & _).
      by rewrite (flag_set_flags _ (Z.lor (Z.lor PTE_W PTE_U) PTE_P)).
  - rewrite Hsp, Hperm, app_nil_l, <- !app_assoc. f_equiv.
    rewrite !app_assoc. f_equiv. apply Permutation_app_comm.
  - eapply frame_mono; [exact Hf|]. unfold pgdir_pages. rewrite Ht, Hperm. unfold space.
    rewrite <- list_to_set_tabs. clear. set_solver.
  - eapply (kept_frame s l); [done|lia| |exact Hf]. intros va Hva.
    pose proof (Hlow va Hva) as Hm. split; [done|]. split; [apply Hpte; lia|].
    destruct (user_frame_sep s l _ va Hsep ltac:(lia) Hm) as (_ & Hnl & Hnp').
    unfold pgdir_pages in *. rewrite Ht. rewrite Hperm, !elem_of_app in Hnl.
    rewrite !elem_of_union, !elem_of_list_to_set in *. tauto.
Qed.

(** [allocuvm] failed: page tables it added stay. *)
Lemma same_user_pages s l p s' l' : user_sep s l (pgdir p) 0 n -> proc_ok (mem s) p ->
  same_user s l (pgdir p) [] s' l' ->
  proc_ok (mem s') p /\
  space (mem s') (pgdir p) n ++ l' ≡ₚ space (mem s) (pgdir p) n ++ l /\
  frame (list_to_set (space (mem s) (pgdir p) n ++ l)) (mem s) (mem s') /\
  kept (mem s) (mem s') (pgdir p) (PGROUNDUP (sz p)).
Proof.
  intros Hsep [_ Hsz Hlow Hhigh Hwr Htf] (Hk' & Hwf' & (new & Hperm & Ht) & Hmap & Hf & _).
  pose proof Hsep as ((Hk & Hwf & Hl) & Hnd & _).
  rewrite app_nil_l in Hperm. split; [|split; [|split]].
  - split; [done|done| | | |done]; intros va Hva; destruct (Hmap va ltac:(lia)) as [Hmv Hpv];
      [rewrite Hmv; auto..|]. rewrite Hpv; auto.
  - unfold space. rewrite (tabs_grow (mem s) _ _ new l); [|done|done|done|intros q Hq; rewrite Hperm, !elem_of_app; tauto| |done].
    2:{ destruct Hk as [_ Hndl]. rewrite Hperm in Hndl. by apply NoDup_app in Hndl as (? & _). }
    rewrite (user_frames_same (mem s) (mem s')).
    2:{ intros va Hva. rewrite elem_of_pages in Hva by lia. apply Hmap. lia. }
    rewrite Hperm, <- !app_comm_cons. f_equiv. rewrite <- !app_assoc. f_equiv.
    rewrite !app_assoc. f_equiv. apply Permutation_app_comm.
  - eapply frame_mono; [exact Hf|]. unfold space, pgdir_pages. rewrite <- list_to_set_tabs. clear. set_solver.
  - eapply (kept_frame s l); [done|lia| |exact Hf]. intros va Hva.
    pose proof (Hlow va Hva) as Hm. split; [done|]. split; [apply Hmap; [lia|done]|].
    destruct (user_frame_sep s l _ va Hsep ltac:(lia) Hm) as (_ & Hnl & Hnp').
    rewrite elem_of_union, elem_of_list_to_set. tauto.
Qed.

Lemma user_sep_suffix s l d a x k : user_sep s l d 0 n ->
  user_frames (mem s) d 0 n = x ++ user_frames (mem s) d a k -> user_sep s l d a k.
Proof.
  intros (Hpt & Hnd & Hval & Hdis) Hx. rewrite Hx in Hnd, Hval, Hdis. split; [done|].
  rewrite <- app_assoc in Hnd. apply NoDup_app in Hnd as (_ & _ & Hnd).
  apply Forall_app in Hval as [_ Hval]. do 2 (split; [done|]).
  intros q Hq. apply Hdis, elem_of_app. by right.
Qed.

(** Pages between the two sizes. *)
Definition shrink_pages (oldsz newsz : Z) : nat := alloc_pages newsz oldsz.

Lemma shrunk_pages s l p newsz s' l' : user_sep s l (pgdir p) 0 n -> proc_ok (mem s) p ->
  0 <= newsz < sz p ->
  dealloc_post s l (pgdir p) (PGROUNDUP newsz) (shrink_pages (sz p) newsz) s' l' ->
  proc_ok (mem s') (set_sz newsz p) /\
  space (mem s') (pgdir p) n ++ l' ≡ₚ space (mem s) (pgdir p) n ++ l /\
  frame (list_to_set (space (mem s) (pgdir p) n ++ l)) (mem s) (mem s') /\
  kept (mem s) (mem s') (pgdir p) (PGROUNDUP newsz).
Proof.
  intros Hsep [_ Hsz Hlow Hhigh Hwr Htf] Hnew. pose proof Hsep as ((Hk & Hwf & Hl) & Hnd & _).
  intros (Hk' & Hperm & Hwf' & Ht & Hpde & Hun & Hf & _).
  unfold shrink_pages, alloc_pages in *.
  set (np := Z.to_nat (PGROUNDUP newsz / PGSIZE)) in *.
  set (kk := Z.to_nat _) in *.
  assert (Z.of_nat np * PGSIZE = PGROUNDUP newsz) as Hnp by lia.
  assert (PGROUNDUP newsz + Z.of_nat kk * PGSIZE = PGROUNDUP (sz p)) as Hkk by lia.
  assert (forall va, PGROUNDUP newsz <= va < SHAREDBASE -> mapped_page (mem s') (pgdir p) va = false) as Hh.
  { intros va Hva. unfold mapped_page. rewrite Hun by lia.
    destruct (Z.leb_spec (PGROUNDUP newsz) va); [|lia]. cbn [andb].
    destruct (Z.ltb_spec va (PGROUNDUP newsz + Z.of_nat kk * PGSIZE)); cbn [andb].
    - destruct (mapped_page (mem s) (pgdir p) va) eqn:E; [done|exact E].
    - apply Hhigh. lia. }
  assert (forall va, 0 <= va < PGROUNDUP newsz -> pte (mem s') (pgdir p) va = pte (mem s) (pgdir p) va) as Hlo.
  { intros va Hva. rewrite Hun by lia. destruct (Z.leb_spec (PGROUNDUP newsz) va); [lia|done]. }
  split; [|split; [|split]].
  - split; cbn; [done|lia| |exact Hh| |done]; intros va Hva; unfold mapped_page; rewrite Hlo by lia.
    + apply Hlow. lia.
    + apply Hwr. lia.
  - unfold space. rewrite (tabs_ext (mem s) (mem s')) by (done || lia).
    rewrite (user_frames_split (mem s) _ np kk); [|lia|intros va Hva; apply Hhigh; lia].
    rewrite (user_frames_low n Hn (mem s') _ np); [|lia|intros va Hva; apply Hh; lia].
    rewrite (user_frames_ext (mem s) (mem s') _ 0).
    2:{ intros va Hva. rewrite elem_of_pages in Hva by lia. apply Hlo; lia. }
    rewrite Hperm, Hnp, <- !app_comm_cons, <- !app_assoc. done.
  - eapply frame_mono; [exact Hf|]. unfold space. rewrite <- list_to_set_tabs.
    rewrite (user_frames_split (mem s) _ np kk); [|lia|intros va Hva; apply Hhigh; lia].
    rewrite Hnp. clear. set_solver.
  - eapply (kept_frame s l); [done|lia| |exact Hf]. intros va Hva.
    pose proof (Hlow va ltac:(lia)) as Hm. split; [done|]. split; [by apply Hlo|].
    destruct (user_frame_sep s l _ va Hsep ltac:(lia) Hm) as (_ & _ & Hnp').
    rewrite elem_of_union, elem_of_list_to_set. intros [Hx|Hx].
    { apply Hnp'. unfold pgdir_pages. set_solver. }
    rewrite (user_frames_split (mem s) _ np kk), Hnp in Hnd; [|lia|intros va' Hva'; apply Hhigh; lia].
    apply NoDup_app in Hnd as (Hnd & _). apply NoDup_app in Hnd as (_ & Hnd & _).
    refine (Hnd _ _ Hx). apply elem_of_user_frames; [done|lia|done].
Qed.

(** ** [growproc] *)

(** The address space of [p] loaded in the CPU. *)
Definition loaded (k : kst) (p : proc) : kst :=
  set_mach (set_cr3 (V2P (pgdir p)) (mach k)) (set_esp0 (u32 (kstack p + KSTACKSIZE)) k).

Lemma wp_switchuvm k i p Q : ptable k !! i = Some p -> kstack p <> 0 -> pgdir p <> 0 ->
  Q () (loaded k p) -> wp (switchuvm i) k Q.
Proof.
  intros Hp Hk Hd HQ. unfold switchuvm. rewrite wp_bind, (wp_getp k i p) by done.
  rewrite !(proj2 (Z.eqb_neq _ _)) by done. done.
Qed.

Lemma own_nonnull k P l i p : own_inv n k P l -> ptable k !! i = Some p -> state p <> UNUSED ->
  kstack p <> 0 /\ pgdir p <> 0.
Proof.
  intros Hinv Hp Hu. destruct (own_user_sep n k P l i p Hinv Hp Hu) as (((_ & (Hv & _) & _) & _) & Hvk & _).
  apply valid_page_ram in Hv, Hvk. lia.
Qed.

Lemma own_loaded k P l p : own_inv n k P l -> own_inv n (loaded k p) P l.
Proof. intros Hinv. eapply own_same_table; [done|]. by do 3 (split; [done|]). Qed.

(** The process resized, its page directory reloaded. *)
Definition resized (k : kst) (c : nat) (p : proc) (s' : machine) (newsz : Z) : kst :=
  loaded (upd (set_mach s' k) c (set_sz newsz p)) p.

(** [sz + m] as the code computes it; [deallocuvm] ignores a size that
    wrapped below zero. *)
Definition new_size (p : proc) (m : Z) : Z := if sz p + m <? 0 then sz p else sz p + m.

Definition grow_result (k : kst) (P : list Z) (c : nat) (p : proc) (m r : Z) (k' : kst) : Prop :=
  exists s' l', own_inv n k' P l' /\
    ((r = 0 /\ new_size p m < SHAREDBASE /\ k' = resized k c p s' (new_size p m) /\
      kept (mem (mach k)) (mem s') (pgdir p) (Z.min (PGROUNDUP (sz p)) (PGROUNDUP (new_size p m))) /\
      forall va, PGROUNDUP (sz p) <= va < PGROUNDUP (new_size p m) ->
        ld8 (mem s') (uaddr (mem s') (pgdir p) va) = 0) \/
     (r = -1 /\ (0 < m \/ sz p = 0) /\ k' = set_mach s' k /\ cr3 s' = cr3 (mach k) /\
      kept (mem (mach k)) (mem s') (pgdir p) (PGROUNDUP (sz p)))).

Lemma kept_refl m d b : kept m m d b.
Proof. done. Qed.

Lemma kept_min m m' d a b : kept m m' d b -> a <= b -> kept m m' d a.
Proof. intros H Hab va Hva. apply H. lia. Qed.

Lemma own_resized k P l c p s' l' newsz : own_inv n k P l -> ptable k !! c = Some p ->
  state p <> UNUSED -> kmem_inv s' l' -> proc_ok (mem s') (set_sz newsz p) ->
  space (mem s') (pgdir p) n ++ l' ≡ₚ space (mem (mach k)) (pgdir p) n ++ l ->
  frame (list_to_set (space (mem (mach k)) (pgdir p) n ++ l)) (mem (mach k)) (mem s') ->
  own_inv n (upd (set_mach s' k) c (set_sz newsz p)) P l'.
Proof.
  intros Hinv Hp Hu Hk Hok Hperm Hf.
  eapply (own_update n Hn k P l c p (set_sz newsz p) (upd (set_mach s' k) c (set_sz newsz p)) l' _ Hinv Hp eq_refl Hf); [|done| |done| |done].
  - intros q. rewrite elem_of_list_to_set. unfold proc_pages. rewrite decide_False by done.
    rewrite <- app_comm_cons, elem_of_cons. intros ?. by right.
  - unfold proc_pages. rewrite !decide_False by done. cbn. by rewrite Hperm.
  - exact (oi_shared _ _ _ _ Hinv c p Hp).
Qed.

Section grow.
Context (k : kst) (P l : list Z) (c : nat) (p : proc).
Hypothesis (Hinv : own_inv n k P l) (Hcur : curproc k = Some c) (Hp : ptable k !! c = Some p)
  (Hu : state p <> UNUSED).

(** The end of [growproc], after the address space was resized. *)
Lemma grow_finish s' l' newsz (Q : Z -> kst -> Prop) : kmem_inv s' l' -> proc_ok (mem s') (set_sz newsz p) ->
  space (mem s') (pgdir p) n ++ l' ≡ₚ space (mem (mach k)) (pgdir p) n ++ l ->
  frame (list_to_set (space (mem (mach k)) (pgdir p) n ++ l)) (mem (mach k)) (mem s') ->
  (own_inv n (resized k c p s' newsz) P l' -> Q 0 (resized k c p s' newsz)) ->
  wp (_ ← setp c (set_sz newsz); _ ← switchuvm c; mret 0) (set_mach s' k) Q.
Proof.
  intros Hk Hok Hperm Hf HQ. destruct (own_nonnull k P l c p Hinv Hp Hu) as [Hks Hd].
  rewrite wp_bind, (wp_setp _ c p) by done. rewrite wp_bind.
  eapply wp_switchuvm; [by eapply upd_lookup|done|done|]. apply wp_ret. apply HQ.
  apply own_loaded. by eapply own_resized.
Qed.

Lemma growproc_wp m : - 2 ^ 31 <= m < 2 ^ 31 -> m = 0 \/ sz p + m <> 0 ->
  wp (growproc m) k (grow_result k P c p m).
Proof.
  intros Hm Hnz. destruct (own_user_sep n k P l c p Hinv Hp Hu) as (Hsep & _).
  pose proof (oi_procs _ _ _ _ Hinv c p Hp Hu) as Hok. pose proof (oi_kmem _ _ _ _ Hinv) as Hk.
  pose proof (po_sz _ _ Hok) as Hsz.
  unfold growproc. rewrite wp_bind, (wp_myproc _ c) by done. rewrite wp_bind, (wp_getp k c p) by done.
  rewrite wp_bind. unfold grow_result, new_size. destruct (Z.ltb_spec 0 m) as [Hpos|Hneg].
  - rewrite wp_onm, (proj2 (Z.eqb_neq m 0)), (proj2 (Z.ltb_ge (sz p + m) 0)), u32_id by lia. cbn [negb andb].
    destruct (decide (sz p + m < SHAREDBASE)) as [Hlt|Hge]; last first.
    { unfold allocuvm. rewrite (proj2 (Z.leb_le _ _)) by lia. apply wp_ret, wp_ret.
      exists (mach k), l. replace (set_mach (mach k) k) with k by by destruct k. split; [done|].
      right. split; [done|]. split; [by left|]. done. }
    eapply wp_mono; [apply (allocuvm_wp _ l); [lia|done|apply Hsep|]|].
    { intros va Hva. apply Hok. lia. }
    intros r s' [(-> & l' & Hpost)|(-> & l' & Hsame)].
    + rewrite (proj2 (Z.eqb_neq _ 0)) by lia.
      destruct (grown_pages _ _ p (sz p + m) s' l' Hsep Hok ltac:(lia) Hpost) as (Hok' & Hperm & Hf & Hkept).
      eapply (grow_finish s' l'); [apply Hpost|done..|]. intros Hinv'. exists s', l'. split; [done|].
      left. do 3 (split; [done|]). split; [eapply kept_min; [done|lia]|].
      intros va Hva. destruct Hpost as (_ & _ & _ & Hz & _). apply Hz. unfold alloc_pages. lia.
    + apply wp_ret.
      destruct (same_user_pages _ _ p s' l' Hsep Hok Hsame) as (Hok' & Hperm & Hf & Hkept).
      exists s', l'. split; [|right; split; [done|]; split; [by left|]; split; [done|]; split; [apply Hsame|done]].
      replace (set_mach s' k) with (upd (set_mach s' k) c p) by by apply upd_same.
      replace p with (set_sz (sz p) p) in Hok' |- * at 1 by by destruct p.
      eapply own_resized; try done. apply Hsame.
  - destruct (Z.ltb_spec m 0) as [Hlt|Hge]; last first.
    { assert (m = 0) as -> by lia. apply wp_ret. cbn [Z.eqb negb andb].
      replace (sz p + 0) with (sz p) by lia. rewrite (proj2 (Z.ltb_ge _ _)) by lia.
      replace k with (set_mach (mach k) k) at 1 by by destruct k.
      eapply (grow_finish (mach k) l); [done|by destruct p|done|done|]. intros Hinv'.
      exists (mach k), l. split; [done|]. left. split; [done|]. split; [lia|]. do 2 (split; [done|]). lia. }
    rewrite wp_onm, (proj2 (Z.eqb_neq m 0)) by lia. cbn [negb andb].
    destruct (Z.ltb_spec (sz p + m) 0) as [Hwrap|Hin].
    { unfold deallocuvm. rewrite (proj2 (Z.leb_le _ _)) by lia. apply wp_ret.
      destruct (Z.eqb_spec (sz p) 0) as [Hz|Hz].
      { apply wp_ret. exists (mach k), l. split; [by destruct k|].
        right. split; [done|]. split; [by right|]. done. }
      eapply (grow_finish (mach k) l); [done|by destruct p|done|done|]. intros Hinv'.
      exists (mach k), l. split; [done|]. left. split; [done|]. split; [lia|]. do 2 (split; [done|]). lia. }
    rewrite u32_id by lia.
    eapply wp_mono; [apply (deallocuvm_wp _ l _ _ _ (shrink_pages (sz p) (sz p + m))); [lia|lia| |]|].
    { unfold shrink_pages. apply covers_alloc; lia. }
    { eapply (user_sep_suffix _ _ _ _ (user_frames (mem (mach k)) (pgdir p) 0 (Z.to_nat (PGROUNDUP (sz p + m) / PGSIZE))));
        [exact Hsep|]. erewrite user_frames_split; [do 2 f_equal; lia|unfold shrink_pages, alloc_pages; lia|].
      intros va Hva. apply Hok. unfold shrink_pages, alloc_pages in Hva. lia. }
    intros r s' (-> & l' & Hpost). rewrite (proj2 (Z.eqb_neq _ 0)) by lia.
    destruct (shrunk_pages _ _ p (sz p + m) s' l' Hsep Hok ltac:(lia) Hpost) as (Hok' & Hperm & Hf & Hkept).
    eapply (grow_finish s' l'); [apply Hpost|done..|]. intros Hinv'. exists s', l'. split; [done|].
    left. split; [done|]. split; [lia|]. split; [done|]. split; [eapply kept_min; [done|lia]|]. lia.
Qed.
End grow.
End growth.
