(* ===== verification/Lifecycle.v ===== *)
(** * The life cycle of processes

    The kernel as a machine whose steps are the handlers: system calls of
    the running process, the scheduler's choices, wake-ups and kills.  The
    invariant joins the ownership of pages with the process tree: every
    process has a live parent, one process runs and its directory is
    loaded, pids are distinct. *)

From stdpp Require Import base numbers list gmap strings sorting.
From S2P Require Import Prelude Machine CString CStringSpec Kalloc Vm PageTable VmMap VmUser.
From S2P Require Import VmAlloc VmFree VmKernel VmCopy VmAccess Shared FileSys Proc Syscall.
From S2P Require Import Refs SyscallSpec ProcSpec Ownership Growth.
Open Scope Z_scope.

Section lifecycle.
Context {LK : Linker} {FS : FileSys} {SP : FileSpec FS} (n : nat) (Hn : Z.of_nat n * PGSIZE = SHAREDBASE).

Record sys_inv (i0 : nat) (k : kst) (P l : list Z) : Prop := {
  si_own : own_inv n k P l;
  si_refs : ref_inv k;
  si_init : initproc k = Some i0 /\ exists p, ptable k !! i0 = Some p /\ live p;
  si_parent : forall i p, ptable k !! i = Some p -> state p <> UNUSED -> i <> i0 ->
    exists j q, parent p = Some j /\ ptable k !! j = Some q /\ live q;
  si_run : forall i p, ptable k !! i = Some p -> state p = RUNNING -> curproc k = Some i;
  si_cur : forall c, curproc k = Some c -> exists p, ptable k !! c = Some p /\
    state p <> UNUSED /\ cr3 (mach k) = V2P (pgdir p);
  si_pid : forall i p, ptable k !! i = Some p -> state p <> UNUSED -> 0 < pid p < nextpid k;
  si_pids : forall i j p q, ptable k !! i = Some p -> ptable k !! j = Some q ->
    state p <> UNUSED -> state q <> UNUSED -> pid p = pid q -> i = j }.

(** ** The running process and the system calls *)

(** What the calls of [SyscallSpec] ask of the running process follows
    from the invariant. *)
Lemma own_running i0 k P l c p : sys_inv i0 k P l -> curproc k = Some c -> ptable k !! c = Some p ->
  running k c p.
Proof.
  intros Hinv Hc Hp. destruct (si_cur _ _ _ _ Hinv c Hc) as (p' & Hp' & Hu & Hcr).
  rewrite Hp in Hp'. injection Hp' as <-. pose proof (si_own _ _ _ _ Hinv) as Hown.
  destruct (own_user_sep n k P l c p Hown Hp Hu) as (Hsep & _ & _ & _).
  pose proof (oi_procs _ _ _ _ Hown c p Hp Hu) as [Hwf Hsz Hlow Hhigh Hwr [Htf _]].
  assert (forall a, 0 <= a < sz p -> uframe (mem (mach k)) (pgdir p) a ∈ user_frames (mem (mach k)) (pgdir p) 0 n) as Hin.
  { intros a Ha. apply elem_of_user_frames; [done|lia|]. apply Hlow. lia. }
  split; [done|done| |unfold ram_range in Htf; lia].
  split; [done|done|lia| |].
  - intros a Ha. destruct (user_frame_sep n Hn (mach k) l (pgdir p) a Hsep ltac:(lia)) as (Hv & _ & Hnp).
    { apply Hlow. lia. }
    split; [apply Hlow; lia|]. split; [apply Hwr; lia|]. done.
  - intros a b Ha Hb Heq. destruct Hsep as (_ & Hnd & _). apply NoDup_app in Hnd as (Hnd & _ & _).
    eapply (user_frames_inj (mem (mach k)) (pgdir p) n); [done|lia|lia|apply Hlow; lia|apply Hlow; lia|done].
Qed.

(** ** Steps that keep the process tree *)

(** [p'] has the place of [p] in the tree. *)
Definition same_life (p p' : proc) : Prop :=
  pid p' = pid p /\ parent p' = parent p /\ pgdir p' = pgdir p /\
  (state p' = UNUSED <-> state p = UNUSED) /\ (state p' = ZOMBIE <-> state p = ZOMBIE) /\ same_refs p p'.

Lemma sys_same i0 k P l k' l' : sys_inv i0 k P l -> own_inv n k' P l' ->
  Forall2 same_life (ptable k) (ptable k') -> fsys k' = fsys k -> initproc k' = initproc k -> nextpid k' = nextpid k ->
  (forall i p, ptable k' !! i = Some p -> state p = RUNNING -> curproc k' = Some i) ->
  (forall c, curproc k' = Some c -> exists p, ptable k' !! c = Some p /\ state p <> UNUSED /\
     cr3 (mach k') = V2P (pgdir p)) ->
  sys_inv i0 k' P l'.
Proof.
  intros [Hown Href [Hi (p0 & Hp0 & Hl0)] Hpar Hrun Hcur Hpid Hpids] Hown' Hall Hfs Hi' Hn' Hrun' Hcur'.
  assert (forall i p', ptable k' !! i = Some p' -> exists p, ptable k !! i = Some p /\ same_life p p') as Hr.
  { intros i p' Hp'. eapply Forall2_lookup_r in Hall as (p & ? & ?); eauto. }
  assert (forall i p, ptable k !! i = Some p -> live p -> exists p', ptable k' !! i = Some p' /\ live p') as Hlive.
  { intros i p Hp [H1 H2]. eapply Forall2_lookup_l in Hall as (p' & Hp' & _ & _ & _ & Hu & Hz & _); eauto.
    exists p'. split; [done|]. split; [by rewrite Hu|by rewrite Hz]. }
  split; [done| | | |done|done| |].
  - apply (ref_same k); [done| |done|].
    + eapply Forall2_impl; [exact Hall|]. by intros p p' (_ & _ & _ & _ & _ & ?).
    + intros i p p' Hp Hp'. destruct (Hr i p' Hp') as (q & Hq & _ & _ & _ & Hus & Hzs & _). rewrite Hp in Hq. injection Hq as <-.
      unfold live. by rewrite Hus, Hzs.
  - split; [congruence|]. by apply (Hlive i0 p0).
  - intros i p' Hp' Hu Hne. destruct (Hr i p' Hp') as (p & Hp & _ & Hpp & _ & Hus & _).
    destruct (Hpar i p Hp ltac:(by rewrite <- Hus) Hne) as (j & q & Hj & Hq & Hlq).
    destruct (Hlive j q Hq Hlq) as (q' & Hq' & Hlq'). exists j, q'. split; [congruence|done].
  - intros i p' Hp' Hu. destruct (Hr i p' Hp') as (p & Hp & Hpp & _ & _ & Hus & _).
    rewrite Hn', Hpp. eapply Hpid; [done|by rewrite <- Hus].
  - intros i j p' q' Hp' Hq' Hu Hv Heq. destruct (Hr i p' Hp') as (p & Hp & Hpp & _ & _ & Hus & _).
    destruct (Hr j q' Hq') as (q & Hq & Hqq & _ & _ & Hvs & _).
    eapply (Hpids i j p q); [done|done|by rewrite <- Hus|by rewrite <- Hvs|congruence].
Qed.

(** A change of one entry that does not make it run. *)
Lemma sys_upd i0 k P l i p p' : sys_inv i0 k P l -> ptable k !! i = Some p -> same_pages p p' ->
  same_life p p' -> (state p' = RUNNING -> state p = RUNNING) -> sys_inv i0 (upd k i p') P l.
Proof.
  intros Hinv Hp Hpg Hlf Hrun. eapply sys_same; [done| | |done|done|done| |].
  - eapply own_same_table; [by apply Hinv|]. by eapply same_table_upd.
  - unfold upd. cbn. rewrite <- (list_insert_id _ _ _ Hp) at 1. apply Forall2_insert; [|done].
    apply Forall_Forall2_diag, Forall_forall. intros. done.
  - intros j q. destruct (decide (j = i)) as [->|Hne].
    + rewrite (upd_lookup k i p' p Hp). intros [= <-] Hs. eapply (si_run _ _ _ _ Hinv); eauto.
    + rewrite upd_lookup_ne by done. apply (si_run _ _ _ _ Hinv).
  - intros c Hc. destruct (si_cur _ _ _ _ Hinv c Hc) as (q & Hq & Hu & Hcr).
    destruct (decide (c = i)) as [->|Hne].
    + exists p'. rewrite (upd_lookup k i p' p Hp). split; [done|].
      rewrite Hp in Hq. injection Hq as <-. destruct Hlf as (_ & _ & Hd & Hus & _).
      split; [by rewrite Hus|]. cbn. congruence.
    + exists q. by rewrite upd_lookup_ne.
Qed.

(** ** [exit] *)

(** Fields of the CPU that handlers leave alone. *)
Definition same_cpu (k k' : kst) : Prop :=
  curproc k' = curproc k /\ initproc k' = initproc k /\ nextpid k' = nextpid k /\
  cr3 (mach k') = cr3 (mach k).

#[export] Instance same_cpu_preorder : PreOrder same_cpu.
Proof. split; [done|]. intros k1 k2 k3 (? & ? & ? & ?) (? & ? & ? & ?). split_and!; congruence. Qed.

(** Pages of the file system go back to the free list. *)
Lemma own_closing {HF : FileSysOk LK FS SP} k P l op A B Q : own_inv n k P l -> closing_call op A B -> A (entered k) ->
  (forall k' l', own_inv n k' P l' -> B (fsys k') -> ptable k' = ptable k -> same_cpu k k' -> Q () k') ->
  wp (onfs op) k Q.
Proof.
  intros [Hk Hpg Hnd Hval Hok Hsh] Hop HA HQ.
  assert (NoDup (fs_pages (fsys k) ++ l)) as Hndf.
  { rewrite <- Hpg in Hnd. by apply NoDup_app in Hnd as (_ & _ & ?). }
  assert (Forall valid_page (fs_pages (fsys k))) as Hvf.
  { rewrite <- Hpg in Hval. apply Forall_app in Hval as [_ Hval]. by apply Forall_app in Hval as [? _]. }
  destruct (Hop (mach k) (entered k) l HA Hk) as (s' & f' & l' & Hr & Hk' & Hperm & Hf & Hc & HB);
    [by rewrite entered_pages..|]. rewrite entered_pages in Hperm, Hf.
  unfold onfs. rewrite wp_zoom. unfold wp. rewrite Hr. cbn.
  assert (forall i p, ptable k !! i = Some p ->
    (state p <> UNUSED -> proc_ok (mem s') p) /\ proc_pages n (mem s') p = proc_pages n (mem (mach k)) p) as Hkeep.
  { intros i p Hp. destruct (decide (state p = UNUSED)) as [Hu|Hu].
    { unfold proc_pages. by rewrite !decide_True. }
    destruct (proc_frame n Hn _ _ _ p (Hok i p Hp Hu) Hu Hf) as [H1 H2]; [|done].
    intros q Hq Hqf%elem_of_list_to_set. rewrite <- Hpg in Hnd.
    apply NoDup_app in Hnd as (_ & Hnd & _). apply (Hnd q); [|apply elem_of_app; by left].
    eapply elem_of_owned; [|done]. by eapply list_elem_of_lookup_2. }
  apply (HQ _ l'); [|done|done|done]. split; [done| |done|done| |done].
  - change (owned n (mem s') (ptable k) ++ fs_pages f' ++ l' ≡ₚ P).
    assert (owned n (mem s') (ptable k) = owned n (mem (mach k)) (ptable k)) as ->.
    { apply owned_ext. intros p [i Hi]%list_elem_of_lookup. by apply (Hkeep i p). }
    by rewrite Hperm.
  - intros i p Hp. by apply (Hkeep i p).
Qed.

(** The files of [c] after [close_files] from descriptor [fd] on. *)
Definition closed_from (fd : nat) (files : list Z) : list Z := take fd files ++ replicate (length files - fd) 0.

Lemma close_files_wp {HF : FileSysOk LK FS SP} P c Ir fs : forall k l cp fd Q, own_inv n k P l ->
  ptable k !! c = Some cp -> drop fd (ofile cp) = fs -> fs_ready (files (ptable k)) Ir (fsys k) ->
  (forall k' l', own_inv n k' P l' -> ptable k' = <[c := set_ofile (closed_from fd (ofile cp)) cp]> (ptable k) ->
     fs_ready (files (ptable k')) Ir (fsys k') -> same_cpu k k' -> Q () k') ->
  wp (close_files c fd fs) k Q.
Proof.
  induction fs as [|f fs IH]; intros k l cp fd Q Hinv Hc Hfs Hr HQ; cbn [close_files].
  { apply wp_ret. assert (length (ofile cp) <= fd)%nat as Hl by (by apply (f_equal length) in Hfs; rewrite length_drop in Hfs; cbn in Hfs; lia).
    assert (<[c := set_ofile (closed_from fd (ofile cp)) cp]> (ptable k) = ptable k) as E.
    { apply list_insert_id. rewrite Hc. unfold closed_from. rewrite take_ge by done. replace (length (ofile cp) - fd)%nat with 0%nat by lia.
      rewrite app_nil_r. by destruct cp. }
    by apply (HQ k l Hinv). }
  assert (ofile cp !! fd = Some f) as Hf by (rewrite <- (Nat.add_0_r fd), <- lookup_drop, Hfs; done).
  assert (drop (S fd) (ofile cp) = fs) as Hfs' by (rewrite (drop_S _ _ _ Hf) in Hfs; congruence).
  assert (forall fl, length fl = length (ofile cp) -> take fd fl = take fd (ofile cp) -> fl !! fd = Some 0 -> closed_from (S fd) fl = closed_from fd (ofile cp)) as Hcl.
  { intros fl Hl Ht H0. unfold closed_from. rewrite (take_S_r _ _ _ H0), Ht, Hl, <- app_assoc. pose proof (lookup_lt_Some _ _ _ Hf).
    replace (length (ofile cp) - fd)%nat with (S (length (ofile cp) - S fd)) by lia. done. }
  rewrite wp_bind. destruct (Z.eqb_spec f 0) as [->|Hf0].
  { apply wp_ret. eapply (IH k l cp (S fd)); [done..|]. by rewrite (Hcl (ofile cp)). }
  set (cp' := set_ofile (<[fd := 0]> (ofile cp)) cp).
  assert (files (ptable k) ≡ₚ f :: files (<[c := cp']> (ptable k))) as Hperm.
  { rewrite (files_lookup _ c cp Hc), (proj1 (refs_insert_entry _ c cp cp' Hc)). cbn [cp' ofile set_ofile].
    by rewrite (nonzero_clear _ fd f Hf Hf0). }
  rewrite Hperm in Hr. rewrite wp_bind. eapply own_closing; [done|by apply fileclose_ok|by apply entered_ready|].
  intros k1 l1 Hinv1 Hr1 Hpt1 Hcpu1. rewrite (wp_setp k1 c cp) by by rewrite Hpt1. fold cp'.
  assert (ptable (upd k1 c cp') = <[c := cp']> (ptable k)) as Hpt by (cbn; by rewrite Hpt1).
  eapply (IH (upd k1 c cp') l1 cp' (S fd)).
  - eapply own_same_table; [done|]. eapply same_table_upd; [by rewrite Hpt1|]. done.
  - eapply upd_lookup. by rewrite Hpt1.
  - cbn [cp' ofile set_ofile]. by rewrite drop_insert_lt by lia.
  - by rewrite Hpt.
  - intros k' l' Hinv' Hpt' Hr' Hcpu'. apply (HQ k' l' Hinv'); [|done|by transitivity (upd k1 c cp')].
    rewrite Hpt', Hpt, list_insert_insert_eq. cbn [cp' ofile set_ofile]. rewrite Hcl; [done|apply length_insert|by rewrite take_insert_ge by lia|].
    apply list_lookup_insert_eq. by eapply lookup_lt_Some.
Qed.

(** The table of shared structures after the loop of [exit]. *)
Definition shared_cleared (e : shared) : shared :=
  if SHAREDBASE <? memstart e then Shared (name e) 0 0 else e.

Lemma exit_shared_run sh k : exit_shared false sh k = Ret (shared_cleared <$> sh, k).
Proof.
  induction sh as [|e sh IH]; cbn [exit_shared]; [done|]. unfold mbind, M_bind in *. cbn.
  by rewrite IH.
Qed.

(** Entries while [c] exits: woken up, or given to [ini]. *)
Definition exit_rel (c : nat) (ini : option nat) (p p' : proc) : Prop :=
  same_pages p p' /\ pid p' = pid p /\
  (state p' = state p \/ state p = SLEEPING /\ state p' = RUNNABLE) /\
  (parent p' = parent p \/ parent p = Some c /\ parent p' = ini) /\ same_refs p p'.

#[export] Instance exit_rel_preorder c ini : PreOrder (exit_rel c ini).
Proof.
  split; [by intros p; split_and!; [..|left|left|]|].
  intros p q r (H1 & H2 & H3 & H4 & H5) (G1 & G2 & G3 & G4 & G5). split; [by etrans|]. split; [congruence|]. split; [|split; [|by etrans]].
  - destruct H3 as [H3|[H3 H3']], G3 as [G3|[G3 G3']]; [left|right|right|]; try split; congruence.
  - destruct H4 as [H4|[H4 H4']], G4 as [G4|[G4 G4']]; [left|right|right|right]; try split; congruence.
Qed.

(** The table changed by [exit_rel], the rest of the kernel did not. *)
Definition exit_step (c : nat) (ini : option nat) (k k' : kst) : Prop :=
  k' = set_ptable (ptable k') k /\ Forall2 (exit_rel c ini) (ptable k) (ptable k').

#[export] Instance exit_step_preorder c ini : PreOrder (exit_step c ini).
Proof.
  split.
  - intros k. split; [by destruct k|done].
  - intros k1 k2 k3 [H1 H2] [G1 G2]. split; [|by etrans]. rewrite G1, H1. done.
Qed.

Lemma exit_step_upd c ini k i p p' : ptable k !! i = Some p -> exit_rel c ini p p' ->
  exit_step c ini k (upd k i p').
Proof.
  intros Hp Hr. split; [done|]. unfold upd. cbn. rewrite <- (list_insert_id _ _ _ Hp) at 1.
  by apply Forall2_insert.
Qed.

Lemma wakeup1_exit c ini ch k Q :
  (forall k', exit_step c ini k k' -> (forall i p, ptable k !! i = Some p -> state p = SLEEPING ->
     chan p = ch -> exists p', ptable k' !! i = Some p' /\ state p' = RUNNABLE) -> Q () k') ->
  wp (wakeup1 ch) k Q.
Proof.
  intros HQ. unfold wakeup1. rewrite wp_modify. apply HQ.
  - split; [done|]. cbn [ptable set_ptable]. apply Forall2_fmap_r, Forall_Forall2_diag, Forall_forall.
    intros p _. unfold compose. case_decide as Hc; [|done]. destruct Hc as [Hs _].
    split; [by apply same_pages_state; rewrite ?Hs|]. split; [done|]. split; [by right|]. split; [by left|done].
  - intros i p Hp Hs Hch. cbn [ptable set_ptable]. rewrite list_lookup_fmap, Hp. cbn.
    rewrite decide_True by done. by eexists.
Qed.

Lemma exit_step_lookup c ini k k' i p : exit_step c ini k k' -> ptable k !! i = Some p ->
  exists p', ptable k' !! i = Some p' /\ exit_rel c ini p p'.
Proof. intros [_ H] Hp. by eapply Forall2_lookup_l. Qed.

Lemma reparent_wp c ini ids : ini <> Some c -> forall k Q, (forall i, i ∈ ids -> is_Some (ptable k !! i)) ->
  (forall k', exit_step c ini k k' ->
     (forall i p, i ∈ ids -> ptable k' !! i = Some p -> parent p <> Some c) -> Q () k') ->
  wp (reparent c ini ids) k Q.
Proof.
  intros Hini. induction ids as [|i ids IH]; intros k Q Hids HQ; cbn [reparent].
  { apply wp_ret. apply HQ; [done|set_solver]. }
  destruct (Hids i ltac:(set_solver)) as [p Hp]. rewrite wp_bind, (wp_getp k i p) by done. rewrite wp_bind.
  assert (forall k1 p1, exit_step c ini k k1 -> ptable k1 !! i = Some p1 -> parent p1 <> Some c ->
    wp (reparent c ini ids) k1 Q) as Hrest.
  { intros k1 p1 Hs1 Hp1 Hn1. apply IH.
    - intros j Hj. destruct (Hids j ltac:(set_solver)) as [q Hq].
      destruct (exit_step_lookup _ _ _ _ _ _ Hs1 Hq) as (q' & ? & _). by eexists.
    - intros k' Hs' Hnone. apply HQ; [by etrans|].
      intros j q [->|Hj]%elem_of_cons Hq; [|by eapply Hnone].
      destruct (exit_step_lookup _ _ _ _ _ _ Hs' Hp1) as (q' & Hq' & _ & _ & _ & [H|[H _]] & _); congruence. }
  destruct (decide (parent p = Some c)) as [Hpar|Hpar]; last first.
  { apply wp_ret. by eapply (Hrest k p). }
  assert (exit_step c ini k (upd k i (set_parent ini p))) as Hs0.
  { eapply exit_step_upd; [done|]. split; [done|]. split; [done|]. split; [by left|]. split; [by right|done]. }
  pose proof (upd_lookup k i (set_parent ini p) p Hp) as Hl0.
  rewrite wp_bind, (wp_setp k i p) by done.
  destruct (decide (state p = ZOMBIE)); last first.
  { apply wp_ret. by eapply Hrest. }
  apply (wakeup1_exit c ini). intros k1 Hs1 _.
  destruct (exit_step_lookup _ _ _ _ _ _ Hs1 Hl0) as (q & Hq & _ & _ & _ & Hpq & _).
  eapply (Hrest k1 q); [by etrans|done|]. cbn in Hpq. destruct Hpq as [->|[-> ->]]; done.
Qed.

Lemma exit_step_own c ini k k' P l : own_inv n k P l -> exit_step c ini k k' -> own_inv n k' P l.
Proof.
  intros Hinv [-> Hall]. eapply own_same_table; [done|]. do 3 (split; [done|]). cbn.
  eapply Forall2_impl; [exact Hall|]. by intros p p' [? _].
Qed.

(** The references while [c] exits: [c] holds none any more. *)
Record refs_exit (c : nat) (k : kst) : Prop := {
  re_ready : fs_ready (files (ptable k)) (dirs (ptable k)) (fsys k);
  re_slots : forall i p, ptable k !! i = Some p -> if decide (i = c)
    then ofile p = replicate (Z.to_nat NOFILE) 0 /\ cwd p = 0 else slot_ok p }.

Lemma exit_rel_live c ini p p' : exit_rel c ini p p' -> live p' <-> live p.
Proof. intros (_ & _ & [E|[E1 E2]] & _); unfold live; [by rewrite E|by rewrite E1, E2]. Qed.

Lemma refs_exited c ini k k' q : refs_exit c k -> exit_step c ini k k' -> ptable k' !! c = Some q ->
  ref_inv (upd k' c (set_state ZOMBIE q)).
Proof.
  intros [R1 R2] [Hk' Hall] Hq.
  assert (Forall2 same_refs (ptable k) (ptable (upd k' c (set_state ZOMBIE q)))) as Hs.
  { transitivity (ptable k'); [eapply Forall2_impl; [exact Hall|]; by intros p p' (_ & _ & _ & _ & ?)|].
    unfold upd. cbn. rewrite <- (list_insert_id _ _ _ Hq) at 1. by apply Forall2_insert. }
  destruct (refs_same _ _ Hs) as [E1 E2]. split; [rewrite E1, E2; rewrite Hk'; exact R1|].
  intros i p' Hp'. destruct (Forall2_lookup_r _ _ _ _ _ Hs Hp') as (p & Hp & F1 & F2). specialize (R2 i p Hp).
  destruct (decide (i = c)) as [->|Hne].
  - rewrite (upd_lookup k' c _ q Hq) in Hp'. injection Hp' as <-. destruct R2 as [Z1 Z2].
    split; rewrite ?F1, ?F2, ?Z1; [apply length_replicate|by intros [_ ?]|done].
  - rewrite upd_lookup_ne in Hp' by done. destruct (Forall2_lookup_lr _ _ _ _ _ _ Hall Hp Hp') as (G1 & G2 & G3 & G4 & G5).
    destruct R2 as [S1 S2 S3]. assert (live p' <-> live p) as Hl by (by eapply (exit_rel_live c ini)).
    split; rewrite ?F1, ?F2; [done|by rewrite Hl|by rewrite Hl].
Qed.

Lemma same_cpu_upd k i p : same_cpu k (upd k i p).
Proof. done. Qed.

(** [exit] up to the switch: the process is a zombie, its parent is not
    left sleeping in [wait], and nobody names it as parent. *)
Definition exited (k : kst) (P : list Z) (c : nat) (cp : proc) (k' : kst) : Prop :=
  (exists l', own_inv n k' P l') /\ ref_inv k' /\ same_cpu k k' /\ length (ptable k') = length (ptable k) /\
  (exists q, ptable k' !! c = Some (set_state ZOMBIE q) /\ pid q = pid cp /\ pgdir q = pgdir cp /\
     (parent q = parent cp \/ parent q = initproc k)) /\
  (forall j p, j <> c -> ptable k !! j = Some p ->
     exists p', ptable k' !! j = Some p' /\ exit_rel c (initproc k) p p' /\
       (parent cp = Some j -> state p = SLEEPING -> chan p = proc_addr (Some j) -> state p' = RUNNABLE)) /\
  (forall j p, ptable k' !! j = Some p -> parent p <> Some c).

(** The last part of [exit], with [ptable.lock] held. *)
Lemma exit_locked_wp k P l c cp : own_inv n k P l -> refs_exit c k -> curproc k = Some c ->
  ptable k !! c = Some cp -> initproc k <> Some c -> state cp <> UNUSED ->
  wp (cp ← getp c;
      _ ← wakeup1 (proc_addr (parent cp));
      m ← gets (fun k => length (ptable k));
      _ ← reparent c (initproc k) (seq 0 m);
      _ ← setp c (set_state ZOMBIE);
      sched) k (fun _ k' => exited k P c cp k').
Proof.
  intros Hinv Href Hcur Hcp Hini Hu. rewrite wp_bind, (wp_getp k c cp) by done. rewrite wp_bind.
  apply (wakeup1_exit c (initproc k)). intros k1 Hs1 Hwake. rewrite wp_bind, wp_gets, wp_bind.
  apply reparent_wp; [done|intros i Hi; apply lookup_lt_is_Some; rewrite elem_of_seq in Hi; lia|].
  intros k2 Hs2 Hnone. assert (exit_step c (initproc k) k k2) as Hs by by etrans.
  destruct (exit_step_lookup _ _ _ _ _ _ Hs Hcp) as (q & Hq & Hpg & Hpid & Hst & Hpar & _).
  pose proof (exit_step_own _ _ _ _ _ _ Hinv Hs) as Hinv2. pose proof (refs_exited c _ k k2 q Href Hs Hq) as Href2. destruct Hs as [Hk2 Hall].
  assert (curproc k2 = Some c) as Hcur2 by by rewrite Hk2.
  rewrite wp_bind, (wp_setp k2 c q) by done.
  eapply wp_mono; [by eapply sched_wp|]. intros [] k' ->.
  assert (same_pages q (set_state ZOMBIE q)) as Hz.
  { apply same_pages_state; [|done]. destruct Hst as [->|[_ ->]]; done. }
  split; [exists l; eapply own_same_table; [done|by eapply same_table_upd]|]. split; [done|].
  split; [by rewrite Hk2|]. split; [cbn; rewrite length_insert; symmetry; by eapply Forall2_length|].
  split; [|split].
  - exists q. split; [by eapply upd_lookup|]. split; [done|]. split; [apply Hpg|].
    destruct Hpar as [?|[_ ?]]; [by left|by right].
  - intros j p Hj Hp. destruct (exit_step_lookup _ _ _ _ _ _ (conj Hk2 Hall) Hp) as (p' & Hp' & Hr).
    exists p'. rewrite upd_lookup_ne by done. do 2 (split; [done|]). intros Hpj Hsl Hch.
    rewrite Hpj in Hwake. destruct (Hwake j p Hp Hsl Hch) as (p1 & Hp1 & Hr1).
    destruct (exit_step_lookup _ _ _ _ _ _ Hs2 Hp1) as (p2 & Hp2 & _ & _ & Hst2 & _).
    rewrite Hp' in Hp2. injection Hp2 as <-. destruct Hst2 as [?|[? _]]; congruence.
  - intros j p Hp. destruct (decide (j = c)) as [->|Hj].
    + rewrite (upd_lookup k2 c _ q Hq) in Hp. injection Hp as <-. cbn. eapply Hnone; [|exact Hq].
      apply elem_of_seq. apply lookup_lt_Some in Hcp. destruct Hs1 as [_ Hl%Forall2_length]. lia.
    + rewrite upd_lookup_ne in Hp by done. eapply Hnone; [|exact Hp].
      apply elem_of_seq. apply lookup_lt_Some in Hp. destruct Hs2 as [_ Hl%Forall2_length]. lia.
Qed.

Lemma exit_wp {HF : FileSysOk LK FS SP} k P l c cp : own_inv n k P l -> ref_inv k -> curproc k = Some c ->
  ptable k !! c = Some cp -> initproc k <> Some c -> parent cp <> None -> live cp ->
  wp exit k (fun _ k' => exited k P c cp k').
Proof.
  intros Hinv [Hrd Hsl] Hcur Hcp Hini Hpar Hlc. unfold exit. assert (state cp <> UNUSED) as Hu by apply Hlc.
  destruct (Hsl c cp Hcp) as [So1 So2 _]. specialize (So2 Hlc).
  rewrite wp_bind, (wp_myproc _ c) by done. rewrite wp_bind, wp_gets.
  rewrite decide_False by done. rewrite wp_bind, (wp_getp k c cp) by done. rewrite wp_bind.
  eapply (close_files_wp P c (dirs (ptable k))); [done|done|apply drop_0|done|]. intros k1 l1 Hinv1 Hpt1 Hr1 Hcpu1.
  assert (closed_from 0 (ofile cp) = replicate (Z.to_nat NOFILE) 0) as Hcl by (unfold closed_from; by rewrite take_0, Nat.sub_0_r, So1).
  rewrite Hcl in Hpt1. rewrite wp_bind, bool_decide_eq_false_2 by done. rewrite (wp_run _ _ _ _ _ (exit_shared_run _ k1)).
  set (cp1 := set_ofile _ cp) in *.
  assert (ptable k1 !! c = Some cp1) as Hc1.
  { rewrite Hpt1. apply list_lookup_insert_eq. by eapply lookup_lt_Some. }
  rewrite wp_bind, (wp_setp k1 c cp1) by done. set (cp2 := set_p_shared _ cp1). set (cp3 := set_cwd 0 cp2).
  assert (dirs (ptable k) ≡ₚ cwd cp :: dirs (<[c := cp3]> (ptable k1))) as Hd.
  { rewrite Hpt1, list_insert_insert_eq, (proj2 (refs_insert_entry _ c cp cp3 Hcp)), (dirs_lookup _ c cp Hcp), nonzero_one by done. done. }
  assert (files (<[c := cp3]> (ptable k1)) ≡ₚ files (ptable k1)) as Hfl.
  { rewrite (proj1 (refs_insert_entry _ c cp1 cp3 Hc1)). by rewrite (files_lookup _ c cp1 Hc1). }
  rewrite Hd in Hr1. rewrite <- Hfl in Hr1.
  rewrite wp_bind. eapply wp_silent_upd; [apply begin_op_ok|by apply entered_ready|]. intros f1 Hf1 Hb1.
  rewrite wp_bind. eapply wp_silent_upd; [apply iput_ok|by apply entered_begun|]. intros f2 Hf2 Hb2.
  rewrite wp_bind. eapply wp_silent_upd; [apply end_op_ok|by apply entered_ending|]. intros f3 Hf3 Hr3.
  set (k3 := set_fsys f3 k1). change (set_fsys f3 _) with k3.
  rewrite wp_bind, (wp_setp_upd k3 c cp1 Hc1). fold cp3.
  assert (same_table k1 (upd k3 c cp3)) as Hst.
  { transitivity k3; [apply same_table_fsys; cbn in *; congruence|]. eapply same_table_upd; [done|].
    do 5 (split; [done|]). cbn. by rewrite length_fmap. }
  destruct Hcpu1 as (Hcc & Hci & Hcn & Hcr).
  assert (initproc k = initproc (upd k3 c cp3)) as -> by done.
  eapply wp_mono; [eapply (exit_locked_wp (upd k3 c cp3) P l1 c cp3)|].
  - by eapply own_same_table.
  - split; [exact Hr3|]. intros i p Hp. destruct (decide (i = c)) as [->|Hne].
    + rewrite (upd_lookup k3 c cp3 cp1 Hc1) in Hp. by injection Hp as <-.
    + rewrite upd_lookup_ne in Hp by done. cbn in Hp. rewrite Hpt1, list_lookup_insert_ne in Hp by done. by eapply Hsl.
  - cbn. congruence.
  - by eapply upd_lookup.
  - cbn. congruence.
  - done.
  - cbv beta. intros [] k' (Hown & Href & Hcpu & Hlen & (q & Hq & Hpid & Hdd & Hqp) & Hoth & Hnone).
    split; [done|]. split; [done|]. split; [etrans; [|exact Hcpu]; by split_and!|].
    split; [rewrite Hlen; cbn; by rewrite Hpt1, !length_insert|].
    split; [exists q; do 3 (split; [done|]); cbn in Hqp; by rewrite Hci in Hqp|].
    split; [|done]. intros j p Hj Hp. rewrite <- Hci. apply Hoth; [done|].
    rewrite upd_lookup_ne by done. cbn. rewrite Hpt1. by rewrite list_lookup_insert_ne by done.
Qed.

(** ** The kernel's steps *)

(** System calls of the running process, the scheduler, interrupts. *)
Inductive event :=
  | EFork | EExit | EWait | EGrow (m : Z) | EYield | ESleep (ch : Z) | EResume
  | EKill (m : Z) | EWakeup (ch : Z) | EPick (i : nat) | EBack.

Definition handler (e : event) : M kst () :=
  match e with
  | EFork => _ ← fork; mret ()
  | EExit => exit
  | EWait => _ ← wait; mret ()
  | EGrow m => _ ← growproc m; mret ()
  | EYield => yield
  | ESleep ch => sleep ch
  | EResume => sleep_resumed
  | EKill m => _ ← kill m; mret ()
  | EWakeup ch => wakeup ch
  | EPick i => _ ← scheduler_pick i; mret ()
  | EBack => scheduler_back
  end.

Definition is_running (k : kst) (c : nat) (p : proc) : Prop :=
  curproc k = Some c /\ ptable k !! c = Some p /\ state p = RUNNING.

(** When a step may happen.  A process other than [init] exits; pids have
    not run out; a process is not shrunk to size 0, which [growproc]
    gets wrong. *)
Definition enabled (e : event) (k : kst) : Prop :=
  match e with
  | EFork => (exists c p, is_running k c p) /\ nextpid k < 2 ^ 31 - 1
  | EExit => (exists c p, is_running k c p) /\ curproc k <> initproc k
  | EWait | EYield | ESleep _ | EResume | EKill _ => exists c p, is_running k c p
  | EGrow m => exists c p, is_running k c p /\ - 2 ^ 31 <= m < 2 ^ 31 /\ (m = 0 \/ sz p + m <> 0)
  | EWakeup _ => True
  | EPick i => curproc k = None /\ is_Some (ptable k !! i)
  | EBack => exists c p, curproc k = Some c /\ ptable k !! c = Some p /\ state p <> RUNNING
  end.

(** At most one entry changed: an unused one, which stays unused or holds
    a new child of [c]. *)
Definition spawned (k : kst) (c : nat) (k' : kst) : Prop :=
  initproc k' = initproc k /\ curproc k' = curproc k /\ nextpid k <= nextpid k' /\
  cr3 (mach k') = cr3 (mach k) /\
  (ptable k' = ptable k \/
   exists i p p', ptable k !! i = Some p /\ state p = UNUSED /\ ptable k' = <[i := p']> (ptable k) /\
     (state p' = UNUSED \/
      state p' = RUNNABLE /\ parent p' = Some c /\ pid p' = nextpid k /\ nextpid k < nextpid k')).

Lemma fork_spawned k c cp l np r k' : 0 <= nextpid k < 2 ^ 31 - 1 -> fork_result k l c cp n np r k' -> spawned k c k'.
Proof.
  intros Hmax [(-> & [[_ ->]|(i & p & p' & s' & Hfi & -> & Hu' & _ & _ & _ & (l1 & _ & _ & _ & Hc1 & _))])
              |(-> & i & p & ks & d & s' & l1 & f & nm & Hfi & _ & _ & -> & Hfk & _)].
  - split_and!; [done|done|lia|done|by left].
  - destruct (first_unused_lookup _ _ _ Hfi) as [Hp Hpu]. split_and!; [done|done|cbn; lia|done|].
    right. exists i, p, p'. split_and!; [done|done|done|by left].
  - destruct (first_unused_lookup _ _ _ Hfi) as [Hp Hpu].
    do 2 (split; [done|]). split; [cbn; lia|]. split; [by destruct Hfk|]. right. eexists i, p, _.
    do 3 (split; [done|]). right. split_and!; [done|done|done|cbn; lia].
Qed.

Lemma sys_spawned i0 k P l c cp k' l' : sys_inv i0 k P l -> own_inv n k' P l' -> ref_inv k' -> spawned k c k' ->
  ptable k !! c = Some cp -> live cp -> sys_inv i0 k' P l'.
Proof.
  intros [_ _ [Hi (p0 & Hp0 & Hl0)] Hpar Hrn Hcr Hpid Hpids] Hown' Href' (Hi' & Hc' & Hn' & Hcr' & Hnew) Hcp Hlc.
  pose proof (Hpid c cp Hcp (proj1 Hlc)) as Hnp.
  (* entries of the new table *)
  assert (forall j q, ptable k' !! j = Some q -> state q <> UNUSED ->
    ptable k !! j = Some q \/
    (state q = RUNNABLE /\ parent q = Some c /\ pid q = nextpid k /\ nextpid k < nextpid k' /\
     (forall x y, ptable k' !! x = Some y -> x <> j -> ptable k !! x = Some y))) as Hcase.
  { intros j q Hq Hu. destruct Hnew as [E|(i & p & p' & Hp & Hpu & E & Hst)]; rewrite E in Hq; [by left|].
    destruct (decide (j = i)) as [->|Hj].
    - rewrite list_lookup_insert_eq in Hq by (by eapply lookup_lt_Some). injection Hq as <-.
      destruct Hst as [?|(H1 & H2 & H3 & H4)]; [done|]. right. split_and!; try done.
      intros x y Hy Hx. rewrite E, list_lookup_insert_ne in Hy by done. done.
    - rewrite list_lookup_insert_ne in Hq by done. by left. }
  assert (forall j q, ptable k !! j = Some q -> state q <> UNUSED -> ptable k' !! j = Some q) as Hkeep.
  { intros j q Hq Hu. destruct Hnew as [->|(i & p & p' & Hp & Hpu & -> & _)]; [done|].
    rewrite list_lookup_insert_ne; [done|]. intros ->. congruence. }
  split; [done|done| | | | | |].
  - split; [congruence|]. exists p0. split; [apply Hkeep; [done|apply Hl0]|done].
  - intros j q Hq Hu Hj. destruct (Hcase j q Hq Hu) as [Hq'|(_ & Hpc & _)].
    + destruct (Hpar j q Hq' Hu Hj) as (x & y & Hx & Hy & Hly). exists x, y.
      split_and!; [done|apply Hkeep; [done|apply Hly]|done].
    + exists c, cp. split_and!; [done|apply Hkeep; [done|apply Hlc]|done].
  - intros j q Hq Hs. rewrite Hc'. destruct (Hcase j q Hq ltac:(congruence)) as [Hq'|(? & _)]; [by eapply Hrn|congruence].
  - intros x Hx. rewrite Hc' in Hx. destruct (Hcr x Hx) as (y & Hy & Hu & Hcy). exists y.
    split_and!; [by apply Hkeep|done|congruence].
  - intros j q Hq Hu. destruct (Hcase j q Hq Hu) as [Hq'|(_ & _ & Hpq & Hlt & _)]; [|lia].
    specialize (Hpid j q Hq' Hu). lia.
  - intros x y q r Hq Hr Hu Hv Heq. destruct (decide (x = y)) as [->|Hne]; [done|].
    destruct (Hcase x q Hq Hu) as [Hq'|(_ & _ & Hpq & _ & Hrest)], (Hcase y r Hr Hv) as [Hr'|(_ & _ & Hpr & _ & Hrest')].
    + by eapply (Hpids x y q r).
    + specialize (Hpid x q Hq' Hu). lia.
    + specialize (Hpid y r Hr' Hv). lia.
    + specialize (Hrest y r Hr ltac:(congruence)). specialize (Hpid y r Hrest Hv). lia.
Qed.

Lemma sys_fork_step {HF : FileSysOk LK FS SP} i0 k P l c cp : sys_inv i0 k P l -> is_running k c cp ->
  nextpid k < 2 ^ 31 - 1 -> wp fork k (fun _ k' => exists l', sys_inv i0 k' P l').
Proof.
  intros Hinv (Hcur & Hcp & Hrun) Hmax. assert (live cp) as Hlc by (split; congruence).
  assert (state cp <> UNUSED) as Hu by apply Hlc. pose proof (si_own _ _ _ _ Hinv) as Hown.
  pose proof (si_pid _ _ _ _ Hinv c cp Hcp Hu) as Hnp.
  pose proof (own_can_fork n Hn k P l c cp Hown Hcur Hcp Hlc) as Hcf. pose proof (si_refs _ _ _ _ Hinv) as Href.
  eapply wp_mono; [apply (wp_conj _ _ _ _ (fork_wp k c cp l n (npg cp) Hcf Href) (fork_own n Hn k P l c cp Hown Href Hcur Hcp Hlc))|].
  cbv beta. intros r k' [Hpost [l' Hown']]. exists l'.
  eapply sys_spawned; [done|done|by eapply fork_refs| |done|done]. eapply fork_spawned; [lia|exact Hpost].
Qed.

Lemma sys_exit_step {HF : FileSysOk LK FS SP} i0 k P l c cp : sys_inv i0 k P l -> is_running k c cp ->
  c <> i0 -> wp exit k (fun _ k' => exists l', sys_inv i0 k' P l').
Proof.
  intros Hinv (Hcur & Hcp & Hrun) Hc0. assert (state cp <> UNUSED) as Hu by congruence.
  destruct (si_init _ _ _ _ Hinv) as [Hi (p0 & Hp0 & Hl0)].
  destruct (si_parent _ _ _ _ Hinv c cp Hcp Hu Hc0) as (jp & qp & Hjp & _).
  eapply wp_mono; [apply (exit_wp k P l c cp (si_own _ _ _ _ Hinv) (si_refs _ _ _ _ Hinv) Hcur Hcp); [congruence..|split; congruence]|].
  cbv beta. intros [] k' ((l' & Hown') & Href' & (Hcc & Hci & Hcn & Hcr) & Hlen & (q & Hq & Hpid & Hd & Hqp) & Hoth & Hnone).
  exists l'. destruct Hinv as [_ _ _ Hpar Hrn Hcur' Hpids Hinj].
  (* each entry comes from one of the old table *)
  assert (forall j p', ptable k' !! j = Some p' -> exists p, ptable k !! j = Some p /\
    pid p' = pid p /\ pgdir p' = pgdir p /\ (state p' <> UNUSED -> state p <> UNUSED) /\
    (state p' = RUNNING -> state p = RUNNING) /\
    (parent p' = parent p \/ parent p' = Some i0)) as Hold.
  { intros j p' Hp'. destruct (decide (j = c)) as [->|Hj].
    - rewrite Hq in Hp'. injection Hp' as <-. exists cp. cbn. rewrite Hi in Hqp. split_and!; done.
    - assert (is_Some (ptable k !! j)) as [p Hp].
      { apply lookup_lt_is_Some. rewrite <- Hlen. by eapply lookup_lt_Some. }
      destruct (Hoth j p Hj Hp) as (x & Hx & (Hpg & Hpp & Hst & Hpar' & _) & _).
      rewrite Hp' in Hx. injection Hx as <-. exists p. destruct Hpg as (Hus & _ & Hdd & _).
      split_and!; [done|done|done|by rewrite Hus| |].
      + destruct Hst as [->|[_ ->]]; done.
      + rewrite Hi in Hpar'. destruct Hpar' as [?|[_ ?]]; auto. }
  assert (forall j p, j <> c -> ptable k !! j = Some p -> live p ->
    exists p', ptable k' !! j = Some p' /\ live p') as Hlive.
  { intros j p Hj Hp [H1 H2]. destruct (Hoth j p Hj Hp) as (p' & Hp' & (_ & _ & Hst & _) & _).
    exists p'. split; [done|]. split; destruct Hst as [->|[_ ->]]; done. }
  split; [done|done| | | | | |].
  - split; [congruence|]. apply (Hlive i0 p0); [congruence|done|done].
  - intros j p' Hp' Hu' Hj. destruct (Hold j p' Hp') as (p & Hp & _ & _ & Hus & _ & Hpp).
    assert (exists x y, parent p' = Some x /\ ptable k !! x = Some y /\ live y) as (x & y & Hx & Hy & Hly).
    { destruct Hpp as [Hpp|Hpp].
      - destruct (Hpar j p Hp (Hus Hu') Hj) as (x & y & ? & ? & ?). exists x, y. split; [congruence|done].
      - by exists i0, p0. }
    destruct (Hlive x y) as (y' & Hy' & Hly'); [|done|done|by exists x, y'].
    intros ->. by apply (Hnone j p' Hp').
  - intros j p' Hp' Hs. destruct (Hold j p' Hp') as (p & Hp & _ & _ & _ & Hr & _).
    rewrite Hcc. eapply Hrn; eauto.
  - intros x Hx. rewrite Hcc, Hcur in Hx. injection Hx as <-.
    destruct (Hcur' c Hcur) as (y & Hy & _ & Hcy). rewrite Hcp in Hy. injection Hy as <-.
    eexists. split; [exact Hq|]. split; [done|]. cbn. congruence.
  - intros j p' Hp' Hu'. destruct (Hold j p' Hp') as (p & Hp & -> & _ & Hus & _). rewrite Hcn. eauto.
  - intros x y p' r' Hp' Hr' Hu' Hv' Heq.
    destruct (Hold x p' Hp') as (p & Hp & Hpp & _ & Hus & _).
    destruct (Hold y r' Hr') as (r & Hr & Hrr & _ & Hvs & _).
    eapply (Hinj x y p r); eauto. congruence.
Qed.

Lemma sys_reaped i0 k P l i p s' l' : sys_inv i0 k P l -> ptable k !! i = Some p -> state p = ZOMBIE ->
  own_inv n (upd (set_mach s' k) i (reaped p)) P l' -> cr3 s' = cr3 (mach k) ->
  (forall c, curproc k = Some c -> c <> i) ->
  sys_inv i0 (upd (set_mach s' k) i (reaped p)) P l'.
Proof.
  intros [_ Href [Hi (p0 & Hp0 & Hl0)] Hpar Hrn Hcur Hpid Hinj] Hp Hz Hown' Hcr Hci.
  assert (ref_inv (upd (set_mach s' k) i (reaped p))) as Href'.
  { apply (ref_same k); [done| |done|].
    - unfold upd. cbn. rewrite <- (list_insert_id _ _ _ Hp) at 1. by apply Forall2_insert.
    - intros j q q' Hq Hq'. destruct (decide (j = i)) as [->|Hj]; [|rewrite upd_lookup_ne in Hq' by done; cbn in Hq'; by replace q' with q by congruence].
      rewrite (upd_lookup (set_mach s' k) i _ p Hp) in Hq'. injection Hq' as <-. rewrite Hp in Hq. injection Hq as <-.
      unfold live. cbn. split; [by intros [? _]|intros [_ ?]; congruence]. }
  assert (forall j q, ptable (upd (set_mach s' k) i (reaped p)) !! j = Some q -> state q <> UNUSED ->
    ptable k !! j = Some q /\ j <> i) as Hold.
  { intros j q Hq Hu. destruct (decide (j = i)) as [->|Hj].
    - rewrite (upd_lookup (set_mach s' k) i _ p Hp) in Hq. injection Hq as <-. done.
    - rewrite upd_lookup_ne in Hq by done. done. }
  assert (forall j q, ptable k !! j = Some q -> j <> i ->
    ptable (upd (set_mach s' k) i (reaped p)) !! j = Some q) as Hkeep.
  { intros j q Hq Hj. by rewrite upd_lookup_ne. }
  assert (forall j q, ptable k !! j = Some q -> live q -> j <> i) as Hne.
  { intros j q Hq [_ Hlz] ->. congruence. }
  split; [done|done| | | | | |].
  - split; [done|]. exists p0. split; [apply Hkeep; [done|by eapply Hne]|done].
  - intros j q Hq Hu Hj. destruct (Hold j q Hq Hu) as [Hq' _].
    destruct (Hpar j q Hq' Hu Hj) as (x & y & Hx & Hy & Hly). exists x, y.
    split_and!; [done|apply Hkeep; [done|by eapply Hne]|done].
  - intros j q Hq Hs. destruct (Hold j q Hq ltac:(congruence)) as [Hq' _]. by eapply Hrn.
  - intros c Hc. destruct (Hcur c Hc) as (q & Hq & Hu & Hcq). exists q.
    split_and!; [apply Hkeep; [done|by apply Hci]|done|cbn; congruence].
  - intros j q Hq Hu. destruct (Hold j q Hq Hu) as [Hq' _]. by eapply Hpid.
  - intros x y q r Hq Hr Hu Hv. destruct (Hold x q Hq Hu), (Hold y r Hr Hv). by eapply Hinj.
Qed.

Lemma sys_wait_step i0 k P l c cp : sys_inv i0 k P l -> is_running k c cp ->
  wp wait k (fun _ k' => exists l', sys_inv i0 k' P l').
Proof.
  intros Hinv (Hcur & Hcp & Hrun). assert (state cp <> UNUSED) as Hu by congruence.
  eapply wp_mono; [apply (wait_wp n Hn k P l c cp (si_own _ _ _ _ Hinv) Hcur Hcp)|].
  intros r k' [(i & p & s' & l' & Hp & _ & Hz & _ & -> & Hown & Hcr & _)|[(_ & -> & _)|(_ & -> & _)]].
  - exists l'. eapply sys_reaped; try done. intros x Hx ->. rewrite Hcur in Hx. congruence.
  - by exists l.
  - exists l. eapply sys_upd; [done|done| | |done].
    + transitivity (set_chan (proc_addr (Some c)) cp); [done|]. by apply same_pages_state.
    + split_and!; try done; cbn; rewrite Hrun; done.
Qed.

Lemma sys_grow_step i0 k P l c p m : sys_inv i0 k P l -> is_running k c p ->
  - 2 ^ 31 <= m < 2 ^ 31 -> m = 0 \/ sz p + m <> 0 ->
  wp (growproc m) k (fun _ k' => exists l', sys_inv i0 k' P l').
Proof.
  intros Hinv (Hcur & Hp & Hrun) Hm Hnz. assert (state p <> UNUSED) as Hu by congruence.
  pose proof (si_own _ _ _ _ Hinv) as Hown.
  eapply wp_mono; [apply (growproc_wp n Hn k P l c p Hown Hcur Hp Hu m Hm Hnz)|].
  intros r k' (s' & l' & Hown' & Hcase). exists l'.
  destruct (si_cur _ _ _ _ Hinv c Hcur) as (p' & Hp' & _ & Hcr).
  rewrite Hp in Hp'. injection Hp' as <-.
  destruct Hcase as [(_ & _ & -> & _)|(_ & _ & -> & Hcr' & _)]; (eapply sys_same; [done|done| |done|done|done| |]).
  - cbn. rewrite <- (list_insert_id _ _ _ Hp) at 1. apply Forall2_insert; [|done].
    apply Forall_Forall2_diag, Forall_forall. done.
  - intros i q Hq Hs. cbn in *. destruct (decide (i = c)) as [->|Hi]; [done|].
    rewrite list_lookup_insert_ne in Hq by done. by eapply (si_run _ _ _ _ Hinv).
  - intros x Hx. cbn in *. rewrite Hcur in Hx. injection Hx as <-. eexists.
    split; [apply list_lookup_insert_eq; by eapply lookup_lt_Some|]. done.
  - cbn. apply Forall_Forall2_diag, Forall_forall. done.
  - apply (si_run _ _ _ _ Hinv).
  - intros x Hx. cbn in *. rewrite Hcur in Hx. injection Hx as <-. exists p. split_and!; [done|done|congruence].
Qed.

(** The other steps change one state, or wake sleepers. *)
Lemma sys_small_step i0 k P l c p q : sys_inv i0 k P l -> is_running k c p ->
  q = p \/ (state q <> UNUSED /\ state q <> ZOMBIE /\ state q <> RUNNING) ->
  same_pages p q -> pid q = pid p -> parent q = parent p -> same_refs p q ->
  sys_inv i0 (upd k c q) P l.
Proof.
  intros Hinv (Hcur & Hp & Hrun) Hq Hpg Hpid Hpar Hrefs. destruct Hq as [->|(H1 & H2 & H3)].
  { by rewrite upd_same. }
  eapply sys_upd; [done|done|done| |done]. split_and!; [done|done|apply Hpg|apply Hpg|intuition congruence|exact Hrefs].
Qed.

(** An entry after [wakeup1]. *)
Definition woken (ch : Z) (p : proc) : proc :=
  if decide (state p = SLEEPING /\ chan p = ch) then set_state RUNNABLE p else p.

Lemma woken_same ch p : same_pages p (woken ch p) /\ same_life p (woken ch p) /\
  (state (woken ch p) = RUNNING -> state p = RUNNING).
Proof.
  unfold woken. case_decide as Hc; [|done]. destruct Hc as [Hs _].
  split; [by apply same_pages_state; rewrite ?Hs|]. split; [|done].
  split_and!; try done; cbn; rewrite Hs; done.
Qed.

Lemma sys_wakeup_step i0 k P l ch : sys_inv i0 k P l ->
  wp (wakeup ch) k (fun _ k' => sys_inv i0 k' P l).
Proof.
  intros Hinv. unfold wakeup, wakeup1. rewrite wp_modify.
  change (fun p => if decide _ then _ else p) with (woken ch).
  assert (forall i p', (woken ch <$> ptable k) !! i = Some p' ->
    exists p, ptable k !! i = Some p /\ p' = woken ch p) as Hl.
  { intros i p'. rewrite list_lookup_fmap. destruct (ptable k !! i); [|done]. intros [= <-]. eauto. }
  eapply sys_same; [done| | |done|done|done| |].
  - eapply own_same_table; [apply Hinv|]. do 3 (split; [done|]). cbn [ptable set_ptable].
    apply Forall2_fmap_r, Forall_Forall2_diag, Forall_forall. intros p _. apply woken_same.
  - cbn [ptable set_ptable]. apply Forall2_fmap_r, Forall_Forall2_diag, Forall_forall.
    intros p _. apply woken_same.
  - intros i p' Hp' Hs. destruct (Hl i p' Hp') as (p & Hp & ->).
    eapply (si_run _ _ _ _ Hinv); [exact Hp|]. by apply (woken_same ch p).
  - intros c Hc. destruct (si_cur _ _ _ _ Hinv c Hc) as (p & Hp & Hu & Hcr).
    destruct (woken_same ch p) as (_ & (_ & _ & Hd & Hus & _) & _).
    exists (woken ch p). cbn [ptable set_ptable]. rewrite list_lookup_fmap, Hp.
    split_and!; [done|by rewrite Hus|cbn; congruence].
Qed.

Lemma sys_kill_step i0 k P l m : sys_inv i0 k P l ->
  wp (kill m) k (fun _ k' => sys_inv i0 k' P l).
Proof.
  intros Hinv. unfold kill. wp_steps. destruct (list_find _ (ptable k)) as [[i p]|] eqn:E; [|by apply wp_ret].
  apply list_find_Some in E as (Hp & _ & _).
  rewrite wp_bind, (wp_setp k i p) by done. rewrite wp_bind, (wp_getp_upd k i p Hp), wp_bind.
  destruct (decide (state (set_killed 1 p) = SLEEPING)) as [Hs|Hs].
  - rewrite (wp_setp_upd k i p Hp). apply wp_ret. cbn in Hs. eapply sys_upd; [done|done| | |done].
    + transitivity (set_killed 1 p); [done|]. by apply same_pages_state; cbn; rewrite ?Hs.
    + split_and!; try done; cbn; rewrite Hs; done.
  - apply wp_ret, wp_ret. by eapply sys_upd.
Qed.

(** The scheduler runs a runnable process with its directory loaded. *)
Lemma sys_pick_step i0 k P l i p : sys_inv i0 k P l -> curproc k = None -> ptable k !! i = Some p ->
  wp (scheduler_pick i) k (fun b k' => sys_inv i0 k' P l /\
    (b = true -> state p = RUNNABLE /\ is_running k' i (set_state RUNNING p) /\
       cr3 (mach k') = V2P (pgdir p)) /\ (b = false -> k' = k)).
Proof.
  intros Hinv Hcur Hp. unfold scheduler_pick. rewrite wp_bind, (wp_getp k i p) by done.
  destruct (decide (state p = RUNNABLE)) as [Hr|Hr]; [|by apply wp_ret].
  assert (state p <> UNUSED) as Hu by congruence. pose proof (si_own _ _ _ _ Hinv) as Hown.
  destruct (own_nonnull n Hn k P l i p Hown Hp Hu) as [Hks Hd].
  rewrite wp_bind, wp_modify, wp_bind. eapply wp_switchuvm; [exact Hp|done|done|].
  rewrite wp_bind, (wp_setp _ i p) by done. apply wp_ret. set (p' := set_state RUNNING p).
  assert (ptable (upd (loaded (set_curproc (Some i) k) p) i p') !! i = Some p') as Hl
    by by eapply upd_lookup.
  split; [|split; [|done]].
  - eapply (sys_same i0 k); [done| | |done|done|done| |].
    + eapply own_same_table; [by apply (own_loaded n k P l p)|]. split_and!; try done. cbn.
      rewrite <- (list_insert_id _ _ _ Hp) at 1. apply Forall2_insert; [done|]. by apply same_pages_state.
    + cbn. rewrite <- (list_insert_id _ _ _ Hp) at 1. apply Forall2_insert.
      * apply Forall_Forall2_diag, Forall_forall. done.
      * split_and!; try done; cbn; rewrite Hr; done.
    + intros j q Hq Hs. destruct (decide (j = i)) as [->|Hj]; [done|].
      rewrite upd_lookup_ne in Hq by done. cbn in Hq.
      pose proof (si_run _ _ _ _ Hinv j q Hq Hs). congruence.
    + intros x Hx. injection Hx as <-. exists p'. split_and!; done.
  - intros _. split_and!; done.
Qed.

Lemma sys_back_step i0 k P l : sys_inv i0 k P l ->
  (forall c p, curproc k = Some c -> ptable k !! c = Some p -> state p <> RUNNING) ->
  wp scheduler_back k (fun _ k' => sys_inv i0 k' P l /\ curproc k' = None).
Proof.
  intros Hinv Hnr. unfold scheduler_back, switchkvm. wp_steps. rewrite wp_onm.
  unfold lcr3. wp_steps. split; [|done]. eapply (sys_same i0 k); [done| | |done|done|done| |].
  - eapply own_same_table; [by apply Hinv|]. done.
  - apply Forall_Forall2_diag, Forall_forall. done.
  - intros i p Hp Hs. exfalso. pose proof (si_run _ _ _ _ Hinv i p Hp Hs). by eapply Hnr.
  - done.
Qed.

(** ** Every step returns and keeps the invariant *)

Lemma sys_step {HF : FileSysOk LK FS SP} i0 k P l e : sys_inv i0 k P l -> enabled e k ->
  wp (handler e) k (fun _ k' => exists l', sys_inv i0 k' P l').
Proof.
  intros Hinv He. destruct e as [| | |m| |ch| |m|ch|i|]; cbn [handler enabled] in *.
  - destruct He as [(c & p & Hr) Hmax]. rewrite wp_bind. eapply wp_mono; [by eapply sys_fork_step|]. done.
  - destruct He as [(c & p & Hr) Hi]. eapply sys_exit_step; [done|done|]. intros ->.
    destruct Hr as [Hc _], (si_init _ _ _ _ Hinv). congruence.
  - destruct He as (c & p & Hr). rewrite wp_bind. eapply wp_mono; [by eapply sys_wait_step|]. done.
  - destruct He as (c & p & Hr & Hm & Hz). rewrite wp_bind. eapply wp_mono; [by eapply sys_grow_step|]. done.
  - destruct He as (c & p & Hr). pose proof Hr as (Hcur & Hp & Hs).
    eapply wp_mono; [by eapply yield_wp|]. intros [] k' ->. exists l.
    eapply sys_small_step; [done|done|by right|by apply same_pages_state; rewrite ?Hs|done|done|done].
  - destruct He as (c & p & Hr). pose proof Hr as (Hcur & Hp & Hs).
    eapply wp_mono; [by eapply sleep_wp|]. intros [] k' ->. exists l.
    eapply sys_small_step; [done|done| | |done|done|done]; [by right; split_and!|].
    transitivity (set_chan ch p); [done|]. by apply same_pages_state; cbn; rewrite ?Hs.
  - destruct He as (c & p & Hcur & Hp & Hs). unfold sleep_resumed.
    rewrite wp_bind, (wp_myproc _ c) by done. rewrite (wp_setp k c p) by done. exists l.
    by eapply sys_upd.
  - rewrite wp_bind. eapply wp_mono; [by eapply sys_kill_step|]. intros r k' H. apply wp_ret. by exists l.
  - eapply wp_mono; [by eapply sys_wakeup_step|]. intros [] k' H. by exists l.
  - destruct He as [Hc [p Hp]]. rewrite wp_bind. eapply wp_mono; [by eapply sys_pick_step|].
    intros b k' [H _]. apply wp_ret. by exists l.
  - destruct He as (c & p & Hc & Hp & Hs). eapply wp_mono; [eapply sys_back_step; [done|]|].
    { intros c' p' Hc' Hp'. congruence. }
    intros [] k' [H _]. by exists l.
Qed.

(** A run: handlers one after the other, each when it may happen. *)
Inductive run : kst -> list event -> kst -> Prop :=
  | run_nil k : run k [] k
  | run_cons k e k1 es k2 : enabled e k -> handler e k = Ret ((), k1) -> run k1 es k2 -> run k (e :: es) k2.

Lemma run_inv {HF : FileSysOk LK FS SP} i0 P k es k' : run k es k' ->
  forall l, sys_inv i0 k P l -> exists l', sys_inv i0 k' P l'.
Proof.
  induction 1 as [k|k e k1 es k2 He Hh _ IH]; intros l Hinv; [by exists l|].
  pose proof (sys_step i0 k P l e Hinv He) as Hs. unfold wp in Hs. rewrite Hh in Hs.
  destruct Hs as [l1 Hs]. by apply (IH l1).
Qed.
End lifecycle.
