(* ===== verification/Grep.v ===== *)
(** * [user/grep.c]

    The matcher of Kernighan and Pike and the loop that reads a file in
    pieces and prints the matching lines.  A C string is the list of its
    characters without the NUL.  The matcher is proved equal to matching in
    the usual sense of a pattern: the pattern denotes a list of items, each
    of which stands for a set of strings. *)

From stdpp Require Import base numbers list sets.
From S2P Require Import Prelude.
Open Scope Z_scope.

Definition CARET : Z := 94.
Definition STAR : Z := 42.
Definition DOLLAR : Z := 36.
Definition PERIOD : Z := 46.
Definition NL : Z := 10.

(** ** The matcher *)

(** [matchstar(c, re, text)], with [matchhere(re, _)] as [here]. *)
Fixpoint matchstar (here : list Z -> bool) (c : Z) (text : list Z) : bool :=
  here text ||
  match text with
  | [] => false
  | t :: text => if (t =? c) || (c =? PERIOD) then matchstar here c text else false
  end.

Fixpoint matchhere (re text : list Z) : bool :=
  match re with
  | [] => true
  | c :: re1 =>
      match re1 with
      | d :: re2 =>
          if d =? STAR then matchstar (matchhere re2) c text
          else match text with
               | [] => false
               | t :: text => if (c =? PERIOD) || (c =? t) then matchhere re1 text else false
               end
      | [] =>
          if c =? DOLLAR then bool_decide (text = [])
          else match text with
               | [] => false
               | t :: text => if (c =? PERIOD) || (c =? t) then matchhere re1 text else false
               end
      end
  end.

(** The loop of [match]: at every suffix of the text, the empty one
    included. *)
Fixpoint match_from (re text : list Z) : bool :=
  matchhere re text ||
  match text with
  | [] => false
  | _ :: text => match_from re text
  end.

Definition match_ (re text : list Z) : bool :=
  match re with
  | c :: re1 => if c =? CARET then matchhere re1 text else match_from re text
  | [] => match_from re text
  end.

(** ** The loop *)

(** The inner loop, from newline to newline: what is written for the complete
    lines of [p], whether there was one, and what is left at [p].  [strchr]
    stops at a NUL, and what lies after one stays in the buffer. *)
Fixpoint grep_lines (pattern line p : list Z) : list Z * bool * list Z :=
  match p with
  | [] => ([], false, line)
  | c :: p =>
      if c =? 0 then ([], false, line ++ c :: p)
      else if c =? NL then
        let '(out, _, rest) := grep_lines pattern [] p in
        ((if match_ pattern line then line ++ [NL] else []) ++ out, true, rest)
      else grep_lines pattern (line ++ [c]) p
  end.

(** [sizeof(buf)], and [read] on a descriptor that delivers the pieces
    [input]: a whole file, or what a pipe or the console has at a time. *)
Definition BUF_SIZE : nat := 1024.

Definition read (n : nat) (input : list (list Z)) : list Z * list (list Z) :=
  match input with
  | [] => ([], [])
  | l :: input => (take n l, match drop n l with [] => input | l => l :: input end)
  end.

(** [while((n = read(fd, buf+m, sizeof(buf)-m-1)) > 0)]; [buf] is the [m]
    bytes in use.  Every round takes a byte of the input. *)
Fixpoint grep_loop (fuel : nat) (pattern buf : list Z) (input : list (list Z)) : option (list Z) :=
  match fuel with
  | O => None
  | S k =>
      let '(l, input) := read (BUF_SIZE - length buf - 1) input in
      match l with
      | [] => Some []
      | _ =>
          let '(out, found, rest) := grep_lines pattern [] (buf ++ l) in
          r ← grep_loop k pattern (if found : bool then rest else []) input;
          Some (out ++ r)
      end
  end.

Definition grep (pattern : list Z) (input : list (list Z)) : option (list Z) :=
  grep_loop (S (length (concat input))) pattern [] input.

(** ** What a pattern means *)

(** [c], or [c] repeated; a period is any character. *)
Inductive item := One (c : Z) | Many (c : Z).

(** The items of a pattern without its caret, and whether it ends in a
    dollar sign. *)
Fixpoint items (re : list Z) : list item * bool :=
  match re with
  | [] => ([], false)
  | c :: re1 =>
      match re1 with
      | d :: re2 =>
          if d =? STAR then let '(l, e) := items re2 in (Many c :: l, e)
          else let '(l, e) := items re1 in (One c :: l, e)
      | [] => if c =? DOLLAR then ([], true) else ([One c], false)
      end
  end.

Definition sym (c t : Z) : Prop := c = PERIOD \/ c = t.

Fixpoint lang (l : list item) (u : list Z) : Prop :=
  match l with
  | [] => u = []
  | One c :: l => exists t u', u = t :: u' /\ sym c t /\ lang l u'
  | Many c :: l => exists a u', u = a ++ u' /\ Forall (sym c) a /\ lang l u'
  end.

(** [u] is a prefix of [text] that [re] matches. *)
Definition prefix_match (re text : list Z) : Prop :=
  exists u v, text = u ++ v /\ lang (items re).1 u /\ ((items re).2 = true -> v = []).

Lemma matchstar_spec here c text :
  matchstar here c text = true <->
  exists a b, text = a ++ b /\ Forall (sym c) a /\ here b = true.
Proof.
  induction text as [|t text IH]; cbn.
  - rewrite orb_false_r. split.
    + intros H. by exists [], [].
    + intros (a & b & Heq & _ & H). by destruct a, b.
  - rewrite orb_true_iff. split.
    + intros [H|H]; [by exists [], (t :: text)|].
      destruct ((t =? c) || (c =? PERIOD)) eqn:E; [|done].
      apply IH in H as (a & b & -> & Ha & Hb). exists (t :: a), b. split; [done|]. split; [|done].
      constructor; [|done]. unfold sym. lia.
    + intros (a & b & Heq & Ha & Hb). destruct a as [|t' a]; cbn in Heq; [by subst; left|].
      injection Heq as <- ->. apply Forall_cons in Ha as [Ht Ha]. right.
      replace ((t =? c) || (c =? PERIOD)) with true by (unfold sym in Ht; lia). apply IH. eauto.
Qed.

(** One character against one item. *)
Lemma one_spec c (here : list Z -> bool) l e text :
  (forall t text', text = t :: text' ->
    here text' = true <-> exists u v, text' = u ++ v /\ lang l u /\ (e = true -> v = [])) ->
  match text with [] => false | t :: text => if (c =? PERIOD) || (c =? t) then here text else false end = true <->
  exists u v, text = u ++ v /\ lang (One c :: l) u /\ (e = true -> v = []).
Proof.
  intros IH. destruct text as [|t text].
  - split; [done|]. intros (u & v & Heq & (t & u' & -> & _) & _). done.
  - specialize (IH t text eq_refl). split.
    + destruct ((c =? PERIOD) || (c =? t)) eqn:E; [|done]. intros H.
      apply IH in H as (u & v & -> & Hu & Hv). exists (t :: u), v. split; [done|]. split; [|done].
      exists t, u. split; [done|]. split; [unfold sym; lia|done].
    + intros (u & v & Heq & (t' & u' & -> & Ht & Hu) & Hv). injection Heq as <- ->.
      replace ((c =? PERIOD) || (c =? t)) with true by (unfold sym in Ht; lia).
      apply IH. by exists u', v.
Qed.

Lemma matchhere_cons c d re text :
  matchhere (c :: d :: re) text =
    if d =? STAR then matchstar (matchhere re) c text
    else match text with
         | [] => false
         | t :: text => if (c =? PERIOD) || (c =? t) then matchhere (d :: re) text else false
         end.
Proof. done. Qed.

Lemma items_cons c d re :
  items (c :: d :: re) =
    if d =? STAR then let '(l, e) := items re in (Many c :: l, e)
    else let '(l, e) := items (d :: re) in (One c :: l, e).
Proof. done. Qed.

Lemma matchhere_spec n re text : (length re <= n)%nat ->
  matchhere re text = true <-> prefix_match re text.
Proof.
  unfold prefix_match. revert re text. induction n as [|n IH]; intros [|c [|d re]] text Hn; cbn in Hn; try lia.
  all: try (cbn; split; [intros _; by exists [], text|done]).
  - cbn [matchhere items]. destruct (c =? DOLLAR) eqn:E.
    + rewrite bool_decide_eq_true. cbn. split; [intros ->; by exists [], []|].
      intros (u & v & -> & -> & ->); done.
    + apply (one_spec c (matchhere [])). intros t text' _. apply (IH []). cbn. lia.
  - rewrite matchhere_cons, items_cons. destruct (d =? STAR) eqn:E.
    + rewrite matchstar_spec. destruct (items re) as [l e] eqn:Ei. cbn [fst snd lang].
      split.
      * intros (a & b & -> & Ha & Hb). apply IH in Hb as (u & v & -> & Hu & Hv); [|lia].
        rewrite Ei in Hu, Hv. exists (a ++ u), v. rewrite app_assoc. split; [done|]. split; [|done]. by exists a, u.
      * intros (u & v & -> & (a & u' & -> & Ha & Hu) & Hv). exists a, (u' ++ v). rewrite app_assoc.
        split; [done|]. split; [done|]. apply IH; [lia|]. exists u', v. by rewrite Ei.
    + destruct (items (d :: re)) as [l e] eqn:Ei. cbn [fst snd].
      apply (one_spec c (matchhere (d :: re))). intros t text' _. rewrite (IH (d :: re) text'), Ei by (cbn; lia). done.
Qed.

Lemma match_from_spec re text :
  match_from re text = true <-> exists pre rest, text = pre ++ rest /\ matchhere re rest = true.
Proof.
  induction text as [|t text IH]; cbn.
  - rewrite orb_false_r. split; [intros H; by exists [], []|].
    intros (pre & rest & Heq & H). by destruct pre, rest.
  - rewrite orb_true_iff, IH. split.
    + intros [H|(pre & rest & -> & H)]; [by exists [], (t :: text)|by exists (t :: pre), rest].
    + intros (pre & rest & Heq & H). destruct pre as [|t' pre]; cbn in Heq; [by subst; left|].
      injection Heq as <- ->. right. by exists pre, rest.
Qed.

(** ** What the loop prints *)

(** The complete lines of a text that follows [line], and what is left. *)
Fixpoint complete_lines (line text : list Z) : list (list Z) * list Z :=
  match text with
  | [] => ([], line)
  | c :: text =>
      if c =? NL then let '(ls, r) := complete_lines [] text in (line :: ls, r)
      else complete_lines (line ++ [c]) text
  end.

Definition matching (pattern : list Z) (lines : list (list Z)) : list Z :=
  concat ((fun l => l ++ [NL]) <$> filter (fun l => match_ pattern l = true) lines).

Lemma matching_cons pattern l ls :
  matching pattern (l :: ls) = (if match_ pattern l then l ++ [NL] else []) ++ matching pattern ls.
Proof.
  unfold matching. destruct (match_ pattern l) eqn:E; [by rewrite filter_cons_True|].
  by rewrite filter_cons_False by (by rewrite E).
Qed.

Lemma grep_lines_spec pattern p : 0 ∉ p -> forall line,
  grep_lines pattern line p =
    (matching pattern (complete_lines line p).1, bool_decide (NL ∈ p), (complete_lines line p).2).
Proof.
  induction p as [|c p IH]; intros Hp line; cbn [grep_lines complete_lines].
  - by rewrite bool_decide_eq_false_2 by set_solver.
  - apply not_elem_of_cons in Hp as [Hc0 Hp]. specialize (IH Hp). rewrite (proj2 (Z.eqb_neq c 0)) by congruence.
    destruct (Z.eqb_spec c NL) as [->|Hc].
    + rewrite IH. destruct (complete_lines [] p) as [ls r]. cbn [fst snd].
      by rewrite matching_cons, (bool_decide_eq_true_2 (NL ∈ NL :: p)) by set_solver.
    + rewrite IH. f_equal. f_equal. apply bool_decide_ext. set_solver.
Qed.

Lemma complete_lines_app line a b :
  complete_lines line (a ++ b) =
    ((complete_lines line a).1 ++ (complete_lines (complete_lines line a).2 b).1,
     (complete_lines (complete_lines line a).2 b).2).
Proof.
  revert line. induction a as [|c a IH]; intros line; cbn [complete_lines app].
  - apply surjective_pairing.
  - destruct (c =? NL); [|apply IH]. rewrite IH. by destruct (complete_lines [] a).
Qed.

(** Text without a newline extends the line. *)
Lemma complete_lines_no_nl line a : NL ∉ a -> complete_lines line a = ([], line ++ a).
Proof.
  revert line. induction a as [|c a IH]; intros line Hc; cbn; [by rewrite app_nil_r|].
  apply not_elem_of_cons in Hc as [Hc Ha]. rewrite (proj2 (Z.eqb_neq _ _)), IH by congruence.
  by rewrite <- app_assoc.
Qed.

Lemma complete_lines_rest line a : NL ∉ line -> NL ∉ (complete_lines line a).2.
Proof.
  revert line. induction a as [|c a IH]; intros line Hl; cbn; [done|].
  destruct (Z.eqb_spec c NL) as [->|Hc].
  - specialize (IH [] ltac:(set_solver)). by destruct (complete_lines [] a).
  - apply IH. set_solver.
Qed.

Lemma complete_lines_short line a n : Forall (fun l => (length l < n)%nat) (complete_lines line a).1 -> NL ∈ a ->
  (length line < n)%nat.
Proof.
  revert line. induction a as [|c a IH]; intros line Hl Ha; [set_solver|]. cbn [complete_lines] in Hl.
  destruct (Z.eqb_spec c NL) as [->|Hc].
  - destruct (complete_lines [] a). cbn [fst] in Hl. by apply Forall_cons in Hl as [? _].
  - apply elem_of_cons in Ha as [Ha|Ha]; [congruence|]. specialize (IH _ Hl Ha). rewrite length_app in IH. cbn in IH. lia.
Qed.

Lemma complete_lines_rest_length line a : (length (complete_lines line a).2 <= length line + length a)%nat.
Proof.
  revert line. induction a as [|c a IH]; intros line; cbn [complete_lines length snd]; [lia|]. destruct (c =? NL).
  - specialize (IH []). destruct (complete_lines [] a). cbn in *. lia.
  - specialize (IH (line ++ [c])). rewrite length_app in IH. cbn in IH. lia.
Qed.

Lemma complete_lines_rest_elem line a c : c ∈ (complete_lines line a).2 -> c ∈ line ++ a.
Proof.
  revert line. induction a as [|d a IH]; intros line; cbn [complete_lines]; [by rewrite app_nil_r|]. destruct (d =? NL).
  - specialize (IH []). destruct (complete_lines [] a). cbn in *. set_solver.
  - intros H. apply IH in H. by rewrite <- app_assoc in H.
Qed.

Lemma matching_app pattern l k : matching pattern (l ++ k) = matching pattern l ++ matching pattern k.
Proof. unfold matching. by rewrite filter_app, fmap_app, concat_app. Qed.

(** A file without a NUL whose complete lines fit the buffer: [buf] is the
    start of a line, [text] what has not been read. *)
Lemma grep_file pattern fuel : forall buf text, NL ∉ buf -> 0 ∉ buf ++ text -> (length buf < BUF_SIZE)%nat ->
  Forall (fun l => (length l < BUF_SIZE - 1)%nat) (complete_lines buf text).1 -> (length text < fuel)%nat ->
  grep_loop fuel pattern buf (match text with [] => [] | _ => [text] end) = Some (matching pattern (complete_lines buf text).1).
Proof.
  induction fuel as [|fuel IH]; intros buf text Hb H0 Hl Hs Hf; [lia|]. cbn [grep_loop]. set (k := (BUF_SIZE - length buf - 1)%nat).
  destruct text as [|c text]; [done|]. set (t := c :: text) in *. change (match t with [] => [] | _ => [t] end) with [t]. cbn [read].
  destruct (take k t) as [|d l] eqn:El.
  - assert (k = 0%nat) as Hk. { destruct k as [|k']; [done|]. unfold t in El. cbn in El. discriminate. }
    assert (NL ∉ t) as Hn. { intros Hn. pose proof (complete_lines_short _ _ _ Hs Hn). unfold BUF_SIZE in *. lia. }
    by rewrite complete_lines_no_nl.
  - set (q := d :: l) in *. assert (t = q ++ drop k t) as Et by (rewrite <- El; symmetry; apply take_drop).
    assert (length (drop k t) < length t)%nat as Hdl by (rewrite Et at 2; rewrite length_app; subst q; cbn [length]; lia).
    assert (length q <= k)%nat as Hq by (rewrite <- El; rewrite length_take; lia).
    assert (forall l, match drop k t with [] => l | r => r :: l end = match drop k t with [] => [] | _ => [drop k t] end ++ l) as Em by (by destruct (drop k t)).
    rewrite Em, app_nil_r. clear Em. rewrite Et in H0, Hs.
    rewrite !not_elem_of_app in H0. destruct H0 as (H0b & H0q & H0d). rewrite grep_lines_spec by (by rewrite not_elem_of_app).
    rewrite (complete_lines_app [] buf), (complete_lines_no_nl [] buf) by done. cbn [fst snd app].
    assert (complete_lines buf t = complete_lines buf (q ++ drop k t)) as -> by (by rewrite <- Et).
    rewrite complete_lines_app in Hs |- *. cbn [fst] in Hs |- *. apply Forall_app in Hs as [Hs1 Hs2]. rewrite matching_app.
    destruct (decide (NL ∈ q)) as [Hn|Hn].
    + rewrite bool_decide_eq_true_2 by (apply elem_of_app; by right). rewrite IH; [done|by apply complete_lines_rest| | |done|lia].
      * intros Hin. apply elem_of_app in Hin as [Hin|Hin]; [|done]. apply complete_lines_rest_elem, elem_of_app in Hin as [Hin|Hin]; done.
      * pose proof (complete_lines_rest_length buf q). unfold k in Hq. unfold BUF_SIZE in *. lia.
    + rewrite bool_decide_eq_false_2 by (by rewrite not_elem_of_app). rewrite (complete_lines_no_nl buf q Hn) in Hs2 |- *. cbn [fst snd] in Hs2 |- *.
      assert (matching pattern (complete_lines (buf ++ q) (drop k t)).1 = matching pattern (complete_lines [] (drop k t)).1 /\
        Forall (fun l => (length l < BUF_SIZE - 1)%nat) (complete_lines [] (drop k t)).1) as [-> Hs3].
      { destruct (decide (NL ∈ drop k t)) as [Hd|Hd].
        - pose proof (complete_lines_short _ _ _ Hs2 Hd) as Hc. rewrite length_app in Hc. exfalso.
          assert (length q = k) as Eq. { rewrite <- El. apply length_take_le. destruct (decide (k <= length t)%nat); [done|]. rewrite drop_ge in Hd by lia. by apply elem_of_nil in Hd. }
          unfold k, BUF_SIZE in *. lia.
        - rewrite !complete_lines_no_nl by done. by split. }
      rewrite IH; [done|apply not_elem_of_nil|done| |done|lia]. unfold BUF_SIZE. cbn. lia.
Qed.
