(* ===== verification/Sh.v ===== *)
(** * [user/sh.c]: the shell's parser

    A pointer into the command buffer is the text from there up to the
    terminating NUL, so [*ps] is the state of the parser, [q] and [eq] of a
    token are two such suffixes, and [s < es] says that the suffix is not
    empty.  [panic] ends the process.  The nodes that [malloc] returns for
    a command are the constructors of [cmd]. *)

From stdpp Require Import base numbers list strings.
From S2P Require Import Prelude Bytes.
Open Scope Z_scope.

(** A pointer into the buffer. *)
Abbreviation ptr := (list Z).

(** [struct execcmd], [redircmd], [pipecmd], [listcmd] and [backcmd] over a
    type of words.  The parser's words are the pairs [argv[i]], [eargv[i]]
    and [file], [efile]. *)
Inductive cmd (W : Type) :=
  | Exec (argv : list W)
  | Redir (c : cmd W) (file : W) (mode fd : Z)
  | PipeC (left right : cmd W)
  | ListC (left right : cmd W)
  | Back (c : cmd W).
Arguments Exec {W} _.
Arguments Redir {W} _ _ _ _.
Arguments PipeC {W} _ _.
Arguments ListC {W} _ _.
Arguments Back {W} _.

Abbreviation pword := (ptr * ptr)%type.

Definition MAXARGS : nat := 10.
Definition whitespace : list Z := [32; 9; 13; 10; 11].
Definition symbols : list Z := chars "<|>&;()".
Definition LT : Z := 60.
Definition GT : Z := 62.
Definition BAR : Z := 124.
Definition AMP : Z := 38.
Definition SEMI : Z := 59.
Definition LPAR : Z := 40.
Definition RPAR : Z := 41.

(** [strchr(s, c)] as a truth value. *)
Fixpoint strchr (s : list Z) (c : Z) : bool :=
  match s with
  | [] => false
  | x :: s => if x =? c then true else strchr s c
  end.

(** [while(s < es && strchr(whitespace, *s)) s++] and the word loop *)
Fixpoint skip_ws (s : ptr) : ptr :=
  match s with
  | c :: r => if strchr whitespace c then skip_ws r else s
  | [] => []
  end.
Fixpoint skip_word (s : ptr) : ptr :=
  match s with
  | c :: r => if negb (strchr whitespace c) && negb (strchr symbols c) then skip_word r else s
  | [] => []
  end.

(** The [switch] of [gettoken]: the kind of the token at [s], and its
    end. *)
Definition token_at (s : ptr) : Z * ptr :=
  match s with
  | [] => (0, s)
  | c :: r =>
      if (c =? BAR) || (c =? LPAR) || (c =? RPAR) || (c =? SEMI) || (c =? AMP) || (c =? LT) then (c, r)
      else if c =? GT then
        match r with
        | d :: r' => if d =? GT then (43, r') else (c, r)
        | [] => (c, r)
        end
      else (97, skip_word s)
  end.

(** The token's kind, and what is stored through [q] and [eq]. *)
Definition gettoken : M ptr (Z * ptr * ptr) :=
  q ← gets skip_ws;
  let '(ret, eq) := token_at q in
  _ ← modify (fun _ => skip_ws eq);
  mret (ret, q, eq).

Definition peek (toks : list Z) : M ptr bool :=
  _ ← modify skip_ws;
  s ← gets (fun s => s);
  mret (match s with [] => false | c :: _ => strchr toks c end).

Definition O_RDONLY : Z := 0x000.
Definition O_WRONLY : Z := 0x001.
Definition O_CREATE : Z := 0x200.

(** [while(peek(ps, es, [LT; GT]))]: the redirections, the innermost first,
    as [file] and [efile], [mode] and [fd]. *)
Definition redir := (pword * Z * Z)%type.
Fixpoint parseredirs (fuel : nat) : M ptr (list redir) :=
  b ← peek [LT; GT];
  if b : bool then
    match fuel with
    | O => nofuel
    | S k =>
        '(tok, _, _) ← gettoken;
        '(t, q, eq) ← gettoken;
        if negb (t =? 97) then panic "missing file for redirection"
        else
          l ← parseredirs k;
          mret ((if tok =? LT then (q, eq, O_RDONLY, 0)
                 else (q, eq, Z.lor O_WRONLY O_CREATE, 1)) :: l)
    end
  else mret [].

(** [redircmd] applied in turn. *)
Definition add_redirs (c : cmd pword) (l : list redir) : cmd pword :=
  foldl (fun c '(w, mode, fd) => Redir c w mode fd) c l.

(** [while(!peek(ps, es, "|)&;"))]: the arguments and the redirections
    between them, which enclose the node the arguments are stored in. *)
Fixpoint parseargs (fuel argc : nat) : M ptr (list pword * list redir) :=
  b ← peek [BAR; RPAR; AMP; SEMI];
  if b : bool then mret ([], [])
  else
    match fuel with
    | O => nofuel
    | S k =>
        '(tok, q, eq) ← gettoken;
        if tok =? 0 then mret ([], [])
        else if negb (tok =? 97) then panic "syntax"
        else if (MAXARGS <=? S argc)%nat then panic "too many args"
        else
          n ← gets length; l ← parseredirs n;
          '(args, l') ← parseargs k (S argc);
          mret ((q, eq) :: args, l ++ l')
    end.

(** [while(peek(ps, es, "&"))] *)
Fixpoint parsebacks (fuel : nat) (c : cmd pword) : M ptr (cmd pword) :=
  b ← peek [AMP];
  if b : bool then
    match fuel with
    | O => nofuel
    | S k => _ ← gettoken; parsebacks k (Back c)
    end
  else mret c.

Fixpoint parseline (fuel : nat) : M ptr (cmd pword) :=
  match fuel with
  | O => nofuel
  | S k =>
      c ← parsepipe k;
      n ← gets length; c ← parsebacks n c;
      b ← peek [SEMI];
      if b : bool then _ ← gettoken; r ← parseline k; mret (ListC c r) else mret c
  end
with parsepipe (fuel : nat) : M ptr (cmd pword) :=
  match fuel with
  | O => nofuel
  | S k =>
      c ← parseexec k;
      b ← peek [BAR];
      if b : bool then _ ← gettoken; r ← parsepipe k; mret (PipeC c r) else mret c
  end
with parseexec (fuel : nat) : M ptr (cmd pword) :=
  match fuel with
  | O => nofuel
  | S k =>
      b ← peek [LPAR];
      if b : bool then parseblock k
      else
        n ← gets length; l ← parseredirs n;
        n ← gets length; '(args, l') ← parseargs (S n) 0;
        mret (add_redirs (Exec args) (l ++ l'))
  end
with parseblock (fuel : nat) : M ptr (cmd pword) :=
  match fuel with
  | O => nofuel
  | S k =>
      b ← peek [LPAR];
      if negb b then panic "parseblock"
      else
        _ ← gettoken;
        c ← parseline k;
        b ← peek [RPAR];
        if negb b then panic "syntax - missing )"
        else
          _ ← gettoken;
          n ← gets length; l ← parseredirs n;
          mret (add_redirs c l)
  end.

(** [*p = 0] in the buffer that starts at [s]. *)
Definition poke (s : ptr) (buf : list Z) (p : ptr) : list Z := <[(length s - length p)%nat := 0]> buf.
Fixpoint nulterminate (s : ptr) (c : cmd pword) (buf : list Z) : list Z :=
  match c with
  | Exec argv => foldl (fun buf w => poke s buf w.2) buf argv
  | Redir c file _ _ => poke s (nulterminate s c buf) file.2
  | PipeC l r | ListC l r => nulterminate s r (nulterminate s l buf)
  | Back c => nulterminate s c buf
  end.

(** The command and the buffer, with its final NUL, after [nulterminate]. *)
Definition parsecmd (s : ptr) : outcome (cmd pword * list Z) :=
  match parseline (4 * length s + 4) s with
  | Ret (c, p) =>
      match skip_ws p with
      | [] => Ret (c, nulterminate s c (s ++ [0]))
      | _ => Panic "syntax"
      end
  | Panic m => Panic m
  | Fault a => Fault a
  | Blocked => Blocked
  | NoFuel => NoFuel
  end.
