(* ===== verification/ShSpec.v ===== *)
(** * The shell's parser: termination, words, round trip

    The parser always stops; the words it finds lie in the buffer, each
    followed by a character that belongs to no word, so that ending them
    with NULs leaves every word intact; and a command printed with
    parentheses is parsed back. *)

From stdpp Require Import base numbers list strings sets.
From S2P Require Import Prelude Bytes Sh.
Open Scope Z_scope.

(** The words of a command, in the order [nulterminate] ends them. *)
Fixpoint words {W} (c : cmd W) : list W :=
  match c with
  | Exec argv => argv
  | Redir c file _ _ => words c ++ [file]
  | PipeC l r | ListC l r => words l ++ words r
  | Back c => words c
  end.

(** [m] returns a result in [Q] or stops with an error message. *)
Definition ok {A} (m : M ptr A) (s : ptr) (Q : A -> ptr -> Prop) : Prop :=
  match m s with Ret (a, t) => Q a t | Panic _ => True | _ => False end.

Lemma ok_ret {A} (a : A) s (Q : A -> ptr -> Prop) : Q a s -> ok (mret a) s Q.
Proof. done. Qed.
Lemma ok_panic {A} msg s (Q : A -> ptr -> Prop) : ok (panic msg) s Q.
Proof. done. Qed.
Lemma ok_bind {A B} (m : M ptr A) (f : A -> M ptr B) s (P : A -> ptr -> Prop) (Q : B -> ptr -> Prop) :
  ok m s P -> (forall a t, P a t -> ok (f a) t Q) -> ok (m ≫= f) s Q.
Proof.
  unfold ok, mbind, M_bind. intros Hm Hf. destruct (m s) as [[a t]| | | |]; try done. by apply Hf.
Qed.
Lemma ok_gets {A B} (g : ptr -> A) (f : A -> M ptr B) s (Q : B -> ptr -> Prop) :
  ok (f (g s)) s Q -> ok (gets g ≫= f) s Q.
Proof. done. Qed.

(** ** Tokens *)

Definition word_char (c : Z) : bool := negb (strchr whitespace c) && negb (strchr symbols c).

Lemma skip_ws_suffix s : suffix (skip_ws s) s.
Proof.
  induction s as [|c s IH]; cbn [skip_ws]; [done|]. destruct (strchr whitespace c); [|done].
  by apply suffix_cons_r.
Qed.

Lemma skip_word_split s : exists w, s = w ++ skip_word s /\ Forall (fun c => word_char c = true) w /\
  (forall c r, skip_word s = c :: r -> word_char c = false).
Proof.
  induction s as [|c s IH]; cbn [skip_word]; [by exists []|]. fold (word_char c). destruct (word_char c) eqn:E.
  - destruct IH as (w & Hs & Hw & He). exists (c :: w). cbn. rewrite <- Hs. split; [done|]. split; [by constructor|done].
  - exists []. split; [done|]. split; [constructor|]. by intros ? ? [= <- <-].
Qed.

(** The word [w] from its start to its end lies in [s]. *)
Definition word_of (w : pword) : list Z := take (length w.1 - length w.2) w.1.
Record good_word (s : ptr) (w : pword) : Prop := {
  gw_suffix : suffix w.1 s;
  gw_split : w.1 = word_of w ++ w.2;
  gw_ne : word_of w <> [];
  gw_chars : Forall (fun c => word_char c = true) (word_of w);
  gw_end : forall c r, w.2 = c :: r -> word_char c = false }.

Lemma good_word_mono s t w : suffix t s -> good_word t w -> good_word s w.
Proof. intros H [? ? ? ? ?]. split; try done. by etrans. Qed.

Lemma good_word_intro s q w eq : q = w ++ eq -> suffix q s -> w <> [] ->
  Forall (fun c => word_char c = true) w -> (forall c r, eq = c :: r -> word_char c = false) ->
  word_of (q, eq) = w /\ good_word s (q, eq).
Proof.
  intros -> Hs Hne Hw He.
  assert (word_of (w ++ eq, eq) = w) as Hword.
  { unfold word_of. cbn. rewrite length_app, Nat.add_sub. by rewrite take_app_length. }
  split; [done|]. split; rewrite ?Hword; done.
Qed.

(** The characters [gettoken] treats as words are the word characters. *)
Lemma token_word c :
  (c =? BAR) || (c =? LPAR) || (c =? RPAR) || (c =? SEMI) || (c =? AMP) || (c =? LT) = false ->
  (c =? GT) = false -> strchr whitespace c = false -> word_char c = true.
Proof.
  intros H1 H2 Hw. unfold word_char. rewrite Hw. cbn. unfold BAR, LPAR, RPAR, SEMI, AMP, LT, GT in *.
  repeat match goal with |- context [if ?n =? c then _ else _] => rewrite (Z.eqb_sym n c) end.
  repeat match goal with |- context [c =? ?n] => destruct (c =? n) eqn:?; [lia|] end. done.
Qed.

Lemma skip_ws_head s c r : skip_ws s = c :: r -> strchr whitespace c = false.
Proof.
  induction s as [|d s IH]; cbn [skip_ws]; [done|]. destruct (strchr whitespace d) eqn:E; [done|].
  by intros [= -> ->].
Qed.

Definition token_ok (s : ptr) (tok : Z * ptr * ptr) (t : ptr) : Prop :=
  let '(k, q, eq) := tok in
  suffix t s /\ (skip_ws s <> [] -> k <> 0) /\ (k <> 0 -> (length t < length s)%nat) /\ (k = 97 -> good_word s (q, eq)).

Lemma suffix_len (t s : ptr) : suffix t s -> (length t <= length s)%nat.
Proof. apply suffix_length. Qed.

Lemma gettoken_run s :
  gettoken s = Ret (((token_at (skip_ws s)).1, skip_ws s, (token_at (skip_ws s)).2), skip_ws (token_at (skip_ws s)).2).
Proof. unfold gettoken, mbind, M_bind, gets. by destruct (token_at (skip_ws s)). Qed.

Lemma gettoken_ok s : ok gettoken s (token_ok s).
Proof.
  unfold ok. rewrite gettoken_run. unfold token_at. pose proof (skip_ws_suffix s) as Hs.
  destruct (skip_ws s) as [|c r] eqn:E.
  { split; [exact Hs|]. split; [by rewrite E|done]. }
  assert (length r < length s)%nat as Hlt by (apply suffix_len in Hs; cbn in Hs; lia).
  assert (forall t, suffix t r -> suffix t s /\ (length t < length s)%nat) as Hsub.
  { intros t Ht. pose proof (suffix_len _ _ Ht). split; [|lia].
    etrans; [exact Ht|]. etrans; [|exact Hs]. by apply suffix_cons_r. }
  destruct ((c =? BAR) || (c =? LPAR) || (c =? RPAR) || (c =? SEMI) || (c =? AMP) || (c =? LT)) eqn:E1.
  { destruct (Hsub (skip_ws r) (skip_ws_suffix r)). unfold token_ok. unfold BAR, LPAR, RPAR, SEMI, AMP, LT in E1. cbn [fst snd].
    split; [done|]. split; [lia|]. split; [done|lia]. }
  destruct (c =? GT) eqn:E2.
  { unfold GT in E2. destruct r as [|d r'].
    { destruct (Hsub (skip_ws []) (skip_ws_suffix _)). cbn [fst snd]. split; [done|]. split; [lia|]. split; [done|lia]. }
    destruct (d =? GT).
    - assert (suffix (skip_ws r') (d :: r')) as Hr by (apply suffix_cons_r, skip_ws_suffix).
      destruct (Hsub _ Hr). by split.
    - destruct (Hsub (skip_ws (d :: r')) (skip_ws_suffix _)). cbn [fst snd]. split; [done|]. split; [lia|]. split; [done|lia]. }
  destruct (skip_word_split (c :: r)) as (w & Hw & Hch & He).
  pose proof (token_word c E1 E2 (skip_ws_head _ _ _ E)) as Hc.
  assert (skip_word (c :: r) = skip_word r) as Hr.
  { cbn [skip_word]. fold (word_char c). by rewrite Hc. }
  assert (suffix (skip_ws (skip_word (c :: r))) r) as Hx.
  { etrans; [apply skip_ws_suffix|]. rewrite Hr. destruct (skip_word_split r) as (w' & Hw' & _). exists w'. done. }
  destruct (Hsub _ Hx) as [Hs1 Hl1].
  split; [exact Hs1|]. split; [done|]. split; [by intros _|]. intros _.
  eapply (good_word_intro s (c :: r) w); [exact Hw|exact Hs| |exact Hch|exact He].
  intros ->. rewrite Hr in Hw. apply (f_equal length) in Hw. destruct (skip_word_split r) as (w' & Hw' & _).
  apply (f_equal length) in Hw'. rewrite length_app in Hw'. cbn in Hw. lia.
Qed.

Lemma skip_ws_idem s : skip_ws (skip_ws s) = skip_ws s.
Proof.
  destruct (skip_ws s) as [|c r] eqn:E; [done|]. cbn [skip_ws]. by rewrite (skip_ws_head _ _ _ E).
Qed.

(** After a successful [peek] there is a token. *)
Lemma peek_ok toks s : ok (peek toks) s (fun b t => suffix t s /\ (b = true -> skip_ws t <> [])).
Proof.
  unfold peek, ok. cbn. split; [apply skip_ws_suffix|]. rewrite skip_ws_idem. by destruct (skip_ws s).
Qed.

(** ** Redirections, arguments, background *)

Definition good_words (s : ptr) (l : list pword) : Prop := Forall (good_word s) l.

Lemma good_words_mono s t l : suffix t s -> good_words t l -> good_words s l.
Proof. intros H Hl. eapply Forall_impl; [exact Hl|]. intros w. by apply good_word_mono. Qed.

Ltac suf := repeat match goal with
  | H : suffix ?a ?b |- suffix ?a ?b => exact H
  | H : suffix ?a ?b |- suffix ?a ?c => etrans; [exact H|]
  end; done.
Ltac shorter := repeat match goal with
  | H : suffix _ _ |- _ => apply suffix_len in H
  end; cbn in *; lia.

Lemma parseredirs_ok k : forall s, (length s <= k)%nat ->
  ok (parseredirs k) s (fun l t => suffix t s /\ good_words s (l.*1.*1)).
Proof.
  induction k as [|k IH]; intros s Hk; cbn [parseredirs].
  all: eapply ok_bind; [apply peek_ok|]; intros [] s1 [Hs1 Hne]; [|apply ok_ret; by split; [|constructor]].
  { specialize (Hne eq_refl). apply suffix_len in Hs1. destruct s1; cbn in *; [done|lia]. }
  eapply ok_bind; [apply gettoken_ok|]. intros [[tok q0] eq0] s2 (Hs2 & Hk2 & Hl2 & _).
  specialize (Hl2 (Hk2 (Hne eq_refl))).
  eapply ok_bind; [apply gettoken_ok|]. intros [[t q] eq] s3 (Hs3 & _ & _ & Hw3).
  destruct (Z.eqb_spec t 97) as [->|Ht]; cbn [negb]; [|apply ok_panic].
  eapply ok_bind; [apply IH; shorter|]. intros l s4 [Hs4 Hl4]. apply ok_ret.
  split; [suf|]. cbn. replace ((if tok =? LT then _ else _).1.1) with (q, eq) by (by destruct (tok =? LT)).
  constructor; [|eapply good_words_mono; [|exact Hl4]; suf].
  eapply good_word_mono; [|by apply Hw3]. suf.
Qed.

Lemma parseargs_ok k : forall argc s, (length s < k)%nat ->
  ok (parseargs k argc) s (fun r t => suffix t s /\ good_words s (r.1 ++ r.2.*1.*1)).
Proof.
  induction k as [|k IH]; intros argc s Hk; cbn [parseargs]; [lia|].
  eapply ok_bind; [apply peek_ok|]. intros [] s1 [Hs1 _]; [apply ok_ret; by split; [|constructor]|].
  eapply ok_bind; [apply gettoken_ok|]. intros [[tok q] eq] s2 (Hs2 & _ & Hl2 & Hw2).
  destruct (Z.eqb_spec tok 0) as [->|Ht]; [apply ok_ret; split; [suf|constructor]|].
  destruct (Z.eqb_spec tok 97) as [->|Hw]; cbn [negb]; [|apply ok_panic].
  destruct (MAXARGS <=? S argc)%nat; [apply ok_panic|]. apply ok_gets. specialize (Hl2 Ht).
  eapply ok_bind; [by apply parseredirs_ok|]. intros l s3 [Hs3 Hl3].
  eapply ok_bind; [apply IH; shorter|]. intros [args l'] s4 [Hs4 Hl4]. apply ok_ret. cbn in Hl4.
  apply Forall_app in Hl4 as [Ha Hl']. split; [suf|]. cbn. rewrite !fmap_app.
  constructor; [eapply good_word_mono; [|by apply Hw2]; suf|].
  apply Forall_app_2; [|apply Forall_app_2].
  - eapply good_words_mono; [|exact Ha]. suf.
  - eapply good_words_mono; [|exact Hl3]. suf.
  - eapply good_words_mono; [|exact Hl']. suf.
Qed.

Lemma parsebacks_ok k : forall c s, (length s <= k)%nat ->
  ok (parsebacks k c) s (fun c' t => suffix t s /\ words c' = words c).
Proof.
  induction k as [|k IH]; intros c s Hk; cbn [parsebacks].
  all: eapply ok_bind; [apply peek_ok|]; intros [] s1 [Hs1 Hne]; [|by apply ok_ret].
  { specialize (Hne eq_refl). apply suffix_len in Hs1. destruct s1; cbn in *; [done|lia]. }
  eapply ok_bind; [apply gettoken_ok|]. intros [[tok q0] eq0] s2 (Hs2 & Hk2 & Hl2 & _).
  specialize (Hl2 (Hk2 (Hne eq_refl))).
  unfold ok. pose proof (IH (Back c) s2 ltac:(shorter)) as H. unfold ok in H.
  destruct (parsebacks k (Back c) s2) as [[c' t]| | | |]; try done. destruct H as [H1 H2]. split; [suf|done].
Qed.

Lemma words_add_redirs c l : words (add_redirs c l) = words c ++ l.*1.*1.
Proof.
  revert c. induction l as [|[[w m] fd] l IH]; intros c; cbn; [by rewrite app_nil_r|].
  unfold add_redirs in IH. rewrite IH. cbn. by rewrite <- app_assoc.
Qed.

(** ** The recursive part *)

Definition parsed (s : ptr) (c : cmd pword) (t : ptr) : Prop := suffix t s /\ good_words s (words c).

Lemma parsed_mono s t c u : suffix t s -> parsed t c u -> parsed s c u.
Proof. intros H [H1 H2]. split; [suf|by eapply good_words_mono]. Qed.

Lemma parse_ok n : forall s,
  ((4 * length s + 4 <= n)%nat -> ok (parseline n) s (parsed s)) /\
  ((4 * length s + 3 <= n)%nat -> ok (parsepipe n) s (parsed s)) /\
  ((4 * length s + 2 <= n)%nat -> ok (parseexec n) s (parsed s)) /\
  ((4 * length s + 1 <= n)%nat -> skip_ws s <> [] -> ok (parseblock n) s (parsed s)).
Proof.
  induction n as [|n IH]; intros s; (repeat split); intros Hn; try lia.
  - cbn [parseline]. eapply ok_bind; [apply IH; lia|]. intros c s1 [Hs1 Hc]. apply ok_gets.
    eapply ok_bind; [by apply parsebacks_ok|]. intros c2 s2 [Hs2 Hc2].
    eapply ok_bind; [apply peek_ok|]. intros [] s3 [Hs3 Hne]; [|apply ok_ret; split; [suf|by rewrite Hc2]].
    eapply ok_bind; [apply gettoken_ok|]. intros [[tok q0] eq0] s4 (Hs4 & Hk4 & Hl4 & _).
    specialize (Hl4 (Hk4 (Hne eq_refl))).
    eapply ok_bind; [apply IH; shorter|]. intros r s5 [Hs5 Hr]. apply ok_ret.
    split; [suf|]. cbn. rewrite Hc2. apply Forall_app_2; [done|]. eapply good_words_mono; [|exact Hr]. suf.
  - cbn [parsepipe]. eapply ok_bind; [apply IH; lia|]. intros c s1 [Hs1 Hc].
    eapply ok_bind; [apply peek_ok|]. intros [] s3 [Hs3 Hne]; [|apply ok_ret; split; [suf|done]].
    eapply ok_bind; [apply gettoken_ok|]. intros [[tok q0] eq0] s4 (Hs4 & Hk4 & Hl4 & _).
    specialize (Hl4 (Hk4 (Hne eq_refl))).
    eapply ok_bind; [apply IH; shorter|]. intros r s5 [Hs5 Hr]. apply ok_ret.
    split; [suf|]. cbn. apply Forall_app_2; [done|]. eapply good_words_mono; [|exact Hr]. suf.
  - cbn [parseexec]. eapply ok_bind; [apply peek_ok|]. intros [] s1 [Hs1 Hne].
    { pose proof (suffix_len _ _ Hs1). specialize (IH s1) as (_ & _ & _ & IH).
      specialize (IH ltac:(lia) (Hne eq_refl)). unfold ok in *.
      destruct (parseblock n s1) as [[c t]| | | |]; try done. by eapply parsed_mono. }
    apply ok_gets. eapply ok_bind; [by apply parseredirs_ok|]. intros l s2 [Hs2 Hl].
    apply ok_gets. eapply ok_bind; [apply parseargs_ok; lia|]. intros [args l'] s3 [Hs3 Ha]. apply ok_ret.
    cbn in Ha. apply Forall_app in Ha as [Ha Hl']. split; [suf|]. rewrite words_add_redirs, !fmap_app. cbn.
    apply Forall_app_2; [|apply Forall_app_2].
    + eapply good_words_mono; [|exact Ha]. suf.
    + eapply good_words_mono; [|exact Hl]. suf.
    + eapply good_words_mono; [|exact Hl']. suf.
  - intros Hs. cbn [parseblock]. eapply ok_bind; [apply peek_ok|]. intros [] s1 [Hs1 Hne]; cbn [negb]; [|apply ok_panic].
    eapply ok_bind; [apply gettoken_ok|]. intros [[tok q0] eq0] s2 (Hs2 & Hk2 & Hl2 & _).
    specialize (Hl2 (Hk2 (Hne eq_refl))).
    eapply ok_bind; [apply IH; shorter|]. intros c s3 [Hs3 Hc].
    eapply ok_bind; [apply peek_ok|]. intros [] s4 [Hs4 _]; cbn [negb]; [|apply ok_panic].
    eapply ok_bind; [apply gettoken_ok|]. intros [[tok' q'] eq'] s5 (Hs5 & _).
    apply ok_gets. eapply ok_bind; [by apply parseredirs_ok|]. intros l s6 [Hs6 Hl]. apply ok_ret.
    split; [suf|]. rewrite words_add_redirs. apply Forall_app_2.
    + eapply good_words_mono; [|exact Hc]. suf.
    + eapply good_words_mono; [|exact Hl]. suf.
Qed.

(** The parser stops, and what it returns is made of words of the buffer. *)
Lemma parsecmd_ok s :
  match parsecmd s with
  | Ret (c, buf) => good_words s (words c) /\ buf = nulterminate s c (s ++ [0])
  | Panic _ => True
  | _ => False
  end.
Proof.
  unfold parsecmd. destruct (parse_ok (4 * length s + 4) s) as [H _]. specialize (H ltac:(lia)). unfold ok in H.
  destruct (parseline _ s) as [[c t]| | | |]; try done. destruct H as [_ Hw]. by destruct (skip_ws t).
Qed.

(** ** Ending the words *)

(** The C string at the start of [buf]. *)
Fixpoint cstring (buf : list Z) : list Z :=
  match buf with
  | [] => []
  | c :: buf => if c =? 0 then [] else c :: cstring buf
  end.

Lemma cstring_app w r : Forall (fun c => c <> 0) w -> cstring (w ++ 0 :: r) = w.
Proof.
  induction 1 as [|c w Hc _ IH]; cbn; [done|]. by rewrite (proj2 (Z.eqb_neq _ _) Hc), IH.
Qed.

(** The index a pointer stands for. *)
Definition index (s p : ptr) : nat := (length s - length p).

Lemma pokes_lookup s (ws : list pword) : forall buf i,
  foldl (fun buf w => poke s buf w.2) buf ws !! i =
    if bool_decide (i ∈ (fun w => index s w.2) <$> ws) then (if bool_decide (i < length buf)%nat then Some 0 else None)
    else buf !! i.
Proof.
  induction ws as [|w ws IH]; intros buf i; cbn [foldl].
  - cbn. by rewrite bool_decide_eq_false_2 by set_solver.
  - rewrite IH, (bool_decide_ext (i < length (poke s buf w.2))%nat (i < length buf)%nat)
      by (unfold poke; by rewrite length_insert).
    cbn [fmap list_fmap].
    destruct (decide (i ∈ (fun w => index s w.2) <$> ws)) as [H|H].
    + by rewrite (bool_decide_eq_true_2 _ H), (bool_decide_eq_true_2 (i ∈ _ :: _)) by set_solver.
    + rewrite (bool_decide_eq_false_2 _ H). unfold poke. fold (index s w.2).
      destruct (decide (i = index s w.2)) as [->|Hi].
      * rewrite (bool_decide_eq_true_2 (_ ∈ _ :: _)) by set_solver.
        destruct (decide (index s w.2 < length buf)%nat) as [Hlt|Hlt].
        -- by rewrite list_lookup_insert_eq, bool_decide_eq_true_2.
        -- rewrite bool_decide_eq_false_2 by done. apply lookup_ge_None. rewrite length_insert. lia.
      * rewrite (bool_decide_eq_false_2 (_ ∈ _ :: _)) by set_solver. by rewrite list_lookup_insert_ne by done.
Qed.

Lemma suffix_lookup (p s : ptr) j : suffix p s -> s !! (index s p + j)%nat = p !! j.
Proof.
  intros [k ->]. unfold index. rewrite length_app, Nat.add_sub, lookup_app_r by lia. f_equal. lia.
Qed.

(** The end of a word is not inside a word. *)
Lemma word_end_outside s w w' j c : good_word s w -> good_word s w' ->
  word_of w !! j = Some c -> index s w'.2 <> (index s w.1 + j)%nat.
Proof.
  intros [Hsuf Hsp Hne Hch Hend] [Hsuf' Hsp' Hne' Hch' Hend'] Hj Heq.
  assert (w.1 !! j = Some c) as Hw by (rewrite Hsp; by apply lookup_app_l_Some).
  assert (word_char c = true) as Hc by exact (Forall_lookup_1 _ _ _ _ Hch Hj).
  assert (suffix w'.2 s) as Hs2 by (etrans; [|exact Hsuf']; exists (word_of w'); exact Hsp').
  rewrite <- (suffix_lookup _ s j Hsuf), <- Heq in Hw.
  replace (index s w'.2) with (index s w'.2 + 0)%nat in Hw by lia. rewrite (suffix_lookup _ s 0 Hs2) in Hw.
  destruct w'.2 as [|d r] eqn:E; [done|]. injection Hw as ->. by rewrite (Hend' c r eq_refl) in Hc.
Qed.

Lemma nulterminate_words s c : forall buf, nulterminate s c buf = foldl (fun buf w => poke s buf w.2) buf (words c).
Proof.
  induction c as [argv|c IH file mode fd|l IHl r IHr|l IHl r IHr|c IH]; intros buf; cbn [nulterminate words];
    rewrite ?foldl_app, ?IHr, ?IHl, ?IH; done.
Qed.

Lemma nulterminate_word s (ws : list pword) w : good_words s ws -> w ∈ ws -> Forall (fun c => c <> 0) s ->
  cstring (drop (index s w.1) (foldl (fun buf w => poke s buf w.2) (s ++ [0]) ws)) = word_of w.
Proof.
  intros Hws Hin Hz. set (buf := foldl _ _ _).
  pose proof (proj1 (Forall_forall _ _) Hws w Hin) as Hw. destruct (Hw) as [Hsuf Hsp Hne Hch Hend].
  assert (Forall (fun c => c <> 0) (word_of w)) as Hwz.
  { destruct Hsuf as [k Hk]. rewrite Hk, Hsp in Hz. by apply Forall_app in Hz as [_ [Hz _]%Forall_app]. }
  assert (length w.1 <= length s)%nat as Hl1 by (by apply suffix_len).
  assert (length w.1 = length (word_of w) + length w.2)%nat as Hl2 by (rewrite Hsp at 1; by rewrite length_app).
  assert (length buf = S (length s)) as Hlen.
  { unfold buf. clear. generalize (s ++ [0]) as b, (length_app s [0]) as Hb. intros b Hb. cbn in Hb.
    replace (S (length s)) with (length b) by lia. clear Hb. revert b.
    induction ws as [|x ws IH]; intros b; cbn; [done|]. rewrite IH. apply length_insert. }
  assert (drop (index s w.1) buf = word_of w ++ 0 :: drop (S (index s w.2)) buf) as ->; [|by apply cstring_app].
  apply list_eq. intros j. rewrite lookup_drop.
  destruct (decide (j < length (word_of w))%nat) as [Hj|Hj].
  - rewrite lookup_app_l by done. destruct (lookup_lt_is_Some_2 _ _ Hj) as [c Hc]. unfold buf. rewrite pokes_lookup.
    rewrite bool_decide_eq_false_2.
    + rewrite lookup_app_l by (unfold index; lia). rewrite (suffix_lookup _ s j Hsuf), Hsp. by rewrite lookup_app_l by done.
    + intros (w' & Heq & Hw')%list_elem_of_fmap. symmetry in Heq. revert Heq.
      eapply word_end_outside; [done| |done]. exact (proj1 (Forall_forall _ _) Hws w' Hw').
  - rewrite lookup_app_r by lia. destruct (j - length (word_of w))%nat as [|j'] eqn:Ej.
    + unfold buf. rewrite pokes_lookup. rewrite bool_decide_eq_true_2.
      * rewrite bool_decide_eq_true_2; [done|]. rewrite length_app. cbn. unfold index. lia.
      * apply list_elem_of_fmap. exists w. split; [unfold index; lia|done].
    + change ((0 :: drop (S (index s w.2)) buf) !! S j') with (drop (S (index s w.2)) buf !! j').
      rewrite lookup_drop. f_equal. unfold index. lia.
Qed.

(** ** Printing a command and parsing it back *)

Fixpoint cmd_map {V W} (f : V -> W) (c : cmd V) : cmd W :=
  match c with
  | Exec argv => Exec (f <$> argv)
  | Redir c file mode fd => Redir (cmd_map f c) (f file) mode fd
  | PipeC l r => PipeC (cmd_map f l) (cmd_map f r)
  | ListC l r => ListC (cmd_map f l) (cmd_map f r)
  | Back c => Back (cmd_map f c)
  end.

Definition paren (l : list Z) : list Z := LPAR :: l ++ [RPAR].

Fixpoint show (c : cmd (list Z)) : list Z :=
  match c with
  | Exec argv => concat ((fun w => w ++ [32]) <$> argv)
  | Redir c file mode fd => paren (show c) ++ (if mode =? O_RDONLY then LT else GT) :: file
  | PipeC l r => paren (show l) ++ BAR :: paren (show r)
  | ListC l r => paren (show l) ++ SEMI :: paren (show r)
  | Back c => paren (show c) ++ [AMP]
  end.

(** The commands the shell has: words of word characters, at most nine
    arguments, and the two kinds of redirection. *)
Definition wf_word (w : list Z) : Prop := w <> [] /\ Forall (fun c => word_char c = true) w.
Fixpoint wf_cmd (c : cmd (list Z)) : Prop :=
  match c with
  | Exec argv => Forall wf_word argv /\ (length argv < MAXARGS)%nat
  | Redir c file mode fd => wf_cmd c /\ wf_word file /\
      ((mode = O_RDONLY /\ fd = 0) \/ (mode = Z.lor O_WRONLY O_CREATE /\ fd = 1))
  | PipeC l r | ListC l r => wf_cmd l /\ wf_cmd r
  | Back c => wf_cmd c
  end.

(** No white space ahead. *)
Definition tight (s : ptr) : Prop := skip_ws s = s.
(** The text ahead is a symbol other than the redirections, or the end. *)
Definition stops (s : ptr) : Prop :=
  match s with [] => True | c :: _ => word_char c = false /\ strchr whitespace c = false /\ strchr [LT; GT] c = false end.
(** The text ahead is a closing parenthesis or the end. *)
Definition closes (s : ptr) : Prop := match s with [] => True | c :: _ => c = RPAR end.

Lemma closes_stops s : closes s -> stops s.
Proof. destruct s as [|c s]; [done|]. by intros ->. Qed.
Lemma stops_tight s : stops s -> tight s.
Proof. destruct s as [|c s]; [done|]. intros (_ & H & _). unfold tight. cbn [skip_ws]. by rewrite H. Qed.
Lemma tight_cons c s : strchr whitespace c = false -> tight (c :: s).
Proof. intros H. unfold tight. cbn [skip_ws]. by rewrite H. Qed.
Lemma word_char_ws c : word_char c = true -> strchr whitespace c = false.
Proof. unfold word_char. by destruct (strchr whitespace c). Qed.
Lemma word_char_sym c : word_char c = true -> strchr symbols c = false.
Proof. unfold word_char. destruct (strchr whitespace c); [done|]. by destruct (strchr symbols c). Qed.
Lemma tight_word w s : wf_word w -> tight (w ++ s).
Proof.
  intros [Hne Hw]. destruct w as [|c w]; [done|]. apply Forall_cons in Hw as [Hc _].
  by apply tight_cons, word_char_ws.
Qed.

Lemma peek_run toks s : tight s -> peek toks s = Ret (match s with [] => false | c :: _ => strchr toks c end, s).
Proof. unfold peek, tight, mbind, M_bind, modify, gets, mret, M_ret. intros H. by rewrite H. Qed.

Lemma gettoken_sym c r : c ∈ [BAR; LPAR; RPAR; SEMI; AMP; LT] ->
  gettoken (c :: r) = Ret ((c, c :: r, r), skip_ws r).
Proof. intros H. rewrite !elem_of_cons in H. destruct H as [->|[->|[->|[->|[->|[->|H]]]]]]; try done. by apply elem_of_nil in H. Qed.

Lemma skip_word_app w r : Forall (fun c => word_char c = true) w ->
  (forall c r', r = c :: r' -> word_char c = false) -> skip_word (w ++ r) = r.
Proof.
  intros Hw Hr. induction Hw as [|c w Hc _ IH]; cbn [app].
  - destruct r as [|c r]; [done|]. cbn [skip_word]. fold (word_char c). by rewrite (Hr c r eq_refl).
  - cbn [skip_word]. fold (word_char c). by rewrite Hc.
Qed.

Lemma word_char_token c : word_char c = true ->
  (c =? BAR) || (c =? LPAR) || (c =? RPAR) || (c =? SEMI) || (c =? AMP) || (c =? LT) = false /\ (c =? GT) = false.
Proof.
  intros H%word_char_sym. revert H. unfold symbols. cbn. unfold BAR, LPAR, RPAR, SEMI, AMP, LT, GT.
  repeat match goal with |- context [if ?a =? c then _ else _] => destruct (Z.eqb_spec a c); [done|] end. lia.
Qed.

Lemma gettoken_word w r : wf_word w -> (forall c r', r = c :: r' -> word_char c = false) ->
  gettoken (w ++ r) = Ret ((97, w ++ r, r), skip_ws r) /\ word_of (w ++ r, r) = w.
Proof.
  intros Hwf Hr. pose proof Hwf as [Hne Hw]. split.
  - rewrite gettoken_run. pose proof (tight_word w r Hwf) as Ht. unfold tight in Ht. rewrite Ht.
    destruct w as [|c w]; [done|]. unfold token_at. cbn [app]. pose proof Hw as [Hc _]%Forall_cons.
    destruct (word_char_token c Hc) as [-> ->]. change (c :: w ++ r) with ((c :: w) ++ r).
    by rewrite (skip_word_app (c :: w) r Hw Hr).
  - unfold word_of. cbn. by rewrite length_app, Nat.add_sub, take_app_length.
Qed.

Lemma parseredirs_none k s : tight s -> match s with [] => True | c :: _ => strchr [LT; GT] c = false end ->
  parseredirs k s = Ret ([], s).
Proof.
  intros Ht Hh. destruct k; cbn [parseredirs]; rewrite (run_bind _ _ _ _ _ (peek_run _ _ Ht)); destruct s as [|c s]; try done; by rewrite Hh.
Qed.

Lemma strchr_word toks c : word_char c = true -> Forall (fun t => strchr symbols t = true) toks -> strchr toks c = false.
Proof.
  intros Hc%word_char_sym Ht. induction Ht as [|t toks Hst _ IH]; cbn; [done|].
  destruct (Z.eqb_spec t c) as [->|]; [by rewrite Hc in Hst|done].
Qed.

(** The text of a command never starts with white space. *)
Lemma tight_show c post : wf_cmd c -> tight post -> tight (show c ++ post).
Proof.
  intros Hc Hp. destruct c as [argv| | | |]; try (by apply tight_cons).
  destruct argv as [|w argv]; [done|]. cbn in *. destruct Hc as [[Hw _]%Forall_cons _].
  rewrite <- !app_assoc. by apply tight_word.
Qed.

(** ** The parts of the grammar *)

Lemma peek_word toks w r : wf_word w -> Forall (fun t => strchr symbols t = true) toks ->
  peek toks (w ++ r) = Ret (false, w ++ r).
Proof.
  intros Hw Ht. rewrite peek_run by (by apply tight_word). destruct Hw as [Hne Hw].
  destruct w as [|c w]; [done|]. apply Forall_cons in Hw as [Hc _]. cbn [app]. by rewrite strchr_word.
Qed.

Lemma peek_stops toks s : stops s -> peek toks s = Ret (match s with [] => false | c :: _ => strchr toks c end, s).
Proof. intros H. apply peek_run. by apply stops_tight. Qed.

Lemma parseredirs_stops k s : stops s -> parseredirs k s = Ret ([], s).
Proof. intros H. apply parseredirs_none; [by apply stops_tight|]. destruct s as [|c s]; [done|]. apply H. Qed.

(** What follows the first words of a command. *)
Lemma parseredirs_words k argv post : Forall wf_word argv -> closes post ->
  parseredirs k (show (Exec argv) ++ post) = Ret ([], show (Exec argv) ++ post).
Proof.
  intros Hw Hp. destruct argv as [|w argv]; [by apply parseredirs_stops, closes_stops|].
  apply Forall_cons in Hw as [Hw _]. cbn. rewrite <- !app_assoc. apply parseredirs_none; [by apply tight_word|].
  destruct Hw as [Hne Hw]. destruct w as [|c w]; [done|]. apply Forall_cons in Hw as [Hc _]. by apply strchr_word; [|repeat constructor].
Qed.

Lemma parseargs_run argv : forall k argc post, (length argv < k)%nat -> (length argv + argc < MAXARGS)%nat ->
  Forall wf_word argv -> closes post ->
  exists ws, parseargs k argc (show (Exec argv) ++ post) = Ret ((ws, []), post) /\ word_of <$> ws = argv.
Proof.
  induction argv as [|w argv IH]; intros k argc post Hk Ha Hw Hp; (destruct k as [|k]; [cbn in Hk; lia|]); cbn [parseargs].
  - exists []. split; [|done]. cbn [show fmap list_fmap concat app].
    rewrite (run_bind _ _ _ _ _ (peek_stops _ _ (closes_stops _ Hp))).
    destruct post as [|c post]; [done|]. cbn in Hp. by subst.
  - apply Forall_cons in Hw as [Hw Hws]. cbn [show fmap list_fmap concat].
    change (concat (_ <$> argv)) with (show (Exec argv)). rewrite <- !app_assoc. cbn [app].
    rewrite (run_bind _ _ _ _ _ (peek_word [BAR; RPAR; AMP; SEMI] _ _ Hw ltac:(by repeat constructor))).
    destruct (gettoken_word w (32 :: show (Exec argv) ++ post) Hw) as [Hg Hwo]; [by intros ? ? [= <- _]|].
    rewrite (run_bind _ _ _ _ _ Hg). cbn [Z.eqb negb]. change (skip_ws (32 :: ?l)) with (skip_ws l).
    assert (tight (show (Exec argv) ++ post)) as Ht.
    { apply tight_show; [cbn in *; split; [done|lia]|by apply stops_tight, closes_stops]. }
    unfold tight in Ht. rewrite Ht. cbn [Pos.eqb].
    rewrite (proj2 (Nat.leb_gt _ _)) by (cbn in Ha; lia). cbn [negb].
    rewrite (run_bind (gets length) _ _ _ _ eq_refl).
    rewrite (run_bind _ _ _ _ _ (parseredirs_words _ argv post Hws Hp)).
    destruct (IH k (S argc) post) as (ws & Hrun & Hmap); [cbn in Hk; lia|cbn in Ha; lia|done|done|].
    rewrite (run_bind _ _ _ _ _ Hrun). exists ((w ++ 32 :: show (Exec argv) ++ post, 32 :: show (Exec argv) ++ post) :: ws).
    split; [done|]. cbn [fmap list_fmap]. by rewrite Hwo, Hmap.
Qed.

Definition parses (c : cmd (list Z)) : Prop := forall n post, closes post ->
  (4 * length (show c ++ post) + 4 <= n)%nat ->
  exists c', parseline n (show c ++ post) = Ret (c', post) /\ cmd_map word_of c' = c.

Lemma paren_app l post : paren l ++ post = LPAR :: l ++ RPAR :: post.
Proof. unfold paren. cbn. by rewrite <- app_assoc. Qed.

(** A parenthesised command and the redirections after it. *)
Lemma block_run c n post l rest : wf_cmd c -> parses c -> tight post ->
  parseredirs (length post) post = Ret (l, rest) ->
  (4 * length (paren (show c) ++ post) + 2 <= n)%nat ->
  exists c', parseexec n (paren (show c) ++ post) = Ret (add_redirs c' l, rest) /\ cmd_map word_of c' = c.
Proof.
  intros Hwf Hc Ht Hl Hn. rewrite paren_app in *. cbn [length] in Hn.
  destruct n as [|[|n]]; [lia|lia|]. cbn [parseexec parseblock].
  rewrite (run_bind _ _ _ _ _ (peek_run [LPAR] (LPAR :: _) (tight_cons LPAR _ eq_refl))). cbn [strchr LPAR Z.eqb Pos.eqb].
  rewrite (run_bind _ _ _ _ _ (peek_run [LPAR] (LPAR :: _) (tight_cons LPAR _ eq_refl))). cbn [strchr LPAR Z.eqb Pos.eqb negb].
  rewrite (run_bind _ _ _ _ _ (gettoken_sym LPAR _ ltac:(set_solver))).
  assert (skip_ws (show c ++ RPAR :: post) = show c ++ RPAR :: post) as -> by (by apply tight_show; [|apply tight_cons]).
  destruct (Hc n (RPAR :: post)) as (c' & Hrun & Hmap); [done|lia|].
  rewrite (run_bind _ _ _ _ _ Hrun).
  rewrite (run_bind _ _ _ _ _ (peek_run [RPAR] (RPAR :: _) (tight_cons RPAR _ eq_refl))). cbn [strchr RPAR Z.eqb Pos.eqb negb].
  rewrite (run_bind _ _ _ _ _ (gettoken_sym RPAR _ ltac:(set_solver))). unfold tight in Ht. rewrite Ht.
  rewrite (run_bind (gets length) _ _ _ _ eq_refl), (run_bind _ _ _ _ _ Hl). by exists c'.
Qed.

Lemma block_stops c n post : wf_cmd c -> parses c -> stops post ->
  (4 * length (paren (show c) ++ post) + 2 <= n)%nat ->
  exists c', parseexec n (paren (show c) ++ post) = Ret (c', post) /\ cmd_map word_of c' = c.
Proof.
  intros Hwf Hc Hp Hn. by apply (block_run c n post []); [| |apply stops_tight|apply parseredirs_stops|].
Qed.

(** The text ahead starts with none of [toks]. *)
Definition not_ahead (toks : list Z) (s : ptr) : Prop := match s with [] => True | c :: _ => strchr toks c = false end.

Lemma peek_not toks s : stops s -> not_ahead toks s -> peek toks s = Ret (false, s).
Proof. intros Hs Hn. rewrite peek_stops by done. destruct s as [|c s]; [done|]. cbn in Hn. by rewrite Hn. Qed.

Lemma closes_not toks s : closes s -> strchr toks RPAR = false -> not_ahead toks s.
Proof. destruct s as [|c s]; [done|]. by intros ->. Qed.

Lemma parsebacks_none k c s : stops s -> not_ahead [AMP] s -> parsebacks k c s = Ret (c, s).
Proof. intros Hs Hn. destruct k; cbn [parsebacks]; by rewrite (run_bind _ _ _ _ _ (peek_not _ _ Hs Hn)). Qed.

Lemma pipe_of_exec n s c post : stops post -> not_ahead [BAR] post -> parseexec n s = Ret (c, post) ->
  parsepipe (S n) s = Ret (c, post).
Proof.
  intros Hs Hn Hrun. cbn [parsepipe]. by rewrite (run_bind _ _ _ _ _ Hrun), (run_bind _ _ _ _ _ (peek_not _ _ Hs Hn)).
Qed.

Lemma line_of_pipe n s c post : closes post -> parsepipe n s = Ret (c, post) -> parseline (S n) s = Ret (c, post).
Proof.
  intros Hp Hrun. pose proof (closes_stops _ Hp) as Hst. cbn [parseline].
  rewrite (run_bind _ _ _ _ _ Hrun), (run_bind (gets length) _ _ _ _ eq_refl).
  rewrite (run_bind _ _ _ _ _ (parsebacks_none _ _ _ Hst (closes_not [AMP] _ Hp eq_refl))).
  by rewrite (run_bind _ _ _ _ _ (peek_not _ _ Hst (closes_not [SEMI] _ Hp eq_refl))).
Qed.

Lemma line_of_exec n s c post : closes post -> parseexec n s = Ret (c, post) -> parseline (S (S n)) s = Ret (c, post).
Proof.
  intros Hp Hrun. apply line_of_pipe; [done|]. apply pipe_of_exec; [by apply closes_stops|by apply closes_not|done].
Qed.

Lemma exec_run argv n post : wf_cmd (Exec argv) -> closes post -> (length argv <= length (show (Exec argv) ++ post))%nat ->
  exists c, parseexec (S n) (show (Exec argv) ++ post) = Ret (c, post) /\ cmd_map word_of c = Exec argv.
Proof.
  intros [Hw Hlen] Hp Hl. cbn [parseexec].
  assert (peek [LPAR] (show (Exec argv) ++ post) = Ret (false, show (Exec argv) ++ post)) as Hpk.
  { destruct argv as [|w argv]; [by apply peek_not; [apply closes_stops|apply closes_not]|].
    apply Forall_cons in Hw as [Hw _]. cbn. rewrite <- !app_assoc. by apply peek_word; [|repeat constructor]. }
  rewrite (run_bind _ _ _ _ _ Hpk), (run_bind (gets length) _ _ _ _ eq_refl).
  rewrite (run_bind _ _ _ _ _ (parseredirs_words _ argv post Hw Hp)), (run_bind (gets length) _ _ _ _ eq_refl).
  destruct (parseargs_run argv (S (length (show (Exec argv) ++ post))) 0 post) as (ws & Hrun & Hmap); [lia|lia|done|done|].
  rewrite (run_bind _ _ _ _ _ Hrun). exists (Exec ws). split; [done|]. cbn. by rewrite Hmap.
Qed.

Lemma redir_run k file mode fd post : wf_word file -> closes post ->
  (mode = O_RDONLY /\ fd = 0) \/ (mode = Z.lor O_WRONLY O_CREATE /\ fd = 1) ->
  let s := (if mode =? O_RDONLY then LT else GT) :: file ++ post in
  parseredirs (S k) s = Ret ([((file ++ post, post), mode, fd)], post) /\ word_of (file ++ post, post) = file.
Proof.
  intros Hf Hp Hm s. pose proof (closes_stops _ Hp) as Hst.
  destruct (gettoken_word file post Hf) as [Hg Hw].
  { intros c r ->. cbn in Hp. by subst. }
  split; [|done]. cbn [parseredirs].
  assert (tight s /\ strchr [LT; GT] (if mode =? O_RDONLY then LT else GT) = true) as [Ht Hs].
  { unfold s. by destruct (mode =? O_RDONLY); (split; [apply tight_cons|]). }
  rewrite (run_bind _ _ _ _ _ (peek_run [LT; GT] s Ht)). unfold s at 1. rewrite Hs.
  assert (gettoken s = Ret ((if mode =? O_RDONLY then LT else GT, s, file ++ post), file ++ post)) as Htok.
  { rewrite gettoken_run. unfold tight in Ht. rewrite Ht. unfold s.
    pose proof (tight_word file post Hf) as Htf. unfold tight in Htf. unfold token_at.
    destruct (mode =? O_RDONLY); cbn [LT GT BAR LPAR RPAR SEMI AMP Z.eqb Pos.eqb orb]; [cbn [fst snd]; by rewrite Htf|].
    destruct Hf as [Hne Hfc]. destruct file as [|c file]; [done|]. apply Forall_cons in Hfc as [Hc _]. cbn [app] in *.
    destruct (word_char_token c Hc) as [_ HGT]. rewrite HGT. cbn [fst snd]. by rewrite Htf. }
  rewrite (run_bind _ _ _ _ _ Htok), (run_bind _ _ _ _ _ Hg).
  pose proof (stops_tight _ Hst) as Htp. unfold tight in Htp. rewrite Htp. cbn [Z.eqb Pos.eqb negb].
  rewrite (run_bind _ _ _ _ _ (parseredirs_stops k post Hst)).
  by destruct Hm as [[-> ->]|[-> ->]].
Qed.

Lemma length_show_args argv : Forall wf_word argv -> (length argv <= length (show (Exec argv)))%nat.
Proof.
  induction 1 as [|w argv Hw _ IH]; cbn; [done|]. rewrite !length_app. cbn in *. lia.
Qed.

Lemma pipe_run l r n post : wf_cmd l -> wf_cmd r -> parses l -> parses r -> closes post ->
  (4 * length (show (PipeC l r) ++ post) + 4 <= n)%nat ->
  exists c, parseline n (show (PipeC l r) ++ post) = Ret (c, post) /\ cmd_map word_of c = PipeC l r.
Proof.
  intros Hwl Hwr Hl Hr Hp Hn. cbn [show] in *. rewrite <- app_assoc in *. cbn [app] in *. rewrite length_app in Hn. cbn [length] in Hn.
  destruct n as [|[|n]]; [lia|lia|].
  destruct (block_stops l n (BAR :: paren (show r) ++ post)) as (c1 & H1 & Hm1); [done|done|done| |].
  { rewrite length_app. cbn [length]. lia. }
  destruct n as [|n]; [lia|].
  destruct (block_stops r n post) as (c2 & H2 & Hm2); [done|done|by apply closes_stops|lia|].
  exists (PipeC c1 c2). split; [|cbn; by rewrite Hm1, Hm2]. apply line_of_pipe; [done|].
  cbn [parsepipe]. rewrite (run_bind _ _ _ _ _ H1).
  rewrite (run_bind _ _ _ _ _ (peek_run [BAR] (BAR :: _) (tight_cons BAR _ eq_refl))). cbn [strchr BAR Z.eqb Pos.eqb].
  rewrite (run_bind _ _ _ _ _ (gettoken_sym BAR _ ltac:(set_solver))).
  change (skip_ws (paren (show r) ++ post)) with (paren (show r) ++ post).
  rewrite (run_bind _ _ _ _ _ (pipe_of_exec n _ _ _ (closes_stops _ Hp) (closes_not [BAR] _ Hp eq_refl) H2)). done.
Qed.

Lemma list_run l r n post : wf_cmd l -> wf_cmd r -> parses l -> parses r -> closes post ->
  (4 * length (show (ListC l r) ++ post) + 4 <= n)%nat ->
  exists c, parseline n (show (ListC l r) ++ post) = Ret (c, post) /\ cmd_map word_of c = ListC l r.
Proof.
  intros Hwl Hwr Hl Hr Hp Hn. cbn [show] in *. rewrite <- app_assoc in *. cbn [app] in *. rewrite length_app in Hn. cbn [length] in Hn.
  destruct n as [|[|n]]; [lia|lia|].
  destruct (block_stops l n (SEMI :: paren (show r) ++ post)) as (c1 & H1 & Hm1); [done|done|done| |].
  { rewrite length_app. cbn [length]. lia. }
  destruct n as [|n]; [lia|].
  destruct (block_stops r n post) as (c2 & H2 & Hm2); [done|done|by apply closes_stops|lia|].
  exists (ListC c1 c2). split; [|cbn; by rewrite Hm1, Hm2].
  assert (stops (SEMI :: paren (show r) ++ post)) as Hs by done. cbn [parseline].
  rewrite (run_bind _ _ _ _ _ (pipe_of_exec _ _ _ _ Hs eq_refl H1)), (run_bind (gets length) _ _ _ _ eq_refl).
  rewrite (run_bind _ _ _ _ _ (parsebacks_none _ _ _ Hs eq_refl)).
  rewrite (run_bind _ _ _ _ _ (peek_run [SEMI] (SEMI :: _) (tight_cons SEMI _ eq_refl))). cbn [strchr SEMI Z.eqb Pos.eqb].
  rewrite (run_bind _ _ _ _ _ (gettoken_sym SEMI _ ltac:(set_solver))).
  change (skip_ws (paren (show r) ++ post)) with (paren (show r) ++ post).
  by rewrite (run_bind _ _ _ _ _ (line_of_exec n _ _ _ Hp H2)).
Qed.

Lemma back_run c n post : wf_cmd c -> parses c -> closes post ->
  (4 * length (show (Back c) ++ post) + 4 <= n)%nat ->
  exists c', parseline n (show (Back c) ++ post) = Ret (c', post) /\ cmd_map word_of c' = Back c.
Proof.
  intros Hwf Hc Hp Hn. cbn [show] in *. rewrite <- app_assoc in *. cbn [app] in *. rewrite length_app in Hn. cbn [length] in Hn.
  destruct n as [|[|n]]; [lia|lia|]. pose proof (closes_stops _ Hp) as Hst.
  destruct (block_stops c n (AMP :: post)) as (c1 & H1 & Hm1); [done|done|done|rewrite length_app; cbn [length]; lia|].
  exists (Back c1). split; [|cbn; by rewrite Hm1].
  assert (stops (AMP :: post)) as Hs by done. cbn [parseline].
  rewrite (run_bind _ _ _ _ _ (pipe_of_exec _ _ _ _ Hs eq_refl H1)), (run_bind (gets length) _ _ _ _ eq_refl).
  assert (parsebacks (length (AMP :: post)) c1 (AMP :: post) = Ret (Back c1, post)) as Hb.
  { cbn [length parsebacks]. rewrite (run_bind _ _ _ _ _ (peek_run [AMP] (AMP :: _) (tight_cons AMP _ eq_refl))).
    cbn [strchr AMP Z.eqb Pos.eqb]. rewrite (run_bind _ _ _ _ _ (gettoken_sym AMP _ ltac:(set_solver))).
    pose proof (stops_tight _ Hst) as Ht. unfold tight in Ht. rewrite Ht.
    apply parsebacks_none; [done|by apply closes_not]. }
  by rewrite (run_bind _ _ _ _ _ Hb), (run_bind _ _ _ _ _ (peek_not _ _ Hst (closes_not [SEMI] _ Hp eq_refl))).
Qed.

Lemma show_parses c : wf_cmd c -> parses c.
Proof.
  induction c as [argv|c IH file mode fd|l IHl r IHr|l IHl r IHr|c IH]; intros Hwf n post Hp Hn.
  - destruct n as [|[|[|n]]]; [lia|lia|lia|].
    destruct (exec_run argv n post Hwf Hp) as (c & Hrun & Hm).
    { rewrite length_app. pose proof (length_show_args argv (proj1 Hwf)). lia. }
    exists c. split; [by apply line_of_exec|done].
  - destruct Hwf as (Hc & Hf & Hm). destruct n as [|[|n]]; [lia|lia|].
    destruct (redir_run (length (file ++ post)) file mode fd post Hf Hp Hm) as [Hred Hw].
    cbn [show] in *. rewrite <- app_assoc in *. cbn [app] in *.
    destruct (block_run c n ((if mode =? O_RDONLY then LT else GT) :: file ++ post) [((file ++ post, post), mode, fd)] post)
      as (c' & Hrun & Hmap); [done|by apply IH| |exact Hred|lia|].
    { by destruct (mode =? O_RDONLY); apply tight_cons. }
    exists (Redir c' (file ++ post, post) mode fd). split; [by apply line_of_exec|]. cbn [cmd_map]. by rewrite Hmap, Hw.
  - destruct Hwf as [Hl Hr]. by apply pipe_run; [| |apply IHl|apply IHr| |].
  - destruct Hwf as [Hl Hr]. by apply list_run; [| |apply IHl|apply IHr| |].
  - by apply back_run; [|apply IH| |].
Qed.

(** ** Through [parsecmd] *)

(** The word a pointer pair stands for after [nulterminate]. *)
Definition word_in (s : ptr) (buf : list Z) (w : pword) : list Z := cstring (drop (index s w.1) buf).

Lemma cmd_map_ext {V W} (f g : V -> W) c : (forall w, w ∈ words c -> f w = g w) -> cmd_map f c = cmd_map g c.
Proof.
  induction c as [argv|c IH file mode fd|l IHl r IHr|l IHl r IHr|c IH]; cbn [cmd_map words]; intros H.
  - f_equal. apply list_fmap_ext. intros i w Hw. apply H. by eapply list_elem_of_lookup_2.
  - rewrite IH by (intros; apply H; set_solver). rewrite H by set_solver. done.
  - rewrite IHl, IHr by (intros; apply H; set_solver). done.
  - rewrite IHl, IHr by (intros; apply H; set_solver). done.
  - by rewrite IH.
Qed.

Lemma parsecmd_words s c buf : parsecmd s = Ret (c, buf) -> Forall (fun x => x <> 0) s ->
  good_words s (words c) /\ forall w, w ∈ words c -> word_in s buf w = word_of w.
Proof.
  intros H Hz. pose proof (parsecmd_ok s) as Hok. rewrite H in Hok. destruct Hok as [Hw ->]. split; [done|].
  intros w Hin. unfold word_in. rewrite nulterminate_words. by apply nulterminate_word.
Qed.

Lemma parsecmd_show c : wf_cmd c -> Forall (fun x => x <> 0) (show c) ->
  exists c' buf, parsecmd (show c) = Ret (c', buf) /\ cmd_map (word_in (show c) buf) c' = c.
Proof.
  intros Hwf Hz. destruct (show_parses c Hwf (4 * length (show c) + 4)%nat [] I) as (c' & Hp & Hm); [by rewrite app_nil_r|].
  rewrite app_nil_r in Hp. assert (parsecmd (show c) = Ret (c', nulterminate (show c) c' (show c ++ [0]))) as H.
  { unfold parsecmd. by rewrite Hp. }
  exists c', (nulterminate (show c) c' (show c ++ [0])). split; [done|].
  transitivity (cmd_map word_of c'); [|done]. apply cmd_map_ext. by apply parsecmd_words.
Qed.
