(* ===== verification/Ulib.v ===== *)
(** * [user/ulib.c] and [user/printf.c]

    Strings are the lists of their characters without the NUL.  Output is
    the list of bytes written to the descriptor, one [write] per
    character. *)

From stdpp Require Import base numbers list strings.
From S2P Require Import Prelude Bytes.
Open Scope Z_scope.

(** ** Strings *)

Fixpoint strcmp (p q : list Z) : Z :=
  match p, q with
  | [], [] => 0
  | [], d :: _ => 0 - u8 d
  | c :: _, [] => u8 c - 0
  | c :: p, d :: q => if c =? d then strcmp p q else u8 c - u8 d
  end.

Definition strlen (s : list Z) : Z := Z.of_nat (length s).

(** The bytes [strcpy] and [strncpy] store; the latter pads with NULs. *)
Definition strcpy (t : list Z) : list Z := t ++ [0].
Fixpoint strncpy (t : list Z) (n : nat) : list Z :=
  match n with
  | O => []
  | S n => match t with [] => 0 :: replicate n 0 | c :: t => c :: strncpy t n end
  end.
Definition safestrcpy (t : list Z) (n : Z) : list Z :=
  if n <=? 0 then [] else take (Z.to_nat (n - 1)) t ++ [0].

(** [while('0' <= *s && *s <= '9') n = n*10 + *s++ - '0'] *)
Fixpoint atoi_loop (n : Z) (s : list Z) : Z :=
  match s with
  | c :: s => if (48 <=? c) && (c <=? 57) then atoi_loop (s32 (n * 10 + c - 48)) s else n
  | [] => n
  end.
Definition atoi (s : list Z) : Z := atoi_loop 0 s.

(** [gets(buf, max)] on the bytes that reads of one byte return: the line,
    and the input left. *)
Fixpoint gets_loop (room : nat) (input : list Z) : list Z * list Z :=
  match room with
  | O => ([], input)
  | S k =>
      match input with
      | [] => ([], [])
      | c :: input =>
          if (c =? 10) || (c =? 13) then ([c], input)
          else let '(l, rest) := gets_loop k input in (c :: l, rest)
      end
  end.
Definition gets (max : Z) (input : list Z) : list Z * list Z := gets_loop (Z.to_nat (max - 1)) input.

(** ** [printf.c] *)

Definition digits : list Z := chars "0123456789ABCDEF".

(** [do ... while((x /= base) != 0)] into [buf], which has 16 bytes; a store
    past its end is outside the model. *)
Fixpoint digits_loop (room : nat) (x base : Z) : option (list Z) :=
  match room with
  | O => None
  | S k =>
      let d := nth (Z.to_nat (x mod base)) digits 0 in
      if x / base =? 0 then Some [d]
      else match digits_loop k (x / base) base with Some l => Some (d :: l) | None => None end
  end.

Definition printint (xx base : Z) (sgn : bool) : option (list Z) :=
  let xx := s32 xx in
  let neg := sgn && (xx <? 0) in
  let x := if neg then u32 (- xx) else u32 xx in
  match digits_loop 16 x base with
  | None => None
  | Some l =>
      if neg then if (length l <? 16)%nat then Some (rev (l ++ [45])) else None
      else Some (rev l)
  end.

(** An argument of [printf]: an integer or character, or a string pointer,
    NULL being [None]. *)
Inductive arg := AInt (x : Z) | AStr (s : option (list Z)).

(** [vprintf]; [state] says whether a percent sign came before.  A missing
    argument is outside the model. *)
Fixpoint vprintf (fmt : list Z) (state : bool) (args : list arg) : option (list Z) :=
  match fmt with
  | [] => Some []
  | c :: fmt =>
      if negb state then
        if c =? 37 then vprintf fmt true args
        else l ← vprintf fmt false args; Some (c :: l)
      else if c =? 100 then
        match args with AInt x :: args => p ← printint x 10 true; l ← vprintf fmt false args; Some (p ++ l) | _ => None end
      else if (c =? 120) || (c =? 112) then
        match args with AInt x :: args => p ← printint x 16 false; l ← vprintf fmt false args; Some (p ++ l) | _ => None end
      else if c =? 115 then
        match args with AStr s :: args => l ← vprintf fmt false args; Some (default (chars "(null)") s ++ l) | _ => None end
      else if c =? 99 then
        match args with AInt x :: args => l ← vprintf fmt false args; Some (u8 x :: l) | _ => None end
      else if c =? 37 then l ← vprintf fmt false args; Some (c :: l)
      else l ← vprintf fmt false args; Some (37 :: c :: l)
  end.

Definition printf (fmt : list Z) (args : list arg) : option (list Z) := vprintf fmt false args.

(** ** Decimal numbers *)

Definition value (l : list Z) : Z := foldl (fun n c => 10 * n + (c - 48)) 0 l.

Lemma digit_char d : 0 <= d < 10 -> nth (Z.to_nat d) digits 0 = 48 + d.
Proof.
  intros H. assert (d = 0 \/ d = 1 \/ d = 2 \/ d = 3 \/ d = 4 \/ d = 5 \/ d = 6 \/ d = 7 \/ d = 8 \/ d = 9) as Hd by lia.
  by destruct Hd as [->|[->|[->|[->|[->|[->|[->|[->|[->| ->]]]]]]]]].
Qed.

(** Ten digits hold a number below [10 ^ 10]; [l] lists them last first. *)
Lemma digits_loop_value k : forall x, 0 <= x < 10 ^ Z.of_nat k -> (0 < k)%nat ->
  exists l, digits_loop k x 10 = Some l /\ (0 < length l <= k)%nat /\
    Forall (fun c => 48 <= c <= 57) l /\ value (rev l) = x.
Proof.
  induction k as [|k IH]; intros x Hx Hk; [lia|]. cbn [digits_loop]. rewrite digit_char by lia.
  destruct (Z.eqb_spec (x / 10) 0) as [Hz|Hz].
  - exists [48 + x mod 10]. split; [done|]. split; [cbn; lia|]. split; [constructor; [lia|done]|]. unfold value. cbn. lia.
  - destruct (IH (x / 10)) as (l & Hl & Hlen & Hd & Hv).
    + rewrite Nat2Z.inj_succ, Z.pow_succ_r in Hx by lia. split; [lia|]. apply Z.div_lt_upper_bound; lia.
    + destruct k; [|lia]. cbn in Hx. lia.
    + rewrite Hl. exists (48 + x mod 10 :: l). split; [done|]. split; [cbn; lia|]. split; [constructor; [lia|done]|].
      cbn [rev]. unfold value in *. rewrite foldl_app, Hv. cbn. lia.
Qed.

(** [atoi] reads digits back, up to the first character that is none. *)
Lemma atoi_loop_value l rest : forall n, 0 <= n -> Forall (fun c => 48 <= c <= 57) l ->
  match rest with [] => True | c :: _ => ~ 48 <= c <= 57 end ->
  foldl (fun n c => 10 * n + (c - 48)) n l < 2 ^ 31 ->
  atoi_loop n (l ++ rest) = foldl (fun n c => 10 * n + (c - 48)) n l.
Proof.
  induction l as [|c l IH]; intros n Hn Hd Hr Hv; cbn [foldl app] in *.
  - destruct rest as [|c rest]; [done|]. cbn. by replace ((48 <=? c) && (c <=? 57)) with false by lia.
  - apply Forall_cons in Hd as [Hc Hd]. cbn [atoi_loop]. replace ((48 <=? c) && (c <=? 57)) with true by lia.
    assert (10 * n + (c - 48) <= foldl (fun n c => 10 * n + (c - 48)) (10 * n + (c - 48)) l) as Hm.
    { assert (0 <= 10 * n + (c - 48)) as H0 by lia. clear - Hd H0. revert H0. generalize (10 * n + (c - 48)) as m.
      induction Hd as [|d l Hd _ IH]; intros m Hm; cbn; [lia|]. specialize (IH (10 * m + (d - 48)) ltac:(lia)). lia. }
    replace (s32 (n * 10 + c - 48)) with (10 * n + (c - 48)) by lia. apply IH; [lia|done|done|done].
Qed.
