(* ===== verification/Analysis.v ===== *)
(** * [user/liSa.c], [user/coMMa.c] and [user/dalle.c]: the text analyser

    The three programs that use the shared structures.  [dalle] shares nine
    of them and starts the other two; [liSa] looks at one sentence after
    the other and records the longest and the shortest word; [coMMa]
    prints what is recorded and controls [liSa].  A structure shared under
    a name is a field of [board].  Reads and stores outside the arrays of
    the programs are outside the model ([None]). *)

From stdpp Require Import base numbers list strings.
From S2P Require Import Prelude Bytes Ulib.
Open Scope Z_scope.

Definition SPACE : Z := 32.

(** The structures [dalle] shares, the strings without their NUL. *)
Record board := Board {
  cs_longest : list Z;
  cs_shortest : list Z;
  curr_sent : Z;
  len_longest : Z;
  len_shortest : Z;
  command : Z;
  longest_word : list Z;
  shortest_word : list Z }.

Definition set_cs l s b := Board l s (curr_sent b) (len_longest b) (len_shortest b) (command b) (longest_word b) (shortest_word b).
Definition set_curr_sent v b := Board (cs_longest b) (cs_shortest b) v (len_longest b) (len_shortest b) (command b) (longest_word b) (shortest_word b).
Definition set_longest n w b := Board (cs_longest b) (cs_shortest b) (curr_sent b) n (len_shortest b) (command b) w (shortest_word b).
Definition set_shortest n w b := Board (cs_longest b) (cs_shortest b) (curr_sent b) (len_longest b) n (command b) (longest_word b) w.
Definition set_command v b := Board (cs_longest b) (cs_shortest b) (curr_sent b) (len_longest b) (len_shortest b) v (longest_word b) (shortest_word b).

(** What [dalle] starts with. *)
Definition INT_MAX : Z := 2 ^ 31 - 1.
Definition dalle_board : board := Board [] [] 0 0 INT_MAX 4 [] [].

(** ** [liSa] *)

(** The words [word], [lw] and [sw] have room for 30 bytes, the shared
    words for 20. *)
Definition WORD_ROOM : nat := 30.
Definition SHARED_ROOM : nat := 20.

(** [strncpy] copies up to the first NUL and fills up with NULs. *)
Fixpoint cstr (l : list Z) : list Z :=
  match l with [] => [] | c :: l => if c =? 0 then [] else c :: cstr l end.

(** A word has ended: [lw] and [sw] after it.  [wlen] counts the bytes of
    the text, [strlen] those before a NUL. *)
Definition end_word (word lw sw : list Z) : option (list Z * list Z) :=
  if (WORD_ROOM <=? length word)%nat then None
  else if (length lw <? length word)%nat then Some (cstr word, sw)
  else if (length word <? length sw)%nat then Some (lw, cstr word)
  else Some (lw, sw).

(** [for(int i = start; i <= end; i++)] over the text of the sentence;
    [word] is the text since [wstart]. *)
Fixpoint scan_words (text word lw sw : list Z) : option (list Z * list Z) :=
  match text with
  | [] => end_word word lw sw
  | c :: text =>
      if c =? SPACE then '(lw, sw) ← end_word word lw sw; scan_words text [] lw sw
      else scan_words text (word ++ [c]) lw sw
  end.

Definition LW0 : list Z := chars ".".
Definition SW0 : list Z := chars ".....".

Definition check_current_setence (text : list Z) (b : board) : option board :=
  '(lw, sw) ← scan_words text [] LW0 SW0;
  if (SHARED_ROOM <=? length lw)%nat || (SHARED_ROOM <=? length sw)%nat then None
  else
    let b := set_cs lw sw b in
    let b := if u32 (len_longest b) <? strlen lw then set_longest (strlen lw) lw b else b in
    Some (if strlen sw <? u32 (len_shortest b) then set_shortest (strlen sw) sw b else b).

Definition is_end (c : Z) : bool := (c =? 46) || (c =? 33) || (c =? 63).

(** [while(buff[i] != '.' && ...) i++]: the sentence, and the text after
    its end; running off the text is outside the model. *)
Fixpoint next_sentence (buff : list Z) : option (list Z * list Z) :=
  match buff with
  | [] => None
  | c :: buff => if is_end c then Some ([], buff) else '(s, rest) ← next_sentence buff; Some (c :: s, rest)
  end.

(** [while(1)] after a pause, on the values of [*command] it finds: whether
    to go on. *)
Fixpoint paused (cmds : list Z) : option (bool * list Z) :=
  match cmds with
  | [] => None
  | c :: cmds => if c =? 4 then Some (true, cmds) else if c =? 5 then Some (false, cmds) else paused cmds
  end.

(** [main] from the text [buff] on.  [cmds] are the values of [*command]
    at the times it is read. *)
Fixpoint lisa (fuel : nat) (buff cmds : list Z) (b : board) : option board :=
  match fuel with
  | O => None
  | S k =>
      match buff with
      | [] => Some b
      | c :: r =>
          let buff := if c =? SPACE then r else buff in
          let b := set_curr_sent (u32 (curr_sent b + 1)) b in
          '(s, rest) ← next_sentence buff;
          b ← check_current_setence s b;
          match cmds with
          | [] => None
          | c :: cmds =>
              if c =? 3 then
                '(go, cmds) ← paused cmds;
                if go : bool then lisa k rest cmds b else Some b
              else if c =? 5 then Some b
              else lisa k rest cmds b
          end
      end
  end.

(** ** [coMMa] *)

Inductive comma_next := Again | Quit.

(** One round of its loop, for the line [gets] returned: what is printed
    and whether it ends. *)
Definition comma (line : list Z) (b : board) : option (board * list Z * comma_next) :=
  let c := atoi line in
  if c =? 1 then
    out ← printf (chars "Latest sentence %d: Local extrema => longest: %s :: shortest: %s" ++ [10])
            [AInt (curr_sent b); AStr (Some (cs_longest b)); AStr (Some (cs_shortest b))];
    Some (b, out, Again)
  else if c =? 2 then
    out ← printf (chars "Global extrema => longest: <%d> %s :: shortest <%d> %s " ++ [10])
            [AInt (len_longest b); AStr (Some (longest_word b)); AInt (len_shortest b); AStr (Some (shortest_word b))];
    Some (b, out, Again)
  else if c =? 3 then Some (set_command 3 b, chars "Pausing... " ++ [10], Again)
  else if c =? 4 then Some (set_command 4 b, chars "Resuming... " ++ [10], Again)
  else if c =? 5 then Some (set_command 5 b, [], Quit)
  else Some (b, [], Again).

(** ** What [liSa] finds *)

(** The words of a text between single spaces; [word] is the start of the
    first one. *)
Fixpoint split_words (text word : list Z) : list (list Z) :=
  match text with
  | [] => [word]
  | c :: text => if c =? SPACE then word :: split_words text [] else split_words text (word ++ [c])
  end.
Definition words_of (text : list Z) : list (list Z) := split_words text [].

(** The first of the longest words. *)
Definition longer (m w : list Z) : list Z := if (length m <? length w)%nat then w else m.
Definition longest (lw : list Z) (ws : list (list Z)) : list Z := foldl longer lw ws.

Lemma longest_max ws : forall lw,
  (longest lw ws = lw \/ longest lw ws ∈ ws) /\
  (length lw <= length (longest lw ws))%nat /\ Forall (fun w => (length w <= length (longest lw ws))%nat) ws.
Proof.
  induction ws as [|w ws IH]; intros lw; cbn [longest foldl]; [by split; [left|split; [|constructor]]|].
  fold (longest (longer lw w) ws). destruct (IH (longer lw w)) as (Hin & Hle & Hall).
  assert (length lw <= length (longer lw w) /\ length w <= length (longer lw w))%nat as [H1 H2].
  { unfold longer. destruct (length lw <? length w)%nat eqn:E; [apply Nat.ltb_lt in E|apply Nat.ltb_ge in E]; lia. }
  split; [|split; [lia|constructor; [lia|done]]].
  destruct Hin as [Heq|Hin]; [|right; by apply list_elem_of_further].
  rewrite Heq. unfold longer. destruct (length lw <? length w)%nat; [right; by apply list_elem_of_here|by left].
Qed.

(** A word the programs have room for, without a NUL. *)
Definition word_ok (w : list Z) : Prop := (length w < SHARED_ROOM)%nat /\ 0 ∉ w.

#[export] Instance word_ok_dec w : Decision (word_ok w).
Proof. unfold word_ok. apply _. Defined.

Lemma cstr_id l : 0 ∉ l -> cstr l = l.
Proof.
  induction l as [|c l IH]; intros H; [done|]. apply not_elem_of_cons in H as [Hc H]. cbn [cstr].
  by rewrite (proj2 (Z.eqb_neq c 0)), IH by congruence.
Qed.

Lemma scan_words_run text : forall word lw sw, (length sw < SHARED_ROOM)%nat ->
  Forall word_ok (split_words text word) ->
  exists sw', scan_words text word lw sw = Some (longest lw (split_words text word), sw') /\ (length sw' < SHARED_ROOM)%nat.
Proof.
  assert (forall word lw sw, (length sw < SHARED_ROOM)%nat -> word_ok word ->
    exists sw', end_word word lw sw = Some (longer lw word, sw') /\ (length sw' < SHARED_ROOM)%nat) as Hend.
  { intros word lw sw Hs [Hw H0]. unfold end_word, longer. rewrite (cstr_id word H0). unfold SHARED_ROOM, WORD_ROOM in *.
    rewrite (proj2 (Nat.leb_gt _ _)) by lia. destruct (length lw <? length word)%nat; [by exists sw|].
    destruct (length word <? length sw)%nat; [by exists word|by exists sw]. }
  induction text as [|c text IH]; intros word lw sw Hs Hw; cbn [scan_words split_words] in *.
  - apply Forall_cons in Hw as [Hw _]. by apply Hend.
  - destruct (c =? SPACE); [|by apply IH]. apply Forall_cons in Hw as [Hw Hws].
    destruct (Hend word lw sw Hs Hw) as (sw1 & -> & Hs1). cbn. by apply IH.
Qed.

(** One sentence: the longest word is recorded, and the length of the
    longest word so far grows to its length. *)
Definition seen (b : board) : Prop := 0 <= len_longest b < 2 ^ 31.

Lemma check_run text b : seen b -> Forall word_ok (words_of text) ->
  exists b', check_current_setence text b = Some b' /\ seen b' /\ curr_sent b' = curr_sent b /\
    let lw := longest LW0 (words_of text) in
    cs_longest b' = lw /\ len_longest b' = Z.max (len_longest b) (strlen lw) /\
    longest_word b' = if len_longest b <? strlen lw then lw else longest_word b.
Proof.
  intros Hb Hw. unfold check_current_setence.
  destruct (scan_words_run text [] LW0 SW0) as (sw' & Hrun & Hs'); [cbn; unfold SHARED_ROOM; lia|done|].
  fold (words_of text) in Hrun. rewrite Hrun. cbn [mbind option_bind].
  assert (length (longest LW0 (words_of text)) < SHARED_ROOM)%nat as Hl.
  { destruct (longest_max (words_of text) LW0) as ([->|Hin] & _); [cbn; unfold SHARED_ROOM; lia|].
    exact (proj1 (proj1 (Forall_forall _ _) Hw _ Hin)). }
  revert Hl. generalize (longest LW0 (words_of text)) as lw. intros lw Hl.
  rewrite (proj2 (Nat.leb_gt _ _)), (proj2 (Nat.leb_gt _ _)) by done. cbn [orb].
  unfold seen, strlen, SHARED_ROOM in *. cbn [len_longest set_cs].
  replace (u32 (len_longest b)) with (len_longest b) by lia.
  destruct (Z.ltb_spec (len_longest b) (Z.of_nat (length lw))) as [H|H];
    cbn [len_shortest set_longest set_cs]; destruct (Z.of_nat (length sw') <? _);
    eexists; (split; [reflexivity|]); cbn; (split; [lia|]); (split; [done|]); (split; [done|]); (split; [lia|done]).
Qed.

(** ** A whole text *)

(** A sentence with its text, whether a space comes before it and the
    character that ends it. *)
Record sentence := Sentence { st_space : bool; st_text : list Z; st_end : Z }.
Definition render (ss : list sentence) : list Z :=
  concat ((fun s => (if st_space s then [SPACE] else []) ++ st_text s ++ [st_end s]) <$> ss).

Record sentence_ok (s : sentence) : Prop := {
  so_end : is_end (st_end s) = true;
  so_text : Forall (fun c => is_end c = false) (st_text s);
  so_start : st_space s = false -> head (st_text s) <> Some SPACE;
  so_words : Forall word_ok (words_of (st_text s));
  so_long : Exists (fun w => (2 <= length w)%nat) (words_of (st_text s)) }.

Lemma next_sentence_run text e rest : is_end e = true -> Forall (fun c => is_end c = false) text ->
  next_sentence (text ++ e :: rest) = Some (text, rest).
Proof.
  intros He. induction 1 as [|c text Hc _ IH]; cbn [next_sentence app]; [by rewrite He|].
  rewrite Hc, IH. done.
Qed.

Lemma longest_long ws : Exists (fun w => (2 <= length w)%nat) ws ->
  longest LW0 ws ∈ ws /\ Forall (fun w => (length w <= length (longest LW0 ws))%nat) ws.
Proof.
  intros (w & Hw & H2)%Exists_exists. destruct (longest_max ws LW0) as ([Heq|Hin] & _ & Hall); [|done].
  pose proof (proj1 (Forall_forall _ _) Hall w Hw) as Hlw. rewrite Heq in Hlw. cbn in Hlw. lia.
Qed.

(** What is known after the sentences [ss]. *)
Definition found (ss : list sentence) (b : board) : Prop :=
  seen b /\ curr_sent b = u32 (Z.of_nat (length ss)) /\
  let ws := concat ((fun s => words_of (st_text s)) <$> ss) in
  len_longest b = strlen (longest_word b) /\
  (if ss is [] then longest_word b = [] else longest_word b ∈ ws) /\ Forall (fun w => strlen w <= len_longest b) ws.

Lemma found_step ss s b : found ss b -> sentence_ok s ->
  exists b', check_current_setence (st_text s) (set_curr_sent (u32 (curr_sent b + 1)) b) = Some b' /\ found (ss ++ [s]) b'.
Proof.
  intros (Hb & Hc & Hlen & Hin & Hall) [_ _ _ Hw Hlong].
  destruct (check_run (st_text s) (set_curr_sent (u32 (curr_sent b + 1)) b)) as (b' & -> & Hb' & Hc' & Hcs & Hl' & Hw'); [done|done|].
  exists b'. split; [done|]. cbn [len_longest longest_word curr_sent set_curr_sent] in Hc', Hl', Hw'. destruct (longest_long _ Hlong) as [Hmem Hmax].
  revert Hl' Hw' Hmem Hmax. generalize (longest LW0 (words_of (st_text s))) as lw. intros lw Hl' Hw' Hmem Hmax.
  split; [done|]. rewrite length_app, Hc', Hc. cbn [length]. split; [lia|].
  rewrite fmap_app, concat_app. cbn [concat fmap list_fmap]. rewrite app_nil_r. split; [|split].
  - rewrite Hl', Hw'. destruct (Z.ltb_spec (len_longest b) (strlen lw)).
    + lia.
    + lia.
  - destruct (ss ++ [s]) eqn:E; [by destruct ss|]. clear E. rewrite Hw'. apply elem_of_app. destruct (Z.ltb_spec (len_longest b) (strlen lw)); [by right|].
    destruct ss as [|s1 ss]; [|by left]. right. exfalso. rewrite Hin in Hlen.
    pose proof (proj1 (Exists_exists _ _) Hlong) as (w & Hw2 & H2). pose proof (proj1 (Forall_forall _ _) Hmax w Hw2).
    unfold strlen in *. cbn in Hlen. lia.
  - rewrite Hl'. apply Forall_app. split; (eapply Forall_impl; [eassumption|]); intros w; unfold strlen; lia.
Qed.

(** [liSa] on a text that is not paused or ended: every sentence is
    looked at. *)
Lemma lisa_run ss : forall done_ k cmds b, Forall sentence_ok ss -> found done_ b ->
  (length ss < k)%nat -> (length ss <= length cmds)%nat -> Forall (fun c => c <> 3 /\ c <> 5) cmds ->
  exists b', lisa k (render ss) cmds b = Some b' /\ found (done_ ++ ss) b'.
Proof.
  induction ss as [|s ss IH]; intros dn k cmds b Hss Hf Hk Hc Hcs; (destruct k as [|k]; [lia|]).
  - exists b. rewrite app_nil_r. done.
  - apply Forall_cons in Hss as [Hs Hss]. destruct cmds as [|c cmds]; [cbn in Hc; lia|].
    apply Forall_cons in Hcs as [[Hc3 Hc5] Hcs]. destruct (found_step dn s b Hf Hs) as (b1 & Hrun & Hf1).
    destruct (IH (dn ++ [s]) k cmds b1) as (b' & Hl & Hf'); [done|done|cbn in *; lia|cbn in *; lia|done|].
    exists b'. rewrite <- app_assoc in Hf'. split; [|done].
    assert (exists c0 r0, render (s :: ss) = c0 :: r0 /\
      (if c0 =? SPACE then r0 else c0 :: r0) = st_text s ++ st_end s :: render ss) as (c0 & r0 & Heq & Hsp).
    { destruct Hs as [He Ht Hst _ _]. unfold render. cbn [fmap list_fmap concat]. fold (render ss).
      rewrite <- !app_assoc. cbn [app].
      destruct (st_space s); [exists SPACE; by eexists|]. specialize (Hst eq_refl). cbn [app].
      destruct (st_text s) as [|c1 t1]; cbn [app head] in *.
      - eexists _, _. split; [reflexivity|]. destruct (Z.eqb_spec (st_end s) SPACE) as [E|]; [by rewrite E in He|done].
      - eexists _, _. split; [reflexivity|]. destruct (Z.eqb_spec c1 SPACE) as [->|]; [done|done]. }
    rewrite Heq. cbn [lisa]. rewrite Hsp, next_sentence_run; [|by destruct Hs..]. cbn [mbind option_bind].
    rewrite Hrun. cbn [mbind option_bind]. rewrite (proj2 (Z.eqb_neq _ _) Hc3), (proj2 (Z.eqb_neq _ _) Hc5). done.
Qed.
