(* ===== verification/UserTheorems.v ===== *)
(** * What the user programs do

    The shell's parser, [grep], the number conversions of the C library and
    the text analyser. *)

From stdpp Require Import base numbers list strings sets.
From S2P Require Import Prelude Bytes Grep Sh ShSpec Ulib Analysis.
Open Scope Z_scope.

(** ** The shell *)

(** C17. [parsecmd] of sh.c stops on every line, with a command or with an
    error message.  After [nulterminate] every word of the command, an
    argument or a file name, is a C string of the buffer, and it is a
    maximal run of characters that are neither blank nor special: ending
    one word with a NUL never damages another. *)
Theorem sh_parsecmd_stops s : Forall (fun c => c <> 0) s ->
  match parsecmd s with
  | Ret (c, buf) => forall w, w ∈ words c -> good_word s w /\ word_in s buf w = word_of w
  | Panic _ => True
  | _ => False
  end.
Proof.
  intros Hz. pose proof (parsecmd_ok s) as Hok. destruct (parsecmd s) as [[c buf]| | | |] eqn:E; try done.
  destruct (parsecmd_words s c buf E Hz) as [Hg Hw]. intros w Hin. split; [|by apply Hw].
  by apply (proj1 (Forall_forall _ _) Hg).
Qed.

Lemma sh_parsecmd_stops_witness :
  match parsecmd (chars "cat <in | wc&") with
  | Ret (c, buf) => forall w, w ∈ words c -> good_word (chars "cat <in | wc&") w /\ word_in (chars "cat <in | wc&") buf w = word_of w
  | Panic _ => True
  | _ => False
  end.
Proof. apply (sh_parsecmd_stops (chars "cat <in | wc&")). repeat constructor; done. Defined.

(** C16. Every command the shell has can be typed: written out with
    parentheses, it is parsed to a command whose words, read from the
    buffer as C strings, are those written. *)
Theorem sh_parse_show c : wf_cmd c -> Forall (fun x => x <> 0) (show c) ->
  exists c' buf, parsecmd (show c) = Ret (c', buf) /\ cmd_map (word_in (show c) buf) c' = c.
Proof. exact (parsecmd_show c). Qed.

(** [(ls;cat <a >b)&] and a pipe *)
Definition demo_cmd : cmd (list Z) :=
  PipeC (Back (ListC (Exec [chars "ls"])
    (Redir (Redir (Exec [chars "cat"]) (chars "a") O_RDONLY 0) (chars "b") (Z.lor O_WRONLY O_CREATE) 1)))
    (Exec [chars "wc"; chars "-l"]).

Lemma sh_parse_show_witness : wf_cmd demo_cmd /\
  exists c' buf, parsecmd (show demo_cmd) = Ret (c', buf) /\ cmd_map (word_in (show demo_cmd) buf) c' = demo_cmd.
Proof.
  assert (wf_cmd demo_cmd) as H.
  { cbn [wf_cmd demo_cmd]. unfold wf_word. split_and!; try (by left); try (by right); repeat constructor; done. }
  split; [done|]. apply (sh_parse_show demo_cmd); [done|]. apply (bool_decide_unpack _). by vm_compute.
Defined.

(** ** [grep] *)

(** C24. The matcher of grep.c decides the usual meaning of a pattern: a
    pattern matches a text when some part of the text is a string of the
    pattern's items, at the start if the pattern has a caret, at the end
    if it has a dollar sign. *)
Theorem grep_match re text : match_ re text = true <->
  match re with
  | c :: re' => if c =? CARET then prefix_match re' text else exists pre rest, text = pre ++ rest /\ prefix_match re rest
  | [] => True
  end.
Proof.
  unfold match_. destruct re as [|c re].
  { split; [done|]. intros _. apply match_from_spec. by exists [], text. }
  destruct (c =? CARET); [by apply (matchhere_spec (length re))|]. rewrite match_from_spec.
  split; intros (pre & rest & -> & H); exists pre, rest; (split; [done|]); by apply (matchhere_spec (length (c :: re)) (c :: re) rest).
Qed.

(** C37. On a file without NUL bytes whose complete lines have fewer than
    1023 bytes, [grep] stops having printed exactly the complete lines that
    match, in order, also those that lie across two reads of the buffer; a
    last line without a newline is not printed. *)
Theorem grep_prints pattern text : 0 ∉ text -> Forall (fun l => (length l < BUF_SIZE - 1)%nat) (complete_lines [] text).1 ->
  grep pattern [text] = Some (matching pattern (complete_lines [] text).1).
Proof.
  intros H0 Hl. unfold grep. cbn [concat]. rewrite app_nil_r. destruct text as [|c text]; [done|].
  apply (grep_file pattern _ [] (c :: text)); [set_solver|done|unfold BUF_SIZE; cbn; lia|done|lia].
Qed.

(** Lines of 500 bytes: the third one lies across the first two reads. *)
Definition long_lines : list Z :=
  concat (replicate 3 (replicate 499 97 ++ [NL])) ++ chars "amigo" ++ [NL] ++ chars "a tail, o".

Lemma grep_prints_witness : grep (chars "a.*o") [long_lines] = Some (chars "amigo" ++ [NL]).
Proof.
  etransitivity; [apply grep_prints; refine (bool_decide_unpack _ _); vm_compute; exact I|]. by vm_compute.
Defined.

(** A line that arrives in two pieces, from a pipe, is dropped, although it
    matches: [if(p == buf) m = 0] forgets what has been read of it; and after
    a NUL nothing more of what was read with it is looked at. *)
Theorem grep_drops_partial_lines :
  grep (chars "ab") [chars "a"; chars "b" ++ [NL]] = Some [] /\
  matching (chars "ab") (complete_lines [] (concat [chars "a"; chars "b" ++ [NL]])).1 = chars "ab" ++ [NL] /\
  grep (chars "a") [[97; 0; 98; NL; 97; NL]] = Some [].
Proof. by vm_compute. Qed.

(** ** Numbers *)

(** C38. [printf("%d")] of every int fits its buffer of sixteen bytes, and
    [atoi] reads a non-negative number back, whatever text that does not
    start with a digit follows. *)
Theorem printf_atoi x rest : 0 <= x < 2 ^ 31 -> match rest with [] => True | c :: _ => ~ 48 <= c <= 57 end ->
  exists l, printf (chars "%d") [AInt x] = Some l /\ atoi (l ++ rest) = x.
Proof.
  intros Hx Hr. destruct (digits_loop_value 16 x) as (l & Hl & _ & Hd & Hv); [lia..|].
  exists (rev l). split.
  - change (printf (chars "%d") [AInt x]) with (p ← printint x 10 true; l ← Some []; Some (p ++ l)).
    unfold printint. replace (s32 x) with x by lia. replace (x <? 0) with false by lia. cbn [andb]. rewrite u32_id, Hl by lia. cbn. by rewrite app_nil_r.
  - unfold atoi. unfold value in Hv. rewrite atoi_loop_value; [done|lia|by apply Forall_rev|done|lia].
Qed.

Lemma printf_atoi_witness : exists l, printf (chars "%d") [AInt 2026] = Some l /\ atoi (l ++ chars " pages") = 2026.
Proof. apply (printf_atoi 2026 (chars " pages")); [lia|]. cbn. lia. Defined.

(** ** The text analyser *)

(** C39. [liSa], started by [dalle] on a text of sentences and not told to
    pause or to end, stops; it has counted the sentences, and the shared
    longest word is one of the text's words, none of which is longer.  The
    text has no NUL, its words have fewer than 20 bytes (longer ones
    overflow the shared arrays), and every sentence has a word of at least
    two characters (otherwise its longest word is recorded as a period). *)
Theorem lisa_longest ss cmds : ss <> [] -> Forall sentence_ok ss -> (length ss <= length cmds)%nat ->
  Forall (fun c => c <> 3 /\ c <> 5) cmds ->
  exists b, lisa (S (length ss)) (render ss) cmds dalle_board = Some b /\ curr_sent b = u32 (Z.of_nat (length ss)) /\
    let ws := concat ((fun s => words_of (st_text s)) <$> ss) in
    longest_word b ∈ ws /\ len_longest b = strlen (longest_word b) /\ Forall (fun w => strlen w <= strlen (longest_word b)) ws.
Proof.
  intros Hne Hss Hc Hcs. destruct (lisa_run ss [] (S (length ss)) cmds dalle_board Hss) as (b & Hb & Hf); [|lia|done|done|].
  { split; [done|]. split; [done|]. split; [done|]. split; [done|constructor]. }
  exists b. split; [done|]. destruct Hf as (_ & Hcount & Hlen & Hin & Hmax). cbn [app] in *.
  split; [done|]. destruct ss; [done|]. rewrite <- Hlen. by split.
Qed.

Definition demo_text : list sentence :=
  [Sentence false (chars "Hello big world") 46; Sentence true (chars "Shared memory works") 33].

Lemma lisa_longest_witness : exists b, lisa 3 (render demo_text) [4; 4] dalle_board = Some b /\ curr_sent b = 2 /\
  let ws := concat ((fun s => words_of (st_text s)) <$> demo_text) in
  longest_word b ∈ ws /\ len_longest b = strlen (longest_word b) /\ Forall (fun w => strlen w <= strlen (longest_word b)) ws.
Proof.
  apply (lisa_longest demo_text [4; 4]); [done| |cbn; lia|repeat constructor; done].
  repeat constructor; try (refine (bool_decide_unpack _ _); vm_compute; exact I); done.
Defined.

(** The shortest word is not found when the shorter words come in growing
    order: the second branch of [check_current_setence] is an [else if], so
    a word that is the longest so far is never compared with [sw]. *)
Theorem lisa_shortest_missed : exists b, check_current_setence (chars "No way") dalle_board = Some b /\
  words_of (chars "No way") = [chars "No"; chars "way"] /\ shortest_word b = SW0 /\ len_shortest b = 5.
Proof. eexists. split; [vm_compute; reflexivity|]. by vm_compute. Qed.
