(* ===== verification/StorageTheorems.v ===== *)
(** * Locks, the buffer cache, the log and pipes

    What the layers below the file system promise. *)

From stdpp Require Import base numbers list gmap strings.
From S2P Require Import Prelude Bytes Machine CString Kalloc Locks LocksSpec Bio BioSpec Log.
From S2P Require Import BioAbs LogSpec.
From S2P Require Import LogCrash LogTx FsState Fs Pipe PipeSpec.
Open Scope Z_scope.

(** ** Transactions *)

(** C2. A transaction is atomic.  [begin_op], the writes of at most
    [MAXOPBLOCKS] blocks through [log_write] and [end_op] run to the end
    and leave on the disk, outside the log, every block as last written.
    If the machine stops between any two block writes of it, and again
    between any two block writes of a recovery, as often as it may, then
    booting brings up a disk with all of the writes or with none. *)
Theorem transaction_atomic pid st sz s ws : idle st sz s -> ws <> [] -> Forall (writable st sz s) ws ->
  Z.of_nat (size (list_to_set ws.*1 : gset Z)) <= MAXOPBLOCKS -> MAXOPBLOCKS + 1 < sz ->
  let D0 := memdisk (bio s) in
  exists s' tx, transaction ws s = Ret ((), s') /\ idle st sz s' /\ writes (bio s') = writes (bio s) ++ tx /\
    (forall m, outside st sz D0 m -> memdisk (bio s') !! Z.to_nat m = Some (updated D0 ws m)) /\
    forall D, crashed pid D0 tx D -> exists r, reboot D pid = Ret ((), r) /\ idle st sz r /\
      ((forall m, outside st sz D0 m -> memdisk (bio r) !! Z.to_nat m = D0 !! Z.to_nat m) \/
       (forall m, outside st sz D0 m -> memdisk (bio r) !! Z.to_nat m = Some (updated D0 ws m))).
Proof. exact (transaction_run pid st sz s ws). Qed.

(** A disk of forty blocks with a log of thirty, and two blocks to write. *)
Definition demo_disk : list (list Z) :=
  <[1%nat := wr (wr zero_block 12 (le32 30)) 16 (le32 2)]> (replicate 40 zero_block).
Definition demo_writes : list (Z * list Z) :=
  [(35, replicate (Z.to_nat BSIZE) 7); (36, replicate (Z.to_nat BSIZE) 8); (35, replicate (Z.to_nat BSIZE) 9)].

Lemma demo_disk_layout : layout demo_disk 2 30 /\ header (nth (Z.to_nat 2) demo_disk []) [].
Proof.
  assert (length zero_block = Z.to_nat BSIZE) as Hz by apply length_replicate.
  assert (length demo_disk = 40%nat) as Hl by (unfold demo_disk; by rewrite length_insert, length_replicate).
  split.
  - split; [|rewrite Hl; lia|vm_compute; reflexivity|vm_compute; reflexivity|rewrite Hl; lia].
    apply Forall_insert; [by apply Forall_replicate|]. by rewrite !length_wr.
  - split; [exact Hz|vm_compute; reflexivity|]. intros k n H. by rewrite lookup_nil in H.
Qed.

Lemma transaction_atomic_witness : exists s s', reboot demo_disk 1 = Ret ((), s) /\
  transaction demo_writes s = Ret ((), s') /\ idle 2 30 s'.
Proof.
  destruct demo_disk_layout as [HD Hh]. destruct (mount_run demo_disk 1 2 30 HD Hh) as (s & Hs & Hi & Hl & _).
  destruct (transaction_atomic 1 2 30 s demo_writes Hi) as (s' & tx & Ht & Hi' & _).
  - done.
  - assert (length demo_disk = 40%nat) as E by (unfold demo_disk; by rewrite length_insert, length_replicate). rewrite E in Hl.
    unfold demo_writes, writable, in_range. rewrite !Forall_cons, Hl. cbn [fst snd].
    split_and!; try lia; try (exact (length_replicate _ _)). constructor.
  - vm_compute. discriminate.
  - vm_compute. reflexivity.
  - exists s, s'. exact (conj Hs (conj Ht Hi')).
Defined.

(** ** Spin locks *)

(** C4. However the instructions of [acquire] and [release] on the CPUs
    interleave, each with at most one access to a lock, no two CPUs hold
    the same spin lock, and the lock word of a held lock is not zero. *)
Theorem spinlock_mutual_exclusion cs n s i j t u k : NoDup (apicid <$> cs) -> rtc step (start cs n) s ->
  threads s !! i = Some t -> threads s !! j = Some u -> k ∈ held t -> k ∈ held u ->
  i = j /\ forall l, locks (lks s) !! k = Some l -> locked l <> 0.
Proof.
  intros Hid Hrun Hi Hj Ht Hu. pose proof (reach_inv _ _ (start_inv cs n Hid) Hrun) as H.
  split; [apply (li_excl _ H i j t u k); [done|done|by left|by left]|].
  intros l Hl. apply (li_locked _ H i t k l); [done|by left|done].
Qed.

Definition demo_cpus : list cpu := [Cpu 0 true 0 false; Cpu 1 true 0 false].
Ltac go := vm_compute; reflexivity.
Ltac turn i := eapply rtc_l; [eapply (st_instr _ i); [go|discriminate|go]|].

Lemma spinlock_mutual_exclusion_witness : exists s t u, rtc step (start demo_cpus 1) s /\
  threads s !! 0%nat = Some t /\ threads s !! 1%nat = Some u /\ ph u = Want 0 /\ 0%nat ∈ held t /\
  0%nat = 0%nat /\ forall l, locks (lks s) !! 0%nat = Some l -> locked l <> 0.
Proof.
  assert (exists s t u, rtc step (start demo_cpus 1) s /\ threads s !! 0%nat = Some t /\ threads s !! 1%nat = Some u /\
    ph u = Want 0 /\ held t = [0%nat]) as (s & t & u & Hrun & Ht & Hu & Hp & Hh).
  { eexists _, _, _. split.
    - eapply rtc_l. { apply (st_call _ 0 Acquire 0%nat []). go. }
      eapply rtc_l. { apply (st_call _ 1 Acquire 0%nat []). go. }
      turn 0%nat. turn 1%nat. turn 0%nat. turn 1%nat. turn 0%nat. turn 1%nat. turn 0%nat. turn 1%nat.
      turn 0%nat. turn 1%nat. turn 0%nat.
      apply rtc_refl.
    - split; [go|]. split; [go|]. split; go. }
  assert (0%nat ∈ held t) as Hin by (rewrite Hh; by apply list_elem_of_singleton).
  exists s, t, u. split; [exact Hrun|]. do 4 (split; [assumption|]).
  apply (spinlock_mutual_exclusion demo_cpus 1 s 0 0 t t 0%nat); [|assumption..].
  apply (bool_decide_unpack _). by vm_compute.
Defined.

(** ** The buffer cache *)

(** C8. [bread] returns the buffer of the block: the cached one, or the
    least recently used buffer that is free and clean.  The buffer is
    locked for the caller and holds the block's current contents, newer
    than the disk's if the block is dirty in the cache.  No block's
    contents change, the disk is not written and the cache stays well
    formed: a ring of all buffers with at most one for a block. *)
Theorem bread_reads s l n i : cache s l -> 0 <= n < Z.of_nat (length (memdisk s)) -> target (core s) l n = Some i ->
  (forall b, cached (core s) n = Some b -> sl_locked (b_lock b) = false /\ b_refcnt b < 2 ^ 32 - 2) ->
  exists s' b, bread 1 n s = Ret (i, s') /\ bufs s' !! i = Some b /\ b_blockno b = n /\ b_data b = view s n /\
    holdingsleep (mypid s) (b_lock b) = true /\ (forall m, view s' m = view s m) /\
    same_disk s s' /\ cache s' l.
Proof.
  intros Hc Hn Ht Hl. destruct (bread_run s l n i Hc Hn Ht Hl) as (s' & Hs' & Hcore & Hd & Hc').
  assert ((i < length (core s))%nat) as Hi by (destruct (target_inv s l n i Hc Ht) as (b & Hb & _); by eapply lookup_lt_Some).
  assert (core s' !! i = Some (opened s n)) as Hlk by (rewrite Hcore; by apply list_lookup_insert_eq).
  apply core_lookup_inv in Hlk as (b & Hb & Hst).
  assert (b_blockno b = b_blockno (opened s n) /\ b_data b = b_data (opened s n) /\ b_lock b = b_lock (opened s n)) as (E1 & E2 & E3)
    by (rewrite <- Hst; done).
  exists s', b. split; [done|]. split; [done|]. rewrite E1, E2, E3, opened_block. split; [done|].
  split; [unfold opened; by destruct (cached (core s) n)|]. split; [|split; [by apply (bread_view s s' l n i)|done]].
  unfold opened. destruct (cached (core s) n); cbn; unfold holdingsleep; cbn; by rewrite Z.eqb_refl.
Qed.

Lemma bread_reads_witness : exists s l i s' b, cache s l /\ bread 1 5 s = Ret (i, s') /\ bufs s' !! i = Some b /\ b_data b = view s 5.
Proof.
  destruct demo_disk_layout as [HD _]. destruct (binit_run demo_disk 1 (ly_blocks _ _ _ HD)) as (s & l & _ & Hq & Hd & _).
  pose proof (h_cache _ _ _ _ Hq) as Hc.
  assert (forall i b, core s !! i = Some b -> b_refcnt b = 0) as Href by (intros i b Hb; by apply (h_free _ _ _ _ Hq i b)).
  destruct (target_some s l 5 Hc) as [i Hi].
  { right. destruct (lookup_lt_is_Some_2 (core s) 0) as [b Hb]; [rewrite (ca_len _ _ Hc); vm_compute; lia|].
    exists 0%nat, b. split; [done|]. split; [by apply (Href 0%nat)|]. intros Hf. by pose proof (h_dirty _ _ _ _ Hq 0%nat b Hb Hf). }
  destruct (bread_reads s l 5 i Hc) as (s' & b & Hs' & Hb & _ & Hv & _); [..|exists s, l, i, s', b; exact (conj Hc (conj Hs' (conj Hb Hv)))].
  - rewrite Hd. unfold zero_bio, demo_disk. cbn [memdisk]. rewrite length_insert, length_replicate. lia.
  - exact Hi.
  - intros b Hb. apply (cached_iff s l 5 b Hc) in Hb as (j & Hj & _). rewrite (Href j b Hj). split; [|lia].
    pose proof (bo_locked _ _ (cache_lookup s l j b Hc Hj)) as Hlk. destruct (sl_locked (b_lock b)); [|done].
    destruct (Hlk eq_refl) as [Hp _]. rewrite (Href j b Hj) in Hp. lia.
Defined.

(** ** Pipes *)

Section pipes.
Context {LK : Linker}.

(** C21. A pipe is a bounded queue: [pipewrite] appends the caller's bytes,
    as many as there is room for.  When all are in, it returns their number and wakes the
    readers; when the pipe is full and the read end is closed or the
    caller is killed it returns -1; else it wakes the readers and goes to
    sleep, to go on with the byte it stopped at. *)
Theorem pipewrite_appends p s x addr l : pipe_is p s x -> readable (fm s) addr l ->
  exists r s' x', pipewrite p addr (Z.of_nat (length l)) s = Ret (r, s') /\ pipe_is p s' x' /\
    queue x' = queue x ++ take (fits x l 0) l /\ write_outcome p s s' x l 0 r /\
    p_readopen x' = p_readopen x /\ p_writeopen x' = p_writeopen x /\ only_pipe p s s'.
Proof.
  intros Hx Hl. pose proof (pipewrite_loop_wp p addr l (length l) s x 0 Hx Hl eq_refl) as H.
  unfold wp, pipewrite, pipewrite_from in *. replace (Z.to_nat (Z.of_nat (length l) - 0)) with (length l) by lia.
  change (Z.of_nat 0) with 0 in H.
  destruct (pipewrite_loop (length l) p addr (Z.of_nat (length l)) 0 s) as [[r s']| | | |]; try done.
  destruct H as (x' & H1 & H2 & H3 & H4 & H5 & _ & H7). exists r, s', x'. do 6 (split; [done|]). done.
Qed.

(** C22. [piperead] takes the oldest bytes of the queue, at most [n], stores
    them in order at the caller's address, returns their number and wakes
    the writers.  On an empty pipe with an open write end it sleeps, or
    returns -1 if the caller is killed; with the write end closed it
    returns 0. *)
Theorem piperead_takes p s x addr n m' : pipe_is p s x -> 0 <= n ->
  store_bytes addr (take (Z.to_nat n) (queue x)) (fm s) = Ret ((), m') ->
  if bool_decide (queue x = []) && p_writeopen x
  then piperead p addr n s = Ret (if mykilled s then Done (-1) else Asleep p 0, s)
  else exists s' x', piperead p addr n s = Ret (Done (Z.of_nat (length (take (Z.to_nat n) (queue x)))), s') /\
    pipe_is p s' x' /\ queue x' = drop (Z.to_nat n) (queue x) /\ fm s' = m' /\
    woken s' = woken s ++ [nwrite_of p] /\ p_readopen x' = p_readopen x /\ p_writeopen x' = p_writeopen x.
Proof.
  intros Hx Hn Hst. unfold piperead. rewrite (run_bind _ _ _ _ _ (getpipe_run p s x (proj1 Hx))), (empty_test x (proj2 Hx)).
  destruct (bool_decide (queue x = []) && p_writeopen x).
  { rewrite (run_bind (gets mykilled) _ s (mykilled s) s eq_refl). by destruct (mykilled s). }
  pose proof (piperead_loop_wp p addr (Z.to_nat n) s x 0 m' Hx) as H. rewrite Z.add_0_r in H. specialize (H Hst).
  unfold wp in H. destruct (piperead_loop (Z.to_nat n) p addr 0 s) as [[r s']| | | |] eqn:E; try done.
  destruct H as (-> & x' & H1 & H2 & H3 & H4 & H5 & H6 & _).
  exists (set_woken (woken s' ++ [nwrite_of p]) s'), x'. rewrite (run_bind _ _ _ _ _ E). split; [done|].
  split; [exact H1|]. split; [done|]. split; [done|]. split; [cbn; by rewrite H6|]. by split.
Qed.
End pipes.
