(* ===== verification/DeviceTheorems.v ===== *)
(** * The console, the keyboard and the trap handler *)

From stdpp Require Import base numbers list gmap strings.
From S2P Require Import Prelude Bytes Machine CString Kalloc Vm Shared FileSys Locks Bio Log.
From S2P Require Import LocksSpec FsState Screen Fs Pipe File Console ConsoleSpec LineSpec Kbd.
From S2P Require Import Proc Syscall Sysfile Exec Trap.
Open Scope Z_scope.

(** ** Output *)

(** C23. [cprintf] prints exactly what its format and arguments stand for,
    a number as the shortest numeral of the word, signed and decimal for
    [%d], unsigned and hexadecimal for [%x] and [%p]: the screen changes as a terminal of 24 lines of 80 columns that shows
    these characters, scrolling included, the serial line receives them,
    and neither the sixteen bytes of [printint] nor the screen's memory
    overflows. *)
Theorem cprintf_shows fmt args out x : screen_ok x -> expand fmt args = Some out ->
  exists x', cprintf fmt args x = Ret ((), x') /\ screen_ok x' /\
    terminal_of x' = foldl (fun t c => type_char c t) (terminal_of x) out /\
    serial x' = serial x ++ sent out x.
Proof.
  intros Hx He. destruct (cprintf_run (length fmt) fmt args out (Nat.le_refl _) He x Hx) as (x' & Hr & [H1 H2 _ H4]). eauto.
Qed.

Definition full_screen : screen := Screen (replicate 2000 1825) 1910 true [] false.

Lemma cprintf_shows_witness : exists x',
  cprintf (chars "%d %s" ++ [NEWLINE]) [VInt (-2026); VStr (Some (chars "lines"))] full_screen = Ret ((), x') /\
  screen_ok x' /\ cursor (terminal_of x') = (23 * 80)%nat /\ serial x' = chars "-2026 lines" ++ [NEWLINE].
Proof.
  destruct (cprintf_shows (chars "%d %s" ++ [NEWLINE]) [VInt (-2026); VStr (Some (chars "lines"))]
    (chars "-2026 lines" ++ [NEWLINE]) full_screen) as (x' & H1 & H2 & H3 & H4).
  - split; [by vm_compute|by vm_compute|done].
  - by vm_compute.
  - exists x'. split; [exact H1|]. split; [exact H2|]. rewrite H3, H4. split; vm_compute; reflexivity.
Defined.

(** ** Input *)

Section input.
Context (input_r : Z).

(** C9. The line discipline: [consoleintr] applies the keys one by one to
    the finished lines and the line being edited.  Backspace and control-U
    erase within the current line only, a key is refused when 128 bytes
    are held, and Enter, control-D and a full buffer finish the line and
    wake the readers.  The screen shows the editing. *)
Theorem consoleintr_edits keys s : Forall (fun c => 0 <= c < 256) keys -> input_ok (cons_in s) -> screen_ok (scr s) ->
  let l := lines_of (cons_in s) in
  exists s', consoleintr input_r keys s = Ret (existsb (fun c => c =? ctrl_P) keys, s') /\
    input_ok (cons_in s') /\ lines_of (cons_in s') = foldl (fun l c => key_spec c l) l keys /\
    shown (echoes keys l) (scr s) (scr s') /\ woken s' = woken s ++ wake_count input_r keys l.
Proof.
  intros Hk Hi Hs l. destruct (consoleintr_run input_r keys Hk s Hi Hs) as (s' & H1 & [H2 H3 H4 H5 _]). eauto 10.
Qed.

(** C29. A line that is typed is the line that is read: from an empty
    buffer, the keys of a line of at most 126 printable characters and
    Enter make [consoleread] with enough room return the line with its
    newline, and nothing is left. *)
Theorem console_reads_typed_line line n s : Forall printable line -> (length line < 127)%nat -> Z.of_nat (length line) < n ->
  input_ok (cons_in s) -> screen_ok (scr s) -> lines_of (cons_in s) = Lines [] [] ->
  exists s1 s2, consoleintr input_r (line ++ [13]) s = Ret (false, s1) /\
    consoleread_from n n s1 = Ret ((CDone (Z.of_nat (length line) + 1), line ++ [NEWLINE]), s2) /\
    lines_of (cons_in s2) = Lines [] [].
Proof.
  intros Hl Hlen Hn Hi Hs H0.
  destruct (consoleintr_run input_r (line ++ [13])) with s as (s1 & H1 & [Hi1 Hl1 _ _ _]); [|done|done|].
  { apply Forall_app. split; [|repeat constructor; lia]. eapply Forall_impl; [exact Hl|]. intros c [Hc1 Hc2]. lia. }
  rewrite H0, type_line in Hl1 by (try done; unfold held; cbn [ready editing length]; unfold INPUT_BUF; lia).
  cbn [ready editing app] in Hl1.
  pose proof (consoleread_loop_run n (S (Z.to_nat n)) n s1 Hi1 ltac:(lia)) as H. cbn zeta in H. rewrite Hl1 in H. cbn [ready editing] in H.
  rewrite (read_spec_line line [] (mykilled s1) n n) in H; [|eapply Forall_impl; [exact Hl|]|done].
  - destruct H as (s2 & H2 & _ & H3 & _). exists s1, s2. rewrite H1. split; [|split; [|done]].
    + do 2 f_equal. rewrite existsb_app. cbn. rewrite !orb_false_r. apply not_true_iff_false. rewrite existsb_exists.
      intros (c & Hc & Hcp). apply list_elem_of_In in Hc. apply (proj1 (Forall_forall _ _) Hl) in Hc as [Hc _]. apply Z.eqb_eq in Hcp. by subst c.
    + unfold consoleread_from. rewrite H2. do 4 f_equal. lia.
  - intros c [Hc1 Hc2]. split; intros ->; [by vm_compute in Hc1|by vm_compute in Hc1].
Qed.
End input.

(** A machine with nothing in it but the console. *)
Definition blank_fs : fs :=
  Fs (Machine ∅ 0 0 false) (Jst (Bst [] None None [] [] 0) (Log 0 0 0 false 0 0 [])) (Superblock 0 0 0 0 0 0 0) [] [] ∅
    (Input (replicate 128 0) (2 ^ 32 - 3) (2 ^ 32 - 3) (2 ^ 32 - 3)) (Screen (replicate 2000 0) 0 true [] false) [] false None.

Lemma blank_fs_ok : input_ok (cons_in blank_fs) /\ screen_ok (scr blank_fs) /\ lines_of (cons_in blank_fs) = Lines [] [].
Proof.
  split; [|split; [split; [by vm_compute|by vm_compute|done]|by vm_compute]].
  split; try (by vm_compute). intros H. by apply not_elem_of_nil in H.
Qed.

Lemma consoleintr_edits_witness : exists s', consoleintr 0 (chars "helo" ++ [8] ++ chars "lo") blank_fs = Ret (false, s') /\
  lines_of (cons_in s') = Lines [] (chars "hello").
Proof.
  destruct blank_fs_ok as (H1 & H2 & _).
  destruct (consoleintr_edits 0 (chars "helo" ++ [8] ++ chars "lo") blank_fs) as (s' & Hr & _ & Hl & _); [|exact H1|exact H2|].
  - apply (bool_decide_unpack _). vm_compute. reflexivity.
  - exists s'. split; [exact Hr|]. rewrite Hl. vm_compute. reflexivity.
Defined.

Lemma console_reads_typed_line_witness : exists s1 s2, consoleintr 0 (chars "hello" ++ [13]) blank_fs = Ret (false, s1) /\
  consoleread_from 100 100 s1 = Ret ((CDone 6, chars "hello" ++ [NEWLINE]), s2) /\ lines_of (cons_in s2) = Lines [] [].
Proof.
  destruct blank_fs_ok as (H1 & H2 & H3).
  apply (console_reads_typed_line 0 (chars "hello") 100 blank_fs);
    [apply (bool_decide_unpack _); vm_compute; reflexivity|vm_compute; lia|vm_compute; reflexivity|exact H1|exact H2|exact H3].
Defined.

(** ** Traps *)

Section traps.
Context {LK : Linker} (input_r : Z).
#[local] Existing Instance xv6_devsw.

(** The current process, if there is one, has not been killed. *)
Definition alive (t : tst) : Prop :=
  forall c p, curproc (kern t) = Some c -> ptable (kern t) !! c = Some p -> killed p = 0.

(** The trap frame at [tf] was saved by a system call or in user mode. *)
Definition from_user (tf : Z) (m : machine) : Prop :=
  (exists m', load32 (tf + TF_TRAPNO) m = Ret (T_SYSCALL, m')) \/
  (exists a b, load8 (tf + TF_CS) m = Ret (a, m) /\ load8 (tf + TF_CS + 1) m = Ret (b, m) /\ user_mode (a + 2 ^ 8 * b) = true).

Lemma mykilled_flag_ret t b t' : mykilled_flag t = Ret (b, t') -> t' = t /\ (b = false -> alive t).
Proof.
  unfold mykilled_flag, alive. intros H. apply bind_ret in H as (o & t1 & [= <- <-] & H).
  destruct (curproc (kern t)) as [c|] eqn:Ec; [|injection H as <- <-; split; [done|by intros _ c p]].
  apply bind_ret in H as (p & t1 & Hp & [= <- <-]). unfold onk, zoom, getp in Hp.
  destruct (ptable (kern t) !! c) as [q|] eqn:Eq; [|done]. injection Hp as <- <-. split; [by destruct t|].
  intros Hb c' p' [= <-] Hp'. rewrite Eq in Hp'. injection Hp' as <-. lia.
Qed.

Lemma die_ret t r t' : die t = Ret (r, t') -> r = Exited.
Proof. unfold die. intros H. apply bind_ret in H as (? & t1 & _ & H). by apply bind_ret in H as (? & t2 & _ & [= <- _]). Qed.

Lemma after_syscall_alive r t t' : after_syscall r t = Ret (Returns, t') -> alive t'.
Proof.
  unfold after_syscall. intros H. apply bind_ret in H as (? & t1 & _ & H). destruct r; [|done|done].
  apply bind_ret in H as (b & t2 & Hk & H). apply mykilled_flag_ret in Hk as [-> Ha].
  destruct b; [by apply die_ret in H|]. injection H as <-. by apply Ha.
Qed.

Lemma trap_yielded_alive cs t t' : user_mode cs = true -> trap_yielded cs t = Ret (Returns, t') -> alive t'.
Proof.
  unfold trap_yielded. intros Hu H. apply bind_ret in H as (b & t2 & Hk & H). apply mykilled_flag_ret in Hk as [-> Ha].
  rewrite Hu in H. destruct b; [by apply die_ret in H|]. injection H as <-. by apply Ha.
Qed.

Lemma load8_ret a m v m' : load8 a m = Ret (v, m') -> m' = m.
Proof. unfold load8. destruct (kaddr m a false); [by intros [= _ <-]|done]. Qed.

Lemma load32_ret a m v m' : load32 a m = Ret (v, m') -> m' = m.
Proof.
  unfold load32. intros H. do 4 (let E := fresh in apply bind_ret in H as (? & ? & E & H); apply load8_ret in E; subst).
  by injection H as _ <-.
Qed.

(** A load from the trap frame leaves the state alone. *)
Lemma on_load {A} (m : M machine A) t v t' : (forall x w x', m x = Ret (w, x') -> x' = x) ->
  onk (onm m) t = Ret (v, t') -> t' = t /\ m (mach (kern t)) = Ret (v, mach (kern t)).
Proof.
  intros Hm. unfold onk, onm, zoom. destruct (m (mach (kern t))) as [[w x]| | | |] eqn:E; try done.
  pose proof (Hm _ _ _ E) as ->. intros [= <- <-]. split; [|done]. destruct t as [[] ? ? ? ?]. done.
Qed.

(** C15. A process that has been killed never goes back to user mode.
    When [trap] returns to the interrupted code after a system call or from
    user mode, and when a process comes back through it after sleeping in
    a system call or after giving up the CPU, the current process has
    not been killed. *)
Theorem trap_returns_alive cpu cr2 tf t t' :
  (trap input_r cpu cr2 tf t = Ret (Returns, t') -> from_user tf (mach (kern t)) -> alive t') /\
  (forall pt, trap_resume pt t = Ret (Returns, t') -> alive t') /\
  (forall cs, user_mode cs = true -> trap_yielded cs t = Ret (Returns, t') -> alive t').
Proof.
  split; [|split; [|intros cs; apply trap_yielded_alive]].
  2: { intros pt H. unfold trap_resume in H. apply bind_ret in H as (r & t1 & _ & H). by apply after_syscall_alive in H. }
  unfold trap. intros H Hu. apply bind_ret in H as (no & t1 & Hno & H). apply on_load in Hno as [-> Hno]; [|apply load32_ret].
  destruct (Z.eqb_spec no T_SYSCALL) as [->|Hne].
  { apply bind_ret in H as (c & t1 & _ & H). apply bind_ret in H as (p & t2 & _ & H).
    destruct (negb (killed p =? 0)); [by apply die_ret in H|]. apply bind_ret in H as (? & t3 & _ & H).
    apply bind_ret in H as (r & t4 & _ & H). by apply after_syscall_alive in H. }
  destruct Hu as [(m' & Hs)|(a & b & Ha & Hb & Hum)]; [rewrite Hno in Hs; by injection Hs as ->|].
  apply bind_ret in H as (a' & t1 & Ha' & H). apply on_load in Ha' as [-> Ha']; [|apply load8_ret]. rewrite Ha in Ha'. injection Ha' as <-.
  apply bind_ret in H as (b' & t1 & Hb' & H). apply on_load in Hb' as [-> Hb']; [|apply load8_ret]. rewrite Hb in Hb'. injection Hb' as <-.
  cbn zeta in H. revert Hum H. generalize (a + 2 ^ 8 * b). intros cs Hum H.
  apply bind_ret in H as (? & t1 & _ & H). apply bind_ret in H as (k & t2 & _ & H). rewrite Hum in H.
  destruct k; [by apply die_ret in H|]. cbn [andb] in H. apply bind_ret in H as (o & t3 & _ & H).
  destruct o as [c|]; [|by apply trap_yielded_alive in H]. apply bind_ret in H as (p & t4 & _ & H).
  destruct (decide _); [|by apply trap_yielded_alive in H].
  destruct (no =? T_IRQ0 + IRQ_TIMER); [|by apply trap_yielded_alive in H]. by apply bind_ret in H as (? & t5 & _ & H).
Qed.

(** ** The keyboard interrupt *)

Definition byte (v : Z) : Prop := 0 <= v < 256.

Lemma tab_byte i data : 0 <= data < 256 -> byte (tab (charcode i) data).
Proof.
  intros Hd. assert (forallb (fun m => forallb (fun v => (0 <=? v) && (v <? 256)) m) [normalmap; shiftmap; ctlmap] = true) as H by (by vm_compute).
  assert (forall v, v ∈ charcode i -> byte v) as Hc.
  { intros v Hv. rewrite forallb_forall in H. specialize (H (charcode i)). unfold byte.
    assert (In (charcode i) [normalmap; shiftmap; ctlmap]) as Hin by (unfold charcode; cbn [In]; destruct (i =? 0), (i =? 1); tauto).
    specialize (H Hin). rewrite forallb_forall in H. apply list_elem_of_In in Hv. specialize (H v Hv). lia. }
  unfold tab. destruct (charcode i !! Z.to_nat data) as [v|] eqn:E.
  - rewrite (nth_lookup_Some _ _ 0 v E). apply Hc. by eapply list_elem_of_lookup_2.
  - rewrite nth_lookup, E. unfold byte. cbn. lia.
Qed.

Lemma lor_byte a : byte a -> byte (Z.lor a 0x80).
Proof.
  intros [H1 H2]. unfold byte. split; [by apply Z.lor_nonneg|].
  destruct (Z.eq_dec a 0) as [-> |Hz]; [by vm_compute|]. apply (Z.log2_lt_pow2 _ 8); [pose proof (Z.lor_nonneg a 0x80); apply Z.le_neq; split; [by apply Z.lor_nonneg|]|].
  - intros E. symmetry in E. apply Z.lor_eq_0_iff in E as [_ E]. done.
  - rewrite Z.log2_lor by lia. assert (Z.log2 a < 8) by (apply Z.log2_lt_pow2; lia). change (Z.log2 0x80) with 7. lia.
Qed.

(** What the keyboard driver hands on is a byte, and each byte of the port
    is consumed. *)
Lemma kbdgetc_ret data rest shift : byte data ->
  exists c shift', kbdgetc (Kbd shift (data :: rest)) = Ret (c, Kbd shift' rest) /\ byte c.
Proof.
  intros Hd. unfold kbdgetc. do 2 (rewrite (run_bind (gets _) _ _ _ _ eq_refl)). cbn [kb_port kb_shift].
  destruct (data =? 0xE0); [by eexists _, _|]. destruct (negb (Z.land data 0x80 =? 0)); [by eexists _, _|].
  assert (exists data' shift', byte data' /\ (if negb (Z.land shift E0ESC =? 0)
    then (Z.lor data 0x80, Z.land shift (Z.lnot E0ESC)) else (data, shift)) = (data', shift')) as (d & sh & Hb & ->).
  { destruct (negb (Z.land shift E0ESC =? 0)); [|by exists data, shift]. eexists _, _. split; [|done]. by apply lor_byte. }
  cbn zeta. eexists _, _. split; [reflexivity|].
  pose proof (tab_byte (Z.land (Z.lxor (Z.lor sh (tab shiftcode d)) (tab togglecode d)) (Z.lor CTL SHIFT)) d Hb) as Ht.
  revert Ht. generalize (tab (charcode (Z.land (Z.lxor (Z.lor sh (tab shiftcode d)) (tab togglecode d)) (Z.lor CTL SHIFT))) d).
  intros c Hc. unfold byte in *. destruct (negb _); [|done]. destruct ((97 <=? c) && (c <=? 122)) eqn:E1; [lia|].
  destruct ((65 <=? c) && (c <=? 90)) eqn:E2; lia.
Qed.

Lemma kbd_keys_ret port : Forall byte port -> forall shift,
  exists keys shift', kbd_keys (S (length port)) (Kbd shift port) = Ret (keys, Kbd shift' []) /\ Forall byte keys /\
    length keys = length port.
Proof.
  induction 1 as [|data rest Hd _ IH]; intros shift; [by exists [], shift|].
  destruct (kbdgetc_ret data rest shift Hd) as (c & sh & Hc & Hb). destruct (IH sh) as (keys & sh' & Hk & Hf & Hl).
  exists (c :: keys), sh'. split; [|split; [by constructor|cbn; by rewrite Hl]].
  cbn [length]. change (kbd_keys (S (S (length rest)))) with
    (c ← kbdgetc; if c <? 0 then mret [] else l ← kbd_keys (S (length rest)); mret (c :: l)).
  rewrite (run_bind _ _ _ _ _ Hc). replace (c <? 0) with false by (unfold byte in Hb; lia). by rewrite (run_bind _ _ _ _ _ Hk).
Qed.

Lemma wakeups_run chs : forall k, exists ps, wakeups chs k = Ret ((), set_ptable ps k) /\ length ps = length (ptable k).
Proof.
  induction chs as [|ch chs IH]; intros k; cbn [wakeups]; [exists (ptable k); split; [by destruct k|done]|].
  unfold Proc.wakeup, wakeup1, modify. unfold mbind at 1, M_bind at 1. destruct (IH (set_ptable ((fun p => if decide (state p = SLEEPING /\ chan p = ch) then set_state RUNNABLE p else p) <$> ptable k) k)) as (ps & -> & Hl).
  exists ps. split; [by destruct k|]. cbn in Hl. by rewrite length_fmap in Hl.
Qed.

(** C30. A keyboard interrupt is always handled, whatever the keyboard
    sends and whatever is on the screen and in the input buffer: the scan
    codes are decoded to bytes and all consumed, the keys edit the line,
    the screen and the buffer stay well formed, memory is not touched and
    no wakeup is left undelivered. *)
Theorem kbdintr_handles t : Forall byte (kb_port (keyboard t)) ->
  input_ok (cons_in (fsys (kern t))) -> screen_ok (scr (fsys (kern t))) ->
  exists keys t', kbdintr input_r t = Ret ((), t') /\ Forall byte keys /\ length keys = length (kb_port (keyboard t)) /\
    kb_port (keyboard t') = [] /\ input_ok (cons_in (fsys (kern t'))) /\ screen_ok (scr (fsys (kern t'))) /\
    lines_of (cons_in (fsys (kern t'))) = foldl (fun l c => key_spec c l) (lines_of (cons_in (fsys (kern t)))) keys /\
    mach (kern t') = mach (kern t) /\ woken (fsys (kern t')) = [].
Proof.
  intros Hp Hi Hs. destruct t as [k tk [sh port] c1 fi]. cbn [keyboard kb_port kern] in *.
  destruct (kbd_keys_ret port Hp sh) as (keys & sh' & Hk & Hf & Hl). exists keys.
  set (f := set_fm (mach k) (entered k)).
  assert (cons_in f = cons_in (fsys k) /\ scr f = scr (fsys k)) as [Ec Es].
  { subst f. unfold entered. by destruct (curproc k ≫= _). }
  destruct (consoleintr_run input_r keys Hf f) as (f' & Hr & [H1 H2 [H3 _ _ _] _ H5]); [by rewrite Ec|by rewrite Es|].
  set (k1 := set_mach (fm f') (set_fsys (FS := xv6_files) f' k)).
  destruct (wakeups_run (woken f') k1) as (ps & Hw & _).
  exists (Tst (set_fsys (FS := xv6_files) (set_woken [] f') (set_ptable ps k1)) tk (Kbd sh' []) c1 fi).
  split; [|split; [done|]; split; [done|]; split; [done|]; split; [exact H1|]; split; [exact H3|]; split; [by rewrite <- Ec|]; split; [|done]].
  - unfold kbdintr. rewrite (run_bind _ _ _ keys (Tst k tk (Kbd sh' []) c1 fi)).
    2: { unfold zoom. cbn [keyboard]. rewrite (run_bind (gets _) _ _ _ _ eq_refl). cbn [kb_port]. by rewrite Hk. }
    rewrite (run_bind _ _ _ (existsb (fun c => c =? ctrl_P) keys) (Tst k1 tk (Kbd sh' []) c1 fi)).
    2: { unfold onk, onf, onfs, lift, zoom. cbn [kern fst snd]. fold f. by rewrite Hr. }
    unfold onk, deliver, zoom. cbn [kern]. rewrite (run_bind (gets _) _ _ _ _ eq_refl).
    change (woken (fsys k1)) with (woken f'). by rewrite (run_bind _ _ _ _ _ Hw).
  - cbn. by rewrite H5.
Qed.
End traps.
