(* ===== verification/MemoryTheorems.v ===== *)
(** * Correctness of the memory subsystem

    The properties of [kalloc.c], [vm.c] and the memory routines of
    [string.c], for any placement of the kernel by the linker.  [wp m s Q]
    says that [m] returns from [s], without panic and without a fault, in
    a state that satisfies [Q]. *)

From stdpp Require Import base numbers list gmap strings sorting.
From S2P Require Import Prelude Machine CString Kalloc Vm PageTable VmMap VmUser VmAlloc VmFree.
From S2P Require Import VmKernel VmCopy VmAccess Shared.
Open Scope Z_scope.

Section memory.
Context {LK : Linker}.

(** [kfree] puts a page at the head of the free list and the next
    [kalloc] returns that page, leaving the list as it was; only the page
    itself is written. *)
Theorem kfree_kalloc s l v : kmem_inv s l -> valid_page v -> v ∉ l ->
  wp (_ ← kfree v; kalloc) s (fun r s' =>
    r = v /\ kmem_inv s' l /\ frame {[v]} (mem s) (mem s') /\ cr3 s' = cr3 s).
Proof.
  intros Hk Hv Hn. rewrite wp_bind. eapply wp_mono; [by apply kfree_wp|].
  intros [] s1 (Hk1 & Hf1 & Hc1 & _). eapply wp_mono; [by apply (kalloc_wp s1 (v :: l))|].
  cbv beta. intros r s2 (-> & _ & _ & Hk2 & Hm & Hc2 & _). rewrite Hm. naive_solver congruence.
Qed.

(** [freerange], the body of [kinit1] and [kinit2], puts exactly the
    whole pages of the range on the free list and keeps the list well
    formed. *)
Theorem freerange_frees s l vstart vend : kmem_inv s l -> ld_end <= vstart -> vstart <= vend ->
  vend <= KERNBASE + PHYSTOP -> (forall q, q ∈ l -> q < vstart \/ vend <= q) ->
  wp (freerange vstart vend) s (fun _ s' => exists l', kmem_inv s' l' /\
    (forall q, q ∈ l' <-> q ∈ l \/ (q mod PGSIZE = 0 /\ vstart <= q /\ q + PGSIZE <= vend)) /\
    frame (list_to_set l') (mem s) (mem s')).
Proof.
  intros Hk Hs Hse He Hl. eapply wp_mono; [by apply (freerange_wp s l vstart vend)|].
  intros [] s' (l' & ? & ? & ? & _). eauto.
Qed.

(** [memmove] copies the source as it was before the call, also when
    the two ranges overlap in either direction, and writes nothing else. *)
Theorem memmove_overlap s dst src n : ram_range dst n -> ram_range src n ->
  wp (memmove dst src n) s (fun _ s' =>
    (forall i, 0 <= i < n -> ld8 (mem s') (dst + i) = ld8 (mem s) (src + i)) /\
    (forall b, ~ dst <= b < dst + n -> ld8 (mem s') b = ld8 (mem s) b)).
Proof.
  intros Hd Hs. eapply wp_mono; [by apply memmove_ram|]. intros [] s' [_ Hw]. split.
  - intros i Hi. rewrite (Hw _). wrote_case. f_equal. lia.
  - intros b Hb. rewrite (Hw _). wrote_case.
Qed.

(** C34. [mappages] on unmapped addresses either maps every page of the
    range to consecutive frames with the given permissions, or returns -1
    when no page is left for a page table; entries outside the range, the
    rest of memory and the pages that stay free are untouched. *)
Theorem mappages_maps s l d va size pa perm : pt_sep s l d -> 0 <= va -> 0 < size ->
  va + size <= 2 ^ 32 -> pa mod PGSIZE = 0 -> 0 <= pa ->
  pa + npages va size * PGSIZE <= 2 ^ 32 -> 0 <= perm < 4096 ->
  (forall a, page_of va <= a < va + size -> mapped_page (mem s) d a = false) ->
  wp (mappages d va size pa perm) s (fun r s' => exists l', pt_extend s l s' l' d /\
    ((r = 0 /\ mapped (mem s) (mem s') d (page_of va) (npages va size) pa perm) \/
     (r = -1 /\ l' = []))).
Proof.
  intros. eapply wp_mono; [by apply (mappages_wp s l)|].
  cbv beta. intros r s' (l' & k & Hext & Hm & [[-> ->]|(-> & -> & _)]); eauto 6.
Qed.

(** C32. [deallocuvm] returns exactly the frames mapped between the two
    sizes to the free list, unmaps them, and changes no other entry, no
    page table and no other page. *)
Theorem deallocuvm_returns s l d oldsz newsz n : 0 <= newsz < oldsz -> oldsz <= KERNBASE ->
  covers (PGROUNDUP newsz) n oldsz -> user_sep s l d (PGROUNDUP newsz) n ->
  wp (deallocuvm d oldsz newsz) s (fun r s' => r = newsz /\ exists l', kmem_inv s' l' /\
    l' ≡ₚ user_frames (mem s) d (PGROUNDUP newsz) n ++ l /\ tables (mem s') d = tables (mem s) d /\
    unmapped (mem s) (mem s') d (PGROUNDUP newsz) n /\
    frame (tables (mem s) d ∪ list_to_set (user_frames (mem s) d (PGROUNDUP newsz) n))
      (mem s) (mem s')).
Proof.
  intros. eapply wp_mono; [by apply (deallocuvm_wp s l)|].
  intros r s' (-> & l' & ? & ? & _ & ? & _ & ? & ? & _). eauto 8.
Qed.

(** C31. [allocuvm] either maps a distinct, zeroed, user-writable frame at
    every page between the two sizes and returns the new size, or returns
    0 and the directory maps what it mapped before, the pages it took
    being back on the free list (except those that became page tables). *)
Theorem allocuvm_grows s l d oldsz newsz : 0 <= oldsz <= newsz -> newsz < SHAREDBASE ->
  pt_sep s l d ->
  (forall va, PGROUNDUP oldsz <= va < PGROUNDUP newsz -> mapped_page (mem s) d va = false) ->
  wp (allocuvm d oldsz newsz) s (fun r s' =>
    (r = newsz /\ exists l',
       alloc_post s l d (PGROUNDUP oldsz) (alloc_pages oldsz newsz) s' l' /\
       user_sep s' l' d (PGROUNDUP oldsz) (alloc_pages oldsz newsz)) \/
    (r = 0 /\ exists l', same_user s l d [] s' l')).
Proof.
  intros Hsz Hmax Hsep Hun. eapply wp_mono; [by apply (allocuvm_wp s l)|].
  cbv beta. intros r s' [(-> & l' & Hp)|Hf]; [left|by right]. split; [done|].
  exists l'. split; [done|]. eapply alloc_sep; [done|]. apply Hp.
Qed.

(** C33. [freevm] returns the directory, all its page tables and every
    frame mapped below SHAREDBASE to the free list, each once; frames
    mapped from SHAREDBASE on, which belong to the process that shared
    them, are neither freed nor written. *)
Theorem freevm_returns s l d n : Z.of_nat n * PGSIZE = SHAREDBASE -> user_sep s l d 0 n ->
  wp (freevm d) s (fun _ s' => exists l', kmem_inv s' l' /\
    l' ≡ₚ d :: tabs (mem s) d 0 1024 ++ user_frames (mem s) d 0 n ++ l /\
    forall b, page_of b ∉ space (mem s) d n -> ld8 (mem s') b = ld8 (mem s) b).
Proof.
  intros Hn Hsep. eapply wp_mono; [by apply (freevm_wp s l d n)|].
  intros [] s' (l' & Hk & Hp & Hf & _). exists l'. split; [done|]. split.
  - rewrite Hp. unfold space. simpl. by rewrite app_assoc.
  - intros b Hb. apply Hf. by rewrite elem_of_list_to_set.
Qed.

(** C35. [setupkvm] returns a directory that maps exactly the rows of
    [kmap]: physical memory below PHYSTOP at KERNBASE, not accessible to
    user code, and nothing in the user half.  When memory runs out it
    returns 0 with every page back on the free list. *)
Theorem setupkvm_maps s l n : Z.of_nat n * PGSIZE = SHAREDBASE -> kmem_inv s l ->
  wp setupkvm s (fun d s' =>
    (d <> 0 /\ (exists l', new_space s l d n s' l') /\
     (forall va, 0 <= va < KERNBASE -> mapped_page (mem s') d va = false) /\
     (forall pa, 0 <= pa < PHYSTOP -> mapped_page (mem s') d (P2V pa) = true /\
        uaddr (mem s') d (P2V pa) = P2V pa /\ flag_set (pte (mem s') d (P2V pa)) PTE_U = false)) \/
    (d = 0 /\ returned s l s')).
Proof.
  intros Hn Hk. eapply wp_mono; [by apply (setupkvm_wp s l n)|]. cbv beta.
  intros d s' [(Hd & l' & Hnew & Hpte)|Hr]; [left|by right]. split; [done|]. split; [eauto|].
  split.
  - intros va Hva. unfold mapped_page. rewrite Hpte, kmap_low by lia. done.
  - intros pa Hpa. destruct (kmap_direct pa Hpa) as (Hp & Ha & Hu).
    unfold mapped_page, uaddr, uframe. rewrite Hpte, Ha by lia. split; [done|]. split; [lia|done].
Qed.

(** C14. [copyuvm] returns a new address space whose pages below [sz] hold
    the bytes of the parent's with the parent's permissions, in frames
    taken from the free list, next to the kernel mapping; the parent's
    entries and bytes are unchanged.  When memory runs out it returns 0
    with every page back on the free list. *)
Theorem copyuvm_copies s l pg sz n np : Z.of_nat n * PGSIZE = SHAREDBASE -> 0 <= sz <= SHAREDBASE ->
  covers 0 np sz -> user_sep s l pg 0 np ->
  (forall va, 0 <= va < Z.of_nat np * PGSIZE -> mapped_page (mem s) pg va = true) ->
  wp (copyuvm pg sz) s (fun d s' =>
    (d <> 0 /\ (exists l', new_space s l d n s' l') /\
     (forall va, 0 <= va < Z.of_nat np * PGSIZE ->
        mapped_page (mem s') d va = true /\
        PTE_FLAGS (pte (mem s') d va) = PTE_FLAGS (pte (mem s) pg va) /\
        ld8 (mem s') (uaddr (mem s') d va) = ld8 (mem s) (uaddr (mem s) pg va) /\
        uframe (mem s') d va ∈ l) /\
     (forall va, 0 <= va < Z.of_nat np * PGSIZE -> pte (mem s') pg va = pte (mem s) pg va /\
        ld8 (mem s') (uaddr (mem s) pg va) = ld8 (mem s) (uaddr (mem s) pg va))) \/
    (d = 0 /\ returned s l s')).
Proof.
  intros Hn Hsz Hcov Hsep Hmap. eapply wp_mono; [by apply (copyuvm_wp s l pg sz n np)|].
  cbv beta. intros d s' [(Hd & l' & Hnew & Hhi & Hlo)|Hr]; [left|by right].
  pose proof Hnew as (_ & _ & (new & Hperm & _) & Hf & _).
  destruct (parent_intact s l pg sz n np Hn Hsz Hcov Hsep Hmap s' Hf) as (_ & Hpte & Hin).
  split; [done|]. split; [eauto|]. split; intros va Hva.
  - destruct (Hlo va Hva) as (Hm & Hfl & Hb). do 3 (split; [done|]).
    assert (uframe (mem s') d va ∈ user_frames (mem s') d 0 n) as Hu.
    { apply elem_of_user_frames; [done|unfold covers in Hcov; lia|done]. }
    rewrite Hperm. clear -Hu. set_solver.
  - split; [done|]. by apply Hin.
Qed.

(** C36. [copyout] stores the bytes of the kernel buffer at the user
    addresses [va .. va+len), across page boundaries, and changes neither
    other bytes nor the page table. *)
Theorem copyout_copies s d va buf len : copyout_ok (mem s) d va buf len ->
  wp (copyout d va buf len) s (fun r s' => r = 0 /\
    (forall i, 0 <= i < len -> ld8 (mem s') (uaddr (mem s') d (va + i)) = ld8 (mem s) (buf + i)) /\
    (forall a, pte (mem s') d a = pte (mem s) d a) /\
    (forall b, (forall i, 0 <= i < len -> b <> uaddr (mem s) d (va + i)) ->
       ld8 (mem s') b = ld8 (mem s) b)).
Proof.
  intros Hok. eapply wp_mono; [by apply copyout_wp|].
  intros r s' (-> & _ & Hpte & Hin & Hout). split; [done|]. split; [|done].
  intros i Hi. unfold uaddr, uframe. rewrite Hpte. by apply Hin.
Qed.

(** [uva2ka], and with it [copyout], refuses a page that user code may
    not access: the guard page below a stack, or an unmapped page whose
    page table exists. *)
Theorem copyout_refuses s d va buf len : wf_pgdir (mem s) d -> 0 <= va < 2 ^ 32 -> 0 < len ->
  present (mem s) d (PDX va) = true -> user_page (mem s) d va = false ->
  copyout d va buf len s = Ret (-1, s).
Proof. apply copyout_refused. Qed.

(** [uva2ka] does not test the result of [walkpgdir]: when the page
    table is missing it dereferences NULL, which faults unless the current
    address space happens to map address 0. *)
Theorem uva2ka_null s d va : wf_pgdir (mem s) d -> present (mem s) d (PDX va) = false ->
  mmu (mem s) (cr3 s) 0 false = None -> uva2ka d va s = Fault 0.
Proof.
  intros Hwf Hp Hm. rewrite uva2ka_no_table by done. unfold mbind, M_bind, load32.
  unfold mbind, M_bind, load8, kaddr. simpl. by rewrite Hm.
Qed.


End memory.
