(* ===== verification/ProcessTheorems.v ===== *)
(** * Correctness of processes and of the shared-memory calls

    For any placement of the kernel.  The calls that only read and write
    the caller's memory and table hold for any file system; [fork], [exit]
    and the kernel as a whole run with the file system of [Fs.v] and
    [File.v]. *)

From stdpp Require Import base numbers list gmap strings sorting.
From S2P Require Import Prelude Machine CString CStringSpec Kalloc Vm PageTable VmMap VmUser.
From S2P Require Import VmAlloc VmFree VmKernel VmCopy VmAccess Shared FileSys Proc Syscall.
From S2P Require Import FsState Fs FsInv FsTx Sysfile FilesOk Refs SyscallSpec ProcSpec.
From S2P Require Import Ownership Growth Lifecycle.
Open Scope Z_scope.

Section process.
Context {LK : Linker} {FS : FileSys}.

(** C25. [share_data] with good arguments: it fills the first free entry
    with the name, address and size and returns its index, unless an entry
    before it has the same name (-2) or all entries are taken by other
    names (-3); on -2 and -3 nothing changes. *)
Theorem share_data_behaviour k c p nm len vm_start sz : running k c p ->
  str_arg k p 0 = Some (nm, len) -> ptr_arg k p 1 4 = Some vm_start -> int_arg k p 2 = Some sz ->
  exists r k', sys_share_data k = Ret (r, k') /\
    ((exists i e, p_shared p !! i = Some e /\ size e = 0 /\ r = Z.of_nat i /\
        (forall j x, (j < i)%nat -> p_shared p !! j = Some x ->
           size x <> 0 /\ sname x <> uname k p nm) /\
        k' = share_set k c p i (Shared (stored_name (uname k p nm)) vm_start sz)) \/
     (r = -2 /\ k' = k /\ exists i e, p_shared p !! i = Some e /\ sname e = uname k p nm /\
        forall j x, (j <= i)%nat -> p_shared p !! j = Some x -> size x <> 0) \/
     (r = -3 /\ k' = k /\
        forall e, e ∈ p_shared p -> size e <> 0 /\ sname e <> uname k p nm)).
Proof.
  intros Hrun H0 H1 H2. rewrite (sys_share_data_run k c p Hrun), H0, H1, H2.
  destruct (share_find _ _ _) as [r|i] eqn:E.
  - exists r, k. split; [done|]. right.
    destruct (share_find_inl _ _ _ _ E) as [(-> & i & e & He & Hn & Hlt)|(-> & Hall)]; [left|right].
    + do 2 (split; [done|]). exists i, e. do 2 (split; [done|]). intros j x Hj. by apply Hlt.
    + done.
  - destruct (share_find_inr _ _ _ _ E) as (t & -> & Ht & Hlt & e & He & Hz).
    eexists _, _. split; [done|]. left. exists t, e. do 3 (split; [done|]).
    split; [|done]. intros j x Hj. by apply Hlt.
Qed.

(** C28. [share_data] and [get_data] return -1, with the state unchanged,
    exactly when an argument is not readable: the name is not a string
    inside the process, or the pointer (or the size word) is outside it. *)
Theorem shared_calls_bad_argument k c p : running k c p ->
  (sys_share_data k = Ret (-1, k) <->
     str_arg k p 0 = None \/ ptr_arg k p 1 4 = None \/ int_arg k p 2 = None) /\
  (str_arg k p 0 = None \/ ptr_arg k p 1 4 = None -> sys_get_data k = Ret (-1, k)).
Proof.
  intros Hrun. rewrite (sys_share_data_run k c p Hrun), (sys_get_data_run k c p Hrun).
  destruct (str_arg k p 0) as [[nm len]|]; [|split; [split; auto|done]].
  destruct (ptr_arg k p 1 4) as [a|]; [|split; [split; auto|done]].
  split; [|intros [|]; done].
  destruct (int_arg k p 2) as [z|]; [|split; auto].
  split; [|intros [|[|]]; done].
  destruct (share_find _ _ _) as [r|i] eqn:E.
  - destruct (share_find_inl _ _ _ _ E) as [(-> & _)|(-> & _)]; discriminate.
  - intros [=]. lia.
Qed.

(** C26. [get_data] with good arguments stores the address in the first
    entry of the table that carries the given name at the user's pointer
    and returns 0, changing nothing else.  The code does not look at the
    size of an entry, so entries not in use count too: the empty name
    matches a blank entry, and the address stored is then that entry's.  It
    returns -2, and changes nothing, only when no entry at all carries the
    name. *)
Theorem get_data_behaviour k c p nm len addr : running k c p ->
  str_arg k p 0 = Some (nm, len) -> ptr_arg k p 1 4 = Some addr ->
  wp sys_get_data k (fun r k' =>
    (r = 0 /\ exists i e, p_shared p !! i = Some e /\ sname e = uname k p nm /\
       (forall j x, (j < i)%nat -> p_shared p !! j = Some x -> sname x <> uname k p nm) /\
       k' = set_mach (mach k') k /\ uword (mem (mach k')) (pgdir p) addr = u32 (memstart e) /\
       ustored (mach k) (pgdir p) (sz p) addr (memstart e) (mach k')) \/
    (r = -2 /\ k' = k /\ forall e, e ∈ p_shared p -> sname e <> uname k p nm)).
Proof.
  intros Hrun H0 H1. destruct (get_find (uname k p nm) (p_shared p)) as [[i e]|] eqn:E.
  - eapply wp_mono; [by eapply (sys_get_data_ok k c p)|].
    intros r k' (-> & Hk & Hst & Hw). left. split; [done|]. exists i, e.
    apply list_find_Some in E as (He & Hn & Hlt). do 2 (split; [done|]). split; [|done].
    intros j x Hj Hx. by eapply Hlt.
  - unfold wp. rewrite (sys_get_data_run k c p Hrun), H0, H1, E. right. do 2 (split; [done|]).
    apply list_find_None in E. rewrite Forall_forall in E. done.
Qed.

(** C27. Once [share_data] has succeeded, [get_data] run later by a process
    with that table finds the structure: under the reported name it returns
    0 and stores the reported address.  Under another name it answers as it
    would have before, the address of the first entry of that name or -2,
    unless that entry was the one written over (a free entry can still carry
    the name of a structure that is gone). *)
Theorem share_then_get k c p nm len vm_start r k' : running k c p ->
  str_arg k p 0 = Some (nm, len) -> ptr_arg k p 1 4 = Some vm_start ->
  sys_share_data k = Ret (r, k') -> 0 <= r ->
  exists p', ptable k' !! c = Some p' /\
    forall k2 c2 p2 nm2 len2 addr, running k2 c2 p2 -> p_shared p2 = p_shared p' ->
      str_arg k2 p2 0 = Some (nm2, len2) -> ptr_arg k2 p2 1 4 = Some addr ->
      (uname k2 p2 nm2 = uname k p nm ->
         wp sys_get_data k2 (fun v k3 => v = 0 /\ uword (mem (mach k3)) (pgdir p2) addr = u32 vm_start)) /\
      (uname k2 p2 nm2 <> uname k p nm ->
         (forall j e, p_shared p !! j = Some e -> sname e = uname k2 p2 nm2 ->
            (forall i x, (i < j)%nat -> p_shared p !! i = Some x -> sname x <> uname k2 p2 nm2) ->
            Z.of_nat j <> r ->
            wp sys_get_data k2 (fun v k3 => v = 0 /\
              uword (mem (mach k3)) (pgdir p2) addr = u32 (memstart e))) /\
         ((forall e, e ∈ p_shared p -> sname e <> uname k2 p2 nm2) ->
            sys_get_data k2 = Ret (-2, k2))).
Proof.
  intros Hrun H0 H1 Hcall Hr. rewrite (sys_share_data_run k c p Hrun), H0, H1 in Hcall.
  destruct (int_arg k p 2) as [sz|]; [|injection Hcall; lia].
  destruct (share_find _ _ _) as [x|i] eqn:Hf.
  { destruct (share_find_inl _ _ _ _ Hf) as [(-> & _)|(-> & _)]; injection Hcall; lia. }
  injection Hcall as <- <-. eexists. split.
  { apply list_lookup_insert_eq. eapply lookup_lt_Some, (run_proc _ _ _ Hrun). }
  cbn [p_shared set_p_shared]. intros k2 c2 p2 nm2 len2 addr Hrun2 Hsh G0 G1.
  assert (forall j e, get_find (uname k2 p2 nm2) (p_shared p2) = Some (j, e) ->
    wp sys_get_data k2 (fun v k3 => v = 0 /\ uword (mem (mach k3)) (pgdir p2) addr = u32 (memstart e))) as Hget.
  { intros j e Hje. eapply wp_mono; [by eapply (sys_get_data_ok k2 c2 p2 Hrun2)|]. by intros v k3 (-> & _ & _ & ?). }
  split; [|intros Hne; split].
  - intros Hn. apply (Hget i (Shared (stored_name (uname k p nm)) vm_start sz)). rewrite Hsh, Hn. by apply share_get_find; [|apply sname_stored].
  - intros j e Hj Hn Hlt Hji. apply (Hget j). rewrite Hsh.
    assert (get_find (uname k2 p2 nm2) (p_shared p) = Some (j, e)) as E.
    { apply list_find_Some. do 2 (split; [done|]). intros x y Hx Hxj. by eapply Hlt. }
    rewrite get_insert_other; [done| |].
    + unfold uname in *. rewrite sname_stored. by apply not_eq_sym.
    + intros y. rewrite E. intros [= Hij _]. lia.
  - intros Hall. rewrite (sys_get_data_run k2 c2 p2 Hrun2), G0, G1, Hsh.
    assert (get_find (uname k2 p2 nm2) (p_shared p) = None) as E.
    { apply list_find_None, Forall_forall. done. }
    rewrite get_insert_other, E; [done| |by rewrite E].
    unfold uname in *. rewrite sname_stored. by apply not_eq_sym.
Qed.

(** [get_data] does not look at the size of an entry: the empty name
    matches the first unused entry, and the call returns 0 with that
    entry's address instead of -2. *)
Theorem get_data_empty_name k c p nm len addr e sh : running k c p ->
  str_arg k p 0 = Some (nm, len) -> ptr_arg k p 1 4 = Some addr -> uname k p nm = [] ->
  p_shared p = e :: sh -> size e = 0 -> sname e = [] ->
  wp sys_get_data k (fun r k' => r = 0 /\
    uword (mem (mach k')) (pgdir p) addr = u32 (memstart e)).
Proof.
  intros Hrun H0 H1 Hnm Hsh Hz Hn.
  eapply wp_mono; [eapply (sys_get_data_ok k c p Hrun nm len addr 0%nat e H0 H1)|].
  - unfold get_find. rewrite Hsh, Hnm. simpl. by rewrite decide_True.
  - cbv beta. intros r k' (-> & _ & _ & Hw). done.
Qed.

(** [kill(0)] finds an unused entry, whose pid is 0, returns 0 and
    leaves the entry marked as killed; the next process created in that
    entry starts out killed. *)
Theorem kill_zero k l i p : kmem_inv (mach k) l -> first_unused k i p -> pid p = 0 ->
  (forall j q, (j < i)%nat -> ptable k !! j = Some q -> pid q <> 0) ->
  wp (r ← kill 0; o ← allocproc; mret (r, o)) k (fun '(r, o) k' => r = 0 /\
    (o = None \/ exists q, o = Some i /\ ptable k' !! i = Some q /\ state q = EMBRYO /\ killed q = 1)).
Proof.
  intros Hk Hfi Hp0 Hlt. destruct (first_unused_lookup _ _ _ Hfi) as [Hp Hu].
  assert (list_find (fun p => pid p = 0) (ptable k) = Some (i, p)) as Hf.
  { apply list_find_Some. split_and!; [done|done|]. intros j q Hq Hj. by eapply Hlt. }
  rewrite wp_bind. unfold kill. wp_steps. rewrite Hf.
  rewrite wp_bind, (wp_setp k i p) by done. rewrite wp_bind, (wp_getp_upd k i p Hp), wp_bind.
  rewrite decide_False by (cbn; congruence). apply wp_ret, wp_ret. rewrite wp_bind.
  set (k1 := upd k i (set_killed 1 p)).
  assert (first_unused k1 i (set_killed 1 p)) as Hfi1.
  { apply list_find_Some in Hfi as (_ & _ & Hb). apply list_find_Some.
    split_and!; [by eapply upd_lookup|done|]. intros j q Hq Hj. unfold k1 in Hq.
    rewrite upd_lookup_ne in Hq by lia. by eapply Hb. }
  apply (allocproc_wp k1 l); [done| | |].
  - intros Hn. unfold first_unused in Hfi1. congruence.
  - intros j q _ _. apply wp_ret. split; [done|by left].
  - intros j q ks l' s' Hj -> _. unfold first_unused in *. rewrite Hfi1 in Hj. injection Hj as <- <-.
    apply wp_ret. split; [done|]. right. eexists. split; [done|].
    split; [by eapply (upd_lookup (set_mach s' k1)), (upd_lookup k)|]. done.
Qed.

Section lifecycle.
Context (n : nat) (Hn : Z.of_nat n * PGSIZE = SHAREDBASE).

(** C12. [wait] either collects a zombie child, returning its pid, freeing
    its kernel stack, page directory, page tables and memory and leaving
    the entry unused; or returns -1 when the caller has no children or was
    killed; or goes to sleep because none of its children is a zombie. *)
Theorem wait_behaviour k P l c cp : own_inv n k P l -> curproc k = Some c -> ptable k !! c = Some cp ->
  wp wait k (fun r k' =>
    (exists i p s' l', ptable k !! i = Some p /\ parent p = Some c /\ state p = ZOMBIE /\
       r = Some (pid p) /\ k' = upd (set_mach s' k) i (reaped p) /\ own_inv n k' P l' /\
       l' ≡ₚ kstack p :: space (mem (mach k)) (pgdir p) n ++ l) \/
    (r = Some (-1) /\ k' = k /\
       ((forall i p, ptable k !! i = Some p -> parent p <> Some c) \/ killed cp <> 0)) \/
    (r = None /\ k' = upd k c (set_state SLEEPING (set_chan (proc_addr (Some c)) cp)) /\
       killed cp = 0 /\ (exists i p, ptable k !! i = Some p /\ parent p = Some c) /\
       forall i p, ptable k !! i = Some p -> parent p = Some c -> state p <> ZOMBIE)).
Proof.
  intros Hinv Hc Hcp. eapply wp_mono; [by apply (wait_wp n Hn k P l c cp)|].
  intros r k' [(i & p & s' & l' & H1 & H2 & H3 & H4 & H5 & H6 & _ & H7)|[H|H]]; [left|right; by left|right; by right].
  exists i, p, s', l'. split_and!; done.
Qed.

(** Shrinking a process to size 0: [growproc] takes the new size 0 for an
    error, but the memory is gone. *)
Lemma growproc_to_zero k P l c p : own_inv n k P l -> curproc k = Some c -> ptable k !! c = Some p ->
  state p <> UNUSED -> 0 < sz p ->
  wp (growproc (- sz p)) k (fun r k' => r = -1 /\ ptable k' = ptable k /\
    (forall va, 0 <= va < PGROUNDUP (sz p) -> mapped_page (mem (mach k')) (pgdir p) va = false) /\
    exists l', kmem_inv (mach k') l' /\ l' ≡ₚ user_frames (mem (mach k)) (pgdir p) 0 n ++ l).
Proof.
  intros Hinv Hc Hp Hu Hsz. destruct (own_user_sep n k P l c p Hinv Hp Hu) as (Hsep & _).
  pose proof (oi_procs _ _ _ _ Hinv c p Hp Hu) as Hok. pose proof (po_sz _ _ Hok) as Hs.
  unfold growproc. rewrite wp_bind, (wp_myproc _ c) by done. rewrite wp_bind, (wp_getp k c p) by done.
  rewrite wp_bind, (proj2 (Z.ltb_ge 0 _)), (proj2 (Z.ltb_lt _ 0)), wp_onm by lia.
  replace (u32 (sz p + - sz p)) with 0 by lia.
  destruct (npg_pages n Hn p Hs) as (Hnp & Hnpn & Hcov).
  assert (user_frames (mem (mach k)) (pgdir p) 0 n = user_frames (mem (mach k)) (pgdir p) 0 (npg p)) as Huf.
  { apply (user_frames_low n Hn); [done|]. intros va Hva. apply Hok. lia. }
  eapply wp_mono; [apply (deallocuvm_wp _ l _ _ _ (npg p)); [lia|lia|exact Hcov|]|].
  { change (PGROUNDUP 0) with 0. unfold user_sep in *. by rewrite <- Huf. }
  intros r s' (-> & l' & Hk' & Hperm & _ & _ & _ & Hun & _). change (PGROUNDUP 0) with 0 in *.
  rewrite (proj2 (Z.eqb_neq (- sz p) 0)) by lia.
  apply wp_ret. split; [done|]. split; [done|]. split; [|exists l'; split; [done|by rewrite Huf]].
  intros va Hva. unfold mapped_page. rewrite Hun by lia. change (PGROUNDUP 0) with 0.
  rewrite (proj2 (Z.leb_le _ _)), (proj2 (Z.ltb_lt _ _)) by lia. by rewrite (po_low _ _ Hok va) by lia.
Qed.
(** C13. [growproc] on every amount [m].  In general it sets the size to
    [sz + m], keeps the bytes below both sizes, zeroes the bytes it adds and
    reloads the page directory, or, when there are not enough pages or the
    new size would reach SHAREDBASE, it returns -1 with the memory
    unchanged; pages keep exactly one owner.  An amount that would make the
    size negative has no effect and is reported as success.  Shrinking to
    exactly 0 bytes is reported as a failure, -1, but every page of the
    process is unmapped and free while [sz] still covers it. *)
Theorem growproc_behaviour k P l c p m : own_inv n k P l -> curproc k = Some c -> ptable k !! c = Some p ->
  state p <> UNUSED -> - 2 ^ 31 <= m < 2 ^ 31 ->
  wp (growproc m) k (fun r k' =>
    if decide (m < 0 /\ sz p + m = 0) then
      r = -1 /\ ptable k' = ptable k /\
      (forall va, 0 <= va < PGROUNDUP (sz p) -> mapped_page (mem (mach k')) (pgdir p) va = false) /\
      exists l', kmem_inv (mach k') l' /\ l' ≡ₚ user_frames (mem (mach k)) (pgdir p) 0 n ++ l
    else
      (exists l', own_inv n k' P l') /\
      ((r = 0 /\ exists p', ptable k' !! c = Some p' /\
         sz p' = (if sz p + m <? 0 then sz p else sz p + m) /\ cr3 (mach k') = V2P (pgdir p) /\
         (forall va, 0 <= va < PGROUNDUP (sz p) -> va < PGROUNDUP (sz p') ->
            ubyte (mem (mach k')) (pgdir p) va = ubyte (mem (mach k)) (pgdir p) va) /\
         (forall va, PGROUNDUP (sz p) <= va < PGROUNDUP (sz p') ->
            ubyte (mem (mach k')) (pgdir p) va = 0)) \/
       (r = -1 /\ (0 < m \/ sz p = 0) /\ ptable k' = ptable k /\
         (forall va, 0 <= va < PGROUNDUP (sz p) ->
            ubyte (mem (mach k')) (pgdir p) va = ubyte (mem (mach k)) (pgdir p) va)))).
Proof.
  intros Hinv Hc Hp Hu Hm. destruct (decide (m < 0 /\ sz p + m = 0)) as [[Hneg Hz]|Hz].
  { replace m with (- sz p) by lia. apply (growproc_to_zero k P l c p); done || lia. }
  pose proof (po_sz _ _ (oi_procs _ _ _ _ Hinv c p Hp Hu)) as Hs.
  eapply wp_mono; [apply (growproc_wp n Hn k P l c p); done || lia|].
  intros r k' (s' & l' & Hown & [(-> & _ & -> & Hk & Hzero)|(-> & Hpos & -> & _ & Hk)]).
  - split; [by exists l'|]. left. split; [done|]. eexists.
    split; [cbn; apply list_lookup_insert_eq; by eapply lookup_lt_Some|].
    split; [done|]. split; [done|]. unfold ubyte. cbn [sz set_sz]. split.
    + intros va Hva Hva'. apply Hk. lia.
    + intros va Hva. by apply Hzero.
  - split; [by exists l'|]. right. do 3 (split; [done|]). intros va Hva. by apply Hk.
Qed.
End lifecycle.
End process.

(** ** The kernel with xv6's file system *)

Section kernel.
Context {LK : Linker} {DS : Devsw} (n : nat) (Hn : Z.of_nat n * PGSIZE = SHAREDBASE).

(** C10. [fork]: either it fails with -1 and every page is back on the
    free list, or it returns a fresh pid and the child, in the first unused
    entry, has a copy of the parent's memory in new frames, the parent's
    trap frame with 0 in [eax], the parent's open files and directory, and
    the parent's page directory recorded as [parent_pgdir]; either way the
    file system counts exactly the references the processes hold. *)
Theorem fork_copies k c cp l np : can_fork k c cp l n np -> ref_inv k ->
  wp fork k (fun r k' => ref_inv k' /\
    ((r = -1 /\ fork_failed k l k') \/
    (r = nextpid k /\ exists i p p' l', first_unused k i p /\ ptable k' !! i = Some p' /\
       (forall j, j <> i -> ptable k' !! j = ptable k !! j) /\
       state p' = RUNNABLE /\ pid p' = nextpid k /\ parent p' = Some c /\ sz p' = sz cp /\
       parent_pgdir p' = pgdir cp /\ ofile p' = ofile cp /\ cwd p' = cwd cp /\
       p_shared p' = (copy_shared (p_shared cp) (p_shared p)).1 /\
       forked (mach k) l (pgdir cp) n np (kstack p') (pgdir p') (mach k') l' /\
       tf_copied (mem (mach k)) (tf cp) (mem (mach k')) (tf p')))).
Proof.
  intros Hcf Href. eapply wp_mono; [by apply fork_wp|]. intros r k' Hres. pose proof Hcf as [_ Hcp Hlc _ _ _ _ _ _].
  split; [by eapply fork_refs|].
  destruct Hres as [Hf|(-> & i & p & ks & d & s' & l' & f & nm & Hfi & _ & _ & -> & Hfk & Htf)]; [by left|right].
  split; [done|]. destruct (first_unused_lookup _ _ _ Hfi) as [Hp Hu].
  eexists i, p, _, l'. split; [done|]. split; [by eapply upd_lookup|].
  split; [intros j Hj; apply (upd_lookup_ne (set_fsys f (set_mach s' k))); congruence|]. do 5 (split; [done|]).
  split; [|done]. cbn. destruct (ri_slots _ Href i p Hp) as [_ _ S3]. destruct (S3 ltac:(by intros [? _])) as [-> _].
  apply (dup_list_zeros (ofile cp) []). by apply (ri_slots _ Href c cp Hcp).
Qed.

(** A child forked by a process that shares nothing gets the table of
    structures that the previous process left in its slot. *)
Theorem fork_stale_shared k c cp l np e sh : can_fork k c cp l n np -> ref_inv k ->
  p_shared cp = e :: sh -> size e = 0 ->
  wp fork k (fun r k' => r = -1 \/ exists i p p', first_unused k i p /\ ptable k' !! i = Some p' /\
    state p' = RUNNABLE /\ p_shared p' = p_shared p).
Proof.
  intros Hcf Href Hsh Hz. eapply wp_mono; [by apply fork_wp|].
  intros r k' [[-> _]|(-> & i & p & ks & d & s' & l' & f & nm & Hfi & _ & _ & -> & _ & _)]; [by left|right].
  destruct (first_unused_lookup _ _ _ Hfi) as [Hp _]. eexists i, p, _. split; [done|].
  split; [by eapply (upd_lookup (set_fsys f (set_mach s' k)))|]. split; [done|]. cbn. rewrite Hsh.
  destruct (p_shared p) as [|x old]; [done|]. cbn. by rewrite (proj2 (Z.eqb_eq _ _) Hz).
Qed.

(** C3. Every handler of the process code, started when it is [enabled] in
    a kernel that satisfies the invariant, returns (no panic, no fault in
    the kernel) and the invariant holds again.  [enabled] asks for a process
    in the state the handler expects, and leaves out three cases the code
    does not handle: [exit] by [init], which panics, [fork] when the pids
    have run out, and [growproc] to a size of exactly 0, which unmaps the
    process's memory but keeps its size. *)
Theorem kernel_step_safe i0 k P l e : sys_inv n i0 k P l -> enabled e k ->
  exists k' l', handler e k = Ret ((), k') /\ sys_inv n i0 k' P l'.
Proof.
  intros Hinv He. pose proof (sys_step n Hn i0 k P l e Hinv He) as Hs. unfold wp in Hs.
  destruct (handler e k) as [[[] k']| | | |]; try done. destruct Hs as [l' Hs]. by exists k', l'.
Qed.

(** C5. Along any sequence of handlers, each [enabled] when it starts (so
    no [exit] by [init], no [fork] past the last pid and no [growproc] to a
    size of exactly 0), each allocatable page keeps exactly one
    owner (a process, a pipe or the free list), every process other than
    [init] has a live parent, at most one process runs, with its page
    directory loaded, and the file system is between two transactions with
    a consistent disk and counts exactly the references the processes
    hold. *)
Theorem kernel_run_invariant i0 k P l es k' : sys_inv n i0 k P l -> run k es k' ->
  exists l', kmem_inv (mach k') l' /\ owned n (mem (mach k')) (ptable k') ++ fs_pages (fsys k') ++ l' ≡ₚ P /\ NoDup P /\
    (forall i p, ptable k' !! i = Some p -> state p <> UNUSED -> i <> i0 ->
       exists j q, parent p = Some j /\ ptable k' !! j = Some q /\ live q) /\
    (forall i p, ptable k' !! i = Some p -> state p = RUNNING ->
       curproc k' = Some i /\ cr3 (mach k') = V2P (pgdir p)) /\
    exists st sz, fs_inv st sz (idx <$> files (ptable k')) (idx <$> dirs (ptable k')) (fsys k').
Proof.
  intros Hinv Hrun. destruct (run_inv n Hn i0 P k es k' Hrun l Hinv) as [l' [Hown [Href _] _ Hpar Hr Hc _ _]].
  exists l'. split_and!; [apply Hown|apply Hown|apply Hown|done| |by destruct Href as (_ & _ & Href)].
  intros i p Hp Hs. pose proof (Hr i p Hp Hs) as Hci. destruct (Hc i Hci) as (q & Hq & _ & Hcr).
  split; congruence.
Qed.

(** C11. [exit] makes the caller a zombie that keeps its pages for [wait]
    to collect but holds no file or directory, wakes a parent that sleeps
    in [wait], gives its children to [init], and leaves no process that
    names it as parent. *)
Theorem exit_behaviour i0 k P l c cp : sys_inv n i0 k P l -> is_running k c cp -> c <> i0 ->
  wp exit k (fun _ k' =>
    (exists q, ptable k' !! c = Some q /\ state q = ZOMBIE /\ pid q = pid cp /\ pgdir q = pgdir cp /\
       ofile q = replicate (Z.to_nat NOFILE) 0 /\ cwd q = 0) /\
    (forall j p, ptable k' !! j = Some p -> parent p <> Some c) /\
    (forall j p, j <> c -> ptable k !! j = Some p -> exists p', ptable k' !! j = Some p' /\
       same_pages p p' /\ pid p' = pid p /\
       (parent p = Some c -> parent p' = Some i0) /\ (parent p <> Some c -> parent p' = parent p) /\
       (parent cp = Some j -> state p = SLEEPING -> chan p = proc_addr (Some j) -> state p' = RUNNABLE)) /\
    (exists l', own_inv n k' P l') /\ ref_inv k').
Proof.
  intros Hinv (Hcur & Hcp & Hrun) Hc0. assert (state cp <> UNUSED) as Hu by congruence.
  destruct (si_init _ _ _ _ _ Hinv) as [Hi _].
  destruct (si_parent _ _ _ _ _ Hinv c cp Hcp Hu Hc0) as (jp & qp & Hjp & _).
  eapply wp_mono; [apply (exit_wp n Hn k P l c cp (si_own _ _ _ _ _ Hinv) (si_refs _ _ _ _ _ Hinv) Hcur Hcp); [congruence..|split; congruence]|].
  cbv beta. intros [] k' (Hown & Href & _ & _ & (q & Hq & Hpid & Hd & _) & Hoth & Hnone).
  destruct (so_dead _ (ri_slots _ Href c _ Hq) ltac:(by intros [_ ?])) as [Hz1 Hz2].
  split; [eexists; split_and!; done|]. split; [done|]. split; [|done].
  intros j p Hj Hp. destruct (Hoth j p Hj Hp) as (p' & Hp' & (Hpg & Hpp & _ & Hpar & _) & Hw).
  exists p'. split_and!; try done; rewrite Hi in Hpar; pose proof (Hnone j p' Hp'); destruct Hpar as [?|[? ?]]; congruence.
Qed.
End kernel.
