(* ===== verification/Demo.v ===== *)
(** * Concrete machines

    A linker map, decision procedures for the invariants, and small
    machines on which the theorems are instantiated. *)

From stdpp Require Import base numbers list gmap strings sorting.
From S2P Require Import Prelude Machine CString Kalloc Vm PageTable VmMap VmUser VmAlloc VmFree.
From S2P Require Import VmKernel VmCopy VmAccess Shared.
Open Scope Z_scope.

(** Kernel text below 0x80108000, data and bss up to 0x80120000. *)
#[export] Instance demo_linker : Linker.
Proof.
  refine {| ld_data := 0x80108000; ld_end := 0x80120000; ld_forkret := 0x80104000;
            ld_trapret := 0x80106000; ld_ptable := 0x80110000; ld_ticks := 0x80118000 |};
    try done; unfold SIZEOF_PROC, NPROC, NOFILE; lia.
Defined.

(** ** Deciding the invariants *)

Definition valid_pageb (p : Z) : bool :=
  (p mod PGSIZE =? 0) && (ld_end <=? p) && (p <? KERNBASE + PHYSTOP).

Fixpoint flistb (m : gmap Z Z) (head : Z) (l : list Z) : bool :=
  match l with
  | [] => head =? 0
  | p :: l => (head =? p) && valid_pageb p && flistb m (ld32 m p) l
  end.

Definition kmem_invb (s : machine) (l : list Z) : bool :=
  flistb (mem s) (freelist s) l && bool_decide (NoDup l).

Definition wf_pgdirb (m : gmap Z Z) (d : Z) : bool :=
  valid_pageb d &&
  forallb (fun i => valid_pageb (pgtab m d i) && negb (pgtab m d i =? d) &&
                    (PTE_FLAGS (pde m d i) =? Z.lor (Z.lor PTE_P PTE_W) PTE_U))
    (filter (fun i => present m d i = true) (seqZ 0 1024)) &&
  bool_decide (NoDup (tabs m d 0 1024)).

Definition pt_sepb (s : machine) (l : list Z) (d : Z) : bool :=
  kmem_invb s l && wf_pgdirb (mem s) d &&
  forallb (fun p => bool_decide (p ∉ d :: tabs (mem s) d 0 1024)) l.

Definition user_sepb (s : machine) (l : list Z) (d a : Z) (n : nat) : bool :=
  pt_sepb s l d && bool_decide (NoDup (user_frames (mem s) d a n ++ l)) &&
  forallb (fun p => valid_pageb p && bool_decide (p ∉ d :: tabs (mem s) d 0 1024))
    (user_frames (mem s) d a n).

Lemma valid_pageb_sound p : valid_pageb p = true -> valid_page p.
Proof. unfold valid_pageb, valid_page. lia. Qed.

Lemma flistb_sound m l : forall head, flistb m head l = true -> flist m head l.
Proof.
  induction l as [|p l IH]; intros head; simpl; [lia|].
  intros [[H1 H2]%andb_true_iff H3]%andb_true_iff.
  split; [lia|]. split; [by apply valid_pageb_sound|]. by apply IH.
Qed.

Lemma kmem_invb_sound s l : kmem_invb s l = true -> kmem_inv s l.
Proof.
  intros [H1 H2%bool_decide_eq_true]%andb_true_iff. split; [by apply flistb_sound|done].
Qed.

Lemma wf_pgdirb_sound m d : wf_pgdirb m d = true -> wf_pgdir m d.
Proof.
  intros [[Hd Ht]%andb_true_iff Hnd%bool_decide_eq_true]%andb_true_iff.
  split; [by apply valid_pageb_sound|]. rewrite forallb_forall in Ht.
  assert (forall i, 0 <= i < 1024 -> present m d i = true ->
    i ∈ filter (fun i => present m d i = true) (seqZ 0 1024)) as Hin.
  { intros i Hi Hp. apply list_elem_of_filter. rewrite elem_of_seqZ. split; [done|lia]. }
  split.
  - intros i Hi Hp. specialize (Ht i ltac:(by apply list_elem_of_In, Hin)).
    apply andb_true_iff in Ht as [[H1 H2]%andb_true_iff H3].
    split; [by apply valid_pageb_sound|]. split; [lia|by apply Z.eqb_eq].
  - intros i j Hi Hj Hpi Hpj Heq. unfold tabs in Hnd.
    eapply (NoDup_fmap_inj (pgtab m d)); [exact Hnd|by apply Hin|by apply Hin|done].
Qed.

Lemma not_pgdir_page m d p : bool_decide (p ∉ d :: tabs m d 0 1024) = true -> p ∉ pgdir_pages m d.
Proof.
  rewrite bool_decide_eq_true. unfold pgdir_pages. rewrite <- list_to_set_tabs. set_solver.
Qed.

Lemma pt_sepb_sound s l d : pt_sepb s l d = true -> pt_sep s l d.
Proof.
  intros [[Hk Hw]%andb_true_iff Hl]%andb_true_iff. split; [by apply kmem_invb_sound|].
  split; [by apply wf_pgdirb_sound|]. rewrite forallb_forall in Hl.
  intros p Hp. by apply not_pgdir_page, Hl, list_elem_of_In.
Qed.

Lemma user_sepb_sound s l d a n : user_sepb s l d a n = true -> user_sep s l d a n.
Proof.
  intros [[Hs Hnd%bool_decide_eq_true]%andb_true_iff Hf]%andb_true_iff.
  rewrite forallb_forall in Hf. split; [by apply pt_sepb_sound|]. split; [done|].
  assert (forall p, p ∈ user_frames (mem s) d a n -> valid_page p /\ p ∉ pgdir_pages (mem s) d) as H.
  { intros p Hp. specialize (Hf p ltac:(by apply list_elem_of_In)).
    apply andb_true_iff in Hf as [H1 H2].
    split; [by apply valid_pageb_sound|by apply not_pgdir_page]. }
  split; [apply Forall_forall; intros p Hp; by apply H|]. intros p Hp. by apply H.
Qed.

(** A property of pages holds of every address of the range. *)
Lemma pages_mapped m d a n v : a mod PGSIZE = 0 ->
  forallb (fun va => Bool.eqb (mapped_page m d va) v) (pages a n) = true ->
  forall va, a <= va < a + Z.of_nat n * PGSIZE -> mapped_page m d va = v.
Proof.
  intros Ha Hf va Hva. rewrite forallb_forall in Hf. specialize (Hf (page_of va)).
  unfold mapped_page in *. rewrite (pte_page m d va (page_of va)) by lia.
  apply Bool.eqb_prop, Hf, list_elem_of_In, elem_of_pages; lia.
Qed.

(** Nothing is mapped from page [k] on up to SHAREDBASE. *)
Definition highb (m : gmap Z Z) (d : Z) (k : nat) : bool :=
  forallb (fun va => Bool.eqb (mapped_page m d va) false) (pages (Z.of_nat k * PGSIZE) (1024 - k)) &&
  forallb (fun i => negb (present m d i)) (seqZ 1 255) && (k <=? 1024)%nat.

Lemma highb_sound m d k : highb m d k = true ->
  forall va, Z.of_nat k * PGSIZE <= va < SHAREDBASE -> mapped_page m d va = false.
Proof.
  intros [[H1 H2]%andb_true_iff H3%Nat.leb_le]%andb_true_iff va Hva.
  destruct (decide (va < 1024 * PGSIZE)).
  - eapply pages_mapped; [|exact H1|]; lia.
  - rewrite forallb_forall in H2. unfold mapped_page, pte.
    destruct (present m d (PDX va)) eqn:E; [|done].
    specialize (H2 (PDX va)). rewrite E in H2. assert (negb true = true); [|done]. apply H2.
    apply list_elem_of_In, elem_of_seqZ. lia.
Qed.

Lemma user_sep_all s l d k n : user_sep s l d 0 k -> highb (mem s) d k = true ->
  Z.of_nat n * PGSIZE = SHAREDBASE -> user_sep s l d 0 n.
Proof.
  intros Hsep Hh Hn. assert (k <= n)%nat as Hkn.
  { apply andb_true_iff in Hh as [_ Hk%Nat.leb_le]. lia. }
  pose proof (highb_sound _ _ _ Hh) as Hun.
  assert (user_frames (mem s) d 0 n = user_frames (mem s) d 0 k) as Huf.
  { replace n with (k + (n - k))%nat by lia. rewrite user_frames_app.
    rewrite (user_frames_unmapped _ _ _ (n - k)), app_nil_r; [done|].
    intros va Hva. rewrite elem_of_pages in Hva by lia. apply Hun. lia. }
  unfold user_sep in *. by rewrite Huf.
Qed.

(** Number of pages below SHAREDBASE. *)
Definition shared_pages : nat := Z.to_nat (SHAREDBASE / PGSIZE).

Lemma shared_pages_ok : Z.of_nat shared_pages * PGSIZE = SHAREDBASE.
Proof. unfold shared_pages. by rewrite Z2Nat.id. Qed.

(** ** Machines *)

(** Free pages [l], the rest of memory as in [m]. *)
Fixpoint link_free (m : gmap Z Z) (l : list Z) : gmap Z Z :=
  match l with
  | [] => m
  | p :: l => st32 (link_free m l) p (hd 0 l)
  end.
Definition machine_with (m : gmap Z Z) (l : list Z) : machine :=
  Machine (link_free m l) 0 (hd 0 l) false.

(** Page number [i] of the memory after the kernel. *)
Definition page (i : Z) : Z := 0x80120000 + i * PGSIZE.

(** One empty directory and [n] free pages. *)
Definition demo_dir : Z := page 0.
Definition demo_free (n : nat) : list Z := page <$> seqZ 1 (Z.of_nat n).
Definition demo_blank (n : nat) : machine := machine_with ∅ (demo_free n).

(** State and result of a computation that returns. *)
Definition state_of {S A} (m : M S A) (s : S) : S :=
  match m s with Ret (_, s') => s' | _ => s end.

(** A process of two pages. *)
Definition demo_user : machine := state_of (allocuvm demo_dir 0 8192) (demo_blank 8).
Definition demo_user_free : list Z := page <$> [4; 5; 6; 7; 8].

(** A child directory next to it, and tables of shared structures: one
    structure inside a page, one that runs on into the next page. *)
Definition demo_child : Z := page 20.
Definition no_shared : shared := Shared (replicate SHAREDNAME 0) 0 0.
Definition demo_name (c : Z) : list Z := c :: replicate (SHAREDNAME - 1) 0.
Definition demo_shared : list shared := Shared (demo_name 97) 100 50 :: replicate 9 no_shared.
Definition demo_crossing : list shared := Shared (demo_name 97) 4000 200 :: replicate 9 no_shared.

Definition apartb (s : machine) (l : list Z) (pg d : Z) : bool :=
  pt_sepb s l d && wf_pgdirb (mem s) pg &&
  forallb (fun p => bool_decide (p ∉ l) && bool_decide (p ∉ d :: tabs (mem s) d 0 1024))
    (pg :: tabs (mem s) pg 0 1024).

Lemma apartb_sound s l pg d : apartb s l pg d = true -> apart s l pg d.
Proof.
  intros [[H1 H2]%andb_true_iff H3]%andb_true_iff. rewrite forallb_forall in H3.
  assert (forall p, p ∈ pgdir_pages (mem s) pg -> (p ∉ l) /\ p ∉ pgdir_pages (mem s) d) as H.
  { intros p Hp. unfold pgdir_pages at 1 in Hp. rewrite <- list_to_set_tabs in Hp.
    specialize (H3 p). rewrite andb_true_iff, bool_decide_eq_true in H3.
    destruct H3 as [Hl Hd]; [apply list_elem_of_In; set_solver|].
    split; [done|]. by apply not_pgdir_page. }
  split; [by apply pt_sepb_sound|]. split; [by apply wf_pgdirb_sound|].
  split; [intros p Hp; by apply H|]. apply elem_of_disjoint. intros p Hp. by apply H.
Qed.

Definition entry_okb (s : machine) (l : list Z) (pg d : Z) (e : shared) : bool :=
  (0 <? size e) && (size e <? 2 ^ 31) && (0 <=? memstart e) &&
  (memstart e + Z.of_nat (entry_pages e) * PGSIZE <=? KERNBASE) &&
  forallb (fun k => mapped_page (mem s) pg (memstart e + k * PGSIZE)) (seqZ 0 (Z.of_nat (entry_pages e))) &&
  bool_decide (NoDup (struct_frames s pg (memstart e) (entry_pages e))) &&
  forallb (fun p => valid_pageb p && bool_decide (p ∉ l) && bool_decide (p ∉ d :: tabs (mem s) d 0 1024))
    (struct_frames s pg (memstart e) (entry_pages e)).

Lemma entry_okb_sound s l pg d e : entry_okb s l pg d e = true -> entry_ok s l pg d e.
Proof.
  unfold entry_okb. rewrite !andb_true_iff, !forallb_forall, bool_decide_eq_true.
  intros ((((((H1 & H2) & H3) & H4) & H5) & H6) & H7). split; [lia|]. split; [lia|]. split; [lia|].
  split; [intros k Hk; apply H5, list_elem_of_In, elem_of_seqZ; lia|]. split; [done|].
  assert (forall p, p ∈ struct_frames s pg (memstart e) (entry_pages e) ->
    valid_page p /\ (p ∉ l) /\ p ∉ pgdir_pages (mem s) d) as H.
  { intros p Hp. specialize (H7 p ltac:(by apply list_elem_of_In)).
    rewrite !andb_true_iff, !bool_decide_eq_true in H7. destruct H7 as [[Hv Hl] Hd].
    split; [by apply valid_pageb_sound|]. split; [done|]. apply not_pgdir_page. by rewrite bool_decide_eq_true. }
  split; [apply Forall_forall; intros p Hp; by apply H|]. intros p Hp. by apply H.
Qed.

(** A directory with no page tables below KERNBASE maps nothing there. *)
Lemma blank_low m d : forallb (fun i => negb (present m d i)) (seqZ 0 512) = true ->
  forall a, 0 <= a < KERNBASE -> mapped_page m d a = false.
Proof.
  intros H a Ha. rewrite forallb_forall in H. unfold mapped_page, pte.
  destruct (present m d (PDX a)) eqn:E; [|done]. specialize (H (PDX a)). rewrite E in H.
  assert (negb true = true); [|done]. apply H, list_elem_of_In, elem_of_seqZ. lia.
Qed.

Lemma can_shareb_sound s l pg d sh : apartb s l pg d = true ->
  (shared_end SHAREDBASE sh <=? KERNBASE) = true ->
  forallb (entry_okb s l pg d) (in_use sh) = true ->
  forallb (fun i => negb (present (mem s) d i)) (seqZ 0 512) = true -> can_share s l pg d sh.
Proof.
  intros H1 H2 H3 H4. split; [by apply apartb_sound|]. split; [lia|]. rewrite forallb_forall in H3.
  split; [intros e He; by apply entry_okb_sound, H3, list_elem_of_In|].
  intros a Ha. apply blank_low; [done|lia].
Qed.
