(* ===== verification/FsDemo.v ===== *)
(** * A small file system

    A disk of forty blocks with a log of thirty: the root directory and a
    file that was unlinked while it is open, with two direct blocks, an
    indirect block and one entry in it.  In memory the file system has been
    mounted from it; the file and the read end of a pipe whose writer is
    gone are open. *)

From stdpp Require Import base numbers list gmap strings.
From S2P Require Import Prelude Bytes Machine CString Kalloc Vm Locks Bio BioSpec Log BioAbs.
From S2P Require Import LogSpec LogCrash LogTx.
From S2P Require Import FsState Fs TxSpec FsDisk FsSpec FsInv Pipe File FsTx Demo.
Open Scope Z_scope.

Definition demo_sb : superblock := Superblock 40 5 4 30 2 32 33.

Definition inode_on_disk (ty nlink size : Z) (addrs : list Z) : inode :=
  Inode 1 0 0 initsleeplock false ty 0 0 nlink size addrs.
Definition root_inode : inode := inode_on_disk T_DIR 1 0 (replicate 13 0).
Definition temp_inode : inode := inode_on_disk T_FILE 0 1000 ([35; 36] ++ replicate 10 0 ++ [37]).

Definition super_block : list Z :=
  wr (wr (wr (wr (wr (wr (wr zero_block 0 (le32 40)) 4 (le32 5)) 8 (le32 4)) 12 (le32 30)) 16 (le32 2)) 20 (le32 32)) 24 (le32 33).
Definition inode_block : list Z :=
  to_dinode temp_inode (to_dinode root_inode zero_block (dinode_at 1)) (dinode_at 2).
(** Blocks 0 to 33, and 35 to 38. *)
Definition bitmap_block : list Z := wr zero_block 0 [255; 255; 255; 255; 0x7b].
Definition indirect_block : list Z := wr zero_block 0 (le32 38).

Definition fs_disk : list (list Z) :=
  <[1%nat := super_block]> (<[32%nat := inode_block]> (<[33%nat := bitmap_block]>
    (<[37%nat := indirect_block]> (replicate 40 zero_block)))).

Definition disk_block (n : Z) : list Z := nth (Z.to_nat n) fs_disk [].

Lemma demo_geometry : geometry demo_sb 2 30 40.
Proof. by split; vm_compute. Qed.

(** ** Deciding [consistent] *)

Definition block_okb (d : list Z) : bool := (length d =? Z.to_nat BSIZE)%nat && forallb (fun c => (0 <=? c) && (c <? 256)) d.

Definition consistentb (x : superblock) (V : Z -> list Z) : bool :=
  forallb (fun n => block_okb (V n)) (seqZ (sb_inodestart x) (sb_size x - sb_inodestart x)) &&
  forallb (used x V) (seqZ 0 (data_start x)) &&
  bool_decide (NoDup (all_blocks x V)) &&
  forallb (fun b => (data_start x <=? b) && (b <? sb_size x) && used x V b) (all_blocks x V).

Lemma block_okb_sound d : block_okb d = true -> block_ok d.
Proof.
  intros [H1%Nat.eqb_eq H2]%andb_true_iff. split; [done|]. apply Forall_forall. intros c Hc.
  rewrite forallb_forall in H2. apply list_elem_of_In, H2, andb_true_iff in Hc as [Hc1 Hc2]. lia.
Qed.

Lemma consistentb_sound x V : consistentb x V = true -> sb_inodestart x <= sb_bmapstart x <= data_start x -> data_start x <= sb_size x ->
  consistent x V.
Proof.
  unfold consistentb. rewrite !andb_true_iff, !forallb_forall, bool_decide_eq_true. intros [[[H1 H2] H3] H4] Hx Hy. split.
  - intros n Hn. apply block_okb_sound, H1. apply list_elem_of_In, elem_of_seqZ. unfold is_bmap, is_data, is_inode in Hn. lia.
  - intros b Hb. apply H2. apply list_elem_of_In, elem_of_seqZ. lia.
  - done.
  - intros b Hb. apply list_elem_of_In, H4 in Hb. rewrite !andb_true_iff in Hb. unfold is_data. split; [lia|tauto].
Qed.

Lemma demo_consistent : consistent demo_sb disk_block.
Proof. apply consistentb_sound; [vm_compute; reflexivity|vm_compute; split; discriminate|vm_compute; discriminate]. Qed.

(** ** The mounted file system *)

Definition demo_jrn : jst := match reboot fs_disk 1 with Ret (_, s) => s | _ => Jst (zero_bio fs_disk 1) zero_log end.

Lemma fs_disk_length : length fs_disk = 40%nat.
Proof. unfold fs_disk. by rewrite !length_insert, length_replicate. Qed.

Lemma fs_disk_layout : layout fs_disk 2 30 /\ header (nth (Z.to_nat 2) fs_disk []) [].
Proof.
  assert (length zero_block = Z.to_nat BSIZE) as Hz by apply length_replicate.
  split.
  - split; [|rewrite fs_disk_length; lia|vm_compute; reflexivity|vm_compute; reflexivity|rewrite fs_disk_length; lia].
    unfold fs_disk, super_block, inode_block, bitmap_block, indirect_block.
    repeat apply Forall_insert; [by apply Forall_replicate|..]; by rewrite ?length_to_dinode, ?length_wr.
  - split; [exact Hz|vm_compute; reflexivity|]. intros k n H. by rewrite lookup_nil in H.
Qed.

Lemma demo_mounted : reboot fs_disk 1 = Ret ((), demo_jrn) /\ idle 2 30 demo_jrn /\ length (memdisk (bio demo_jrn)) = 40%nat /\
  forall n, is_bmap demo_sb n \/ is_data demo_sb n \/ is_inode demo_sb n -> view (bio demo_jrn) n = disk_block n.
Proof.
  destruct fs_disk_layout as [HD Hh]. destruct (mount_run fs_disk 1 2 30 HD Hh) as (s & Hs & Hi & Hl & Ho).
  assert (demo_jrn = s) as -> by (unfold demo_jrn; by rewrite Hs).
  split; [exact Hs|]. split; [exact Hi|]. split; [by rewrite Hl, fs_disk_length|]. intros n Hn.
  rewrite (idle_view 2 30 s n Hi). unfold disk_block. rewrite !nth_lookup, Ho; [done|].
  destruct (regions demo_sb 2 30 40 demo_geometry n Hn) as (A & _ & B). split; [|done]. by rewrite fs_disk_length.
Qed.

(** Inode 2 in memory, as read from the disk. *)
Definition temp_cached : inode := load_inode demo_sb disk_block 2 (Inode 1 2 1 initsleeplock true 0 0 0 0 0 []).
Definition root_cached : inode := Inode 1 1 2 initsleeplock false 0 0 0 0 0 [].
Definition demo_icache : list inode := root_cached :: temp_cached :: replicate 48 blank_inode.

Definition closed : file := File FD_NONE 0 false false 0 None 0.
Definition temp_file : file := File FD_INODE 1 true true 0 (Some 1%nat) 0.
Definition pipe_page : Z := page 60.
Definition pipe_file : file := File FD_PIPE 1 true false pipe_page None 0.
Definition demo_ftable : list file := temp_file :: pipe_file :: replicate 98 closed.
Definition demo_pipes : gmap Z pipe := {[ pipe_page := Pipe (replicate (Z.to_nat PIPESIZE) 0) 0 0 true false ]}.

Definition demo_fs : fs :=
  Fs (demo_blank 8) demo_jrn demo_sb demo_icache demo_ftable demo_pipes (Input (replicate 128 0) 0 0 0)
    (Screen (replicate 2000 0) 0 false [] false) [] false None.

(** Two processes have the root as their directory, one has both files. *)
Lemma demo_inodes : inodes_ok demo_sb disk_block [0; 0]%nat demo_ftable demo_icache.
Proof.
  assert (omap file_inode demo_ftable = [1%nat]) as Hh by (vm_compute; reflexivity). split.
  - intros i ip Hi. unfold holders. rewrite Hh. destruct i as [|[|i]].
    + injection Hi as <-. split; [done|]. split; [done|]. intros _. by split.
    + injection Hi as <-. split; [done|]. split; [done|]. intros _. split; [done|]. split; [done|]. intros _. vm_compute. reflexivity.
    + apply lookup_replicate in Hi as [-> _]. by split.
  - intros i Hi. assert (i = 0%nat) as -> by set_solver. unfold demo_icache. cbn. lia.
  - intros i j ip jp Hi Hj Hri Hrj. destruct i as [|[|i]], j as [|[|j]]; try done;
      (injection Hi as <- || (apply lookup_replicate in Hi as [-> _]; done)); (injection Hj as <- || (apply lookup_replicate in Hj as [-> _]; done)); done.
Qed.

Lemma demo_files_ok : files_ok [0; 1]%nat 50 demo_ftable.
Proof.
  split.
  - intros k f Hk. destruct k as [|[|k]].
    + injection Hk as <-. split; [done|]. intros _ _. exists 1%nat. split; [done|lia].
    + injection Hk as <-. by split.
    + apply lookup_replicate in Hk as [-> _]. by split.
  - intros k Hk. change (length demo_ftable) with 100%nat. set_unfold in Hk. lia.
Qed.

Lemma demo_ends : ends_ok demo_pipes demo_ftable.
Proof.
  assert (forall k f e, demo_ftable !! k = Some f -> file_end f = Some e -> k = 1%nat /\ e = (pipe_page, false)) as Hone.
  { intros k f e Hk He. destruct k as [|[|k]].
    - injection Hk as <-. done.
    - injection Hk as <-. injection He as <-. done.
    - apply lookup_replicate in Hk as [-> _]. done. }
  split.
  - intros [p w]. unfold open_end, demo_pipes. cbn [fst snd]. split.
    + intros H. destruct (decide (p = pipe_page)) as [->|Hp]; [|by rewrite lookup_singleton_ne in H].
      rewrite lookup_singleton_eq in H. destruct w; [done|]. exists 1%nat, pipe_file. done.
    + intros (k & f & Hk & He). destruct (Hone k f _ Hk He) as [_ [= -> ->]]. by rewrite lookup_singleton_eq.
  - intros j k f g e Hj Hk Hf Hg. destruct (Hone j f e Hj Hf), (Hone k g e Hk Hg). congruence.
  - intros p q Hq. unfold demo_pipes in Hq. apply lookup_singleton_Some in Hq as [_ <-]. done.
Qed.

Lemma demo_fs_inv : fs_inv 2 30 [0; 1]%nat [0; 0]%nat demo_fs.
Proof.
  destruct demo_mounted as (_ & Hi & Hl & Hv). split.
  - exact Hi.
  - cbn [demo_fs jrn sb]. rewrite Hl. exact demo_geometry.
  - apply (fs_ok_ext demo_sb 2 30 40 disk_block); [exact demo_geometry|exact Hv|].
    split; [reflexivity|exact demo_consistent|exact demo_inodes|exact demo_files_ok|exact demo_ends].
Qed.
