(* ===== verification/FsTheorems.v ===== *)
(** * Correctness of the file system's tables and transactions

    What closing a file does to the disk, and what a crash leaves of it. *)

From stdpp Require Import base numbers list gmap strings.
From S2P Require Import Prelude Bytes Machine CString Kalloc Vm FileSys Proc Syscall Locks Bio.
From S2P Require Import BioSpec Log BioAbs LogSpec LogCrash LogTx.
From S2P Require Import FsState Fs TxSpec FsDisk FsSpec FsInv Pipe File FsTx Sysfile FilesOk.
From S2P Require Import Demo FsDemo.
Open Scope Z_scope.

(** [iupdate] and [ilock] agree on the layout of [struct dinode]: an
    inode whose fields fit, written to slot [i] of its block, is read back
    from it, and the other inodes of the block read as before. *)
Theorem dinode_roundtrip ip d i j jp : inode_fits ip -> (dinode_at i + 64 <= length d)%nat ->
  from_dinode (to_dinode ip d (dinode_at i)) (dinode_at i) ip = ip /\
  (dinode_at j <> dinode_at i -> from_dinode (to_dinode ip d (dinode_at i)) (dinode_at j) jp = from_dinode d (dinode_at j) jp).
Proof.
  intros Hf Hl. split; [by apply from_to_dinode|]. intros Hne. apply from_to_other; [|apply Hf].
  unfold dinode_at in *. change SIZEOF_DINODE with 64 in *. lia.
Qed.

Lemma dinode_roundtrip_witness : from_dinode (to_dinode temp_inode zero_block (dinode_at 2)) (dinode_at 2) temp_inode = temp_inode.
Proof.
  apply (dinode_roundtrip temp_inode zero_block 2 0 temp_inode).
  - split; try (cbn; lia); [done|]. unfold temp_inode. cbn. repeat constructor; lia.
  - vm_compute. repeat constructor.
Defined.

(** C6. The transaction in which [fileclose] and [exit] drop a reference
    to an inode, [begin_op(); iput(ip); end_op();], completes and leaves
    the file system in order; and if the machine stops between any two
    block writes of it, and again during recoveries, booting brings up a
    disk on which no block is in two files or both free and in a file. *)
Theorem drop_inode_crash_safe pid st sz fr ir i s : fs_inv st sz fr (i :: ir) s ->
  exists s' w, drop_inode_ref i s = Ret ((), s') /\ fs_inv st sz fr ir s' /\
    writes (bio (jrn s')) = writes (bio (jrn s)) ++ w /\
    forall D, crashed pid (memdisk (bio (jrn s))) w D ->
      exists r, reboot D pid = Ret ((), r) /\ idle st sz r /\ consistent (sb s) (view (bio r)).
Proof.
  intros Hs. destruct (drop_ref_run pid st sz fr ir i s Hs) as (s' & w & E & Hi & _ & Hw & Hc). exists s', w.
  split; [exact E|]. split; [exact Hi|]. split; [exact Hw|exact Hc].
Qed.

(** The demonstration state after the file was closed but not yet dropped. *)
Definition demo_dropping : fs := set_ftable (<[0%nat := emptied temp_file]> demo_ftable) demo_fs.

Lemma demo_dropping_inv : fs_inv 2 30 [1%nat] [1; 0; 0]%nat demo_dropping.
Proof. exact (emptied_inode 2 30 [1%nat] [0; 0]%nat demo_fs 0 demo_fs_inv temp_file 1 eq_refl eq_refl eq_refl eq_refl). Qed.

Lemma drop_inode_crash_safe_witness : exists s', drop_inode_ref 1 demo_dropping = Ret ((), s') /\ fs_inv 2 30 [1%nat] [0; 0]%nat s'.
Proof.
  destruct (drop_inode_crash_safe 1 2 30 [1%nat] [0; 0]%nat 1 demo_dropping demo_dropping_inv) as (s' & w & E & H & _).
  exists s'. exact (conj E H).
Defined.

(** C20. Dropping the last reference to an inode without links frees
    exactly its blocks in the bitmap, marks the inode free on the disk, and
    leaves the other inodes and all data blocks as they were. *)
Theorem last_iput_frees st sz fr ir i ip s : fs_inv st sz fr (i :: ir) s -> icache s !! i = Some ip ->
  i_valid ip = true -> i_nlink ip = 0 -> i_ref ip = 1 ->
  exists s', drop_inode_ref i s = Ret ((), s') /\
    (forall b, 0 <= b < sb_size (sb s) -> used (sb s) (blocks s') b =
       used (sb s) (blocks s) b && negb (bool_decide (b ∈ inode_blocks (blocks s) (i_addrs ip)))) /\
    i_type (dnode (sb s) (blocks s') (i_inum ip)) = 0 /\
    (forall j, 0 <= j < sb_ninodes (sb s) -> j <> i_inum ip -> dnode (sb s) (blocks s') j = dnode (sb s) (blocks s) j) /\
    (forall n, is_data (sb s) n -> blocks s' n = blocks s n).
Proof.
  intros Hs Hi Hv Hn Hr. destruct (begin_run st sz fr (i :: ir) s Hs) as (s1 & E1 & H1 & O1).
  destruct (iput_tx st sz (jrn s) fr ir s1 i H1) as (s2 & m & E2 & Hm & H2 & O2).
  assert (sb s1 = sb s /\ sb s2 = sb s /\ icache s1 = icache s /\ blocks s1 = blocks s) as (S1 & S2 & I1 & V1).
  { rewrite O2, O1. split; [done|]. split; [done|]. split; [done|].
    unfold onj, zoom in E1. rewrite (begin_op_run st sz (jrn s) (id_started _ _ _ (fi_idle _ _ _ _ _ Hs))) in E1. by injection E1 as <-. }
  rewrite S1 in *. destruct (end_run 0 st sz (jrn s) (drop_blocks (sb s) m) fr ir s2) as (s3 & w & E3 & _ & _ & V3 & _);
    [exact (drop_size _ _ _ _ (fi_geo _ _ _ _ _ Hs) m Hm)|exact (drop_super _ _ _ _ (fi_geo _ _ _ _ _ Hs) m Hm)|done|]. rewrite S2 in V3.
  rewrite <- I1 in Hi. destruct H1 as [B1 B2 B3 B4 [A1 A2 A3 A4 A5]]. rewrite S1 in *.
  destruct (io_inode _ _ _ _ _ A3 i ip Hi) as (Hl & _ & Hc). specialize (Hc ltac:(lia)). pose proof Hc as (_ & Hin & _).
  destruct (iput_drop_run (sb s) st sz (jrn s) B2 (drop_blocks (sb s) (i_inum ip)) (drop_size _ _ _ _ B2 _ Hin) (drop_bmap _ _ Hin) i s1 ip)
    as (s2' & W & E2' & _ & _ & Hfr & Hout & Hload & Hcon & Hoth);
    [eapply at_point_mono; [exact B3|set_solver]|done|done|done|done|apply drop_inode|done..|].
  rewrite E2 in E2'. injection E2' as <-. rewrite V1 in *.
  exists s3. split; [unfold drop_inode_ref; by rewrite (run_bind _ _ _ _ _ E1), (run_bind _ _ _ _ _ E2)|].
  assert (forall j jp, 0 <= j < sb_ninodes (sb s) -> load_inode (sb s) (blocks s3) j jp = load_inode (sb s) (blocks s2) j jp) as L3.
  { intros j jp Hj. unfold load_inode. rewrite V3; [done|]. right; right. by apply (IBLOCK_inode _ st sz _ B2). }
  split; [|split; [|split]].
  - intros b Hb. destruct (BBLOCK_bmap _ st sz _ B2 b Hb) as [_ Hbb]. rewrite <- (fr_used _ _ _ _ Hfr b Hb). unfold used. rewrite V3 by (by left).
    rewrite Hout; [done|]. intros E. rewrite E in Hbb. apply bmap_apart in Hbb as [_ Hbb]. by apply Hbb, (IBLOCK_inode _ st sz _ B2).
  - unfold dnode. rewrite L3 by done. transitivity (i_type (load_inode (sb s) (blocks s2) (i_inum ip) (dropped ip))); [done|]. by rewrite Hload.
  - intros j Hj Hne. unfold dnode. rewrite L3 by done. by apply Hoth.
  - intros n Hn'. rewrite V3 by (right; by left). rewrite Hout; [apply (fr_other _ _ _ _ Hfr); by apply (data_apart _ st sz _ B2) in Hn' as [? _]|].
    intros ->. apply (data_apart _ st sz _ B2) in Hn' as [_ Hn']. by apply Hn', (IBLOCK_inode _ st sz _ B2).
Qed.

Lemma last_iput_frees_witness : exists s', drop_inode_ref 1 demo_dropping = Ret ((), s') /\
  used demo_sb (blocks s') 35 = false /\ used demo_sb (blocks s') 38 = false.
Proof.
  destruct (last_iput_frees 2 30 [1%nat] [0; 0]%nat 1 temp_cached demo_dropping demo_dropping_inv eq_refl) as (s' & E & Hu & _);
    [vm_compute; reflexivity..|].
  exists s'. split; [exact E|]. change demo_sb with (sb demo_dropping).
  split; (rewrite Hu; [vm_compute; reflexivity|vm_compute; split; [discriminate|reflexivity]]).
Defined.

(** [fileclose] of a file a process holds completes: the reference is
    gone, the inode it named is dropped in a transaction of its own, and
    the page of a pipe whose other end is closed too is back on the free
    list; no other page is written. *)
Theorem fileclose_behaviour {LK : Linker} st sz fr ir k s l : fs_inv st sz (k :: fr) ir s -> pages_ok l s ->
  exists s' l', fileclose k s = Ret ((), s') /\ fs_inv st sz fr ir s' /\ kmem_inv (fm s') l' /\
    pipe_pages s' ++ l' ≡ₚ pipe_pages s ++ l /\ cr3 (fm s') = cr3 (fm s) /\
    frame (list_to_set (pipe_pages s)) (mem (fm s)) (mem (fm s')).
Proof.
  intros Hs Hl. destruct (fileclose_run st sz fr ir s k Hs l Hl) as (s' & l' & E & Hi & G1 & G2 & G3 & G4). exists s', l'.
  split; [exact E|]. split; [exact Hi|]. split; [exact G1|]. split; [exact G2|]. split; [exact G4|exact G3].
Qed.

(** Closing the pipe: the other end is closed, so its page is freed. *)
Lemma fileclose_behaviour_witness : exists s' l', fileclose 1 demo_fs = Ret ((), s') /\
  fs_inv 2 30 [0%nat] [0; 0]%nat s' /\ pipe_pages s' ++ l' ≡ₚ pipe_page :: demo_free 8.
Proof.
  destruct (fileclose_behaviour 2 30 [0%nat] [0; 0]%nat 1 demo_fs (demo_free 8)) as (s' & l' & E & Hi & _ & Hp & _).
  - destruct demo_fs_inv as [H1 H2 H3]. split; [exact H1|exact H2|]. refine (fs_ok_perm _ _ _ _ _ _ _ _ _ H3); [|done].
    apply Permutation_swap.
  - split; [apply kmem_invb_sound; vm_compute; reflexivity|apply (bool_decide_unpack _); vm_compute; reflexivity|].
    apply Forall_forall. intros p Hp. apply valid_pageb_sound. assert (p = pipe_page) as -> by (vm_compute in Hp |- *; set_solver). vm_compute. reflexivity.
  - exists s', l'. split; [exact E|]. split; [exact Hi|exact Hp].
Defined.

(** C18. The file system keeps what the process code relies on: every call
    that [fork] and [exit] make on a pointer they hold returns, without
    panic, fault or waiting, moves the reference it should, and touches no
    memory but the pages of closed pipes. *)
Theorem xv6_files_promise {LK : Linker} {DS : Devsw} : FileSysOk LK xv6_files xv6_spec.
Proof. exact xv6_files_ok. Qed.
