(* ===== verification/MkfsTheorems.v ===== *)
(** * Correctness of [tools/mkfs.c], and of reading what it wrote

    The image [mkfs] writes, and the kernel booted from it. *)

From stdpp Require Import base numbers list gmap strings.
From S2P Require Import Prelude Bytes Machine CString Locks Bio BioSpec Log BioAbs LogSpec.
From S2P Require Import LogCrash LogTx.
From S2P Require Import FsState Fs TxSpec FsDisk FileData FsSpec FsRead Mkfs MkfsSpec MkfsImage.
From S2P Require Import Console FsDemo.
Open Scope Z_scope.

(** ** The files of the command line *)

(** The entries the files add to directory [dir], file [k] having i-number
    [k + 5]. *)
Definition listed (dir : nat) (args : list arg) : list Z :=
  concat (imap (fun k a => if decide ((target a.1).1 = dir) then dirent (Z.of_nat k + 5) (target a.1).2 else []) args).

Lemma mktree_snoc args a : mktree (args ++ [a]) = tree_file (mktree args) a.
Proof. unfold mktree. by rewrite foldl_app. Qed.

Lemma mktree_length args : length (mktree args) = (4 + length args)%nat.
Proof.
  induction args as [|a args IH] using rev_ind; [done|]. rewrite mktree_snoc. unfold tree_file, tree_add.
  destruct (target a.1) as [dir nm]. rewrite !length_grow, !length_app, IH. cbn. lia.
Qed.

Lemma target_dir nm : (target nm).1 = 2%nat \/ (target nm).1 = 3%nat.
Proof. unfold target. destruct (skip_mark _) as [[] ?]; auto. Qed.

Lemma grow_lookup_ne k j p C : j <> k -> grow k p C !! j = C !! j.
Proof. intros H. unfold grow. by apply list_lookup_alter_ne. Qed.
Lemma grow_lookup k p C c : C !! k = Some c -> grow k p C !! k = Some (c.1, c.2 ++ p).
Proof. intros H. unfold grow. by rewrite list_lookup_alter_eq, H. Qed.

(** File [k] of the command line is inode [k + 5]. *)
Lemma mktree_file args : forall k a, args !! k = Some a -> mktree args !! (4 + k)%nat = Some (T_FILE, contents (default [] a.2)).
Proof.
  induction args as [|b args IH] using rev_ind; intros k a Hk; [done|]. rewrite mktree_snoc. unfold tree_file, tree_add.
  pose proof (target_dir b.1) as Ht. destruct (target b.1) as [dir nm]. cbn [fst] in Ht. rewrite !mktree_length.
  apply lookup_app_Some in Hk as [Hk|[Hl Hk]].
  - pose proof (lookup_lt_Some _ _ _ Hk). rewrite !grow_lookup_ne, lookup_app_l by (rewrite ?mktree_length; lia). by apply IH.
  - apply list_lookup_singleton_Some in Hk as [Hz <-]. replace k with (length args) by lia.
    apply (grow_lookup _ _ _ (T_FILE, [])). rewrite grow_lookup_ne by lia. rewrite lookup_app_r by (rewrite mktree_length; lia).
    by rewrite mktree_length, Nat.sub_diag.
Qed.

(** The directories [/bin] and [/home] list their files in order. *)
Lemma mktree_dir args dir c : tree0 !! dir = Some c -> dir = 2%nat \/ dir = 3%nat ->
  mktree args !! dir = Some (c.1, c.2 ++ listed dir args).
Proof.
  intros Hc Hd. induction args as [|b args IH] using rev_ind; [cbn; rewrite app_nil_r; by destruct c|].
  rewrite mktree_snoc. unfold tree_file, tree_add, listed. rewrite imap_app, concat_app. cbn [imap concat]. rewrite app_nil_r, Nat.add_0_r.
  destruct (target b.1) as [d nm]. cbn [fst snd]. rewrite grow_lookup_ne by (rewrite mktree_length; lia). fold (listed dir args).
  assert ((mktree args ++ [(T_FILE, [])]) !! dir = Some (c.1, c.2 ++ listed dir args)) as E by (by rewrite lookup_app_l by (rewrite mktree_length; lia)).
  destruct (decide (d = dir)) as [->|Hne].
  - rewrite (grow_lookup _ _ _ _ E), mktree_length. cbn [fst snd]. rewrite <- app_assoc. do 5 f_equal. lia.
  - by rewrite grow_lookup_ne, app_nil_r by done.
Qed.

(** Inode [i] of the disk [D] has the type [ty], one link and the bytes [d]. *)
Definition stores (D : list (list Z)) (i ty : Z) (d : list Z) : Prop :=
  let ip := dnode mksb (block_of D) i in
  i_type ip = ty /\ i_nlink ip = 1 /\ exists a, rep (block_of D) ip a /\ a_data a = d.

(** C19. [mkfs] on files whose names have no slash after [user/] and which
    fit (an inode each, at most 140 blocks each, and enough blocks on the
    disk) writes a consistent file system: file [k] of the command line is
    inode [k + 5] and holds exactly the bytes read from it; [/bin] lists in
    order the files marked with an underscore and [/home] the others; and
    the bitmap marks exactly the blocks in front of the first free one. *)
Theorem mkfs_builds args : Forall arg_ok args -> fits (mktree args) ->
  exists D, mkfs args = Some D /\ consistent mksb (block_of D) /\
    (forall k name reads, args !! k = Some (name, Some reads) -> stores D (Z.of_nat k + 5) T_FILE (contents reads)) /\
    stores D 3 T_DIR (dirent 3 (chars ".") ++ dirent 1 (chars "..") ++ listed 2 args) /\
    stores D 4 T_DIR (dirent 4 (chars ".") ++ dirent 1 (chars "..") ++ listed 3 args) /\
    forall b, 0 <= b < FSSIZE -> used mksb (block_of D) b = bool_decide (b < nmeta + Z.of_nat (total (mktree args))).
Proof.
  intros Ha Hf. destruct (mkfs_run args Ha Hf) as (D & E & HD). exists D. split; [exact E|]. split; [apply HD|].
  split; [|split; [|split; [|apply HD]]].
  - intros k name reads Hk. pose proof (dh_files _ _ HD _ _ (mktree_file args k _ Hk)) as H. unfold stores.
    replace (Z.of_nat k + 5) with (Z.of_nat (4 + k) + 1) by lia. exact H.
  - pose proof (dh_files _ _ HD _ _ (mktree_dir args 2 _ eq_refl (or_introl eq_refl))) as H. cbn [fst snd] in H. by rewrite <- app_assoc in H.
  - pose proof (dh_files _ _ HD _ _ (mktree_dir args 3 _ eq_refl (or_intror eq_refl))) as H. cbn [fst snd] in H. by rewrite <- app_assoc in H.
Qed.

(** ** The kernel on that disk *)

Section mount.
Context (C : tree) (D : list (list Z)) (HD : disk_holds C D) (pid : Z).

Lemma mk_layout : layout D 2 30 /\ header (nth (Z.to_nat 2) D []) [].
Proof.
  pose proof (dh_head _ _ HD 1 ltac:(lia)) as E1. pose proof (dh_head _ _ HD 2 ltac:(lia)) as E2. unfold block_of in E1, E2.
  change (Z.to_nat 1) with 1%nat in E1. rewrite E2. split; split; rewrite ?E1, ?(dh_len _ _ HD).
  - eapply Forall_impl; [apply HD|]. by intros d [].
  - unfold FSSIZE. lia.
  - vm_compute. reflexivity.
  - vm_compute. reflexivity.
  - unfold FSSIZE. lia.
  - apply length_replicate.
  - vm_compute. reflexivity.
  - intros k n H. by rewrite lookup_nil in H.
Qed.

Lemma mk_mount : exists r, reboot D pid = Ret ((), r) /\ idle 2 30 r /\
  length (memdisk (bio r)) = Z.to_nat FSSIZE /\
  forall n, 0 <= n < FSSIZE -> ~ 2 <= n < 32 -> view (bio r) n = block_of D n.
Proof.
  destruct mk_layout as [Hl Hh]. destruct (mount_run D pid 2 30 Hl Hh) as (r & E & Hi & Hn & Ho).
  exists r. split; [exact E|]. split; [exact Hi|]. split; [by rewrite Hn, (dh_len _ _ HD)|].
  intros n Hr Hout. destruct (id_started _ _ _ Hi) as [[l Hq] _ _ _ _]. rewrite (quiet_view _ l n Hq).
  unfold block_of. rewrite !nth_lookup, Ho; [done|]. split; [rewrite (dh_len _ _ HD); unfold FSSIZE in *; lia|lia].
Qed.
End mount.

Lemma tree_types args : Forall (fun c => c.1 = T_DIR \/ c.1 = T_FILE) (mktree args).
Proof.
  assert (forall k p C, Forall (fun c => c.1 = T_DIR \/ c.1 = T_FILE) C -> Forall (fun c => c.1 = T_DIR \/ c.1 = T_FILE) (grow k p C)) as Hg.
  { intros k p C HC. unfold grow. by apply Forall_alter. }
  induction args as [|a args IH] using rev_ind; [repeat constructor; by left|]. rewrite mktree_snoc. unfold tree_file, tree_add.
  destruct (target a.1). apply Hg, Hg, Forall_app. split; [done|]. constructor; [by right|constructor].
Qed.

Lemma put_same dst k l s t u : put_bytes dst k l s = Ret ((), t) -> fm u = fm s -> put_bytes dst k l u = Ret ((), set_fm (fm t) u).
Proof.
  destruct dst as [a|]; cbn; [|intros [= <-] <-; by destruct u]. unfold onmach, zoom. intros H ->.
  destruct (store_bytes _ _ _) as [[[] m]| | | |]; try done. by injection H as <-.
Qed.

(** A state that shows the disk [D] (outside the log). *)
Record shows (D : list (list Z)) (s : fs) : Prop := {
  sh_holds : exists l, quiet (bio (jrn s)) l ∅;
  sh_len : length (memdisk (bio (jrn s))) = Z.to_nat FSSIZE;
  sh_view : forall n, 0 <= n < FSSIZE -> ~ 2 <= n < 32 -> blocks s n = block_of D n }.

Lemma shows_reading D s t : shows D s -> reading ∅ ∅ (jrn s) (jrn t) -> shows D t.
Proof.
  intros [A1 A2 A3] [B1 (B2 & _) B3 B4]. split; [done|by rewrite B2|]. intros n Hn Hl. rewrite <- A3 by done. unfold blocks. apply B4.
Qed.

Section files.
Context (C : tree) (D : list (list Z)) (HD : disk_holds C D) (Hfit : fits C) (k : nat) (ty : Z) (d : list Z) (Hk : C !! k = Some (ty, d)).

Lemma mk_inum : 0 <= Z.of_nat k + 1 < NINODES.
Proof. pose proof (lookup_lt_Some _ _ _ Hk). pose proof (ft_few _ Hfit). lia. Qed.

Lemma shows_load s jp : shows D s -> load_inode mksb (blocks s) (Z.of_nat k + 1) jp = load_inode mksb (block_of D) (Z.of_nat k + 1) jp.
Proof.
  intros Hs. pose proof mk_inum as Hi. pose proof (iblock_range _ Hi). apply (dnode_same mksb); [exact Hi|].
  apply (sh_view _ _ Hs); unfold FSSIZE; lia.
Qed.

Lemma shows_file s i ip : shows D s -> icache s !! i = Some ip -> i_size ip = i_size (dnode mksb (block_of D) (Z.of_nat k + 1)) ->
  i_addrs ip = i_addrs (dnode mksb (block_of D) (Z.of_nat k + 1)) ->
  exists a, a_data a = d /\ can_read ∅ ∅ i ip a s.
Proof.
  intros Hs Hi E1 E2. destruct (dh_files _ _ HD k _ Hk) as (_ & _ & a & R & Hd). cbn [snd] in Hd. exists a. split; [done|].
  assert (forall b, b ∈ fblocks a -> 59 <= b < FSSIZE) as Hb.
  { intros b Hb. rewrite <- (rep_blocks _ _ _ R) in Hb. assert (is_data mksb b) as Hdat; [|exact Hdat].
    apply (c_used _ _ (dh_consistent _ _ HD)), elem_all_blocks. exists (Z.of_nat k + 1). split; [exact mk_inum|exact Hb]. }
  split; [apply Hs|exact Hi| |].
  - apply (rep_inode _ _ _ (rep_ext _ _ _ R (blocks s) ltac:(intros b HB; apply Hb in HB; apply (sh_view _ _ Hs); lia))); done.
  - intros b HB. apply Hb in HB. unfold in_range. rewrite (sh_len _ _ Hs). lia.
Qed.
End files.

Section reading.
Context {DS : Devsw}.

(** What [iinit] reads of the disk, then locking and reading a file. *)
Definition mount_and_read (i : nat) (dst : place) (off n : Z) : M fs (Z * list Z) :=
  x ← onb (readsb 1);
  _ ← modify (set_sb x);
  _ ← ilock (Some i);
  readi i dst off n.

Lemma mount_sb D C s : disk_holds C D -> shows D s ->
  exists j, onb (readsb 1) s = Ret (mksb, set_jrn j s) /\ reading ∅ ∅ (jrn s) j.
Proof.
  intros HD Hs. destruct (sh_holds _ _ Hs) as [l Hq]. destruct (readsb_run (bio (jrn s)) l Hq) as (b1 & l1 & E1 & Hq1 & Hd1).
  { unfold in_range. rewrite (sh_len _ _ Hs). unfold FSSIZE. lia. }
  assert (sb_of (nth 1 (memdisk (bio (jrn s))) []) = mksb) as Esb.
  { pose proof (sh_view _ _ Hs 1 ltac:(unfold FSSIZE; lia) ltac:(lia)) as Hv. unfold blocks in Hv. rewrite (quiet_view _ l 1 Hq) in Hv.
    change (Z.to_nat 1) with 1%nat in Hv. rewrite Hv, (dh_head _ _ HD 1) by lia. vm_compute. reflexivity. }
  rewrite Esb in E1. exists (set_bio b1 (jrn s)). split; [unfold onb, onj, onbio, zoom; by rewrite E1|].
  split; cbn [bio jlog set_bio]; [by exists l1|done|done|]. intros n. rewrite (quiet_view _ l n Hq), (quiet_view _ l1 n Hq1). by rewrite (proj1 Hd1).
Qed.

Lemma room : (size (∅ : gmap nat (Z * bool)) + size (∅ : gset Z) < NBUF)%nat.
Proof. rewrite map_size_empty, size_empty. unfold NBUF. lia. Qed.

(** C7. From the command line of [mkfs] to the bytes the kernel reads: the
    kernel boots from the image, and once it has read the super block,
    [ilock] and [readi] on an inode of the image (an entry of the cache that
    names it and is referenced, not locked and not yet read) deliver exactly
    the bytes of that file from [off] on, [n] of them or up to its end, at
    the destination; no block changes. *)
Theorem mkfs_kernel_reads args pid k ty d : Forall arg_ok args -> fits (mktree args) -> mktree args !! k = Some (ty, d) ->
  exists D r, mkfs args = Some D /\ reboot D pid = Ret ((), r) /\
    forall s i ip dst off n t, jrn s = r -> icache s !! i = Some ip -> i_dev ip = 1 -> i_inum ip = Z.of_nat k + 1 ->
      1 <= i_ref ip -> sl_locked (i_lock ip) = false -> i_valid ip = false ->
      0 <= off <= Z.of_nat (length d) -> 0 <= n -> off + n < 2 ^ 32 ->
      put_bytes dst 0 (piece d off n) s = Ret ((), t) ->
      exists s', mount_and_read i dst off n s = Ret ((Z.of_nat (length (piece d off n)), piece d off n), s') /\
        fm s' = fm t /\ forall m, blocks s' m = blocks s m.
Proof.
  intros Ha Hfit Hk. destruct (mkfs_run args Ha Hfit) as (D & ED & HD). destruct (mk_mount _ D HD pid) as (r & Er & Hid & Hlen & Hv).
  exists D, r. split; [exact ED|]. split; [exact Er|]. intros s i ip dst off n t Hj Hi Hdev Hin Href Hlk Hval Ho Hn Hov Hput.
  assert (shows D s) as H0 by (split; unfold blocks; rewrite Hj; [apply (id_started _ _ _ Hid)|done|done]).
  destruct (mount_sb D _ s HD H0) as (j1 & E1 & G1). set (s1 := set_sb mksb (set_jrn j1 s)).
  assert (shows D s1) as H1 by (by apply (shows_reading D s)).
  pose proof (mk_inum _ Hfit k ty d Hk) as Hino. pose proof (iblock_range _ Hino).
  assert (loaded s1 ip = set_i_valid true (load_inode mksb (block_of D) (Z.of_nat k + 1) (set_i_lock (Sleeplock true (mypid (bio (jrn s1)))) ip))) as El.
  { unfold loaded. rewrite Hin. f_equal. by apply (shows_load _ D Hfit k ty d Hk). }
  destruct (dh_files _ _ HD k _ Hk) as (Hty & _). cbn [fst] in Hty.
  assert (i_type (loaded s1 ip) = ty) as Ety by (rewrite El; exact Hty).
  assert (ty = T_DIR \/ ty = T_FILE) as Hft by (exact (Forall_lookup_1 _ _ _ _ (tree_types args) Hk)).
  destruct (ilock_run ∅ ∅ s1 i ip (sh_holds _ _ H1) room Hi Hdev Href Hlk Hval) as (j2 & E2 & G2).
  { unfold in_range. rewrite (sh_len _ _ H1), Hin. change (sb s1) with mksb. unfold FSSIZE. lia. }
  { intros x c. by rewrite lookup_empty. }
  { rewrite Ety. destruct Hft as [->| ->]; discriminate. }
  set (s2 := set_icache (<[i := loaded s1 ip]> (icache s1)) (set_jrn j2 s1)) in E2.
  assert (shows D s2) as H2 by (by apply (shows_reading D s1)).
  assert (icache s2 !! i = Some (loaded s1 ip)) as Hi2 by (apply list_lookup_insert_eq; by eapply lookup_lt_Some).
  destruct (shows_file _ D HD Hfit k ty d Hk s2 i _ H2 Hi2) as (a & <- & Hcan); [by rewrite El..|].
  assert (forall b x c, b ∈ fblocks a -> (∅ : gmap nat (Z * bool)) !! x <> Some (b, c)) as Hnone by (intros b x c _; by rewrite lookup_empty).
  destruct (readi_run ∅ ∅ room i (loaded s1 ip) Hdev a Hnone s2 (set_fm (fm t) s2) dst off n Hcan) as (j3 & G3 & E3); [|exact Ho|exact Hn|exact Hov| |].
  { rewrite Ety. destruct Hft as [->| ->]; discriminate. }
  { exact (put_same dst 0 _ s t s2 Hput eq_refl). }
  eexists. split; [|split; [|]].
  - unfold mount_and_read. rewrite (run_bind _ _ _ _ _ E1), (run_bind _ _ _ _ s1 eq_refl), (run_bind _ _ _ _ _ E2). exact E3.
  - reflexivity.
  - intros m. unfold blocks. cbn [jrn set_jrn]. rewrite (rg_view _ _ _ _ G3 m), <- (rg_view _ _ _ _ G1 m). exact (rg_view _ _ _ _ G2 m).
Qed.
End reading.

(** ** Examples *)

(** A program and a text. *)
Definition two_files : list arg :=
  [(chars "user/_ls", Some [[127; 69; 76; 70]; [1; 2]]); (chars "README", Some [[104; 105; 10]])].

Lemma two_files_ok : Forall arg_ok two_files.
Proof.
  assert (forall l : list Z, forallb (fun c => (0 <=? c) && (c <? 256)) l = true -> bytes l) as Hb.
  { intros l Hl. apply Forall_forall. intros c Hc. rewrite forallb_forall in Hl. apply list_elem_of_In, Hl, andb_true_iff in Hc as [? ?]. lia. }
  repeat constructor; cbn [fst snd]; try (apply Hb; vm_compute; reflexivity); apply (bool_decide_unpack _); vm_compute; reflexivity.
Qed.

Lemma two_files_fit : fits (mktree two_files).
Proof. apply (bool_decide_unpack _). vm_compute. reflexivity. Qed.

Lemma mkfs_builds_witness : exists D, mkfs two_files = Some D /\ stores D 5 T_FILE [127; 69; 76; 70; 1; 2] /\
  stores D 3 T_DIR (dirent 3 (chars ".") ++ dirent 1 (chars "..") ++ dirent 5 (chars "ls")).
Proof.
  destruct (mkfs_builds two_files two_files_ok two_files_fit) as (D & E & _ & Hfile & Hbin & _).
  exists D. split; [exact E|]. split; [exact (Hfile 0%nat _ _ eq_refl)|exact Hbin].
Defined.

(** The cache with one entry, for the program. *)
Definition booted (r : jst) : fs := set_icache [Inode 1 5 1 initsleeplock false 0 0 0 0 0 []] (set_jrn r demo_fs).

Lemma mkfs_kernel_reads_witness : exists D r s', mkfs two_files = Some D /\ reboot D 1 = Ret ((), r) /\
  @mount_and_read xv6_devsw 0 ToLocal 1 100 (booted r) = Ret ((5, [69; 76; 70; 1; 2]), s').
Proof.
  destruct (@mkfs_kernel_reads xv6_devsw two_files 1 4 T_FILE [127; 69; 76; 70; 1; 2] two_files_ok two_files_fit)
    as (D & r & ED & Er & Hread); [vm_compute; reflexivity|].
  destruct (Hread (booted r) 0%nat (Inode 1 5 1 initsleeplock false 0 0 0 0 0 []) ToLocal 1 100 (booted r)) as (s' & E & _);
    [reflexivity|reflexivity|reflexivity|reflexivity|cbn; lia|reflexivity|reflexivity|cbn; lia|lia|lia|reflexivity|].
  exists D, r, s'. split; [exact ED|]. split; [exact Er|exact E].
Defined.

(** [ialloc] of [mkfs] does not compare the i-number with [NINODES]: with
    204 files the last inode is 208, which lies in the bitmap's block, and
    [balloc] overwrites it. *)
Definition many_files : list arg := (fun k => ([97; Z.of_nat k + 48], Some [])) <$> seq 0 204.

Lemma mkfs_inode_overrun : IBLOCK 208 mksb = sb_bmapstart mksb /\
  match mkfs many_files with
  | Some D => i_type (dnode mksb (block_of D) 208) <> T_FILE
  | None => False
  end.
Proof.
  split; [vm_compute; reflexivity|].
  assert (match mkfs many_files with Some D => negb (i_type (dnode mksb (block_of D) 208) =? T_FILE) | None => false end = true) as H
    by (vm_compute; reflexivity).
  destruct (mkfs many_files) as [D|]; [|discriminate]. apply negb_true_iff, Z.eqb_neq in H. exact H.
Qed.
