(* ===== verification/StorageExamples.v ===== *)
(** * Pipes on concrete states *)

From stdpp Require Import base numbers list gmap strings.
From S2P Require Import Prelude Bytes Machine CString Kalloc Locks Bio Log LogCrash FsState Fs.
From S2P Require Import Pipe PipeSpec.
From S2P Require Import StorageTheorems Demo.
Open Scope Z_scope.

(** A pipe that holds [ab], eight bytes before its counters wrap around. *)
Definition demo_pipe : pipe :=
  Pipe (wr (replicate 512 0) 504 [97; 98]) (2 ^ 32 - 8) (2 ^ 32 - 6) true true.

Definition blank_screen : screen := Screen (replicate 2000 0) 0 true [] false.
Definition blank_input : input := Input (replicate 128 0) 0 0 0.
Definition demo_fs (m : machine) : fs :=
  Fs m (Jst (zero_bio [] 1) zero_log) (Superblock 0 0 0 0 0 0 0) [] [] {[page 9 := demo_pipe]}
    blank_input blank_screen [] false None.

Definition demo_bytes : list Z := chars "hello, pipe".
Definition demo_text_at (a : Z) (l : list Z) : machine := state_of (store_bytes a l) (demo_blank 8).

Lemma demo_pipe_ok : pipe_is (page 9) (demo_fs (demo_text_at (page 3) demo_bytes)) demo_pipe.
Proof. split; [by vm_compute|]. split; vm_compute; try done; by split. Qed.

Lemma pipewrite_appends_witness : exists r s' x',
  pipewrite (page 9) (page 3) 11 (demo_fs (demo_text_at (page 3) demo_bytes)) = Ret (r, s') /\
  pipes s' !! page 9 = Some x' /\ queue x' = chars "abhello, pipe".
Proof.
  destruct (pipewrite_appends (page 9) (demo_fs (demo_text_at (page 3) demo_bytes)) demo_pipe (page 3) demo_bytes demo_pipe_ok)
    as (r & s' & x' & Hrun & [Hx _] & Hq & _).
  - assert (forallb (fun j => match load8 (page 3 + Z.of_nat j) (demo_text_at (page 3) demo_bytes) with
      | Ret (c, _) => c =? nth j demo_bytes 0 | _ => false end) (seq 0 11) = true) as H by (by vm_compute).
    intros j c Hj. assert (j < 11)%nat as Hlt by (by apply lookup_lt_Some in Hj).
    rewrite forallb_forall in H. specialize (H j). rewrite in_seq in H. specialize (H ltac:(lia)).
    change (fm (demo_fs ?m)) with m. unfold load8 in *. destruct (kaddr _ _ _); [|done]. apply Z.eqb_eq in H. rewrite H. by rewrite (nth_lookup_Some demo_bytes j 0 c Hj).
  - exists r, s', x'. split; [exact Hrun|]. split; [exact Hx|]. rewrite Hq. by vm_compute.
Defined.

Lemma piperead_takes_witness : exists s' x',
  piperead (page 9) (page 3) 1 (demo_fs (demo_blank 8)) = Ret (Done 1, s') /\ pipe_is (page 9) s' x' /\ queue x' = chars "b".
Proof.
  assert (exists m', store_bytes (page 3) (take (Z.to_nat 1) (queue demo_pipe)) (fm (demo_fs (demo_blank 8))) = Ret ((), m')) as [m' Hm].
  { eexists. vm_compute. reflexivity. }
  assert (pipe_is (page 9) (demo_fs (demo_blank 8)) demo_pipe) as Hp.
  { split; [by vm_compute|]. exact (proj2 demo_pipe_ok). }
  pose proof (piperead_takes (page 9) (demo_fs (demo_blank 8)) demo_pipe (page 3) 1 m' Hp ltac:(lia) Hm) as H.
  assert (bool_decide (queue demo_pipe = []) && p_writeopen demo_pipe = false) as E by (by vm_compute).
  rewrite E in H. destruct H as (s' & x' & Hrun & Hp' & Hq & _). exists s', x'. split; [exact Hrun|]. split; [exact Hp'|].
  rewrite Hq. by vm_compute.
Defined.
