(* ===== verification/DeviceExamples.v ===== *)
(** * Interrupts on concrete states *)

From stdpp Require Import base numbers list gmap strings.
From S2P Require Import Prelude Bytes Machine CString Kalloc Vm Shared FileSys Locks Bio Log.
From S2P Require Import FsState Screen Fs Pipe File Console ConsoleSpec LineSpec Kbd Proc.
From S2P Require Import Syscall Sysfile Exec Trap.
From S2P Require Import DeviceTheorems Demo.
Open Scope Z_scope.

#[local] Existing Instance xv6_devsw.

(** One running process, whose trap frame, at [page 3], asks for [getpid]. *)
Definition demo_frame : machine :=
  state_of (_ ← store32 (page 3 + TF_TRAPNO) T_SYSCALL; store32 (page 3 + TF_EAX) SYS_getpid) (demo_blank 8).
Definition demo_proc : proc :=
  Proc 0 0 0 0 RUNNING 7 None (page 3) 0 0 0 (replicate 16 0) 0 (replicate 16 0) [].
(** Scan codes of the keys h, i, Enter and of h being released. *)
Definition demo_state : tst :=
  Tst (Kst (FS := xv6_files) demo_frame blank_fs [demo_proc] 8 None (Some 0%nat) 0 0) 0 (Kbd 0 [0x23; 0x17; 0x1C; 0xA3]) [] false.

Lemma trap_returns_alive_witness : exists t', trap 0 0 0 (page 3) demo_state = Ret (Returns, t') /\
  from_user (page 3) (mach (kern demo_state)) /\ alive t'.
Proof.
  destruct (trap 0 0 0 (page 3) demo_state) as [[[] t']| | | |] eqn:E; try (by vm_compute in E).
  assert (from_user (page 3) (mach (kern demo_state))) as H.
  { left. eexists. vm_compute. reflexivity. }
  exists t'. split; [done|]. split; [exact H|]. exact (proj1 (trap_returns_alive 0 0 0 (page 3) demo_state t') E H).
Defined.

Lemma kbdintr_handles_witness : exists keys t', kbdintr 0 demo_state = Ret ((), t') /\ Forall byte keys /\
  input_ok (cons_in (fsys (kern t'))) /\ screen_ok (scr (fsys (kern t'))).
Proof.
  destruct blank_fs_ok as (H1 & H2 & _).
  destruct (kbdintr_handles 0 demo_state) as (keys & t' & Hr & Hk & _ & _ & Hi & Hs & _); [|exact H1|exact H2|].
  - unfold byte. apply (bool_decide_unpack _). vm_compute. reflexivity.
  - exists keys, t'. exact (conj Hr (conj Hk (conj Hi Hs))).
Defined.
