(* ===== verification/MemoryExamples.v ===== *)
(** * The theorems on memory at concrete machines *)

From stdpp Require Import base numbers list gmap strings sorting.
From S2P Require Import Prelude Machine CString Kalloc Vm PageTable VmMap VmUser VmAlloc VmFree.
From S2P Require Import VmKernel VmCopy VmAccess Shared MemoryTheorems Demo.
Open Scope Z_scope.

Lemma kfree_kalloc_witness :
  wp (_ ← kfree (page 10); kalloc) (demo_blank 3) (fun r s' =>
    r = page 10 /\ kmem_inv s' (demo_free 3) /\
    frame {[page 10]} (mem (demo_blank 3)) (mem s') /\ cr3 s' = cr3 (demo_blank 3)).
Proof.
  apply (kfree_kalloc (demo_blank 3) (demo_free 3) (page 10)).
  - apply kmem_invb_sound. vm_compute. reflexivity.
  - apply valid_pageb_sound. vm_compute. reflexivity.
  - apply (bool_decide_eq_true_1 _). vm_compute. reflexivity.
Defined.

Lemma freerange_frees_witness :
  wp (freerange (ld_end + 5) (page 3)) (machine_with ∅ []) (fun _ s' => exists l', kmem_inv s' l' /\
    (forall q, q ∈ l' <-> q ∈ [] \/ (q mod PGSIZE = 0 /\ ld_end + 5 <= q /\ q + PGSIZE <= page 3)) /\
    frame (list_to_set l') (mem (machine_with ∅ [])) (mem s')).
Proof.
  apply (freerange_frees (machine_with ∅ []) [] (ld_end + 5) (page 3)).
  - apply kmem_invb_sound. vm_compute. reflexivity.
  - vm_compute. discriminate.
  - vm_compute. discriminate.
  - vm_compute. discriminate.
  - intros q Hq. destruct (not_elem_of_nil q Hq).
Defined.

Lemma memmove_overlap_witness :
  wp (memmove (KERNBASE + 100) (KERNBASE + 98) 10) (demo_blank 3) (fun _ s' =>
    (forall i, 0 <= i < 10 ->
       ld8 (mem s') (KERNBASE + 100 + i) = ld8 (mem (demo_blank 3)) (KERNBASE + 98 + i)) /\
    (forall b, ~ KERNBASE + 100 <= b < KERNBASE + 100 + 10 ->
       ld8 (mem s') b = ld8 (mem (demo_blank 3)) b)).
Proof. apply memmove_overlap; unfold ram_range; lia. Defined.

Lemma mappages_maps_witness :
  wp (mappages demo_dir 0x1000 8192 0x200000 6) (demo_blank 3) (fun r s' => exists l',
    pt_extend (demo_blank 3) (demo_free 3) s' l' demo_dir /\
    ((r = 0 /\ mapped (mem (demo_blank 3)) (mem s') demo_dir (page_of 0x1000)
                 (npages 0x1000 8192) 0x200000 6) \/ (r = -1 /\ l' = []))).
Proof.
  apply (mappages_maps (demo_blank 3) (demo_free 3) demo_dir 0x1000 8192 0x200000 6); try lia.
  - apply pt_sepb_sound. vm_compute. reflexivity.
  - vm_compute. discriminate.
  - change (page_of 0x1000) with (0x1000). intros a Ha.
    apply (pages_mapped (mem (demo_blank 3)) demo_dir 0x1000 2 false);
      [reflexivity|vm_compute; reflexivity|lia].
Defined.

Lemma deallocuvm_returns_witness :
  wp (deallocuvm demo_dir 8192 4096) demo_user (fun r s' => r = 4096 /\ exists l', kmem_inv s' l' /\
    l' ≡ₚ user_frames (mem demo_user) demo_dir (PGROUNDUP 4096) 1 ++ demo_user_free /\
    tables (mem s') demo_dir = tables (mem demo_user) demo_dir /\
    unmapped (mem demo_user) (mem s') demo_dir (PGROUNDUP 4096) 1 /\
    frame (tables (mem demo_user) demo_dir ∪
             list_to_set (user_frames (mem demo_user) demo_dir (PGROUNDUP 4096) 1))
      (mem demo_user) (mem s')).
Proof.
  apply (deallocuvm_returns demo_user demo_user_free demo_dir 8192 4096 1); [lia|lia| |].
  - unfold covers. lia.
  - apply user_sepb_sound. vm_compute. reflexivity.
Defined.

Lemma allocuvm_grows_witness :
  wp (allocuvm demo_dir 0 8192) (demo_blank 8) (fun r s' =>
    (r = 8192 /\ exists l',
       alloc_post (demo_blank 8) (demo_free 8) demo_dir (PGROUNDUP 0) (alloc_pages 0 8192) s' l' /\
       user_sep s' l' demo_dir (PGROUNDUP 0) (alloc_pages 0 8192)) \/
    (r = 0 /\ exists l', same_user (demo_blank 8) (demo_free 8) demo_dir [] s' l')).
Proof.
  apply (allocuvm_grows (demo_blank 8) (demo_free 8) demo_dir 0 8192); [lia|lia| |].
  - apply pt_sepb_sound. vm_compute. reflexivity.
  - intros va Hva. apply (pages_mapped (mem (demo_blank 8)) demo_dir 0 2 false);
      [reflexivity|vm_compute; reflexivity|lia].
Defined.

Lemma demo_user_sep : user_sep demo_user demo_user_free demo_dir 0 shared_pages.
Proof.
  apply (user_sep_all _ _ _ 2).
  - apply user_sepb_sound. vm_compute. reflexivity.
  - vm_compute. reflexivity.
  - apply shared_pages_ok.
Qed.

Lemma freevm_returns_witness :
  wp (freevm demo_dir) demo_user (fun _ s' => exists l', kmem_inv s' l' /\
    l' ≡ₚ demo_dir :: tabs (mem demo_user) demo_dir 0 1024 ++
           user_frames (mem demo_user) demo_dir 0 shared_pages ++ demo_user_free /\
    forall b, page_of b ∉ space (mem demo_user) demo_dir shared_pages ->
      ld8 (mem s') b = ld8 (mem demo_user) b).
Proof. apply freevm_returns; [apply shared_pages_ok|apply demo_user_sep]. Defined.

Lemma setupkvm_maps_witness :
  wp setupkvm (demo_blank 8) (fun d s' =>
    (d <> 0 /\ (exists l', new_space (demo_blank 8) (demo_free 8) d shared_pages s' l') /\
     (forall va, 0 <= va < KERNBASE -> mapped_page (mem s') d va = false) /\
     (forall pa, 0 <= pa < PHYSTOP -> mapped_page (mem s') d (P2V pa) = true /\
        uaddr (mem s') d (P2V pa) = P2V pa /\ flag_set (pte (mem s') d (P2V pa)) PTE_U = false)) \/
    (d = 0 /\ returned (demo_blank 8) (demo_free 8) s')).
Proof.
  apply setupkvm_maps; [apply shared_pages_ok|]. apply kmem_invb_sound. vm_compute. reflexivity.
Defined.

Lemma demo_user_mapped va : 0 <= va < Z.of_nat 2 * PGSIZE ->
  mapped_page (mem demo_user) demo_dir va = true.
Proof.
  intros Hva. apply (pages_mapped (mem demo_user) demo_dir 0 2 true);
    [reflexivity|vm_compute; reflexivity|done].
Qed.

Lemma copyuvm_copies_witness :
  wp (copyuvm demo_dir 8192) demo_user (fun d s' =>
    (d <> 0 /\ (exists l', new_space demo_user demo_user_free d shared_pages s' l') /\
     (forall va, 0 <= va < Z.of_nat 2 * PGSIZE ->
        mapped_page (mem s') d va = true /\
        PTE_FLAGS (pte (mem s') d va) = PTE_FLAGS (pte (mem demo_user) demo_dir va) /\
        ld8 (mem s') (uaddr (mem s') d va) = ld8 (mem demo_user) (uaddr (mem demo_user) demo_dir va) /\
        uframe (mem s') d va ∈ demo_user_free) /\
     (forall va, 0 <= va < Z.of_nat 2 * PGSIZE ->
        pte (mem s') demo_dir va = pte (mem demo_user) demo_dir va /\
        ld8 (mem s') (uaddr (mem demo_user) demo_dir va) =
        ld8 (mem demo_user) (uaddr (mem demo_user) demo_dir va))) \/
    (d = 0 /\ returned demo_user demo_user_free s')).
Proof.
  apply copyuvm_copies; [apply shared_pages_ok|lia|unfold covers; lia| |apply demo_user_mapped].
  apply user_sepb_sound. vm_compute. reflexivity.
Defined.

Lemma demo_pages a : 0 <= a < 8192 ->
  uframe (mem demo_user) demo_dir a = (if a <? 4096 then page 1 else page 3) /\
  user_page (mem demo_user) demo_dir a = true.
Proof.
  intros Ha. assert (page_of a = 0 /\ (a <? 4096) = true \/ page_of a = 4096 /\ (a <? 4096) = false)
    as Hpg by lia.
  unfold user_page, mapped_page, uframe. rewrite (pte_page _ _ a (page_of a)) by lia.
  destruct Hpg as [[-> ->]|[-> ->]]; vm_compute; split; reflexivity.
Qed.

Lemma demo_copyout_ok : copyout_ok (mem demo_user) demo_dir 4090 (page 30) 10.
Proof.
  split.
  - apply wf_pgdirb_sound. vm_compute. reflexivity.
  - lia.
  - unfold ram_range, page. lia.
  - intros a Ha. apply demo_pages. lia.
  - intros a Ha. destruct (demo_pages a ltac:(lia)) as [-> _]. destruct (a <? 4096).
    + split; [apply valid_pageb_sound|apply not_pgdir_page]; vm_compute; reflexivity.
    + split; [apply valid_pageb_sound|apply not_pgdir_page]; vm_compute; reflexivity.
  - intros a b Ha Hb. destruct (demo_pages a ltac:(lia)) as [-> _].
    destruct (demo_pages b ltac:(lia)) as [-> _]. unfold page.
    destruct (Z.ltb_spec a 4096), (Z.ltb_spec b 4096); lia.
  - intros a i Ha Hi. destruct (demo_pages a ltac:(lia)) as [-> _]. unfold page.
    destruct (a <? 4096); lia.
Qed.

Lemma copyout_copies_witness :
  wp (copyout demo_dir 4090 (page 30) 10) demo_user (fun r s' => r = 0 /\
    (forall i, 0 <= i < 10 -> ld8 (mem s') (uaddr (mem s') demo_dir (4090 + i)) =
       ld8 (mem demo_user) (page 30 + i)) /\
    (forall a, pte (mem s') demo_dir a = pte (mem demo_user) demo_dir a) /\
    (forall b, (forall i, 0 <= i < 10 -> b <> uaddr (mem demo_user) demo_dir (4090 + i)) ->
       ld8 (mem s') b = ld8 (mem demo_user) b)).
Proof. apply copyout_copies, demo_copyout_ok. Defined.

Lemma copyout_refuses_witness :
  copyout demo_dir 12288 (page 30) 10 demo_user = Ret (-1, demo_user).
Proof.
  apply copyout_refuses; [|lia|lia| |].
  - apply wf_pgdirb_sound. vm_compute. reflexivity.
  - vm_compute. reflexivity.
  - vm_compute. reflexivity.
Defined.

Lemma uva2ka_null_witness : uva2ka demo_dir 0x400000 demo_user = Fault 0.
Proof.
  apply uva2ka_null.
  - apply wf_pgdirb_sound. vm_compute. reflexivity.
  - vm_compute. reflexivity.
  - vm_compute. reflexivity.
Defined.







(** A structure of two pages whose second page needs a new page table, with
    one free page left: the call fails, and the parent's first page, which
    it still maps, is on the free list. *)
Definition one_page_left : machine := set_freelist (page 59) (state_of (store32 (page 59) 0) demo_user).

Lemma share_frees_parent_frame :
  match share_pages 3 demo_dir demo_child (SHAREDBASE + 0x3ff000) 8192 (SHAREDBASE + 0x3ff000) 0 0 one_page_left with
  | Ret (r, s') => (r =? -1) && (freelist s' =? uframe (mem one_page_left) demo_dir 0) && mapped_page (mem s') demo_dir 0
  | _ => false
  end = true.
Proof. vm_compute. reflexivity. Qed.
