(* ===== verification/ProcessExamples.v ===== *)
(** * The process theorems at work

    A kernel with two processes, [init] and a running child of it that is
    about to call [share_data] or [get_data], and the file system of
    [FsDemo.v]: both processes are in the root directory, the child has an
    unlinked file and the read end of a pipe open. *)

From stdpp Require Import base numbers list gmap strings sorting.
From S2P Require Import Prelude Machine CString CStringSpec Kalloc Vm PageTable VmMap VmUser.
From S2P Require Import VmAlloc VmFree VmKernel VmCopy VmAccess Shared FileSys Proc Syscall.
From S2P Require Import FsState Fs Console FsInv FsTx Sysfile FilesOk Refs SyscallSpec ProcSpec.
From S2P Require Import Ownership Growth Lifecycle.
From S2P Require Import Demo FsDemo ProcessTheorems.
Open Scope Z_scope.

#[local] Existing Instance xv6_devsw.

(** ** Deciding the ownership invariant *)

(** The pages of a process, computed below its size. *)
Definition pages_below (m : gmap Z Z) (p : proc) : list Z :=
  if decide (state p = UNUSED) then []
  else kstack p :: pgdir p :: tabs m (pgdir p) 0 1024 ++ user_frames m (pgdir p) 0 (npg p).

Definition proc_okb (m : gmap Z Z) (p : proc) : bool :=
  wf_pgdirb m (pgdir p) && (0 <=? sz p) && (sz p <? SHAREDBASE) &&
  forallb (fun va => Bool.eqb (mapped_page m (pgdir p) va) true) (pages 0 (npg p)) &&
  highb m (pgdir p) (npg p) &&
  forallb (fun va => flag_set (pte m (pgdir p) va) PTE_W) (pages 0 (npg p)) &&
  valid_pageb (kstack p) && (tf p =? kstack p + PGSIZE - SIZEOF_TF).

Lemma proc_okb_sound m p : proc_okb m p = true ->
  proc_ok m p /\ proc_pages shared_pages m p = pages_below m p.
Proof.
  unfold proc_okb. rewrite !andb_true_iff.
  intros (((((((H1 & H2) & H3) & H4) & H5) & H6) & H7) & H8).
  assert (Z.of_nat (npg p) * PGSIZE = PGROUNDUP (sz p)) as Hnp by (unfold npg; lia).
  pose proof (highb_sound _ _ _ H5) as Hhigh. rewrite Hnp in Hhigh.
  pose proof (valid_pageb_sound _ H7) as Hv. pose proof (valid_page_ram _ Hv) as Hr. destruct Hv as [Hal _].
  split.
  - split; [by apply wf_pgdirb_sound|lia| |done| |].
    + intros va Hva. apply (pages_mapped _ _ 0 (npg p) true); [done|done|lia].
    + intros va Hva. rewrite forallb_forall in H6. rewrite (pte_page m _ va (page_of va)) by lia.
      apply H6, list_elem_of_In, elem_of_pages; lia.
    + unfold ram_range, SIZEOF_TF in *. split; [lia|]. intros j Hj. lia.
  - unfold proc_pages, pages_below. destruct (decide (state p = UNUSED)); [done|]. unfold space.
    rewrite (user_frames_low _ shared_pages_ok m _ (npg p)); [done| |by rewrite Hnp].
    apply (npg_pages _ shared_pages_ok p). lia.
Qed.

Definition pages_of (k : kst) (l : list Z) : list Z :=
  concat (pages_below (mem (mach k)) <$> ptable k) ++ fs_pages (fsys k) ++ l.

Definition own_invb (k : kst) (l : list Z) : bool :=
  kmem_invb (mach k) l &&
  forallb (fun p => bool_decide (state p = UNUSED) || proc_okb (mem (mach k)) p) (ptable k) &&
  bool_decide (NoDup (pages_of k l)) &&
  forallb valid_pageb (pages_of k l) &&
  forallb (fun p => (length (p_shared p) =? SHAREDCOUNT)%nat) (ptable k).

Lemma own_invb_sound k l : own_invb k l = true -> own_inv shared_pages k (pages_of k l) l.
Proof.
  unfold own_invb. rewrite !andb_true_iff, !forallb_forall, bool_decide_eq_true.
  intros ((((H1 & H2) & H3) & H4) & H5).
  assert (forall i p, ptable k !! i = Some p -> state p <> UNUSED ->
    proc_ok (mem (mach k)) p /\ proc_pages shared_pages (mem (mach k)) p = pages_below (mem (mach k)) p) as Hok.
  { intros i p Hp Hu. apply proc_okb_sound. specialize (H2 p).
    rewrite bool_decide_eq_false_2 in H2 by done. apply H2, list_elem_of_In. by eapply list_elem_of_lookup_2. }
  split; [by apply kmem_invb_sound| |done| | |].
  - unfold pages_of. f_equiv. unfold owned.
    erewrite list_fmap_ext; [done|]. intros i p Hp. destruct (decide (state p = UNUSED)) as [Hu|Hu].
    + unfold proc_pages, pages_below. by rewrite !decide_True.
    + by apply (Hok i).
  - apply Forall_forall. intros p Hp. apply valid_pageb_sound, H4. by apply list_elem_of_In.
  - intros i p Hp Hu. by apply (Hok i).
  - intros i p Hp. specialize (H5 p). apply Nat.eqb_eq, H5, list_elem_of_In. by eapply list_elem_of_lookup_2.
Qed.

(** ** The kernel *)

Definition init_dir : Z := page 50.
Definition demo_spaces : machine :=
  state_of (_ ← allocuvm demo_dir 0 8192; allocuvm init_dir 0 4096) (machine_with ∅ (demo_free 12)).
Definition demo_spaces_free : list Z := page <$> [6; 7; 8; 9; 10; 11; 12].

(** The child's trap frame and the arguments of its call: the name at 100,
    the pointer 200 and the size 50; [nm] is the address of the name. *)
Definition demo_tf : Z := page 40 + PGSIZE - SIZEOF_TF.
Definition demo_call (nm : Z) : machine :=
  state_of (_ ← store32 (demo_tf + TF_ESP) 0x1f00;
            _ ← store32 0x1f04 nm; _ ← store32 0x1f08 200; _ ← store32 0x1f0c 50; store8 100 97)
    (set_cr3 (V2P demo_dir) demo_spaces).

Definition blank_table : list shared := replicate SHAREDCOUNT no_shared.
Definition no_files : list Z := replicate 16 0.
(** Descriptors 0 and 1 are the file and the pipe. *)
Definition child_files : list Z := [1; 2] ++ replicate 14 0.
Definition no_name : list Z := replicate 16 0.
Definition unused_proc : proc :=
  Proc 0 0 0 0 UNUSED 0 None 0 0 0 0 no_files 0 no_name blank_table.
Definition init_proc : proc :=
  Proc 4096 init_dir 0 (page 41) SLEEPING 1 None (page 41 + PGSIZE - SIZEOF_TF) 0
    (proc_addr (Some 0%nat)) 0 no_files 1 no_name blank_table.
Definition child_proc : proc :=
  Proc 8192 demo_dir init_dir (page 40) RUNNING 2 (Some 0%nat) demo_tf 0 0 0 child_files 1 no_name blank_table.
Definition demo_table : list proc := init_proc :: child_proc :: replicate 62 unused_proc.
Definition demo_kernel (nm : Z) : kst := Kst (demo_call nm) demo_fs demo_table 3 (Some 0%nat) (Some 1%nat) 0 0.

Lemma demo_used i p : demo_table !! i = Some p -> state p <> UNUSED ->
  (i = 0%nat /\ p = init_proc) \/ (i = 1%nat /\ p = child_proc).
Proof.
  destruct i as [|[|i]]; cbn [lookup list_lookup demo_table]; [intros [= <-]; auto..|].
  intros [-> _]%lookup_replicate. done.
Qed.

Lemma demo_own : own_inv shared_pages (demo_kernel 100) (pages_of (demo_kernel 100) demo_spaces_free) demo_spaces_free.
Proof. apply own_invb_sound. vm_compute. reflexivity. Qed.

Lemma demo_own_empty : own_inv shared_pages (demo_kernel 300) (pages_of (demo_kernel 300) demo_spaces_free) demo_spaces_free.
Proof. apply own_invb_sound. vm_compute. reflexivity. Qed.

Lemma demo_refs nm : ref_inv (demo_kernel nm).
Proof.
  split.
  - cbn [demo_kernel ptable fsys]. assert (files demo_table = [1; 2] /\ dirs demo_table = [1; 1]) as [-> ->] by (vm_compute; done).
    split; [repeat constructor|]. split; [repeat constructor|]. exists 2, 30. exact demo_fs_inv.
  - intros i p Hp. destruct (decide (state p = UNUSED)) as [Hu|Hu].
    + destruct i as [|[|i]]; cbn [lookup list_lookup demo_kernel ptable demo_table] in Hp; [injection Hp as <-; done..|]. apply lookup_replicate in Hp as [-> _]. split; [done|by intros [? _]|done].
    + destruct (demo_used i p Hp Hu) as [[_ ->]|[_ ->]]; (split; [done|done|intros []; by split]).
Qed.

Lemma demo_sys_inv nm : own_inv shared_pages (demo_kernel nm) (pages_of (demo_kernel nm) demo_spaces_free) demo_spaces_free ->
  cr3 (demo_call nm) = V2P demo_dir ->
  sys_inv shared_pages 0 (demo_kernel nm) (pages_of (demo_kernel nm) demo_spaces_free) demo_spaces_free.
Proof.
  intros Hown Hcr. split; [exact Hown|exact (demo_refs nm)|clear Hown Hcr|clear Hown Hcr|clear Hown Hcr|clear Hown|clear Hown Hcr|clear Hown Hcr];
    cbn [demo_kernel initproc ptable curproc nextpid mach].
  - split; [done|]. exists init_proc. by split_and!.
  - intros i p Hp Hu Hi. destruct (demo_used i p Hp Hu) as [[-> ->]|[-> ->]]; [done|].
    exists 0%nat, init_proc. by split_and!.
  - intros i p Hp Hs. destruct (demo_used i p Hp ltac:(congruence)) as [[-> ->]|[-> ->]]; done.
  - intros c [= <-]. exists child_proc. split; [reflexivity|]. split; [discriminate|exact Hcr].
  - intros i p Hp Hu. destruct (demo_used i p Hp Hu) as [[-> ->]|[-> ->]]; cbn; lia.
  - intros i j p q Hp Hq Hu Hv. destruct (demo_used i p Hp Hu) as [[-> ->]|[-> ->]],
      (demo_used j q Hq Hv) as [[-> ->]|[-> ->]]; done.
Qed.

Lemma demo_sys : sys_inv shared_pages 0 (demo_kernel 100) (pages_of (demo_kernel 100) demo_spaces_free) demo_spaces_free.
Proof. apply demo_sys_inv; [apply demo_own|vm_compute; reflexivity]. Qed.

Lemma demo_running : running (demo_kernel 100) 1 child_proc.
Proof. exact (own_running _ shared_pages_ok _ _ _ _ _ _ demo_sys eq_refl eq_refl). Qed.

Lemma demo_running_empty : running (demo_kernel 300) 1 child_proc.
Proof.
  eapply (own_running _ shared_pages_ok 0); [|done|done].
  apply demo_sys_inv; [apply demo_own_empty|vm_compute; reflexivity].
Qed.

Lemma child_live : live child_proc.
Proof. split; discriminate. Qed.

Lemma demo_can_fork : can_fork (demo_kernel 100) 1 child_proc demo_spaces_free shared_pages 2.
Proof. exact (own_can_fork _ shared_pages_ok _ _ _ _ _ demo_own eq_refl eq_refl child_live). Qed.

(** ** Shared structures *)

Lemma share_data_behaviour_witness : exists r k', sys_share_data (demo_kernel 100) = Ret (r, k') /\
  (r = 0 \/ r = -2 \/ r = -3 \/ 0 < r).
Proof.
  destruct (share_data_behaviour (demo_kernel 100) 1 child_proc 100 1 200 50 demo_running)
    as (r & k' & Hr & Hc); [vm_compute; reflexivity..|].
  exists r, k'. split; [done|]. destruct Hc as [(i & e & _ & _ & -> & _)|[(-> & _)|(-> & _)]]; lia.
Defined.

Lemma shared_calls_bad_argument_witness : sys_share_data (demo_kernel 100) <> Ret (-1, demo_kernel 100).
Proof.
  intros H. apply (shared_calls_bad_argument _ _ _ demo_running) in H as [H|[H|H]]; vm_compute in H; discriminate.
Defined.

Lemma get_data_behaviour_witness : wp sys_get_data (demo_kernel 100) (fun r _ => r = 0 \/ r = -2).
Proof.
  eapply wp_mono; [apply (get_data_behaviour (demo_kernel 100) 1 child_proc 100 1 200 demo_running);
    vm_compute; reflexivity|].
  intros r k' [[-> _]|[-> _]]; auto.
Defined.

Definition demo_entry : shared := Shared (stored_name [97]) 200 50.
Definition demo_reported : kst := share_set (demo_kernel 100) 1 child_proc 0 demo_entry.

Lemma demo_reports : sys_share_data (demo_kernel 100) = Ret (0, demo_reported).
Proof.
  rewrite (sys_share_data_run (demo_kernel 100) 1 child_proc demo_running).
  assert (str_arg (demo_kernel 100) child_proc 0 = Some (100, 1)) as -> by (vm_compute; reflexivity).
  assert (ptr_arg (demo_kernel 100) child_proc 1 4 = Some 200) as -> by (vm_compute; reflexivity).
  assert (int_arg (demo_kernel 100) child_proc 2 = Some 50) as -> by (vm_compute; reflexivity).
  assert (uname (demo_kernel 100) child_proc 100 = [97]) as -> by (vm_compute; reflexivity).
  assert (share_find [97] 0 (p_shared child_proc) = inr 0%nat) as -> by (vm_compute; reflexivity).
  exact eq_refl.
Qed.

Lemma share_then_get_witness : sys_share_data (demo_kernel 100) = Ret (0, demo_reported) /\
  wp sys_get_data demo_reported (fun v k3 => v = 0 /\ uword (mem (mach k3)) demo_dir 200 = 200).
Proof.
  split; [exact demo_reports|].
  destruct (share_then_get (demo_kernel 100) 1 child_proc 100 1 200 0 demo_reported demo_running)
    as (p' & Hp' & Hget); [vm_compute; reflexivity|vm_compute; reflexivity|exact demo_reports|lia|].
  pose proof (share_set_running _ _ _ 0 demo_entry demo_running) as Hrun.
  fold demo_reported in Hrun. rewrite (run_proc _ _ _ Hrun) in Hp'. apply (inj Some) in Hp'. subst p'.
  destruct (Hget demo_reported 1%nat _ 100 1 200 Hrun eq_refl) as [Hsame _]; [vm_compute; reflexivity..|].
  eapply wp_mono; [apply Hsame; vm_compute; reflexivity|]. intros v k3 Hv. exact Hv.
Defined.

Lemma get_data_empty_name_witness : wp sys_get_data (demo_kernel 300) (fun r k' => r = 0 /\
  uword (mem (mach k')) demo_dir 200 = 0).
Proof.
  apply (get_data_empty_name (demo_kernel 300) 1 child_proc 300 0 200 no_shared (replicate 9 no_shared)
    demo_running_empty); vm_compute; reflexivity.
Defined.

(** ** Processes *)

Lemma fork_copies_witness : wp fork (demo_kernel 100) (fun r k' => r = -1 \/
  r = 3 /\ exists i p', ptable k' !! i = Some p' /\ pid p' = 3 /\ parent p' = Some 1%nat /\ sz p' = 8192 /\ ofile p' = child_files).
Proof.
  eapply wp_mono; [exact (fork_copies _ _ _ _ _ _ demo_can_fork (demo_refs 100))|]. cbv beta.
  intros r k' [_ [[-> _]|(-> & i & p & p' & l' & _ & Hp' & _ & _ & Hpid & Hpar & Hsz & _ & Hof & _)]]; [by left|right].
  split; [done|]. by exists i, p'.
Defined.

Lemma fork_stale_shared_witness : wp fork (demo_kernel 100) (fun r k' => r = -1 \/
  exists i p p', first_unused (demo_kernel 100) i p /\ ptable k' !! i = Some p' /\
    state p' = RUNNABLE /\ p_shared p' = p_shared p).
Proof.
  exact (fork_stale_shared _ _ _ _ _ _ no_shared (replicate 9 no_shared) demo_can_fork (demo_refs 100) eq_refl eq_refl).
Defined.

Lemma kill_zero_witness : wp (r ← kill 0; o ← allocproc; mret (r, o)) (demo_kernel 100) (fun '(r, o) k' =>
  r = 0 /\ (o = None \/ exists q, o = Some 2%nat /\ ptable k' !! 2%nat = Some q /\
    state q = EMBRYO /\ killed q = 1)).
Proof.
  apply (kill_zero (demo_kernel 100) demo_spaces_free 2 unused_proc); [apply demo_own|reflexivity|reflexivity|].
  intros [|[|j]] q Hj; cbn; [intros [= <-]..|lia]; discriminate.
Defined.

Lemma demo_is_running : is_running (demo_kernel 100) 1 child_proc.
Proof. done. Qed.

Lemma kernel_step_safe_witness : exists k' l', handler EFork (demo_kernel 100) = Ret ((), k') /\
  sys_inv shared_pages 0 k' (pages_of (demo_kernel 100) demo_spaces_free) l'.
Proof.
  apply (kernel_step_safe _ shared_pages_ok 0 _ _ _ EFork demo_sys).
  split; [|done]. exists 1%nat, child_proc. apply demo_is_running.
Defined.

(** The child yields and the CPU goes back to the scheduler. *)
Definition demo_yielded : kst := state_of (handler EYield) (demo_kernel 100).
Definition demo_idle : kst := state_of (handler EBack) demo_yielded.

Lemma demo_run : run (demo_kernel 100) [EYield; EBack] demo_idle.
Proof.
  eapply (run_cons _ _ demo_yielded); [by exists 1%nat, child_proc|done|].
  eapply (run_cons _ _ demo_idle); [by exists 1%nat, (set_state RUNNABLE child_proc)|done|]. constructor.
Qed.

Lemma kernel_run_invariant_witness : exists l', kmem_inv (mach demo_idle) l' /\
  owned shared_pages (mem (mach demo_idle)) (ptable demo_idle) ++ [pipe_page] ++ l' ≡ₚ
    pages_of (demo_kernel 100) demo_spaces_free.
Proof.
  destruct (kernel_run_invariant _ shared_pages_ok _ _ _ _ _ _ demo_sys demo_run) as (l' & H1 & H2 & _).
  exists l'. split; [exact H1|exact H2].
Defined.

Lemma exit_behaviour_witness : wp exit (demo_kernel 100) (fun _ k' =>
  exists q p', ptable k' !! 1%nat = Some q /\ state q = ZOMBIE /\
    ptable k' !! 0%nat = Some p' /\ state p' = RUNNABLE).
Proof.
  eapply wp_mono; [exact (exit_behaviour _ shared_pages_ok _ _ _ _ _ _ demo_sys demo_is_running ltac:(done))|].
  cbv beta. intros [] k' ((q & Hq & Hz & _) & _ & Hoth & _).
  destruct (Hoth 0%nat init_proc ltac:(done) eq_refl) as (p' & Hp' & _ & _ & _ & _ & Hw).
  exists q, p'. split_and!; [done|done|done|]. by apply Hw.
Defined.

Lemma wait_behaviour_witness : wp wait (demo_kernel 100) (fun r _ => r = Some (-1) \/ r = None \/
  exists i p, ptable (demo_kernel 100) !! i = Some p /\ state p = ZOMBIE /\ r = Some (pid p)).
Proof.
  eapply wp_mono; [exact (wait_behaviour _ shared_pages_ok _ _ _ _ _ demo_own eq_refl eq_refl)|].
  cbv beta. intros r k' [(i & p & s' & l' & Hp & _ & Hz & -> & _)|[[-> _]|[-> _]]];
    [right; right; by exists i, p|by left|right; by left].
Defined.

Lemma growproc_behaviour_witness :
  wp (growproc 4096) (demo_kernel 100) (fun r k' =>
    r = -1 \/ r = 0 /\ exists p', ptable k' !! 1%nat = Some p' /\ sz p' = 12288 /\
      forall va, 8192 <= va < 12288 -> ubyte (mem (mach k')) demo_dir va = 0) /\
  wp (growproc (-8192)) (demo_kernel 100) (fun r k' => r = -1 /\ mapped_page (mem (mach k')) demo_dir 0 = false).
Proof.
  split; [eapply wp_mono; [exact (growproc_behaviour _ shared_pages_ok _ _ _ _ _ 4096 demo_own eq_refl eq_refl
    ltac:(done) ltac:(lia))|]|eapply wp_mono; [exact (growproc_behaviour _ shared_pages_ok _ _ _ _ _ (-8192) demo_own eq_refl eq_refl
    ltac:(done) ltac:(lia))|]]; cbv beta.
  2: { intros r k'. rewrite decide_True by done. intros (-> & _ & Hun & _). split; [done|]. by apply Hun. }
  intros r k'. rewrite decide_False by (intros [? _]; lia).
  intros [_ [(-> & p' & Hp' & Hsz & _ & _ & Hz)|[-> _]]]; [right|by left].
  split; [done|]. exists p'. split; [done|]. split; [exact Hsz|].
  intros va Hva. apply Hz. rewrite Hsz. change (PGROUNDUP (sz child_proc)) with 8192.
  change (PGROUNDUP _) with 12288. done.
Defined.

